(* ===== verification/_CoqProject ===== *)
-Q . S2P
Prelude.v
CircBuf.v
DvbRing.v
Ringbuffy.v
DmxBuffer.v
DemuxTypes.v
SwFilter.v
SectionAssembly.v
SwStream.v
DemuxApi.v
DemuxInv.v
DemuxLife.v
Pes2Ts.v
Dmxdev.v
DmxdevProps.v
MpegIO.v
TsPacket.v
PesPacket.v
PsPacket.v
TransFilt.v
Md5Spec.v
Md5.v
Md5Block.v
Md5Digest.v
Transform.v
PToT.v
P2t.v
Crc.v
Dvbdev.v
Frontend.v
