(* ===== verification/Prelude.v ===== *)
(** * Verification of the DVB data path of the Commando set-top-box sources

    The repository holds the software of a digital television receiver: kernel
    drivers, MPEG libraries, tuners' tools and two user interfaces.  This development
    models the part that carries and transforms the broadcast data, which is
    written in C: the DVB core of the kernel driver
    (src/driver/dvb/drivers/media/dvb/dvb-core, "D/" below), the MPEG library
    (src/apps/misc/libs/libmpegtools, "M/") and the MD5 library
    (src/apps/misc/libs/libmd5sum).

    ** Parts and how they interact

    A frontend (D/dvb_frontend.c) tunes to a transponder; the transport stream that
    it receives is given by the hardware to the demultiplexer (D/dvb_demux.c), which
    hands packets to its TS feeds and collects sections for its section feeds.  The
    demultiplexer device (D/dmxdev.c) is a client of these feeds: it keeps what they
    deliver in ring buffers for the readers of the device files, which the registry
    (D/dvbdev.c) finds by their minor numbers.  Programs take the streams
    apart and build others with libmpegtools.

    ** Files

    - [Prelude]: machine integers ([u8], [u16], [u32] of a [Z]), the monad [outcome] of
      C code ([Ret]; [Crash]: an access outside a buffer or of a null pointer; [Hang]: it
      never returns), buffers as lists of bytes with checked [load], [read_at],
      [write_at] and [memcpy], and lemmas and tactics ([next]) on them.
    - [CircBuf]: what the three ring buffers share, and the queue that they implement.
      [DvbRing]: D/dvb_ringbuffer.c; [Ringbuffy]: M/ringbuffy.c; [DmxBuffer]: the
      receive buffer of D/dmxdev.c.
    - [DemuxTypes], [SwFilter]: the structures of D/dvb_demux.h and the way of a packet
      through D/dvb_demux.c, one definition per C function, loops as fixpoints on the
      number of turns that are left.  [SectionAssembly], [SwStream]: their theorems.
    - [DemuxApi]: the calls that manage feeds and filters (D/dvb_demux.c); [DemuxInv]:
      what a prepared filter accepts; [DemuxLife]: the invariant of these calls.
    - [Dmxdev], [DmxdevProps]: D/dmxdev.c.
    - [Dvbdev]: D/dvbdev.c; [Frontend]: D/dvb_frontend.c.  Adapters, devices and
      frontends are cells of heaps ([gmap]s from addresses), so that lists of pointers,
      aliasing and dangling pointers are visible.
    - [Pes2Ts]: D/dvb_filter.c.
    - [MpegIO], [TsPacket], [PesPacket], [PsPacket]: the readers and writers of
      M/ctools.c for transport, PES and pack headers, from memory and from a file.
    - [TransFilt]: the filter of transport streams of M/ctools.c.  [Transform], [PToT],
      [P2t]: time stamps and the conversion of PES to transport packets (M/transform.c,
      M/ctools.c).  [Crc]: the checksum of program tables (M/ctools.c).
    - [Md5Spec]: RFC 1321, with its constants computed from the sine.  [Md5], [Md5Block],
      [Md5Digest]: md5.c and its proof.

    Members, constants and functions have the names of the code, qualified by the file
    where two parts use the same name; a loop or a fragment of a function that is a
    definition of its own is named in the comment before it.

    ** Theorems

    - Functional behaviour: what the section filter accepts, from the bits that a user
      sets to the section he gets ([section_filter_semantics], [user_filter_end_to_end]);
      sections are put together from any cut into packets ([section_reassembled]); the
      turn of the frontend thread, tuning, bending and the zigzag scan.
    - Refinement: each ring buffer is a queue; framing does not depend on how a stream
      is cut into pieces ([swfilter_pieces_stream], [trans_filt_packets]); the events of a
      frontend are a bounded queue with a flag for losses; the file readers agree with
      the memory readers.
    - Invariants: the calls of the demultiplexer keep feeds and filters consistent
      ([demux_api_invariant]); ids and minor numbers are unique; a device file has as many
      users as its counts say; the types of the filter structures.
    - Round trips: transport packets, MPEG-2 PES packets and packs written and read again,
      PES to TS and back, feeds allocated and released.
    - Equivalence with references: MD5 with RFC 1321, the table-driven CRC with polynomial
      division.
    - Termination: loops have a bound on their turns that is proved enough, so that a
      theorem that a call returns never holds for want of fuel; where the code does not
      terminate ([cread_ps], [sec_filter], [release_filter]) that is a theorem too.
    - Errors and overruns: what each error branch leaves behind, and the accesses outside
      a buffer that the code allows.

    ** Bounds and fuel

    Fuel is always computed from the input: the bytes that are left for scans and copies,
    [2 * length + 1] turns for [pes_to_ts], [11] activations for the bending of
    frequencies (the code stops at 10), the adapters that exist for their numbers, the
    descriptors of a table.  [sec_filter] has its depth as an argument and a theorem says
    when some depth suffices.  Lengths are 32-bit ([size_t] of the target) where the code
    wraps; the constants of MD5 come from 120 terms of the series of the sine with 256
    bits.

    ** Not modelled

    Printing, wake-ups, spin locks and delays have no state here; sleeping, signals,
    time, faults of user memory and the functions of drivers are arguments.  The
    demultiplexer is one whose driver leaves the copying of section data and the
    checksum to the core, as [dvb_dmx_init] sets it up (avia_gt_napi.c replaces both).
    In the frontend, sums of frequencies, drifts and bendings that overflow an [int]
    are not described.  Of
    libmpegtools, the remultiplexer (remux.c), the repacking of PES streams and the
    play-out code of ctools.c and transform.c are left for later, as are the I2C
    registry and the other drivers.  The user interfaces (enigma, neutrino, zapit and
    their libraries) are C++ around databases, drawing and network services and are
    not part of this development; the boot loader and the build system hold no code
    of the data path. *)

From stdpp Require Export base tactics numbers list.
From Stdlib Require Export ZArith Lia.

#[export] Set Default Goal Selector "!".
#[global] Open Scope Z_scope.

(** ** Machine integers *)

Definition u8 (x : Z) : Z := x mod 2 ^ 8.
Definition u16 (x : Z) : Z := x mod 2 ^ 16.
Definition u32 (x : Z) : Z := x mod 2 ^ 32.

(** [is_byte b]: the value of an [unsigned char]. *)
Definition is_byte (b : Z) : Prop := 0 <= b < 256.
Definition bytes (l : list Z) : Prop := Forall is_byte l.

(** A C condition [x & m]: some bit of the mask [m] is set in [x]. *)
Definition flag (x m : Z) : bool := negb (Z.land x m =? 0).

(** Error numbers of the kernel interface. *)
Definition EFAULT : Z := 14.
Definition EINVAL : Z := 22.
Definition ENODEV : Z := 19.
Definition EBUSY : Z := 16.
Definition ENOMEM : Z := 12.
Definition ENOSYS : Z := 38.
Definition EUSERS : Z := 87.
Definition EINTR : Z := 4.
Definition ERESTARTSYS : Z := 512.
Definition EWOULDBLOCK : Z := 11.
Definition ETIMEDOUT : Z := 110.
Definition EOVERFLOW : Z := 75.
Definition EMFILE : Z := 24.
Definition EOPNOTSUPP : Z := 95.
Definition POLLIN : Z := 1.
Definition POLLPRI : Z := 2.
Definition POLLOUT : Z := 4.
Definition POLLERR : Z := 8.
Definition POLLRDNORM : Z := 64.
Definition POLLWRNORM : Z := 256.
Definition ENFILE : Z := 23.

(** ** Outcomes of C code

    [Ret a] is normal termination; [Crash] is an access outside a buffer, the
    dereference of a null pointer or another undefined behaviour; [Hang] is a
    call that never returns (a loop that exceeds its fuel, a semaphore that
    nobody will release). *)
Inductive outcome (A : Type) : Type :=
  | Ret (a : A)
  | Crash
  | Hang.
Arguments Ret {A} a.
Arguments Crash {A}.
Arguments Hang {A}.

#[export] Instance outcome_ret : MRet outcome := fun A a => Ret a.
#[export] Instance outcome_bind : MBind outcome := fun A B f m =>
  match m with Ret a => f a | Crash => Crash | Hang => Hang end.

(** [returns m]: the call ends normally. *)
Definition returns {A} (m : outcome A) : Prop := exists a, m = Ret a.

(** ** Buffers

    A C buffer is the list of its bytes; offsets and lengths are C integers. *)
Definition zlen {A} (l : list A) : Z := Z.of_nat (length l).
Definition ztake {A} (n : Z) (l : list A) : list A := take (Z.to_nat n) l.
Definition zdrop {A} (n : Z) (l : list A) : list A := drop (Z.to_nat n) l.

(** [n] cells from offset [o]. *)
Definition sub {A} (l : list A) (o n : Z) : list A := ztake n (zdrop o l).

(** [l] with the cells from offset [o] replaced by [c]. *)
Definition blit {A} (l : list A) (o : Z) (c : list A) : list A :=
  ztake o l ++ c ++ zdrop (o + zlen c) l.

(** Does [n] cells from [o] lie inside [l]? *)
Definition in_range {A} (l : list A) (o n : Z) : bool :=
  (0 <=? o) && (0 <=? n) && (o + n <=? zlen l).

(** [buf[i]] as an rvalue. *)
Definition load (l : list Z) (i : Z) : outcome Z :=
  if in_range l i 1 then Ret (nth (Z.to_nat i) l 0) else Crash.

(** The bytes a [memcpy] reads. *)
Definition read_at (l : list Z) (o n : Z) : outcome (list Z) :=
  if in_range l o n then Ret (sub l o n) else Crash.

(** The bytes a [memcpy] (or an assignment [buf[o] = b]) writes. *)
Definition write_at (l : list Z) (o : Z) (c : list Z) : outcome (list Z) :=
  if in_range l o (zlen c) then Ret (blit l o c) else Crash.

(** [memcpy (dst + doff, src + soff, n)]. *)
Definition memcpy (dst : list Z) (doff : Z) (src : list Z) (soff n : Z)
  : outcome (list Z) :=
  c ← read_at src soff n; write_at dst doff c.

(** Closed arithmetic facts, by evaluation. *)
Ltac concrete := repeat split; vm_compute; first [reflexivity | discriminate].

(** Do all, does some, of [n] consecutive integers from [i] satisfy [p]? *)
Fixpoint all_from (p : Z -> bool) (n : nat) (i : Z) : bool :=
  match n with O => true | S n => p i && all_from p n (i + 1) end.
Fixpoint any_from (p : Z -> bool) (n : nat) (i : Z) : bool :=
  match n with O => false | S n => p i || any_from p n (i + 1) end.

(** ** Record updates: [r <| field := v |>] *)
Class Eta (R : Type) : Type := eta : R -> R.
Class Setter {R T : Type} (proj : R -> T) : Type := set : (T -> T) -> R -> R.
Arguments set {R T} proj {_} _ _.

Ltac solve_setter :=
  match goal with
  | |- @Setter ?R ?T ?proj =>
      let i := constr:(@eta R _) in
      let i := eval cbv beta delta [eta] in i in
      let e := eval red in i in
      match eval pattern proj in e with
      | ?g _ => let s := eval cbv beta in
                  (fun (f : T -> T) (r : R) => g (fun x => f (proj x)) r) in
                exact s
      end
  end.
#[export] Hint Extern 1 (Setter _) => solve_setter : typeclass_instances.

Declare Scope update_scope.
Delimit Scope update_scope with upd.
#[global] Open Scope update_scope.
Notation "r <| f := v |>" := (set f (fun _ => v) r)
  (at level 1, left associativity, f at next level, v at level 200) : update_scope.

(** [buf[i]] read without a bounds check, for specifications. *)
Definition zn (l : list Z) (i : Z) : Z := nth (Z.to_nat i) l 0.

#[global] Arguments zn : simpl never.
#[global] Arguments load : simpl never.
#[global] Arguments read_at : simpl never.
#[global] Arguments write_at : simpl never.
#[global] Arguments memcpy : simpl never.
#[global] Arguments blit : simpl never.
#[global] Arguments sub : simpl never.

(** ** Lengths *)
Create HintDb buf.

Lemma zlen_nonneg {A} (l : list A) : 0 <= zlen l.
Proof. unfold zlen. lia. Qed.

Lemma zlen_nil (A : Type) : zlen (@nil A) = 0.
Proof. reflexivity. Qed.

Lemma zlen_cons {A} (a : A) l : zlen (a :: l) = 1 + zlen l.
Proof. unfold zlen. cbn [length]. lia. Qed.

Lemma zlen_app {A} (l k : list A) : zlen (l ++ k) = zlen l + zlen k.
Proof. unfold zlen. rewrite length_app. lia. Qed.

Lemma zlen_replicate {A} n (a : A) : zlen (replicate n a) = Z.of_nat n.
Proof. unfold zlen. by rewrite length_replicate. Qed.

Lemma zlen_ztake {A} n (l : list A) : 0 <= n <= zlen l -> zlen (ztake n l) = n.
Proof. unfold zlen, ztake. rewrite length_take. lia. Qed.

Lemma zlen_zdrop {A} n (l : list A) : 0 <= n <= zlen l -> zlen (zdrop n l) = zlen l - n.
Proof. unfold zlen, zdrop. rewrite length_drop. lia. Qed.

Lemma zlen_sub {A} (l : list A) o n :
  0 <= o -> 0 <= n -> o + n <= zlen l -> zlen (sub l o n) = n.
Proof.
  intros. unfold sub, ztake, zdrop, zlen in *. rewrite length_take, length_drop. lia.
Qed.

Lemma zlen_blit {A} (l : list A) o c :
  0 <= o -> o + zlen c <= zlen l -> zlen (blit l o c) = zlen l.
Proof.
  intros. pose proof (zlen_nonneg c).
  unfold blit. rewrite !zlen_app, zlen_ztake, zlen_zdrop; lia.
Qed.

Lemma in_range_true {A} (l : list A) o n :
  in_range l o n = true <-> 0 <= o /\ 0 <= n /\ o + n <= zlen l.
Proof. unfold in_range. rewrite !andb_true_iff, !Z.leb_le. lia. Qed.

(** [zsimpl] normalises lengths, leaving linear side conditions to [lia]. *)
Ltac zsimpl :=
  repeat first
    [ rewrite zlen_nil | rewrite zlen_cons | rewrite zlen_app
    | rewrite zlen_replicate
    | rewrite zlen_sub by zside | rewrite zlen_ztake by zside
    | rewrite zlen_zdrop by zside | rewrite zlen_blit by zside ]
with zside := first [ lia | zsimpl; lia ].
Ltac zsimpl_in H :=
  repeat first
    [ rewrite zlen_nil in H | rewrite zlen_cons in H | rewrite zlen_app in H
    | rewrite zlen_replicate in H
    | rewrite zlen_sub in H by zside | rewrite zlen_ztake in H by zside
    | rewrite zlen_zdrop in H by zside | rewrite zlen_blit in H by zside ].

(** ** Slices *)
Lemma sub_0 {A} (l : list A) o : sub l o 0 = [].
Proof. reflexivity. Qed.

Lemma sub_all {A} (l : list A) n : zlen l <= n -> sub l 0 n = l.
Proof.
  intros. unfold sub, ztake, zdrop, zlen in *. cbn [Z.to_nat drop].
  apply take_ge. lia.
Qed.

Lemma sub_from_0 {A} (l : list A) n : sub l 0 n = ztake n l.
Proof. reflexivity. Qed.

Lemma lookup_sub {A} (l : list A) o n i :
  0 <= o -> 0 <= n ->
  sub l o n !! i = if (Z.of_nat i <? n) then l !! (Z.to_nat o + i)%nat else None.
Proof.
  intros. unfold sub, ztake, zdrop. destruct (Z.ltb_spec (Z.of_nat i) n).
  - rewrite lookup_take_lt by lia. apply lookup_drop.
  - apply lookup_take_ge. lia.
Qed.

Lemma lookup_blit {A} (l : list A) o c i :
  0 <= o -> o + zlen c <= zlen l ->
  blit l o c !! i =
    if (Z.of_nat i <? o) then l !! i
    else if (Z.of_nat i <? o + zlen c) then c !! (i - Z.to_nat o)%nat else l !! i.
Proof.
  intros Ho Hc. unfold blit, ztake, zdrop, zlen in *.
  destruct (Z.ltb_spec (Z.of_nat i) o).
  { rewrite lookup_app_l by (rewrite length_take; lia). apply lookup_take_lt. lia. }
  rewrite lookup_app_r by (rewrite length_take; lia). rewrite length_take.
  replace (Z.to_nat o `min` length l)%nat with (Z.to_nat o) by lia.
  destruct (Z.ltb_spec (Z.of_nat i) (o + Z.of_nat (length c))).
  { rewrite lookup_app_l; [done|lia]. }
  rewrite lookup_app_r by lia. rewrite lookup_drop. f_equal. lia.
Qed.

(** Equality of slices and updates, index by index. *)
Ltac zb :=
  repeat match goal with
  | |- context [Z.ltb ?a ?b] => destruct (Z.ltb_spec a b)
  end; try lia; try done.
Ltac by_index :=
  apply list_eq; intros ?i;
  repeat first [rewrite lookup_sub by zside | rewrite lookup_blit by zside];
  zsimpl; zb; try done; try (f_equal; lia).

Lemma sub_split {A} (l : list A) o n m :
  0 <= o -> 0 <= n -> 0 <= m -> sub l o (n + m) = sub l o n ++ sub l (o + n) m.
Proof.
  intros. unfold sub, ztake, zdrop.
  rewrite !Z2Nat.inj_add by lia. rewrite <- drop_drop.
  symmetry. apply take_take_drop.
Qed.

Lemma sub_sub {A} (l : list A) o n a m :
  0 <= o -> 0 <= a -> 0 <= m -> a + m <= n -> sub (sub l o n) a m = sub l (o + a) m.
Proof. intros. by_index. Qed.

Lemma sub_app_l {A} (l k : list A) o n :
  0 <= o -> 0 <= n -> o + n <= zlen l -> sub (l ++ k) o n = sub l o n.
Proof.
  intros. unfold zlen in *. apply list_eq. intros i. rewrite !lookup_sub by lia. zb.
  rewrite lookup_app_l by lia. done.
Qed.

Lemma sub_app_r {A} (l k : list A) o n :
  zlen l <= o -> 0 <= n -> sub (l ++ k) o n = sub k (o - zlen l) n.
Proof.
  intros. unfold zlen in *. apply list_eq. intros i. rewrite !lookup_sub by lia. zb.
  rewrite lookup_app_r by lia. f_equal. lia.
Qed.

Lemma sub_blit_eq {A} (l : list A) o c :
  0 <= o -> o + zlen c <= zlen l -> sub (blit l o c) o (zlen c) = c.
Proof.
  intros. pose proof (zlen_nonneg c).
  apply list_eq; intros i. rewrite lookup_sub, lookup_blit by lia. zb.
  - f_equal. lia.
  - symmetry. apply lookup_ge_None. unfold zlen in *. lia.
Qed.

Lemma sub_blit_before {A} (l : list A) o c a n :
  0 <= a -> 0 <= n -> a + n <= o -> o + zlen c <= zlen l -> sub (blit l o c) a n = sub l a n.
Proof. intros. by_index. Qed.

Lemma sub_blit_after {A} (l : list A) o c a n :
  0 <= o -> 0 <= n -> o + zlen c <= a -> o + zlen c <= zlen l -> sub (blit l o c) a n = sub l a n.
Proof. intros. pose proof (zlen_nonneg c). by_index. Qed.

Lemma blit_nil {A} (l : list A) o : blit l o [] = l.
Proof. unfold blit, ztake, zdrop, zlen. cbn. rewrite Z.add_0_r. apply take_drop. Qed.

Lemma blit_blit {A} (l : list A) o c d :
  0 <= o -> o + zlen c + zlen d <= zlen l ->
  blit (blit l o c) (o + zlen c) d = blit l o (c ++ d).
Proof.
  intros. pose proof (zlen_nonneg c). pose proof (zlen_nonneg d).
  apply list_eq; intros i. rewrite !lookup_blit by zside. zsimpl.
  unfold zlen in *. zb; try done.
  - rewrite lookup_app_l by lia. done.
  - rewrite lookup_app_r by lia. f_equal. lia.
Qed.

(** ** Single bytes *)
Lemma zn_lookup l i : zn l i = default 0 (l !! Z.to_nat i).
Proof. apply nth_lookup. Qed.

Lemma zn_sub l o n i : 0 <= o -> 0 <= i < n -> zn (sub l o n) i = zn l (o + i).
Proof. intros. rewrite !zn_lookup, lookup_sub by lia. zb. do 2 f_equal. lia. Qed.

Lemma zn_app_l l k i : 0 <= i < zlen l -> zn (l ++ k) i = zn l i.
Proof. intros. unfold zlen in *. rewrite !zn_lookup, lookup_app_l by lia. done. Qed.

Lemma zn_app_r l k i : zlen l <= i -> zn (l ++ k) i = zn k (i - zlen l).
Proof. intros. unfold zlen in *. rewrite !zn_lookup, lookup_app_r by lia. do 2 f_equal. lia. Qed.

Lemma zn_cons a l i : 0 < i -> zn (a :: l) i = zn l (i - 1).
Proof. intros. change (a :: l) with ([a] ++ l). rewrite zn_app_r; [done|]. zsimpl. lia. Qed.

Lemma zn_0 a l : zn (a :: l) 0 = a.
Proof. done. Qed.

Lemma zn_blit_in l o c i :
  0 <= o -> o + zlen c <= zlen l -> o <= i < o + zlen c -> zn (blit l o c) i = zn c (i - o).
Proof. intros. rewrite !zn_lookup, lookup_blit by lia. zb. do 2 f_equal. lia. Qed.

Lemma zn_blit_out l o c i :
  0 <= o -> o + zlen c <= zlen l -> 0 <= i -> i < o \/ o + zlen c <= i -> zn (blit l o c) i = zn l i.
Proof. intros. rewrite !zn_lookup, lookup_blit by lia. zb. Qed.

Lemma sub_cons l p n :
  0 <= p < zlen l -> 0 < n -> sub l p n = zn l p :: sub l (p + 1) (n - 1).
Proof.
  intros Hp Hn. unfold sub, ztake, zdrop, zlen in *. rewrite zn_lookup.
  destruct (lookup_lt_is_Some_2 l (Z.to_nat p)) as [x Hx]; [lia|]. rewrite Hx. cbn [default].
  rewrite (drop_S l x) by done. replace (Z.to_nat (p + 1)) with (S (Z.to_nat p)) by lia.
  replace (Z.to_nat n) with (S (Z.to_nat (n - 1))) by lia. done.
Qed.

Lemma sub_neg {A} (l : list A) o n : n <= 0 -> sub l o n = [].
Proof. intros. unfold sub, ztake. by replace (Z.to_nat n) with O by lia. Qed.

(** ** Accesses that succeed *)
Lemma load_ok l i : 0 <= i < zlen l -> load l i = Ret (zn l i).
Proof.
  intros. unfold load. rewrite (proj2 (in_range_true l i 1)) by lia. done.
Qed.

Lemma read_at_ok l o n :
  0 <= o -> 0 <= n -> o + n <= zlen l -> read_at l o n = Ret (sub l o n).
Proof. intros. unfold read_at. by rewrite (proj2 (in_range_true l o n)). Qed.

Lemma write_at_ok l o c :
  0 <= o -> o + zlen c <= zlen l -> write_at l o c = Ret (blit l o c).
Proof.
  intros. pose proof (zlen_nonneg c).
  unfold write_at. by rewrite (proj2 (in_range_true l o (zlen c))).
Qed.

Lemma memcpy_ok d o s p n :
  0 <= o -> 0 <= p -> 0 <= n -> o + n <= zlen d -> p + n <= zlen s ->
  memcpy d o s p n = Ret (blit d o (sub s p n)).
Proof.
  intros. unfold memcpy. rewrite read_at_ok by lia. cbn.
  apply write_at_ok; zsimpl; lia.
Qed.

(** ** Outcomes *)
(** One step of a computation; [next] leaves the arguments alone where [cbn]
    would have the kernel compare the rest of the computation. *)
Lemma bind_Ret {A B} (f : A -> outcome B) a : mbind f (Ret a) = f a.
Proof. reflexivity. Qed.
Ltac next := rewrite bind_Ret; cbv beta iota.

Lemma bind_ret_inv {A B} (f : A -> outcome B) m b :
  (m ≫= f) = Ret b -> exists a, m = Ret a /\ f a = Ret b.
Proof. destruct m; cbn; try discriminate. eauto. Qed.

Lemma write_at_inv l o c l' :
  write_at l o c = Ret l' -> 0 <= o /\ o + zlen c <= zlen l /\ l' = blit l o c.
Proof.
  unfold write_at. destruct (in_range l o (zlen c)) eqn:E; [|discriminate].
  intros [= <-]. apply in_range_true in E. repeat split; lia.
Qed.

Lemma read_at_inv l o n c :
  read_at l o n = Ret c -> 0 <= o /\ 0 <= n /\ o + n <= zlen l /\ c = sub l o n.
Proof.
  unfold read_at. destruct (in_range l o n) eqn:E; [|discriminate].
  intros [= <-]. apply in_range_true in E. destruct E as (?&?&?). done.
Qed.

Lemma load_inv l i b : load l i = Ret b -> 0 <= i < zlen l /\ b = zn l i.
Proof.
  unfold load. destruct (in_range l i 1) eqn:E; [|discriminate].
  intros [= <-]. apply in_range_true in E. split; [lia|done].
Qed.

(** ** Bytes *)
Lemma u8_byte x : is_byte (u8 x).
Proof. unfold is_byte, u8. apply (Z.mod_pos_bound x (2 ^ 8)). lia. Qed.

Lemma u8_add a b : u8 (u8 a + b) = u8 (a + b).
Proof. unfold u8. by rewrite Zplus_mod_idemp_l. Qed.

Lemma bytes_app l k : bytes (l ++ k) <-> bytes l /\ bytes k.
Proof. apply Forall_app. Qed.

Lemma bytes_zn l i : bytes l -> 0 <= i < zlen l -> is_byte (zn l i).
Proof.
  intros Hl Hi. unfold bytes in Hl. rewrite Forall_lookup in Hl.
  apply (Hl (Z.to_nat i)). unfold zn.
  destruct (lookup_lt_is_Some_2 l (Z.to_nat i)) as [x Hx]; [unfold zlen in *; lia|].
  rewrite Hx. f_equal. symmetry. by apply nth_lookup_Some.
Qed.

Lemma bytes_sub l o n : bytes l -> bytes (sub l o n).
Proof. intros. unfold sub, ztake, zdrop. by apply Forall_take, Forall_drop. Qed.

Lemma bytes_blit l o c : bytes l -> bytes c -> bytes (blit l o c).
Proof.
  intros. unfold blit, ztake, zdrop. unfold bytes in *. rewrite !Forall_app.
  split; [|split]; auto using Forall_take, Forall_drop.
Qed.

Lemma bytes_cons a l : is_byte a -> bytes l -> bytes (a :: l).
Proof. by constructor. Qed.

Lemma bytes_nil : bytes [].
Proof. constructor. Qed.

Lemma bytes_replicate n a : is_byte a -> bytes (replicate n a).
Proof. apply Forall_replicate. Qed.

#[export] Hint Resolve zlen_nonneg bytes_sub bytes_blit bytes_cons bytes_nil bytes_replicate : buf.

(** Goals [bytes l] about lists built from known bytes. *)
Ltac bytes :=
  repeat first [ assumption | apply bytes_sub | apply bytes_blit | apply bytes_replicate
               | apply bytes_cons | apply bytes_nil | apply bytes_app; split
               | solve [unfold is_byte in *; lia] ].

(** ** Bit masks *)
Lemma land_mask x k : 0 <= k -> Z.land x (Z.ones k) = x mod 2 ^ k.
Proof. apply Z.land_ones. Qed.

Lemma land_bound x m : 0 <= m -> 0 <= Z.land x m <= m.
Proof.
  intros Hm. split; [by apply Z.land_nonneg; right|].
  destruct (Z.eq_dec m 0) as [->|]; [by rewrite Z.land_0_r|].
  rewrite Z.land_comm. apply Z.ldiff_le; [lia|].
  apply Z.bits_inj'. intros i Hi.
  rewrite Z.ldiff_spec, Z.land_spec, Z.bits_0. by destruct (Z.testbit m i), (Z.testbit x i).
Qed.

Lemma shiftl_8 x : Z.shiftl x 8 = x * 256.
Proof. by rewrite Z.shiftl_mul_pow2. Qed.

Lemma land_0_bits x y :
  Z.land x y = 0 <-> forall b, 0 <= b -> Z.testbit x b && Z.testbit y b = false.
Proof.
  split.
  - intros H b _. by rewrite <- Z.land_spec, H, Z.bits_0.
  - intros H. apply Z.bits_inj'. intros b Hb. rewrite Z.land_spec, Z.bits_0. auto.
Qed.

Lemma land_n0_bits x y :
  Z.land x y <> 0 -> exists b, 0 <= b /\ Z.testbit x b && Z.testbit y b = true.
Proof.
  intros Hn. set (z := Z.land x y) in *. destruct (Z_lt_dec z 0) as [Hz|Hz].
  - destruct (Z.bits_iff_neg_ex z) as [H _]. destruct (H Hz) as [k Hk].
    exists (Z.max 0 (k + 1)). split; [lia|]. rewrite <- Z.land_spec. apply Hk. lia.
  - exists (Z.log2 z). split; [apply Z.log2_nonneg|]. rewrite <- Z.land_spec.
    apply Z.bit_log2. lia.
Qed.

Lemma byte_high x b : is_byte x -> 8 <= b -> Z.testbit x b = false.
Proof.
  intros [H1 H2] Hb. destruct (Z.eq_dec x 0) as [->|Hn]; [apply Z.bits_0|].
  apply Z.bits_above_log2; [done|]. apply Z.log2_lt_pow2; [lia|].
  apply Z.lt_le_trans with (2 ^ 8); [done|]. by apply Z.pow_le_mono_r.
Qed.


(** Two bytes put side by side. *)
Lemma lor_bytes hi lo : is_byte lo -> Z.lor (Z.shiftl hi 8) lo = hi * 256 + lo.
Proof.
  intros Hlo. rewrite <- shiftl_8. rewrite <- (Z.add_lor_land (Z.shiftl hi 8) lo).
  replace (Z.land (Z.shiftl hi 8) lo) with 0; [lia|]. symmetry. apply land_0_bits. intros b Hb.
  destruct (Z.lt_ge_cases b 8).
  - by rewrite Z.shiftl_spec_low by lia.
  - by rewrite (byte_high lo), andb_false_r by done.
Qed.

(** Disjoint bits add up. *)
Lemma lor_add x y k : 0 <= k -> 0 <= y < 2 ^ k -> Z.lor (x * 2 ^ k) y = x * 2 ^ k + y.
Proof.
  intros Hk Hy. symmetry. rewrite <- Z.shiftl_mul_pow2 by done. rewrite <- Z.lxor_lor, Z.add_nocarry_lxor; try done.
  all: apply Z.bits_inj'; intros n Hn; rewrite Z.land_spec, Z.bits_0, Z.shiftl_spec by done.
  all: destruct (Z.lt_ge_cases n k); [by rewrite Z.testbit_neg_r by lia|].
  all: assert (Z.testbit y n = false) as ->; [|by rewrite andb_false_r].
  all: destruct (Z.eq_dec y 0) as [->|]; [apply Z.bits_0|]; apply Z.bits_above_log2; [lia|].
  all: apply Z.log2_lt_pow2; [lia|]; apply Z.lt_le_trans with (2 ^ k); [lia|apply Z.pow_le_mono_r; lia].
Qed.

Lemma all_from_true p n i :
  all_from p n i = true <-> forall j, i <= j < i + Z.of_nat n -> p j = true.
Proof.
  revert i. induction n as [|n IH]; intros i; cbn [all_from].
  { split; [intros _ j ?; lia | done]. }
  rewrite andb_true_iff, IH. split.
  - intros [H1 H2] j Hj. destruct (Z.eq_dec j i) as [->|]; [done|]. apply H2. lia.
  - intros H. split; [apply H; lia|]. intros j Hj. apply H. lia.
Qed.

Lemma any_from_true p n i :
  any_from p n i = true <-> exists j, i <= j < i + Z.of_nat n /\ p j = true.
Proof.
  revert i. induction n as [|n IH]; intros i; cbn [any_from].
  { split; [done | intros (j & ? & ?); lia]. }
  rewrite orb_true_iff, IH. split.
  - intros [H|(j & ? & ?)]; [exists i | exists j]; split; done || lia.
  - intros (j & Hj & H). destruct (Z.eq_dec j i) as [->|]; [by left|].
    right. exists j. split; [lia|done].
Qed.
