(* ===== verification/CircBuf.v ===== *)
(** * Circular buffers

    The sources contain three ring buffers written independently:
    [dvb_ringbuffer] (dvb-core/dvb_ringbuffer.c), [dmxdev_buffer]
    (dvb-core/dmxdev.c) and [ringbuffy] (libmpegtools/ringbuffy.c).  This file
    holds what they share: the bytes that a read position and a count denote in
    a buffer whose indices wrap around ([cells]), the effect on them of a write
    that wraps ([circ_write]), and the interface [ByteFifo] of a byte queue,
    with the theorem a client may rely on: whatever the interleaving of writes
    and reads, what is read is what was accepted, in order. *)
From S2P Require Import Prelude.

(** [n] bytes of the ring [d] from index [r], indices modulo the length. *)
Definition cells (d : list Z) (r n : Z) : list Z :=
  (fun i => zn d ((r + Z.of_nat i) mod zlen d)) <$> seq 0 (Z.to_nat n).

(** The write of [c] at index [w], in two pieces when it passes the end. *)
Definition circ_write (d : list Z) (w : Z) (c : list Z) : list Z :=
  if w + zlen c <=? zlen d then blit d w c
  else blit (blit d w (sub c 0 (zlen d - w))) 0
            (sub c (zlen d - w) (zlen c - (zlen d - w))).

(** The read of [n] bytes at index [r], in two pieces when it passes the end. *)
Definition circ_read (d : list Z) (r n : Z) : list Z :=
  if r + n <=? zlen d then sub d r n
  else sub d r (zlen d - r) ++ sub d 0 (n - (zlen d - r)).

(** The number of bytes between the read index [r] and the write index [w]. *)
Definition used (size r w : Z) : Z := if r <=? w then w - r else size + w - r.

(** ** The interface of a byte queue *)
Class ByteFifo (T : Type) := {
  ff_ok : T -> Prop;                         (* the state is well formed *)
  ff_cap : T -> Z;                           (* how many bytes it can hold *)
  ff_bytes : T -> list Z;                    (* the bytes waiting in it *)
  ff_push : T -> list Z -> outcome (T * Z);  (* write: new state, bytes accepted *)
  ff_pull : T -> Z -> outcome (T * list Z);  (* read at most so many bytes *)
  ff_bound : forall t, ff_ok t -> 0 <= zlen (ff_bytes t) <= ff_cap t;
  ff_push_ok : forall t c, ff_ok t -> exists t' k,
    ff_push t c = Ret (t', k) /\ ff_ok t' /\ ff_cap t' = ff_cap t /\
    0 <= k <= zlen c /\ ff_bytes t' = ff_bytes t ++ sub c 0 k;
  ff_pull_ok : forall t n, ff_ok t -> 0 <= n -> exists t' out,
    ff_pull t n = Ret (t', out) /\ ff_ok t' /\ ff_cap t' = ff_cap t /\
    zlen out = Z.min n (zlen (ff_bytes t)) /\ ff_bytes t = out ++ ff_bytes t' }.

(** A client's use of a queue: writes and reads in any order. *)
Inductive fifo_op : Type :=
  | Push (c : list Z)
  | Pull (n : Z).

Section Client.
Context {T : Type} `{ByteFifo T}.

(** The state after the operations, the bytes accepted and the bytes read. *)
Fixpoint fifo_run (t : T) (ops : list fifo_op) : outcome (T * list Z * list Z) :=
  match ops with
  | [] => Ret (t, [], [])
  | Push c :: ops =>
      '(t1, k) ← ff_push t c;
      '(t2, acc, out) ← fifo_run t1 ops;
      Ret (t2, sub c 0 k ++ acc, out)
  | Pull n :: ops =>
      '(t1, o) ← ff_pull t n;
      '(t2, acc, out) ← fifo_run t1 ops;
      Ret (t2, acc, o ++ out)
  end.

Definition ops_ok (ops : list fifo_op) : Prop :=
  Forall (fun o => match o with Push _ => True | Pull n => 0 <= n end) ops.

(** What every client of the interface may rely on. *)
Lemma fifo_run_ok ops t :
  ff_ok t -> ops_ok ops -> exists t' acc out,
    fifo_run t ops = Ret (t', acc, out) /\ ff_ok t' /\ ff_cap t' = ff_cap t /\
    ff_bytes t ++ acc = out ++ ff_bytes t'.
Proof.
  revert t. induction ops as [|[c|n] ops IH]; intros t Ht Hops; cbn [fifo_run].
  - exists t, [], []. by rewrite app_nil_r.
  - destruct (ff_push_ok t c Ht) as (t1 & k & E1 & Ht1 & Hc1 & _ & Eb).
    apply Forall_cons in Hops as [_ Hops].
    destruct (IH t1 Ht1 Hops) as (t2 & acc & out & E2 & Ht2 & Hc2 & Eb2).
    exists t2, (sub c 0 k ++ acc), out. rewrite E1. cbn. rewrite E2. cbn.
    split; [done|]. split; [done|]. split; [congruence|].
    by rewrite app_assoc, <- Eb.
  - apply Forall_cons in Hops as [Hn Hops].
    destruct (ff_pull_ok t n Ht Hn) as (t1 & o & E1 & Ht1 & Hc1 & _ & Eb).
    destruct (IH t1 Ht1 Hops) as (t2 & acc & out & E2 & Ht2 & Hc2 & Eb2).
    exists t2, acc, (o ++ out). rewrite E1. cbn. rewrite E2. cbn.
    split; [done|]. split; [done|]. split; [congruence|].
    by rewrite Eb, <- !app_assoc, Eb2.
Qed.
End Client.

(** ** Cells *)
Lemma zlen_cells d r n : 0 <= n -> zlen (cells d r n) = n.
Proof. intros. unfold zlen, cells. rewrite length_fmap, length_seq. lia. Qed.

Lemma lookup_cells d r n i :
  cells d r n !! i =
    if Z.of_nat i <? n then Some (zn d ((r + Z.of_nat i) mod zlen d)) else None.
Proof.
  unfold cells. rewrite list_lookup_fmap. zb.
  - rewrite lookup_seq_lt by lia. done.
  - rewrite (proj2 (lookup_ge_None _ _)); [done|]. rewrite length_seq. lia.
Qed.

Lemma cells_0 d r : cells d r 0 = [].
Proof. done. Qed.

Lemma cells_app d r n m :
  0 <= n -> 0 <= m -> cells d r (n + m) = cells d r n ++ cells d (r + n) m.
Proof.
  intros. pose proof (zlen_cells d r n ltac:(lia)) as Hl. unfold zlen in Hl.
  apply list_eq. intros i. rewrite lookup_cells.
  destruct (Z.ltb_spec (Z.of_nat i) n).
  - rewrite lookup_app_l by lia. rewrite lookup_cells. zb.
  - rewrite lookup_app_r by lia. rewrite lookup_cells. zb.
    do 3 f_equal. lia.
Qed.

Lemma cells_mod d r n : zlen d <> 0 -> cells d (r mod zlen d) n = cells d r n.
Proof.
  intros. apply list_eq. intros i. rewrite !lookup_cells. zb.
  by rewrite Zplus_mod_idemp_l.
Qed.

Lemma lookup_zn (d : list Z) i : 0 <= i < zlen d -> d !! Z.to_nat i = Some (zn d i).
Proof.
  intros. unfold zn, zlen in *.
  destruct (lookup_lt_is_Some_2 d (Z.to_nat i)) as [x Hx]; [lia|].
  rewrite Hx. f_equal. symmetry. by apply nth_lookup_Some.
Qed.

Lemma zn_same (d d' : list Z) i j :
  d !! Z.to_nat i = d' !! Z.to_nat j -> zn d i = zn d' j.
Proof. intros E. unfold zn. by rewrite !nth_lookup, E. Qed.

Lemma cells_flat d r n : 0 <= r -> 0 <= n -> r + n <= zlen d -> cells d r n = sub d r n.
Proof.
  intros. apply list_eq. intros i. rewrite lookup_cells, lookup_sub by lia. zb.
  rewrite Z.mod_small by lia. rewrite <- lookup_zn by lia. f_equal. lia.
Qed.

Lemma cells_read d r n :
  0 <= r < zlen d -> 0 <= n <= zlen d -> cells d r n = circ_read d r n.
Proof.
  intros. unfold circ_read. destruct (Z.leb_spec (r + n) (zlen d)).
  { apply cells_flat; lia. }
  replace n with ((zlen d - r) + (n - (zlen d - r))) at 1 by lia.
  rewrite cells_app, cells_flat by lia. f_equal.
  rewrite <- cells_mod by lia. replace (r + (zlen d - r)) with (0 + 1 * zlen d) by lia.
  rewrite Z.mod_add, Z.mod_0_l by lia. apply cells_flat; lia.
Qed.

(** Two rings of the same size that agree on a stretch have the same cells. *)
Lemma cells_agree d d' r n :
  zlen d = zlen d' ->
  (forall i, 0 <= i < n -> zn d ((r + i) mod zlen d) = zn d' ((r + i) mod zlen d)) ->
  cells d r n = cells d' r n.
Proof.
  intros El E. apply list_eq. intros i. rewrite !lookup_cells, <- El. zb.
  f_equal. apply E. lia.
Qed.

Lemma zlen_circ_write d w c :
  0 <= w < zlen d -> zlen c <= zlen d -> zlen (circ_write d w c) = zlen d.
Proof.
  intros. pose proof (zlen_nonneg c). unfold circ_write.
  destruct (Z.leb_spec (w + zlen c) (zlen d)); zside.
Qed.

(** An index inside the ring, reduced. *)
Lemma mod_wrap a n : 0 < n -> 0 <= a < 2 * n -> a mod n = if a <? n then a else a - n.
Proof.
  intros. zb.
  - apply Z.mod_small. lia.
  - rewrite <- (Z.mod_add a (-1) n) by lia. rewrite Z.mod_small; lia.
Qed.

Lemma wrap_pos w n s : 0 <= w < s -> 0 <= n <= s -> s - w <= n -> (w + n) mod s = n - (s - w).
Proof. intros. rewrite mod_wrap by lia. destruct (Z.ltb_spec (w + n) s); lia. Qed.

(** A write leaves every cell outside the written stretch alone. *)
Lemma zn_circ_write_out d r n c i :
  0 <= r < zlen d -> 0 <= i < n -> n + zlen c <= zlen d ->
  zn (circ_write d ((r + n) mod zlen d) c) ((r + i) mod zlen d) =
  zn d ((r + i) mod zlen d).
Proof.
  intros. pose proof (zlen_nonneg c). unfold circ_write.
  rewrite !mod_wrap by lia.
  destruct (Z.ltb_spec (r + n) (zlen d)), (Z.ltb_spec (r + i) (zlen d));
    match goal with |- context [Z.leb ?a ?b] => destruct (Z.leb_spec a b) end;
    try lia; rewrite ?zn_blit_out; zsimpl; try done; lia.
Qed.

(** The written stretch holds the bytes written. *)
Lemma cells_circ_write_in d w c :
  0 <= w < zlen d -> zlen c <= zlen d -> cells (circ_write d w c) w (zlen c) = c.
Proof.
  intros. pose proof (zlen_nonneg c).
  assert (El : zlen (circ_write d w c) = zlen d) by (apply zlen_circ_write; lia).
  rewrite cells_read by lia. unfold circ_read. rewrite El.
  unfold circ_write. destruct (Z.leb_spec (w + zlen c) (zlen d)).
  { apply sub_blit_eq; lia. }
  rewrite sub_blit_after by zside.
  set (k := zlen d - w) in *.
  rewrite <- (zlen_sub c 0 k) at 2 by lia. rewrite sub_blit_eq by zside.
  rewrite <- (zlen_sub c k (zlen c - k)) at 2 by lia. rewrite sub_blit_eq by zside.
  change k with (0 + k) at 2. rewrite <- sub_split by lia. apply sub_all. lia.
Qed.

(** Appending to the ring appends to its contents. *)
Lemma cells_circ_write d r n c :
  0 <= r < zlen d -> 0 <= n -> n + zlen c <= zlen d -> zlen c < zlen d ->
  cells (circ_write d ((r + n) mod zlen d) c) r (n + zlen c) = cells d r n ++ c.
Proof.
  intros. pose proof (zlen_nonneg c).
  assert (0 <= (r + n) mod zlen d < zlen d) by (apply Z.mod_pos_bound; lia).
  assert (El : zlen (circ_write d ((r + n) mod zlen d) c) = zlen d)
    by (apply zlen_circ_write; lia).
  rewrite cells_app by lia. f_equal.
  - apply cells_agree; [done|]. intros i Hi. rewrite El. by apply zn_circ_write_out.
  - rewrite <- cells_mod by lia. rewrite El. apply cells_circ_write_in; lia.
Qed.

(** Dropping from the front. *)
Lemma cells_drop d r n k :
  0 < zlen d -> 0 <= k <= n -> cells d r n = cells d r k ++ cells d ((r + k) mod zlen d) (n - k).
Proof.
  intros. rewrite cells_mod by lia. rewrite <- cells_app by lia. f_equal. lia.
Qed.

(** ** Copies in two pieces, as the C code makes them *)
Lemma memcpy_in_wrap d w src n :
  0 <= w < zlen d -> 0 <= n -> n <= zlen src -> n <= zlen d -> zlen d - w <= n ->
  (b ← memcpy d w src 0 (zlen d - w);
   if negb (n - (zlen d - w) =? 0) then memcpy b 0 src (zlen d - w) (n - (zlen d - w))
   else Ret b) = Ret (circ_write d w (sub src 0 n)).
Proof.
  intros. rewrite memcpy_ok by lia. cbn. unfold circ_write. zsimpl.
  destruct (Z.eqb_spec (n - (zlen d - w)) 0), (Z.leb_spec (w + n) (zlen d)); cbn; try lia.
  - do 2 f_equal. f_equal. lia.
  - rewrite memcpy_ok by zside. do 2 f_equal.
    + rewrite sub_sub by lia. done.
    + rewrite sub_sub by lia. done.
Qed.

Lemma memcpy_out_wrap dst d r n :
  0 <= r < zlen d -> n <= zlen dst -> n <= zlen d -> zlen d - r <= n ->
  (x ← memcpy dst 0 d r (zlen d - r);
   if negb (n - (zlen d - r) =? 0) then memcpy x (zlen d - r) d 0 (n - (zlen d - r))
   else Ret x) = Ret (blit dst 0 (circ_read d r n)).
Proof.
  intros. rewrite memcpy_ok by lia. cbn. unfold circ_read.
  destruct (Z.eqb_spec (n - (zlen d - r)) 0), (Z.leb_spec (r + n) (zlen d)); cbn; try lia.
  - do 2 f_equal. f_equal. lia.
  - rewrite memcpy_ok by zside. f_equal.
    rewrite <- (blit_blit dst 0 (sub d r (zlen d - r))) by zside. f_equal. zsimpl. lia.
Qed.

Lemma zlen_circ_read d r n : 0 <= r < zlen d -> 0 <= n <= zlen d -> zlen (circ_read d r n) = n.
Proof. intros. rewrite <- cells_read by lia. apply zlen_cells. lia. Qed.

Lemma circ_write_flat d w c : w + zlen c <= zlen d -> circ_write d w c = blit d w c.
Proof. intros. unfold circ_write. destruct (Z.leb_spec (w + zlen c) (zlen d)); [done|lia]. Qed.

Lemma circ_read_flat d r n : r + n <= zlen d -> circ_read d r n = sub d r n.
Proof. intros. unfold circ_read. destruct (Z.leb_spec (r + n) (zlen d)); [done|lia]. Qed.

(** ** Positions *)
Lemma used_bound size r w :
  0 <= r < size -> 0 <= w < size -> 0 <= used size r w < size.
Proof. intros. unfold used. destruct (Z.leb_spec r w); lia. Qed.

Lemma used_mod size r w :
  0 <= r < size -> 0 <= w < size -> used size r w = (w - r) mod size.
Proof.
  intros. unfold used. destruct (Z.leb_spec r w).
  - symmetry. apply Z.mod_small. lia.
  - rewrite <- (Z.mod_add (w - r) 1) by lia. rewrite Z.mod_small; lia.
Qed.

Lemma used_write_pos size r w :
  0 <= r < size -> 0 <= w < size -> (r + used size r w) mod size = w.
Proof.
  intros. rewrite used_mod, Zplus_mod_idemp_r by lia.
  rewrite Z.mod_small; lia.
Qed.

(** Advancing the write position by [k] adds [k] bytes. *)
Lemma used_push size r w k :
  0 <= r < size -> 0 <= w < size -> 0 <= k -> used size r w + k < size ->
  used size r ((w + k) mod size) = used size r w + k.
Proof.
  intros. assert (0 <= (w + k) mod size < size) by (apply Z.mod_pos_bound; lia).
  rewrite used_mod, Zminus_mod_idemp_l by lia.
  rewrite used_mod in * by lia.
  replace (w + k - r) with (w - r + k) by lia.
  rewrite <- Zplus_mod_idemp_l. apply Z.mod_small.
  pose proof (Z.mod_pos_bound (w - r) size). lia.
Qed.

(** Advancing the read position by [k] removes [k] bytes. *)
Lemma used_pull size r w k :
  0 <= r < size -> 0 <= w < size -> 0 <= k <= used size r w ->
  used size ((r + k) mod size) w = used size r w - k.
Proof.
  intros. assert (0 <= (r + k) mod size < size) by (apply Z.mod_pos_bound; lia).
  rewrite used_mod, Zminus_mod_idemp_r by lia.
  rewrite used_mod in * by lia.
  replace (w - (r + k)) with (w - r - k) by lia.
  rewrite <- Zminus_mod_idemp_l. apply Z.mod_small.
  pose proof (Z.mod_pos_bound (w - r) size). lia.
Qed.

#[export] Hint Resolve used_bound zlen_circ_write : buf.
