(* ===== verification/DvbRing.v ===== *)
(** * The ring buffer of the DVB driver core

    Models driver/dvb/drivers/media/dvb/dvb-core/dvb_ringbuffer.c and the macros
    of dvb_ringbuffer.h.  A transfer that does not pass the end of the storage
    behaves as a queue operation; a transfer that does pass it moves the bytes
    correctly but advances the position by [len] where only the second piece
    remains to be counted, so the position ends up ahead by the first piece. *)
From S2P Require Import Prelude CircBuf.


(** [struct dvb_ringbuffer]; of the wait queue we keep the number of
    [wake_up] calls, the spin lock only brackets the flush. *)
Record dvb_ringbuffer := mk_dvb_ringbuffer {
  data : list Z;
  size : Z;
  pread : Z;
  pwrite : Z;
  wakeups : Z }.
#[export] Instance eta_dvb_ringbuffer : Eta dvb_ringbuffer := fun r =>
  mk_dvb_ringbuffer (data r) (size r) (pread r) (pwrite r) (wakeups r).

Definition dvb_ringbuffer_init (mem : list Z) (len : Z) : dvb_ringbuffer :=
  mk_dvb_ringbuffer mem len 0 0 0.

Definition dvb_ringbuffer_empty (rbuf : dvb_ringbuffer) : bool :=
  pread rbuf =? pwrite rbuf.

Definition dvb_ringbuffer_free (rbuf : dvb_ringbuffer) : Z :=
  let free := pread rbuf - pwrite rbuf in
  let free := if free <=? 0 then free + size rbuf else free in
  free - 1.

Definition dvb_ringbuffer_avail (rbuf : dvb_ringbuffer) : Z :=
  let avail := pwrite rbuf - pread rbuf in
  if avail <? 0 then avail + size rbuf else avail.

Definition dvb_ringbuffer_flush (rbuf : dvb_ringbuffer) : dvb_ringbuffer :=
  rbuf <| pread := pwrite rbuf |>.

Definition dvb_ringbuffer_flush_spinlock_wakeup (rbuf : dvb_ringbuffer) : dvb_ringbuffer :=
  let rbuf := dvb_ringbuffer_flush rbuf in
  rbuf <| wakeups := wakeups rbuf + 1 |>.

(** [a % size], undefined for a zero size. *)
Definition mod_size (a sz : Z) : outcome Z :=
  if sz =? 0 then Crash else Ret (u32 a mod u32 sz).

Section Transfer.
(** [copy_to_user] and [copy_from_user] return how many of [n] bytes at offset
    [off] of the caller's buffer could not be copied. *)
Variable uncopied : Z -> Z -> Z.

(** One [memcpy] or user copy into the kernel buffer [dst]; on a fault the
    kernel fills what could not be read with zeroes. *)
Definition copy_in (usermem : bool) (dst : list Z) (doff : Z) (src : list Z) (soff n : Z)
  : outcome (list Z * bool) :=
  if usermem then
    let left := uncopied soff n in
    c ← read_at src soff n;
    d ← write_at dst doff (sub c 0 (n - left) ++ replicate (Z.to_nat left) 0);
    Ret (d, negb (left =? 0))
  else d ← memcpy dst doff src soff n; Ret (d, false).

(** One [memcpy] or user copy out of the kernel buffer [src]. *)
Definition copy_out (usermem : bool) (dst : list Z) (doff : Z) (src : list Z) (soff n : Z)
  : outcome (list Z * bool) :=
  if usermem then
    let left := uncopied doff n in
    c ← read_at src soff n;
    d ← write_at dst doff (sub c 0 (n - left));
    Ret (d, negb (left =? 0))
  else d ← memcpy dst doff src soff n; Ret (d, false).

(** The new ring, the caller's buffer and the result. *)
Definition dvb_ringbuffer_read (rbuf : dvb_ringbuffer) (buf : list Z) (len : Z) (usermem : bool)
  : outcome (dvb_ringbuffer * list Z * Z) :=
  let split := if u32 (pread rbuf + len) >? u32 (size rbuf)
               then u32 (size rbuf - pread rbuf) else 0 in
  '(rbuf, buf, off, todo, fault) ←
    (if split >? 0 then
       '(buf, fault) ← copy_out usermem buf 0 (data rbuf) (pread rbuf) split;
       if (fault : bool) then Ret (rbuf, buf, 0, len, true)
       else Ret (rbuf <| pread := 0 |>, buf, split, u32 (len - split), false)
     else Ret (rbuf, buf, 0, len, false));
  if (fault : bool) then Ret (rbuf, buf, - EFAULT) else
  '(buf, fault) ← copy_out usermem buf off (data rbuf) (pread rbuf) todo;
  if (fault : bool) then Ret (rbuf, buf, - EFAULT) else
  p ← mod_size (pread rbuf + len) (size rbuf);
  Ret (rbuf <| pread := p |>, buf, len).

Definition dvb_ringbuffer_write (rbuf : dvb_ringbuffer) (buf : list Z) (len : Z) (usermem : bool)
  : outcome (dvb_ringbuffer * Z) :=
  let split := if u32 (pwrite rbuf + len) >? u32 (size rbuf)
               then u32 (size rbuf - pwrite rbuf) else 0 in
  '(rbuf, off, todo, fault) ←
    (if split >? 0 then
       '(d, fault) ← copy_in usermem (data rbuf) (pwrite rbuf) buf 0 split;
       let rbuf := rbuf <| data := d |> in
       if (fault : bool) then Ret (rbuf, 0, len, true)
       else Ret (rbuf <| pwrite := 0 |>, split, u32 (len - split), false)
     else Ret (rbuf, 0, len, false));
  if (fault : bool) then Ret (rbuf, - EFAULT) else
  '(d, fault) ← copy_in usermem (data rbuf) (pwrite rbuf) buf off todo;
  let rbuf := rbuf <| data := d |> in
  if (fault : bool) then Ret (rbuf, - EFAULT) else
  p ← mod_size (pwrite rbuf + len) (size rbuf);
  Ret (rbuf <| pwrite := p |>, len).
End Transfer.

(** The macros of the header. *)
Definition DVB_RINGBUFFER_PEEK (rbuf : dvb_ringbuffer) (offs : Z) : outcome Z :=
  i ← mod_size (pread rbuf + offs) (size rbuf); load (data rbuf) i.

Definition DVB_RINGBUFFER_SKIP (rbuf : dvb_ringbuffer) (num : Z) : outcome dvb_ringbuffer :=
  p ← mod_size (pread rbuf + num) (size rbuf); Ret (rbuf <| pread := p |>).

Definition DVB_RINGBUFFER_WRITE_BYTE (rbuf : dvb_ringbuffer) (byte : Z) : outcome dvb_ringbuffer :=
  d ← write_at (data rbuf) (pwrite rbuf) [u8 byte];
  p ← mod_size (pwrite rbuf + 1) (size rbuf);
  Ret (rbuf <| data := d |> <| pwrite := p |>).

#[global] Arguments copy_in : simpl never.
#[global] Arguments copy_out : simpl never.
#[global] Arguments mod_size : simpl never.

(** ** What the buffer holds *)
Record ring_ok (r : dvb_ringbuffer) : Prop := {
  ring_size : size r = zlen (data r);
  ring_small : 0 < size r < 2 ^ 31;
  ring_pread : 0 <= pread r < size r;
  ring_pwrite : 0 <= pwrite r < size r }.

Definition contents (r : dvb_ringbuffer) : list Z :=
  cells (data r) (pread r) (dvb_ringbuffer_avail r).

Lemma avail_used r : dvb_ringbuffer_avail r = used (size r) (pread r) (pwrite r).
Proof.
  unfold dvb_ringbuffer_avail, used.
  destruct (Z.ltb_spec (pwrite r - pread r) 0), (Z.leb_spec (pread r) (pwrite r)); lia.
Qed.

Lemma free_avail r :
  ring_ok r -> dvb_ringbuffer_free r = size r - 1 - dvb_ringbuffer_avail r.
Proof.
  intros []. unfold dvb_ringbuffer_free, dvb_ringbuffer_avail.
  destruct (Z.leb_spec (pread r - pwrite r) 0), (Z.ltb_spec (pwrite r - pread r) 0); lia.
Qed.

Lemma avail_bound r : ring_ok r -> 0 <= dvb_ringbuffer_avail r < size r.
Proof. intros []. rewrite avail_used. by apply used_bound. Qed.

Lemma u32_id x : 0 <= x < 2 ^ 32 -> u32 x = x.
Proof. apply Z.mod_small. Qed.

Lemma mod_size_ok a sz : 0 < sz < 2 ^ 32 -> 0 <= a < 2 ^ 32 -> mod_size a sz = Ret (a mod sz).
Proof.
  intros. unfold mod_size. destruct (Z.eqb_spec sz 0); [lia|].
  rewrite !u32_id by lia. done.
Qed.

Lemma copy_in_ok u d o s p n :
  0 <= o -> 0 <= p -> 0 <= n -> o + n <= zlen d -> p + n <= zlen s ->
  copy_in u false d o s p n = Ret (blit d o (sub s p n), false).
Proof. intros. unfold copy_in. by rewrite memcpy_ok. Qed.

Lemma copy_out_ok u d o s p n :
  0 <= o -> 0 <= p -> 0 <= n -> o + n <= zlen d -> p + n <= zlen s ->
  copy_out u false d o s p n = Ret (blit d o (sub s p n), false).
Proof. intros. unfold copy_out. by rewrite memcpy_ok. Qed.

(** ** Transfers that stay inside the storage *)
Lemma write_unfold_flat u r buf len usermem :
  ring_ok r -> 0 <= len -> pwrite r + len <= size r ->
  dvb_ringbuffer_write u r buf len usermem =
    '(d, fault) ← copy_in u usermem (data r) (pwrite r) buf 0 len;
    if (fault : bool) then Ret (r <| data := d |>, - EFAULT)
    else Ret (r <| data := d |> <| pwrite := (pwrite r + len) mod size r |>, len).
Proof.
  intros [] ? ?. unfold dvb_ringbuffer_write. rewrite !u32_id by lia.
  destruct (Z.gtb_spec (pwrite r + len) (size r)); [lia|].
  cbn. destruct (copy_in _ _ _ _ _ _ _) as [[d []]| |]; cbn; try done.
  by rewrite mod_size_ok by lia.
Qed.

Lemma dvb_contents_push r c p :
  ring_ok r -> zlen c <= dvb_ringbuffer_free r -> p = (pwrite r + zlen c) mod size r ->
  let r' := r <| data := circ_write (data r) (pwrite r) c |> <| pwrite := p |> in
  ring_ok r' /\ contents r' = contents r ++ c.
Proof.
  intros Hr Hc ->. rewrite free_avail in Hc by done. pose proof (zlen_nonneg c).
  pose proof (avail_bound r Hr). destruct Hr as [Hs Hb Hrd Hw]. rewrite avail_used in *.
  assert (0 <= (pwrite r + zlen c) mod size r < size r) by (apply Z.mod_pos_bound; lia).
  cbn. split.
  - split; cbn; try lia. rewrite zlen_circ_write; lia.
  - unfold contents. rewrite !avail_used. cbn.
    rewrite used_push by lia.
    rewrite <- (used_write_pos (size r) (pread r) (pwrite r)) at 1 by lia.
    rewrite Hs in *. apply cells_circ_write; lia.
Qed.

Lemma dvb_contents_pull r n :
  ring_ok r -> 0 <= n <= dvb_ringbuffer_avail r ->
  let r' := r <| pread := (pread r + n) mod size r |> in
  ring_ok r' /\ contents r = cells (data r) (pread r) n ++ contents r'.
Proof.
  intros Hr Hn. pose proof (avail_bound r Hr). destruct Hr as [Hs Hb Hrd Hw].
  rewrite avail_used in *.
  assert (0 <= (pread r + n) mod size r < size r) by (apply Z.mod_pos_bound; lia).
  cbn. split; [split; cbn; lia|].
  unfold contents. rewrite !avail_used. cbn. rewrite used_pull by lia.
  rewrite Hs in *. apply cells_drop; lia.
Qed.

(** As long as the free space suffices and the storage's end is not passed,
    [dvb_ringbuffer_write] from kernel memory succeeds, returns [len], keeps the
    buffer well formed and appends exactly the first [len] bytes. *)
Theorem dvb_ringbuffer_write_appends u r buf len :
  ring_ok r -> 0 <= len <= zlen buf -> len <= dvb_ringbuffer_free r ->
  pwrite r + len <= size r ->
  exists r', dvb_ringbuffer_write u r buf len false = Ret (r', len) /\
    ring_ok r' /\ contents r' = contents r ++ sub buf 0 len.
Proof.
  intros Hr Hl Hf Hw. pose proof (ring_size r Hr). pose proof (ring_pwrite r Hr).
  rewrite write_unfold_flat by (done || lia).
  rewrite copy_in_ok by lia. cbn.
  eexists. split; [done|].
  assert (E : blit (data r) (pwrite r) (sub buf 0 len) =
              circ_write (data r) (pwrite r) (sub buf 0 len)).
  { unfold circ_write. zsimpl. destruct (Z.leb_spec (pwrite r + len) (zlen (data r))); [done|lia]. }
  rewrite E. apply dvb_contents_push; zsimpl; try done; lia.
Qed.

(** As long as that many bytes wait and the storage's end is not passed,
    [dvb_ringbuffer_read] into kernel memory succeeds, returns [len], delivers
    the oldest [len] bytes to the caller's buffer and removes exactly them. *)
Theorem dvb_ringbuffer_read_consumes u r buf len :
  ring_ok r -> 0 <= len <= zlen buf -> len <= dvb_ringbuffer_avail r ->
  pread r + len <= size r ->
  exists r' out, dvb_ringbuffer_read u r buf len false = Ret (r', blit buf 0 out, len) /\
    ring_ok r' /\ zlen out = len /\ contents r = out ++ contents r'.
Proof.
  intros Hr Hl Hf Hw. pose proof (ring_size r Hr). pose proof (ring_pread r Hr).
  pose proof (ring_small r Hr).
  unfold dvb_ringbuffer_read. rewrite !u32_id by lia.
  destruct (Z.gtb_spec (pread r + len) (size r)); [lia|]. cbn.
  rewrite copy_out_ok by lia. cbn. rewrite mod_size_ok by lia. cbn.
  destruct (dvb_contents_pull r len Hr) as [Hr' E]; [lia|].
  rewrite cells_flat in E by lia.
  eexists _, (sub (data r) (pread r) len). split; [done|]. split; [done|].
  split; [zsimpl; lia|]. exact E.
Qed.

(** A write that passes the end of the storage places every byte where it
    belongs, but leaves the write position at [len] (modulo the size) although
    only [len - split] bytes were written from index 0: the bytes waiting, as
    [dvb_ringbuffer_avail] counts them, exceed the bytes written by the [split]
    bytes of the first piece. *)
Theorem dvb_ringbuffer_write_wrap_skew u r buf len :
  ring_ok r -> 0 <= len <= zlen buf -> len <= dvb_ringbuffer_free r ->
  size r < pwrite r + len ->
  let split := size r - pwrite r in
  exists r', dvb_ringbuffer_write u r buf len false = Ret (r', len) /\
    data r' = circ_write (data r) (pwrite r) (sub buf 0 len) /\
    pwrite r' = ((pwrite r + len) mod size r + split) mod size r /\
    dvb_ringbuffer_avail r' = (dvb_ringbuffer_avail r + len + split) mod size r.
Proof.
  intros Hr Hl Hf Hw split. pose proof (avail_bound r Hr) as Ha.
  rewrite free_avail in Hf by done. destruct Hr as [Hs Hb Hrd Hwr].
  unfold dvb_ringbuffer_write. rewrite !u32_id by lia.
  destruct (Z.gtb_spec (pwrite r + len) (size r)); [|lia]. fold split.
  destruct (Z.gtb_spec split 0); [|lia].
  rewrite copy_in_ok by lia. cbn. rewrite u32_id by lia.
  rewrite copy_in_ok by (zsimpl; lia). cbn. rewrite mod_size_ok by lia. cbn.
  eexists. split; [done|]. cbn. split.
  { unfold circ_write. zsimpl. rewrite <- Hs.
    destruct (Z.leb_spec (pwrite r + len) (size r)); [lia|]. fold split.
    rewrite !sub_sub by lia. done. }
  assert (E : len mod size r = ((pwrite r + len) mod size r + split) mod size r).
  { rewrite Zplus_mod_idemp_l. unfold split.
    replace (pwrite r + len + (size r - pwrite r)) with (len + 1 * size r) by lia.
    by rewrite Z.mod_add by lia. }
  split; [done|].
  assert (0 <= len mod size r < size r) by (apply Z.mod_pos_bound; lia).
  rewrite !avail_used. cbn. rewrite (used_mod _ _ (pwrite r)) by lia.
  rewrite used_mod by (rewrite ?Z.add_0_l; lia).
  rewrite Zminus_mod_idemp_l. unfold split.
  replace ((pwrite r - pread r) mod size r + len + (size r - pwrite r))
    with ((pwrite r - pread r) mod size r + (len - pwrite r + 1 * size r)) by lia.
  rewrite Zplus_mod_idemp_l.
  replace (pwrite r - pread r + (len - pwrite r + 1 * size r))
    with (len - pread r + 1 * size r) by lia.
  by rewrite Z.mod_add by lia.
Qed.

(** When the first user copy of a write that stays inside the storage
    faults, the call returns [-EFAULT] and the bytes waiting are unchanged. *)
Theorem dvb_ringbuffer_write_fault u r buf len :
  ring_ok r -> 0 <= len <= zlen buf -> len <= dvb_ringbuffer_free r ->
  pwrite r + len <= size r -> 0 < u 0 len <= len ->
  exists r', dvb_ringbuffer_write u r buf len true = Ret (r', - EFAULT) /\
    ring_ok r' /\ contents r' = contents r.
Proof.
  intros Hr Hl Hf Hw Hu. rewrite free_avail in Hf by done.
  pose proof (avail_bound r Hr) as Ha.
  rewrite write_unfold_flat by (done || lia).
  destruct Hr as [Hs Hb Hrd Hwr]. rewrite avail_used in *.
  unfold copy_in. rewrite read_at_ok by lia. cbn.
  set (c := sub _ 0 (len - u 0 len) ++ replicate _ 0).
  assert (Hc : zlen c = len) by (unfold c; zsimpl; lia).
  rewrite write_at_ok by lia. cbn.
  destruct (Z.eqb_spec (u 0 len) 0); [lia|]. cbn.
  eexists. split; [done|]. split.
  { split; cbn; zsimpl; lia. }
  unfold contents. rewrite !avail_used. cbn.
  apply cells_agree; [zsimpl; lia|]. intros i Hi. zsimpl.
  apply zn_blit_out; try lia.
  - apply Z.mod_pos_bound. lia.
  - unfold used in *. rewrite mod_wrap by lia.
    destruct (Z.leb_spec (pread r) (pwrite r)), (Z.ltb_spec (pread r + i) (zlen (data r))); lia.
Qed.

(** Single bytes wrap correctly: [DVB_RINGBUFFER_WRITE_BYTE] on a buffer
    with free space appends the byte wherever the write position is, and
    [DVB_RINGBUFFER_PEEK] then finds it behind the bytes that were waiting. *)
Theorem write_byte_peek r b :
  ring_ok r -> is_byte b -> 1 <= dvb_ringbuffer_free r ->
  exists r', DVB_RINGBUFFER_WRITE_BYTE r b = Ret r' /\ ring_ok r' /\
    contents r' = contents r ++ [b] /\
    DVB_RINGBUFFER_PEEK r' (dvb_ringbuffer_avail r) = Ret b.
Proof.
  intros Hr Hb Hf. pose proof (ring_size r Hr) as Hs. pose proof (ring_small r Hr).
  pose proof (ring_pwrite r Hr). pose proof (ring_pread r Hr).
  pose proof (avail_bound r Hr).
  unfold DVB_RINGBUFFER_WRITE_BYTE, u8. unfold is_byte in Hb. rewrite Z.mod_small by lia.
  rewrite write_at_ok by zside. cbn. rewrite mod_size_ok by lia. cbn.
  assert (E : blit (data r) (pwrite r) [b] = circ_write (data r) (pwrite r) [b]).
  { unfold circ_write. zsimpl. destruct (Z.leb_spec (pwrite r + (1 + 0)) (zlen (data r))); [done|lia]. }
  rewrite E. eexists. split; [done|].
  destruct (dvb_contents_push r [b] ((pwrite r + 1) mod size r)) as [Hr' Ec]; [done|zside|done|].
  split; [done|]. split; [exact Ec|].
  unfold DVB_RINGBUFFER_PEEK. cbn in Ec |- *. rewrite mod_size_ok by lia. cbn.
  assert (0 <= (pread r + dvb_ringbuffer_avail r) mod size r < size r)
    by (apply Z.mod_pos_bound; lia).
  rewrite load_ok by (rewrite zlen_circ_write; zsimpl; lia). f_equal.
  rewrite avail_used, used_write_pos by lia.
  rewrite <- E. unfold zn. apply nth_lookup_Some. rewrite lookup_blit by zside. zsimpl.
  rewrite Z2Nat.id by lia. zb. rewrite Nat.sub_diag. done.
Qed.

(** *** Witnesses *)
Definition sample_dvb_ring : dvb_ringbuffer :=
  mk_dvb_ringbuffer [10; 11; 12; 13; 14; 15; 16; 17] 8 2 5 0.

Lemma sample_dvb_ring_ok : ring_ok sample_dvb_ring.
Proof. concrete. Qed.

Lemma dvb_ringbuffer_write_appends_witness :
  exists r', dvb_ringbuffer_write (fun _ _ => 0) sample_dvb_ring [1; 2; 3] 2 false = Ret (r', 2) /\
    ring_ok r' /\ contents r' = [12; 13; 14; 1; 2].
Proof.
  apply (dvb_ringbuffer_write_appends _ sample_dvb_ring [1; 2; 3] 2);
    [exact sample_dvb_ring_ok | concrete..].
Defined.

Lemma dvb_ringbuffer_read_consumes_witness :
  exists r' out, dvb_ringbuffer_read (fun _ _ => 0) sample_dvb_ring [0; 0; 0] 2 false
      = Ret (r', blit [0; 0; 0] 0 out, 2) /\
    ring_ok r' /\ zlen out = 2 /\ contents sample_dvb_ring = out ++ contents r'.
Proof.
  apply (dvb_ringbuffer_read_consumes _ sample_dvb_ring [0; 0; 0] 2);
    [exact sample_dvb_ring_ok | concrete..].
Defined.

Lemma dvb_ringbuffer_write_wrap_skew_witness :
  let r := sample_dvb_ring <| pread := 6 |> <| pwrite := 7 |> in
  dvb_ringbuffer_avail r = 1 /\
  exists r', dvb_ringbuffer_write (fun _ _ => 0) r [1; 2; 3] 3 false = Ret (r', 3) /\
    dvb_ringbuffer_avail r' = 5.
Proof.
  cbn zeta. split; [reflexivity|].
  destruct (dvb_ringbuffer_write_wrap_skew (fun _ _ => 0)
    (sample_dvb_ring <| pread := 6 |> <| pwrite := 7 |>) [1; 2; 3] 3) as (r' & E & _ & _ & Ea);
    [concrete..|].
  exists r'. split; [exact E|]. rewrite Ea. reflexivity.
Defined.

Lemma dvb_ringbuffer_write_fault_witness :
  exists r', dvb_ringbuffer_write (fun _ _ => 1) sample_dvb_ring [1; 2; 3] 2 true = Ret (r', - EFAULT) /\
    ring_ok r' /\ contents r' = contents sample_dvb_ring.
Proof.
  apply (dvb_ringbuffer_write_fault _ sample_dvb_ring [1; 2; 3] 2);
    [exact sample_dvb_ring_ok | concrete..].
Defined.

Lemma write_byte_peek_witness :
  exists r', DVB_RINGBUFFER_WRITE_BYTE sample_dvb_ring 200 = Ret r' /\ ring_ok r' /\
    contents r' = [12; 13; 14; 200] /\
    DVB_RINGBUFFER_PEEK r' (dvb_ringbuffer_avail sample_dvb_ring) = Ret 200.
Proof.
  apply (write_byte_peek sample_dvb_ring 200);
    [exact sample_dvb_ring_ok | concrete | concrete].
Defined.
