(* ===== verification/Ringbuffy.v ===== *)
(** * The ring buffer of libmpegtools

    Models apps/misc/libs/libmpegtools/ringbuffy.c.  [ring_write] and
    [ring_read] accept and deliver as much as fits, and implement the byte queue
    [ByteFifo]; [ring_peek] reads at an offset without consuming;
    [ring_write_file] and [ring_read_file] move bytes from and to a descriptor. *)
From S2P Require Import Prelude CircBuf.

Definition FULL_BUFFER : Z := -1000.

(** [typedef struct ringbuffy]; storage that was never allocated or was freed
    is the empty list, so that every access to it crashes. *)
Record ringbuffy := mk_ringbuffy {
  read_pos : Z;
  write_pos : Z;
  size : Z;
  buffy : list Z }.
#[export] Instance eta_ringbuffy : Eta ringbuffy := fun r =>
  mk_ringbuffy (read_pos r) (write_pos r) (size r) (buffy r).

(** [malloc] gives the block it returned, [None] for a null pointer. *)
Definition ring_init (rbuf : ringbuffy) (sz : Z) (malloc : Z -> option (list Z)) : ringbuffy * Z :=
  if sz >? 0 then
    let rbuf := rbuf <| size := sz |> in
    match malloc sz with
    | None => (rbuf <| buffy := [] |>, -1)
    | Some mem => (rbuf <| buffy := mem |> <| read_pos := 0 |> <| write_pos := 0 |>, 0)
    end
  else (rbuf, -1).

Definition ring_destroy (rbuf : ringbuffy) : ringbuffy := rbuf <| buffy := [] |>.

Definition ring_write (rbuf : ringbuffy) (data : list Z) (count : Z) : outcome (ringbuffy * Z) :=
  if count <=? 0 then Ret (rbuf, 0) else
  let pos := write_pos rbuf in
  let rest := size rbuf - pos in
  let diff := read_pos rbuf - pos in
  let free := if diff >? 0 then diff - 1 else size rbuf + diff - 1 in
  if free <=? 0 then Ret (rbuf, FULL_BUFFER) else
  let count := if free <? count then free else count in
  if count >=? rest then
    b ← memcpy (buffy rbuf) pos data 0 rest;
    b ← (if negb (count - rest =? 0) then memcpy b 0 data rest (count - rest) else Ret b);
    Ret (rbuf <| buffy := b |> <| write_pos := count - rest |>, count)
  else
    b ← memcpy (buffy rbuf) pos data 0 count;
    Ret (rbuf <| buffy := b |> <| write_pos := write_pos rbuf + count |>, count).

Definition ring_peek (rbuf : ringbuffy) (data : list Z) (count off : Z) : outcome (list Z * Z) :=
  if count <=? 0 then Ret (data, 0) else
  let pos := read_pos rbuf + off in
  let rest := size rbuf - pos in
  let diff := write_pos rbuf - pos in
  let free := if diff >=? 0 then diff else size rbuf + diff in
  if free <=? 0 then Ret (data, FULL_BUFFER) else
  let count := if free <? count then free else count in
  if count <? rest then
    data ← memcpy data 0 (buffy rbuf) pos count; Ret (data, count)
  else
    data ← memcpy data 0 (buffy rbuf) pos rest;
    data ← (if negb (count - rest =? 0) then memcpy data rest (buffy rbuf) 0 (count - rest)
            else Ret data);
    Ret (data, count).

Definition ring_read (rbuf : ringbuffy) (data : list Z) (count : Z) : outcome (ringbuffy * list Z * Z) :=
  if count <=? 0 then Ret (rbuf, data, 0) else
  let pos := read_pos rbuf in
  let rest := size rbuf - pos in
  let diff := write_pos rbuf - pos in
  let free := if diff >=? 0 then diff else size rbuf + diff in
  if rest <=? 0 then Ret (rbuf, data, 0) else
  let count := if free <? count then free else count in
  if count <? rest then
    data ← memcpy data 0 (buffy rbuf) pos count;
    Ret (rbuf <| read_pos := read_pos rbuf + count |>, data, count)
  else
    data ← memcpy data 0 (buffy rbuf) pos rest;
    data ← (if negb (count - rest =? 0) then memcpy data rest (buffy rbuf) 0 (count - rest)
            else Ret data);
    Ret (rbuf <| read_pos := count - rest |>, data, count).

Section Descriptor.
(** [sys_read k n]: what the [k]-th [read] of the call returns for [n] bytes,
    and the bytes it stores. *)
Variable sys_read : nat -> Z -> Z * list Z.
(** [sys_write k c]: what the [k]-th [write] of the call returns for [c]. *)
Variable sys_write : nat -> list Z -> Z.

Definition ring_write_file (rbuf : ringbuffy) (count : Z) : outcome (ringbuffy * Z) :=
  if count <=? 0 then Ret (rbuf, 0) else
  let pos := write_pos rbuf in
  let rest := size rbuf - pos in
  let diff := read_pos rbuf - pos in
  let free := if diff >? 0 then diff - 1 else size rbuf + diff - 1 in
  if rest <=? 0 then Ret (rbuf, 0) else
  let count := if free <? count then free else count in
  if count >=? rest then
    let '(rr, c) := sys_read 0 rest in
    b ← write_at (buffy rbuf) pos c;
    '(b, rr) ← (if (rr =? rest) && negb (count - rest =? 0) then
                  let '(rr2, c2) := sys_read 1 (count - rest) in
                  b ← write_at b 0 c2; Ret (b, rr + rr2)
                else Ret (b, rr));
    let rbuf := rbuf <| buffy := b |> in
    if rr >=? 0 then Ret (rbuf <| write_pos := (pos + rr) `rem` size rbuf |>, rr)
    else Ret (rbuf, rr)
  else
    let '(rr, c) := sys_read 0 count in
    b ← write_at (buffy rbuf) pos c;
    let rbuf := rbuf <| buffy := b |> in
    if rr >=? 0 then Ret (rbuf <| write_pos := write_pos rbuf + rr |>, rr)
    else Ret (rbuf, rr).

(** The second component lists the bytes handed to each [write]. *)
Definition ring_read_file (rbuf : ringbuffy) (count : Z) : outcome (ringbuffy * list (list Z) * Z) :=
  if count <=? 0 then Ret (rbuf, [], 0) else
  let pos := read_pos rbuf in
  let rest := size rbuf - pos in
  let diff := write_pos rbuf - pos in
  let free := if diff >=? 0 then diff else size rbuf + diff in
  if free <=? 0 then Ret (rbuf, [], FULL_BUFFER) else
  let count := if free <? count then free else count in
  if count >=? rest then
    c ← read_at (buffy rbuf) pos rest;
    let rr := sys_write 0 c in
    '(out, rr) ← (if (rr =? rest) && negb (count - rest =? 0) then
                    c2 ← read_at (buffy rbuf) 0 (count - rest);
                    Ret ([c; c2], rr + sys_write 1 c2)
                  else Ret ([c], rr));
    if rr >=? 0 then Ret (rbuf <| read_pos := (pos + rr) `rem` size rbuf |>, out, rr)
    else Ret (rbuf, out, rr)
  else
    c ← read_at (buffy rbuf) pos count;
    let rr := sys_write 0 c in
    if rr >=? 0 then Ret (rbuf <| read_pos := read_pos rbuf + rr |>, [c], rr)
    else Ret (rbuf, [c], rr).
End Descriptor.

Definition ring_rest (rbuf : ringbuffy) : Z :=
  let diff := write_pos rbuf - read_pos rbuf in
  if diff >=? 0 then diff else size rbuf + diff.

(** ** The queue a ring stands for *)
Record ring_ok (r : ringbuffy) : Prop := {
  ring_size : size r = zlen (buffy r);
  ring_read_pos : 0 <= read_pos r < size r;
  ring_write_pos : 0 <= write_pos r < size r }.

Definition contents (r : ringbuffy) : list Z := cells (buffy r) (read_pos r) (ring_rest r).

(** Writes report what they accepted, a full ring reports [FULL_BUFFER]. *)
Definition push (r : ringbuffy) (c : list Z) : outcome (ringbuffy * Z) :=
  '(r', k) ← ring_write r c (zlen c); Ret (r', Z.max 0 k).

Definition pull (r : ringbuffy) (n : Z) : outcome (ringbuffy * list Z) :=
  '(r', d, k) ← ring_read r (replicate (Z.to_nat n) 0) n; Ret (r', sub d 0 k).

Lemma rest_used r : ring_rest r = used (size r) (read_pos r) (write_pos r).
Proof.
  unfold ring_rest, used.
  destruct (Z.geb_spec (write_pos r - read_pos r) 0), (Z.leb_spec (read_pos r) (write_pos r)); lia.
Qed.

Lemma rest_bound r : ring_ok r -> 0 <= ring_rest r < size r.
Proof. intros []. rewrite rest_used. by apply used_bound. Qed.

(** The free space as the writers compute it. *)
Lemma free_rest r :
  ring_ok r ->
  (if read_pos r - write_pos r >? 0 then read_pos r - write_pos r - 1
   else size r + (read_pos r - write_pos r) - 1) = size r - 1 - ring_rest r.
Proof.
  intros []. unfold ring_rest.
  destruct (Z.gtb_spec (read_pos r - write_pos r) 0), (Z.geb_spec (write_pos r - read_pos r) 0); lia.
Qed.

Lemma zmin_if a b : (if a <? b then a else b) = Z.min a b.
Proof. destruct (Z.ltb_spec a b); lia. Qed.

(** Storing [c] at the write position appends it. *)
Lemma ring_contents_push r c p :
  ring_ok r -> zlen c <= size r - 1 - ring_rest r ->
  p = (write_pos r + zlen c) mod size r ->
  let r' := r <| buffy := circ_write (buffy r) (write_pos r) c |> <| write_pos := p |> in
  ring_ok r' /\ contents r' = contents r ++ c.
Proof.
  intros Hr Hc ->. pose proof (zlen_nonneg c). pose proof (rest_bound r Hr).
  destruct Hr as [Hs Hrd Hw]. rewrite rest_used in *.
  assert (0 <= (write_pos r + zlen c) mod size r < size r) by (apply Z.mod_pos_bound; lia).
  cbn. split.
  - split; cbn; try lia. rewrite zlen_circ_write; lia.
  - unfold contents. rewrite !rest_used. cbn. rewrite used_push by lia.
    rewrite <- (used_write_pos (size r) (read_pos r) (write_pos r)) at 1 by lia.
    rewrite Hs in *. apply cells_circ_write; lia.
Qed.

(** Advancing the read position removes from the front. *)
Lemma ring_contents_pull r n :
  ring_ok r -> 0 <= n <= ring_rest r ->
  let r' := r <| read_pos := (read_pos r + n) mod size r |> in
  ring_ok r' /\ contents r = circ_read (buffy r) (read_pos r) n ++ contents r'.
Proof.
  intros Hr Hn. pose proof (rest_bound r Hr). destruct Hr as [Hs Hrd Hw].
  rewrite rest_used in *.
  assert (0 <= (read_pos r + n) mod size r < size r) by (apply Z.mod_pos_bound; lia).
  cbn. split; [split; cbn; lia|].
  unfold contents. rewrite !rest_used. cbn. rewrite used_pull by lia.
  rewrite <- cells_read by lia. rewrite Hs in *. apply cells_drop; lia.
Qed.

Definition write_result (r : ringbuffy) (count : Z) : Z :=
  if count <=? 0 then 0
  else if size r - 1 - ring_rest r <=? 0 then FULL_BUFFER
  else Z.min count (size r - 1 - ring_rest r).

Lemma ring_write_correct r data count :
  ring_ok r -> count <= zlen data ->
  exists r', ring_write r data count = Ret (r', write_result r count) /\ ring_ok r' /\
    size r' = size r /\
    contents r' = contents r ++ sub data 0 (Z.max 0 (write_result r count)).
Proof.
  intros Hr Hc. pose proof (rest_bound r Hr) as Hb. pose proof (free_rest r Hr) as Hf.
  pose proof Hr as [Hs Hrd Hw].
  unfold ring_write, write_result. cbv zeta. rewrite Hf.
  destruct (Z.leb_spec count 0).
  { exists r. rewrite sub_0, app_nil_r. done. }
  destruct (Z.leb_spec (size r - 1 - ring_rest r) 0).
  { exists r. unfold FULL_BUFFER. cbn [Z.max]. rewrite sub_0, app_nil_r. done. }
  rewrite zmin_if, (Z.min_comm _ count). set (n := Z.min count _).
  replace (Z.max 0 n) with n by lia.
  destruct (Z.geb_spec n (size r - write_pos r)).
  - rewrite Hs in *. pose proof (memcpy_in_wrap (buffy r) (write_pos r) data n) as E.
    rewrite memcpy_ok in E |- * by lia. cbn in E |- *. rewrite E by lia. cbn.
    eexists. split; [done|].
    destruct (ring_contents_push r (sub data 0 n) (n - (zlen (buffy r) - write_pos r)) Hr) as [? ?];
      [zside| rewrite Hs, <- wrap_pos; zsimpl; try done; lia |].
    rewrite <- ?Hs in *. done.
  - rewrite memcpy_ok by lia. cbn. eexists. split; [done|].
    rewrite <- circ_write_flat by (zsimpl; lia).
    destruct (ring_contents_push r (sub data 0 n) (write_pos r + n) Hr) as [? ?];
      [zside| rewrite Z.mod_small; zside |]. done.
Qed.

Lemma ring_read_correct r data count :
  ring_ok r -> 0 <= count <= zlen data -> let n := Z.min count (ring_rest r) in
  exists r', ring_read r data count =
      Ret (r', blit data 0 (circ_read (buffy r) (read_pos r) n), n) /\ ring_ok r' /\
    size r' = size r /\
    contents r = circ_read (buffy r) (read_pos r) n ++ contents r'.
Proof.
  intros Hr Hc n. pose proof (rest_bound r Hr) as Hb. pose proof Hr as [Hs Hrd Hw].
  unfold ring_read. destruct (Z.leb_spec count 0).
  { assert (n = 0) as -> by lia. exists r. rewrite circ_read_flat, sub_0, blit_nil by lia. done. }
  cbv zeta. fold (ring_rest r). destruct (Z.leb_spec (size r - read_pos r) 0); [lia|].
  rewrite zmin_if, (Z.min_comm _ count). fold n.
  destruct (Z.ltb_spec n (size r - read_pos r)).
  - rewrite memcpy_ok by lia. cbn. eexists.
    rewrite circ_read_flat by lia. split; [done|].
    destruct (ring_contents_pull r n Hr) as [Hr' E]; [lia|].
    rewrite Z.mod_small in Hr', E by lia. rewrite circ_read_flat in E by lia. done.
  - pose proof (memcpy_out_wrap data (buffy r) (read_pos r) n) as E.
    rewrite Hs in *. rewrite memcpy_ok in E |- * by lia. cbn in E |- *. rewrite E by lia. cbn.
    eexists. split; [done|].
    destruct (ring_contents_pull r n Hr) as [Hr' Ec]; [lia|].
    rewrite Hs, wrap_pos in Hr', Ec by lia. done.
Qed.

(** [ring_peek] at an offset inside the waiting bytes that does not pass
    the end of the storage copies the bytes from that offset on and leaves the
    ring alone; its result is how many there were, at most [count]. *)
Theorem ring_peek_correct r data count off :
  ring_ok r -> 0 < count <= zlen data -> 0 <= off < ring_rest r ->
  read_pos r + off < size r ->
  exists out, ring_peek r data count off = Ret (blit data 0 out, zlen out) /\
    out = sub (contents r) off (Z.min count (ring_rest r - off)).
Proof.
  intros Hr Hc Ho Hw. pose proof (rest_bound r Hr) as Hb. pose proof Hr as [Hs Hrd Hwr].
  set (n := Z.min count (ring_rest r - off)).
  exists (circ_read (buffy r) (read_pos r + off) n).
  assert (En : (if write_pos r - (read_pos r + off) >=? 0 then write_pos r - (read_pos r + off)
                else size r + (write_pos r - (read_pos r + off))) = ring_rest r - off).
  { unfold ring_rest in *. destruct (Z.geb_spec (write_pos r - (read_pos r + off)) 0),
      (Z.geb_spec (write_pos r - read_pos r) 0); lia. }
  rewrite zlen_circ_read by lia.
  split.
  - unfold ring_peek. destruct (Z.leb_spec count 0); [lia|]. cbv zeta. rewrite En.
    destruct (Z.leb_spec (ring_rest r - off) 0); [lia|].
    rewrite zmin_if, (Z.min_comm _ count). fold n.
    destruct (Z.ltb_spec n (size r - (read_pos r + off))).
    + rewrite memcpy_ok by lia. cbn. by rewrite circ_read_flat by lia.
    + pose proof (memcpy_out_wrap data (buffy r) (read_pos r + off) n) as E.
      rewrite Hs in *. rewrite memcpy_ok in E |- * by lia. cbn in E |- *. by rewrite E by lia.
  - unfold contents. rewrite <- cells_read by lia.
    apply list_eq. intros i. rewrite lookup_sub, !lookup_cells by lia. zb. do 3 f_equal. lia.
Qed.

#[export] #[refine] Instance ringbuffy_fifo : ByteFifo ringbuffy := {
  ff_ok := ring_ok;
  ff_cap r := size r - 1;
  ff_bytes := contents;
  ff_push := push;
  ff_pull := pull }.
Proof.
  - intros r Hr. pose proof (rest_bound r Hr). unfold contents. rewrite zlen_cells; lia.
  - intros r c Hr. pose proof (zlen_nonneg c). pose proof (rest_bound r Hr).
    destruct (ring_write_correct r c (zlen c) Hr) as (r' & E & Hr' & Hs & Ec); [lia|].
    exists r', (Z.max 0 (write_result r (zlen c))). unfold push. rewrite E. cbn.
    split; [done|]. split; [done|]. split; [lia|]. split; [|done].
    unfold write_result, FULL_BUFFER. repeat case_match; lia.
  - intros r n Hr Hn. pose proof (rest_bound r Hr).
    destruct (ring_read_correct r (replicate (Z.to_nat n) 0) n Hr) as (r' & E & Hr' & Hs & Ec);
      [zside|].
    set (m := Z.min n (ring_rest r)) in *.
    assert (Hl : zlen (circ_read (buffy r) (read_pos r) m) = m).
    { destruct Hr. apply zlen_circ_read; lia. }
    exists r', (circ_read (buffy r) (read_pos r) m). unfold pull. rewrite E. cbn.
    split.
    { pose proof (sub_blit_eq (replicate (Z.to_nat n) 0) 0) as E2.
      specialize (E2 (circ_read (buffy r) (read_pos r) m)). rewrite Hl in E2.
      rewrite E2 by zside. done. }
    split; [done|]. split; [lia|]. split; [|done].
    unfold contents. rewrite zlen_cells by lia. exact Hl.
Defined.

(** C38: [ring_write] and [ring_read] make [ringbuffy] a first-in first-out
    queue: after any sequence of writes and reads, the bytes that waited at the
    start followed by the accepted ones are the bytes read followed by those
    still waiting; no operation crashes, and the ring stays well formed. *)
Theorem ringbuffy_is_fifo (r : ringbuffy) (ops : list fifo_op) :
  ring_ok r -> ops_ok ops -> exists r' acc out,
    fifo_run r ops = Ret (r', acc, out) /\ ring_ok r' /\ size r' - 1 = size r - 1 /\
    contents r ++ acc = out ++ contents r'.
Proof. intros Hr Ho. exact (fifo_run_ok ops r Hr Ho). Qed.

(** How much [ring_write] accepts: nothing for a non-positive count,
    [FULL_BUFFER] when no space is left, and otherwise as much as fits; the
    accepted bytes are appended to those waiting. *)
Theorem ring_write_accepts r data count :
  ring_ok r -> count <= zlen data ->
  exists r' k, ring_write r data count = Ret (r', k) /\ ring_ok r' /\
    k = (if count <=? 0 then 0
         else if size r - 1 - ring_rest r <=? 0 then FULL_BUFFER
         else Z.min count (size r - 1 - ring_rest r)) /\
    contents r' = contents r ++ sub data 0 (Z.max 0 k).
Proof.
  intros Hr Hc. destruct (ring_write_correct r data count Hr Hc) as (r' & E & Hr' & _ & Ec).
  exists r', (write_result r count). done.
Qed.

(** Storing [c] but counting only its first [k] bytes appends those. *)
Lemma contents_push_part r c k :
  ring_ok r -> write_pos r + zlen c <= size r -> zlen c <= size r - 1 - ring_rest r ->
  0 <= k <= zlen c ->
  let r' := r <| buffy := blit (buffy r) (write_pos r) c |>
              <| write_pos := (write_pos r + k) mod size r |> in
  ring_ok r' /\ contents r' = contents r ++ sub c 0 k.
Proof.
  intros Hr Hw Hc Hk r'. pose proof (rest_bound r Hr) as Hb. pose proof (zlen_nonneg c).
  destruct (ring_contents_push r (sub c 0 k) ((write_pos r + k) mod size r) Hr) as [Hr1 E1];
    [zside | f_equal; zside |].
  destruct (ring_contents_push r c ((write_pos r + zlen c) mod size r) Hr) as [_ E2]; [lia|done|].
  pose proof Hr as [Hs Hrd Hwr].
  assert (Ep : ring_rest r' = ring_rest r + k).
  { rewrite !rest_used in *. apply used_push; lia. }
  split. { split; cbn; zsimpl; try lia. apply Z.mod_pos_bound. lia. }
  apply (f_equal (fun l => sub l 0 (ring_rest r + k))) in E2.
  assert (Hzc : zlen (contents r) = ring_rest r) by (unfold contents; rewrite zlen_cells; lia).
  assert (E3 : sub (contents r ++ c) 0 (ring_rest r + k) = contents r ++ sub c 0 k).
  { rewrite sub_split, sub_app_l, sub_all, sub_app_r by lia. do 2 f_equal. lia. }
  rewrite <- E3, <- E2. unfold contents. rewrite Ep, circ_write_flat by lia.
  match goal with |- context [ring_rest ?x] =>
    assert (Eq : ring_rest x = ring_rest r + zlen c)
      by (rewrite !rest_used in *; apply used_push; lia) end.
  rewrite Eq. apply list_eq. intros i. rewrite lookup_sub, !lookup_cells by lia. zb.
Qed.

(** When the second read of a wrapped [ring_write_file] fails, its [-1] is
    added to the count of the first, which was complete: the result is one
    less than the bytes read, and the last of them is dropped from the ring. *)
Theorem ring_write_file_second_read_fails (rd : nat -> Z -> Z * list Z) r count c :
  ring_ok r -> size r - write_pos r < Z.min count (size r - 1 - ring_rest r) ->
  let rest := size r - write_pos r in
  zlen c = rest -> rd 0%nat rest = (rest, c) ->
  rd 1%nat (Z.min count (size r - 1 - ring_rest r) - rest) = (-1, []) ->
  exists r', ring_write_file rd r count = Ret (r', rest - 1) /\ ring_ok r' /\
    contents r' = contents r ++ sub c 0 (rest - 1).
Proof.
  intros Hr Hn rest Hl E1 E2. pose proof (rest_bound r Hr) as Hb.
  pose proof (free_rest r Hr) as Hfr. pose proof Hr as [Hs Hrd Hw].
  assert (Er : rest = size r - write_pos r) by done. clearbody rest.
  unfold ring_write_file. destruct (Z.leb_spec count 0); [lia|].
  cbv zeta. rewrite <- Er. destruct (Z.leb_spec rest 0); [lia|].
  rewrite Hfr, zmin_if, (Z.min_comm _ count). set (n := Z.min count _) in *.
  destruct (Z.geb_spec n rest); [|lia]. rewrite E1.
  rewrite write_at_ok by lia. cbn. rewrite Z.eqb_refl.
  destruct (Z.eqb_spec (n - rest) 0); [lia|]. cbn. rewrite E2. cbn.
  rewrite write_at_ok by zside. rewrite blit_nil. cbn.
  destruct (Z.geb_spec (rest + -1) 0); [|lia]. cbn.
  replace (rest + -1) with (rest - 1) by lia.
  eexists. split; [done|]. rewrite Z.rem_mod_nonneg by lia.
  apply contents_push_part; try done; lia.
Qed.

(** The two pieces of a wrapped transfer, the first of them complete. *)
Lemma contents_push_two r c c2 :
  ring_ok r -> zlen c = size r - write_pos r -> zlen c + zlen c2 <= size r - 1 - ring_rest r ->
  let r' := r <| buffy := blit (blit (buffy r) (write_pos r) c) 0 c2 |>
              <| write_pos := (write_pos r + (zlen c + zlen c2)) mod size r |> in
  ring_ok r' /\ contents r' = contents r ++ c ++ c2.
Proof.
  intros Hr Hc Hn. pose proof (rest_bound r Hr). pose proof (zlen_nonneg c2).
  pose proof Hr as [Hs Hrd Hw]. pose proof (zlen_nonneg c).
  assert (E : blit (blit (buffy r) (write_pos r) c) 0 c2 =
              circ_write (buffy r) (write_pos r) (c ++ c2)).
  { unfold circ_write. zsimpl.
    destruct (Z.leb_spec (write_pos r + (zlen c + zlen c2)) (zlen (buffy r))).
    - destruct c2; [|zsimpl_in H2; pose proof (zlen_nonneg c2); lia].
      by rewrite blit_nil, app_nil_r.
    - rewrite sub_app_l, (sub_all c), sub_app_r by lia.
      replace (zlen (buffy r) - write_pos r - zlen c) with 0 by lia.
      by rewrite sub_all by lia. }
  rewrite E. apply ring_contents_push; [done|zside|]. f_equal. zside.
Qed.

(** When the descriptor's reads do not fail and store as many bytes as
    they report, [ring_write_file] appends the bytes of the first read, followed
    by those of the second if the transfer wraps, and returns their number. *)
Theorem ring_write_file_appends (rd : nat -> Z -> Z * list Z) r count :
  ring_ok r -> 0 < count ->
  (forall k n, 0 <= n -> 0 <= fst (rd k n) <= n /\ zlen (snd (rd k n)) = fst (rd k n)) ->
  let n := Z.min count (size r - 1 - ring_rest r) in
  let c := snd (rd 0%nat (Z.min n (size r - write_pos r))) in
  let c2 := snd (rd 1%nat (n - (size r - write_pos r))) in
  let got := if zlen c + write_pos r <? size r then c
             else if n <=? zlen c then c else c ++ c2 in
  exists r', ring_write_file rd r count = Ret (r', zlen got) /\ ring_ok r' /\
    contents r' = contents r ++ got.
Proof.
  intros Hr Hn Hrd n c c2 got. pose proof (rest_bound r Hr) as Hb.
  pose proof (free_rest r Hr) as Hfr. pose proof Hr as [Hs Hrp Hw].
  unfold ring_write_file. destruct (Z.leb_spec count 0); [lia|]. cbv zeta.
  destruct (Z.leb_spec (size r - write_pos r) 0); [lia|].
  rewrite Hfr, zmin_if, (Z.min_comm _ count). fold n.
  assert (Hn0 : 0 <= n <= size r - 1 - ring_rest r) by lia.
  unfold got, c. clear got c. set (m := Z.min n (size r - write_pos r)) in *.
  pose proof (Hrd 0%nat m ltac:(lia)) as [H1 H2].
  destruct (rd 0%nat m) as [rr c] eqn:E0. cbn in H1, H2. subst rr. cbn [snd].
  assert (Hone : forall p, p = (write_pos r + zlen c) mod size r ->
    let r' := r <| buffy := blit (buffy r) (write_pos r) c |> <| write_pos := p |> in
    ring_ok r' /\ contents r' = contents r ++ c).
  { intros p ->. pose proof (contents_push_part r c (zlen c) Hr) as E.
    rewrite sub_all in E by lia. apply E; lia. }
  destruct (Z.geb_spec n (size r - write_pos r)) as [Hge|Hlt].
  - assert (Em : m = size r - write_pos r) by lia. rewrite <- Em, E0, Em in *.
    rewrite write_at_ok by lia. cbn.
    destruct (Z.eqb_spec (zlen c) (size r - write_pos r)), (Z.ltb_spec (zlen c + write_pos r) (size r)),
      (Z.eqb_spec (n - (size r - write_pos r)) 0), (Z.leb_spec n (zlen c)); cbn; try lia;
      try (destruct (Z.geb_spec (zlen c) 0); [|lia]; eexists; split; [done|];
           rewrite Z.rem_mod_nonneg by lia; by apply Hone).
    pose proof (Hrd 1%nat (n - (size r - write_pos r)) ltac:(lia)) as [H5 H6]. fold c2 in H6.
    destruct (rd 1%nat _) as [rr2 d2]. cbn in *. subst c2 rr2.
    rewrite write_at_ok by zside. cbn. destruct (Z.geb_spec (zlen c + zlen d2) 0); [|lia].
    zsimpl. eexists. split; [done|]. rewrite Z.rem_mod_nonneg by lia.
    apply contents_push_two; done || lia.
  - assert (Em : m = n) by lia. rewrite <- Em, E0, Em in *.
    destruct (Z.ltb_spec (zlen c + write_pos r) (size r)); [|lia].
    rewrite write_at_ok by lia. cbn. destruct (Z.geb_spec (zlen c) 0); [|lia].
    eexists. split; [done|]. apply Hone. symmetry. apply Z.mod_small. lia.
Qed.

(** *** Witnesses *)
Definition sample_ring : ringbuffy := mk_ringbuffy 6 5 8 [10; 11; 12; 13; 14; 15; 16; 17].

Lemma sample_ring_ok : ring_ok sample_ring.
Proof. concrete. Qed.

Lemma ring_peek_correct_witness :
  exists out, ring_peek sample_ring (replicate 9 0) 9 1 = Ret (blit (replicate 9 0) 0 out, zlen out) /\
    out = [17; 10; 11; 12; 13; 14].
Proof.
  apply (ring_peek_correct sample_ring (replicate 9 0) 9 1);
    [exact sample_ring_ok | concrete..].
Defined.

Lemma ringbuffy_is_fifo_witness : exists r' acc out,
  fifo_run sample_ring [Pull 4; Push [1; 2; 3]; Pull 7] = Ret (r', acc, out) /\
  ring_ok r' /\ size r' - 1 = 7 /\ contents sample_ring ++ acc = out ++ contents r'.
Proof.
  apply (ringbuffy_is_fifo sample_ring [Pull 4; Push [1; 2; 3]; Pull 7]);
    [exact sample_ring_ok | repeat constructor; concrete].
Defined.

Lemma ring_write_accepts_witness : exists r' k,
  ring_write sample_ring [1; 2] 2 = Ret (r', k) /\ ring_ok r' /\ k = FULL_BUFFER /\
  contents r' = contents sample_ring ++ sub [1; 2] 0 (Z.max 0 k).
Proof.
  apply (ring_write_accepts sample_ring [1; 2] 2); [exact sample_ring_ok | concrete].
Defined.

Definition sample_wrapped : ringbuffy := mk_ringbuffy 5 6 8 [10; 11; 12; 13; 14; 15; 16; 17].

Lemma ring_write_file_second_read_fails_witness :
  exists r', ring_write_file (fun k _ => if k is 0%nat then (2, [1; 2]) else (-1, [])) sample_wrapped 4
      = Ret (r', 2 - 1) /\ ring_ok r' /\
    contents r' = contents sample_wrapped ++ sub [1; 2] 0 (2 - 1).
Proof.
  apply (ring_write_file_second_read_fails
    (fun k _ => if k is 0%nat then (2, [1; 2]) else (-1, [])) sample_wrapped 4 [1; 2]);
    first [concrete | reflexivity].
Defined.

(** A descriptor that always delivers what it is asked for. *)
Definition zero_source (k : nat) (n : Z) : Z * list Z := (Z.max 0 n, replicate (Z.to_nat n) 0).

Lemma ring_write_file_appends_witness :
  exists r', ring_write_file zero_source sample_wrapped 4 = Ret (r', 4) /\ ring_ok r' /\
    contents r' = [15; 0; 0; 0; 0].
Proof.
  apply (ring_write_file_appends zero_source sample_wrapped 4); [concrete | concrete |].
  intros k n Hn. unfold zero_source. cbn [fst snd]. rewrite zlen_replicate. lia.
Defined.
