(* ===== verification/DmxBuffer.v ===== *)
(** * The buffer between the demultiplexer and a reading process

    Models [dvb_dmxdev_buffer_init], [dvb_dmxdev_buffer_write] and
    [dvb_dmxdev_buffer_read] of driver/dvb/drivers/media/dvb/dvb-core/dmxdev.c.
    A write is all or nothing; a read takes what is there, sleeps for more when
    it may block, and reports an error that a producer left behind by dropping
    the bytes that waited.  Without errors the pair implements [ByteFifo]. *)
From S2P Require Import Prelude CircBuf.


(** [struct dmxdev_buffer]; [data] is [None] for a null pointer. *)
Record dmxdev_buffer := mk_dmxdev_buffer {
  data : option (list Z);
  size : Z;
  pread : Z;
  pwrite : Z;
  error : Z }.
#[export] Instance eta_dmxdev_buffer : Eta dmxdev_buffer := fun b =>
  mk_dmxdev_buffer (data b) (size b) (pread b) (pwrite b) (error b).

Definition dvb_dmxdev_buffer_init (b : dmxdev_buffer) : dmxdev_buffer :=
  b <| data := None |> <| size := 8192 |> <| pread := 0 |> <| pwrite := 0 |> <| error := 0 |>.

(** [a % size] on [int]s. *)
Definition rem_size (a sz : Z) : outcome Z := if sz =? 0 then Crash else Ret (a `rem` sz).

Definition dvb_dmxdev_buffer_write (buf : dmxdev_buffer) (src : list Z) (len : Z)
  : outcome (dmxdev_buffer * Z) :=
  if len =? 0 then Ret (buf, 0) else
  match data buf with
  | None => Ret (buf, 0)
  | Some d =>
    let free := pread buf - pwrite buf in
    let '(free, split) :=
      if free <=? 0 then (free + size buf, size buf - pwrite buf) else (free, 0) in
    if len >=? free then Ret (buf, -1) else
    let split := if split >=? len then 0 else split in
    let todo := len in
    '(d, todo, pw) ← (if negb (split =? 0) then
                        d ← memcpy d (pwrite buf) src 0 split;
                        Ret (d, todo - split, 0)
                      else Ret (d, todo, pwrite buf));
    d ← memcpy d pw src split todo;
    pw ← rem_size (pw + todo) (size buf);
    Ret (buf <| data := Some d |> <| pwrite := pw |>, len)
  end.

Section Read.
(** [user_fault off n]: does [copy_to_user] of [n] bytes to offset [off] fault? *)
Variable user_fault : Z -> Z -> bool.
(** What happens while the reader sleeps: [None] when a signal interrupts it,
    otherwise the buffer as the producers left it when the reader is woken. *)
Variable wait : dmxdev_buffer -> option dmxdev_buffer.

(** [copy_to_user (buf + off, src->data + pos, n)]: [None] on a fault. *)
Definition copy_to_user (b : dmxdev_buffer) (buf : list Z) (off pos n : Z) : outcome (option (list Z)) :=
  match data b with
  | None => Crash
  | Some d => if user_fault off n then Ret None else out ← memcpy buf off d pos n; Ret (Some out)
  end.

(** [wait_event_interruptible]: no sleep when the condition already holds. *)
Definition wait_event (b : dmxdev_buffer) : option dmxdev_buffer :=
  if negb (pread b =? pwrite b) || negb (error b =? 0) then Some b else wait b.

(** Dropping the waiting bytes and reporting the producers' error. *)
Definition take_error (b : dmxdev_buffer) : dmxdev_buffer * Z :=
  (b <| pwrite := pread b |> <| error := 0 |>, error b).

(** The [while (todo > 0)] loop; [off] is how far [buf] has been filled. *)
Fixpoint read_loop (fuel : nat) (non_blocking : bool) (src : dmxdev_buffer) (buf : list Z)
    (off todo count : Z) : outcome (dmxdev_buffer * list Z * Z) :=
  if todo <=? 0 then Ret (src, buf, count) else
  match fuel with
  | O => Hang
  | S fuel =>
    if non_blocking && (pwrite src =? pread src) then
      Ret (src, buf, if negb (count - todo =? 0) then count - todo else - EWOULDBLOCK)
    else match wait_event src with
    | None => Ret (src, buf, count - todo)
    | Some src =>
      if negb (error src =? 0) then let '(src, e) := take_error src in Ret (src, buf, e) else
      let avail := pwrite src - pread src in
      let '(avail, split) :=
        if avail <? 0 then (avail + size src, size src - pread src) else (avail, size src) in
      let avail := if avail >? todo then todo else avail in
      r ← (if split <? avail then
             o ← copy_to_user src buf off (pread src) split;
             match o with
             | None => Ret None
             | Some buf => Ret (Some (src <| pread := 0 |>, buf, off + split, todo - split, avail - split))
             end
           else Ret (Some (src, buf, off, todo, avail)));
      match r with
      | None => Ret (src, buf, - EFAULT)
      | Some (src, buf, off, todo, avail) =>
        if negb (avail =? 0) then
          o ← copy_to_user src buf off (pread src) avail;
          match o with
          | None => Ret (src, buf, - EFAULT)
          | Some buf =>
            p ← rem_size (pread src + avail) (size src);
            read_loop fuel non_blocking (src <| pread := p |>) buf (off + avail) (todo - avail) count
          end
        else read_loop fuel non_blocking src buf off todo count
      end
    end
  end.

(** Fuel: every turn of the loop that does not return moves at least one byte. *)
Definition dvb_dmxdev_buffer_read (src : dmxdev_buffer) (non_blocking : bool) (buf : list Z) (count : Z)
  : outcome (dmxdev_buffer * list Z * Z) :=
  match data src with
  | None => Ret (src, buf, 0)
  | Some _ =>
    if negb (error src =? 0) then let '(src, e) := take_error src in Ret (src, buf, e)
    else if non_blocking && (pwrite src =? pread src) then Ret (src, buf, - EWOULDBLOCK)
    else read_loop (S (Z.to_nat count)) non_blocking src buf 0 count count
  end.
End Read.

#[global] Arguments rem_size : simpl never.
#[global] Arguments copy_to_user : simpl never.

(** ** The queue a buffer stands for *)
Definition storage (b : dmxdev_buffer) : list Z := default [] (data b).
Definition waiting (b : dmxdev_buffer) : Z := used (size b) (pread b) (pwrite b).
Definition contents (b : dmxdev_buffer) : list Z := cells (storage b) (pread b) (waiting b).

Record buffer_ok (b : dmxdev_buffer) : Prop := {
  buffer_data : exists d, data b = Some d /\ zlen d = size b;
  buffer_pread : 0 <= pread b < size b;
  buffer_pwrite : 0 <= pwrite b < size b }.

(** Readers that are never woken and never fault, for non-blocking use. *)
Definition no_fault (off n : Z) : bool := false.
Definition no_wait (b : dmxdev_buffer) : option dmxdev_buffer := None.

Definition push (b : dmxdev_buffer) (c : list Z) : outcome (dmxdev_buffer * Z) :=
  '(b, r) ← dvb_dmxdev_buffer_write b c (zlen c); Ret (b, Z.max 0 r).

Definition pull (b : dmxdev_buffer) (n : Z) : outcome (dmxdev_buffer * list Z) :=
  '(b, d, r) ← dvb_dmxdev_buffer_read no_fault no_wait b true (replicate (Z.to_nat n) 0) n;
  Ret (b, sub d 0 (Z.max 0 r)).

Lemma waiting_bound b : buffer_ok b -> 0 <= waiting b < size b.
Proof. intros []. by apply used_bound. Qed.

Lemma zlen_contents b : buffer_ok b -> zlen (contents b) = waiting b.
Proof. intros H. pose proof (waiting_bound b H). apply zlen_cells. lia. Qed.

Lemma rem_size_ok a sz : 0 < sz -> 0 <= a -> rem_size a sz = Ret (a mod sz).
Proof.
  intros. unfold rem_size. destruct (Z.eqb_spec sz 0); [lia|].
  by rewrite Z.rem_mod_nonneg by lia.
Qed.

Lemma buffer_contents_push b d c :
  buffer_ok b -> data b = Some d -> zlen c <= size b - 1 - waiting b ->
  let b' := b <| data := Some (circ_write d (pwrite b) c) |>
              <| pwrite := (pwrite b + zlen c) mod size b |> in
  buffer_ok b' /\ contents b' = contents b ++ c.
Proof.
  intros Hb Hd Hc. pose proof (zlen_nonneg c). pose proof (waiting_bound b Hb).
  destruct Hb as [(d' & Hd' & Hs) Hr Hw]. rewrite Hd in Hd'. injection Hd' as <-.
  unfold waiting in *.
  assert (0 <= (pwrite b + zlen c) mod size b < size b) by (apply Z.mod_pos_bound; lia).
  cbn. split.
  - split; cbn; try lia. eexists. split; [done|]. rewrite zlen_circ_write; lia.
  - unfold contents, waiting, storage. cbn. rewrite Hd. cbn. rewrite used_push by lia.
    rewrite <- (used_write_pos (size b) (pread b) (pwrite b)) at 1 by lia.
    rewrite <- Hs in *. apply cells_circ_write; lia.
Qed.

Lemma buffer_contents_pull b d n :
  buffer_ok b -> data b = Some d -> 0 <= n <= waiting b ->
  let b' := b <| pread := (pread b + n) mod size b |> in
  buffer_ok b' /\ contents b = circ_read d (pread b) n ++ contents b'.
Proof.
  intros Hb Hd Hn. pose proof (waiting_bound b Hb) as Hwb.
  destruct Hb as [(d' & Hd' & Hs) Hr Hw]. rewrite Hd in Hd'. injection Hd' as <-.
  unfold waiting in *.
  assert (0 <= (pread b + n) mod size b < size b) by (apply Z.mod_pos_bound; lia).
  cbn. split; [split; cbn; [eauto|lia..]|].
  unfold contents, waiting, storage. cbn. rewrite Hd. cbn. rewrite used_pull by lia.
  rewrite <- cells_read by lia. rewrite <- Hs in *. apply cells_drop; lia.
Qed.

Lemma buffer_write_spec b src len :
  buffer_ok b -> 0 <= len <= zlen src ->
  if (negb (len =? 0) && (size b - waiting b <=? len))%bool then
    dvb_dmxdev_buffer_write b src len = Ret (b, -1)
  else exists b', dvb_dmxdev_buffer_write b src len = Ret (b', len) /\ buffer_ok b' /\
    size b' = size b /\ error b' = error b /\ contents b' = contents b ++ sub src 0 len.
Proof.
  intros Hb Hl. pose proof (waiting_bound b Hb) as Hw.
  pose proof Hb as [(d & Hd & Hs) Hr Hwr]. unfold dvb_dmxdev_buffer_write. rewrite Hd.
  destruct (Z.eqb_spec len 0) as [->|Hne]; cbn [negb andb].
  { exists b. rewrite sub_0, app_nil_r. done. }
  assert (Hflat : pwrite b + len <= size b -> len < size b - waiting b -> exists b',
    (d0 ← memcpy d (pwrite b) src 0 len;
     pw ← rem_size (pwrite b + len) (size b);
     Ret (b <| data := Some d0 |> <| pwrite := pw |>, len)) = Ret (b', len) /\ buffer_ok b' /\
    size b' = size b /\ error b' = error b /\ contents b' = contents b ++ sub src 0 len).
  { intros. rewrite memcpy_ok by lia. cbn. rewrite rem_size_ok by lia. cbn.
    destruct (buffer_contents_push b d (sub src 0 len) Hb Hd) as [Hok Hc]; [zside|].
    rewrite circ_write_flat in Hok, Hc by zside. rewrite zlen_sub in Hok, Hc by lia. eauto 6. }
  unfold waiting, used in *.
  destruct (Z.leb_spec (pread b - pwrite b) 0), (Z.leb_spec (pread b) (pwrite b)); try lia;
    cbn -[Z.leb Z.geb]; cbv zeta.
  - destruct (Z.geb_spec len (pread b - pwrite b + size b)),
      (Z.leb_spec (size b - (pwrite b - pread b)) len); try done; try lia.
    destruct (Z.geb_spec (size b - pwrite b) len); cbn -[Z.eqb].
    + apply Hflat; lia.
    + destruct (Z.eqb_spec (size b - pwrite b) 0); [lia|]. cbn.
      rewrite memcpy_ok by lia. cbn. rewrite memcpy_ok by zside. cbn.
      rewrite rem_size_ok by lia. cbn. eexists. split; [done|].
      destruct (buffer_contents_push b d (sub src 0 len) Hb Hd) as [Hok Hc];
        [unfold waiting, used; zsimpl; case_match; lia|].
      rewrite zlen_sub, wrap_pos in Hok, Hc by lia.
      unfold circ_write in Hok, Hc. rewrite zlen_sub in Hok, Hc by lia. rewrite Hs in Hok, Hc.
      destruct (Z.leb_spec (pwrite b + len) (size b)) in Hok, Hc; [lia|].
      rewrite !sub_sub in Hok, Hc by lia.
      replace (0 + (len - (size b - pwrite b))) with (len - (size b - pwrite b)) by lia.
      rewrite Z.mod_small by lia. done.
  - destruct (Z.geb_spec len (pread b - pwrite b)),
      (Z.leb_spec (size b - (size b + pwrite b - pread b)) len); try done; try lia.
    destruct (Z.geb_spec 0 len); [lia|]. cbn. apply Hflat; lia.
Qed.

Lemma copy_to_user_ok d b buf off pos n :
  data b = Some d -> 0 <= off -> 0 <= pos -> 0 <= n -> off + n <= zlen buf -> pos + n <= zlen d ->
  copy_to_user no_fault b buf off pos n = Ret (Some (blit buf off (sub d pos n))).
Proof. intros Hd ? ? ? ? ?. unfold copy_to_user, no_fault. rewrite Hd. by rewrite memcpy_ok by lia. Qed.

(** One turn of the read loop on a buffer with bytes waiting moves as many of
    them as are wanted. *)
Lemma read_turn wt fuel nb b buf off todo count :
  buffer_ok b -> error b = 0 -> 0 < waiting b -> 0 < todo -> 0 <= off -> off + todo <= zlen buf ->
  let n := Z.min todo (waiting b) in
  exists b' out, read_loop no_fault wt (S fuel) nb b buf off todo count =
      read_loop no_fault wt fuel nb b' (blit buf off out) (off + n) (todo - n) count /\
    buffer_ok b' /\ error b' = 0 /\ size b' = size b /\ zlen out = n /\
    contents b = out ++ contents b'.
Proof.
  intros Hb He Hwt Ht Ho Hbuf n. pose proof (waiting_bound b Hb) as Hw.
  pose proof Hb as [(d & Hd & Hs) Hr Hwr].
  destruct (buffer_contents_pull b d n Hb Hd) as [Hok Hc]; [lia|].
  exists (b <| pread := (pread b + n) mod size b |>), (circ_read d (pread b) n).
  assert (Hz : zlen (circ_read d (pread b) n) = n) by (apply zlen_circ_read; lia).
  split; [|done]. cbn [read_loop].
  assert (Hne : (pread b =? pwrite b) = false).
  { apply Z.eqb_neq. intros E. unfold waiting, used in Hwt. rewrite E in Hwt.
    destruct (Z.leb_spec (pwrite b) (pwrite b)); lia. }
  destruct (Z.leb_spec todo 0); [lia|].
  rewrite (Z.eqb_sym (pwrite b)), Hne, andb_false_r.
  unfold wait_event. rewrite Hne. cbn [negb orb]. rewrite He. cbn [negb Z.eqb].
  unfold waiting, used in n, Hw, Hwt.
  destruct (Z.ltb_spec (pwrite b - pread b) 0), (Z.leb_spec (pread b) (pwrite b)); try lia.
  - assert (En : (if pwrite b - pread b + size b >? todo then todo else pwrite b - pread b + size b) = n)
      by (destruct (Z.gtb_spec (pwrite b - pread b + size b) todo); lia).
    rewrite En. destruct (Z.ltb_spec (size b - pread b) n).
    + rewrite (copy_to_user_ok d) by (done || lia). cbn.
      destruct (Z.eqb_spec (n - (size b - pread b)) 0); [lia|]. cbn.
      rewrite (copy_to_user_ok d) by (done || zside). cbn. rewrite rem_size_ok by lia. cbn.
      unfold circ_read. destruct (Z.leb_spec (pread b + n) (zlen d)); [lia|].
      rewrite <- blit_blit by zside. rewrite zlen_sub, Hs by lia.
      rewrite (wrap_pos (pread b)) by lia. rewrite Z.mod_small by lia.
      rewrite Z.add_0_l. f_equal; lia.
    + cbn. destruct (Z.eqb_spec n 0); [lia|]. cbn.
      rewrite (copy_to_user_ok d) by (done || lia). cbn. rewrite rem_size_ok by lia. cbn.
      by rewrite circ_read_flat by lia.
  - assert (En : (if pwrite b - pread b >? todo then todo else pwrite b - pread b) = n)
      by (destruct (Z.gtb_spec (pwrite b - pread b) todo); lia).
    rewrite En. destruct (Z.ltb_spec (size b) n); [lia|]. cbn.
    destruct (Z.eqb_spec n 0); [lia|]. cbn.
    rewrite (copy_to_user_ok d) by (done || lia). cbn. rewrite rem_size_ok by lia. cbn.
    by rewrite circ_read_flat by lia.
Qed.

Lemma read_loop_done u wt fuel nb b buf off todo count :
  todo <= 0 -> read_loop u wt fuel nb b buf off todo count = Ret (b, buf, count).
Proof. intros. destruct fuel; cbn [read_loop]; destruct (Z.leb_spec todo 0); done || lia. Qed.

Lemma waiting_0_empty b : buffer_ok b -> waiting b = 0 -> pread b = pwrite b.
Proof. intros [] Hz. unfold waiting, used in Hz. destruct (Z.leb_spec (pread b) (pwrite b)); lia. Qed.

Lemma buffer_read_spec wt b buf count :
  buffer_ok b -> error b = 0 -> 0 <= count <= zlen buf ->
  if waiting b =? 0 then
    dvb_dmxdev_buffer_read no_fault wt b true buf count = Ret (b, buf, - EWOULDBLOCK)
  else exists b' out, dvb_dmxdev_buffer_read no_fault wt b true buf count
      = Ret (b', blit buf 0 out, zlen out) /\ buffer_ok b' /\ error b' = 0 /\ size b' = size b /\
    zlen out = Z.min count (waiting b) /\ contents b = out ++ contents b'.
Proof.
  intros Hb He Hc. pose proof (waiting_bound b Hb) as Hw.
  pose proof Hb as [(d & Hd & Hs) Hr Hwr].
  unfold dvb_dmxdev_buffer_read. rewrite Hd, He. cbn [Z.eqb negb andb].
  destruct (Z.eqb_spec (waiting b) 0) as [E|E].
  { rewrite (waiting_0_empty b Hb E), Z.eqb_refl. done. }
  destruct (Z.eqb_spec (pwrite b) (pread b)) as [Ep|_].
  { unfold waiting, used in E. rewrite Ep in E. case_match; lia. }
  destruct (decide (count = 0)) as [->|Hc0].
  { exists b, []. rewrite read_loop_done, blit_nil by lia. rewrite zlen_nil.
    repeat split; try done; try lia; exists d; done. }
  destruct (read_turn wt (Z.to_nat count) true b buf 0 count count) as (b' & out & E1 & Hb' & He' & Hs' & Hz & Ec);
    try done; try lia.
  exists b', out. rewrite E1. split; [|done].
  rewrite Z.add_0_l. destruct (Z.leb_spec count (waiting b)).
  { rewrite read_loop_done by lia. do 2 f_equal. lia. }
  assert (Hw' : waiting b' = 0).
  { apply (f_equal zlen) in Ec. rewrite zlen_app, !zlen_contents in Ec by done. lia. }
  destruct (Z.to_nat count) eqn:Ef; [lia|]. cbn [read_loop].
  destruct (Z.leb_spec (count - count `min` waiting b) 0); [lia|].
  rewrite (waiting_0_empty b' Hb' Hw'), Z.eqb_refl. cbn [andb].
  destruct (Z.eqb_spec (count - (count - count `min` waiting b)) 0); [lia|].
  cbn [negb]. do 2 f_equal. lia.
Qed.

(** [dvb_dmxdev_buffer_write] is all or nothing.  A write that does not fit
    (one cell is kept free) returns [-1] and changes nothing; any other write
    returns its length and appends all its bytes to those waiting. *)
Theorem buffer_write_all_or_nothing b src len :
  buffer_ok b -> 0 <= len <= zlen src ->
  if (negb (len =? 0) && (size b - waiting b <=? len))%bool then
    dvb_dmxdev_buffer_write b src len = Ret (b, -1)
  else exists b', dvb_dmxdev_buffer_write b src len = Ret (b', len) /\ buffer_ok b' /\
    size b' = size b /\ error b' = error b /\ contents b' = contents b ++ sub src 0 len.
Proof. apply buffer_write_spec. Qed.

(** A non-blocking [dvb_dmxdev_buffer_read] of a buffer without error
    returns [-EWOULDBLOCK] when nothing waits, and otherwise delivers the oldest
    bytes, as many as are wanted and there, removes exactly those and returns
    their number. *)
Theorem buffer_read_nonblocking wt b buf count :
  buffer_ok b -> error b = 0 -> 0 <= count <= zlen buf ->
  if waiting b =? 0 then
    dvb_dmxdev_buffer_read no_fault wt b true buf count = Ret (b, buf, - EWOULDBLOCK)
  else exists b' out, dvb_dmxdev_buffer_read no_fault wt b true buf count
      = Ret (b', blit buf 0 out, zlen out) /\ buffer_ok b' /\ error b' = 0 /\ size b' = size b /\
    zlen out = Z.min count (waiting b) /\ contents b = out ++ contents b'.
Proof. apply buffer_read_spec. Qed.

#[export] #[refine] Instance dmxdev_buffer_fifo : ByteFifo dmxdev_buffer := {
  ff_ok b := buffer_ok b /\ error b = 0;
  ff_cap b := size b - 1;
  ff_bytes := contents;
  ff_push := push;
  ff_pull := pull }.
Proof.
  - intros b [Hb _]. pose proof (waiting_bound b Hb). rewrite zlen_contents by done. lia.
  - intros b c [Hb He]. pose proof (zlen_nonneg c).
    pose proof (buffer_write_spec b c (zlen c) Hb ltac:(lia)) as H1.
    unfold push. case_match.
    + exists b, 0. rewrite H1. cbn. rewrite sub_0, app_nil_r. repeat split; try done; try lia; apply Hb.
    + destruct H1 as (b' & E & Hb' & Hs & Ee & Ec). exists b', (zlen c). rewrite E. cbn.
      rewrite Z.max_r by lia. repeat split; try done; try lia; try apply Hb'.
  - intros b n [Hb He] Hn. pose proof (waiting_bound b Hb).
    pose proof (buffer_read_spec no_wait b (replicate (Z.to_nat n) 0) n Hb He ltac:(zside)) as H1.
    unfold pull. case_match.
    + exists b, []. rewrite H1. cbn. rewrite sub_0, zlen_contents, zlen_nil by done.
      repeat split; try done; try lia; apply Hb.
    + destruct H1 as (b' & out & E & Hb' & He' & Hs & Hz & Ec). exists b', out. rewrite E. cbn.
      rewrite Z.max_r by lia. rewrite sub_blit_eq by zside. rewrite zlen_contents by done.
      repeat split; try done; try lia; apply Hb'.
Defined.

(** A reader asleep on an empty buffer goes on exactly as it would have on the
    buffer it finds when woken. *)
Lemma read_loop_woken u wt fuel b b' buf off todo count :
  pread b = pwrite b -> error b = 0 -> wt b = Some b' -> pread b' <> pwrite b' -> 0 < todo ->
  read_loop u wt (S fuel) false b buf off todo count =
  read_loop u wt (S fuel) false b' buf off todo count.
Proof.
  intros Hp He Hw Hn Ht. cbn [read_loop]. destruct (Z.leb_spec todo 0); [lia|]. cbn [andb].
  unfold wait_event. rewrite Hp, Z.eqb_refl, He, Hw. cbn [negb orb Z.eqb].
  destruct (Z.eqb_spec (pread b') (pwrite b')); [done|]. done.
Qed.

(** The producers keep their side of the contract: a sleeping reader is woken
    with bytes to read and no error. *)
Definition always_fed (wt : dmxdev_buffer -> option dmxdev_buffer) : Prop :=
  forall b, buffer_ok b -> error b = 0 -> waiting b = 0 ->
    exists b', wt b = Some b' /\ buffer_ok b' /\ error b' = 0 /\ 0 < waiting b'.

Lemma read_loop_complete wt fuel b buf off todo count :
  always_fed wt -> buffer_ok b -> error b = 0 -> 0 <= todo -> (Z.to_nat todo < fuel)%nat ->
  0 <= off -> off + todo <= zlen buf ->
  exists b' buf', read_loop no_fault wt fuel false b buf off todo count = Ret (b', buf', count) /\
    buffer_ok b' /\ error b' = 0 /\ zlen buf' = zlen buf.
Proof.
  intros Hf. revert b buf off todo.
  induction fuel as [|fuel IH]; intros b buf off todo Hb He Ht Hfl Ho Hbuf; [lia|].
  destruct (decide (todo = 0)) as [->|Hn].
  { exists b, buf. by rewrite read_loop_done by lia. }
  assert (Hgo : forall b1, buffer_ok b1 -> error b1 = 0 -> 0 < waiting b1 -> exists b' buf',
    read_loop no_fault wt (S fuel) false b1 buf off todo count = Ret (b', buf', count) /\
    buffer_ok b' /\ error b' = 0 /\ zlen buf' = zlen buf).
  { intros b1 Hb1 He1 Hw1.
    destruct (read_turn wt fuel false b1 buf off todo count) as (b2 & out & E & Hb2 & He2 & _ & Hz & _);
      try done; try lia.
    rewrite E. destruct (IH b2 (blit buf off out) (off + Z.min todo (waiting b1))
      (todo - Z.min todo (waiting b1))) as (b3 & buf3 & E3 & Hb3 & He3 & Hz3); try done; try zside.
    exists b3, buf3. rewrite E3. repeat split; try done; try apply Hb3. rewrite Hz3. zside. }
  pose proof (waiting_bound b Hb). destruct (decide (waiting b = 0)) as [Hz|Hz].
  - destruct (Hf b Hb He Hz) as (b1 & Ew & Hb1 & He1 & Hw1).
    rewrite (read_loop_woken _ _ _ b b1); try done; try lia.
    + by apply Hgo.
    + by apply waiting_0_empty.
    + intros E. unfold waiting, used in Hw1. rewrite E in Hw1. case_match; lia.
  - apply Hgo; done || lia.
Qed.

(** A blocking [dvb_dmxdev_buffer_read] that producers keep feeding
    terminates and returns exactly the count asked for. *)
Theorem buffer_read_blocking_complete wt b buf count :
  always_fed wt -> buffer_ok b -> error b = 0 -> 0 <= count <= zlen buf ->
  exists b' buf', dvb_dmxdev_buffer_read no_fault wt b false buf count = Ret (b', buf', count) /\
    buffer_ok b' /\ error b' = 0 /\ zlen buf' = zlen buf.
Proof.
  intros Hf Hb He Hc. unfold dvb_dmxdev_buffer_read.
  pose proof Hb as [(d & Hd & _) _ _]. rewrite Hd, He. cbn [Z.eqb negb andb].
  apply read_loop_complete; try done; lia.
Qed.

(** An error left by a producer is what the next read returns, whatever it
    asks for; the bytes that waited are dropped and the error is cleared, so
    that the error is reported once. *)
Theorem buffer_read_reports_error u wt b nb buf count :
  buffer_ok b -> error b <> 0 ->
  exists b', dvb_dmxdev_buffer_read u wt b nb buf count = Ret (b', buf, error b) /\
    buffer_ok b' /\ contents b' = [] /\ error b' = 0.
Proof.
  intros Hb He. pose proof Hb as [(d & Hd & Hs) Hr Hw].
  unfold dvb_dmxdev_buffer_read. rewrite Hd.
  destruct (Z.eqb_spec (error b) 0); [done|]. cbn.
  eexists. split; [done|]. split; [split; cbn; eauto|].
  unfold contents, waiting, used. cbn. rewrite Z.leb_refl, Z.sub_diag. done.
Qed.

(** C39: any sequence of writes and non-blocking reads of the buffer delivers
    the accepted bytes in order. *)
Theorem dmxdev_buffer_is_fifo (b : dmxdev_buffer) (ops : list fifo_op) :
  buffer_ok b -> error b = 0 -> ops_ok ops -> exists b' acc out,
    fifo_run b ops = Ret (b', acc, out) /\ (buffer_ok b' /\ error b' = 0) /\
    size b' - 1 = size b - 1 /\ contents b ++ acc = out ++ contents b'.
Proof. intros Hb He Ho. exact (fifo_run_ok ops b (conj Hb He) Ho). Qed.

(** *** Witnesses *)
Definition sample_buffer : dmxdev_buffer := mk_dmxdev_buffer (Some [10; 11; 12; 13; 14; 15]) 6 4 1 0.

Lemma sample_buffer_ok : buffer_ok sample_buffer.
Proof. split; [eexists; split; reflexivity | concrete | concrete]. Qed.

Lemma buffer_write_all_or_nothing_witness :
  exists b', dvb_dmxdev_buffer_write sample_buffer [1; 2] 2 = Ret (b', 2) /\ buffer_ok b' /\
    size b' = 6 /\ error b' = 0 /\ contents b' = [14; 15; 10; 1; 2].
Proof. apply (buffer_write_all_or_nothing sample_buffer [1; 2] 2); [exact sample_buffer_ok | concrete]. Defined.

Lemma buffer_read_nonblocking_witness :
  exists b' out, dvb_dmxdev_buffer_read no_fault no_wait sample_buffer true [0; 0] 2
      = Ret (b', blit [0; 0] 0 out, zlen out) /\ buffer_ok b' /\ error b' = 0 /\ size b' = 6 /\
    zlen out = 2 /\ contents sample_buffer = out ++ contents b'.
Proof.
  apply (buffer_read_nonblocking no_wait sample_buffer [0; 0] 2);
    [exact sample_buffer_ok | reflexivity | concrete].
Defined.

(** A producer that refills an empty buffer with one byte. *)
Definition one_byte_producer (b : dmxdev_buffer) : option dmxdev_buffer :=
  Some (mk_dmxdev_buffer (Some [7; 8]) 2 0 1 0).

Lemma buffer_read_blocking_complete_witness :
  exists b' buf', dvb_dmxdev_buffer_read no_fault one_byte_producer sample_buffer false [0; 0; 0; 0; 0] 5
      = Ret (b', buf', 5) /\ buffer_ok b' /\ error b' = 0 /\ zlen buf' = 5.
Proof.
  apply (buffer_read_blocking_complete one_byte_producer sample_buffer [0; 0; 0; 0; 0] 5);
    [| exact sample_buffer_ok | reflexivity | concrete].
  intros b _ _ _. eexists. split; [reflexivity|].
  split; [split; [eexists; split; reflexivity | concrete | concrete] | concrete].
Defined.

Lemma buffer_read_reports_error_witness :
  exists b', dvb_dmxdev_buffer_read no_fault no_wait (sample_buffer <| error := -75 |>) false [0] 1
      = Ret (b', [0], -75) /\ buffer_ok b' /\ contents b' = [] /\ error b' = 0.
Proof.
  refine (buffer_read_reports_error no_fault no_wait (sample_buffer <| error := -75 |>) false [0] 1 _ _);
    [split; [eexists; split; reflexivity | concrete | concrete] | discriminate].
Defined.

Lemma dmxdev_buffer_is_fifo_witness : exists b' acc out,
  fifo_run sample_buffer [Push [1; 2]; Pull 4; Push [3; 4; 5]] = Ret (b', acc, out) /\
  (buffer_ok b' /\ error b' = 0) /\ size b' - 1 = 5 /\ contents sample_buffer ++ acc = out ++ contents b'.
Proof.
  apply (dmxdev_buffer_is_fifo sample_buffer [Push [1; 2]; Pull 4; Push [3; 4; 5]]);
    [exact sample_buffer_ok | reflexivity | repeat constructor; concrete].
Defined.
