(* ===== verification/DemuxTypes.v ===== *)
(** * The data of the software demultiplexer

    Models the structures of driver/dvb/drivers/media/dvb/dvb-core/dvb_demux.h
    and demux.h.  A [dvb_demux] owns two arrays, of feeds and of section filters;
    pointers into them are indices ([None] for a null pointer).  The filters of a
    section feed form a list linked through [next].  Feeds that were set are on
    [feed_list], in the order in which a packet visits them. *)
From S2P Require Import Prelude.

Definition DVB_DEMUX_MASK_MAX : Z := 18.
Definition DMX_MAX_FILTER_SIZE : Z := 18.
Definition DMX_MAX_PID : Z := 0x2000.
Definition MAX_DVB_DEMUX_USERS : Z := 10.
Definition DMX_TS_PES_OTHER : Z := 20.
Definition TS_PACKET : Z := 1.
Definition TS_PAYLOAD_ONLY : Z := 2.
Definition TS_DECODER : Z := 4.

Inductive dmx_type : Type := DMX_TYPE_TS | DMX_TYPE_SEC | DMX_TYPE_PES.
Inductive dmx_state : Type :=
  | DMX_STATE_FREE | DMX_STATE_ALLOCATED | DMX_STATE_SET | DMX_STATE_READY | DMX_STATE_GO.

#[export] Instance dmx_type_eq_dec : EqDecision dmx_type.
Proof. solve_decision. Defined.
#[export] Instance dmx_state_eq_dec : EqDecision dmx_state.
Proof. solve_decision. Defined.

Definition state_num (s : dmx_state) : Z :=
  match s with
  | DMX_STATE_FREE => 0 | DMX_STATE_ALLOCATED => 1 | DMX_STATE_SET => 2
  | DMX_STATE_READY => 3 | DMX_STATE_GO => 4
  end.

(** [struct dvb_demux_filter] with its [struct dmx_section_filter]. *)
Record dvb_demux_filter := mk_filter {
  filter_value : list Z;
  filter_mask : list Z;
  filter_mode : list Z;
  maskandmode : list Z;
  maskandnotmode : list Z;
  doneq : bool;
  next : option nat;
  f_feed : option nat;
  f_index : Z;
  f_state : dmx_state;
  f_type : dmx_type;
  f_priv : option nat }.
#[export] Instance eta_filter : Eta dvb_demux_filter := fun f =>
  mk_filter (filter_value f) (filter_mask f) (filter_mode f) (maskandmode f)
    (maskandnotmode f) (doneq f) (next f) (f_feed f) (f_index f) (f_state f) (f_type f)
    (f_priv f).

(** [struct dvb_demux_feed].  The union of [dmx_ts_feed] and
    [dmx_section_feed] shares [is_filtering] and [priv]; the other members of
    the section feed follow them. *)
Record dvb_demux_feed := mk_feed {
  is_filtering : bool;
  priv : option nat;
  check_crc : Z;
  crc_val : Z;
  secbuf : list Z;
  secbufp : Z;
  seclen : Z;
  type : dmx_type;
  state : dmx_state;
  pid : Z;
  buffer_size : Z;
  descramble : Z;
  filter : option nat;
  cb_length : Z;
  ts_type : Z;
  pes_type : Z;
  cc : Z;
  peslen : Z }.
#[export] Instance eta_feed : Eta dvb_demux_feed := fun f =>
  mk_feed (is_filtering f) (priv f) (check_crc f) (crc_val f) (secbuf f) (secbufp f)
    (seclen f) (type f) (state f) (pid f) (buffer_size f) (descramble f) (filter f)
    (cb_length f) (ts_type f) (pes_type f) (cc f) (peslen f).

(** [struct dvb_demux], with the [frontend] of its [dmx_demux] and the free
    count of its semaphore [mutex]. *)
Record dvb_demux := mk_demux {
  filternum : Z;
  feednum : Z;
  users : Z;
  filters : list dvb_demux_filter;
  feeds : list dvb_demux_feed;
  frontend : option Z;
  frontend_list : list Z;
  pesfilter : list (option nat);
  pids : list Z;
  playing : Z;
  recording : Z;
  feed_list : list nat;
  tsbuf : list Z;
  tsbufp : Z;
  mutex : Z }.
#[export] Instance eta_demux : Eta dvb_demux := fun d =>
  mk_demux (filternum d) (feednum d) (users d) (filters d) (feeds d) (frontend d)
    (frontend_list d) (pesfilter d) (pids d) (playing d) (recording d) (feed_list d)
    (tsbuf d) (tsbufp d) (mutex d).

(** Dereferencing a pointer into one of the arrays. *)
Definition deref {A} (l : list A) (i : nat) : outcome A :=
  match l !! i with Some x => Ret x | None => Crash end.

Definition deref_opt {A} (l : list A) (i : option nat) : outcome A :=
  match i with Some i => deref l i | None => Crash end.

(** Storing through such a pointer. *)
Definition put_feed (d : dvb_demux) (i : nat) (f : dvb_demux_feed) : dvb_demux :=
  d <| feeds := <[i := f]> (feeds d) |>.
Definition put_filter (d : dvb_demux) (i : nat) (f : dvb_demux_filter) : dvb_demux :=
  d <| filters := <[i := f]> (filters d) |>.

(** What the demultiplexer hands to its clients. *)
Inductive event : Type :=
  | EvTs (feed : nat) (data : list Z)
  | EvSec (feed flt : nat) (data : list Z)
  | EvDecoder (feed : nat) (data : list Z).

#[global] Arguments deref : simpl never.

Lemma deref_lookup {A} (l : list A) i x : l !! i = Some x -> deref l i = Ret x.
Proof. unfold deref. by intros ->. Qed.
