(* ===== verification/SwFilter.v ===== *)
(** * The data path of the software demultiplexer

    Models the first half of driver/dvb/drivers/media/dvb/dvb-core/dvb_demux.c:
    the helpers on transport-stream headers, the section filter, the assembly of
    sections from packets, the dispatch of a packet to the feeds and the three
    entry points that cut a byte stream into packets.

    A function that runs callbacks returns the events it handed out, in order.
    A callback may not change the demultiplexer; its result is a parameter.  The
    pointers [memcopy] and [check_crc32] of a demultiplexer are those that
    [dvb_dmx_init] gives it when the driver has none of its own, [dvb_dmx_memcopy]
    and [dvb_dmx_crc32]; a driver with its own (avia_gt_napi.c) is not described.
    The spin lock that the entry points hold while they run is not modelled. *)
From S2P Require Import Prelude DemuxTypes.

Definition section_length (buf : list Z) (o : Z) : outcome Z :=
  b1 ← load buf (o + 1); b2 ← load buf (o + 2);
  Ret (u16 (3 + Z.shiftl (Z.land b1 0x0f) 8 + b2)).

Definition ts_pid (buf : list Z) : outcome Z :=
  b1 ← load buf 1; b2 ← load buf 2;
  Ret (u16 (Z.shiftl (Z.land b1 0x1f) 8 + b2)).

Definition payload (tsp : list Z) : outcome Z :=
  b3 ← load tsp 3;
  if negb (flag b3 0x10) then Ret 0
  else if flag b3 0x20 then
    b4 ← load tsp 4; if b4 >? 183 then Ret 0 else Ret (184 - 1 - b4)
  else Ret 184.

Section Kernel.
(** [crc32_be] of the kernel's library. *)
Variable crc32_be : Z -> list Z -> Z.

Definition dvb_set_crc32 (data : list Z) (len : Z) : outcome (list Z) :=
  c ← read_at data 0 len;
  let crc := crc32_be (u32 (-1)) c in
  data ← write_at data len [Z.land (Z.shiftr crc 24) 0xff];
  data ← write_at data (len + 1) [Z.land (Z.shiftr crc 16) 0xff];
  data ← write_at data (len + 2) [Z.land (Z.shiftr crc 8) 0xff];
  write_at data (len + 3) [Z.land crc 0xff].

Definition dvb_dmx_crc32 (f : dvb_demux_feed) (src : list Z) (len : Z)
  : outcome (dvb_demux_feed * Z) :=
  c ← read_at src 0 len;
  let crc := crc32_be (crc_val f) c in
  Ret (f <| crc_val := crc |>, crc).

(** The [memcopy] of a demultiplexer whose driver has none. *)
Definition dvb_dmx_memcopy (d : list Z) (doff : Z) (s : list Z) (soff len : Z) : outcome (list Z) :=
  memcpy d doff s soff len.

(** The client callbacks' results, and whether the hardware installs
    [write_to_decoder]. *)
Variable ts_cb : nat -> list Z -> Z.
Variable sec_cb : nat -> nat -> list Z -> Z.
Variable write_to_decoder : bool.

Definition dvb_dmx_swfilter_payload (fi : nat) (feed : dvb_demux_feed) (buf : list Z)
  : outcome (dvb_demux_feed * list event * Z) :=
  count ← payload buf;
  if count =? 0 then Ret (feed, [], -1) else
  let p := 188 - count in
  b1 ← load buf 1;
  let feed := if flag b1 0x40 then feed <| peslen := 0xfffa |> else feed in
  let feed := feed <| peslen := u16 (peslen feed + count) |> in
  c ← read_at buf p count;
  Ret (feed, [EvTs fi c], ts_cb fi c).

(** The loop over the filter's bytes: [None] when a positive bit differs,
    otherwise the negative bits that differ. *)
Fixpoint sectionfilter_loop (n : nat) (i : Z) (f : dvb_demux_filter) (buf : list Z) (neq : Z)
  : outcome (option Z) :=
  match n with
  | O => Ret (Some neq)
  | S n =>
    v ← load (filter_value f) i; b ← load buf i;
    let xor := Z.lxor v b in
    m ← load (maskandmode f) i;
    if flag m xor then Ret None else
    k ← load (maskandnotmode f) i;
    sectionfilter_loop n (i + 1) f buf (Z.lor neq (Z.land k xor))
  end.

Definition dvb_dmx_swfilter_sectionfilter (fi : nat) (feed : dvb_demux_feed)
    (flt : nat) (f : dvb_demux_filter) : outcome (list event * Z) :=
  r ← sectionfilter_loop (Z.to_nat DVB_DEMUX_MASK_MAX) 0 f (secbuf feed) 0;
  match r with
  | None => Ret ([], 0)
  | Some neq =>
    if doneq f && (neq =? 0) then Ret ([], 0)
    else
      let c := sub (secbuf feed) 0 (seclen feed) in
      Ret ([EvSec fi flt c], sec_cb fi flt c)
  end.

(** The [do .. while] over the linked filters. *)
Fixpoint filter_loop (fuel : nat) (flts : list dvb_demux_filter) (fi : nat)
    (feed : dvb_demux_feed) (flt : nat) : outcome (list event * Z) :=
  match fuel with
  | O => Hang
  | S fuel =>
    f ← deref flts flt;
    '(ev, r) ← dvb_dmx_swfilter_sectionfilter fi feed flt f;
    if r <? 0 then Ret (ev, -1) else
    match next f with
    | Some g =>
      if is_filtering feed then
        '(ev2, r2) ← filter_loop fuel flts fi feed g; Ret (ev ++ ev2, r2)
      else Ret (ev, 0)
    | None => Ret (ev, 0)
    end
  end.

(** Fuel: a feed's filters are distinct members of the array. *)
Definition dvb_dmx_swfilter_section_feed (flts : list dvb_demux_filter) (fi : nat)
    (feed : dvb_demux_feed) : outcome (dvb_demux_feed * list event * Z) :=
  if negb (secbufp feed =? seclen feed) then Ret (feed, [], -1) else
  if negb (is_filtering feed) then Ret (feed, [], 0) else
  match filter feed with
  | None => Ret (feed, [], 0)
  | Some flt =>
    '(feed, bad) ←
      (if negb (check_crc feed =? 0) then
         b1 ← load (secbuf feed) 1;
         if flag b1 0x80 then
           '(feed, crc) ← dvb_dmx_crc32 feed (secbuf feed) (seclen feed);
           Ret (feed, negb (crc =? 0))
         else Ret (feed, false)
       else Ret (feed, false));
    if (bad : bool) then Ret (feed, [], -1) else
    '(ev, r) ← filter_loop (length flts) flts fi feed flt;
    if r <? 0 then Ret (feed, ev, -1) else
    b ← write_at (secbuf feed) 0 (replicate (Z.to_nat DVB_DEMUX_MASK_MAX) 0);
    Ret (feed <| secbufp := 0 |> <| seclen := 0 |> <| secbuf := b |>, ev, 0)
  end.

(** The sections that start in a packet: [while (count > 0)]. *)
Fixpoint section_loop (fuel : nat) (flts : list dvb_demux_filter) (fi : nat)
    (feed : dvb_demux_feed) (buf : list Z) (p count : Z)
  : outcome (dvb_demux_feed * list event * Z) :=
  if count <=? 0 then Ret (feed, [], 0) else
  match fuel with
  | O => Hang
  | S fuel =>
    let feed := feed <| crc_val := u32 (-1) |> in
    '(feed, whole) ←
      (if count >? 2 then
         l ← section_length buf p; Ret (feed <| seclen := l |>, l <=? count)
       else Ret (feed, false));
    if (whole : bool) then
      if seclen feed >? 4096 then Ret (feed, [], -1) else
      b ← dvb_dmx_memcopy (secbuf feed) 0 buf p (seclen feed);
      let feed := feed <| secbuf := b |> <| secbufp := seclen feed |> in
      let p := p + seclen feed in
      let count := 188 - p in
      '(feed, ev, _) ← dvb_dmx_swfilter_section_feed flts fi feed;
      fill ← (if negb (count =? 0) then b ← load buf p; Ret (b =? 0xff) else Ret false);
      let count := if (fill : bool) then 0 else count in
      '(feed, ev2, r) ← section_loop fuel flts fi feed buf p count;
      Ret (feed, ev ++ ev2, r)
    else
      if count <=? 2 then Ret (feed, [], -1) else
      b ← dvb_dmx_memcopy (secbuf feed) 0 buf p count;
      section_loop fuel flts fi (feed <| secbuf := b |> <| secbufp := secbufp feed + count |>) buf p 0
  end.

(** The rest of the previous section, before the pointer field's target. *)
Definition section_rest (flts : list dvb_demux_filter) (fi : nat) (feed : dvb_demux_feed)
    (buf : list Z) (p bp : Z) : outcome (dvb_demux_feed * list event * bool) :=
  let tmp := 3 - secbufp feed in
  '(feed, bad) ←
    (if (tmp >? 0) && negb (tmp =? 3) then
       if p + tmp >=? 187 then Ret (feed, true) else
       b ← dvb_dmx_memcopy (secbuf feed) (secbufp feed) buf (p + 1) tmp;
       l ← section_length b 0;
       Ret (feed <| secbuf := b |> <| seclen := l |>, l >? 4096)
     else Ret (feed, false));
  if (bad : bool) then Ret (feed, [], true) else
  let rest := seclen feed - secbufp feed in
  if (rest =? bp) && negb (seclen feed =? 0) then
    b ← dvb_dmx_memcopy (secbuf feed) (secbufp feed) buf (p + 1) bp;
    '(feed, ev, _) ← dvb_dmx_swfilter_section_feed flts fi
        (feed <| secbuf := b |> <| secbufp := secbufp feed + bp |>);
    Ret (feed, ev, false)
  else Ret (feed, [], false).

(** A packet in which a section starts (PUSI set). *)
Definition section_start (flts : list dvb_demux_filter) (fi : nat) (feed : dvb_demux_feed)
    (buf : list Z) (p : Z) (ccok : bool) : outcome (dvb_demux_feed * list event * Z) :=
  bp ← load buf p;
  if p + bp >? 187 then Ret (feed, [], -1) else
  '(feed, ev, bad) ←
    (if negb (bp =? 0) && ccok then section_rest flts fi feed buf p bp
     else Ret (feed, [], false));
  if (bad : bool) then Ret (feed, ev, -1) else
  let p := p + (bp + 1) in
  let count := 188 - p in
  '(feed, ev2, r) ← section_loop (Z.to_nat count) flts fi feed buf p count;
  Ret (feed, ev ++ ev2, r).

(** A packet that continues a section. *)
Definition section_continue (flts : list dvb_demux_filter) (fi : nat) (feed : dvb_demux_feed)
    (buf : list Z) (p count : Z) (ccok : bool) : outcome (dvb_demux_feed * list event * Z) :=
  if negb ccok then Ret (feed, [], -1) else
  if secbufp feed =? 0 then Ret (feed, [], -1) else
  '(feed, bad) ←
    (if secbufp feed <? 3 then
       let tmp := 3 - secbufp feed in
       if tmp >? count then Ret (feed, true) else
       b ← dvb_dmx_memcopy (secbuf feed) (secbufp feed) buf p tmp;
       l ← section_length b 0;
       Ret (feed <| crc_val := u32 (-1) |> <| secbuf := b |> <| seclen := l |>, l >? 4096)
     else Ret (feed, false));
  if (bad : bool) then Ret (feed, [], -1) else
  let rest := seclen feed - secbufp feed in
  if rest <? 0 then Ret (feed, [], -1) else
  if rest <=? count then
    b ← dvb_dmx_memcopy (secbuf feed) (secbufp feed) buf p rest;
    '(feed, ev, _) ← dvb_dmx_swfilter_section_feed flts fi
        (feed <| secbuf := b |> <| secbufp := secbufp feed + rest |>);
    Ret (feed, ev, 0)
  else
    b ← dvb_dmx_memcopy (secbuf feed) (secbufp feed) buf p count;
    Ret (feed <| secbuf := b |> <| secbufp := secbufp feed + count |>, [], 0).

Definition dvb_dmx_swfilter_section_packet (flts : list dvb_demux_filter) (fi : nat)
    (feed : dvb_demux_feed) (buf : list Z) : outcome (dvb_demux_feed * list event * Z) :=
  count ← payload buf;
  if count =? 0 then Ret (feed, [], -1) else
  let p := 188 - count in
  b3 ← load buf 3;
  let c := Z.land b3 0x0f in
  let ccok := Z.land (cc feed + 1) 0x0f =? c in
  let feed := feed <| cc := c |> in
  b1 ← load buf 1;
  if flag b1 0x40 then section_start flts fi feed buf p ccok
  else section_continue flts fi feed buf p count ccok.

Definition dvb_dmx_swfilter_packet_type (flts : list dvb_demux_filter) (fi : nat)
    (feed : dvb_demux_feed) (buf : list Z) : outcome (dvb_demux_feed * list event) :=
  match type feed with
  | DMX_TYPE_TS =>
    if negb (is_filtering feed) then Ret (feed, []) else
    '(feed, ev) ←
      (if flag (ts_type feed) TS_PACKET then
         if flag (ts_type feed) TS_PAYLOAD_ONLY then
           '(feed, ev, _) ← dvb_dmx_swfilter_payload fi feed buf; Ret (feed, ev)
         else c ← read_at buf 0 188; Ret (feed, [EvTs fi c])
       else Ret (feed, []));
    if flag (ts_type feed) TS_DECODER && write_to_decoder then
      c ← read_at buf 0 188; Ret (feed, ev ++ [EvDecoder fi c])
    else Ret (feed, ev)
  | DMX_TYPE_SEC =>
    if negb (is_filtering feed) then Ret (feed, []) else
    '(feed, ev, r) ← dvb_dmx_swfilter_section_packet flts fi feed buf;
    if r <? 0 then Ret (feed <| secbufp := 0 |> <| seclen := 0 |>, ev) else Ret (feed, ev)
  | DMX_TYPE_PES => Ret (feed, [])
  end.

(** One feed of the list. *)
Definition packet_feed (flts : list dvb_demux_filter) (buf : list Z) (hpid : Z) (fi : nat)
    (fds : list dvb_demux_feed) : outcome (list dvb_demux_feed * list event) :=
  feed ← deref fds fi;
  '(feed, ev) ← (if pid feed =? hpid then dvb_dmx_swfilter_packet_type flts fi feed buf
                 else Ret (feed, []));
  ev2 ← (if pid feed =? 0x2000 then c ← read_at buf 0 188; Ret [EvTs fi c] else Ret []);
  Ret (<[fi := feed]> fds, ev ++ ev2).

Fixpoint packet_feeds (flts : list dvb_demux_filter) (buf : list Z) (hpid : Z) (fl : list nat)
    (fds : list dvb_demux_feed) : outcome (list dvb_demux_feed * list event) :=
  match fl with
  | [] => Ret (fds, [])
  | fi :: fl =>
    '(fds, ev) ← packet_feed flts buf hpid fi fds;
    '(fds, ev2) ← packet_feeds flts buf hpid fl fds;
    Ret (fds, ev ++ ev2)
  end.

Definition dvb_dmx_swfilter_packet (d : dvb_demux) (buf : list Z) : outcome (dvb_demux * list event) :=
  hpid ← ts_pid buf;
  '(fds, ev) ← packet_feeds (filters d) buf hpid (feed_list d) (feeds d);
  Ret (d <| feeds := fds |>, ev).

(** [count] whole packets; the argument points at offset [o] of [buf]. *)
Fixpoint swfilter_packets_loop (count : nat) (d : dvb_demux) (buf : list Z) (o : Z)
  : outcome (dvb_demux * list event) :=
  match count with
  | O => Ret (d, [])
  | S count =>
    b0 ← load buf o;
    '(d, ev) ← (if b0 =? 0x47 then
                  dvb_dmx_swfilter_packet d (sub buf o 188)
                else Ret (d, []));
    '(d, ev2) ← swfilter_packets_loop count d buf (o + 188);
    Ret (d, ev ++ ev2)
  end.

Definition dvb_dmx_swfilter_packets (d : dvb_demux) (buf : list Z) (count : Z) : outcome (dvb_demux * list event) :=
  swfilter_packets_loop (Z.to_nat count) d buf 0.

(** The [while (p < count)] loop of [dvb_dmx_swfilter]. *)
Fixpoint swfilter_loop (fuel : nat) (d : dvb_demux) (buf : list Z) (p count : Z)
  : outcome (dvb_demux * list event) :=
  if p >=? count then Ret (d, []) else
  match fuel with
  | O => Hang
  | S fuel =>
    b ← load buf p;
    if b =? 0x47 then
      if count - p >=? 188 then
        '(d, ev) ← dvb_dmx_swfilter_packet d (sub buf p 188);
        '(d, ev2) ← swfilter_loop fuel d buf (p + 188) count;
        Ret (d, ev ++ ev2)
      else
        let i := count - p in
        t ← memcpy (tsbuf d) 0 buf p i;
        Ret (d <| tsbuf := t |> <| tsbufp := i |>, [])
    else swfilter_loop fuel d buf (p + 1) count
  end.

Definition dvb_dmx_swfilter (d : dvb_demux) (buf : list Z) (count : Z) : outcome (dvb_demux * list event) :=
  let i := tsbufp d in
  if negb (i =? 0) then
    let j := 188 - i in
    if count <? j then
      t ← memcpy (tsbuf d) i buf 0 count;
      Ret (d <| tsbuf := t |> <| tsbufp := tsbufp d + count |>, [])
    else
      t ← memcpy (tsbuf d) i buf 0 j;
      let d := d <| tsbuf := t |> in
      b0 ← load (tsbuf d) 0;
      '(d, ev) ← (if b0 =? 0x47 then dvb_dmx_swfilter_packet d (sub (tsbuf d) 0 188)
                  else Ret (d, []));
      '(d, ev2) ← swfilter_loop (Z.to_nat count) (d <| tsbufp := 0 |>) buf j count;
      Ret (d, ev ++ ev2)
  else swfilter_loop (Z.to_nat count) d buf 0 count.

(** Packets of 204 bytes, of which the last 16 are parity; an inverted sync
    byte is put right in a copy. *)
Definition sync_204 (b : Z) : bool := (b =? 0x47) || (b =? 0xB8).
Definition fix_sync (tmppack : list Z) : outcome (list Z) :=
  b0 ← load tmppack 0;
  if b0 =? 0xB8 then write_at tmppack 0 [0x47] else Ret tmppack.

Fixpoint swfilter_204_loop (fuel : nat) (d : dvb_demux) (buf : list Z) (p count : Z)
  : outcome (dvb_demux * list event) :=
  if p >=? count then Ret (d, []) else
  match fuel with
  | O => Hang
  | S fuel =>
    b ← load buf p;
    if sync_204 b then
      if count - p >=? 204 then
        tmppack ← read_at buf p 188;
        tmppack ← fix_sync tmppack;
        '(d, ev) ← dvb_dmx_swfilter_packet d tmppack;
        '(d, ev2) ← swfilter_204_loop fuel d buf (p + 204) count;
        Ret (d, ev ++ ev2)
      else
        let i := count - p in
        t ← memcpy (tsbuf d) 0 buf p i;
        Ret (d <| tsbuf := t |> <| tsbufp := i |>, [])
    else swfilter_204_loop fuel d buf (p + 1) count
  end.

Definition dvb_dmx_swfilter_204 (d : dvb_demux) (buf : list Z) (count : Z) : outcome (dvb_demux * list event) :=
  let i := tsbufp d in
  if negb (i =? 0) then
    let j := 204 - i in
    if count <? j then
      t ← memcpy (tsbuf d) i buf 0 count;
      Ret (d <| tsbuf := t |> <| tsbufp := tsbufp d + count |>, [])
    else
      t ← memcpy (tsbuf d) i buf 0 j;
      let d := d <| tsbuf := t |> in
      b0 ← load (tsbuf d) 0;
      '(d, ev) ← (if sync_204 b0 then
                    tmppack ← read_at (tsbuf d) 0 188;
                    tmppack ← fix_sync tmppack;
                    dvb_dmx_swfilter_packet d tmppack
                  else Ret (d, []));
      '(d, ev2) ← swfilter_204_loop (Z.to_nat count) (d <| tsbufp := 0 |>) buf j count;
      Ret (d, ev ++ ev2)
  else swfilter_204_loop (Z.to_nat count) d buf 0 count.
End Kernel.

#[global] Arguments payload : simpl never.
#[global] Arguments section_length : simpl never.
#[global] Arguments dvb_dmx_memcopy : simpl never.
#[global] Arguments ts_pid : simpl never.

(** ** Headers *)

(** The length a section announces in its second and third byte. *)
Definition announced (s : list Z) (o : Z) : Z :=
  3 + Z.land (zn s (o + 1)) 0x0f * 256 + zn s (o + 2).

Lemma announced_bound s o :
  bytes s -> 0 <= o -> o + 3 <= zlen s -> 3 <= announced s o <= 4098.
Proof.
  intros Hs ? ?. pose proof (bytes_zn s (o + 2) Hs ltac:(lia)) as Hb.
  pose proof (land_bound (zn s (o + 1)) 0x0f ltac:(lia)). unfold is_byte in Hb.
  unfold announced. lia.
Qed.

Lemma section_length_ok s o :
  bytes s -> 0 <= o -> o + 3 <= zlen s -> section_length s o = Ret (announced s o).
Proof.
  intros Hs ? ?. pose proof (announced_bound s o Hs ltac:(lia) ltac:(lia)) as Hb.
  unfold section_length. rewrite !load_ok by lia. cbn. rewrite shiftl_8.
  unfold u16. fold (announced s o). by rewrite Z.mod_small by lia.
Qed.

Definition packet_ok (buf : list Z) : Prop := zlen buf = 188 /\ bytes buf.

Lemma payload_spec buf :
  packet_ok buf -> exists n, payload buf = Ret n /\ 0 <= n <= 184 /\
    (n <> 0 -> flag (zn buf 3) 0x10 = true) /\
    (n <> 0 -> flag (zn buf 3) 0x20 = true -> 188 - n = 5 + zn buf 4) /\
    (n <> 0 -> flag (zn buf 3) 0x20 = false -> 188 - n = 4).
Proof.
  intros [Hl Hb]. pose proof (bytes_zn buf 4 Hb ltac:(lia)) as H4. unfold is_byte in H4.
  unfold payload. rewrite (load_ok buf 3), (load_ok buf 4) by lia. cbn.
  destruct (flag (zn buf 3) 0x10); cbn; [|exists 0; repeat split; intros; done || lia].
  destruct (flag (zn buf 3) 0x20); cbn; [|exists 184; repeat split; intros; done || lia].
  destruct (Z.gtb_spec (zn buf 4) 183).
  - exists 0. repeat split; intros; done || lia.
  - eexists. split; [done|]. split; [lia|]. split; [done|]. split; [intros; lia|done].
Qed.

Lemma payload_ok buf : packet_ok buf -> exists n, payload buf = Ret n /\ 0 <= n <= 184.
Proof. intros H. destruct (payload_spec buf H) as (n & ? & ? & _). eauto. Qed.

(** The payload of a packet is between 0 and 184 bytes long and lies
    inside the packet, after the header and the adaptation field if there is
    one; a packet whose adaptation field overruns it has no payload. *)
Theorem payload_bounds buf :
  packet_ok buf -> exists n, payload buf = Ret n /\ 0 <= n <= 184 /\
    (n <> 0 -> flag (zn buf 3) 0x10 = true) /\
    (n <> 0 -> flag (zn buf 3) 0x20 = true -> 188 - n = 5 + zn buf 4) /\
    (n <> 0 -> flag (zn buf 3) 0x20 = false -> 188 - n = 4).
Proof. apply payload_spec. Qed.

Lemma ts_pid_ok buf :
  packet_ok buf -> ts_pid buf = Ret (Z.land (zn buf 1) 0x1f * 256 + zn buf 2).
Proof.
  intros [Hl Hb]. pose proof (bytes_zn buf 2 Hb ltac:(lia)) as H2. unfold is_byte in H2.
  pose proof (land_bound (zn buf 1) 0x1f ltac:(lia)).
  unfold ts_pid. rewrite !load_ok by lia. cbn. rewrite shiftl_8. unfold u16.
  by rewrite Z.mod_small by lia.
Qed.

(** ** The section filter *)
Record filter_ok (f : dvb_demux_filter) : Prop := {
  fo_value : zlen (filter_value f) = 18;
  fo_mask : zlen (filter_mask f) = 18;
  fo_mode : zlen (filter_mode f) = 18;
  fo_and : zlen (maskandmode f) = 18;
  fo_notand : zlen (maskandnotmode f) = 18 }.

(** What a section must satisfy at byte [i]: every bit under [maskandmode]
    equals the filter's; [differs]: some bit under [maskandnotmode] does not. *)
Definition agrees (f : dvb_demux_filter) (buf : list Z) (i : Z) : bool :=
  Z.land (zn (maskandmode f) i) (Z.lxor (zn (filter_value f) i) (zn buf i)) =? 0.
Definition differs (f : dvb_demux_filter) (buf : list Z) (i : Z) : bool :=
  negb (Z.land (zn (maskandnotmode f) i) (Z.lxor (zn (filter_value f) i) (zn buf i)) =? 0).
Definition accepts (f : dvb_demux_filter) (buf : list Z) : bool :=
  all_from (agrees f buf) 18 0 && (negb (doneq f) || any_from (differs f buf) 18 0).

Lemma sectionfilter_loop_ok f buf n i neq :
  filter_ok f -> 18 <= zlen buf -> 0 <= i -> i + Z.of_nat n <= 18 ->
  exists r, sectionfilter_loop n i f buf neq = Ret r /\
    match r with
    | None => all_from (agrees f buf) n i = false
    | Some v => all_from (agrees f buf) n i = true /\
        (v =? 0) = (neq =? 0) && negb (any_from (differs f buf) n i)
    end.
Proof.
  intros Hf Hb. revert i neq. induction n as [|n IH]; intros i neq Hi Hn; cbn [sectionfilter_loop].
  { eexists. split; [done|]. cbn. by rewrite andb_true_r. }
  pose proof Hf as []. rewrite !load_ok by lia. cbn [mbind outcome_bind].
  cbn [all_from any_from]. unfold flag. fold (agrees f buf i).
  destruct (agrees f buf i) eqn:Ea; cbn [negb andb]; [|by eexists].
  set (k := Z.land (zn (maskandnotmode f) i) (Z.lxor (zn (filter_value f) i) (zn buf i))).
  destruct (IH (i + 1) (Z.lor neq k)) as (r & E & Hr); [lia..|].
  exists r. split; [exact E|]. destruct r as [v|]; [|done].
  destruct Hr as [H1 H2]. split; [done|]. rewrite H2.
  unfold differs at 2. fold k. rewrite negb_orb, negb_involutive, andb_assoc. f_equal.
  apply eq_true_iff_eq. rewrite andb_true_iff, !Z.eqb_eq. apply Z.lor_eq_0_iff.
Qed.

Lemma sectionfilter_spec sec_cb fi feed flt f :
  filter_ok f -> 18 <= zlen (secbuf feed) ->
  dvb_dmx_swfilter_sectionfilter sec_cb fi feed flt f =
    if accepts f (secbuf feed) then
      Ret ([EvSec fi flt (sub (secbuf feed) 0 (seclen feed))],
           sec_cb fi flt (sub (secbuf feed) 0 (seclen feed)))
    else Ret ([], 0).
Proof.
  intros Hf Hb. unfold dvb_dmx_swfilter_sectionfilter.
  destruct (sectionfilter_loop_ok f (secbuf feed) 18 0 0 Hf Hb) as (r & E & Hr); [lia..|].
  change (Z.to_nat DVB_DEMUX_MASK_MAX) with 18%nat. rewrite E. cbn [mbind outcome_bind].
  unfold accepts. destruct r as [v|].
  - destruct Hr as [-> ->]. rewrite Z.eqb_refl. cbn [andb].
    destruct (doneq f), (any_from (differs f (secbuf feed)) 18 0); done.
  - rewrite Hr. done.
Qed.

(** A section filter hands the section over exactly when every byte agrees
    with it on the positive bits and, if it has negative bits, some byte
    differs on one of them; otherwise nothing happens and the result is 0. *)
Theorem sectionfilter_accepts sec_cb fi feed flt f :
  filter_ok f -> 18 <= zlen (secbuf feed) ->
  dvb_dmx_swfilter_sectionfilter sec_cb fi feed flt f =
    if (forallb (agrees f (secbuf feed)) (Z.of_nat <$> seq 0 18) &&
        (negb (doneq f) || existsb (differs f (secbuf feed)) (Z.of_nat <$> seq 0 18)))
    then Ret ([EvSec fi flt (sub (secbuf feed) 0 (seclen feed))],
              sec_cb fi flt (sub (secbuf feed) 0 (seclen feed)))
    else Ret ([], 0).
Proof. intros Hf Hb. by rewrite sectionfilter_spec. Qed.

(** ** The filters of a feed *)

(** [chain flts p l]: following [next] from [p] visits the filters [l]. *)
Inductive chain (flts : list dvb_demux_filter) : option nat -> list nat -> Prop :=
  | chain_nil : chain flts None []
  | chain_cons i f l :
      flts !! i = Some f -> filter_ok f -> chain flts (next f) l -> chain flts (Some i) (i :: l).

(** A feed's filters: distinct, and each of the right shape. *)
Definition feed_filters (flts : list dvb_demux_filter) (feed : dvb_demux_feed) (l : list nat) : Prop :=
  chain flts (filter feed) l /\ NoDup l.

Lemma chain_lookup flts p l : chain flts p l -> Forall (fun i => i < length flts)%nat l.
Proof. induction 1; constructor; [by eapply lookup_lt_Some|done]. Qed.

(** Distinct indices below [n] are at most [n]. *)
Lemma NoDup_below l n : NoDup l -> Forall (fun i => i < n)%nat l -> (length l <= n)%nat.
Proof.
  intros Hd Hf. rewrite <- (length_seq n 0). apply submseteq_length.
  apply NoDup_submseteq; [done|]. intros i Hi. apply elem_of_seq.
  rewrite Forall_forall in Hf. specialize (Hf i Hi). lia.
Qed.

Lemma chain_length flts p l : chain flts p l -> NoDup l -> (length l <= length flts)%nat.
Proof. intros Hc Hd. apply NoDup_below; [done|]. by eapply chain_lookup. Qed.

(** What running the filters [l] on the section in [buf] hands over. *)
Fixpoint delivered (sec_cb : nat -> nat -> list Z -> Z) (flts : list dvb_demux_filter) (fi : nat)
    (buf : list Z) (len : Z) (l : list nat) : list event * Z :=
  match l with
  | [] => ([], 0)
  | i :: l =>
    if (match flts !! i with Some f => accepts f buf | None => false end) then
      let c := sub buf 0 len in
      if sec_cb fi i c <? 0 then ([EvSec fi i c], -1)
      else let '(ev, r) := delivered sec_cb flts fi buf len l in (EvSec fi i c :: ev, r)
    else delivered sec_cb flts fi buf len l
  end.

Lemma filter_loop_chain sec_cb flts fi feed fuel flt l :
  chain flts (Some flt) l -> (length l <= fuel)%nat -> is_filtering feed = true ->
  18 <= zlen (secbuf feed) ->
  filter_loop sec_cb fuel flts fi feed flt =
    Ret (delivered sec_cb flts fi (secbuf feed) (seclen feed) l).
Proof.
  intros Hc Hl Hf Hb. revert flt l Hc Hl.
  induction fuel as [|fuel IH]; intros flt l Hc Hl; inversion Hc as [|i f l' Hi Hok Hn]; subst;
    cbn [length] in Hl; [lia|].
  cbn [filter_loop delivered]. unfold deref. rewrite Hi. cbn [mbind outcome_bind].
  rewrite sectionfilter_spec by done.
  assert (Hnext : (match next f with
    | Some g => if is_filtering feed then filter_loop sec_cb fuel flts fi feed g
                else Ret ([], 0)
    | None => Ret ([], 0) end) = Ret (delivered sec_cb flts fi (secbuf feed) (seclen feed) l')).
  { destruct (next f) as [g|]; [|by inversion Hn]. rewrite Hf. apply IH; [done|lia]. }
  rewrite Hf in *.
  destruct (accepts f (secbuf feed)); cbn [mbind outcome_bind].
  - destruct (Z.ltb_spec (sec_cb fi flt (sub (secbuf feed) 0 (seclen feed))) 0); [done|].
    destruct (delivered sec_cb flts fi (secbuf feed) (seclen feed) l') as [ev r].
    destruct (next f); [rewrite Hnext; done|]. by injection Hnext as <- <-.
  - cbn. destruct (delivered sec_cb flts fi (secbuf feed) (seclen feed) l') as [ev r].
    destruct (next f); [rewrite Hnext; done|]. by injection Hnext as <- <-.
Qed.

(** ** The section buffer *)

(** The part of a feed that packets do not change. *)
Definition config (f : dvb_demux_feed) :=
  (is_filtering f, priv f, check_crc f, type f, state f, pid f, filter f, ts_type f, pes_type f).

(** The buffer of a section feed; [seclen] may announce up to 4098 bytes. *)
Record sec_ok (f : dvb_demux_feed) : Prop := {
  so_buf : zlen (secbuf f) = 4096;
  so_bytes : bytes (secbuf f);
  so_secbufp : 0 <= secbufp f;
  so_seclen : 0 <= seclen f <= 4098 }.

Lemma config_filters flts f f' l :
  config f' = config f -> feed_filters flts f l -> feed_filters flts f' l.
Proof. unfold feed_filters, config. intros [= _ _ _ _ _ _ -> _ _]. done. Qed.

(** A complete section of at most 4096 bytes is handed to the filters without
    crash; afterwards the buffer is reset, or (bad checksum, negative result of
    a callback, feed stopped) as it was. *)
Lemma section_feed_ok crc sec_cb flts fi feed l :
  sec_ok feed -> seclen feed <= 4096 -> feed_filters flts feed l ->
  exists f' ev r, dvb_dmx_swfilter_section_feed crc sec_cb flts fi feed = Ret (f', ev, r) /\
    sec_ok f' /\ config f' = config feed /\ cc f' = cc feed /\
    (secbufp f' = secbufp feed /\ seclen f' = seclen feed \/ secbufp f' = 0 /\ seclen f' = 0).
Proof.
  intros Hs Hl [Hc Hd]. pose proof Hs as [Hz Hb Hp Hn].
  unfold dvb_dmx_swfilter_section_feed.
  destruct (secbufp feed =? seclen feed); cbn [negb]; [|by eexists _, _, _; eauto 10].
  destruct (is_filtering feed) eqn:Ef; cbn [negb]; [|by eexists _, _, _; eauto 10].
  destruct (filter feed) as [flt|] eqn:Efl; [|by eexists _, _, _; eauto 10].
  set (m := if negb (check_crc feed =? 0) then _ else _).
  assert (Hm : exists c bad, m = Ret (feed <| crc_val := c |>, bad)).
  { unfold m, dvb_dmx_crc32. rewrite load_ok by lia. cbn [mbind outcome_bind].
    rewrite read_at_ok by lia.
    destruct (negb (check_crc feed =? 0)); [|exists (crc_val feed), false; by destruct feed].
    destruct (flag (zn (secbuf feed) 1) 0x80); [|exists (crc_val feed), false; by destruct feed].
    by eexists _, _. }
  destruct Hm as (c & bad & Em). rewrite Em. cbn [mbind outcome_bind].
  set (g := feed <| crc_val := c |>). assert (Hg : sec_ok g) by (split; done).
  destruct bad; [by eexists g, _, _; eauto 10|].
  rewrite (filter_loop_chain sec_cb flts fi g (length flts) flt l); try done; cbn; try lia.
  2: { by eapply chain_length. }
  destruct (delivered _ _ _ _ _ _) as [ev r]. destruct (r <? 0); [by eexists g, _, _; eauto 10|].
  change (Z.to_nat DVB_DEMUX_MASK_MAX) with 18%nat.
  rewrite write_at_ok by (zsimpl; cbn [secbuf g]; lia). eexists _, _, _. split; [done|].
  split; [|by auto 10]. split; cbn; try lia.
  - rewrite zlen_blit; zsimpl; lia.
  - apply bytes_blit; [done|]. repeat constructor; done.
Qed.

Section Assembly.
Context (crc : Z -> list Z -> Z) (sec_cb : nat -> nat -> list Z -> Z).
Context (flts : list dvb_demux_filter) (fi : nat) (chain_of : list nat).

(** What every step of the assembly keeps. *)
Definition step_ok (feed : dvb_demux_feed) (m : outcome (dvb_demux_feed * list event * Z)) : Prop :=
  exists f' ev r, m = Ret (f', ev, r) /\ sec_ok f' /\ config f' = config feed /\ cc f' = cc feed.

Lemma step_ret feed f' ev r :
  sec_ok f' -> config f' = config feed -> cc f' = cc feed -> step_ok feed (Ret (f', ev, r)).
Proof. intros. by exists f', ev, r. Qed.

Lemma copy_section feed buf p n o :
  sec_ok feed -> packet_ok buf -> 0 <= p -> 0 <= n -> p + n <= 188 -> 0 <= o -> o + n <= 4096 ->
  dvb_dmx_memcopy (secbuf feed) o buf p n = Ret (blit (secbuf feed) o (sub buf p n)) /\
  zlen (blit (secbuf feed) o (sub buf p n)) = 4096 /\ bytes (blit (secbuf feed) o (sub buf p n)).
Proof.
  intros [] [Hl Hb] ? ? ? ? ?. unfold dvb_dmx_memcopy. rewrite memcpy_ok by lia.
  split; [done|]. split; [zsimpl; lia | auto with buf].
Qed.

Lemma section_loop_ok fuel feed buf p count :
  sec_ok feed -> feed_filters flts feed chain_of -> packet_ok buf ->
  0 <= p -> p + count <= 188 -> (count = 0 \/ p + count = 188) -> (Z.to_nat count <= fuel)%nat ->
  step_ok feed (section_loop crc sec_cb fuel flts fi feed buf p count).
Proof.
  revert feed p count. induction fuel as [|fuel IH]; intros feed p count Hs Hc Hb Hp Hpc Hz Hf;
    cbn [section_loop]; (destruct (Z.leb_spec count 0); [by apply step_ret|]); [lia|].
  pose proof Hb as [Hl Hby]. pose proof Hs as [H1 H2 H3 H4].
  set (g := feed <| crc_val := u32 (-1) |>).
  assert (Hg : sec_ok g) by done.
  destruct (Z.gtb_spec count 2).
  2: { cbn. destruct (Z.leb_spec count 2); [|lia]. by apply step_ret. }
  rewrite section_length_ok by (done || lia). cbn [mbind outcome_bind].
  pose proof (announced_bound buf p Hby ltac:(lia) ltac:(lia)) as Ha.
  set (h := g <| seclen := announced buf p |>). assert (Hh : sec_ok h) by (split; cbn; done || lia).
  destruct (Z.leb_spec (announced buf p) count).
  - cbn [seclen h set]. change (seclen h) with (announced buf p).
    destruct (Z.gtb_spec (announced buf p) 4096); [lia|].
    destruct (copy_section h buf p (announced buf p) 0 Hh Hb) as (E & Ez & Eb); [lia..|].
    rewrite E. cbn [mbind outcome_bind].
    set (k := h <| secbuf := _ |> <| secbufp := _ |>).
    assert (Hk : sec_ok k) by (split; cbn; done || lia).
    destruct (section_feed_ok crc sec_cb flts fi k chain_of Hk) as (f' & ev & r & E1 & Hs' & Ec & Ecc & _);
      [cbn; lia | done |].
    rewrite E1. cbn [mbind outcome_bind].
    set (p' := p + announced buf p).
    assert (Hfill : exists b, (if negb (188 - p' =? 0) then b ← load buf p'; Ret (b =? 0xff) else Ret false)
      = Ret b).
    { destruct (Z.eqb_spec (188 - p') 0); cbn [negb]; [by eexists|].
      rewrite load_ok by lia. by eexists. }
    destruct Hfill as [b ->]. cbn [mbind outcome_bind].
    destruct (IH f' p' (if b then 0 else 188 - p')) as (f2 & ev2 & r2 & E2 & Hs2 & Ec2 & Ecc2);
      try done; try (by eapply config_filters); try (destruct b; lia).
    rewrite E2. cbn. apply step_ret; [done| by rewrite Ec2, Ec | by rewrite Ecc2, Ecc].
  - destruct (Z.leb_spec count 2); [lia|].
    destruct (copy_section h buf p count 0 Hh Hb) as (E & Ez & Eb); [lia..|].
    rewrite E. cbn [mbind outcome_bind].
    set (k := h <| secbuf := _ |> <| secbufp := _ |>).
    assert (Hk : sec_ok k) by (split; cbn; done || lia).
    destruct (IH k p 0) as (f2 & ev2 & r2 & E2 & Hs2 & Ec2 & Ecc2); try done; try lia.
    rewrite E2. by apply step_ret.
Qed.

Lemma section_continue_ok feed buf p count ccok :
  sec_ok feed -> seclen feed <= 4096 -> feed_filters flts feed chain_of -> packet_ok buf ->
  0 <= p -> 0 <= count -> p + count = 188 ->
  step_ok feed (section_continue crc sec_cb flts fi feed buf p count ccok).
Proof.
  intros Hs Hn Hc Hb Hp Hcnt Hpc. pose proof Hs as [H1 H2 H3 H4].
  unfold section_continue. destruct ccok; cbn [negb]; [|by apply step_ret].
  destruct (Z.eqb_spec (secbufp feed) 0); [by apply step_ret|].
  set (m := if secbufp feed <? 3 then _ else _).
  assert (Hm : exists g bad, m = Ret (g, bad) /\ sec_ok g /\ config g = config feed /\
    cc g = cc feed /\ secbufp g = secbufp feed /\ (bad = false -> seclen g <= 4096)).
  { unfold m. destruct (Z.ltb_spec (secbufp feed) 3); [|by eauto 10].
    destruct (Z.gtb_spec (3 - secbufp feed) count); [by eauto 10|].
    destruct (copy_section feed buf p (3 - secbufp feed) (secbufp feed) Hs Hb) as (E & Ez & Eb); [lia..|].
    rewrite E. cbn [mbind outcome_bind]. rewrite section_length_ok by (done || lia).
    pose proof (announced_bound _ 0 Eb ltac:(lia) ltac:(lia)) as Ha.
    cbn [mbind outcome_bind]. eexists _, _. split; [done|].
    split; [split; cbn; done || lia|]. split; [done|]. split; [done|]. split; [done|].
    cbn. destruct (Z.gtb_spec (announced (blit (secbuf feed) (secbufp feed)
      (sub buf p (3 - secbufp feed))) 0) 4096); [done|lia]. }
  destruct Hm as (g & bad & -> & Hg & Ecg & Eccg & Ep & Hbad). cbn [mbind outcome_bind].
  destruct bad; [by apply step_ret|]. specialize (Hbad eq_refl). pose proof Hg as [G1 G2 G3 G4].
  destruct (Z.ltb_spec (seclen g - secbufp g) 0); [by apply step_ret|].
  destruct (Z.leb_spec (seclen g - secbufp g) count).
  - destruct (copy_section g buf p (seclen g - secbufp g) (secbufp g) Hg Hb) as (E & Ez & Eb); [lia..|].
    rewrite E. cbn [mbind outcome_bind]. set (k := g <| secbuf := _ |> <| secbufp := _ |>).
    assert (Hk : sec_ok k) by (split; cbn; done || lia).
    destruct (section_feed_ok crc sec_cb flts fi k chain_of Hk) as (f' & ev & r & E1 & Hs' & Ec & Ecc & _);
      [cbn; lia | by eapply config_filters |].
    rewrite E1. apply step_ret; [done | by rewrite Ec | by rewrite Ecc].
  - destruct (copy_section g buf p count (secbufp g) Hg Hb) as (E & Ez & Eb); [lia..|].
    rewrite E. apply step_ret; [split; cbn; done || lia | done | done].
Qed.

Lemma section_rest_ok feed buf p bp :
  sec_ok feed -> seclen feed <= 4096 -> feed_filters flts feed chain_of -> packet_ok buf ->
  0 <= p -> 0 <= bp -> p + bp <= 187 ->
  exists f' ev bad, section_rest crc sec_cb flts fi feed buf p bp = Ret (f', ev, bad) /\
    sec_ok f' /\ config f' = config feed /\ cc f' = cc feed.
Proof.
  intros Hs Hn Hc Hb Hp Hbp Hpb. pose proof Hs as [H1 H2 H3 H4]. unfold section_rest.
  set (m := if (3 - secbufp feed >? 0) && negb (3 - secbufp feed =? 3) then _ else _).
  assert (Hm : exists g bad, m = Ret (g, bad) /\ sec_ok g /\ config g = config feed /\
    cc g = cc feed /\ secbufp g = secbufp feed /\ (bad = false -> seclen g <= 4096)).
  { unfold m. destruct (Z.gtb_spec (3 - secbufp feed) 0); cbn [andb]; [|by eauto 10].
    destruct (Z.eqb_spec (3 - secbufp feed) 3); cbn [negb]; [by eauto 10|].
    destruct (Z.geb_spec (p + (3 - secbufp feed)) 187); [by eauto 10|].
    destruct (copy_section feed buf (p + 1) (3 - secbufp feed) (secbufp feed) Hs Hb) as (E & Ez & Eb); [lia..|].
    rewrite E. cbn [mbind outcome_bind]. rewrite section_length_ok by (done || lia).
    pose proof (announced_bound _ 0 Eb ltac:(lia) ltac:(lia)) as Ha.
    cbn [mbind outcome_bind]. eexists _, _. split; [done|].
    split; [split; cbn; done || lia|]. split; [done|]. split; [done|]. split; [done|].
    cbn. destruct (Z.gtb_spec (announced (blit (secbuf feed) (secbufp feed)
      (sub buf (p + 1) (3 - secbufp feed))) 0) 4096); [done|lia]. }
  destruct Hm as (g & bad & -> & Hg & Ecg & Eccg & Ep & Hbad). cbn [mbind outcome_bind].
  destruct bad; [by eexists g, _, _|]. specialize (Hbad eq_refl). pose proof Hg as [G1 G2 G3 G4].
  destruct (Z.eqb_spec (seclen g - secbufp g) bp); cbn [andb]; [|by eexists g, _, _].
  destruct (Z.eqb_spec (seclen g) 0); cbn [negb]; [by eexists g, _, _|].
  destruct (copy_section g buf (p + 1) bp (secbufp g) Hg Hb) as (E & Ez & Eb); [lia..|].
  rewrite E. cbn [mbind outcome_bind]. set (k := g <| secbuf := _ |> <| secbufp := _ |>).
  assert (Hk : sec_ok k) by (split; cbn; done || lia).
  destruct (section_feed_ok crc sec_cb flts fi k chain_of Hk) as (f' & ev & r & E1 & Hs' & Ec & Ecc & _);
    [cbn; lia | by eapply config_filters |].
  rewrite E1. eexists f', ev, false. split; [done|]. split; [done|]. split; [by rewrite Ec | by rewrite Ecc].
Qed.

Lemma section_start_ok feed buf p ccok :
  sec_ok feed -> seclen feed <= 4096 -> feed_filters flts feed chain_of -> packet_ok buf ->
  0 <= p < 188 -> step_ok feed (section_start crc sec_cb flts fi feed buf p ccok).
Proof.
  intros Hs Hn Hc Hb Hp. pose proof Hb as [Hl Hby]. unfold section_start.
  pose proof (bytes_zn buf p Hby ltac:(lia)) as Hbp. unfold is_byte in Hbp.
  rewrite load_ok by lia. cbn [mbind outcome_bind]. set (bp := zn buf p) in *.
  destruct (Z.gtb_spec (p + bp) 187); [by apply step_ret|].
  set (m := if negb (bp =? 0) && ccok then _ else _).
  assert (Hm : exists f' ev bad, m = Ret (f', ev, bad) /\ sec_ok f' /\ config f' = config feed /\
    cc f' = cc feed).
  { unfold m. destruct (negb (bp =? 0) && ccok); [|by eexists feed, _, _].
    apply section_rest_ok; done || lia. }
  destruct Hm as (g & ev & bad & -> & Hg & Ecg & Eccg). cbn [mbind outcome_bind].
  destruct bad; [by apply step_ret|].
  destruct (section_loop_ok (Z.to_nat (188 - (p + (bp + 1)))) g buf (p + (bp + 1)) (188 - (p + (bp + 1))))
    as (f2 & ev2 & r2 & E2 & Hs2 & Ec2 & Ecc2); try done; try lia; [by eapply config_filters|].
  rewrite E2. apply step_ret; [done | by rewrite Ec2 | by rewrite Ecc2].
Qed.

(** From a feed whose buffer announces a section of at most 4096 bytes,
    every packet is processed without an access outside the packet or the
    section buffer and without an endless loop, and leaves a well-formed feed
    with the same configuration; the continuity counter becomes the packet's
    as soon as the packet has a payload. *)
Theorem section_packet_safe feed buf :
  sec_ok feed -> seclen feed <= 4096 -> feed_filters flts feed chain_of -> packet_ok buf ->
  exists f' ev r, dvb_dmx_swfilter_section_packet crc sec_cb flts fi feed buf = Ret (f', ev, r) /\
    sec_ok f' /\ config f' = config feed /\
    (payload buf <> Ret 0 -> cc f' = Z.land (zn buf 3) 0x0f).
Proof.
  intros Hs Hn Hc Hb. pose proof Hb as [Hl Hby]. unfold dvb_dmx_swfilter_section_packet.
  destruct (payload_ok buf Hb) as (n & -> & Hnb). cbn [mbind outcome_bind].
  destruct (Z.eqb_spec n 0) as [->|Hn0].
  { eexists feed, _, _. split; [done|]. split; [done|]. split; [done|].
    intros Hx. by destruct Hx. }
  rewrite !(load_ok buf) by lia. cbn [mbind outcome_bind].
  set (g := feed <| cc := Z.land (zn buf 3) 0x0f |>). assert (Hg : sec_ok g) by (split; apply Hs).
  assert (H : forall m, step_ok g m -> exists f' ev r, m = Ret (f', ev, r) /\ sec_ok f' /\
    config f' = config feed /\ (Ret n <> Ret 0 -> cc f' = Z.land (zn buf 3) 0x0f)).
  { intros m (f' & ev & r & -> & ? & ? & ?). by exists f', ev, r. }
  apply H. destruct (flag (zn buf 1) 0x40).
  - apply section_start_ok; done || lia.
  - apply section_continue_ok; done || lia.
Qed.
End Assembly.

(** ** Example data *)
Definition wild_filter : dvb_demux_filter :=
  mk_filter (replicate 18 0) (replicate 18 0) (replicate 18 255) (replicate 18 0) (replicate 18 0)
    false None (Some 0%nat) 0 DMX_STATE_GO DMX_TYPE_SEC None.
Definition section_feed0 : dvb_demux_feed :=
  mk_feed true None 0 0 (replicate 4096 0) 0 0 DMX_TYPE_SEC DMX_STATE_GO 0x11 0 0 (Some 0%nat)
    0 0 0 0 0.
Definition plain_packet (b1 b2 b3 : Z) (data : list Z) : list Z :=
  [0x47; b1; b2; b3] ++ data ++ replicate (184 - length data)%nat 0xff.

Lemma wild_filter_ok : filter_ok wild_filter.
Proof. by split. Qed.

Lemma section_feed0_ok : sec_ok section_feed0.
Proof.
  split; [done | | done | done]. apply bytes_replicate. done.
Qed.

Lemma section_feed0_filters : feed_filters [wild_filter] section_feed0 [0%nat].
Proof.
  split; [|by apply NoDup_singleton]. eapply chain_cons; [done | apply wild_filter_ok | constructor].
Qed.

Lemma plain_packet_ok b1 b2 b3 data :
  is_byte b1 -> is_byte b2 -> is_byte b3 -> bytes data -> zlen data <= 184 ->
  packet_ok (plain_packet b1 b2 b3 data).
Proof.
  intros H1 H2 H3 Hd Hl. split.
  - unfold plain_packet. zsimpl. unfold zlen in *. lia.
  - unfold plain_packet. bytes.
Qed.

Lemma payload_bounds_witness :
  packet_ok (plain_packet 0x40 0x11 0x31 [7]) /\
  exists n, payload (plain_packet 0x40 0x11 0x31 [7]) = Ret n /\ 0 <= n <= 184 /\
    (n <> 0 -> flag (zn (plain_packet 0x40 0x11 0x31 [7]) 3) 0x10 = true) /\
    (n <> 0 -> flag (zn (plain_packet 0x40 0x11 0x31 [7]) 3) 0x20 = true ->
     188 - n = 5 + zn (plain_packet 0x40 0x11 0x31 [7]) 4) /\
    (n <> 0 -> flag (zn (plain_packet 0x40 0x11 0x31 [7]) 3) 0x20 = false -> 188 - n = 4).
Proof.
  assert (H : packet_ok (plain_packet 0x40 0x11 0x31 [7])).
  { apply plain_packet_ok; try (unfold is_byte; lia); [|done]. bytes. }
  split; [done|]. by apply payload_bounds.
Defined.

Lemma sectionfilter_accepts_witness :
  dvb_dmx_swfilter_sectionfilter (fun _ _ _ => 0) 0 section_feed0 0 wild_filter =
    Ret ([EvSec 0 0 []], 0).
Proof.
  rewrite (sectionfilter_accepts (fun _ _ _ => 0) 0 section_feed0 0 wild_filter);
    [reflexivity | apply wild_filter_ok | done].
Defined.

Lemma section_packet_safe_witness :
  exists f' ev r, dvb_dmx_swfilter_section_packet (fun c _ => c) (fun _ _ _ => 0) [wild_filter] 0
      section_feed0 (plain_packet 0x40 0x11 0x11 [0; 0; 0; 1; 9]) = Ret (f', ev, r) /\
    sec_ok f' /\ config f' = config section_feed0 /\
    (payload (plain_packet 0x40 0x11 0x11 [0; 0; 0; 1; 9]) <> Ret 0 -> cc f' = 1).
Proof.
  apply (section_packet_safe (fun c _ => c) (fun _ _ _ => 0) [wild_filter] 0 [0%nat]).
  - apply section_feed0_ok.
  - done.
  - apply section_feed0_filters.
  - apply plain_packet_ok; try (unfold is_byte; lia); [|done]. bytes.
Defined.
