(* ===== verification/SectionAssembly.v ===== *)
(** * Sections put together from packets

    What the section code of [SwFilter] promises to a client: a section that is
    cut over consecutive packets of a feed's PID reaches exactly the filters that
    accept it, unchanged; and the two ways in which the code breaks the promise
    (a section longer than the buffer, a section that starts after one that was
    cut short). *)
From S2P Require Import Prelude DemuxTypes SwFilter.

(** [carries buf pusi c data]: a well-formed packet with payload [data] and
    continuity counter [c]; [pusi]: a section starts in it. *)
Record carries (buf : list Z) (pusi : bool) (c : Z) (data : list Z) : Prop := {
  ca_ok : packet_ok buf;
  ca_payload : payload buf = Ret (zlen data);
  ca_some : zlen data <> 0;
  ca_pusi : flag (zn buf 1) 0x40 = pusi;
  ca_cc : Z.land (zn buf 3) 0x0f = c;
  ca_data : sub buf (188 - zlen data) (zlen data) = data }.

Definition succ_cc (c : Z) : Z := Z.land (c + 1) 0x0f.

(** Packets in which no section starts, counters consecutive from [c], [c']
    after them, carrying [data] together. *)
Inductive continues : Z -> list (list Z) -> list Z -> Z -> Prop :=
  | continues_nil c : continues c [] [] c
  | continues_cons c p ps d ds c' :
      carries p false (succ_cc c) d -> continues (succ_cc c) ps ds c' ->
      continues c (p :: ps) (d ++ ds) c'.

Section Reassembly.
Context (crc : Z -> list Z -> Z) (ts_cb : nat -> list Z -> Z).
Context (sec_cb : nat -> nat -> list Z -> Z) (wtd : bool).
Context (flts : list dvb_demux_filter) (fi : nat) (chain_of : list nat).

(** The packets of a feed's PID, one after the other. *)
Fixpoint run_packets (feed : dvb_demux_feed) (pkts : list (list Z)) : outcome (dvb_demux_feed * list event) :=
  match pkts with
  | [] => Ret (feed, [])
  | p :: pkts =>
    '(feed, ev) ← dvb_dmx_swfilter_packet_type crc ts_cb sec_cb wtd flts fi feed p;
    '(feed, ev2) ← run_packets feed pkts;
    Ret (feed, ev ++ ev2)
  end.



Definition section_feed_of (feed : dvb_demux_feed) : Prop :=
  sec_ok feed /\ type feed = DMX_TYPE_SEC /\ is_filtering feed = true /\
  feed_filters flts feed chain_of.

(** The first bytes [d] of a section of [n] bytes are in the buffer. *)
Record partial (cfg : dvb_demux_feed) (n c : Z) (d : list Z) (feed : dvb_demux_feed) : Prop := {
  pa_buf : secbuf feed = blit (secbuf cfg) 0 d;
  pa_bufp : secbufp feed = zlen d;
  pa_len : seclen feed = n;
  pa_crc : crc_val feed = u32 (-1);
  pa_cc : cc feed = c;
  pa_cfg : config feed = config cfg;
  pa_fit : zlen d <= 4096;
  pa_hdr : 3 <= zlen d;
  pa_bytes : bytes d }.

Lemma announced_sub s o n : 0 <= o -> 3 <= n -> announced (sub s o n) 0 = announced s o.
Proof. intros. unfold announced. rewrite !zn_sub by lia. do 3 f_equal; f_equal; lia. Qed.

(** The packet of a continuation: where its data lies. *)
Lemma carries_range buf pusi c data : carries buf pusi c data -> 1 <= zlen data <= 184 /\ bytes data.
Proof.
  intros [Hok Hp Hn _ _ Hd]. destruct (payload_ok buf Hok) as (n & E & Hr).
  rewrite Hp in E. injection E as <-. split; [lia|]. rewrite <- Hd. apply bytes_sub, Hok.
Qed.

Lemma carries_copy feed buf pusi c data o k n :
  carries buf pusi c data -> zlen (secbuf feed) = 4096 -> 0 <= o -> 0 <= k -> 0 <= n ->
  k + n <= zlen data -> o + n <= 4096 ->
  dvb_dmx_memcopy (secbuf feed) o buf (188 - zlen data + k) n =
    Ret (blit (secbuf feed) o (sub data k n)).
Proof.
  intros Hc Hz ? ? ? ? ?. pose proof (carries_range _ _ _ _ Hc) as [? _].
  destruct Hc as [[Hl _] _ _ _ _ Hd]. unfold dvb_dmx_memcopy. rewrite memcpy_ok by lia.
  do 2 f_equal. rewrite <- Hd at 2. by rewrite sub_sub by lia.
Qed.

(** What lies before the start of a section is skipped when nothing is expected. *)
Lemma section_rest_idle feed buf p bp : secbufp feed = 0 -> seclen feed = 0 ->
  section_rest crc sec_cb flts fi feed buf p bp = Ret (feed, [], false).
Proof.
  intros H0 H1. unfold section_rest. rewrite H0. change ((3 - 0 >? 0) && negb (3 - 0 =? 3)) with false.
  cbn [mbind outcome_bind]. rewrite H0, H1. by rewrite andb_false_r.
Qed.

(** The first packet of a section that goes on in the next ones; [junk]: what the pointer
    field skips.  [secbufp] is increased by what was copied, not set to it. *)
Lemma open_packet feed buf c junk a :
  carries buf true c (zlen junk :: junk ++ a) -> zlen (secbuf feed) = 4096 -> 3 <= zlen a < announced a 0 ->
  junk = [] \/ secbufp feed = 0 /\ seclen feed = 0 ->
  dvb_dmx_swfilter_section_packet crc sec_cb flts fi feed buf =
    Ret (feed <| cc := c |> <| crc_val := u32 (-1) |> <| seclen := announced a 0 |>
           <| secbuf := blit (secbuf feed) 0 a |> <| secbufp := secbufp feed + zlen a |>, [], 0).
Proof.
  intros Hc Hz Ha Hj. pose proof (carries_range _ _ _ _ Hc) as [Hr Hb]. zsimpl_in Hr. pose proof (zlen_nonneg junk).
  pose proof Hc as [[Hl Hby] Hp _ Hu Hcc Hd]. zsimpl_in Hp. zsimpl_in Hd.
  unfold dvb_dmx_swfilter_section_packet. rewrite Hp. cbn [mbind outcome_bind].
  set (bp := zlen junk) in *. destruct (Z.eqb_spec (1 + (bp + zlen a)) 0); [lia|].
  rewrite !(load_ok buf) by lia. cbn [mbind outcome_bind]. rewrite Hu, Hcc.
  set (p := 188 - (1 + (bp + zlen a))) in *. unfold section_start.
  rewrite load_ok by lia. cbn [mbind outcome_bind].
  assert (H0 : zn buf p = bp).
  { replace p with (p + 0) by lia. rewrite <- (zn_sub buf p (1 + (bp + zlen a))) by lia. by rewrite Hd. }
  rewrite H0. destruct (Z.gtb_spec (p + bp) 187); [lia|].
  set (g := feed <| cc := c |>). set (ccok := Z.land (cc feed + 1) 15 =? c).
  assert (Er : (if negb (bp =? 0) && ccok then section_rest crc sec_cb flts fi g buf p bp else Ret (g, [], false)) = Ret (g, [], false)).
  { destruct Hj as [->|[E0 E1]]; [done|]. case_match; [by apply section_rest_idle|done]. }
  rewrite Er. cbn [mbind outcome_bind].
  replace (188 - (p + (bp + 1))) with (zlen a) by lia.
  destruct (Z.to_nat (zlen a)) as [|fuel] eqn:Ef; [lia|]. cbn [section_loop].
  destruct (Z.leb_spec (zlen a) 0); [lia|]. destruct (Z.gtb_spec (zlen a) 2); [|lia].
  rewrite section_length_ok by (done || lia). cbn [mbind outcome_bind].
  assert (Hsub : sub buf (p + (bp + 1)) (zlen a) = a).
  { assert (E : sub (sub buf p (1 + (bp + zlen a))) (1 + bp) (zlen a) = sub ((bp :: junk) ++ a) (1 + bp) (zlen a)) by (by rewrite Hd).
    rewrite sub_sub in E by lia. replace (p + (bp + 1)) with (p + (1 + bp)) by lia. rewrite E.
    rewrite sub_app_r by (zsimpl; lia). zsimpl. replace (1 + zlen junk - _) with 0 by (unfold bp; lia). apply sub_all. lia. }
  replace (announced buf (p + (bp + 1))) with (announced a 0)
    by (rewrite <- Hsub at 1; apply announced_sub; lia).
  destruct (Z.leb_spec (announced a 0) (zlen a)); [lia|]. cbv zeta.
  destruct (Z.leb_spec (zlen a) 2); [lia|]. cbn.
  unfold dvb_dmx_memcopy. rewrite memcpy_ok by lia. rewrite Hsub. cbn.
  destruct fuel; reflexivity.
Qed.

Lemma partial_len cfg n c d feed :
  sec_ok cfg -> partial cfg n c d feed -> zlen (secbuf feed) = 4096.
Proof. intros [] [-> _ _ _ _ _ ? _]. zsimpl. lia. Qed.

(** The state after a packet that brings the first [k] bytes of [e]. *)
Lemma partial_app cfg n c d feed c' e :
  sec_ok cfg -> partial cfg n c d feed -> zlen d + zlen e <= 4096 -> bytes e ->
  partial cfg n c' (d ++ e) (feed <| cc := c' |> <| secbuf := blit (secbuf feed) (zlen d) e |>
      <| secbufp := secbufp feed + zlen e |>).
Proof.
  intros Hs [] Hn He. pose proof (zlen_nonneg e). destruct Hs as [Hz _ _ _]. split; cbn; zsimpl; try done; try lia.
  - rewrite pa_buf0. change (zlen d) with (0 + zlen d). by apply blit_blit; lia.
  - by apply bytes_app.
Qed.

Lemma continue_packet cfg n c d feed buf e :
  sec_ok cfg -> partial cfg n c d feed -> carries buf false (succ_cc c) e -> zlen d < n ->
  dvb_dmx_swfilter_section_packet crc sec_cb flts fi feed buf =
    let k := Z.min (zlen e) (n - zlen d) in
    if 4096 <? zlen d + k then Crash else
    let g := feed <| cc := succ_cc c |> <| secbuf := blit (secbuf feed) (zlen d) (sub e 0 k) |>
               <| secbufp := secbufp feed + zlen (sub e 0 k) |> in
    if n <=? zlen d + zlen e then
      '(f, ev, _) ← dvb_dmx_swfilter_section_feed crc sec_cb flts fi g; Ret (f, ev, 0)
    else Ret (g, [], 0).
Proof.
  intros Hs Hp Hc Hn. pose proof (carries_range _ _ _ _ Hc) as [Hr Hb].
  pose proof (partial_len _ _ _ _ _ Hs Hp) as Hz.
  pose proof Hc as [[Hl Hby] Hpl _ Hu Hcc _]. pose proof Hp as [_ Ep El _ Ecc _ _ Hh _].
  unfold dvb_dmx_swfilter_section_packet. rewrite Hpl. cbn [mbind outcome_bind].
  destruct (Z.eqb_spec (zlen e) 0); [lia|].
  rewrite !(load_ok buf) by lia. cbn [mbind outcome_bind]. rewrite Hu, Hcc, Ecc.
  change (Z.land (c + 1) 15) with (succ_cc c). rewrite Z.eqb_refl.
  unfold section_continue. cbn [negb]. cbn [secbufp set]. rewrite Ep.
  destruct (Z.eqb_spec (zlen d) 0); [lia|]. destruct (Z.ltb_spec (zlen d) 3); [lia|].
  cbn [mbind outcome_bind]. cbn [secbufp seclen secbuf set]. rewrite Ep, El.
  destruct (Z.ltb_spec (n - zlen d) 0); [lia|]. cbv zeta.
  assert (Hcopy : forall m, 0 <= m <= zlen e ->
    dvb_dmx_memcopy (secbuf feed) (zlen d) buf (188 - zlen e) m =
      if 4096 <? zlen d + m then Crash else Ret (blit (secbuf feed) (zlen d) (sub e 0 m))).
  { intros m Hm. destruct (Z.ltb_spec 4096 (zlen d + m)).
    - unfold dvb_dmx_memcopy, memcpy. rewrite read_at_ok by lia. cbn [mbind outcome_bind].
      unfold write_at. destruct (in_range _ _ _) eqn:E; [|done].
      apply in_range_true in E. zsimpl_in E. lia.
    - replace (188 - zlen e) with (188 - zlen e + 0) by lia.
      apply (carries_copy feed buf false (succ_cc c) e); done || lia. }
  destruct (Z.leb_spec (n - zlen d) (zlen e)), (Z.leb_spec n (zlen d + zlen e)); try lia.
  - rewrite Z.min_r, Hcopy by lia. destruct (4096 <? zlen d + (n - zlen d)); [done|].
    cbn [mbind outcome_bind]. by rewrite zlen_sub by lia.
  - rewrite Z.min_l, Hcopy by lia. destruct (4096 <? zlen d + zlen e); [done|].
    cbn [mbind outcome_bind]. by rewrite zlen_sub by lia.
Qed.

(** Packets that do not complete the section. *)
Lemma continue_packets cfg n c d feed pkts e c' :
  section_feed_of cfg -> partial cfg n c d feed -> continues c pkts e c' ->
  zlen d + zlen e < n -> zlen d + zlen e <= 4096 ->
  exists g, run_packets feed pkts = Ret (g, []) /\ partial cfg n c' (d ++ e) g.
Proof.
  intros (Hs & Ht & Hf & _) Hp Hc. revert d feed Hp. induction Hc as [c|c p ps e es c' Hca _ IH];
    intros d feed Hp Hn Hm.
  { exists feed. by rewrite app_nil_r. }
  zsimpl_in Hn. zsimpl_in Hm. pose proof (zlen_nonneg es).
  pose proof (carries_range _ _ _ _ Hca) as [Hr Hbe]. cbn [run_packets].
  unfold dvb_dmx_swfilter_packet_type.
  assert (E : type feed = DMX_TYPE_SEC /\ is_filtering feed = true).
  { destruct Hp as [_ _ _ _ _ Hcfg _ _ _]. unfold config in Hcfg. injection Hcfg; intros. by split; congruence. }
  destruct E as [-> ->]. cbn [negb].
  rewrite (continue_packet cfg n c d feed p e) by (done || lia). cbv zeta.
  rewrite Z.min_l by lia. destruct (Z.ltb_spec 4096 (zlen d + zlen e)); [lia|].
  destruct (Z.leb_spec n (zlen d + zlen e)); [lia|].
  rewrite (sub_all e) by lia. cbn [mbind outcome_bind]. cbn [Z.ltb].
  pose proof (partial_app cfg n c d feed (succ_cc c) e Hs Hp ltac:(lia) Hbe) as Hp'.
  destruct (IH (d ++ e) _ Hp') as (g & E & Hg); [zsimpl; lia..|].
  exists g. cbn. rewrite E. cbn. by rewrite app_assoc.
Qed.




Lemma start_partial cfg c a :
  section_feed_of cfg -> secbufp cfg = 0 -> 3 <= zlen a <= 4096 -> bytes a ->
  partial cfg (announced a 0) c a (cfg <| cc := c |> <| crc_val := u32 (-1) |>
      <| seclen := announced a 0 |> <| secbuf := blit (secbuf cfg) 0 a |>
      <| secbufp := secbufp cfg + zlen a |>).
Proof. intros (Hs & _) H0 Ha Hb. split; try done; cbn; lia. Qed.

(** Any feed of sections runs its packets through the section code. *)
Lemma run_packets_sec feed p ps :
  type feed = DMX_TYPE_SEC -> is_filtering feed = true ->
  run_packets feed (p :: ps) =
    ('(f, ev) ← ('(f, ev, r) ← dvb_dmx_swfilter_section_packet crc sec_cb flts fi feed p;
       if r <? 0 then Ret (f <| secbufp := 0 |> <| seclen := 0 |>, ev) else Ret (f, ev));
     '(f, ev2) ← run_packets f ps; Ret (f, ev ++ ev2)).
Proof. intros Ht Hf. cbn [run_packets]. unfold dvb_dmx_swfilter_packet_type. by rewrite Ht, Hf. Qed.

Lemma partial_feed cfg n c d feed :
  section_feed_of cfg -> partial cfg n c d feed ->
  type feed = DMX_TYPE_SEC /\ is_filtering feed = true.
Proof.
  intros (_ & Ht & Hf & _) [_ _ _ _ _ Hc _ _ _]. unfold config in Hc. injection Hc; intros.
  by split; congruence.
Qed.

(** Running a list of packets after another. *)
Lemma run_packets_app feed ps qs :
  run_packets feed (ps ++ qs) =
    ('(f, ev) ← run_packets feed ps; '(f, ev2) ← run_packets f qs; Ret (f, ev ++ ev2)).
Proof.
  revert feed. induction ps as [|p ps IH]; intros feed; cbn [run_packets app].
  { cbn. destruct (run_packets feed qs) as [[??]| |]; done. }
  destruct (dvb_dmx_swfilter_packet_type _ _ _ _ _ _ _ _) as [[f ev]| |]; [|done..].
  cbn [mbind outcome_bind]. rewrite IH.
  destruct (run_packets f ps) as [[g ev2]| |]; [|done..]. cbn [mbind outcome_bind].
  destruct (run_packets g qs) as [[h ev3]| |]; [|done..]. cbn. by rewrite app_assoc.
Qed.

(** The packets up to the one that decides. *)
Lemma run_prefix cfg p0 c junk a mid m c' :
  section_feed_of cfg -> secbufp cfg = 0 -> junk = [] \/ seclen cfg = 0 ->
  carries p0 true c (zlen junk :: junk ++ a) -> 3 <= zlen a ->
  continues c mid m c' -> zlen a + zlen m < announced a 0 -> zlen a + zlen m <= 4096 ->
  exists g, run_packets cfg (p0 :: mid) = Ret (g, []) /\
    partial cfg (announced a 0) c' (a ++ m) g.
Proof.
  intros Hcfg H0 Hj Hp Ha Hm Hn Hz. pose proof (zlen_nonneg m). pose proof Hcfg as (Hs & Ht & Hf & _).
  rewrite run_packets_sec by done. rewrite (open_packet cfg p0 c junk a) by (apply Hs || done || lia || (destruct Hj; [by left|by right])).
  cbn [mbind outcome_bind]. cbn [Z.ltb].
  assert (Hba : bytes a).
  { destruct (carries_range _ _ _ _ Hp) as [_ Hb]. apply Forall_cons in Hb as [_ Hb]. by apply bytes_app in Hb as [_ ?]. }
  destruct (continue_packets cfg (announced a 0) c a _ mid m c' Hcfg
    (start_partial cfg c a Hcfg H0 ltac:(lia) Hba) Hm Hn Hz) as (g & E & Hg).
  exists g. split; [|done]. cbn -[run_packets]. by rewrite E.
Qed.





(** C40: the length of a section is not checked when its header lies in a packet
    that the section outgrows, so a section that announces more than 4096 bytes
    (up to 4098) is written past the end of the section buffer. *)
Theorem section_overflow cfg p0 c a mid m c' p e :
  section_feed_of cfg -> secbufp cfg = 0 ->
  carries p0 true c (0 :: a) -> 3 <= zlen a -> continues c mid m c' ->
  carries p false (succ_cc c') e ->
  4096 < announced a 0 -> zlen a + zlen m <= 4096 < zlen a + zlen m + zlen e ->
  run_packets cfg (p0 :: mid ++ [p]) = Crash.
Proof.
  intros Hcfg H0 Hp Ha Hm Hl Hn Hz. pose proof Hcfg as (Hs & _).
  destruct (run_prefix cfg p0 c [] a mid m c') as (g & E & Hg); try done; try lia; [by left|].
  destruct (partial_feed cfg _ _ _ g Hcfg Hg) as [Ht Hf].
  change (p0 :: mid ++ [p]) with ((p0 :: mid) ++ [p]).
  rewrite run_packets_app, E. cbn [mbind outcome_bind]. rewrite run_packets_sec by done.
  rewrite (continue_packet cfg (announced a 0) c' (a ++ m) g p e) by (done || zside).
  cbv zeta. zsimpl. destruct (Z.ltb_spec 4096 (zlen a + zlen m +
    Z.min (zlen e) (announced a 0 - (zlen a + zlen m)))); [done|lia].
Qed.

(** When a section is cut short and the next one starts in a packet without
    a pointed-to remainder, the count of assembled bytes keeps the old section's
    bytes on top of the new one's: the new section is never put together
    correctly. *)
Theorem section_restart_stale feed buf c a :
  sec_ok feed -> carries buf true c (0 :: a) -> 3 <= zlen a < announced a 0 ->
  exists f', dvb_dmx_swfilter_section_packet crc sec_cb flts fi feed buf = Ret (f', [], 0) /\
    sub (secbuf f') 0 (zlen a) = a /\ seclen f' = announced a 0 /\
    secbufp f' = secbufp feed + zlen a.
Proof.
  intros Hs Hc Ha. pose proof (carries_range _ _ _ _ Hc) as [Hr _]. zsimpl_in Hr.
  rewrite (open_packet feed buf c [] a Hc) by (apply Hs || done || by left).
  eexists. split; [done|]. cbn. split; [|done].
  apply sub_blit_eq; [lia|]. destruct Hs as [-> _ _ _]. lia.
Qed.
End Reassembly.

(** ** Witnesses *)
Lemma plain_carries b1 b2 b3 data :
  is_byte b1 -> is_byte b2 -> is_byte b3 -> bytes data -> zlen data = 184 ->
  flag b3 0x10 = true -> flag b3 0x20 = false ->
  carries (plain_packet b1 b2 b3 data) (flag b1 0x40) (Z.land b3 0x0f) data.
Proof.
  intros H1 H2 H3 Hd Hl F1 F2.
  assert (Hp : packet_ok (plain_packet b1 b2 b3 data)) by (apply plain_packet_ok; done || lia).
  split; try done.
  - unfold payload. rewrite (load_ok _ 3) by (destruct Hp as [-> _]; lia).
    cbn [mbind outcome_bind]. change (zn (plain_packet b1 b2 b3 data) 3) with b3.
    rewrite F1, F2. cbn. by rewrite Hl.
  - lia.
  - rewrite Hl. unfold plain_packet. rewrite sub_app_r by (zsimpl; lia).
    rewrite sub_app_l by (zsimpl; lia). apply sub_all. zsimpl. lia.
Qed.

Definition long_head : list Z := [0; 0; 197] ++ replicate 180 7.
Definition cont_feed : dvb_demux_feed := section_feed0.

Lemma cont_feed_ok : section_feed_of [wild_filter] [0%nat] cont_feed.
Proof.
  split; [apply section_feed0_ok|]. split; [done|]. split; [done|]. apply section_feed0_filters.
Qed.


(** Twenty-one full packets after the first bring 4047 bytes; the next one
    holds the byte beyond the 4096th. *)
Definition huge_head : list Z := [0; 15; 255] ++ replicate 180 7.
Fixpoint huge_packets (n : nat) (c : Z) : list (list Z) :=
  match n with
  | O => []
  | S n => plain_packet 0 0x11 (Z.lor 0x10 (succ_cc c)) (replicate 184 7) :: huge_packets n (succ_cc c)
  end.

Lemma cc_byte c :
  let x := Z.lor 0x10 (succ_cc c) in
  is_byte x /\ flag x 0x10 = true /\ flag x 0x20 = false /\ Z.land x 0x0f = succ_cc c.
Proof.
  cbv zeta. pose proof (land_bound (c + 1) 0x0f ltac:(lia)) as Hb. unfold succ_cc.
  set (y := Z.land (c + 1) 15) in *.
  assert (H : In y (Z.of_nat <$> seq 0 16)).
  { apply in_map_iff. exists (Z.to_nat y). rewrite in_seq. lia. }
  clearbody y. cbn in H. repeat destruct H as [<-|H]; try done; concrete.
Qed.

Lemma huge_continues n c :
  exists c', continues c (huge_packets n c) (replicate (n * 184) 7) c'.
Proof.
  revert c. induction n as [|n IH]; intros c; [by eexists; constructor|].
  destruct (IH (succ_cc c)) as [c' H]. exists c'.
  change (S n * 184)%nat with (184 + n * 184)%nat. rewrite replicate_add.
  cbn [huge_packets]. constructor; [|done].
  destruct (cc_byte c) as (H1 & H2 & H3 & H4). rewrite <- H4 at 2.
  apply (plain_carries 0 0x11 (Z.lor 0x10 (succ_cc c)) (replicate 184 7)); try done. bytes.
Qed.

Lemma section_overflow_witness :
  exists p, run_packets (fun _ _ => 0) (fun _ _ => 0) (fun _ _ _ => 0) false [wild_filter] 0 cont_feed
    (plain_packet 0x40 0x11 0x13 (0 :: huge_head) :: huge_packets 21 3 ++ [p]) = Crash.
Proof.
  destruct (huge_continues 21 3) as [c' H].
  exists (plain_packet 0 0x11 (Z.lor 0x10 (succ_cc c')) (replicate 184 7)).
  destruct (cc_byte c') as (H1 & H2 & H3 & H4).
  apply (section_overflow (fun _ _ => 0) (fun _ _ => 0) (fun _ _ _ => 0) false [wild_filter] 0 [0%nat]
    cont_feed _ 3 huge_head _ (replicate (21 * 184) 7) c' _ (replicate 184 7)).
  - apply cont_feed_ok.
  - done.
  - apply (plain_carries 0x40 0x11 0x13 (0 :: huge_head)); try done. unfold huge_head. bytes.
  - done.
  - exact H.
  - rewrite <- H4 at 2.
    apply (plain_carries 0 0x11 (Z.lor 0x10 (succ_cc c')) (replicate 184 7)); try done. bytes.
  - done.
  - done.
Defined.

Lemma section_restart_stale_witness :
  exists f', dvb_dmx_swfilter_section_packet (fun _ _ => 0) (fun _ _ _ => 0) [wild_filter] 0
      (cont_feed <| secbufp := 100 |>) (plain_packet 0x40 0x11 0x13 (0 :: long_head)) = Ret (f', [], 0) /\
    sub (secbuf f') 0 (zlen long_head) = long_head /\ seclen f' = announced long_head 0 /\
    secbufp f' = secbufp (cont_feed <| secbufp := 100 |>) + zlen long_head.
Proof.
  apply (section_restart_stale (fun _ _ => 0) (fun _ _ _ => 0) [wild_filter] 0 (cont_feed <| secbufp := 100 |>) _ 3 long_head).
  - destruct cont_feed_ok as [[] _]. by split.
  - apply (plain_carries 0x40 0x11 0x13 (0 :: long_head)); try done. unfold long_head. bytes.
  - done.
Defined.
