(* ===== verification/SwStream.v ===== *)
(** * The byte stream cut into packets

    [dvb_dmx_swfilter] of [SwFilter] is fed a transport stream in pieces of any
    size and keeps the start of an unfinished packet in [tsbuf].  Here it is
    compared with a specification that sees the stream as a whole: [cut] says
    which packets a stream consists of, whatever the pieces are. *)
From S2P Require Import Prelude DemuxTypes SwFilter.

(** [cut l ps r]: the stream [l] consists of the packets [ps], of bytes outside
    packets (where the sync byte 0x47 was expected and not found), and of the
    start [r] of a packet. *)
Inductive cut : list Z -> list (list Z) -> list Z -> Prop :=
  | cut_nil : cut [] [] []
  | cut_skip b l ps r : b <> 0x47 -> cut l ps r -> cut (b :: l) ps r
  | cut_packet p l ps r : zlen p = 188 -> zn p 0 = 0x47 -> cut l ps r -> cut (p ++ l) (p :: ps) r
  | cut_rest l : 0 < zlen l < 188 -> zn l 0 = 0x47 -> cut l [] l.

Lemma cut_total l : exists ps r, cut l ps r.
Proof.
  remember (length l) as n eqn:E. revert l E.
  induction (lt_wf n) as [n _ IH]. intros l ->. destruct l as [|b l]; [by eexists _, _; constructor|].
  destruct (decide (b = 0x47)) as [->|Hb].
  2: { destruct (IH (length l) ltac:(cbn; lia) l eq_refl) as (ps & r & H).
       eexists _, _. by constructor. }
  destruct (decide (zlen (0x47 :: l) < 188)) as [Hs|Hs].
  { eexists _, _. apply cut_rest; [zsimpl_in Hs; zsimpl; pose proof (zlen_nonneg l); lia|done]. }
  pose proof (sub_split (0x47 :: l) 0 188 (zlen (0x47 :: l) - 188) ltac:(lia) ltac:(lia) ltac:(lia)) as E.
  rewrite sub_all in E by lia.
  set (k := sub (0x47 :: l) (0 + 188) (zlen (0x47 :: l) - 188)) in *.
  assert (zlen k < zlen (0x47 :: l)) by (unfold k; rewrite zlen_sub by lia; lia).
  destruct (IH (length k) ltac:(unfold zlen in *; lia) k eq_refl) as (ps & r & H0).
  eexists _, _. rewrite E. apply cut_packet; [|by rewrite zn_sub by lia|exact H0].
  rewrite zlen_sub; lia.
Qed.

Lemma cut_app l k ps qs r r' : cut l ps r -> cut (r ++ k) qs r' -> cut (l ++ k) (ps ++ qs) r'.
Proof.
  induction 1; intros H'; [done| | |done].
  - cbn. constructor; auto.
  - rewrite <- app_assoc. cbn. constructor; auto.
Qed.

Lemma cut_det l ps r ps' r' : cut l ps r -> cut l ps' r' -> ps = ps' /\ r = r'.
Proof.
  intros H. revert ps' r'. induction H as [|b l ps r Hb H IH|q l ps r Hq Hs H IH|l Hl Hs];
    intros ps' r' H'.
  - inversion H' as [|b l ps0 r0 Hb Hc E|q l ps0 r0 Hq Hs Hc E|l Hl Hs]; subst; [done| |done].
    apply app_eq_nil in E as [-> _]. done.
  - inversion H' as [|b' l' ps0 r0 Hb' Hc E|q l' ps0 r0 Hq Hs Hc E|l' Hl Hs]; subst.
    + by apply IH.
    + destruct q as [|x q]; [done|]. by injection E as -> _.
    + done.
  - assert (Hlen : 188 <= zlen (q ++ l)) by (zsimpl; pose proof (zlen_nonneg l); lia).
    inversion H' as [E|b' l' ps0 r0 Hb' Hc E|q' l' ps0 r0 Hq' Hs' Hc E|l' Hl' Hs']; subst.
    + rewrite <- E in Hlen. done.
    + destruct q as [|x q]; [done|]. by injection E as -> _.
    + apply app_inj_1 in E as [<- <-]; [|unfold zlen in *; lia].
      destruct (IH _ _ Hc) as [-> ->]. done.
    + lia.
  - inversion H' as [E|b' l' ps0 r0 Hb' Hc E|q' l' ps0 r0 Hq' Hs' Hc E|l' Hl' Hs']; subst; try done.
    zsimpl_in Hl. pose proof (zlen_nonneg l'). lia.
Qed.

(** The unfinished packet of a cut. *)
Lemma cut_rest_ok l ps r : cut l ps r -> zlen r < 188 /\ (r <> [] -> zn r 0 = 0x47).
Proof. induction 1; try done. split; [lia|done]. Qed.

Section Stream.
Context (crc : Z -> list Z -> Z) (ts_cb : nat -> list Z -> Z).
Context (sec_cb : nat -> nat -> list Z -> Z) (wtd : bool).

Abbreviation packet := (dvb_dmx_swfilter_packet crc ts_cb sec_cb wtd).
Abbreviation swfilter := (dvb_dmx_swfilter crc ts_cb sec_cb wtd).
Abbreviation loop := (swfilter_loop crc ts_cb sec_cb wtd).

(** The packets of a stream, one after the other. *)
Fixpoint packets (d : dvb_demux) (ps : list (list Z)) : outcome (dvb_demux * list event) :=
  match ps with
  | [] => Ret (d, [])
  | p :: ps => '(d, ev) ← packet d p; '(d, ev2) ← packets d ps; Ret (d, ev ++ ev2)
  end.

(** The stream in pieces. *)
Fixpoint swfilter_pieces (d : dvb_demux) (bs : list (list Z)) : outcome (dvb_demux * list event) :=
  match bs with
  | [] => Ret (d, [])
  | b :: bs => '(d, ev) ← swfilter d b (zlen b); '(d, ev2) ← swfilter_pieces d bs; Ret (d, ev ++ ev2)
  end.

Definition with_carry (t : list Z) (n : Z) (m : outcome (dvb_demux * list event)) : outcome (dvb_demux * list event) :=
  '(d, ev) ← m; Ret (d <| tsbuf := t |> <| tsbufp := n |>, ev).

(** The bytes kept from earlier calls. *)
Definition carry (d : dvb_demux) : list Z := sub (tsbuf d) 0 (tsbufp d).
Record carry_ok (d : dvb_demux) : Prop := {
  co_buf : zlen (tsbuf d) = 204;
  co_pos : 0 <= tsbufp d < 188;
  co_sync : tsbufp d <> 0 -> zn (tsbuf d) 0 = 0x47 }.

(** A packet neither reads nor changes the kept bytes. *)
Lemma packet_carry d t n p :
  packet (d <| tsbuf := t |> <| tsbufp := n |>) p = with_carry t n (packet d p).
Proof.
  unfold dvb_dmx_swfilter_packet, with_carry. destruct (ts_pid p); [|done..].
  cbn [mbind outcome_bind filters feed_list feeds set].
  by destruct (packet_feeds _ _ _ _ _ _ _ _ _) as [[??]| |].
Qed.

Lemma packets_carry d t n ps :
  packets (d <| tsbuf := t |> <| tsbufp := n |>) ps = with_carry t n (packets d ps).
Proof.
  revert d. induction ps as [|p ps IH]; intros d; [done|]. cbn [packets].
  rewrite packet_carry. destruct (packet d p) as [[d' ev]| |]; [|done..]. cbn.
  rewrite IH. by destruct (packets d' ps) as [[??]| |].
Qed.

Lemma packet_keeps d p d' ev :
  packet d p = Ret (d', ev) -> tsbuf d' = tsbuf d /\ tsbufp d' = tsbufp d.
Proof.
  unfold dvb_dmx_swfilter_packet. intros H. apply bind_ret_inv in H as (h & _ & H).
  apply bind_ret_inv in H as ([fds ev'] & _ & H). injection H as <- _. done.
Qed.

Lemma packets_app d ps qs :
  packets d (ps ++ qs) =
    ('(d, ev) ← packets d ps; '(d, ev2) ← packets d qs; Ret (d, ev ++ ev2)).
Proof.
  revert d. induction ps as [|p ps IH]; intros d; cbn [packets app].
  { cbn. by destruct (packets d qs) as [[??]| |]. }
  destruct (packet d p) as [[d' ev]| |]; [|done..]. cbn [mbind outcome_bind].
  rewrite IH. destruct (packets d' ps) as [[d2 ev2]| |]; [|done..]. cbn [mbind outcome_bind].
  destruct (packets d2 qs) as [[d3 ev3]| |]; [|done..]. cbn. by rewrite app_assoc.
Qed.

(** The loop over a buffer, with nothing carried. *)
Lemma loop_cut l ps r : cut l ps r -> forall fuel d buf p count,
  l = sub buf p (count - p) -> 0 <= p -> count <= zlen buf -> (Z.to_nat (count - p) <= fuel)%nat ->
  zlen (tsbuf d) = 204 -> tsbufp d = 0 ->
  loop fuel d buf p count = with_carry (blit (tsbuf d) 0 r) (zlen r) (packets d ps).
Proof.
  assert (Hlen : forall (l buf : list Z) p count, l = sub buf p (count - p) -> 0 <= p -> count <= zlen buf ->
    zlen l = Z.max 0 (count - p)).
  { intros l0 buf p count -> Hp Hc. destruct (Z.le_gt_cases (count - p) 0).
    - rewrite sub_neg, zlen_nil by lia. lia.
    - zsimpl. lia. }
  induction 1 as [|b l ps r Hb _ IH|q l ps r Hq Hs _ IH|l Hl Hs];
    intros fuel d buf p count El Hp Hc Hf Ht H0; pose proof (Hlen _ _ _ _ El Hp Hc) as Hz; zsimpl_in Hz.
  - destruct fuel; cbn [swfilter_loop]; (destruct (Z.geb_spec p count); [|lia]);
      cbn; rewrite blit_nil, zlen_nil; destruct d; cbn in *; by subst.
  - pose proof (zlen_nonneg l). destruct fuel as [|fuel]; [lia|]. cbn [swfilter_loop].
    destruct (Z.geb_spec p count); [lia|]. rewrite load_ok by lia. cbn [mbind outcome_bind].
    rewrite sub_cons in El by lia. injection El as <- El.
    destruct (Z.eqb_spec b 0x47); [done|]. apply IH; try done; try lia. rewrite El. f_equal. lia.
  - pose proof (zlen_nonneg l). destruct fuel as [|fuel]; [lia|]. cbn [swfilter_loop].
    destruct (Z.geb_spec p count); [lia|]. rewrite load_ok by lia. cbn [mbind outcome_bind].
    assert (Eq : sub buf p 188 = q).
    { replace p with (p + 0) by lia. rewrite <- (sub_sub buf p (count - p) 0 188) by lia.
      rewrite <- El, sub_app_l by lia. apply sub_all. lia. }
    assert (El' : l = sub buf (p + 188) (count - (p + 188))).
    { rewrite <- (sub_sub buf p (count - p)) by lia. rewrite <- El, sub_app_r by lia.
      symmetry. rewrite Hq. apply sub_all. lia. }
    replace (zn buf p) with 0x47 by (rewrite <- Hs, <- Eq, zn_sub by lia; f_equal; lia).
    cbn [Z.eqb Pos.eqb]. destruct (Z.geb_spec (count - p) 188); [|lia].
    rewrite Eq. cbn [packets]. destruct (packet d q) as [[d' ev]| |] eqn:Epk; [|done..].
    destruct (packet_keeps _ _ _ _ Epk) as [Et Ep]. cbn [mbind outcome_bind].
    rewrite (IH fuel d' buf (p + 188) count) by (done || congruence || lia). rewrite Et.
    unfold with_carry. by destruct (packets d' ps) as [[??]| |].
  - destruct fuel as [|fuel]; [lia|]. cbn [swfilter_loop].
    destruct (Z.geb_spec p count); [lia|]. rewrite load_ok by lia. cbn [mbind outcome_bind].
    replace (zn buf p) with 0x47.
    2: { rewrite <- Hs, El, zn_sub by lia. f_equal. lia. }
    cbn [Z.eqb Pos.eqb]. destruct (Z.geb_spec (count - p) 188); [lia|]. cbv zeta.
    rewrite memcpy_ok by lia. rewrite <- El. cbn. by replace (count - p) with (zlen l) by lia.
Qed.

(** One piece. *)
Lemma swfilter_cut d buf ps r :
  carry_ok d -> cut (carry d ++ buf) ps r ->
  exists t, swfilter d buf (zlen buf) = with_carry t (zlen r) (packets d ps) /\
    zlen t = 204 /\ sub t 0 (zlen r) = r.
Proof.
  intros [Ht Hp Hs] Hc. pose proof (zlen_nonneg buf). unfold dvb_dmx_swfilter. unfold carry in Hc.
  pose proof (cut_rest_ok _ _ _ Hc) as [Hr _]. pose proof (zlen_nonneg r).
  destruct (Z.eqb_spec (tsbufp d) 0) as [E|E]; cbn [negb].
  { rewrite E, sub_0 in Hc. cbn in Hc.
    exists (blit (tsbuf d) 0 r). split; [|split; [zside|apply sub_blit_eq; lia]].
    apply (loop_cut _ _ _ Hc); try done; try lia. rewrite Z.sub_0_r. symmetry. by apply sub_all. }
  cbv zeta. destruct (Z.ltb_spec (zlen buf) (188 - tsbufp d)).
  - rewrite memcpy_ok, (sub_all buf) by lia. cbn [mbind outcome_bind].
    assert (Hlen : zlen (sub (tsbuf d) 0 (tsbufp d) ++ buf) = tsbufp d + zlen buf) by zside.
    assert (Hh : zn (sub (tsbuf d) 0 (tsbufp d) ++ buf) 0 = 0x47).
    { rewrite zn_app_l, zn_sub by zside. by apply Hs. }
    destruct (cut_det _ _ _ _ _ Hc (cut_rest (sub (tsbuf d) 0 (tsbufp d) ++ buf) ltac:(lia) Hh))
      as [-> ->].
    rewrite Hlen.
    eexists. split; [reflexivity|]. split; [zside|].
    rewrite sub_split by lia. rewrite Z.add_0_l. rewrite sub_blit_before by lia.
    f_equal. apply sub_blit_eq; lia.
  - rewrite memcpy_ok by lia. cbn [mbind outcome_bind]. cbn [tsbuf set].
    set (j := 188 - tsbufp d) in *. set (t := blit (tsbuf d) (tsbufp d) (sub buf 0 j)).
    set (q := sub t 0 188).
    assert (Hzt : zlen t = 204) by (unfold t; zside).
    assert (Eq : q = sub (tsbuf d) 0 (tsbufp d) ++ sub buf 0 j).
    { unfold q. replace 188 with (tsbufp d + j) by lia. rewrite sub_split by lia.
      rewrite Z.add_0_l. unfold t. rewrite sub_blit_before by zside. f_equal.
      replace j with (zlen (sub buf 0 j)) at 2 by zside. apply sub_blit_eq; zside. }
    assert (Hq0 : zn t 0 = 0x47).
    { replace (zn t 0) with (zn q 0) by (unfold q; rewrite zn_sub by lia; done).
      rewrite Eq, zn_app_l, zn_sub by zside. by apply Hs. }
    assert (Esplit : sub (tsbuf d) 0 (tsbufp d) ++ buf = q ++ sub buf j (zlen buf - j)).
    { rewrite Eq, <- app_assoc. f_equal. rewrite <- (sub_all buf (zlen buf)) at 1 by lia.
      replace (zlen buf) with (j + (zlen buf - j)) at 1 by lia. rewrite sub_split by lia. done. }
    rewrite Esplit in Hc.
    destruct (cut_total (sub buf j (zlen buf - j))) as (qs & r' & Hc').
    assert (Hq : zlen q = 188) by (unfold q; zside).
    assert (Hq0' : zn q 0 = 0x47) by (unfold q; rewrite zn_sub by lia; done).
    destruct (cut_det _ _ _ _ _ Hc (cut_packet q _ _ _ Hq Hq0' Hc')) as [-> ->].
    rewrite load_ok by lia. rewrite Hq0. cbn [mbind outcome_bind Z.eqb Pos.eqb packets].
    assert (E1 : packet (d <| tsbuf := t |>) q = with_carry t (tsbufp d) (packet d q)).
    { rewrite <- packet_carry. by destruct d. }
    rewrite E1. destruct (packet d q) as [[d' ev]| |] eqn:Epk;
      [|by exists (blit t 0 r'); split; [done|]; split; [zside|apply sub_blit_eq; lia]..].
    cbn [mbind outcome_bind with_carry].
    exists (blit t 0 r'). split; [|split; [zside|apply sub_blit_eq; lia]].
    rewrite (loop_cut _ _ _ Hc') by (try done; cbn; lia).
    change (d' <| tsbuf := t |> <| tsbufp := tsbufp d |> <| tsbufp := 0 |>)
      with (d' <| tsbuf := t |> <| tsbufp := 0 |>).
    rewrite packets_carry. unfold with_carry. cbn [tsbuf set].
    by destruct (packets d' qs) as [[??]| |].
Qed.

(** What a piece leaves is again the start of a packet. *)
Lemma carry_kept d t r : zlen t = 204 -> sub t 0 (zlen r) = r -> zlen r < 188 ->
  (r <> [] -> zn r 0 = 0x47) ->
  let d' := d <| tsbuf := t |> <| tsbufp := zlen r |> in carry_ok d' /\ carry d' = r.
Proof.
  intros Ht Hs Hr Hh. pose proof (zlen_nonneg r). split; [|done]. split; cbn; [done|lia|].
  intros Hne. change (zn t 0 = 0x47). replace (zn t 0) with (zn (sub t 0 (zlen r)) 0) by (rewrite zn_sub by lia; done).
  rewrite Hs. apply Hh. intros ->. done.
Qed.

Lemma carry_cut d : carry_ok d -> cut (carry d) [] (carry d) /\ zlen (carry d) = tsbufp d.
Proof.
  intros [Ht Hp Hs]. unfold carry. assert (Hz : zlen (sub (tsbuf d) 0 (tsbufp d)) = tsbufp d) by zside.
  split; [|done]. destruct (Z.eq_dec (tsbufp d) 0) as [E|E]; [rewrite E, sub_0; constructor|].
  constructor; [lia|]. rewrite zn_sub by lia. by apply Hs.
Qed.

(** C3: however a transport stream is cut into the buffers given to
    [dvb_dmx_swfilter], the packets handled are those of the whole stream, in
    order, and what is kept at the end is its unfinished packet. *)
Theorem swfilter_pieces_stream d bs ps r :
  carry_ok d -> cut (carry d ++ concat bs) ps r ->
  exists t, swfilter_pieces d bs = with_carry t (zlen r) (packets d ps) /\
    zlen t = 204 /\ sub t 0 (zlen r) = r.
Proof.
  revert d ps r. induction bs as [|b bs IH]; intros d ps r Hd Hc.
  { destruct (carry_cut d Hd) as [Hc' Hz]. cbn in Hc. rewrite app_nil_r in Hc.
    destruct (cut_det _ _ _ _ _ Hc Hc') as [-> ->]. exists (tsbuf d).
    rewrite Hz. split; [by destruct d|]. split; [apply Hd|done]. }
  cbn [concat swfilter_pieces] in *. rewrite app_assoc in Hc.
  destruct (cut_total (carry d ++ b)) as (ps1 & r1 & Hc1).
  destruct (swfilter_cut d b ps1 r1 Hd Hc1) as (t1 & E1 & Ht1 & Es1). rewrite E1.
  destruct (cut_total (r1 ++ concat bs)) as (ps2 & r2 & Hc2).
  destruct (cut_det _ _ _ _ _ Hc (cut_app _ _ _ _ _ _ Hc1 Hc2)) as [-> ->].
  destruct (cut_rest_ok _ _ _ Hc1) as [Hr1 Hh1]. destruct (cut_rest_ok _ _ _ Hc2) as [Hr2 _].
  pose proof (zlen_nonneg r2). rewrite packets_app.
  destruct (packets d ps1) as [[d1 ev1]| |];
    [|by exists (blit t1 0 r2); split; [done|]; split; [zside|apply sub_blit_eq; lia]..].
  destruct (carry_kept d1 t1 r1 Ht1 Es1 Hr1 Hh1) as [Hok Ek]. cbn [with_carry mbind outcome_bind].
  rewrite <- Ek in Hc2. destruct (IH _ _ _ Hok Hc2) as (t2 & E2 & Ht2 & Es2).
  exists t2. split; [|done]. rewrite E2, packets_carry. unfold with_carry.
  by destruct (packets d1 ps2) as [[??]| |].
Qed.
End Stream.

(** ** Witness *)
Definition stream_demux : dvb_demux :=
  mk_demux 0 0 0 [] [] None [] [] [] 0 0 [] (replicate 204 0) 0 1.

Lemma swfilter_pieces_stream_witness :
  exists t, swfilter_pieces (fun _ _ => 0) (fun _ _ => 0) (fun _ _ _ => 0) false stream_demux
      [[1; 2] ++ ztake 100 (plain_packet 0x40 0x11 0x10 []); zdrop 100 (plain_packet 0x40 0x11 0x10 []) ++ [0x47; 5]]
    = with_carry t 2 (packets (fun _ _ => 0) (fun _ _ => 0) (fun _ _ _ => 0) false stream_demux
        [plain_packet 0x40 0x11 0x10 []]) /\ zlen t = 204 /\ sub t 0 2 = [0x47; 5].
Proof.
  apply (swfilter_pieces_stream (fun _ _ => 0) (fun _ _ => 0) (fun _ _ _ => 0) false stream_demux
    _ [plain_packet 0x40 0x11 0x10 []] [0x47; 5]).
  - by split.
  - change (cut (1 :: 2 :: plain_packet 0x40 0x11 0x10 [] ++ [0x47; 5]) [plain_packet 0x40 0x11 0x10 []] [0x47; 5]).
    constructor; [done|]. constructor; [done|].
    apply cut_packet; [done|done|]. by apply cut_rest.
Defined.
