(* ===== verification/DemuxApi.v ===== *)
(** * The control plane of the software demultiplexer

    Models the second half of driver/dvb/drivers/media/dvb/dvb-core/dvb_demux.c:
    the registry of demultiplexers, the allocation and the life cycle of feeds
    and section filters, the front-end list, opening and initialisation.

    Every call that takes [mutex] has an argument [sig]: is a signal pending
    when it would have to wait?  One call runs at a time, so a call that finds
    the semaphore taken and no signal pending never returns.  The hardware's
    [start_feed] and [stop_feed] are parameters that do not change the
    demultiplexer.  The function pointers that an allocated feed gets are the
    functions below; those stored for a TS feed overlap, in the C union, members
    of the section feed that are set before they are next used. *)
From S2P Require Import Prelude DemuxTypes SwFilter.

Definition DMX_MEMORY_FE : Z := 0.

(** ** The registry: the list [dmx_muxs], and each demultiplexer's [users]. *)
Record registry := mk_registry { dmx_muxs : list nat; dmx_users : list Z }.
#[export] Instance eta_registry : Eta registry := fun r => mk_registry (dmx_muxs r) (dmx_users r).

(** [list_add]; linking a member twice destroys the list. *)
Definition list_add {A} `{EqDecision A} (x : A) (l : list A) : outcome (list A) :=
  if bool_decide (x ∈ l) then Crash else Ret (x :: l).

Definition dmx_register_demux (r : registry) (demux : nat) : outcome (registry * Z) :=
  _ ← deref (dmx_users r) demux;
  let r := r <| dmx_users := <[demux := 0]> (dmx_users r) |> in
  l ← list_add demux (dmx_muxs r);
  Ret (r <| dmx_muxs := l |>, 0).

Fixpoint unregister_loop (pos : list nat) (r : registry) (demux : nat) : outcome (registry * Z) :=
  match pos with
  | [] => Ret (r, - ENODEV)
  | p :: pos =>
    if bool_decide (p = demux) then
      u ← deref (dmx_users r) demux;
      if u >? 0 then Ret (r, - EINVAL)
      else Ret (r <| dmx_muxs := list_difference (dmx_muxs r) [p] |>, 0)
    else unregister_loop pos r demux
  end.
Definition dmx_unregister_demux (r : registry) (demux : nat) : outcome (registry * Z) :=
  unregister_loop (dmx_muxs r) r demux.

Definition dmx_get_demuxes (r : registry) : option (list nat) :=
  match dmx_muxs r with [] => None | l => Some l end.

(** ** The semaphore *)
Definition down_interruptible (d : dvb_demux) (sig : bool) : outcome (dvb_demux * bool) :=
  if mutex d >? 0 then Ret (d <| mutex := mutex d - 1 |>, false)
  else if sig then Ret (d, true) else Hang.
Definition up (d : dvb_demux) : dvb_demux := d <| mutex := mutex d + 1 |>.

(** A body between [down_interruptible] and the [up] on each of its paths. *)
Definition locked (d : dvb_demux) (sig : bool) (body : dvb_demux -> outcome (dvb_demux * Z)) : outcome (dvb_demux * Z) :=
  '(d, interrupted) ← down_interruptible d sig;
  if (interrupted : bool) then Ret (d, - ERESTARTSYS) else
  '(d, r) ← body d;
  Ret (up d, r).

(** ** Allocation *)
(** The loop [for (i = 0; i < n; i++) if (a[i].state == DMX_STATE_FREE) break;]. *)
Fixpoint first_free {A} (st : A -> dmx_state) (l : list A) (n i : nat) : outcome (option nat) :=
  match n with
  | O => Ret None
  | S n =>
    x ← deref l i;
    if bool_decide (st x = DMX_STATE_FREE) then Ret (Some i) else first_free st l n (S i)
  end.

Definition dvb_dmx_filter_alloc (d : dvb_demux) : outcome (dvb_demux * option nat) :=
  i ← first_free f_state (filters d) (Z.to_nat (filternum d)) 0;
  match i with
  | None => Ret (d, None)
  | Some i =>
    f ← deref (filters d) i;
    Ret (put_filter d i (f <| f_state := DMX_STATE_ALLOCATED |>), Some i)
  end.

Definition dvb_dmx_feed_alloc (d : dvb_demux) : outcome (dvb_demux * option nat) :=
  i ← first_free state (feeds d) (Z.to_nat (feednum d)) 0;
  match i with
  | None => Ret (d, None)
  | Some i =>
    f ← deref (feeds d) i;
    Ret (put_feed d i (f <| state := DMX_STATE_ALLOCATED |>), Some i)
  end.

(** ** The list of feeds *)
Definition dvb_demux_feed_find (d : dvb_demux) (feed : nat) : bool :=
  existsb (Nat.eqb feed) (feed_list d).
Definition dvb_demux_feed_add (d : dvb_demux) (feed : nat) : dvb_demux :=
  if dvb_demux_feed_find d feed then d
  else d <| feed_list := feed :: feed_list d |>.
Definition dvb_demux_feed_del (d : dvb_demux) (feed : nat) : dvb_demux :=
  if negb (dvb_demux_feed_find d feed) then d
  else d <| feed_list := list_difference (feed_list d) [feed] |>.

Section Hardware.
(** The driver's functions, if it installs them. *)
Variable start_feed : option (nat -> dvb_demux -> Z).
Variable stop_feed : option (nat -> dvb_demux -> Z).

(** ** TS feeds *)

(** [pes_type] is an [enum], which is unsigned: a negative argument is a large one. *)
Definition dmx_ts_feed_set (d : dvb_demux) (feed : nat)
    (pid' ts_type' pes_type' callback_length circular_buffer_size descramble' : Z) (sig : bool)
  : outcome (dvb_demux * Z) :=
  let pes_type' := u32 pes_type' in
  if pid' >? DMX_MAX_PID then Ret (d, - EINVAL) else
  locked d sig (fun d =>
    '(d, bad) ←
      (if flag ts_type' TS_DECODER then
         if pes_type' >=? DMX_TS_PES_OTHER then Ret (d, true) else
         owner ← deref (pesfilter d) (Z.to_nat pes_type');
         if (match owner with Some o => negb (Nat.eqb o feed) | None => false end) then Ret (d, true)
         else Ret (d <| pesfilter := <[Z.to_nat pes_type' := Some feed]> (pesfilter d) |>
                     <| pids := <[Z.to_nat pes_type' := pid']> (pids d) |>, false)
       else Ret (d, false));
    if (bad : bool) then Ret (d, - EINVAL) else
    let d := dvb_demux_feed_add d feed in
    f ← deref (feeds d) feed;
    let f := f <| pid := pid' |> <| buffer_size := circular_buffer_size |>
               <| descramble := descramble' |> <| cb_length := callback_length |>
               <| ts_type := ts_type' |> <| pes_type := pes_type' |> in
    if negb (descramble f =? 0) then Ret (put_feed d feed f, - ENOSYS)
    else Ret (put_feed d feed (f <| state := DMX_STATE_READY |>), 0)).

Definition dmx_ts_feed_start_filtering (d : dvb_demux) (feed : nat) (sig : bool) : outcome (dvb_demux * Z) :=
  locked d sig (fun d =>
    f ← deref (feeds d) feed;
    if negb (bool_decide (state f = DMX_STATE_READY)) || negb (bool_decide (type f = DMX_TYPE_TS))
    then Ret (d, - EINVAL) else
    match start_feed with
    | None => Ret (d, - ENODEV)
    | Some start =>
      let ret := start feed d in
      if ret <? 0 then Ret (d, ret)
      else Ret (put_feed d feed (f <| is_filtering := true |> <| state := DMX_STATE_GO |>), 0)
    end).

Definition dmx_ts_feed_stop_filtering (d : dvb_demux) (feed : nat) (sig : bool) : outcome (dvb_demux * Z) :=
  locked d sig (fun d =>
    f ← deref (feeds d) feed;
    if state_num (state f) <? state_num DMX_STATE_GO then Ret (d, - EINVAL) else
    match stop_feed with
    | None => Ret (d, - ENODEV)
    | Some stop =>
      let ret := stop feed d in
      Ret (put_feed d feed (f <| is_filtering := false |> <| state := DMX_STATE_ALLOCATED |>), ret)
    end).

(** The first component of the result is what [*ts_feed] becomes, if it is set. *)
Definition dvbdmx_allocate_ts_feed (d : dvb_demux) (sig : bool) : outcome (option nat * dvb_demux * Z) :=
  '(d, interrupted) ← down_interruptible d sig;
  if (interrupted : bool) then Ret (None, d, - ERESTARTSYS) else
  '(d, feed) ← dvb_dmx_feed_alloc d;
  match feed with
  | None => Ret (None, up d, - EBUSY)
  | Some feed =>
    f ← deref (feeds d) feed;
    let f := f <| type := DMX_TYPE_TS |> <| pid := 0xffff |> <| peslen := 0xfffa |>
               <| priv := None |> <| is_filtering := false |> in
    '(d, k) ← dvb_dmx_filter_alloc (put_feed d feed f);
    let f := f <| filter := k |> in
    match k with
    | None => Ret (Some feed, up (put_feed d feed (f <| state := DMX_STATE_FREE |>)), - EBUSY)
    | Some k =>
      g ← deref (filters d) k;
      let g := g <| f_type := DMX_TYPE_TS |> <| f_feed := Some feed |> <| f_state := DMX_STATE_READY |> in
      Ret (Some feed, up (put_filter (put_feed d feed f) k g), 0)
    end
  end.

Definition dvbdmx_release_ts_feed (d : dvb_demux) (feed : nat) (sig : bool) : outcome (dvb_demux * Z) :=
  locked d sig (fun d =>
    f ← deref (feeds d) feed;
    if bool_decide (state f = DMX_STATE_FREE) then Ret (d, - EINVAL) else
    let f := f <| state := DMX_STATE_FREE |> in
    g ← deref_opt (filters d) (filter f);
    let d := put_filter (put_feed d feed f) (default 0%nat (filter f)) (g <| f_state := DMX_STATE_FREE |>) in
    let d := dvb_demux_feed_del d feed in
    let d := put_feed d feed (f <| pid := 0xffff |>) in
    if flag (ts_type f) TS_DECODER then
      _ ← deref (pesfilter d) (Z.to_nat (pes_type f));
      Ret (d <| pesfilter := <[Z.to_nat (pes_type f) := None]> (pesfilter d) |>, 0)
    else Ret (d, 0)).

(** ** Section feeds *)
Definition dmx_section_feed_allocate_filter (d : dvb_demux) (feed : nat) (sig : bool)
  : outcome (option nat * dvb_demux * Z) :=
  '(d, interrupted) ← down_interruptible d sig;
  if (interrupted : bool) then Ret (None, d, - ERESTARTSYS) else
  '(d, k) ← dvb_dmx_filter_alloc d;
  match k with
  | None => Ret (None, up d, - EBUSY)
  | Some k =>
    f ← deref (feeds d) feed;
    g ← deref (filters d) k;
    let g := g <| f_priv := None |> <| f_feed := Some feed |> <| f_type := DMX_TYPE_SEC |>
               <| f_state := DMX_STATE_READY |> <| next := filter f |> in
    Ret (Some k, up (put_feed (put_filter d k g) feed (f <| filter := Some k |>)), 0)
  end.

Definition dmx_section_feed_set (d : dvb_demux) (feed : nat)
    (pid' circular_buffer_size descramble' check_crc' : Z) (sig : bool) : outcome (dvb_demux * Z) :=
  if pid' >? 0x1fff then Ret (d, - EINVAL) else
  locked d sig (fun d =>
    let d := dvb_demux_feed_add d feed in
    f ← deref (feeds d) feed;
    let f := f <| pid := pid' |> <| buffer_size := circular_buffer_size |> <| descramble := descramble' |> in
    if negb (descramble f =? 0) then Ret (put_feed d feed f, - ENOSYS)
    else Ret (put_feed d feed (f <| check_crc := check_crc' |> <| state := DMX_STATE_READY |>), 0)).

(** The bytes of one filter's masks, and [doneq]. *)
Fixpoint prepare_loop (n : nat) (i : Z) (f : dvb_demux_filter) (doneq : Z) : outcome (dvb_demux_filter * Z) :=
  match n with
  | O => Ret (f, doneq)
  | S n =>
    mode ← load (filter_mode f) i;
    mask ← load (filter_mask f) i;
    a ← write_at (maskandmode f) i [Z.land mask mode];
    let v := u8 (Z.land mask (Z.lnot mode)) in
    b ← write_at (maskandnotmode f) i [v];
    prepare_loop n (i + 1) (f <| maskandmode := a |> <| maskandnotmode := b |>) (Z.lor doneq v)
  end.

Definition prepare_filter (f : dvb_demux_filter) : outcome dvb_demux_filter :=
  '(f, neg) ← prepare_loop (Z.to_nat DVB_DEMUX_MASK_MAX) 0 f 0;
  Ret (f <| doneq := negb (neg =? 0) |>).

Fixpoint prepare_filters (fuel : nat) (flts : list dvb_demux_filter) (k : nat)
  : outcome (list dvb_demux_filter) :=
  match fuel with
  | O => Hang
  | S fuel =>
    f ← deref flts k;
    f ← prepare_filter f;
    let flts := <[k := f]> flts in
    match next f with None => Ret flts | Some k => prepare_filters fuel flts k end
  end.

(** Fuel: the filters of a feed are distinct members of the array. *)
Definition prepare_secfilters (d : dvb_demux) (f : dvb_demux_feed) : outcome dvb_demux :=
  match filter f with
  | None => Ret d
  | Some k => l ← prepare_filters (length (filters d)) (filters d) k; Ret (d <| filters := l |>)
  end.

Definition dmx_section_feed_start_filtering (d : dvb_demux) (feed : nat) (sig : bool) : outcome (dvb_demux * Z) :=
  locked d sig (fun d =>
    f ← deref (feeds d) feed;
    if is_filtering f then Ret (d, - EBUSY) else
    if bool_decide (filter f = None) then Ret (d, - EINVAL) else
    let f := f <| secbufp := 0 |> <| seclen := 0 |> in
    let d := put_feed d feed f in
    match start_feed with
    | None => Ret (d, - ENODEV)
    | Some start =>
      d ← prepare_secfilters d f;
      let ret := start feed d in
      if ret <? 0 then Ret (d, ret)
      else Ret (put_feed d feed (f <| is_filtering := true |> <| state := DMX_STATE_GO |>), 0)
    end).

Definition dmx_section_feed_stop_filtering (d : dvb_demux) (feed : nat) (sig : bool) : outcome (dvb_demux * Z) :=
  locked d sig (fun d =>
    match stop_feed with
    | None => Ret (d, - ENODEV)
    | Some stop =>
      let ret := stop feed d in
      f ← deref (feeds d) feed;
      Ret (put_feed d feed (f <| state := DMX_STATE_READY |> <| is_filtering := false |>), ret)
    end).

(** [while (f->next != flt) f = f->next; f->next = f->next->next;] *)
Fixpoint unlink_filter (fuel : nat) (flts : list dvb_demux_filter) (f : option nat) (flt : nat)
  : outcome (list dvb_demux_filter) :=
  match fuel with
  | O => Hang
  | S fuel =>
    g ← deref_opt flts f;
    if bool_decide (next g = Some flt) then
      h ← deref flts flt;
      Ret (<[default 0%nat f := g <| next := next h |>]> flts)
    else unlink_filter fuel flts (next g) flt
  end.

(** [stop_filtering] is called with the semaphore held. *)
Definition dmx_section_feed_release_filter (d : dvb_demux) (feed flt : nat) (sig sig2 : bool)
  : outcome (dvb_demux * Z) :=
  locked d sig (fun d =>
    g ← deref (filters d) flt;
    if negb (bool_decide (f_feed g = Some feed)) then Ret (d, - EINVAL) else
    f ← deref (feeds d) feed;
    d ← (if is_filtering f then '(d, _) ← dmx_section_feed_stop_filtering d feed sig2; Ret d else Ret d);
    f ← deref (feeds d) feed;
    d ← (if bool_decide (filter f = Some flt) then Ret (put_feed d feed (f <| filter := next g |>))
         else l ← unlink_filter (S (length (filters d))) (filters d) (filter f) flt;
              Ret (d <| filters := l |>));
    g ← deref (filters d) flt;
    Ret (put_filter d flt (g <| f_state := DMX_STATE_FREE |>), 0)).

Definition dvbdmx_allocate_section_feed (d : dvb_demux) (sig : bool) : outcome (option nat * dvb_demux * Z) :=
  '(d, interrupted) ← down_interruptible d sig;
  if (interrupted : bool) then Ret (None, d, - ERESTARTSYS) else
  '(d, feed) ← dvb_dmx_feed_alloc d;
  match feed with
  | None => Ret (None, up d, - EBUSY)
  | Some feed =>
    f ← deref (feeds d) feed;
    let f := f <| type := DMX_TYPE_SEC |> <| pid := 0xffff |> <| secbufp := 0 |> <| filter := None |>
               <| is_filtering := false |> <| priv := None |> in
    Ret (Some feed, up (put_feed d feed f), 0)
  end.

Definition dvbdmx_release_section_feed (d : dvb_demux) (feed : nat) (sig : bool) : outcome (dvb_demux * Z) :=
  locked d sig (fun d =>
    f ← deref (feeds d) feed;
    if bool_decide (state f = DMX_STATE_FREE) then Ret (d, - EINVAL) else
    let d := put_feed d feed (f <| state := DMX_STATE_FREE |>) in
    let d := dvb_demux_feed_del d feed in
    Ret (put_feed d feed (f <| state := DMX_STATE_FREE |> <| pid := 0xffff |>), 0)).
End Hardware.

(** ** The demultiplexer as a whole *)
Definition dvbdmx_open (d : dvb_demux) : dvb_demux * Z :=
  if users d >=? MAX_DVB_DEMUX_USERS then (d, - EUSERS) else (d <| users := users d + 1 |>, 0).

Definition dvbdmx_close (d : dvb_demux) : dvb_demux * Z :=
  if users d =? 0 then (d, - ENODEV) else (d <| users := users d - 1 |>, 0).

Section Frontends.
(** The [source] of each front-end; the filtering of [SwFilter]; whether a
    signal is pending after a write. *)
Variable source : Z -> Z.
Variable swfilter : dvb_demux -> list Z -> Z -> outcome (dvb_demux * list event).
Variable signal_pending : bool.

Definition dvbdmx_write (d : dvb_demux) (buf : list Z) (count : Z) (sig : bool)
  : outcome (dvb_demux * list event * Z) :=
  if (match frontend d with None => true | Some fe => negb (source fe =? DMX_MEMORY_FE) end)
  then Ret (d, [], - EINVAL) else
  '(d, interrupted) ← down_interruptible d sig;
  if (interrupted : bool) then Ret (d, [], - ERESTARTSYS) else
  '(d, ev) ← swfilter d buf count;
  let d := up d in
  if signal_pending then Ret (d, ev, - EINTR) else Ret (d, ev, count).
End Frontends.

Definition dvbdmx_add_frontend (d : dvb_demux) (fe : Z) : outcome (dvb_demux * Z) :=
  l ← list_add fe (frontend_list d); Ret (d <| frontend_list := l |>, 0).

Definition dvbdmx_remove_frontend (d : dvb_demux) (fe : Z) : dvb_demux * Z :=
  if bool_decide (fe ∈ frontend_list d)
  then (d <| frontend_list := list_difference (frontend_list d) [fe] |>, 0)
  else (d, - ENODEV).

Definition dvbdmx_get_frontends (d : dvb_demux) : option (list Z) :=
  match frontend_list d with [] => None | l => Some l end.

(** The front-end may be a null pointer. *)
Definition dvbdmx_connect_frontend (d : dvb_demux) (fe : option Z) (sig : bool) : outcome (dvb_demux * Z) :=
  match frontend d with
  | Some _ => Ret (d, - EINVAL)
  | None => locked d sig (fun d => Ret (d <| frontend := fe |>, 0))
  end.

Definition dvbdmx_disconnect_frontend (d : dvb_demux) (sig : bool) : outcome (dvb_demux * Z) :=
  locked d sig (fun d => Ret (d <| frontend := None |>, 0)).

(** The first five entries, into the caller's array. *)
Definition dvbdmx_get_pes_pids (d : dvb_demux) (out : list Z) : outcome (list Z * Z) :=
  out ← memcpy out 0 (pids d) 0 5; Ret (out, 0).

(** [vmalloc] gives the two arrays with what was in memory. *)
Definition init_filter (i : nat) (f : dvb_demux_filter) : dvb_demux_filter :=
  f <| f_state := DMX_STATE_FREE |> <| f_index := Z.of_nat i |>.
Definition dvb_dmx_init (d : dvb_demux) (new_filters : option (list dvb_demux_filter))
    (new_feeds : option (list dvb_demux_feed)) (r : registry) (self : nat)
  : outcome (dvb_demux * registry * Z) :=
  let d := d <| users := 0 |> in
  match new_filters with
  | None => Ret (d, r, - ENOMEM)
  | Some fl =>
    match new_feeds with
    | None => Ret (d, r, - ENOMEM)
    | Some fe =>
      let d := d <| filters := imap init_filter fl |>
                 <| feeds := (fun f => f <| state := DMX_STATE_FREE |>) <$> fe |>
                 <| frontend_list := [] |>
                 <| pesfilter := replicate (Z.to_nat DMX_TS_PES_OTHER) None |>
                 <| pids := replicate (Z.to_nat DMX_TS_PES_OTHER) 0xffff |>
                 <| feed_list := [] |> <| playing := 0 |> <| recording := 0 |> <| tsbufp := 0 |>
                 <| frontend := None |> <| mutex := 1 |> in
      '(r, err) ← dmx_register_demux r self;
      if err <? 0 then Ret (d, r, err) else Ret (d, r, 0)
    end
  end.

Definition dvb_dmx_release (d : dvb_demux) (r : registry) (self : nat) : outcome (dvb_demux * registry * Z) :=
  '(r, _) ← dmx_unregister_demux r self;
  Ret (d <| filters := [] |> <| feeds := [] |>, r, 0).
