(* ===== verification/DemuxInv.v ===== *)
(** * The life of feeds and filters

    The invariant that the control plane of [DemuxApi] keeps: which feeds are
    on the list, who owns which section filter, and that the chains of filters
    are what the data plane of [SwFilter] needs; and what the masks prepared at
    the start of a section feed mean to its filters. *)
From S2P Require Import Prelude DemuxTypes SwFilter DemuxApi.

(** ** The semantics of a section filter *)

(** Bit [b] of byte [i] counts positively / negatively for the filter. *)
Definition positive_bit (f : dvb_demux_filter) (i b : Z) : bool :=
  Z.testbit (zn (filter_mask f) i) b && Z.testbit (zn (filter_mode f) i) b.
Definition negative_bit (f : dvb_demux_filter) (i b : Z) : bool :=
  Z.testbit (zn (filter_mask f) i) b && negb (Z.testbit (zn (filter_mode f) i) b).
Definition equal_bit (f : dvb_demux_filter) (buf : list Z) (i b : Z) : bool :=
  eqb (Z.testbit (zn (filter_value f) i) b) (Z.testbit (zn buf i) b).

(** A section is wanted when it has the filter's value on all positive bits and,
    if there are negative ones, another value on some negative bit. *)
Definition wanted (f : dvb_demux_filter) (buf : list Z) : Prop :=
  (forall i b, 0 <= i < 18 -> 0 <= b -> positive_bit f i b = true -> equal_bit f buf i b = true) /\
  ((exists i b, 0 <= i < 18 /\ 0 <= b /\ negative_bit f i b = true) ->
   exists i b, 0 <= i < 18 /\ 0 <= b /\ negative_bit f i b = true /\ equal_bit f buf i b = false).

(** The prepared masks of a filter. *)
Record prepared (f g : dvb_demux_filter) : Prop := {
  pr_ok : filter_ok g;
  pr_value : filter_value g = filter_value f;
  pr_mask : filter_mask g = filter_mask f;
  pr_links : next g = next f /\ f_feed g = f_feed f /\ f_state g = f_state f /\ f_type g = f_type f;
  pr_and : forall i, 0 <= i < 18 ->
    zn (maskandmode g) i = Z.land (zn (filter_mask f) i) (zn (filter_mode f) i);
  pr_notand : forall i, 0 <= i < 18 ->
    zn (maskandnotmode g) i = Z.ldiff (zn (filter_mask f) i) (zn (filter_mode f) i);
  pr_doneq : doneq g = any_from (fun i => negb (zn (maskandnotmode g) i =? 0)) 18 0 }.

Lemma u8_ldiff mask mode : is_byte mask -> u8 (Z.land mask (Z.lnot mode)) = Z.ldiff mask mode.
Proof.
  intros [H1 H2]. rewrite <- Z.ldiff_land. unfold u8. apply Z.mod_small. split.
  - apply Z.ldiff_nonneg. by left.
  - apply Z.le_lt_trans with mask; [|done]. apply Z.ldiff_le; [done|].
    apply Z.bits_inj'. intros b Hb. rewrite !Z.ldiff_spec, Z.bits_0.
    by destruct (Z.testbit mask b), (Z.testbit mode b).
Qed.

Lemma prepare_loop_ok n i f neg :
  filter_ok f -> bytes (filter_mask f) -> 0 <= i -> i + Z.of_nat n = 18 ->
  exists a b neg', prepare_loop n i f neg =
      Ret (f <| maskandmode := a |> <| maskandnotmode := b |>, neg') /\
    zlen a = 18 /\ zlen b = 18 /\
    (forall j, 0 <= j < 18 -> zn a j = if j <? i then zn (maskandmode f) j
       else Z.land (zn (filter_mask f) j) (zn (filter_mode f) j)) /\
    (forall j, 0 <= j < 18 -> zn b j = if j <? i then zn (maskandnotmode f) j
       else Z.ldiff (zn (filter_mask f) j) (zn (filter_mode f) j)) /\
    (neg' =? 0) = (neg =? 0) && negb (any_from (fun j => negb (zn b j =? 0)) n i).
Proof.
  revert i f neg. induction n as [|n IH]; intros i f neg Hf Hb Hi Hn; cbn [prepare_loop].
  { exists (maskandmode f), (maskandnotmode f), neg. destruct Hf. repeat split; try done; try lia.
    - by destruct f.
    - intros j Hj. destruct (Z.ltb_spec j i); [done|lia].
    - intros j Hj. destruct (Z.ltb_spec j i); [done|lia].
    - cbn. by rewrite andb_true_r. }
  pose proof Hf as [Hv Hm Hmo Ha Hna]. pose proof (bytes_zn _ i Hb ltac:(lia)) as Hby.
  rewrite !load_ok by lia. cbn [mbind outcome_bind]. rewrite write_at_ok by (zsimpl; lia).
  cbn [mbind outcome_bind]. rewrite u8_ldiff, write_at_ok by (done || (zsimpl; lia)).
  cbn [mbind outcome_bind].
  set (x := Z.land _ _). set (y := Z.ldiff _ _).
  set (g := f <| maskandmode := blit (maskandmode f) i [x] |>
              <| maskandnotmode := blit (maskandnotmode f) i [y] |>).
  destruct (IH (i + 1) g (Z.lor neg y)) as (a & b & neg' & E & Hza & Hzb & Ea & Eb & En);
    [split; cbn; try done; zsimpl; lia | done | lia | lia |].
  exists a, b, neg'. rewrite E. split; [by destruct f|]. split; [done|]. split; [done|].
  assert (Hbi : zn b i = y).
  { rewrite Eb by lia. destruct (Z.ltb_spec i (i + 1)); [|lia]. cbn [maskandnotmode g set].
    rewrite zn_blit_in by (zsimpl; lia). by rewrite Z.sub_diag. }
  split; [|split].
  - intros j Hj. rewrite Ea by done. cbn [maskandmode filter_mask filter_mode g set].
    destruct (Z.ltb_spec j (i + 1)), (Z.ltb_spec j i); try lia; try done.
    + by rewrite zn_blit_out by (zsimpl; lia).
    + assert (j = i) as -> by lia. rewrite zn_blit_in by (zsimpl; lia). by rewrite Z.sub_diag.
  - intros j Hj. rewrite Eb by done. cbn [maskandnotmode filter_mask filter_mode g set].
    destruct (Z.ltb_spec j (i + 1)), (Z.ltb_spec j i); try lia; try done.
    + by rewrite zn_blit_out by (zsimpl; lia).
    + assert (j = i) as -> by lia. rewrite zn_blit_in by (zsimpl; lia). by rewrite Z.sub_diag.
  - rewrite En. cbn [any_from]. rewrite Hbi, negb_orb, negb_involutive, andb_assoc. f_equal.
    apply eq_true_iff_eq. rewrite andb_true_iff, !Z.eqb_eq. apply Z.lor_eq_0_iff.
Qed.

Lemma prepare_filter_ok f :
  filter_ok f -> bytes (filter_mask f) -> exists g, prepare_filter f = Ret g /\ prepared f g.
Proof.
  intros Hf Hb. unfold prepare_filter. change (Z.to_nat DVB_DEMUX_MASK_MAX) with 18%nat.
  destruct (prepare_loop_ok 18 0 f 0 Hf Hb) as (a & b & neg & E & Hza & Hzb & Ea & Eb & En); [lia..|].
  rewrite E. cbn [mbind outcome_bind]. eexists. split; [done|]. destruct Hf.
  split; try done.
  - intros i Hi. cbn [maskandmode set]. rewrite Ea by done. by destruct (Z.ltb_spec i 0); [lia|].
  - intros i Hi. cbn [maskandnotmode set]. rewrite Eb by done. by destruct (Z.ltb_spec i 0); [lia|].
  - cbn [doneq set maskandnotmode]. rewrite En. cbn [Z.eqb andb]. by rewrite negb_involutive.
Qed.

Lemma accepts_wanted f g buf : prepared f g -> accepts g buf = true <-> wanted f buf.
Proof.
  intros [_ Hv _ _ Ha Hn Hd]. unfold accepts, wanted. rewrite andb_true_iff.
  assert (Hx : forall i b, 0 <= b ->
    Z.testbit (Z.lxor (zn (filter_value g) i) (zn buf i)) b = negb (equal_bit f buf i b)).
  { intros i b Hb. rewrite Z.lxor_spec, Hv. unfold equal_bit.
    by destruct (Z.testbit (zn (filter_value f) i) b), (Z.testbit (zn buf i) b). }
  assert (Hneg : forall i b, 0 <= i < 18 -> 0 <= b ->
    Z.testbit (zn (maskandnotmode g) i) b = negative_bit f i b).
  { intros i b Hi Hb. rewrite Hn by done. by rewrite Z.ldiff_spec. }
  split; intros [H1 H2]; split.
  - rewrite all_from_true in H1. intros i b Hi Hb Hp. specialize (H1 i ltac:(lia)).
    unfold agrees in H1. apply Z.eqb_eq in H1. rewrite Ha in H1 by done.
    rewrite land_0_bits in H1. specialize (H1 b Hb). rewrite Hx, Z.land_spec in H1 by done.
    unfold positive_bit in Hp. rewrite Hp in H1. cbn in H1. by apply negb_false_iff in H1.
  - intros (i & b & Hi & Hb & Hng). apply orb_true_iff in H2 as [H2|H2].
    { apply negb_true_iff in H2. rewrite Hd in H2. exfalso.
      assert (Ht : any_from (fun i => negb (zn (maskandnotmode g) i =? 0)) 18 0 = true).
      { apply any_from_true. exists i. split; [lia|]. apply negb_true_iff, Z.eqb_neq.
        intros E. rewrite <- Hneg, E, Z.bits_0 in Hng by done. done. }
      congruence. }
    apply any_from_true in H2 as (j & Hj & H2). unfold differs in H2.
    apply negb_true_iff, Z.eqb_neq in H2. destruct (land_n0_bits _ _ H2) as (c & Hc & H3).
    apply andb_true_iff in H3 as [H3 H4]. exists j, c. rewrite Hneg in H3 by lia. rewrite Hx in H4 by done.
    split; [lia|]. split; [done|]. split; [done|]. by apply negb_true_iff in H4.
  - apply all_from_true. intros i Hi. unfold agrees. apply Z.eqb_eq. rewrite Ha by lia.
    apply land_0_bits. intros b Hb. rewrite Hx, Z.land_spec by done.
    specialize (H1 i b ltac:(lia) Hb). unfold positive_bit in H1.
    destruct (Z.testbit (zn (filter_mask f) i) b && Z.testbit (zn (filter_mode f) i) b); [|done].
    by rewrite H1.
  - destruct (doneq g) eqn:E; [|done]. cbn [negb orb]. symmetry in Hd. apply any_from_true in Hd as (i & Hi & Ei).
    clear E. rename Ei into E.
    apply negb_true_iff, Z.eqb_neq in E. rewrite <- (Z.land_diag (zn (maskandnotmode g) i)) in E.
    destruct (land_n0_bits _ _ E) as (b & Hb & Eb). rewrite andb_diag, Hneg in Eb by lia.
    destruct H2 as (j & c & Hj & Hc & H3 & H4); [exists i, b; split; [lia|done]|].
    apply any_from_true. exists j. split; [lia|]. unfold differs. apply negb_true_iff, Z.eqb_neq.
    rewrite land_0_bits. intros H5. specialize (H5 c Hc). rewrite Hneg, Hx, H3, H4 in H5 by lia. done.
Qed.

(** C4: the masks that starting a section feed prepares make its filters mean
    what the API says: with all bits of [mask & mode] equal to the filter's value
    and, if [mask & ~mode] has bits, one of them different, the section is handed
    over; any other section is not. *)
Theorem section_filter_semantics sec_cb fi feed k f :
  filter_ok f -> bytes (filter_mask f) -> 18 <= zlen (secbuf feed) ->
  exists g, prepare_filter f = Ret g /\
    (wanted f (secbuf feed) ->
       dvb_dmx_swfilter_sectionfilter sec_cb fi feed k g =
       Ret ([EvSec fi k (sub (secbuf feed) 0 (seclen feed))],
            sec_cb fi k (sub (secbuf feed) 0 (seclen feed)))) /\
    (~ wanted f (secbuf feed) -> dvb_dmx_swfilter_sectionfilter sec_cb fi feed k g = Ret ([], 0)).
Proof.
  intros Hf Hb Hs. destruct (prepare_filter_ok f Hf Hb) as (g & E & Hp). exists g.
  rewrite (sectionfilter_spec sec_cb fi feed k g) by (done || apply Hp).
  pose proof (accepts_wanted f g (secbuf feed) Hp) as Hw.
  destruct (accepts g (secbuf feed)); split; try done; split; intros H; try done.
  - exfalso. apply H. by apply Hw.
  - exfalso. apply Hw in H. done.
Qed.

(** A filter for table 0x42 with any version but the one it holds. *)
Definition table_filter : dvb_demux_filter :=
  mk_filter (0x42 :: replicate 4 0 ++ 0x06 :: replicate 12 0) (0xff :: replicate 4 0 ++ 0x3e :: replicate 12 0)
    (replicate 5 0xff ++ 0xc1 :: replicate 12 0xff) (replicate 18 0) (replicate 18 0)
    false None (Some 0%nat) 0 DMX_STATE_GO DMX_TYPE_SEC None.

Lemma section_filter_semantics_witness :
  exists g, prepare_filter table_filter = Ret g /\
    (wanted table_filter (secbuf section_feed0) ->
       dvb_dmx_swfilter_sectionfilter (fun _ _ _ => 0) 0 section_feed0 0 g =
       Ret ([EvSec 0 0 (sub (secbuf section_feed0) 0 (seclen section_feed0))], 0)) /\
    (~ wanted table_filter (secbuf section_feed0) ->
     dvb_dmx_swfilter_sectionfilter (fun _ _ _ => 0) 0 section_feed0 0 g = Ret ([], 0)).
Proof.
  apply (section_filter_semantics (fun _ _ _ => 0) 0 section_feed0 0 table_filter).
  - by split.
  - unfold table_filter. cbn [filter_mask]. bytes.
  - done.
Defined.
