(* ===== verification/DemuxLife.v ===== *)
(** * The invariant of the control plane

    Every call of the API of [DemuxApi], on a demultiplexer that only the API
    has touched, leaves the feeds and filters consistent, and returns, but for the
    one call that waits for a semaphore that it holds itself. *)
From S2P Require Import Prelude DemuxTypes SwFilter DemuxApi DemuxInv.

(** ** Chains under updates of the filter array *)
Lemma chain_insert k g flts p l : k ∉ l -> chain flts p l -> chain (<[k := g]> flts) p l.
Proof.
  intros Hk Hc. induction Hc as [|i f l Hi Hok Hc IH]; [constructor|].
  apply not_elem_of_cons in Hk as [Hne Hk].
  apply chain_cons with f; [by rewrite list_lookup_insert_ne by done | done | by apply IH].
Qed.

Definition links (g : dvb_demux_filter) := (next g, f_feed g, f_state g, f_type g).

(** The same filters but for their masks. *)
Definition same_links (a b : list dvb_demux_filter) : Prop :=
  length a = length b /\ Forall filter_ok b /\
  forall i g, a !! i = Some g -> exists g', b !! i = Some g' /\ links g' = links g /\
    filter_mask g' = filter_mask g.

Lemma chain_same a b p l : same_links a b -> chain a p l -> chain b p l.
Proof.
  intros (_ & Hok & Hs) Hc. induction Hc as [|i f l Hi _ _ IH]; [constructor|].
  destruct (Hs i f Hi) as (f' & Hi' & E & _). injection E as En _ _ _.
  apply chain_cons with f'; [done| |by rewrite En].
  rewrite Forall_lookup in Hok. by eapply Hok.
Qed.

(** ** The invariant *)
Definition live (f : dvb_demux_feed) : Prop := state f <> DMX_STATE_FREE.

(** The filter [k] is in use by feed [fi]. *)
Definition owned (flts : list dvb_demux_filter) (fi k : nat) : Prop :=
  exists g, flts !! k = Some g /\ f_feed g = Some fi /\ f_state g <> DMX_STATE_FREE.

(** A TS feed has a filter; a section feed a chain of distinct filters. *)
Definition feed_wf (flts : list dvb_demux_filter) (fi : nat) (f : dvb_demux_feed) : Prop :=
  match type f with
  | DMX_TYPE_TS => exists k, filter f = Some k /\ owned flts fi k
  | DMX_TYPE_SEC => exists l, feed_filters flts f l /\ Forall (owned flts fi) l
  | DMX_TYPE_PES => True
  end.

Record demux_inv (m : Z) (d : dvb_demux) : Prop := {
  di_mutex : mutex d = m;
  di_feednum : feednum d = zlen (feeds d);
  di_filternum : filternum d = zlen (filters d);
  di_shape : Forall filter_ok (filters d);
  di_masks : Forall (fun g => bytes (filter_mask g)) (filters d);
  di_nodup : NoDup (feed_list d);
  di_listed : forall fi, fi ∈ feed_list d -> exists f, feeds d !! fi = Some f /\ live f;
  di_pes : length (pesfilter d) = 20%nat /\ length (pids d) = 20%nat;
  di_pestype : Forall (fun f => flag (ts_type f) TS_DECODER = true -> 0 <= pes_type f < 20) (feeds d);
  di_wf : forall fi f, feeds d !! fi = Some f -> live f -> feed_wf (filters d) fi f }.

Lemma inv_mutex m m' d : demux_inv m d -> demux_inv m' (d <| mutex := m' |>).
Proof. intros []. by split. Qed.

Lemma filter_at m d k g : demux_inv m d -> filters d !! k = Some g -> filter_ok g /\ bytes (filter_mask g).
Proof.
  intros [] Hk. rewrite Forall_lookup in di_shape0. rewrite Forall_lookup in di_masks0. eauto.
Qed.

Lemma owned_insert_other flts fi k g i :
  k <> i -> owned flts fi i -> owned (<[k := g]> flts) fi i.
Proof. intros Hne (g' & Hk & H). exists g'. by rewrite list_lookup_insert_ne by done. Qed.

(** A change of a feed. *)
Lemma inv_put_feed m d fi f f' :
  demux_inv m d -> feeds d !! fi = Some f ->
  (live f' -> feed_wf (filters d) fi f') -> (fi ∈ feed_list d -> live f') ->
  (flag (ts_type f') TS_DECODER = true -> 0 <= pes_type f' < 20) ->
  demux_inv m (put_feed d fi f').
Proof.
  intros [] Hf Hwf Hl Hp. pose proof (lookup_lt_Some _ _ _ Hf) as Hlt. split; cbn; try done.
  - rewrite di_feednum0. unfold zlen. by rewrite length_insert.
  - intros i Hi. destruct (decide (i = fi)) as [->|Hne].
    + exists f'. rewrite list_lookup_insert_eq by done. auto.
    + rewrite list_lookup_insert_ne by done. auto.
  - by apply Forall_insert.
  - intros i g Hg Hlive. destruct (decide (i = fi)) as [->|Hne].
    + rewrite list_lookup_insert_eq in Hg by done. injection Hg as <-. auto.
    + rewrite list_lookup_insert_ne in Hg by done. eauto.
Qed.

(** A filter in use by [fi] is in use by no other feed, so changing it concerns
    [fi] only; changing an unused one concerns nobody. *)
Lemma wf_insert_filter flts k g g' fi f :
  flts !! k = Some g -> (forall h, owned flts h k -> h <> fi) ->
  feed_wf flts fi f -> feed_wf (<[k := g']> flts) fi f.
Proof.
  intros Hk Hno. unfold feed_wf. destruct (type f); [| |done].
  - intros (i & Hi & Ho). exists i. split; [done|]. apply owned_insert_other; [|done].
    intros ->. by apply (Hno fi).
  - intros (l & [Hc Hnd] & Hall).
    assert (Hkl : k ∉ l).
    { intros Hin. rewrite Forall_forall in Hall. by apply (Hno fi (Hall k Hin)). }
    exists l. split; [split; [by apply chain_insert|done]|].
    apply Forall_forall. intros i Hi. rewrite Forall_forall in Hall.
    apply owned_insert_other; [by intros ->|by apply Hall].
Qed.

Lemma inv_put_filter m d k g g' :
  demux_inv m d -> filters d !! k = Some g -> filter_ok g' -> bytes (filter_mask g') ->
  (forall fi f, feeds d !! fi = Some f -> live f -> feed_wf (filters d) fi f ->
     feed_wf (<[k := g']> (filters d)) fi f) ->
  demux_inv m (put_filter d k g').
Proof.
  intros [] Hk Hok Hby Hwf. split; cbn; try done.
  - rewrite di_filternum0. unfold zlen. by rewrite length_insert.
  - by apply Forall_insert.
  - by apply Forall_insert.
  - eauto.
Qed.

(** ** Allocation *)
Lemma first_free_ok {A} (st : A -> dmx_state) l n i :
  (n + i <= length l)%nat ->
  exists r, first_free st l n i = Ret r /\
    match r with
    | Some j => (i <= j < n + i)%nat /\ exists x, l !! j = Some x /\ st x = DMX_STATE_FREE
    | None => forall j x, (i <= j < n + i)%nat -> l !! j = Some x -> st x <> DMX_STATE_FREE
    end.
Proof.
  revert i. induction n as [|n IH]; intros i Hn; cbn [first_free].
  { exists None. split; [done|]. intros; lia. }
  destruct (lookup_lt_is_Some_2 l i) as [x Hx]; [lia|].
  rewrite (deref_lookup _ _ _ Hx). cbn [mbind outcome_bind].
  destruct (bool_decide_reflect (st x = DMX_STATE_FREE)) as [E|E].
  { exists (Some i). split; [done|]. split; [lia|eauto]. }
  destruct (IH (S i)) as (r & E' & Hr); [lia|]. exists r. split; [done|]. destruct r as [j|].
  - destruct Hr as [? ?]. split; [lia|done].
  - intros j y Hj Hy. destruct (decide (j = i)) as [->|Hne]; [congruence|]. apply (Hr j y); [lia|done].
Qed.

Lemma feed_alloc_ok m d :
  demux_inv m d ->
  (exists fi f, feeds d !! fi = Some f /\ state f = DMX_STATE_FREE /\
    dvb_dmx_feed_alloc d = Ret (put_feed d fi (f <| state := DMX_STATE_ALLOCATED |>), Some fi)) \/
  (dvb_dmx_feed_alloc d = Ret (d, None) /\ Forall live (feeds d)).
Proof.
  intros Hi. pose proof (di_feednum _ _ Hi) as Hn. unfold dvb_dmx_feed_alloc.
  assert (Hz : Z.to_nat (feednum d) = length (feeds d)) by (rewrite Hn; unfold zlen; lia).
  destruct (first_free_ok state (feeds d) (Z.to_nat (feednum d)) 0) as (r & E & Hr); [lia|].
  rewrite E. cbn [mbind outcome_bind]. destruct r as [fi|].
  - destruct Hr as (_ & f & Hf & Hs). left. exists fi, f. split; [done|]. split; [done|].
    unfold deref. by rewrite Hf.
  - right. split; [done|]. apply Forall_lookup. intros i f Hf.
    apply (Hr i f); [|done]. apply lookup_lt_Some in Hf. lia.
Qed.

Lemma filter_alloc_ok d :
  filternum d = zlen (filters d) ->
  (exists k g, filters d !! k = Some g /\ f_state g = DMX_STATE_FREE /\
    dvb_dmx_filter_alloc d = Ret (put_filter d k (g <| f_state := DMX_STATE_ALLOCATED |>), Some k)) \/
  dvb_dmx_filter_alloc d = Ret (d, None).
Proof.
  intros Hn. unfold dvb_dmx_filter_alloc.
  assert (Hz : Z.to_nat (filternum d) = length (filters d)) by (rewrite Hn; unfold zlen; lia).
  destruct (first_free_ok f_state (filters d) (Z.to_nat (filternum d)) 0) as (r & E & Hr); [lia|].
  rewrite E. cbn [mbind outcome_bind]. destruct r as [k|]; [|by right].
  destruct Hr as (_ & g & Hg & Hs). left. exists k, g. split; [done|]. split; [done|].
  unfold deref. by rewrite Hg.
Qed.

(** A free filter is in nobody's use. *)
Lemma free_not_owned flts k g fi : flts !! k = Some g -> f_state g = DMX_STATE_FREE -> ~ owned flts fi k.
Proof. intros Hk Hs (g' & Hk' & _ & Hn). congruence. Qed.

(** ** The calls *)
Definition does (m : Z) (out : outcome (dvb_demux * Z)) : Prop :=
  exists d r, out = Ret (d, r) /\ demux_inv m d.

Lemma does_ret m d r : demux_inv m d -> does m (Ret (d, r)).
Proof. intros. by exists d, r. Qed.

Lemma locked_ok d sig body :
  demux_inv 1 d -> does 0 (body (d <| mutex := 0 |>)) -> does 1 (locked d sig body).
Proof.
  intros Hd (d' & r & E & Hd'). unfold locked, down_interruptible.
  rewrite (di_mutex _ _ Hd). cbn [Z.gtb Z.compare]. change (1 - 1) with 0.
  cbn [mbind outcome_bind]. rewrite E. cbn [mbind outcome_bind].
  unfold up. rewrite (di_mutex _ _ Hd'). exists (d' <| mutex := 1 |>), r.
  split; [done|]. by apply inv_mutex with 0.
Qed.

Definition ts_feed (d : dvb_demux) (fi : nat) : Prop :=
  exists f, feeds d !! fi = Some f /\ live f /\ type f = DMX_TYPE_TS.
Definition sec_feed (d : dvb_demux) (fi : nat) : Prop :=
  exists f, feeds d !! fi = Some f /\ live f /\ type f = DMX_TYPE_SEC.

Lemma existsb_In fi l : existsb (Nat.eqb fi) l = true <-> fi ∈ l.
Proof.
  rewrite existsb_exists, list_elem_of_In. split.
  - intros (x & Hx & E). apply Nat.eqb_eq in E as ->. done.
  - intros H. exists fi. split; [done|]. apply Nat.eqb_refl.
Qed.

Lemma inv_feed_add m d fi f :
  demux_inv m d -> feeds d !! fi = Some f -> live f -> demux_inv m (dvb_demux_feed_add d fi).
Proof.
  intros Hd Hf Hl. unfold dvb_demux_feed_add, dvb_demux_feed_find.
  destruct (existsb (Nat.eqb fi) (feed_list d)) eqn:E; [done|].
  assert (fi ∉ feed_list d) by (intros Hin; apply existsb_In in Hin; congruence).
  destruct Hd. split; cbn; try done; [by constructor|].
  intros i Hi. apply elem_of_cons in Hi as [->|Hi]; eauto.
Qed.

Lemma feeds_feed_add d fi : feeds (dvb_demux_feed_add d fi) = feeds d.
Proof. unfold dvb_demux_feed_add. by case_match. Qed.

Lemma feeds_feed_del d fi : feeds (dvb_demux_feed_del d fi) = feeds d.
Proof. unfold dvb_demux_feed_del. by case_match. Qed.

(** Taking a feed off the list. *)
Lemma feed_del_list d fi i : i ∈ feed_list (dvb_demux_feed_del d fi) <-> i ∈ feed_list d /\ i <> fi.
Proof.
  unfold dvb_demux_feed_del, dvb_demux_feed_find.
  destruct (existsb (Nat.eqb fi) (feed_list d)) eqn:E; cbn.
  - rewrite list_elem_of_difference, list_elem_of_singleton. done.
  - split; [|tauto]. intros Hi. split; [done|]. intros ->.
    apply existsb_In in Hi. congruence.
Qed.

Lemma inv_feed_del m d fi : demux_inv m d -> demux_inv m (dvb_demux_feed_del d fi).
Proof.
  intros Hd. pose proof (feed_del_list d fi) as Hl. revert Hl. unfold dvb_demux_feed_del.
  case_match; [done|]. intros Hl. destruct Hd. split; cbn; try done.
  - by apply NoDup_list_difference.
  - intros i Hi. apply di_listed0. by apply Hl.
Qed.

(** The TS feed calls. *)
Lemma ts_set_ok d fi p t pt cl cs ds sig :
  demux_inv 1 d -> ts_feed d fi -> does 1 (dmx_ts_feed_set d fi p t pt cl cs ds sig).
Proof.
  intros Hd (f & Hf & Hl & Ht). unfold dmx_ts_feed_set.
  assert (Hpt : 0 <= u32 pt) by (apply Z.mod_pos_bound; lia).
  generalize dependent (u32 pt). clear pt. intros pt Hpt. cbv zeta.
  destruct (p >? DMX_MAX_PID); [by apply does_ret|]. apply locked_ok; [done|].
  apply (inv_mutex _ 0) in Hd. set (d0 := d <| mutex := 0 |>) in *.
  change (feeds d0 !! fi = Some f) in Hf. clearbody d0. clear d.
  set (m := if flag t TS_DECODER then _ else _).
  assert (Hm : exists d1 bad, m = Ret (d1, bad) /\ demux_inv 0 d1 /\ feeds d1 = feeds d0 /\
    (bad = false -> flag t TS_DECODER = true -> 0 <= pt < 20)).
  { unfold m. destruct (flag t TS_DECODER); [|by exists d0, false].
    unfold DMX_TS_PES_OTHER. destruct (Z.geb_spec pt 20); [by exists d0, true|].
    pose proof Hd as []. destruct di_pes0 as [Hp1 Hp2]. unfold deref.
    destruct (lookup_lt_is_Some_2 (pesfilter d0) (Z.to_nat pt)) as [o Ho]; [lia|].
    rewrite Ho. cbn [mbind outcome_bind].
    destruct (match o with Some o => negb (Nat.eqb o fi) | None => false end); [by exists d0, true|].
    eexists _, false. split; [done|]. split; [|done].
    split; cbn; try done. by rewrite !length_insert. }
  destruct Hm as (d1 & bad & -> & Hd1 & Ef & Hb). cbn [mbind outcome_bind].
  destruct bad; [by apply does_ret|]. rewrite <- Ef in Hf.
  pose proof (inv_feed_add _ _ _ _ Hd1 Hf Hl) as Hd2. rewrite <- (feeds_feed_add d1 fi) in Hf.
  rewrite (deref_lookup _ _ _ Hf). cbn [mbind outcome_bind]. cbn [descramble set].
  pose proof (di_wf _ _ Hd2 _ _ Hf Hl) as Hwf.
  destruct (negb (ds =? 0)); apply does_ret; (eapply inv_put_feed; [done|done| | |]); cbn; try done; auto.
Qed.

Lemma ts_start_ok start d fi sig :
  demux_inv 1 d -> ts_feed d fi -> does 1 (dmx_ts_feed_start_filtering start d fi sig).
Proof.
  intros Hd (f & Hf & Hl & Ht). apply locked_ok; [done|]. apply (inv_mutex _ 0) in Hd.
  set (d0 := d <| mutex := 0 |>) in *. change (feeds d0 !! fi = Some f) in Hf. clearbody d0.
  rewrite (deref_lookup _ _ _ Hf). cbn [mbind outcome_bind].
  destruct (_ || _); [by apply does_ret|]. destruct start as [start|]; [|by apply does_ret].
  cbv zeta. destruct (start fi d0 <? 0); apply does_ret; [done|].
  pose proof (di_wf _ _ Hd _ _ Hf Hl). pose proof (di_pestype _ _ Hd) as Hp. rewrite Forall_lookup in Hp.
  eapply inv_put_feed; [done|done| | |]; cbn; try done. by eapply Hp.
Qed.

Lemma ts_stop_ok stop d fi sig :
  demux_inv 1 d -> ts_feed d fi -> does 1 (dmx_ts_feed_stop_filtering stop d fi sig).
Proof.
  intros Hd (f & Hf & Hl & Ht). apply locked_ok; [done|]. apply (inv_mutex _ 0) in Hd.
  set (d0 := d <| mutex := 0 |>) in *. change (feeds d0 !! fi = Some f) in Hf. clearbody d0.
  rewrite (deref_lookup _ _ _ Hf). cbn [mbind outcome_bind].
  destruct (_ <? _); [by apply does_ret|]. destruct stop as [stop|]; apply does_ret; [|done].
  pose proof (di_wf _ _ Hd _ _ Hf Hl). pose proof (di_pestype _ _ Hd) as Hp. rewrite Forall_lookup in Hp.
  eapply inv_put_feed; [done|done| | |]; cbn; try done. by eapply Hp.
Qed.

(** Successive changes of one feed or filter. *)
Lemma put_feed_twice d i a b : put_feed (put_feed d i a) i b = put_feed d i b.
Proof. unfold put_feed. cbn. by rewrite list_insert_insert_eq. Qed.

Lemma put_filter_twice d i a b : put_filter (put_filter d i a) i b = put_filter d i b.
Proof. unfold put_filter. cbn. by rewrite list_insert_insert_eq. Qed.

Lemma deref_put_feed d i a : (i < length (feeds d))%nat -> deref (feeds (put_feed d i a)) i = Ret a.
Proof. intros. unfold deref. cbn. by rewrite list_lookup_insert_eq by done. Qed.

Lemma deref_put_filter d i a :
  (i < length (filters d))%nat -> deref (filters (put_filter d i a)) i = Ret a.
Proof. intros. unfold deref. cbn. by rewrite list_lookup_insert_eq by done. Qed.

(** A free filter is given to a feed. *)
Lemma inv_take_filter m d k g g' :
  demux_inv m d -> filters d !! k = Some g -> f_state g = DMX_STATE_FREE ->
  filter_ok g' -> bytes (filter_mask g') -> demux_inv m (put_filter d k g').
Proof.
  intros Hd Hk Hs Hok Hby. eapply inv_put_filter; [done..|].
  intros fi f _ _ Hwf. eapply wf_insert_filter; [done| |done].
  intros h Ho. exfalso. by eapply free_not_owned.
Qed.

Lemma free_not_listed m d fi f :
  demux_inv m d -> feeds d !! fi = Some f -> state f = DMX_STATE_FREE -> fi ∉ feed_list d.
Proof. intros Hd Hf Hs Hin. destruct (di_listed _ _ Hd fi Hin) as (f' & Hf' & Hl). unfold live in Hl. congruence. Qed.

Lemma down_ok d sig :
  demux_inv 1 d -> down_interruptible d sig = Ret (d <| mutex := 0 |>, false) /\
  demux_inv 0 (d <| mutex := 0 |>).
Proof.
  intros Hd. unfold down_interruptible. rewrite (di_mutex _ _ Hd). split; [done|].
  by apply inv_mutex with 1.
Qed.

Lemma up_ok d : demux_inv 0 d -> demux_inv 1 (up d).
Proof. intros Hd. unfold up. rewrite (di_mutex _ _ Hd). by apply inv_mutex with 0. Qed.

Definition drop_out {A} (m : outcome (A * dvb_demux * Z)) : outcome (dvb_demux * Z) :=
  '(_, d, r) ← m; Ret (d, r).

(** [dvbdmx_allocate_ts_feed], in one piece. *)
Lemma alloc_ts_spec d sig :
  demux_inv 1 d ->
  (dvbdmx_allocate_ts_feed d sig = Ret (None, d, - EBUSY)) \/
  exists fi f, feeds d !! fi = Some f /\ state f = DMX_STATE_FREE /\
    let f' := f <| state := DMX_STATE_ALLOCATED |> <| type := DMX_TYPE_TS |> <| pid := 0xffff |>
                <| peslen := 0xfffa |> <| priv := None |> <| is_filtering := false |> in
    (dvbdmx_allocate_ts_feed d sig =
       Ret (Some fi, put_feed d fi (f' <| filter := None |> <| state := DMX_STATE_FREE |>), - EBUSY)) \/
    exists k g, filters d !! k = Some g /\ f_state g = DMX_STATE_FREE /\
      dvbdmx_allocate_ts_feed d sig =
        Ret (Some fi, put_feed (put_filter d k (g <| f_type := DMX_TYPE_TS |> <| f_feed := Some fi |>
                 <| f_state := DMX_STATE_READY |>)) fi (f' <| filter := Some k |>), 0).
Proof.
  intros Hd. destruct (down_ok d sig Hd) as [E Hd0]. unfold dvbdmx_allocate_ts_feed. rewrite E.
  assert (Hm : d <| mutex := 0 + 1 |> = d).
  { pose proof (di_mutex _ _ Hd) as Hm. destruct d. cbn in *. by subst. }
  cbn [mbind outcome_bind].
  destruct (feed_alloc_ok _ _ Hd0) as [(fi & f & Hf & Hs & Ea)|[Ea _]]; rewrite Ea; cbn [mbind outcome_bind].
  2: { left. unfold up. cbn [mutex set]. by rewrite <- Hm at 2. }
  right. exists fi, f. split; [done|]. split; [done|].
  pose proof (lookup_lt_Some _ _ _ Hf) as Hlt.
  rewrite !deref_put_feed by done. cbn [mbind outcome_bind]. rewrite put_feed_twice.
  cbv zeta. set (f' := f <| state := _ |> <| type := _ |> <| pid := _ |> <| peslen := _ |>
    <| priv := _ |> <| is_filtering := _ |>).
  destruct (filter_alloc_ok (put_feed (d <| mutex := 0 |>) fi f')) as [(k & g & Hk & Hg & Eb)|Eb];
    [apply (di_filternum _ _ Hd0) | |]; rewrite Eb; cbn [mbind outcome_bind].
  - right. exists k, g. split; [done|]. split; [done|].
    rewrite deref_put_filter by (by eapply lookup_lt_Some). cbn [mbind outcome_bind].
    unfold up, put_filter, put_feed. cbn. rewrite !list_insert_insert_eq. do 2 f_equal.
    pose proof (di_mutex _ _ Hd) as Hmm. destruct d; cbn in *. by subst.
  - left. rewrite put_feed_twice. unfold up, put_feed. cbn. do 2 f_equal.
    pose proof (di_mutex _ _ Hd) as Hmm. destruct d; cbn in *. by subst.
Qed.

Lemma alloc_ts_ok d sig : demux_inv 1 d -> does 1 (drop_out (dvbdmx_allocate_ts_feed d sig)).
Proof.
  intros Hd. destruct (alloc_ts_spec d sig Hd) as [->|(fi & f & Hf & Hs & [->|(k & g & Hk & Hg & ->)])];
    cbn [drop_out mbind outcome_bind]; apply does_ret; [done|..];
    pose proof (di_pestype _ _ Hd) as Hp; rewrite Forall_lookup in Hp; specialize (Hp fi f Hf).
  - eapply inv_put_feed; [done|done| | |done]; cbn.
    + intros Hl. by exfalso.
    + intros Hin. exfalso. by eapply free_not_listed.
  - destruct (filter_at _ _ _ _ Hd Hk) as [Hok Hby].
    assert (Hd1 : demux_inv 1 (put_filter d k (g <| f_type := DMX_TYPE_TS |> <| f_feed := Some fi |>
      <| f_state := DMX_STATE_READY |>))) by (eapply inv_take_filter; done || (destruct Hok; by split)).
    eapply inv_put_feed; [done|done| | |done]; cbn; [|done].
    intros _. exists k. split; [done|]. eexists.
    rewrite list_lookup_insert_eq by (by eapply lookup_lt_Some). done.
Qed.

Lemma inv_pesfilter m d i o : demux_inv m d -> demux_inv m (d <| pesfilter := <[i := o]> (pesfilter d) |>).
Proof. intros []. split; cbn; try done. by rewrite length_insert. Qed.

(** The filter of a feed that is no longer live is given back. *)
Lemma inv_free_filter m d fi k g :
  demux_inv m d -> filters d !! k = Some g -> f_feed g = Some fi ->
  (forall f, feeds d !! fi = Some f -> ~ live f) ->
  demux_inv m (put_filter d k (g <| f_state := DMX_STATE_FREE |>)).
Proof.
  intros Hd Hk Hg Hdead. destruct (filter_at _ _ _ _ Hd Hk) as [[] Hby].
  eapply inv_put_filter; [done|done|by split|done|].
  intros fi' f Hf Hl Hwf. eapply wf_insert_filter; [done| |done].
  intros h (g' & Hk' & Hg' & _) ->. assert (fi' = fi) as -> by congruence. by eapply Hdead.
Qed.

(** A feed leaves the list and becomes free. *)
Lemma inv_free_feed m d fi f f' :
  demux_inv m d -> feeds d !! fi = Some f -> state f' = DMX_STATE_FREE ->
  ts_type f' = ts_type f -> pes_type f' = pes_type f ->
  demux_inv m (put_feed (dvb_demux_feed_del d fi) fi f').
Proof.
  intros Hd Hf Hs Ht Hp. pose proof (di_pestype _ _ Hd) as Hpt. rewrite Forall_lookup in Hpt.
  eapply inv_put_feed; [by apply inv_feed_del|by rewrite feeds_feed_del| | |].
  - intros Hl. by exfalso.
  - intros Hin. apply feed_del_list in Hin as [_ Hne]. done.
  - rewrite Ht, Hp. by eapply Hpt.
Qed.

Lemma del_put_swap d fi a b k g :
  put_feed (dvb_demux_feed_del (put_filter (put_feed d fi a) k g) fi) fi b =
  put_filter (put_feed (dvb_demux_feed_del d fi) fi b) k g.
Proof.
  unfold dvb_demux_feed_del, dvb_demux_feed_find. cbn.
  case_match; unfold put_feed, put_filter; cbn; by rewrite list_insert_insert_eq.
Qed.

Lemma pes_del_put d fi a k g :
  pesfilter (put_filter (put_feed (dvb_demux_feed_del d fi) fi a) k g) = pesfilter d.
Proof. unfold dvb_demux_feed_del. by case_match. Qed.

(** [dvbdmx_release_ts_feed] of an allocated feed, in one piece. *)
Lemma release_ts_spec d fi f sig :
  demux_inv 1 d -> feeds d !! fi = Some f -> live f -> type f = DMX_TYPE_TS ->
  exists k g, filter f = Some k /\ filters d !! k = Some g /\ f_feed g = Some fi /\
    let d' := put_filter (put_feed (dvb_demux_feed_del d fi) fi
                (f <| state := DMX_STATE_FREE |> <| pid := 0xffff |>)) k (g <| f_state := DMX_STATE_FREE |>) in
    dvbdmx_release_ts_feed d fi sig =
      Ret (if flag (ts_type f) TS_DECODER
           then d' <| pesfilter := <[Z.to_nat (pes_type f) := None]> (pesfilter d) |> else d', 0).
Proof.
  intros Hd Hf Hl Ht. pose proof (di_wf _ _ Hd _ _ Hf Hl) as Hwf. unfold feed_wf in Hwf. rewrite Ht in Hwf.
  destruct Hwf as (k & Ek & g & Hk & Hg & _). exists k, g. split; [done|]. split; [done|]. split; [done|].
  destruct (down_ok d sig Hd) as [E Hd0]. unfold dvbdmx_release_ts_feed, locked. rewrite E.
  cbn [mbind outcome_bind]. rewrite (deref_lookup (feeds (d <| mutex := 0 |>)) fi f) by done.
  cbn [mbind outcome_bind]. rewrite bool_decide_eq_false_2 by done. cbn [filter set]. cbv zeta.
  cbn [filter set]. rewrite Ek. cbn [deref_opt default].
  rewrite (deref_lookup (filters (d <| mutex := 0 |>)) k g) by done. cbn [mbind outcome_bind].
  rewrite del_put_swap. pose proof (di_pestype _ _ Hd) as Hp. rewrite Forall_lookup in Hp.
  specialize (Hp fi f Hf). cbn [ts_type set].
  pose proof (di_mutex _ _ Hd) as Hm. destruct (di_pes _ _ Hd) as [Hz _].
  destruct (flag (ts_type f) TS_DECODER) eqn:Efl.
  - specialize (Hp eq_refl). destruct (lookup_lt_is_Some_2 (pesfilter d) (Z.to_nat (pes_type f))) as [o Ho]; [lia|].
    rewrite pes_del_put. erewrite deref_lookup by exact Ho. cbn [mbind outcome_bind].
    unfold up, dvb_demux_feed_del, dvb_demux_feed_find. cbn. do 2 f_equal.
    case_match; destruct d; cbn in *; by subst.
  - cbn [mbind outcome_bind]. unfold up, dvb_demux_feed_del, dvb_demux_feed_find. cbn. do 2 f_equal.
    case_match; destruct d; cbn in *; by subst.
Qed.

Lemma ts_release_ok d fi sig :
  demux_inv 1 d -> ts_feed d fi -> does 1 (dvbdmx_release_ts_feed d fi sig).
Proof.
  intros Hd (f & Hf & Hl & Ht).
  destruct (release_ts_spec d fi f sig Hd Hf Hl Ht) as (k & g & Ek & Hk & Hg & ->). cbv zeta.
  set (fx := f <| state := DMX_STATE_FREE |> <| pid := 0xffff |>).
  pose proof (inv_free_feed 1 d fi f fx Hd Hf eq_refl eq_refl eq_refl) as Hd1.
  assert (Hd2 : demux_inv 1 (put_filter (put_feed (dvb_demux_feed_del d fi) fi fx) k
    (g <| f_state := DMX_STATE_FREE |>))).
  { apply inv_free_filter with fi; [done| |done|].
    - unfold dvb_demux_feed_del. by case_match.
    - cbn. rewrite feeds_feed_del, list_lookup_insert_eq by (by eapply lookup_lt_Some).
      intros f' [= <-] Hx. by apply Hx. }
  apply does_ret. case_match; [|done].
  rewrite <- (pes_del_put d fi fx k (g <| f_state := DMX_STATE_FREE |>)).
  by apply inv_pesfilter.
Qed.

(** The section feed calls. *)
Lemma alloc_sec_ok d sig : demux_inv 1 d -> does 1 (drop_out (dvbdmx_allocate_section_feed d sig)).
Proof.
  intros Hd. destruct (down_ok d sig Hd) as [E Hd0]. unfold dvbdmx_allocate_section_feed. rewrite E.
  cbn [mbind outcome_bind]. set (d0 := d <| mutex := 0 |>) in *. clearbody d0.
  destruct (feed_alloc_ok _ _ Hd0) as [(fi & f & Hf & Hs & Ea)|[Ea _]]; rewrite Ea;
    cbn [mbind outcome_bind drop_out].
  2: { apply does_ret. by apply up_ok. }
  rewrite deref_put_feed by (by eapply lookup_lt_Some). cbn [mbind outcome_bind].
  rewrite put_feed_twice. apply does_ret, up_ok.
  pose proof (di_pestype _ _ Hd0) as Hp. rewrite Forall_lookup in Hp. specialize (Hp fi f Hf).
  match goal with |- demux_inv 0 (put_feed d0 fi ?x) => set (f' := x) end.
  assert (E1 : type f' = DMX_TYPE_SEC) by reflexivity.
  assert (E2 : filter f' = None) by reflexivity.
  assert (E3 : state f' = DMX_STATE_ALLOCATED) by reflexivity.
  assert (E4 : ts_type f' = ts_type f) by reflexivity.
  assert (E5 : pes_type f' = pes_type f) by reflexivity.
  clearbody f'. eapply inv_put_feed; [exact Hd0|exact Hf| | |].
  - intros _. unfold feed_wf, feed_filters. rewrite E1, E2. exists []. by repeat constructor.
  - intros _. unfold live. by rewrite E3.
  - by rewrite E4, E5.
Qed.

Lemma alloc_filter_ok d fi sig :
  demux_inv 1 d -> sec_feed d fi -> does 1 (drop_out (dmx_section_feed_allocate_filter d fi sig)).
Proof.
  intros Hd (f & Hf & Hl & Ht). destruct (down_ok d sig Hd) as [E Hd0].
  unfold dmx_section_feed_allocate_filter. rewrite E. cbn [mbind outcome_bind].
  set (d0 := d <| mutex := 0 |>) in *. change (feeds d0 !! fi = Some f) in Hf. clearbody d0.
  destruct (filter_alloc_ok d0 (di_filternum _ _ Hd0)) as [(k & g & Hk & Hg & Eb)|Eb]; rewrite Eb;
    cbn [mbind outcome_bind drop_out].
  2: { apply does_ret. by apply up_ok. }
  rewrite (deref_lookup (feeds (put_filter _ _ _)) fi f) by done. cbn [mbind outcome_bind].
  pose proof (lookup_lt_Some _ _ _ Hk) as Hlt. rewrite deref_put_filter by done.
  cbn [mbind outcome_bind]. rewrite put_filter_twice. apply does_ret, up_ok.
  set (g' := _ <| next := filter f |>).
  destruct (filter_at _ _ _ _ Hd0 Hk) as [Hok Hby].
  assert (Hok' : filter_ok g') by (destruct Hok; by split).
  pose proof (inv_take_filter 0 d0 k g g' Hd0 Hk Hg Hok' Hby) as Hd1.
  pose proof (di_pestype _ _ Hd0) as Hp. rewrite Forall_lookup in Hp. specialize (Hp fi f Hf).
  eapply inv_put_feed; [done|done| |done|done]. intros _.
  pose proof (di_wf _ _ Hd0 _ _ Hf Hl) as Hwf. unfold feed_wf in *. cbn [type set]. rewrite Ht in *.
  destruct Hwf as (l & [Hc Hnd] & Hall).
  assert (Hkl : k ∉ l).
  { intros Hin. rewrite Forall_forall in Hall. by apply (free_not_owned _ _ _ fi Hk Hg), Hall. }
  exists (k :: l). cbn [filters put_filter set]. split; [split|].
  - apply chain_cons with g'; [by apply list_lookup_insert_eq|done|]. by apply chain_insert.
  - by constructor.
  - constructor.
    + exists g'. split; [by apply list_lookup_insert_eq|]. done.
    + apply Forall_forall. intros i Hi. rewrite Forall_forall in Hall.
      apply owned_insert_other; [by intros ->|by apply Hall].
Qed.

Lemma sec_set_ok d fi p cs ds cc' sig :
  demux_inv 1 d -> sec_feed d fi -> does 1 (dmx_section_feed_set d fi p cs ds cc' sig).
Proof.
  intros Hd (f & Hf & Hl & Ht). unfold dmx_section_feed_set.
  destruct (p >? 0x1fff); [by apply does_ret|]. apply locked_ok; [done|].
  apply (inv_mutex _ 0) in Hd. set (d0 := d <| mutex := 0 |>) in *.
  change (feeds d0 !! fi = Some f) in Hf. clearbody d0. cbv zeta.
  pose proof (inv_feed_add _ _ _ _ Hd Hf Hl) as Hd2. rewrite <- (feeds_feed_add d0 fi) in Hf.
  rewrite (deref_lookup _ _ _ Hf). cbn [mbind outcome_bind]. cbn [descramble set].
  pose proof (di_wf _ _ Hd2 _ _ Hf Hl) as Hwf.
  pose proof (di_pestype _ _ Hd2) as Hp. rewrite Forall_lookup in Hp. specialize (Hp fi f Hf).
  destruct (negb (ds =? 0)); apply does_ret; (eapply inv_put_feed; [done|done| | |]); cbn; done.
Qed.

(** Preparing the filters. *)
Lemma same_links_insert flts k f g :
  Forall filter_ok flts -> flts !! k = Some f -> prepared f g -> same_links flts (<[k := g]> flts).
Proof.
  intros Hok Hk [Hg _ Hm (E1 & E2 & E3 & E4) _ _ _]. split; [by rewrite length_insert|].
  split; [by apply Forall_insert|]. intros i h Hi. destruct (decide (i = k)) as [->|Hne].
  - assert (h = f) as -> by congruence. exists g.
    rewrite list_lookup_insert_eq by (by eapply lookup_lt_Some).
    split; [done|]. split; [|done]. unfold links. by rewrite E1, E2, E3, E4.
  - exists h. by rewrite list_lookup_insert_ne by done.
Qed.

Lemma same_links_trans a b c : same_links a b -> same_links b c -> same_links a c.
Proof.
  intros (L1 & _ & H1) (L2 & Ok & H2). split; [congruence|]. split; [done|].
  intros i g Hg. destruct (H1 i g Hg) as (g1 & Hg1 & E1 & M1).
  destruct (H2 i g1 Hg1) as (g2 & Hg2 & E2 & M2). exists g2. split; [done|]. split; congruence.
Qed.

Lemma prepare_filters_ok fuel flts k l :
  chain flts (Some k) l -> NoDup l -> (length l <= fuel)%nat -> Forall filter_ok flts ->
  Forall (fun g => bytes (filter_mask g)) flts ->
  exists flts', prepare_filters fuel flts k = Ret flts' /\ same_links flts flts'.
Proof.
  revert flts k l. induction fuel as [|fuel IH]; intros flts k l Hc Hnd Hlen Hok Hby;
    inversion Hc as [|i f l' Hk Hf Hn]; subst; cbn [length] in Hlen; [lia|]. cbn [prepare_filters].
  rewrite (deref_lookup _ _ _ Hk). cbn [mbind outcome_bind].
  assert (Hm : bytes (filter_mask f)) by (rewrite Forall_lookup in Hby; eauto).
  destruct (prepare_filter_ok f Hf Hm) as (g & -> & Hp). cbn [mbind outcome_bind].
  pose proof (same_links_insert flts k f g Hok Hk Hp) as Hsl.
  pose proof Hp as [Hg _ Em (En & _) _ _ _]. apply NoDup_cons in Hnd as [Hkl Hnd].
  pose proof (chain_insert k g _ _ _ Hkl Hn) as Hn'. rewrite <- En in Hn'.
  destruct (next g) as [k'|]; [|by eexists].
  destruct (IH (<[k := g]> flts) k' l' Hn' Hnd) as (flts' & E & Hs').
  - lia.
  - by apply Forall_insert.
  - apply Forall_insert; [done|]. by rewrite Em.
  - exists flts'. split; [done|]. by eapply same_links_trans.
Qed.

Lemma owned_same a b fi k : same_links a b -> owned a fi k -> owned b fi k.
Proof.
  intros (_ & _ & H) (g & Hk & Hf & Hs). destruct (H k g Hk) as (g' & Hk' & E & _).
  injection E as _ E2 E3 _. exists g'. split; [done|]. rewrite E2, E3. done.
Qed.

Lemma inv_same_links m d l : demux_inv m d -> same_links (filters d) l -> demux_inv m (d <| filters := l |>).
Proof.
  intros [] Hs. pose proof Hs as (Hlen & Hok & Hl). split; cbn; try done.
  - rewrite di_filternum0. unfold zlen. by rewrite Hlen.
  - apply Forall_lookup. intros i g Hg.
    destruct (lookup_lt_is_Some_2 (filters d) i) as [g0 Hg0];
      [rewrite Hlen; by eapply lookup_lt_Some|].
    destruct (Hl i g0 Hg0) as (g' & Hg' & _ & E). assert (g' = g) as -> by congruence. rewrite E.
    rewrite Forall_lookup in di_masks0. eauto.
  - intros fi f Hf Hlive. specialize (di_wf0 fi f Hf Hlive). unfold feed_wf in *.
    destruct (type f); [| |done].
    + destruct di_wf0 as (k & Ek & Ho). exists k. split; [done|]. by eapply owned_same.
    + destruct di_wf0 as (c & [Hc Hnd] & Hall). exists c. split; [split; [by eapply chain_same|done]|].
      apply Forall_forall. intros k Hk. rewrite Forall_forall in Hall. eapply owned_same; eauto.
Qed.

Lemma sec_start_ok start d fi sig :
  demux_inv 1 d -> sec_feed d fi -> does 1 (dmx_section_feed_start_filtering start d fi sig).
Proof.
  intros Hd (f & Hf & Hl & Ht). apply locked_ok; [done|]. apply (inv_mutex _ 0) in Hd.
  set (d0 := d <| mutex := 0 |>) in *. change (feeds d0 !! fi = Some f) in Hf. clearbody d0.
  rewrite (deref_lookup _ _ _ Hf). cbn [mbind outcome_bind].
  destruct (is_filtering f); [by apply does_ret|].
  case_bool_decide as Hfl; [by apply does_ret|]. cbv zeta.
  pose proof (di_pestype _ _ Hd) as Hp. rewrite Forall_lookup in Hp. specialize (Hp fi f Hf).
  pose proof (di_wf _ _ Hd _ _ Hf Hl) as Hwf.
  set (f1 := f <| secbufp := 0 |> <| seclen := 0 |>).
  assert (Hd1 : demux_inv 0 (put_feed d0 fi f1)) by (eapply inv_put_feed; done).
  assert (Hf1 : feeds (put_feed d0 fi f1) !! fi = Some f1).
  { cbn. apply list_lookup_insert_eq. by eapply lookup_lt_Some. }
  set (d1 := put_feed d0 fi f1) in *. clearbody d1.
  destruct start as [start|]; [|by apply does_ret].
  assert (Hprep : exists l, prepare_secfilters d1 f1 = Ret (d1 <| filters := l |>) /\
    demux_inv 0 (d1 <| filters := l |>)).
  { pose proof (di_wf _ _ Hd1 _ _ Hf1 Hl) as Hwf1. unfold feed_wf in Hwf1.
    change (type f1) with (type f) in Hwf1. rewrite Ht in Hwf1. destruct Hwf1 as (c & [Hc Hnd] & _).
    unfold prepare_secfilters. destruct (filter f1) as [k|] eqn:Ek.
    2: { exists (filters d1). split; [by destruct d1|]. by destruct Hd1. }
    destruct (prepare_filters_ok (length (filters d1)) (filters d1) k c) as (l & E & Hs); try done.
    - by eapply chain_length.
    - apply Hd1.
    - apply Hd1.
    - exists l. rewrite E. split; [done|]. by apply inv_same_links. }
  destruct Hprep as (l & -> & Hd2). cbn [mbind outcome_bind].
  set (d2 := d1 <| filters := l |>) in *. change (feeds d2 !! fi = Some f1) in Hf1. clearbody d2.
  destruct (start fi d2 <? 0); apply does_ret; [done|].
  pose proof (di_wf _ _ Hd2 _ _ Hf1 Hl) as Hwf2. eapply inv_put_feed; done.
Qed.

Lemma sec_stop_ok stop d fi sig :
  demux_inv 1 d -> sec_feed d fi -> does 1 (dmx_section_feed_stop_filtering stop d fi sig).
Proof.
  intros Hd (f & Hf & Hl & Ht). apply locked_ok; [done|]. apply (inv_mutex _ 0) in Hd.
  set (d0 := d <| mutex := 0 |>) in *. change (feeds d0 !! fi = Some f) in Hf. clearbody d0.
  destruct stop as [stop|]; [|by apply does_ret].
  cbv zeta. rewrite (deref_lookup _ _ _ Hf). cbn [mbind outcome_bind]. apply does_ret.
  pose proof (di_wf _ _ Hd _ _ Hf Hl). pose proof (di_pestype _ _ Hd) as Hp. rewrite Forall_lookup in Hp.
  specialize (Hp fi f Hf). eapply inv_put_feed; done.
Qed.

Lemma sec_release_ok d fi sig :
  demux_inv 1 d -> sec_feed d fi -> does 1 (dvbdmx_release_section_feed d fi sig).
Proof.
  intros Hd (f & Hf & Hl & Ht). apply locked_ok; [done|]. apply (inv_mutex _ 0) in Hd.
  set (d0 := d <| mutex := 0 |>) in *. change (feeds d0 !! fi = Some f) in Hf. clearbody d0.
  rewrite (deref_lookup _ _ _ Hf). cbn [mbind outcome_bind].
  rewrite bool_decide_eq_false_2 by done. cbv zeta.
  replace (put_feed (dvb_demux_feed_del _ fi) fi _) with
    (put_feed (dvb_demux_feed_del d0 fi) fi (f <| state := DMX_STATE_FREE |> <| pid := 0xffff |>)).
  { apply does_ret. by eapply inv_free_feed. }
  unfold dvb_demux_feed_del, dvb_demux_feed_find. cbn.
  case_match; unfold put_feed; cbn; by rewrite list_insert_insert_eq.
Qed.

(** A filter leaves the chain of its feed. *)
Lemma chain_agree a b p l : (forall i, i ∈ l -> b !! i = a !! i) -> chain a p l -> chain b p l.
Proof.
  intros H Hc. induction Hc as [|i f l Hi Hok Hn IH]; [constructor|].
  apply chain_cons with f; [|done|].
  - rewrite H; [done|]. by left.
  - apply IH. intros j Hj. apply H. by right.
Qed.

Lemma wf_agree a b fi f : (forall i, owned a fi i -> b !! i = a !! i) -> feed_wf a fi f -> feed_wf b fi f.
Proof.
  intros H. assert (Ho : forall i, owned a fi i -> owned b fi i).
  { intros i Hi. pose proof (H i Hi) as E. destruct Hi as (g & Hg & Hs). exists g. by rewrite E. }
  unfold feed_wf. destruct (type f); [| |done].
  - intros (k & Ek & Hk). exists k. auto.
  - intros (l & [Hc Hnd] & Hall). rewrite Forall_forall in Hall. exists l. split; [split; [|done]|].
    + eapply chain_agree; [|done]. auto.
    + apply Forall_forall. auto.
Qed.

Lemma inv_drop_filter m d fi f f' flts :
  demux_inv m d -> feeds d !! fi = Some f -> live f -> live f' ->
  ts_type f' = ts_type f -> pes_type f' = pes_type f ->
  length flts = length (filters d) -> Forall filter_ok flts ->
  Forall (fun g => bytes (filter_mask g)) flts ->
  (forall i, ~ owned (filters d) fi i -> flts !! i = filters d !! i) -> feed_wf flts fi f' ->
  demux_inv m (put_feed (d <| filters := flts |>) fi f').
Proof.
  intros Hd Hf Hl Hl' Et Ep Hlen Hok Hby Hag Hwf. pose proof (lookup_lt_Some _ _ _ Hf) as Hlt.
  destruct Hd. split; cbn; try done.
  - rewrite di_feednum0. unfold zlen. by rewrite length_insert.
  - rewrite di_filternum0. unfold zlen. by rewrite Hlen.
  - intros i Hi. destruct (decide (i = fi)) as [->|Hne].
    + exists f'. by rewrite list_lookup_insert_eq.
    + rewrite list_lookup_insert_ne by done. auto.
  - apply Forall_insert; [done|]. rewrite Et, Ep. rewrite Forall_lookup in di_pestype0. by eapply di_pestype0.
  - intros i g Hg Hlg. destruct (decide (i = fi)) as [->|Hne].
    + rewrite list_lookup_insert_eq in Hg by done. by injection Hg as <-.
    + rewrite list_lookup_insert_ne in Hg by done. apply wf_agree with (filters d); [|eauto].
      intros k Hk. apply Hag. intros Hk'. destruct Hk as (g1 & E1 & F1 & _), Hk' as (g2 & E2 & F2 & _).
      congruence.
Qed.

Lemma unlink_ok fuel flts j flt l :
  chain flts (Some j) l -> NoDup l -> flt ∈ l -> flt <> j -> (length l <= fuel)%nat ->
  exists i g h r, unlink_filter fuel flts (Some j) flt = Ret (<[i := g <| next := next h |>]> flts) /\
    flts !! i = Some g /\ filter_ok g /\ flts !! flt = Some h /\ i ∈ l /\ i <> flt /\
    chain (<[i := g <| next := next h |>]> flts) (Some j) r /\ NoDup r /\ (flt ∉ r) /\
    (forall x, x ∈ r -> x ∈ l).
Proof.
  revert j l. induction fuel as [|fuel IH]; intros j l Hc Hnd Hin Hne Hlen;
    inversion Hc as [|j' g l' Hj Hg Hn]; subst; cbn [length] in Hlen; [lia|]. cbn [unlink_filter deref_opt].
  rewrite (deref_lookup _ _ _ Hj). cbn [mbind outcome_bind].
  apply NoDup_cons in Hnd as [Hjl Hnd]. apply elem_of_cons in Hin as [->|Hin]; [done|].
  case_bool_decide as E.
  - rewrite E in Hn. inversion Hn as [|k h l'' Hk Hh Hn2]; subst.
    rewrite (deref_lookup _ _ _ Hk). cbn [mbind outcome_bind default].
    apply NoDup_cons in Hnd as [Hkl Hnd]. apply not_elem_of_cons in Hjl as [_ Hjl].
    exists j, g, h, (j :: l''). split; [done|]. split; [done|]. split; [done|]. split; [done|].
    split; [by left|]. split; [done|]. split; [|split; [by constructor|split]].
    + apply chain_cons with (g <| next := next h |>);
        [apply list_lookup_insert_eq; by eapply lookup_lt_Some|destruct Hg; by split|].
      by apply chain_insert.
    + apply not_elem_of_cons. done.
    + intros x Hx. apply elem_of_cons in Hx as [->|Hx]; [by left|]. right. by right.
  - destruct (next g) as [j'|] eqn:En; [|inversion Hn; subst; by apply elem_of_nil in Hin].
    destruct (IH j' l' Hn Hnd Hin) as (i & g' & h & r & E' & Hi & Hg' & Hh & Hil & Hif & Hcr & Hndr & Hfr & Hsub);
      [congruence|lia|].
    assert (Hij : i <> j) by (by intros ->).
    exists i, g', h, (j :: r). split; [done|]. split; [done|]. split; [done|]. split; [done|].
    split; [by right|]. split; [done|]. split; [|split; [|split]].
    + apply chain_cons with g; [by rewrite list_lookup_insert_ne|done|]. by rewrite En.
    + constructor; [|done]. intros Hx. by apply Hsub in Hx.
    + by apply not_elem_of_cons.
    + intros x Hx. apply elem_of_cons in Hx as [->|Hx]; [by left|]. right. auto.
Qed.

Lemma inv_shape m d k g :
  demux_inv m d -> filter_ok g -> bytes (filter_mask g) ->
  length (<[k := g]> (filters d)) = length (filters d) /\ Forall filter_ok (<[k := g]> (filters d)) /\
  Forall (fun g => bytes (filter_mask g)) (<[k := g]> (filters d)).
Proof.
  intros [] ? ?. split; [by rewrite length_insert|]. split; by apply Forall_insert.
Qed.

(** Releasing a filter of a feed that is not filtering, or while a signal is pending: the
    feed is not stopped then, but it is not waited for either. *)
Lemma release_filter_ok stop d fi f l flt sig sig2 :
  demux_inv 1 d -> feeds d !! fi = Some f -> live f -> type f = DMX_TYPE_SEC ->
  is_filtering f && negb sig2 = false -> feed_filters (filters d) f l -> Forall (owned (filters d) fi) l ->
  flt ∈ l -> does 1 (dmx_section_feed_release_filter stop d fi flt sig sig2).
Proof.
  intros Hd Hf Hl Ht Hif [Hc Hnd] Hall Hin. apply locked_ok; [done|]. apply (inv_mutex _ 0) in Hd.
  set (d0 := d <| mutex := 0 |>) in *. change (feeds d0 !! fi = Some f) in Hf.
  change (filters d) with (filters d0) in *. clearbody d0.
  pose proof Hall as Hall'. rewrite Forall_forall in Hall'.
  destruct (Hall' flt Hin) as (g & Hg & Hgf & Hgs). destruct (filter_at _ _ _ _ Hd Hg) as [Hgo Hgm].
  rewrite (deref_lookup _ _ _ Hg). cbn [mbind outcome_bind].
  rewrite bool_decide_eq_true_2 by done. cbn [negb].
  rewrite (deref_lookup _ _ _ Hf). cbn [mbind outcome_bind].
  assert (Hstop : (if is_filtering f then '(d, _) ← dmx_section_feed_stop_filtering stop d0 fi sig2; Ret d else Ret d0) = Ret d0).
  { destruct (is_filtering f); [|done]. destruct sig2; [|done]. unfold dmx_section_feed_stop_filtering, locked, down_interruptible.
    by rewrite (di_mutex _ _ Hd). }
  rewrite Hstop. cbn [mbind outcome_bind]. rewrite (deref_lookup _ _ _ Hf). cbn [mbind outcome_bind].
  set (g' := g <| f_state := DMX_STATE_FREE |>).
  assert (Hgo' : filter_ok g') by (destruct Hgo; by split).
  destruct (inv_shape 0 d0 flt g' Hd Hgo' Hgm) as (S1 & S2 & S3).
  case_bool_decide as Ehd; cbn [mbind outcome_bind].
  - rewrite (deref_lookup (filters (put_feed _ _ _)) flt g) by done. cbn [mbind outcome_bind].
    rewrite Ehd in Hc. inversion Hc as [|k g0 l' Hk Hok Hn]; subst.
    assert (g0 = g) as -> by congruence. apply NoDup_cons in Hnd as [Hkl Hnd].
    apply does_ret. change (demux_inv 0
      (put_feed (d0 <| filters := <[flt := g']> (filters d0) |>) fi (f <| filter := next g |>))).
    apply (inv_drop_filter 0 d0 fi f); try done.
    + intros i Hi. rewrite list_lookup_insert_ne; [done|]. intros <-. apply Hi. by exists g.
    + unfold feed_wf, feed_filters. cbn [type filter set]. rewrite Ht. exists l'.
      split; [split; [by apply chain_insert|done]|]. apply Forall_forall. intros i Hi.
      apply owned_insert_other; [by intros <-|]. apply Hall'. by right.
  - destruct (filter f) as [j|] eqn:Ej; [|inversion Hc; subst; by apply elem_of_nil in Hin].
    destruct (unlink_ok (S (length (filters d0))) (filters d0) j flt l) as
      (i & gi & h & r & E & Hi & Hio & Hh & Hil & Hif' & Hcr & Hndr & Hfr & Hsub); try done;
      [congruence | pose proof (chain_length _ _ _ Hc Hnd); lia |].
    rewrite E. cbn [mbind outcome_bind]. assert (h = g) as -> by congruence.
    erewrite deref_lookup by (cbn; rewrite list_lookup_insert_ne by done; exact Hg).
    cbn [mbind outcome_bind]. apply does_ret.
    set (gi' := gi <| next := next g |>) in *. assert (Hio' : filter_ok gi') by (destruct Hio; by split).
    destruct (filter_at _ _ _ _ Hd Hi) as [_ Him].
    set (flts := <[flt := g']> (<[i := gi']> (filters d0))).
    replace (put_filter _ flt g') with (put_feed (d0 <| filters := flts |>) fi f).
    2: { unfold put_feed, put_filter. cbn. rewrite list_insert_id by done. by destruct d0. }
    destruct (inv_shape 0 d0 i gi' Hd Hio' Him) as (T1 & T2 & T3).
    apply (inv_drop_filter 0 d0 fi f); try done.
    + unfold flts. by rewrite !length_insert.
    + unfold flts. by apply Forall_insert.
    + unfold flts. by apply Forall_insert.
    + intros x Hx. unfold flts. rewrite !list_lookup_insert_ne; [done|..].
      * intros <-. by apply Hx, Hall'.
      * intros <-. by apply Hx, Hall'.
    + unfold feed_wf, feed_filters. rewrite Ht, Ej. exists r.
      split; [split; [by apply chain_insert|done]|]. apply Forall_forall. intros x Hx.
      apply owned_insert_other; [by intros <-|]. specialize (Hall' x (Hsub x Hx)).
      destruct Hall' as (gx & Hgx & Fx & Sx). destruct (decide (x = i)) as [->|Hne].
      * assert (gx = gi) as -> by congruence. exists gi'.
        split; [by apply list_lookup_insert_eq; eapply lookup_lt_Some|done].
      * exists gx. by rewrite list_lookup_insert_ne.
Qed.

(** ** The API as a whole *)
Inductive api_op : Type :=
  | AllocTs | SetTs (fi : nat) (p t pt cl cs ds : Z) | StartTs (fi : nat) | StopTs (fi : nat)
  | ReleaseTs (fi : nat)
  | AllocSec | AllocFilter (fi : nat) | SetSec (fi : nat) (p cs ds cc' : Z) | StartSec (fi : nat)
  | StopSec (fi : nat) | ReleaseFilter (fi flt : nat) | ReleaseSec (fi : nat)
  | Connect (fe : option Z) | Disconnect | Open | Close.

Definition api_step (start stop : option (nat -> dvb_demux -> Z)) (sig : bool) (d : dvb_demux) (op : api_op)
  : outcome (dvb_demux * Z) :=
  match op with
  | AllocTs => drop_out (dvbdmx_allocate_ts_feed d sig)
  | SetTs fi p t pt cl cs ds => dmx_ts_feed_set d fi p t pt cl cs ds sig
  | StartTs fi => dmx_ts_feed_start_filtering start d fi sig
  | StopTs fi => dmx_ts_feed_stop_filtering stop d fi sig
  | ReleaseTs fi => dvbdmx_release_ts_feed d fi sig
  | AllocSec => drop_out (dvbdmx_allocate_section_feed d sig)
  | AllocFilter fi => drop_out (dmx_section_feed_allocate_filter d fi sig)
  | SetSec fi p cs ds cc' => dmx_section_feed_set d fi p cs ds cc' sig
  | StartSec fi => dmx_section_feed_start_filtering start d fi sig
  | StopSec fi => dmx_section_feed_stop_filtering stop d fi sig
  | ReleaseFilter fi flt => dmx_section_feed_release_filter stop d fi flt sig sig
  | ReleaseSec fi => dvbdmx_release_section_feed d fi sig
  | Connect fe => dvbdmx_connect_frontend d fe sig
  | Disconnect => dvbdmx_disconnect_frontend d sig
  | Open => let '(d, r) := dvbdmx_open d in Ret (d, r)
  | Close => let '(d, r) := dvbdmx_close d in Ret (d, r)
  end.

(** What a caller must respect: the feed is allocated and of the right type; the filter
    released exists and, if it says that it belongs to the feed, is still one of the
    feed's filters. *)
Definition op_pre (d : dvb_demux) (op : api_op) : Prop :=
  match op with
  | SetTs fi _ _ _ _ _ _ | StartTs fi | StopTs fi | ReleaseTs fi => ts_feed d fi
  | AllocFilter fi | SetSec fi _ _ _ _ | StartSec fi | StopSec fi | ReleaseSec fi => sec_feed d fi
  | ReleaseFilter fi flt => exists f l g, feeds d !! fi = Some f /\ live f /\ type f = DMX_TYPE_SEC /\
      feed_filters (filters d) f l /\ Forall (owned (filters d) fi) l /\
      filters d !! flt = Some g /\ (f_feed g = Some fi -> flt ∈ l)
  | _ => True
  end.

(** The one call that never returns: releasing a filter of a feed that is filtering, with no
    signal pending. *)
Definition deadlocks (sig : bool) (d : dvb_demux) (op : api_op) : bool :=
  match op with
  | ReleaseFilter fi flt =>
    match feeds d !! fi, filters d !! flt with
    | Some f, Some g => negb sig && is_filtering f && bool_decide (f_feed g = Some fi)
    | _, _ => false
    end
  | _ => false
  end.

(** The call waits for the semaphore that it holds. *)
Lemma release_filter_hangs stop d fi f flt g sig :
  demux_inv 1 d -> feeds d !! fi = Some f -> is_filtering f = true ->
  filters d !! flt = Some g -> f_feed g = Some fi ->
  dmx_section_feed_release_filter stop d fi flt sig false = Hang.
Proof.
  intros Hd Hf Hi Hg Hgf. unfold dmx_section_feed_release_filter, locked.
  destruct (down_ok d sig Hd) as [E _]. rewrite E. cbn [mbind outcome_bind].
  rewrite (deref_lookup (filters (d <| mutex := 0 |>)) flt g) by done. cbn [mbind outcome_bind].
  rewrite bool_decide_eq_true_2 by done. cbn [negb].
  rewrite (deref_lookup (feeds (d <| mutex := 0 |>)) fi f) by done. cbn [mbind outcome_bind].
  by rewrite Hi.
Qed.

(** A filter of another feed is refused. *)
Lemma release_filter_foreign stop d fi flt g sig sig2 :
  demux_inv 1 d -> filters d !! flt = Some g -> f_feed g <> Some fi ->
  dmx_section_feed_release_filter stop d fi flt sig sig2 = Ret (d, - EINVAL).
Proof.
  intros Hd Hg Hgf. unfold dmx_section_feed_release_filter, locked.
  destruct (down_ok d sig Hd) as [E _]. rewrite E. cbn [mbind outcome_bind].
  rewrite (deref_lookup (filters (d <| mutex := 0 |>)) flt g) by done. cbn [mbind outcome_bind].
  rewrite bool_decide_eq_false_2 by done. cbn [negb mbind outcome_bind]. unfold up. cbn.
  pose proof (di_mutex _ _ Hd) as Hm. destruct d. cbn in *. by subst.
Qed.

(** [release_filter] on every branch. *)
Lemma release_filter_cases stop d fi f l flt g sig :
  demux_inv 1 d -> feeds d !! fi = Some f -> live f -> type f = DMX_TYPE_SEC ->
  feed_filters (filters d) f l -> Forall (owned (filters d) fi) l ->
  filters d !! flt = Some g -> (f_feed g = Some fi -> flt ∈ l) ->
  if deadlocks sig d (ReleaseFilter fi flt) then dmx_section_feed_release_filter stop d fi flt sig sig = Hang
  else does 1 (dmx_section_feed_release_filter stop d fi flt sig sig).
Proof.
  intros Hd Hf Hl Ht Hff Hall Hg Hin. cbn [deadlocks]. rewrite Hf, Hg. case_bool_decide as Ho.
  - rewrite andb_true_r. destruct (negb sig && is_filtering f) eqn:E.
    + apply andb_prop in E as [Es Ei]. destruct sig; [done|]. by apply (release_filter_hangs stop d fi f flt g).
    + apply (release_filter_ok stop d fi f l); auto. by rewrite andb_comm.
  - rewrite andb_false_r. rewrite (release_filter_foreign stop d fi flt g) by done. by apply does_ret.
Qed.

(** C1: a demultiplexer in a consistent state answers the calls of the feed API made on
    an allocated feed, except one: releasing a filter of a feed that is filtering, with no
    signal pending, never returns.  Every other call, releasing a filter of another feed
    (which is refused) or with a signal pending included, meets no null pointer, no index
    outside an array and no endless walk of a filter chain, leaves no semaphore taken, and
    leaves the state consistent: the feeds on the list are allocated, each TS feed has
    its filter, each section feed a chain of distinct filters of its own.  The caller
    must not release a filter that the feed had and has given back already. *)
Theorem demux_api_invariant start stop sig d op :
  demux_inv 1 d -> op_pre d op ->
  if deadlocks sig d op then api_step start stop sig d op = Hang
  else exists d' r, api_step start stop sig d op = Ret (d', r) /\ demux_inv 1 d'.
Proof.
  intros Hd Hp. destruct op; cbn [op_pre api_step] in *; try (cbn [deadlocks]; lazymatch goal with |- exists _, _ => idtac end).
  - by apply alloc_ts_ok.
  - by apply ts_set_ok.
  - by apply ts_start_ok.
  - by apply ts_stop_ok.
  - by apply ts_release_ok.
  - by apply alloc_sec_ok.
  - by apply alloc_filter_ok.
  - by apply sec_set_ok.
  - by apply sec_start_ok.
  - by apply sec_stop_ok.
  - destruct Hp as (f & l & g & ? & ? & ? & ? & ? & ? & ?). by apply (release_filter_cases stop d fi f l flt g).
  - by apply sec_release_ok.
  - unfold dvbdmx_connect_frontend. destruct (frontend d); [by apply does_ret|].
    apply locked_ok; [done|]. apply does_ret. by destruct Hd.
  - apply locked_ok; [done|]. apply does_ret. by destruct Hd.
  - unfold dvbdmx_open. destruct (_ >=? _); apply does_ret; [done|by destruct Hd].
  - unfold dvbdmx_close. destruct (_ =? _); apply does_ret; [done|by destruct Hd].
Qed.

(** C6: [dvb_dmx_init] of arrays of the announced sizes registers the
    demultiplexer and establishes the invariant, with no feed in use.  (The
    arrays are not cleared: the hypothesis on [ts_type] is needed.) *)
Theorem dvb_dmx_init_consistent d fl fe r self :
  Forall filter_ok fl -> Forall (fun g => bytes (filter_mask g)) fl ->
  filternum d = zlen fl -> feednum d = zlen fe ->
  Forall (fun f => flag (ts_type f) TS_DECODER = true -> 0 <= pes_type f < 20) fe ->
  (self < length (dmx_users r))%nat -> self ∉ dmx_muxs r ->
  exists d' r', dvb_dmx_init d (Some fl) (Some fe) r self = Ret (d', r', 0) /\
    demux_inv 1 d' /\ Forall (fun f => ~ live f) (feeds d') /\ dmx_muxs r' = self :: dmx_muxs r.
Proof.
  intros Hfl Hm Hn1 Hn2 Hp Hu Hs. unfold dvb_dmx_init, dmx_register_demux.
  destruct (lookup_lt_is_Some_2 (dmx_users r) self Hu) as [u Hu'].
  rewrite (deref_lookup _ _ _ Hu'). cbn [mbind outcome_bind dmx_muxs set].
  unfold list_add. rewrite bool_decide_eq_false_2 by done. cbn [mbind outcome_bind Z.ltb Z.compare].
  eexists _, _. split; [done|]. split; [|split; [|done]].
  - split; cbn; try done.
    + rewrite Hn2. unfold zlen. by rewrite length_fmap.
    + rewrite Hn1. unfold zlen. by rewrite length_imap.
    + apply Forall_lookup. intros i g Hg. apply list_lookup_imap_Some in Hg as (g0 & Hg0 & ->).
      rewrite Forall_lookup in Hfl. specialize (Hfl i g0 Hg0). by destruct Hfl.
    + apply Forall_lookup. intros i g Hg. apply list_lookup_imap_Some in Hg as (g0 & Hg0 & ->).
      rewrite Forall_lookup in Hm. exact (Hm i g0 Hg0).
    + constructor.
    + intros fi Hin. by apply elem_of_nil in Hin.
    + by apply Forall_fmap.
    + intros fi f Hf Hl. apply list_lookup_fmap_Some in Hf as (f0 & -> & _). by exfalso.
  - cbn. apply Forall_fmap, Forall_true. intros f Hl. by apply Hl.
Qed.

(** C5: allocating a TS feed and releasing it again gives back everything: feed
    and filter are as free as before and the feed list is unchanged. *)
Theorem ts_feed_alloc_release d fi d1 sig sig2 :
  demux_inv 1 d -> dvbdmx_allocate_ts_feed d sig = Ret (Some fi, d1, 0) ->
  exists d2, dvbdmx_release_ts_feed d1 fi sig2 = Ret (d2, 0) /\
    state <$> feeds d2 = state <$> feeds d /\ f_state <$> filters d2 = f_state <$> filters d /\
    feed_list d2 = feed_list d.
Proof.
  intros Hd Ea. pose proof (alloc_ts_ok d sig Hd) as Hd1. rewrite Ea in Hd1. cbn [drop_out mbind outcome_bind] in Hd1.
  destruct Hd1 as (d1' & r' & [= <- <-] & Hd1).
  destruct (alloc_ts_spec d sig Hd) as [E|(fi' & f & Hf & Hs & [E|(k & g & Hk & Hg & E)])];
    rewrite Ea in E; [done|done|]. injection E as -> E. 
  pose proof (free_not_listed _ _ _ _ Hd Hf Hs) as Hnl.
  pose proof (lookup_lt_Some _ _ _ Hf) as Hlf. pose proof (lookup_lt_Some _ _ _ Hk) as Hlk.
  set (f1 := _ <| filter := Some k |>) in E. set (g1 := _ <| f_state := _ |>) in E.
  assert (Hf1 : feeds d1 !! fi' = Some f1) by (rewrite E; cbn; by apply list_lookup_insert_eq).
  assert (Hk1 : filters d1 !! k = Some g1) by (rewrite E; cbn; by apply list_lookup_insert_eq).
  destruct (release_ts_spec d1 fi' f1 sig2 Hd1 Hf1) as (k' & g' & Ek & Hk' & _ & Er); [done|done|].
  assert (k' = k) as -> by (cbn in Ek; congruence). assert (g' = g1) as -> by congruence.
  rewrite Er. eexists. split; [done|]. cbv zeta.
  assert (Hsame : forall x : dvb_demux, (if flag (ts_type f1) TS_DECODER
      then x <| pesfilter := <[Z.to_nat (pes_type f1) := None]> (pesfilter d1) |> else x) =
      x <| pesfilter := if flag (ts_type f1) TS_DECODER
        then <[Z.to_nat (pes_type f1) := None]> (pesfilter d1) else pesfilter x |>).
  { intros x. case_match; [done|]. by destruct x. }
  rewrite Hsame. cbn [feeds filters feed_list set put_feed put_filter].
  assert (Hdel : dvb_demux_feed_del d1 fi' = d1).
  { unfold dvb_demux_feed_del, dvb_demux_feed_find. rewrite E. cbn [feed_list put_feed put_filter set].
    destruct (existsb _ _) eqn:Ex; [|done]. by apply existsb_In in Ex. }
  rewrite Hdel, E. cbn [feeds filters feed_list set put_feed put_filter].
  rewrite !list_insert_insert_eq, !list_fmap_insert. split; [|split; [|done]].
  - apply list_insert_id. rewrite list_lookup_fmap, Hf. cbn. by rewrite Hs.
  - apply list_insert_id. rewrite list_lookup_fmap, Hk. cbn. by rewrite Hg.
Qed.


(** A feed remembers the PES type of the slot's previous user: allocating a
    TS feed and releasing it without ever setting it removes the decoder
    registration of the feed that now has that PES type. *)
Theorem release_clears_foreign_pes d fi f d1 other sig sig2 :
  demux_inv 1 d -> dvbdmx_allocate_ts_feed d sig = Ret (Some fi, d1, 0) ->
  feeds d !! fi = Some f -> flag (ts_type f) TS_DECODER = true ->
  pesfilter d !! Z.to_nat (pes_type f) = Some (Some other) ->
  exists d2, dvbdmx_release_ts_feed d1 fi sig2 = Ret (d2, 0) /\
    pesfilter d2 !! Z.to_nat (pes_type f) = Some None.
Proof.
  intros Hd Ea Hf Hfl Ho. pose proof (alloc_ts_ok d sig Hd) as Hd1.
  rewrite Ea in Hd1. cbn [drop_out mbind outcome_bind] in Hd1.
  destruct Hd1 as (d1' & r' & [= <- <-] & Hd1).
  destruct (alloc_ts_spec d sig Hd) as [E|(fi' & f' & Hf' & Hs & [E|(k & g & Hk & Hg & E)])];
    rewrite Ea in E; [done|done|]. injection E as -> E. assert (f' = f) as -> by congruence.
  set (f1 := _ <| filter := Some k |>) in E.
  assert (Hf1 : feeds d1 !! fi' = Some f1).
  { rewrite E. cbn. apply list_lookup_insert_eq. by eapply lookup_lt_Some. }
  destruct (release_ts_spec d1 fi' f1 sig2 Hd1 Hf1) as (k' & g' & _ & _ & _ & Er); [done|done|].
  change (ts_type f1) with (ts_type f) in Er. change (pes_type f1) with (pes_type f) in Er.
  rewrite Er, Hfl. eexists. split; [done|]. cbn. rewrite E. cbn.
  apply list_lookup_insert_eq. by eapply lookup_lt_Some.
Qed.

(** ** Witnesses: a demultiplexer with a section feed that is filtering, a free
    feed that once fed the decoder, and a registration of another feed. *)
Definition idle_filter : dvb_demux_filter := wild_filter <| f_state := DMX_STATE_FREE |>.
Definition idle_feed : dvb_demux_feed :=
  section_feed0 <| state := DMX_STATE_FREE |> <| ts_type := 4 |> <| is_filtering := false |>.
Definition busy_demux : dvb_demux :=
  mk_demux 2 2 0 [wild_filter; idle_filter] [section_feed0; idle_feed] None []
    (Some 0%nat :: replicate 19 None) (replicate 20 0xffff) 0 0 [0%nat] (replicate 204 0) 0 1.

Lemma idle_filter_ok : filter_ok idle_filter.
Proof. by split. Qed.

Lemma zero_mask : bytes (replicate 18 0).
Proof. apply bytes_replicate. done. Qed.

Lemma busy_demux_inv : demux_inv 1 busy_demux.
Proof.
  split; try done.
  - repeat constructor.
  - constructor; [apply zero_mask|]. constructor; [apply zero_mask|constructor].
  - apply NoDup_singleton.
  - intros fi Hin. apply list_elem_of_singleton in Hin as ->. by exists section_feed0.
  - constructor; [done|]. constructor; [|constructor]. intros _. done.
  - intros [|[|fi]] f Hf Hl; [| |by apply lookup_nil in Hf || done].
    + injection Hf as <-. exists [0%nat]. split; [split|].
      * eapply chain_cons; [done|apply wild_filter_ok|constructor].
      * apply NoDup_singleton.
      * constructor; [|constructor]. by exists wild_filter.
    + injection Hf as <-. by exfalso.
Qed.

Lemma demux_api_invariant_witness :
  exists d' r, api_step None None false busy_demux (SetSec 0 0x11 0 0 1) = Ret (d', r) /\ demux_inv 1 d'.
Proof.
  apply (demux_api_invariant None None false busy_demux (SetSec 0 0x11 0 0 1)).
  - apply busy_demux_inv.
  - by exists section_feed0.
Defined.

Lemma dvb_dmx_init_consistent_witness :
  exists d' r', dvb_dmx_init busy_demux (Some [wild_filter; wild_filter]) (Some [section_feed0; idle_feed])
      (mk_registry [] [3]) 0 = Ret (d', r', 0) /\
    demux_inv 1 d' /\ Forall (fun f => ~ live f) (feeds d') /\ dmx_muxs r' = [0%nat].
Proof.
  apply (dvb_dmx_init_consistent busy_demux _ _ (mk_registry [] [3]) 0); try done.
  - repeat constructor.
  - constructor; [apply zero_mask|]. constructor; [apply zero_mask|constructor].
  - constructor; [done|]. constructor; [|constructor]. intros _. done.
  - cbn. lia.
  - apply not_elem_of_nil.
Defined.

Lemma ts_feed_alloc_release_witness :
  exists d1 d2, dvbdmx_allocate_ts_feed busy_demux false = Ret (Some 1%nat, d1, 0) /\
    dvbdmx_release_ts_feed d1 1 false = Ret (d2, 0) /\
    state <$> feeds d2 = state <$> feeds busy_demux /\
    f_state <$> filters d2 = f_state <$> filters busy_demux /\
    feed_list d2 = feed_list busy_demux.
Proof.
  eexists. destruct (ts_feed_alloc_release busy_demux 1 _ false false busy_demux_inv eq_refl) as [d2 H].
  exists d2. split; [reflexivity|exact H].
Defined.


Lemma release_clears_foreign_pes_witness :
  exists d1 d2, dvbdmx_allocate_ts_feed busy_demux false = Ret (Some 1%nat, d1, 0) /\
    dvbdmx_release_ts_feed d1 1 false = Ret (d2, 0) /\ pesfilter d2 !! 0%nat = Some None.
Proof.
  eexists.
  destruct (release_clears_foreign_pes busy_demux 1 idle_feed _ 0 false false busy_demux_inv eq_refl
    eq_refl eq_refl eq_refl) as [d2 H].
  exists d2. split; [reflexivity|exact H].
Defined.
