(* ===== verification/Pes2Ts.v ===== *)
(** * PES packets to transport packets, and AC3 headers

    Models driver/dvb/drivers/media/dvb/dvb-core/dvb_filter.c (the functions that
    are compiled): [dvb_filter_pes2ts], which cuts a PES packet into transport
    packets and hands each to a callback, and [dvb_filter_get_ac3info], which
    looks for the first AC3 frame header. *)
From S2P Require Import Prelude SwFilter SectionAssembly.

(** ** [dvb_filter_pes2ts] *)
Record dvb_filter_pes2ts := mk_pes2ts { p2_buf : list Z; p2_cc : Z }.
#[export] Instance eta_pes2ts : Eta dvb_filter_pes2ts := fun p => mk_pes2ts (p2_buf p) (p2_cc p).

Definition dvb_filter_pes2ts_init (p2ts : dvb_filter_pes2ts) (pid : Z) : outcome dvb_filter_pes2ts :=
  buf ← write_at (p2_buf p2ts) 0 [0x47];
  buf ← write_at buf 1 [u8 (Z.shiftr pid 8)];
  buf ← write_at buf 2 [Z.land pid 0xff];
  Ret (p2ts <| p2_buf := buf |> <| p2_cc := 0 |>).

Section Callback.
(** The client's callback; a result other than 0 stops the conversion. *)
Variable cb : list Z -> Z.

(** The [while (len >= 184)] loop: the state, the packets handed over, the
    position and length left, and the callback's refusal if there was one. *)
Fixpoint pes2ts_loop (fuel : nat) (p2ts : dvb_filter_pes2ts) (pes : list Z) (o len : Z)
  : outcome (dvb_filter_pes2ts * list (list Z) * Z * Z * Z) :=
  if negb (len >=? 184) then Ret (p2ts, [], o, len, 0) else
  match fuel with
  | O => Hang
  | S fuel =>
    buf ← write_at (p2_buf p2ts) 3 [Z.lor 0x10 (Z.land (p2_cc p2ts) 0x0f)];
    let p2ts := p2ts <| p2_cc := u8 (p2_cc p2ts + 1) |> in
    buf ← memcpy buf 4 pes o 184;
    let ret := cb buf in
    if negb (ret =? 0) then Ret (p2ts <| p2_buf := buf |>, [buf], o, len, ret) else
    b1 ← load buf 1;
    buf' ← write_at buf 1 [Z.land b1 (u8 (Z.lnot 0x40))];
    '(p2ts, ps, o, len, ret) ←
      pes2ts_loop fuel (p2ts <| p2_buf := buf' |>) pes (o + 184) (len - 184);
    Ret (p2ts, buf :: ps, o, len, ret)
  end.

Definition dvb_filter_pes2ts_run (p2ts : dvb_filter_pes2ts) (pes : list Z) (len : Z)
  : outcome (dvb_filter_pes2ts * list (list Z) * Z) :=
  b1 ← load (p2_buf p2ts) 1;
  buf ← write_at (p2_buf p2ts) 1 [Z.lor b1 0x40];
  '(p2ts, ps, o, len, ret) ← pes2ts_loop (Z.to_nat len) (p2ts <| p2_buf := buf |>) pes 0 len;
  if negb (ret =? 0) then Ret (p2ts, ps, ret) else
  if len =? 0 then Ret (p2ts, ps, 0) else
  buf ← write_at (p2_buf p2ts) 3 [Z.lor 0x30 (Z.land (p2_cc p2ts) 0x0f)];
  let p2ts := p2ts <| p2_cc := u8 (p2_cc p2ts + 1) |> in
  let rest := 183 - len in
  buf ← (if negb (rest =? 0) then
           buf ← write_at buf 5 [0x00];
           if negb (rest - 1 =? 0) then write_at buf 6 (replicate (Z.to_nat (rest - 1)) 0xff) else Ret buf
         else Ret buf);
  buf ← write_at buf 4 [rest];
  buf ← memcpy buf (5 + rest) pes o len;
  Ret (p2ts <| p2_buf := buf |>, ps ++ [buf], cb buf).
End Callback.

(** ** [dvb_filter_get_ac3info] *)
Definition freq : list Z := [441; 480; 320; 0].
Definition ac3_bitrates : list Z :=
  [32; 40; 48; 56; 64; 80; 96; 112; 128; 160; 192; 224; 256; 320; 384; 448; 512; 576; 640;
   0; 0; 0; 0; 0; 0; 0; 0; 0; 0; 0; 0; 0].
Definition ac3_frames : list (list Z) :=
  [[64; 80; 96; 112; 128; 160; 192; 224; 256; 320; 384; 448; 512; 640; 768; 896; 1024;
    1152; 1280; 0; 0; 0; 0; 0; 0; 0; 0; 0; 0; 0; 0; 0];
   [69; 87; 104; 121; 139; 174; 208; 243; 278; 348; 417; 487; 557; 696; 835; 975; 1114;
    1253; 1393; 0; 0; 0; 0; 0; 0; 0; 0; 0; 0; 0; 0; 0];
   [96; 120; 144; 168; 192; 240; 288; 336; 384; 480; 576; 672; 768; 960; 1152; 1344;
    1536; 1728; 1920; 0; 0; 0; 0; 0; 0; 0; 0; 0; 0; 0; 0; 0]].

Record dvb_audio_info := mk_audio_info {
  layer : Z; bit_rate : Z; frequency : Z; framesize : Z; off : Z }.
#[export] Instance eta_audio_info : Eta dvb_audio_info := fun a =>
  mk_audio_info (layer a) (bit_rate a) (frequency a) (framesize a) (off a).

(** The search: the position of the first sync word, if it starts before [count]. *)
Fixpoint ac3_search (fuel : nat) (mbuf : list Z) (c count : Z) : outcome (option Z) :=
  if negb (c <? count) then Ret None else
  match fuel with
  | O => Hang
  | S fuel =>
    b0 ← load mbuf c;
    found ← (if b0 =? 0x0b then b1 ← load mbuf (c + 1); Ret (b1 =? 0x77) else Ret false);
    if (found : bool) then Ret (Some c) else ac3_search fuel mbuf (c + 1) count
  end.

Definition dvb_filter_get_ac3info (mbuf : list Z) (count : Z) (ai : dvb_audio_info)
  : outcome (dvb_audio_info * Z) :=
  found ← ac3_search (Z.to_nat count) mbuf 0 count;
  match found with
  | None => Ret (ai, -1)
  | Some c =>
    let ai := ai <| off := c |> in
    if c + 5 >=? count then Ret (ai, -1) else
    h ← load mbuf (c + 2 + 2);
    let frame := Z.land h 0x3f in
    rate ← load ac3_bitrates (Z.shiftr frame 1);
    let fr := Z.shiftr (Z.land h 0xc0) 6 in
    fq ← load freq fr;
    row ← (if fr <? 3 then Ret (nth (Z.to_nat fr) ac3_frames []) else Crash);
    size ← load row (Z.shiftr frame 1);
    let size := if flag frame 1 && (fr =? 1) then size + 1 else size in
    Ret (ai <| layer := 0 |> <| bit_rate := rate * 1000 |> <| frequency := fq * 100 |>
            <| framesize := Z.shiftl size 1 |>, 0)
  end.

(** ** The packets that come out *)

(** [ts_run pid pusi c ps d c']: transport packets [ps] of [pid] carry [d], with
    counters from [c] (counted modulo 256) up to [c']; a payload unit starts in
    the first one when [pusi], and in no other. *)
Inductive ts_run (pid : Z) : bool -> Z -> list (list Z) -> list Z -> Z -> Prop :=
  | ts_run_nil pusi c : ts_run pid pusi c [] [] c
  | ts_run_cons pusi c p ps d ds c' :
      zn p 0 = 0x47 -> ts_pid p = Ret pid -> carries p pusi (Z.land c 0x0f) d ->
      ts_run pid false (u8 (c + 1)) ps ds c' -> ts_run pid pusi c (p :: ps) (d ++ ds) c'.

Lemma lor_byte a b : is_byte a -> is_byte b -> is_byte (Z.lor a b).
Proof.
  unfold is_byte. intros Ha Hb.
  assert (E : Z.lor a b = Z.land (Z.lor a b) (Z.ones 8)).
  { rewrite Z.land_lor_distr_l, !Z.land_ones by lia. by rewrite !Z.mod_small by lia. }
  rewrite E. pose proof (land_bound (Z.lor a b) (Z.ones 8) ltac:(vm_compute; discriminate)) as H.
  change (Z.ones 8) with 255 in *. lia.
Qed.

Lemma land_byte a b : is_byte a -> is_byte (Z.land a b).
Proof.
  unfold is_byte. intros Ha. rewrite Z.land_comm. pose proof (land_bound b a ltac:(lia)). lia.
Qed.

(** The third byte of the header: [k] is 0x10 or 0x30. *)
Lemma counter_byte k c :
  k = 0x10 \/ k = 0x30 ->
  let x := Z.lor k (Z.land c 0x0f) in
  is_byte x /\ flag x 0x10 = true /\ flag x 0x20 = (k =? 0x30) /\ Z.land x 0x0f = Z.land c 0x0f.
Proof.
  intros Hk. cbv zeta. pose proof (land_bound c 0x0f ltac:(lia)) as Hb.
  set (y := Z.land c 15) in *.
  assert (H : In y (Z.of_nat <$> seq 0 16)).
  { apply in_map_iff. exists (Z.to_nat y). rewrite in_seq. lia. }
  clearbody y. cbn in H. destruct Hk as [-> | ->]; repeat destruct H as [<-|H]; try done; concrete.
Qed.

(** The buffer between two packets. *)
Record p2_ok (pid : Z) (pusi : bool) (p : dvb_filter_pes2ts) : Prop := {
  po_ok : packet_ok (p2_buf p);
  po_sync : zn (p2_buf p) 0 = 0x47;
  po_pid : ts_pid (p2_buf p) = Ret pid;
  po_pusi : flag (zn (p2_buf p) 1) 0x40 = pusi }.

Lemma ts_pid_same a b :
  packet_ok a -> packet_ok b -> Z.land (zn a 1) 0x1f = Z.land (zn b 1) 0x1f -> zn a 2 = zn b 2 ->
  ts_pid a = ts_pid b.
Proof. intros Ha Hb E1 E2. rewrite !ts_pid_ok by done. by rewrite E1, E2. Qed.

(** Setting and clearing the unit start flag keeps the PID. *)
Lemma set_pusi b : let x := Z.lor b 0x40 in flag x 0x40 = true /\ Z.land x 0x1f = Z.land b 0x1f.
Proof.
  cbv zeta. split.
  - unfold flag. rewrite Z.land_lor_distr_l. apply negb_true_iff, Z.eqb_neq.
    intros E. apply Z.lor_eq_0_iff in E as [_ E]. done.
  - rewrite Z.land_lor_distr_l. cbn. apply Z.lor_0_r.
Qed.

Lemma clear_pusi b : let x := Z.land b (u8 (Z.lnot 0x40)) in
  flag x 0x40 = false /\ Z.land x 0x1f = Z.land b 0x1f.
Proof.
  cbv zeta. change (u8 (Z.lnot 0x40)) with 0xbf. unfold flag. rewrite <- !Z.land_assoc.
  change (Z.land 0xbf 0x40) with 0. change (Z.land 0xbf 0x1f) with 0x1f. by rewrite Z.land_0_r.
Qed.

(** Changes of a packet behind its PID. *)
Lemma p2_blit pid pusi p o c :
  p2_ok pid pusi p -> 3 <= o -> o + zlen c <= 188 -> bytes c ->
  p2_ok pid pusi (p <| p2_buf := blit (p2_buf p) o c |>).
Proof.
  intros [[Hl Hb] Hs Hp Hf] Ho Hc Hbc. pose proof (zlen_nonneg c).
  assert (Hok : packet_ok (blit (p2_buf p) o c)) by (split; [zside|bytes]).
  assert (E : forall i, 0 <= i < 3 -> zn (blit (p2_buf p) o c) i = zn (p2_buf p) i)
    by (intros; apply zn_blit_out; lia).
  split; cbn [p2_buf set]; [done| | |].
  - by rewrite E by lia.
  - rewrite <- Hp. apply ts_pid_same; [done|by split| |]; by rewrite E by lia.
  - by rewrite E by lia.
Qed.

(** Changes of the flag. *)
Lemma p2_flag pid pusi pusi' p x :
  p2_ok pid pusi p -> is_byte x -> flag x 0x40 = pusi' ->
  Z.land x 0x1f = Z.land (zn (p2_buf p) 1) 0x1f ->
  p2_ok pid pusi' (p <| p2_buf := blit (p2_buf p) 1 [x] |>).
Proof.
  intros [[Hl Hb] Hs Hp Hf] Hx Hfx Ex.
  assert (Hok : packet_ok (blit (p2_buf p) 1 [x])) by (split; [zsimpl; lia|bytes]).
  assert (E1 : zn (blit (p2_buf p) 1 [x]) 1 = x).
  { rewrite zn_blit_in by (zsimpl; lia). done. }
  split; cbn [p2_buf set]; [done| | |].
  - by rewrite zn_blit_out by (zsimpl; lia).
  - rewrite <- Hp. apply ts_pid_same; [done|by split| |]; [by rewrite E1|].
    by rewrite zn_blit_out by (zsimpl; lia).
  - by rewrite E1.
Qed.

(** A packet with header byte [x] and a full payload. *)
Lemma full_packet pid pusi p d :
  p2_ok pid pusi p -> bytes d -> zlen d = 184 ->
  let q := blit (blit (p2_buf p) 3 [Z.lor 0x10 (Z.land (p2_cc p) 0x0f)]) 4 d in
  p2_ok pid pusi (p <| p2_buf := q |>) /\ carries q pusi (Z.land (p2_cc p) 0x0f) d.
Proof.
  intros Hp Hd Hz. cbv zeta. destruct (counter_byte 0x10 (p2_cc p) ltac:(by left)) as (X1 & X2 & X3 & X4).
  set (x := Z.lor 0x10 _) in *.
  pose proof (p2_blit pid pusi p 3 [x] Hp ltac:(lia) ltac:(zsimpl; lia) ltac:(bytes)) as Hp1.
  pose proof (p2_blit pid pusi _ 4 d Hp1 ltac:(lia) ltac:(lia) Hd) as Hp2. cbn [p2_buf set] in Hp2.
  split; [by destruct Hp2; split|].
  destruct Hp as [[Hl _] _ _ _]. destruct Hp2 as [Hok _ _ Hf]. cbn [p2_buf set] in Hok, Hf.
  assert (E3 : zn (blit (blit (p2_buf p) 3 [x]) 4 d) 3 = x).
  { rewrite zn_blit_out by zside. rewrite zn_blit_in by (zsimpl; lia). done. }
  split; try done.
  - unfold payload. rewrite (load_ok _ 3) by (destruct Hok as [-> _]; lia). cbn [mbind outcome_bind].
    rewrite E3, X2, X3. cbn. by rewrite Hz.
  - lia.
  - by rewrite E3.
  - rewrite Hz. change (188 - 184) with 4. rewrite <- Hz. apply sub_blit_eq; zside.
Qed.

Lemma ts_run_app pid pusi c ps d c' qs e c2 :
  ts_run pid pusi c ps d c' ->
  ts_run pid (match ps with [] => pusi | _ => false end) c' qs e c2 ->
  ts_run pid pusi c (ps ++ qs) (d ++ e) c2.
Proof.
  induction 1 as [|pusi c p ps d ds c' H1 H2 H3 _ IH]; intros Hq; [done|].
  rewrite <- app_assoc. cbn [app]. constructor; [done..|]. apply IH. by destruct ps.
Qed.

Section Accepting.
Context (cb : list Z -> Z) (pid : Z).
Hypothesis cb_accepts : forall q, cb q = 0.

Lemma pes2ts_loop_ok fuel pusi p pes o len :
  p2_ok pid pusi p -> bytes pes -> 0 <= o -> 0 <= len -> o + len <= zlen pes ->
  (Z.to_nat len <= fuel)%nat ->
  exists p' ps k, pes2ts_loop cb fuel p pes o len = Ret (p', ps, o + k, len - k, 0) /\
    0 <= k /\ 0 <= len - k < 184 /\ ts_run pid pusi (p2_cc p) ps (sub pes o k) (p2_cc p') /\
    p2_ok pid (match ps with [] => pusi | _ => false end) p'.
Proof.
  revert pusi p o len. induction fuel as [|fuel IH]; intros pusi p o len Hp Hb Ho Hn Hl Hf;
    cbn [pes2ts_loop]; (destruct (Z.geb_spec len 184); cbn [negb];
      [|exists p, [], 0; rewrite Z.add_0_r, Z.sub_0_r, sub_0; split; [done|];
        split; [lia|]; split; [lia|]; split; [constructor|done]]); [lia|].
  pose proof (full_packet pid pusi p (sub pes o 184) Hp (bytes_sub _ _ _ Hb) ltac:(zside)) as [Hq Hc].
  cbv zeta in Hq, Hc. set (q := blit (blit (p2_buf p) 3 _) 4 (sub pes o 184)) in *.
  pose proof Hp as [[Hz _] _ _ _]. pose proof Hq as [[Hzq Hbq] Hs Hpid Hfl]. cbn [p2_buf set] in *.
  rewrite write_at_ok by (zsimpl; lia). cbn [mbind outcome_bind p2_buf p2_cc set].
  rewrite memcpy_ok by zside. cbn [mbind outcome_bind]. fold q.
  rewrite cb_accepts. cbn [Z.eqb negb]. rewrite load_ok by lia. cbn [mbind outcome_bind].
  rewrite write_at_ok by (zsimpl; lia). cbn [mbind outcome_bind].
  destruct (clear_pusi (zn q 1)) as [C1 C2]. set (x := Z.land (zn q 1) _) in *.
  assert (Hx : is_byte x) by (apply land_byte, bytes_zn; done || lia).
  pose proof (p2_flag pid pusi false _ x Hq Hx C1 C2) as Hp'. cbn [p2_buf set] in Hp'.
  match goal with |- context [pes2ts_loop cb fuel ?y] => set (p1 := y) end.
  assert (Hp1 : p2_ok pid false p1) by (destruct Hp'; by split).
  destruct (IH false p1 (o + 184) (len - 184) Hp1 Hb) as (p' & ps & k & E & Hk & Hlk & Hr & Hok); [lia..|].
  exists p', (q :: ps), (184 + k). rewrite E. cbn [mbind outcome_bind].
  split; [do 3 f_equal; [f_equal|]; lia|]. split; [lia|]. split; [lia|].
  split; [|by destruct ps]. rewrite sub_split by lia.
  constructor; done.
Qed.

(** A last packet with [1 <= zlen d <= 183] bytes behind an adaptation field. *)
Lemma last_packet pusi p d :
  p2_ok pid pusi p -> bytes d -> 1 <= zlen d <= 183 ->
  let rest := 183 - zlen d in
  exists q,
    (buf ← write_at (p2_buf p) 3 [Z.lor 0x30 (Z.land (p2_cc p) 0x0f)];
     buf ← (if negb (rest =? 0) then
              buf ← write_at buf 5 [0x00];
              if negb (rest - 1 =? 0) then write_at buf 6 (replicate (Z.to_nat (rest - 1)) 0xff) else Ret buf
            else Ret buf);
     buf ← write_at buf 4 [rest];
     write_at buf (5 + rest) d) = Ret q /\
    p2_ok pid pusi (p <| p2_buf := q |>) /\ carries q pusi (Z.land (p2_cc p) 0x0f) d.
Proof.
  intros Hp Hd Hz rest. destruct (counter_byte 0x30 (p2_cc p) ltac:(by right)) as (X1 & X2 & X3 & X4).
  set (x := Z.lor 0x30 _) in *.
  pose proof (p2_blit pid pusi p 3 [x] Hp ltac:(lia) ltac:(zsimpl; lia) ltac:(bytes)) as Hp1.
  set (p1 := p <| p2_buf := _ |>) in Hp1. pose proof Hp as [[Hl _] _ _ _].
  rewrite write_at_ok by (zsimpl; lia). cbn [mbind outcome_bind].
  change (blit (p2_buf p) 3 [x]) with (p2_buf p1).
  assert (E3 : zn (p2_buf p1) 3 = x) by (cbn; rewrite zn_blit_in by (zsimpl; lia); done).
  clearbody p1. pose proof Hp1 as [[Hl1 _] _ _ _].
  set (m := if negb (rest =? 0) then _ else _).
  assert (Hm : exists p2, m = Ret (p2_buf p2) /\ p2_ok pid pusi p2 /\ zn (p2_buf p2) 3 = x).
  { unfold m. destruct (Z.eqb_spec rest 0); cbn [negb]; [by eauto|].
    rewrite write_at_ok by (zsimpl; lia). cbn [mbind outcome_bind].
    pose proof (p2_blit pid pusi p1 5 [0] Hp1 ltac:(lia) ltac:(zsimpl; lia) ltac:(bytes)) as Hp2.
    assert (E5 : zn (blit (p2_buf p1) 5 [0]) 3 = x) by (rewrite zn_blit_out by (zsimpl; lia); done).
    destruct (Z.eqb_spec (rest - 1) 0); cbn [negb];
      [by exists (p1 <| p2_buf := blit (p2_buf p1) 5 [0] |>)|].
    pose proof Hp2 as [[Hl2 _] _ _ _]. cbn [p2_buf set] in Hl2.
    rewrite write_at_ok by (zsimpl; lia).
    eexists. split; [|split; [apply (p2_blit _ _ _ 6 (replicate (Z.to_nat (rest - 1)) 0xff) Hp2)|]];
      [done|lia|zsimpl; lia|bytes|].
    cbn [p2_buf set]. rewrite zn_blit_out by (zsimpl; lia). done. }
  destruct Hm as (p2 & -> & Hp2 & E2). cbn [mbind outcome_bind]. pose proof Hp2 as [[Hl2 _] _ _ _].
  rewrite write_at_ok by (zsimpl; lia). cbn [mbind outcome_bind].
  pose proof (p2_blit pid pusi p2 4 [rest] Hp2 ltac:(lia) ltac:(zsimpl; lia) ltac:(bytes)) as Hp3.
  pose proof (p2_blit pid pusi _ (5 + rest) d Hp3 ltac:(lia) ltac:(lia) Hd) as Hp4.
  cbn [p2_buf set] in Hp4. rewrite write_at_ok by (zsimpl; lia). eexists. split; [done|].
  split; [by destruct Hp4; split|].
  destruct Hp4 as [Hok _ _ Hf]. cbn [p2_buf set] in Hok, Hf. pose proof Hok as [Hlq _].
  set (q := blit _ (5 + rest) d) in *.
  assert (Eq3 : zn q 3 = x) by (unfold q; rewrite !zn_blit_out by (zsimpl; lia); done).
  assert (Eq4 : zn q 4 = rest).
  { unfold q. rewrite zn_blit_out by (zsimpl; lia). by rewrite zn_blit_in by (zsimpl; lia). }
  split; try done.
  - unfold payload. rewrite (load_ok q 3), (load_ok q 4) by lia. cbn [mbind outcome_bind].
    rewrite Eq3, Eq4, X2, X3. cbn. destruct (Z.gtb_spec rest 183); [lia|]. f_equal. lia.
  - lia.
  - by rewrite Eq3.
  - replace (188 - zlen d) with (5 + rest) by lia. apply sub_blit_eq; zsimpl; lia.
Qed.

(** C8: a PES packet goes through [dvb_filter_pes2ts] unharmed: the transport
    packets handed to a callback that accepts them all are well formed, carry the
    packet's bytes in order and nothing else, have the converter's PID and
    consecutive continuity counters, and only the first one starts a unit. *)
Theorem pes2ts_carries pusi p pes len :
  p2_ok pid pusi p -> bytes pes -> 0 <= len <= zlen pes ->
  exists p' ps, dvb_filter_pes2ts_run cb p pes len = Ret (p', ps, 0) /\
    ts_run pid true (p2_cc p) ps (sub pes 0 len) (p2_cc p') /\ exists b, p2_ok pid b p'.
Proof.
  intros Hp Hb Hlen. unfold dvb_filter_pes2ts_run. pose proof Hp as [[Hl Hby] _ _ _].
  rewrite load_ok by lia. cbn [mbind outcome_bind]. rewrite write_at_ok by (zsimpl; lia).
  cbn [mbind outcome_bind]. destruct (set_pusi (zn (p2_buf p) 1)) as [S1 S2].
  assert (Hx : is_byte (Z.lor (zn (p2_buf p) 1) 0x40)).
  { apply lor_byte; [apply bytes_zn; done || lia|done]. }
  pose proof (p2_flag pid pusi true p _ Hp Hx S1 S2) as Hp0. set (p0 := p <| p2_buf := _ |>) in *.
  destruct (pes2ts_loop_ok (Z.to_nat len) true p0 pes 0 len Hp0 Hb) as (p1 & ps & k & E & Hk & Hlk & Hr & Hp1);
    [lia..|].
  rewrite E. cbn [mbind outcome_bind Z.eqb negb]. change (p2_cc p0) with (p2_cc p) in Hr.
  rewrite Z.add_0_l in *. destruct (Z.eqb_spec (len - k) 0) as [E0|E0].
  { exists p1, ps. split; [done|]. replace len with k by lia. split; [done|]. by eexists. }
  destruct (last_packet _ p1 (sub pes k (len - k)) Hp1 (bytes_sub _ _ _ Hb) ltac:(zside)) as (q & Eq & Hq & Hc).
  cbv zeta in Eq. rewrite zlen_sub in Eq by lia.
  assert (Em : forall b, memcpy b (5 + (183 - (len - k))) pes k (len - k) =
    write_at b (5 + (183 - (len - k))) (sub pes k (len - k))).
  { intros b. unfold memcpy. by rewrite read_at_ok by lia. }
  apply bind_ret_inv in Eq as (b3 & E3 & Eq). rewrite E3. cbn [mbind outcome_bind]. cbv zeta.
  apply bind_ret_inv in Eq as (b5 & E5 & Eq). rewrite E5. cbn [mbind outcome_bind].
  apply bind_ret_inv in Eq as (b4 & E4 & Eq). rewrite E4. cbn [mbind outcome_bind].
  rewrite Em, Eq. cbn [mbind outcome_bind]. eexists _, _. split; [by rewrite cb_accepts|].
  split; [|eexists; destruct Hq; by split].
  replace (sub pes 0 len) with (sub pes 0 k ++ sub pes k (len - k)).
  2: { rewrite <- (Z.add_0_l k) at 2. rewrite <- sub_split by lia. f_equal. lia. }
  apply ts_run_app with (p2_cc p1); [done|].
  rewrite <- (app_nil_r (sub pes k (len - k))). destruct Hq. constructor; [done..|constructor].
Qed.
End Accepting.

(** ** AC3 headers *)
Definition sync_at (mbuf : list Z) (c : Z) : bool := (zn mbuf c =? 0x0b) && (zn mbuf (c + 1) =? 0x77).

Lemma ac3_search_ok fuel mbuf i c count :
  0 <= i <= c -> c < count -> count < zlen mbuf -> sync_at mbuf c = true ->
  (forall j, i <= j < c -> sync_at mbuf j = false) -> (Z.to_nat (count - i) <= fuel)%nat ->
  ac3_search fuel mbuf i count = Ret (Some c).
Proof.
  revert i. induction fuel as [|fuel IH]; intros i Hi Hc Hz Hs Hno Hf; [lia|].
  cbn [ac3_search]. destruct (Z.ltb_spec i count); [|lia]. cbn [negb].
  rewrite (load_ok mbuf i) by lia. cbn [mbind outcome_bind].
  assert (E : (if zn mbuf i =? 0x0b then b1 ← load mbuf (i + 1); Ret (b1 =? 0x77) else Ret false) =
    Ret (sync_at mbuf i)).
  { unfold sync_at. destruct (zn mbuf i =? 0x0b); [|done]. by rewrite load_ok by lia. }
  rewrite E. cbn [mbind outcome_bind]. destruct (decide (i = c)) as [->|Hne]; [by rewrite Hs|].
  rewrite Hno by lia. apply IH; try done; try lia. intros j Hj. apply Hno. lia.
Qed.

Lemma ac3_fields h : is_byte h ->
  Z.shiftr (Z.land h 0xc0) 6 = h / 64 /\ Z.land h 0x3f = h mod 64 /\ 0 <= h / 64 < 4 /\
  0 <= Z.shiftr (Z.land h 0x3f) 1 < 32.
Proof.
  intros [H1 H2]. assert (E : Z.land h 0x3f = h mod 64) by (apply (land_mask h 6); lia).
  assert (0 <= h / 64 < 4) by (split; [apply Z.div_pos; lia|apply Z.div_lt_upper_bound; lia]).
  split; [|split; [done|split; [done|]]].
  - rewrite Z.shiftr_land. change (Z.shiftr 0xc0 6) with (Z.ones 2). rewrite land_mask by lia.
    rewrite Z.shiftr_div_pow2 by lia. change (2 ^ 6) with 64. change (2 ^ 2) with 4. by apply Z.mod_small.
  - rewrite E, Z.shiftr_div_pow2 by lia. pose proof (Z.mod_pos_bound h 64 ltac:(lia)).
    split; [apply Z.div_pos; lia|apply Z.div_lt_upper_bound; lia].
Qed.

(** C12: the first sync word decides: its offset, and bit rate, sampling frequency
    and frame size looked up by the two codes behind the checksum; the frequency
    comes from the table [freq] of MPEG audio (code 0 is 44.1 kHz, although the
    frame sizes of code 0 are those of 48 kHz), and the reserved code 3 reads
    past the end of the table of frame sizes. *)
Theorem ac3info_first_frame mbuf count c ai :
  bytes mbuf -> 0 <= c -> c + 5 < count -> count < zlen mbuf -> sync_at mbuf c = true ->
  (forall j, 0 <= j < c -> sync_at mbuf j = false) ->
  let fr := zn mbuf (c + 4) / 64 in
  let code := Z.shiftr (zn mbuf (c + 4) mod 64) 1 in
  let words := zn (nth (Z.to_nat fr) ac3_frames []) code +
    (if flag (zn mbuf (c + 4) mod 64) 1 && (fr =? 1) then 1 else 0) in
  dvb_filter_get_ac3info mbuf count ai =
    if fr <? 3 then
      Ret (mk_audio_info 0 (zn ac3_bitrates code * 1000) (zn freq fr * 100) (2 * words) c, 0)
    else Crash.
Proof.
  intros Hb Hc Hc5 Hz Hs Hno fr code words. unfold dvb_filter_get_ac3info.
  rewrite (ac3_search_ok _ mbuf 0 c count) by (done || lia). cbn [mbind outcome_bind].
  destruct (Z.geb_spec (c + 5) count); [lia|]. replace (c + 2 + 2) with (c + 4) by lia.
  rewrite (load_ok mbuf) by lia. cbn [mbind outcome_bind].
  pose proof (bytes_zn mbuf (c + 4) Hb ltac:(lia)) as Hh.
  destruct (ac3_fields _ Hh) as (E1 & E2 & Hfr & Hcode). rewrite E1, E2. rewrite E2 in Hcode.
  fold fr code. fold code in Hcode. fold fr in Hfr.
  rewrite (load_ok ac3_bitrates) by (change (zlen ac3_bitrates) with 32; lia). cbn [mbind outcome_bind].
  rewrite (load_ok freq) by (change (zlen freq) with 4; lia). cbn [mbind outcome_bind].
  destruct (Z.ltb_spec fr 3); [|done]. cbn [mbind outcome_bind].
  assert (Hrow : zlen (nth (Z.to_nat fr) ac3_frames []) = 32).
  { assert (H3 : fr = 0 \/ fr = 1 \/ fr = 2) by lia. by destruct H3 as [ -> |[ -> | -> ]]. }
  rewrite load_ok by lia. cbn [mbind outcome_bind]. unfold words.
  set (row := nth (Z.to_nat fr) ac3_frames []) in *. clearbody row.
  rewrite Z.shiftl_mul_pow2 by lia. destruct (flag _ 1 && _); unfold set; cbn; do 2 f_equal;
    (f_equal; [lia]) || (f_equal; lia).
Qed.

(** ** Witnesses *)
Definition fresh_p2 : dvb_filter_pes2ts := mk_pes2ts (0x47 :: 0 :: 0x45 :: replicate 185 0) 14.

Lemma fresh_p2_ok : p2_ok 0x45 false fresh_p2.
Proof. split; [split; [done|]|done|done|done]. unfold fresh_p2. cbn [p2_buf]. bytes. Qed.

Lemma pes2ts_carries_witness :
  exists p' ps, dvb_filter_pes2ts_run (fun _ => 0) fresh_p2 (replicate 400 9) 400 = Ret (p', ps, 0) /\
    ts_run 0x45 true 14 ps (sub (replicate 400 9) 0 400) (p2_cc p') /\ exists b, p2_ok 0x45 b p'.
Proof.
  apply (pes2ts_carries (fun _ => 0) 0x45 (fun _ => eq_refl) false fresh_p2 (replicate 400 9) 400).
  - apply fresh_p2_ok.
  - bytes.
  - done.
Defined.

Lemma ac3info_first_frame_witness :
  dvb_filter_get_ac3info [1; 0x0b; 0x77; 7; 7; 0x15; 9; 9; 9] 8 (mk_audio_info 9 9 9 9 9) =
    Ret (mk_audio_info 0 192000 44100 768 1, 0).
Proof.
  rewrite (ac3info_first_frame [1; 0x0b; 0x77; 7; 7; 0x15; 9; 9; 9] 8 1); try done.
  - bytes.
  - intros j Hj. assert (j = 0) as -> by lia. done.
Defined.
