(* ===== verification/Dmxdev.v ===== *)
(** * The demultiplexer device

    Models driver/dvb/drivers/media/dvb/dvb-core/dmxdev.c from line 159: the
    callbacks that store sections and packets, the life of a filter of the
    device (set, start, stop, reset, free), reading sections, the ioctls, poll,
    and the DVR device.  The demultiplexer behind it is the one of [DemuxApi],
    whose functions its operation table holds; the buffers are those of
    [DmxBuffer].

    [sig]: is a signal pending whenever a call would have to wait?  Spin locks,
    wake-ups and printing are not modelled; the kernel timer of a section filter
    is its expiry time. *)
From S2P Require Import Prelude CircBuf DmxBuffer DemuxTypes SwFilter DemuxApi.

Definition DVR_BUFFER_SIZE : Z := 10 * 188 * 1024.
Definition DMX_FILTER_SIZE : Z := 16.
Definition DMX_CHECK_CRC : Z := 1.
Definition DMX_ONESHOT : Z := 2.
Definition DMX_IMMEDIATE_START : Z := 4.
Definition DMX_PES_OTHER : Z := 20.
Definition DMXDEV_CAP_DUPLEX : Z := 1.

Inductive dmxdevype : Type := DMXDEV_TYPE_NONE | DMXDEV_TYPE_SEC | DMXDEV_TYPE_PES.
Inductive dmxdev_state : Type :=
  | DMXDEV_STATE_FREE | DMXDEV_STATE_ALLOCATED | DMXDEV_STATE_SET | DMXDEV_STATE_GO
  | DMXDEV_STATE_DONE | DMXDEV_STATE_TIMEDOUT.
Inductive dmx_output : Type := DMX_OUT_DECODER | DMX_OUT_TAP | DMX_OUT_TS_TAP.
#[export] Instance dmxdevype_eq_dec : EqDecision dmxdevype.
Proof. solve_decision. Defined.
#[export] Instance dmxdev_state_eq_dec : EqDecision dmxdev_state.
Proof. solve_decision. Defined.
#[export] Instance dmx_output_eq_dec : EqDecision dmx_output.
Proof. solve_decision. Defined.

Definition dstate_num (s : dmxdev_state) : Z :=
  match s with
  | DMXDEV_STATE_FREE => 0 | DMXDEV_STATE_ALLOCATED => 1 | DMXDEV_STATE_SET => 2
  | DMXDEV_STATE_GO => 3 | DMXDEV_STATE_DONE => 4 | DMXDEV_STATE_TIMEDOUT => 5
  end.

(** [struct dmx_sct_filter_params] with its [dmx_filter_t]. *)
Record dmx_sct_filter_params := mk_sct {
  s_pid : Z; s_filter : list Z; s_mask : list Z; s_mode : list Z; s_timeout : Z; s_flags : Z }.
#[export] Instance eta_sct : Eta dmx_sct_filter_params := fun p =>
  mk_sct (s_pid p) (s_filter p) (s_mask p) (s_mode p) (s_timeout p) (s_flags p).
(** [struct dmx_pes_filter_params]. *)
Record dmx_pes_filter_params := mk_pes { p_pid : Z; p_output : dmx_output; p_pes_type : Z; p_flags : Z }.

(** [struct dmxdev_filter].  The members of the union [params] are kept apart:
    [type] says which one was written last, and the code reads no other.  The
    two feed pointers of the union [feed] are one index. *)
Record dmxdev_filter := mk_dfilter {
  d_sec : option nat;
  d_feed : option nat;
  d_sct : dmx_sct_filter_params;
  d_pes : dmx_pes_filter_params;
  d_type : dmxdevype;
  d_state : dmxdev_state;
  d_buffer : dmxdev_buffer;
  d_mutex : Z;
  d_timer : option Z;
  d_todo : Z;
  d_secheader : list Z;
  d_pid : Z }.
#[export] Instance eta_dfilter : Eta dmxdev_filter := fun f =>
  mk_dfilter (d_sec f) (d_feed f) (d_sct f) (d_pes f) (d_type f) (d_state f) (d_buffer f)
    (d_mutex f) (d_timer f) (d_todo f) (d_secheader f) (d_pid f).

(** [struct dmxdev_dvr]. *)
Record dmxdev_dvr := mk_dvr { r_state : dmxdev_state; r_buffer : dmxdev_buffer }.
#[export] Instance eta_dvr : Eta dmxdev_dvr := fun r => mk_dvr (r_state r) (r_buffer r).

(** [struct dmxdev]; [None] for an array that is a null pointer. *)
Record dmxdev := mk_dmxdev {
  x_filter : option (list dmxdev_filter);
  x_dvr : option (list dmxdev_dvr);
  x_demux : dvb_demux;
  x_filternum : Z;
  x_capabilities : Z;
  x_dvr_orig_fe : option Z;
  x_dvr_buffer : dmxdev_buffer;
  x_mutex : Z }.
#[export] Instance eta_dmxdev : Eta dmxdev := fun x =>
  mk_dmxdev (x_filter x) (x_dvr x) (x_demux x) (x_filternum x) (x_capabilities x)
    (x_dvr_orig_fe x) (x_dvr_buffer x) (x_mutex x).

(** The filter a pointer points at, and storing through it. *)
Definition flt (x : dmxdev) (i : nat) : outcome dmxdev_filter := deref (default [] (x_filter x)) i.
Definition put (x : dmxdev) (i : nat) (f : dmxdev_filter) : dmxdev :=
  x <| x_filter := fmap (fun l => <[i := f]> l) (x_filter x) |>.
Definition set_buffer (x : dmxdev) (i : nat) (f : dmxdev_filter) (b : dmxdev_buffer) : dmxdev :=
  put x i (f <| d_buffer := b |>).

(** A call of one of the demultiplexer's operations. *)
Definition on_demux (x : dmxdev) (m : outcome (dvb_demux * Z)) : outcome (dmxdev * Z) :=
  '(d, r) ← m; Ret (x <| x_demux := d |>, r).

Definition x_down (x : dmxdev) (sig : bool) : outcome (dmxdev * bool) :=
  if x_mutex x >? 0 then Ret (x <| x_mutex := x_mutex x - 1 |>, false)
  else if sig then Ret (x, true) else Hang.
Definition x_up (x : dmxdev) : dmxdev := x <| x_mutex := x_mutex x + 1 |>.
Definition f_down (x : dmxdev) (i : nat) (sig : bool) : outcome (dmxdev * bool) :=
  f ← flt x i;
  if d_mutex f >? 0 then Ret (put x i (f <| d_mutex := d_mutex f - 1 |>), false)
  else if sig then Ret (x, true) else Hang.
Definition f_up (x : dmxdev) (i : nat) : outcome dmxdev :=
  f ← flt x i; Ret (put x i (f <| d_mutex := d_mutex f + 1 |>)).

(** ** The callbacks *)
Definition overflow (b : dmxdev_buffer) : dmxdev_buffer := b <| pwrite := pread b |> <| error := - EOVERFLOW |>.

(** Both parts of a section or packet, and what becomes of a buffer that cannot
    take them. *)
Definition store_parts (b : dmxdev_buffer) (buffer1 buffer2 : list Z) : outcome dmxdev_buffer :=
  '(b, ret) ← dvb_dmxdev_buffer_write b buffer1 (zlen buffer1);
  '(b, ret) ← (if ret =? zlen buffer1 then dvb_dmxdev_buffer_write b buffer2 (zlen buffer2)
               else Ret (b, ret));
  Ret (if ret <? 0 then overflow b else b).

(** [i]: the device filter in the section filter's [priv]. *)
Definition dvb_dmxdev_section_callback (x : dmxdev) (i : nat) (buffer1 buffer2 : list Z) : outcome (dmxdev * Z) :=
  f ← flt x i;
  if negb (error (d_buffer f) =? 0) then Ret (x, 0) else
  if negb (bool_decide (d_state f = DMXDEV_STATE_GO)) then Ret (x, 0) else
  let f := f <| d_timer := None |> in
  b ← store_parts (d_buffer f) buffer1 buffer2;
  let f := f <| d_buffer := b |> in
  let f := if flag (s_flags (d_sct f)) DMX_ONESHOT then f <| d_state := DMXDEV_STATE_DONE |> else f in
  Ret (put x i f, 0).

Definition dvb_dmxdev_ts_callback (x : dmxdev) (i : nat) (buffer1 buffer2 : list Z) : outcome (dmxdev * Z) :=
  f ← flt x i;
  if bool_decide (p_output (d_pes f) = DMX_OUT_DECODER) then Ret (x, 0) else
  let tap := bool_decide (p_output (d_pes f) = DMX_OUT_TAP) in
  let buffer := if tap then d_buffer f else x_dvr_buffer x in
  if negb (error buffer =? 0) then Ret (x, 0) else
  b ← store_parts buffer buffer1 buffer2;
  Ret (if tap then set_buffer x i f b else x <| x_dvr_buffer := b |>, 0).

Definition dvb_dmxdev_filter_timeout (x : dmxdev) (i : nat) : outcome dmxdev :=
  f ← flt x i;
  Ret (put x i (f <| d_buffer := (d_buffer f) <| error := - ETIMEDOUT |> |>
                  <| d_state := DMXDEV_STATE_TIMEDOUT |>)).

Section Device.
Variable start_feed : option (nat -> dvb_demux -> Z).
Variable stop_feed : option (nat -> dvb_demux -> Z).
Variable sig : bool.
(** The kernel's [vmalloc], clock and tick rate. *)
Variable vmalloc : Z -> option (list Z).
Variable jiffies : Z.
Variable HZ : Z.

Definition dvb_dmxdev_filter_timer (f : dmxdev_filter) : dmxdev_filter :=
  let para := d_sct f in
  let f := f <| d_timer := None |> in
  if negb (s_timeout para =? 0) then
    f <| d_timer := Some (u32 (jiffies + 1 + u32 (HZ / 2 + u32 (HZ * s_timeout para)) / 1000)) |>
  else f.

Definition dvb_dmxdev_filter_state_set (x : dmxdev) (i : nat) (s : dmxdev_state) : outcome dmxdev :=
  f ← flt x i; Ret (put x i (f <| d_state := s |>)).

Definition dvb_dmxdev_set_buffer_size (x : dmxdev) (i : nat) (sz : Z) : outcome (dmxdev * Z) :=
  f ← flt x i;
  let buf := d_buffer f in
  if size buf =? sz then Ret (x, 0) else
  if dstate_num (d_state f) >=? dstate_num DMXDEV_STATE_GO then Ret (x, - EBUSY) else
  let buf := buf <| data := None |> <| size := sz |> <| pwrite := 0 |> <| pread := 0 |> in
  if negb (sz =? 0) then
    match vmalloc sz with
    | None => Ret (set_buffer x i f buf, - ENOMEM)
    | Some mem => Ret (set_buffer x i f (buf <| data := Some mem |>), 0)
    end
  else Ret (set_buffer x i f buf, 0).

(** ** Starting and stopping *)
Definition sec_feed_of (f : dmxdev_filter) : outcome nat :=
  match d_feed f with Some k => Ret k | None => Crash end.

Definition dvb_dmxdev_feed_stop (x : dmxdev) (i : nat) : outcome (dmxdev * Z) :=
  x ← dvb_dmxdev_filter_state_set x i DMXDEV_STATE_SET;
  f ← flt x i;
  match d_type f with
  | DMXDEV_TYPE_SEC =>
    let x := put x i (f <| d_timer := None |>) in
    k ← sec_feed_of f;
    '(x, _) ← on_demux x (dmx_section_feed_stop_filtering stop_feed (x_demux x) k sig);
    Ret (x, 0)
  | DMXDEV_TYPE_PES =>
    k ← sec_feed_of f;
    '(x, _) ← on_demux x (dmx_ts_feed_stop_filtering stop_feed (x_demux x) k sig);
    Ret (x, 0)
  | DMXDEV_TYPE_NONE => Ret (x, - EINVAL)
  end.

Definition dvb_dmxdev_feed_start (x : dmxdev) (i : nat) : outcome (dmxdev * Z) :=
  x ← dvb_dmxdev_filter_state_set x i DMXDEV_STATE_GO;
  f ← flt x i;
  match d_type f with
  | DMXDEV_TYPE_SEC =>
    k ← sec_feed_of f; on_demux x (dmx_section_feed_start_filtering start_feed (x_demux x) k sig)
  | DMXDEV_TYPE_PES =>
    k ← sec_feed_of f; on_demux x (dmx_ts_feed_start_filtering start_feed (x_demux x) k sig)
  | DMXDEV_TYPE_NONE => Ret (x, - EINVAL)
  end.

(** Is this filter one of a running section feed on [pid]? *)
Definition active_on (f : dmxdev_filter) (pid : Z) : bool :=
  (dstate_num (d_state f) >=? dstate_num DMXDEV_STATE_GO) && bool_decide (d_type f = DMXDEV_TYPE_SEC)
  && (d_pid f =? pid).

(** The first such filter among [n] from index [j]. *)
Fixpoint find_active (n : nat) (j : nat) (x : dmxdev) (pid : Z) : outcome (option nat) :=
  match n with
  | O => Ret None
  | S n => f ← flt x j; if active_on f pid then Ret (Some j) else find_active n (S j) x pid
  end.

Definition dvb_dmxdev_feed_restart (x : dmxdev) (i : nat) : outcome (dmxdev * Z) :=
  f ← flt x i;
  j ← find_active (Z.to_nat (x_filternum x)) 0 x (s_pid (d_sct f));
  match j with
  | Some j => '(x, _) ← dvb_dmxdev_feed_start x j; Ret (x, 0)
  | None =>
    k ← sec_feed_of f;
    '(x, _) ← on_demux x (dvbdmx_release_section_feed (x_demux x) k sig);
    Ret (x, 0)
  end.

Definition dvb_dmxdev_filter_stop (x : dmxdev) (i : nat) : outcome (dmxdev * Z) :=
  f ← flt x i;
  if dstate_num (d_state f) <? dstate_num DMXDEV_STATE_GO then Ret (x, 0) else
  r ← match d_type f with
      | DMXDEV_TYPE_SEC =>
        match d_feed f with
        | None => Ret (x, None)
        | Some k =>
          '(x, _) ← dvb_dmxdev_feed_stop x i;
          f ← flt x i;
          x ← match d_sec f with
              | Some s =>
                '(x, _) ← on_demux x (dmx_section_feed_release_filter stop_feed (x_demux x) k s sig sig);
                Ret x
              | None => Ret x
              end;
          '(x, _) ← dvb_dmxdev_feed_restart x i;
          f ← flt x i;
          Ret (put x i (f <| d_feed := None |>), None)
        end
      | DMXDEV_TYPE_PES =>
        match d_feed f with
        | None => Ret (x, None)
        | Some k =>
          '(x, _) ← dvb_dmxdev_feed_stop x i;
          '(x, _) ← on_demux x (dvbdmx_release_ts_feed (x_demux x) k sig);
          f ← flt x i;
          Ret (put x i (f <| d_feed := None |>), None)
        end
      | DMXDEV_TYPE_NONE =>
        if bool_decide (d_state f = DMXDEV_STATE_ALLOCATED) then Ret (x, Some 0)
        else Ret (x, Some (- EINVAL))
      end;
  let '(x, early) := r in
  match early with
  | Some ret => Ret (x, ret)
  | None =>
    f ← flt x i;
    Ret (set_buffer x i f ((d_buffer f) <| pwrite := 0 |> <| pread := 0 |>), 0)
  end.

Definition dvb_dmxdev_filter_reset (x : dmxdev) (i : nat) : outcome (dmxdev * Z) :=
  f ← flt x i;
  if dstate_num (d_state f) <? dstate_num DMXDEV_STATE_SET then Ret (x, 0) else
  let x := put x i (f <| d_type := DMXDEV_TYPE_NONE |> <| d_pid := 0xffff |>) in
  x ← dvb_dmxdev_filter_state_set x i DMXDEV_STATE_ALLOCATED;
  Ret (x, 0).

(** The section filter that a user's filter asks for: bytes 1 and 2 of a
    section hold its length and are skipped. *)
Definition program_filter (g : dvb_demux_filter) (para : dmx_sct_filter_params) : outcome dvb_demux_filter :=
  v ← memcpy (filter_value g) 3 (s_filter para) 1 (DMX_FILTER_SIZE - 1);
  m ← memcpy (filter_mask g) 3 (s_mask para) 1 (DMX_FILTER_SIZE - 1);
  o ← memcpy (filter_mode g) 3 (s_mode para) 1 (DMX_FILTER_SIZE - 1);
  b ← load (s_filter para) 0; v ← write_at v 0 [b];
  b ← load (s_mask para) 0; m ← write_at m 0 [b];
  b ← load (s_mode para) 0; o ← write_at o 0 [b];
  m ← write_at m 1 [0];
  m ← write_at m 2 [0];
  Ret (g <| filter_value := v |> <| filter_mask := m |> <| filter_mode := o |>).

(** [buffer.data], allocated at the first start. *)
Definition ensure_buffer (f : dmxdev_filter) : dmxdev_filter * bool :=
  match data (d_buffer f) with
  | Some _ => (f, true)
  | None =>
    let mem := vmalloc (size (d_buffer f)) in
    (f <| d_buffer := (d_buffer f) <| data := mem |> |>, bool_decide (mem <> None))
  end.

Definition start_section (x : dmxdev) (i : nat) : outcome (dmxdev * Z) :=
  f ← flt x i;
  let para := d_sct f in
  let x := put x i (f <| d_sec := None |> <| d_feed := None |>) in
  j ← find_active (Z.to_nat (x_filternum x)) 0 x (s_pid para);
  secfeed ← match j with Some j => g ← flt x j; Ret (d_feed g) | None => Ret None end;
  r ← match secfeed with
      | None =>
        '(k, d, ret) ← dvbdmx_allocate_section_feed (x_demux x) sig;
        f ← flt x i;
        let x := put (x <| x_demux := d |>) i (f <| d_feed := k |>) in
        if ret <? 0 then Ret (x, Some ret) else
        k ← match k with Some k => Ret k | None => Crash end;
        '(x, ret) ← on_demux x (dmx_section_feed_set (x_demux x) k (s_pid para) 32768 0
                      (if flag (s_flags para) DMX_CHECK_CRC then 1 else 0) sig);
        if ret <? 0 then '(x, _) ← dvb_dmxdev_feed_restart x i; Ret (x, Some ret) else Ret (x, None)
      | Some k =>
        let x := put x i (f <| d_sec := None |> <| d_feed := Some k |>) in
        '(x, _) ← dvb_dmxdev_feed_stop x i; Ret (x, None)
      end;
  let '(x, early) := r in
  match early with Some ret => Ret (x, ret) | None =>
  f ← flt x i;
  k ← sec_feed_of f;
  '(sf, d, ret) ← dmx_section_feed_allocate_filter (x_demux x) k sig;
  let x := put (x <| x_demux := d |>) i (f <| d_sec := sf |>) in
  if ret <? 0 then
    '(x, _) ← dvb_dmxdev_feed_restart x i;
    f ← flt x i;
    k ← sec_feed_of f;
    '(x, _) ← on_demux x (dmx_section_feed_start_filtering start_feed (x_demux x) k sig);
    Ret (x, ret)
  else
  s ← match sf with Some s => Ret s | None => Crash end;
  g ← deref (filters (x_demux x)) s;
  g ← program_filter (g <| f_priv := Some i |>) para;
  let x := x <| x_demux := put_filter (x_demux x) s g |> in
  f ← flt x i;
  let x := put x i (f <| d_todo := 0 |>) in
  '(x, ret) ← on_demux x (dmx_section_feed_start_filtering start_feed (x_demux x) k sig);
  if ret <? 0 then Ret (x, ret) else
  f ← flt x i;
  Ret (put x i (dvb_dmxdev_filter_timer f), 0)
  end.

Definition start_pes (x : dmxdev) (i : nat) : outcome (dmxdev * Z) :=
  f ← flt x i;
  let para := d_pes f in
  let x := put x i (f <| d_feed := None |>) in
  let ts_type := if p_pes_type para <? DMX_PES_OTHER then TS_DECODER else 0 in
  let ts_type := if bool_decide (p_output para = DMX_OUT_TS_TAP) then Z.lor ts_type TS_PACKET else ts_type in
  let ts_type := if bool_decide (p_output para = DMX_OUT_TAP)
                 then Z.lor ts_type (Z.lor TS_PAYLOAD_ONLY TS_PACKET) else ts_type in
  '(k, d, ret) ← dvbdmx_allocate_ts_feed (x_demux x) sig;
  f ← flt x i;
  let x := put (x <| x_demux := d |>) i (f <| d_feed := k |>) in
  if ret <? 0 then Ret (x, ret) else
  k ← match k with Some k => Ret k | None => Crash end;
  feed ← deref (feeds (x_demux x)) k;
  let x := x <| x_demux := put_feed (x_demux x) k (feed <| priv := Some i |>) |> in
  '(x, ret) ← on_demux x (dmx_ts_feed_set (x_demux x) k (p_pid para) ts_type (p_pes_type para)
                188 32768 0 sig);
  if ret <? 0 then
    '(x, _) ← on_demux x (dvbdmx_release_ts_feed (x_demux x) k sig); Ret (x, ret)
  else
  '(x, ret) ← on_demux x (dmx_ts_feed_start_filtering start_feed (x_demux x) k sig);
  Ret (x, if ret <? 0 then ret else 0).

Definition dvb_dmxdev_filter_start (x : dmxdev) (i : nat) : outcome (dmxdev * Z) :=
  f ← flt x i;
  if dstate_num (d_state f) <? dstate_num DMXDEV_STATE_SET then Ret (x, - EINVAL) else
  x ← (if dstate_num (d_state f) >=? dstate_num DMXDEV_STATE_GO
       then '(x, _) ← dvb_dmxdev_filter_stop x i; Ret x else Ret x);
  f ← flt x i;
  let '(f, ok) := ensure_buffer f in
  if negb ok then Ret (put x i f, - ENOMEM) else
  let x := set_buffer x i f ((d_buffer f) <| pwrite := 0 |> <| pread := 0 |>) in
  '(x, ret) ← match d_type f with
              | DMXDEV_TYPE_SEC => start_section x i
              | DMXDEV_TYPE_PES => start_pes x i
              | DMXDEV_TYPE_NONE => Ret (x, - EINVAL)
              end;
  if ret <? 0 then Ret (x, ret) else
  x ← dvb_dmxdev_filter_state_set x i DMXDEV_STATE_GO;
  Ret (x, 0).

(** ** Opening, freeing and setting a filter *)
Fixpoint find_free (n : nat) (j : nat) (x : dmxdev) : outcome (option nat) :=
  match n with
  | O => Ret None
  | S n => f ← flt x j; if bool_decide (d_state f = DMXDEV_STATE_FREE) then Ret (Some j) else find_free n (S j) x
  end.

(** The filter that becomes the file's [private_data]. *)
Definition dvb_demux_open (x : dmxdev) : outcome (option nat * dmxdev * Z) :=
  match x_filter x with
  | None => Ret (None, x, - EINVAL)
  | Some _ =>
    '(x, interrupted) ← x_down x sig;
    if (interrupted : bool) then Ret (None, x, - ERESTARTSYS) else
    i ← find_free (Z.to_nat (x_filternum x)) 0 x;
    match i with
    | None => Ret (None, x_up x, - EMFILE)
    | Some i =>
      f ← flt x i;
      let f := f <| d_mutex := 1 |> <| d_buffer := dvb_dmxdev_buffer_init (d_buffer f) |>
                 <| d_type := DMXDEV_TYPE_NONE |> in
      x ← dvb_dmxdev_filter_state_set (put x i f) i DMXDEV_STATE_ALLOCATED;
      f ← flt x i;
      Ret (Some i, x_up (put x i (f <| d_feed := None |> <| d_timer := None |>)), 0)
    end
  end.

Definition dvb_dmxdev_filter_free (x : dmxdev) (i : nat) : outcome (dmxdev * Z) :=
  '(x, interrupted) ← x_down x sig;
  if (interrupted : bool) then Ret (x, - ERESTARTSYS) else
  '(x, interrupted) ← f_down x i sig;
  if (interrupted : bool) then Ret (x_up x, - ERESTARTSYS) else
  '(x, _) ← dvb_dmxdev_filter_stop x i;
  '(x, _) ← dvb_dmxdev_filter_reset x i;
  f ← flt x i;
  let x := set_buffer x i f ((d_buffer f) <| data := None |>) in
  x ← dvb_dmxdev_filter_state_set x i DMXDEV_STATE_FREE;
  x ← f_up x i;
  Ret (x_up x, 0).

Definition invert_mode (para : dmx_sct_filter_params) : dmx_sct_filter_params :=
  para <| s_mode := (fun b => Z.lxor b 0xff) <$> s_mode para |>.

Definition dvb_dmxdev_filter_set (x : dmxdev) (i : nat) (params : dmx_sct_filter_params) : outcome (dmxdev * Z) :=
  '(x, _) ← dvb_dmxdev_filter_stop x i;
  f ← flt x i;
  let x := put x i (f <| d_type := DMXDEV_TYPE_SEC |> <| d_pid := s_pid params |>
                      <| d_sct := invert_mode params |>) in
  x ← dvb_dmxdev_filter_state_set x i DMXDEV_STATE_SET;
  if flag (s_flags params) DMX_IMMEDIATE_START then dvb_dmxdev_filter_start x i else Ret (x, 0).

Definition dvb_dmxdev_pes_filter_set (x : dmxdev) (i : nat) (params : dmx_pes_filter_params) : outcome (dmxdev * Z) :=
  '(x, _) ← dvb_dmxdev_filter_stop x i;
  if (p_pes_type params >? DMX_PES_OTHER) || (p_pes_type params <? 0) then Ret (x, - EINVAL) else
  f ← flt x i;
  let x := put x i (f <| d_type := DMXDEV_TYPE_PES |> <| d_pid := p_pid params |> <| d_pes := params |>) in
  x ← dvb_dmxdev_filter_state_set x i DMXDEV_STATE_SET;
  if flag (p_flags params) DMX_IMMEDIATE_START then dvb_dmxdev_filter_start x i else Ret (x, 0).

(** ** Reading *)
Section Reading.
Variable user_fault : Z -> Z -> bool.
Variable wait : dmxdev_buffer -> option dmxdev_buffer.
(** Does [copy_from_user] of the section header fault? *)
Variable header_fault : bool.

(** The read goes to offset [off] of the user's buffer. *)
Definition buffer_read_at (b : dmxdev_buffer) (nb : bool) (buf : list Z) (off count : Z)
  : outcome (dmxdev_buffer * list Z * Z) :=
  '(b, rest, r) ← dvb_dmxdev_buffer_read user_fault wait b nb (zdrop off buf) count;
  Ret (b, ztake off buf ++ rest, r).

Definition read_rest (f : dmxdev_filter) (nb : bool) (buf : list Z) (off count done : Z)
  : outcome (dmxdev_filter * list Z * Z) :=
  let count := if count >? d_todo f then d_todo f else count in
  '(b, buf, result) ← buffer_read_at (d_buffer f) nb buf off count;
  let f := f <| d_buffer := b |> in
  if result <? 0 then Ret (f, buf, result)
  else Ret (f <| d_todo := d_todo f - result |>, buf, result + done).

Definition dvb_dmxdev_read_sec (f : dmxdev_filter) (nb : bool) (buf : list Z) (count : Z)
  : outcome (dmxdev_filter * list Z * Z) :=
  if d_todo f <=? 0 then
    let hcount := 3 + d_todo f in
    let hcount := if hcount >? count then count else hcount in
    '(b, buf, result) ← buffer_read_at (d_buffer f) nb buf 0 hcount;
    let f := f <| d_buffer := b |> in
    if result <? 0 then Ret (f <| d_todo := 0 |>, buf, result) else
    if header_fault then Ret (f, buf, - EFAULT) else
    h ← memcpy (d_secheader f) (- d_todo f) buf 0 result;
    let f := f <| d_secheader := h |> <| d_todo := d_todo f - result |> in
    let count := count - result in
    if d_todo f >? -3 then Ret (f, buf, result) else
    h1 ← load h 1; h2 ← load h 2;
    let f := f <| d_todo := Z.land (Z.lor (Z.shiftl h1 8) h2) 0xfff |> in
    if count =? 0 then Ret (f, buf, result) else read_rest f nb buf result count result
  else read_rest f nb buf 0 count 0.

Definition dvb_demux_read (x : dmxdev) (i : nat) (nb : bool) (buf : list Z) (count : Z)
  : outcome (dmxdev * list Z * Z) :=
  '(x, interrupted) ← f_down x i sig;
  if (interrupted : bool) then Ret (x, buf, - ERESTARTSYS) else
  f ← flt x i;
  '(f, buf, ret) ← (if bool_decide (d_type f = DMXDEV_TYPE_SEC) then dvb_dmxdev_read_sec f nb buf count
                    else '(b, buf, r) ← dvb_dmxdev_buffer_read user_fault wait (d_buffer f) nb buf count;
                         Ret (f <| d_buffer := b |>, buf, r));
  x ← f_up (put x i f) i;
  Ret (x, buf, ret).

Definition dvb_dvr_read (x : dmxdev) (nb : bool) (buf : list Z) (count : Z) : outcome (dmxdev * list Z * Z) :=
  '(b, buf, r) ← dvb_dmxdev_buffer_read user_fault wait (x_dvr_buffer x) nb buf count;
  Ret (x <| x_dvr_buffer := b |>, buf, r).
End Reading.

(** ** The calls on the device's files *)
Inductive ioctl_cmd : Type :=
  | DMX_START | DMX_STOP
  | DMX_SET_FILTER (p : dmx_sct_filter_params)
  | DMX_SET_PES_FILTER (p : dmx_pes_filter_params)
  | DMX_SET_BUFFER_SIZE (arg : Z)
  | DMX_GET_EVENT
  | DMX_GET_PES_PIDS
  | DMX_GET_STC
  | DMX_OTHER.

(** The calls that also take the filter's mutex. *)
Definition filter_ioctl (x : dmxdev) (i : nat) (cmd : ioctl_cmd) : option (outcome (dmxdev * Z)) :=
  match cmd with
  | DMX_START => Some (
      f ← flt x i;
      if dstate_num (d_state f) <? dstate_num DMXDEV_STATE_SET then Ret (x, - EINVAL)
      else dvb_dmxdev_filter_start x i)
  | DMX_STOP => Some (dvb_dmxdev_filter_stop x i)
  | DMX_SET_FILTER p => Some (dvb_dmxdev_filter_set x i p)
  | DMX_SET_PES_FILTER p => Some (dvb_dmxdev_pes_filter_set x i p)
  | DMX_SET_BUFFER_SIZE arg => Some (dvb_dmxdev_set_buffer_size x i arg)
  | _ => None
  end.

(** The demultiplexer's [get_stc], if there is one; [out] is the argument of
    the calls that return data. *)
Variable get_stc : option (list Z -> list Z * Z).

Definition dvb_demux_do_ioctl (x : dmxdev) (i : nat) (cmd : ioctl_cmd) (out : list Z)
  : outcome (dmxdev * list Z * Z) :=
  '(x, interrupted) ← x_down x sig;
  if (interrupted : bool) then Ret (x, out, - ERESTARTSYS) else
  match filter_ioctl x i cmd with
  | Some _ =>
    '(x, interrupted) ← f_down x i sig;
    if (interrupted : bool) then Ret (x_up x, out, - ERESTARTSYS) else
    '(x, ret) ← match filter_ioctl x i cmd with Some m => m | None => Ret (x, 0) end;
    x ← f_up x i;
    Ret (x_up x, out, ret)
  | None =>
    match cmd with
    | DMX_GET_EVENT => Ret (x_up x, out, 0)
    | DMX_GET_PES_PIDS =>
      '(out, _) ← dvbdmx_get_pes_pids (x_demux x) out; Ret (x_up x, out, 0)
    | DMX_GET_STC =>
      match get_stc with
      | None => Ret (x_up x, out, - EINVAL)
      | Some g => let '(out, ret) := g out in Ret (x_up x, out, ret)
      end
    | _ => Ret (x_up x, out, - EINVAL)
    end
  end.

Definition readable (b : dmxdev_buffer) : Z :=
  Z.lor (if negb (error b =? 0) then Z.lor POLLIN (Z.lor POLLRDNORM (Z.lor POLLPRI POLLERR)) else 0)
        (if negb (pread b =? pwrite b) then Z.lor POLLIN (Z.lor POLLRDNORM POLLPRI) else 0).

Definition dvb_demux_poll (x : dmxdev) (i : nat) : outcome Z :=
  f ← flt x i;
  if negb (bool_decide (d_state f = DMXDEV_STATE_GO)) && negb (bool_decide (d_state f = DMXDEV_STATE_DONE))
     && negb (bool_decide (d_state f = DMXDEV_STATE_TIMEDOUT)) then Ret 0
  else Ret (readable (d_buffer f)).

Definition dvb_demux_release (x : dmxdev) (i : nat) : outcome (dmxdev * Z) := dvb_dmxdev_filter_free x i.

(** ** The DVR device *)
Inductive access : Type := O_RDONLY | O_WRONLY | O_RDWR.
(** The source of each front-end, and whether the demultiplexer has a [write]. *)
Variable source : Z -> Z.
Variable demux_write : option (dvb_demux -> list Z -> Z -> outcome (dvb_demux * list event * Z)).

Definition get_fe (d : dvb_demux) (type : Z) : option Z :=
  match dvbdmx_get_frontends d with
  | None => None
  | Some head => find (fun fe => source fe =? type) head
  end.

Definition dvb_dmxdev_dvr_state_set (r : dmxdev_dvr) (s : dmxdev_state) : dmxdev_dvr := r <| r_state := s |>.

Definition dvb_dvr_open (x : dmxdev) (mode : access) : outcome (dmxdev * Z) :=
  '(x, interrupted) ← x_down x sig;
  if (interrupted : bool) then Ret (x, - ERESTARTSYS) else
  match mode with
  | O_RDWR =>
    if negb (flag (x_capabilities x) DMXDEV_CAP_DUPLEX) then Ret (x_up x, - EOPNOTSUPP) else Ret (x_up x, 0)
  | O_RDONLY =>
    let b := (dvb_dmxdev_buffer_init (x_dvr_buffer x)) <| size := DVR_BUFFER_SIZE |>
               <| data := vmalloc DVR_BUFFER_SIZE |> in
    let x := x <| x_dvr_buffer := b |> in
    Ret (x_up x, if bool_decide (data b = None) then - ENOMEM else 0)
  | O_WRONLY =>
    let x := x <| x_dvr_orig_fe := frontend (x_demux x) |> in
    match demux_write with
    | None => Ret (x_up x, - EOPNOTSUPP)
    | Some _ =>
      match get_fe (x_demux x) DMX_MEMORY_FE with
      | None => Ret (x_up x, - EINVAL)
      | Some front =>
        '(x, _) ← on_demux x (dvbdmx_disconnect_frontend (x_demux x) sig);
        '(x, _) ← on_demux x (dvbdmx_connect_frontend (x_demux x) (Some front) sig);
        Ret (x_up x, 0)
      end
    end
  end.

Definition dvb_dvr_release (x : dmxdev) (mode : access) : outcome (dmxdev * Z) :=
  '(x, interrupted) ← x_down x sig;
  if (interrupted : bool) then Ret (x, - ERESTARTSYS) else
  match mode with
  | O_WRONLY =>
    '(x, _) ← on_demux x (dvbdmx_disconnect_frontend (x_demux x) sig);
    '(x, _) ← on_demux x (dvbdmx_connect_frontend (x_demux x) (x_dvr_orig_fe x) sig);
    Ret (x_up x, 0)
  | O_RDONLY => Ret (x_up (x <| x_dvr_buffer := (x_dvr_buffer x) <| data := None |> |>), 0)
  | O_RDWR => Ret (x_up x, 0)
  end.

Definition dvb_dvr_write (x : dmxdev) (mode : access) (buf : list Z) (count : Z)
  : outcome (dmxdev * list event * Z) :=
  match demux_write with
  | None => Ret (x, [], - EOPNOTSUPP)
  | Some write =>
    match mode with
    | O_WRONLY =>
      '(x, interrupted) ← x_down x sig;
      if (interrupted : bool) then Ret (x, [], - ERESTARTSYS) else
      '(d, ev, ret) ← write (x_demux x) buf count;
      Ret (x_up (x <| x_demux := d |>), ev, ret)
    | _ => Ret (x, [], - EINVAL)
    end
  end.

Definition dvb_dvr_do_ioctl (x : dmxdev) (cmd : ioctl_cmd) : outcome (dmxdev * Z) :=
  '(x, interrupted) ← x_down x sig;
  if (interrupted : bool) then Ret (x, - ERESTARTSYS) else
  match cmd with
  | DMX_SET_BUFFER_SIZE _ => Ret (x_up x, 0)
  | _ => Ret (x_up x, - EINVAL)
  end.

Definition dvb_dvr_poll (x : dmxdev) (mode : access) : Z :=
  match mode with
  | O_RDONLY => readable (x_dvr_buffer x)
  | _ => Z.lor POLLOUT (Z.lor POLLWRNORM POLLPRI)
  end.

(** ** Initialisation; the two [vmalloc]ed arrays hold what was in memory. *)
Definition init_dfilter (f : dmxdev_filter) : dmxdev_filter :=
  f <| d_buffer := (d_buffer f) <| data := None |> |> <| d_state := DMXDEV_STATE_FREE |>.
Definition init_dvr (r : dmxdev_dvr) : dmxdev_dvr :=
  dvb_dmxdev_dvr_state_set (r <| r_buffer := (r_buffer r) <| data := None |> |>) DMXDEV_STATE_FREE.

Definition dvb_dmxdev_init (x : dmxdev) (new_filters : option (list dmxdev_filter))
    (new_dvr : option (list dmxdev_dvr)) : dmxdev * Z :=
  let '(d, r) := dvbdmx_open (x_demux x) in
  let x := x <| x_demux := d |> in
  if r <? 0 then (x, - EUSERS) else
  match new_filters with
  | None => (x <| x_filter := None |>, - ENOMEM)
  | Some fl =>
    match new_dvr with
    | None => (x <| x_filter := None |> <| x_dvr := None |>, - ENOMEM)
    | Some dv =>
      (x <| x_mutex := 1 |> <| x_filter := Some (init_dfilter <$> fl) |>
         <| x_dvr := Some (init_dvr <$> dv) |>
         <| x_dvr_buffer := dvb_dmxdev_buffer_init (x_dvr_buffer x) |>, 0)
    end
  end.

Definition dvb_dmxdev_release (x : dmxdev) : dmxdev :=
  let '(d, _) := dvbdmx_close (x_demux x) in
  x <| x_filter := None |> <| x_dvr := None |> <| x_demux := d |>.
End Device.

#[global] Arguments flt : simpl never.
