(* ===== verification/DmxdevProps.v ===== *)
(** * What the demultiplexer device promises

    A user's section filter means what the API says, through the inversion of
    its mode, its layout in the section filter and the prepared masks; sections
    reach the reader's buffer whole or not at all; and a read returns one
    section. *)
From S2P Require Import Prelude CircBuf DmxBuffer DemuxTypes SwFilter DemuxApi DemuxInv Dmxdev.

(** ** User filters *)
Record user_filter_ok (p : dmx_sct_filter_params) : Prop := {
  uf_filter : zlen (s_filter p) = 16;
  uf_mask : zlen (s_mask p) = 16;
  uf_mode : zlen (s_mode p) = 16;
  uf_bytes : bytes (s_mask p) }.

(** Byte [i] of the filter looks at this byte of the section: the two length
    bytes are skipped. *)
Definition section_byte (i : Z) : Z := if i =? 0 then 0 else i + 2.

Definition same_bit (p : dmx_sct_filter_params) (s : list Z) (i b : Z) : bool :=
  eqb (Z.testbit (zn (s_filter p) i) b) (Z.testbit (zn s (section_byte i)) b).
Definition masked (p : dmx_sct_filter_params) (i b : Z) : bool := Z.testbit (zn (s_mask p) i) b.
Definition inverted (p : dmx_sct_filter_params) (i b : Z) : bool := Z.testbit (zn (s_mode p) i) b.

(** The user's view: masked bits must match, except those whose mode bit is
    set, of which, if there are any, one must differ. *)
Definition user_wanted (p : dmx_sct_filter_params) (s : list Z) : Prop :=
  (forall i b, 0 <= i < 16 -> 0 <= b -> masked p i b = true -> inverted p i b = false ->
     same_bit p s i b = true) /\
  ((exists i b, 0 <= i < 16 /\ 0 <= b /\ masked p i b = true /\ inverted p i b = true) ->
   exists i b, 0 <= i < 16 /\ 0 <= b /\ masked p i b = true /\ inverted p i b = true /\
     same_bit p s i b = false).

(** The arrays of a programmed filter. *)
Lemma program_array l u :
  zlen l = 18 -> zlen u = 16 ->
  exists v, (v ← memcpy l 3 u 1 (DMX_FILTER_SIZE - 1); b ← load u 0; write_at v 0 [b]) = Ret v /\
    zlen v = 18 /\ (forall i, 0 <= i < 16 -> zn v (section_byte i) = zn u i).
Proof.
  intros Hl Hu. change (DMX_FILTER_SIZE - 1) with 15.
  rewrite memcpy_ok by lia. cbn [mbind outcome_bind]. rewrite load_ok by lia. cbn [mbind outcome_bind].
  rewrite write_at_ok by (zsimpl; lia). eexists. split; [done|]. split; [zsimpl; lia|].
  intros i Hi. unfold section_byte. destruct (Z.eqb_spec i 0) as [->|Hn].
  - by rewrite zn_blit_in by (zsimpl; lia).
  - rewrite zn_blit_out by (zsimpl; lia). rewrite zn_blit_in by zside. rewrite zn_sub by lia. f_equal. lia.
Qed.

Lemma program_filter_ok g p :
  filter_ok g -> user_filter_ok p ->
  exists g', program_filter g p = Ret g' /\ filter_ok g' /\ bytes (filter_mask g') /\
    zn (filter_mask g') 1 = 0 /\ zn (filter_mask g') 2 = 0 /\
    forall i, 0 <= i < 16 -> zn (filter_value g') (section_byte i) = zn (s_filter p) i /\
      zn (filter_mask g') (section_byte i) = zn (s_mask p) i /\
      zn (filter_mode g') (section_byte i) = zn (s_mode p) i.
Proof.
  intros [Hv Hm Ho Ha Hn] [Uf Um Uo Ub].
  destruct (program_array (filter_value g) (s_filter p) Hv Uf) as (v & Ev & Zv & Nv).
  destruct (program_array (filter_mask g) (s_mask p) Hm Um) as (m & Em & Zm & Nm).
  destruct (program_array (filter_mode g) (s_mode p) Ho Uo) as (o & Eo & Zo & No).
  unfold program_filter.
  apply bind_ret_inv in Ev as (v1 & Ev1 & Ev). apply bind_ret_inv in Ev as (bv & Ebv & Ev).
  apply bind_ret_inv in Em as (m1 & Em1 & Em). apply bind_ret_inv in Em as (bm & Ebm & Em).
  apply bind_ret_inv in Eo as (o1 & Eo1 & Eo). apply bind_ret_inv in Eo as (bo & Ebo & Eo).
  rewrite Ev1, Em1, Eo1. cbn [mbind outcome_bind]. rewrite Ebv. cbn [mbind outcome_bind].
  rewrite Ev. cbn [mbind outcome_bind]. rewrite Ebm. cbn [mbind outcome_bind].
  rewrite Em. cbn [mbind outcome_bind]. rewrite Ebo. cbn [mbind outcome_bind].
  rewrite Eo. cbn [mbind outcome_bind]. rewrite write_at_ok by (zsimpl; lia).
  cbn [mbind outcome_bind]. rewrite write_at_ok by (zsimpl; lia). cbn [mbind outcome_bind].
  set (m' := blit (blit m 1 [0]) 2 [0]). eexists. split; [done|].
  assert (Zm' : zlen m' = 18) by (unfold m'; zsimpl; lia).
  assert (Nm' : forall i, 0 <= i < 16 -> zn m' (section_byte i) = zn (s_mask p) i).
  { intros i Hi. unfold m'. rewrite !zn_blit_out; [by apply Nm|..]; zsimpl;
      unfold section_byte; destruct (Z.eqb_spec i 0); lia. }
  assert (M1 : zn m' 1 = 0).
  { unfold m'. rewrite zn_blit_out by (zsimpl; lia). by rewrite zn_blit_in by (zsimpl; lia). }
  assert (M2 : zn m' 2 = 0) by (unfold m'; by rewrite zn_blit_in by (zsimpl; lia)).
  split; [by split|]. split; [|cbn [filter_mask filter_value filter_mode set];
    split; [done|split; [done|intros i Hi; split; [|split]; auto]]].
  cbn [filter_mask set]. apply Forall_lookup. intros k x Hk. pose proof (lookup_lt_Some _ _ _ Hk) as Hlt.
  assert (E : x = zn m' (Z.of_nat k)) by (rewrite zn_lookup, Nat2Z.id, Hk; done).
  assert (Hk18 : Z.of_nat k < 18) by (unfold zlen in Zm'; lia).
  destruct (decide (Z.of_nat k = 1)) as [E1|]; [rewrite E, E1, M1; done|].
  destruct (decide (Z.of_nat k = 2)) as [E2|]; [rewrite E, E2, M2; done|].
  destruct (decide (Z.of_nat k = 0)) as [E0|].
  - rewrite E, E0. change 0 with (section_byte 0). rewrite Nm' by lia. apply bytes_zn; [done|lia].
  - rewrite E. replace (Z.of_nat k) with (section_byte (Z.of_nat k - 2)).
    + rewrite Nm' by lia. apply bytes_zn; [done|lia].
    + unfold section_byte. destruct (Z.eqb_spec (Z.of_nat k - 2) 0); lia.
Qed.

Lemma wanted_user p g' s :
  user_filter_ok p -> zn (filter_mask g') 1 = 0 -> zn (filter_mask g') 2 = 0 ->
  (forall i, 0 <= i < 16 -> zn (filter_value g') (section_byte i) = zn (s_filter p) i /\
     zn (filter_mask g') (section_byte i) = zn (s_mask p) i /\
     zn (filter_mode g') (section_byte i) = Z.lxor (zn (s_mode p) i) 0xff) ->
  wanted g' s <-> user_wanted p s.
Proof.
  intros Hu M1 M2 Hz.
  assert (Hmode : forall i b, 0 <= i < 16 -> 0 <= b -> masked p i b = true ->
    Z.testbit (zn (filter_mode g') (section_byte i)) b = negb (inverted p i b)).
  { intros i b Hi Hb Hm. destruct (Hz i Hi) as (_ & _ & ->). rewrite Z.lxor_spec. unfold inverted.
    assert (b < 8).
    { destruct (Z.lt_ge_cases b 8); [done|]. unfold masked in Hm. rewrite byte_high in Hm; [done| |done].
      destruct Hu. apply bytes_zn; [done|lia]. }
    change 0xff with (Z.ones 8). rewrite Z.ones_spec_low by lia. by destruct (Z.testbit (zn (s_mode p) i) b). }
  assert (Hpos : forall i b, 0 <= i < 16 -> 0 <= b ->
    positive_bit g' (section_byte i) b = masked p i b && negb (inverted p i b) /\
    negative_bit g' (section_byte i) b = masked p i b && inverted p i b /\
    equal_bit g' s (section_byte i) b = same_bit p s i b).
  { intros i b Hi Hb. destruct (Hz i Hi) as (Ev & Em & _). unfold positive_bit, negative_bit, equal_bit, same_bit.
    rewrite Ev, Em. change (Z.testbit (zn (s_mask p) i) b) with (masked p i b).
    destruct (masked p i b) eqn:E; [|done]. rewrite Hmode by done. by rewrite negb_involutive. }
  assert (Hsplit : forall i, 0 <= i < 18 -> zn (filter_mask g') i = 0 \/ exists j, 0 <= j < 16 /\ i = section_byte j).
  { intros i Hi. destruct (decide (i = 1)) as [->|]; [by left|]. destruct (decide (i = 2)) as [->|]; [by left|].
    right. destruct (decide (i = 0)) as [->|]; [by exists 0|]. exists (i - 2). split; [lia|].
    unfold section_byte. destruct (Z.eqb_spec (i - 2) 0); lia. }
  assert (Hrange : forall j, 0 <= j < 16 -> 0 <= section_byte j < 18).
  { intros j Hj. unfold section_byte. destruct (Z.eqb_spec j 0); lia. }
  unfold wanted, user_wanted. split; intros [H1 H2]; split.
  - intros i b Hi Hb Hm Hn. destruct (Hpos i b Hi Hb) as (E1 & _ & E3). rewrite <- E3.
    apply H1; [by apply Hrange|done|]. by rewrite E1, Hm, Hn.
  - intros (i & b & Hi & Hb & Hm & Hn). destruct H2 as (k & c & Hk & Hc & N & E).
    { exists (section_byte i), b. destruct (Hpos i b Hi Hb) as (_ & E2 & _). rewrite E2, Hm, Hn. auto. }
    destruct (Hsplit k Hk) as [Z0|(j & Hj & ->)]; [unfold negative_bit in N; rewrite Z0, Z.bits_0 in N; done|].
    destruct (Hpos j c Hj Hc) as (_ & E2 & E3). rewrite E2 in N. rewrite E3 in E.
    apply andb_true_iff in N as [? ?]. exists j, c. done.
  - intros k b Hk Hb P. destruct (Hsplit k Hk) as [Z0|(j & Hj & ->)];
      [unfold positive_bit in P; rewrite Z0, Z.bits_0 in P; done|].
    destruct (Hpos j b Hj Hb) as (E1 & _ & E3). rewrite E1 in P. apply andb_true_iff in P as [P1 P2].
    rewrite E3. apply H1; try done. by apply negb_true_iff in P2.
  - intros (k & b & Hk & Hb & N). destruct (Hsplit k Hk) as [Z0|(j & Hj & ->)];
      [unfold negative_bit in N; rewrite Z0, Z.bits_0 in N; done|].
    destruct (Hpos j b Hj Hb) as (_ & E2 & _). rewrite E2 in N. apply andb_true_iff in N as [N1 N2].
    destruct H2 as (i & c & Hi & Hc & Mi & Ii & S); [by exists j, b|].
    exists (section_byte i), c. destruct (Hpos i c Hi Hc) as (_ & E4 & E5).
    rewrite E4, E5, Mi, Ii, S. auto.
Qed.

(** C9: a user's section filter gets what it asks for: after the inversion of its
    mode by [filter_set], its layout by [filter_start] and the preparation of the
    masks, a section is handed over exactly when every masked bit has the
    filter's value, save the bits with the mode bit set, of which, if there are
    any, at least one differs; the length bytes of the section never count. *)
Theorem user_filter_end_to_end sec_cb fi feed k g p :
  filter_ok g -> user_filter_ok p -> 18 <= zlen (secbuf feed) ->
  exists g1 g2, program_filter g (invert_mode p) = Ret g1 /\ prepare_filter g1 = Ret g2 /\
    (user_wanted p (secbuf feed) ->
       dvb_dmx_swfilter_sectionfilter sec_cb fi feed k g2 =
       Ret ([EvSec fi k (sub (secbuf feed) 0 (seclen feed))],
            sec_cb fi k (sub (secbuf feed) 0 (seclen feed)))) /\
    (~ user_wanted p (secbuf feed) -> dvb_dmx_swfilter_sectionfilter sec_cb fi feed k g2 = Ret ([], 0)).
Proof.
  intros Hg Hu Hs. assert (Hu' : user_filter_ok (invert_mode p)).
  { destruct Hu. split; cbn; try done. unfold zlen. by rewrite length_fmap. }
  destruct (program_filter_ok g _ Hg Hu') as (g1 & E1 & Hg1 & Hb1 & M1 & M2 & Hz).
  destruct (prepare_filter_ok g1 Hg1 Hb1) as (g2 & E2 & Hp). exists g1, g2.
  split; [done|]. split; [done|].
  assert (Hw : wanted g1 (secbuf feed) <-> user_wanted p (secbuf feed)).
  { apply wanted_user; try done. intros i Hi. destruct (Hz i Hi) as (V & M & O).
    split; [done|]. split; [done|]. rewrite O. destruct Hu as [_ _ Hmo _]. cbn [invert_mode s_mode set].
    rewrite !zn_lookup, list_lookup_fmap.
    destruct (lookup_lt_is_Some_2 (s_mode p) (Z.to_nat i)) as [x ->]; [unfold zlen in Hmo; lia|done]. }
  pose proof (accepts_wanted g1 g2 (secbuf feed) Hp) as Ha.
  rewrite (sectionfilter_spec sec_cb fi feed k g2) by (done || apply Hp).
  destruct (accepts g2 (secbuf feed)); split; try done; intros H.
  - exfalso. by apply H, Hw, Ha.
  - apply Hw, Ha in H. done.
Qed.

(** ** Storing sections *)
Lemma flt_put x i f f' : flt x i = Ret f -> flt (put x i f') i = Ret f'.
Proof.
  unfold flt, put, deref. cbn. destruct (x_filter x) as [l|]; cbn; [|done].
  intros E. destruct (l !! i) eqn:El; [|done].
  by rewrite list_lookup_insert_eq by (by eapply lookup_lt_Some).
Qed.

(** C11: the section callback stores a section whole or not at all: appended to
    the waiting bytes when it fits; otherwise everything waiting is dropped and
    the reader will get -EOVERFLOW.  The time-out is off either way, and a
    one-shot filter is done. *)
Theorem section_callback_stores x i f s :
  flt x i = Ret f -> error (d_buffer f) = 0 -> d_state f = DMXDEV_STATE_GO -> buffer_ok (d_buffer f) ->
  0 < zlen s ->
  exists f', dvb_dmxdev_section_callback x i s [] = Ret (put x i f', 0) /\
    buffer_ok (d_buffer f') /\ d_timer f' = None /\
    d_state f' = (if flag (s_flags (d_sct f)) DMX_ONESHOT then DMXDEV_STATE_DONE else DMXDEV_STATE_GO) /\
    if zlen s <? size (d_buffer f) - waiting (d_buffer f) then
      contents (d_buffer f') = contents (d_buffer f) ++ s /\ error (d_buffer f') = 0
    else contents (d_buffer f') = [] /\ error (d_buffer f') = - EOVERFLOW.
Proof.
  intros Hf He Hs Hb Hz. unfold dvb_dmxdev_section_callback. rewrite Hf. cbn [mbind outcome_bind].
  rewrite He. cbn [Z.eqb negb]. rewrite bool_decide_eq_true_2 by done. cbn [negb d_buffer set].
  pose proof (buffer_write_spec (d_buffer f) s (zlen s) Hb ltac:(lia)) as Hw.
  destruct (Z.eqb_spec (zlen s) 0); [lia|]. cbn [negb andb] in Hw. unfold store_parts.
  destruct (Z.leb_spec (size (d_buffer f) - waiting (d_buffer f)) (zlen s)),
    (Z.ltb_spec (zlen s) (size (d_buffer f) - waiting (d_buffer f))); try lia.
  - rewrite Hw. cbn [mbind outcome_bind]. destruct (Z.eqb_spec (-1) (zlen s)); [lia|].
    cbn [mbind outcome_bind Z.ltb Z.compare]. eexists. split; [done|].
    assert (Hov : buffer_ok (overflow (d_buffer f)) /\ contents (overflow (d_buffer f)) = []).
    { destruct Hb as [? Hr ?]. split; [by split|]. unfold contents, waiting, used. cbn.
      rewrite Z.leb_refl, Z.sub_diag. done. }
    destruct Hov. cbn [d_sct set]. by destruct (flag (s_flags (d_sct f)) DMX_ONESHOT).
  - destruct Hw as (b' & E & Hb' & _ & Ee & Ec). rewrite E. cbn [mbind outcome_bind].
    rewrite Z.eqb_refl. cbn [mbind outcome_bind]. rewrite zlen_nil. cbn.
    eexists. split; [done|]. rewrite (sub_all s) in Ec by lia.
    cbn [d_sct set]. rewrite He in Ee. by destruct (flag (s_flags (d_sct f)) DMX_ONESHOT).
Qed.

(** ** Reading sections *)
Lemma split_blit (buf : list Z) off c :
  0 <= off -> off + zlen c <= zlen buf -> ztake off buf ++ blit (zdrop off buf) 0 c = blit buf off c.
Proof.
  intros. pose proof (zlen_nonneg c). unfold blit. change (ztake 0 (zdrop off buf)) with (@nil Z).
  cbn [app]. do 2 f_equal. unfold zdrop. rewrite drop_drop. f_equal. lia.
Qed.

(** A non-blocking read where bytes wait. *)
Lemma buffer_read_at_ok wt b buf off n :
  buffer_ok b -> error b = 0 -> 0 < waiting b -> 0 <= off -> 0 <= n -> off + n <= zlen buf ->
  let m := Z.min n (waiting b) in
  exists b', buffer_read_at no_fault wt b true buf off n = Ret (b', blit buf off (sub (contents b) 0 m), m) /\
    buffer_ok b' /\ error b' = 0 /\ size b' = size b /\ contents b = sub (contents b) 0 m ++ contents b'.
Proof.
  intros Hb He Hw Ho Hn Hz m.
  pose proof (buffer_read_spec wt b (zdrop off buf) n Hb He ltac:(zside)) as H.
  destruct (Z.eqb_spec (waiting b) 0); [lia|]. destruct H as (b' & out & E & Hb' & He' & Hs & Hl & Hc).
  exists b'. unfold buffer_read_at. rewrite E. cbn [mbind outcome_bind].
  assert (Eo : sub (contents b) 0 m = out).
  { rewrite Hc, sub_app_l by lia. apply sub_all. lia. }
  rewrite Eo, split_blit by lia. rewrite Hl. done.
Qed.

Lemma announced_todo s : bytes s -> 3 <= zlen s ->
  Z.land (Z.lor (Z.shiftl (zn s 1) 8) (zn s 2)) 0xfff = announced s 0 - 3.
Proof.
  intros Hb Hz. pose proof (bytes_zn s 1 Hb ltac:(lia)) as H1. pose proof (bytes_zn s 2 Hb ltac:(lia)) as H2.
  unfold is_byte in *. rewrite lor_bytes by done. change 0xfff with (Z.ones 12). rewrite land_mask by lia.
  unfold announced. change (0 + 1) with 1. change (0 + 2) with 2.
  change 0x0f with (Z.ones 4). rewrite land_mask by lia. change (2 ^ 12) with (16 * 256). change (2 ^ 4) with 16.
  pose proof (Z.div_mod (zn s 1) 16 ltac:(lia)) as E. pose proof (Z.mod_pos_bound (zn s 1) 16 ltac:(lia)).
  symmetry. replace (zn s 1 * 256 + zn s 2) with
    ((zn s 1 mod 16 * 256 + zn s 2) + (zn s 1 / 16) * (16 * 256)) by lia.
  rewrite Z.mod_add by lia. rewrite (Z.mod_small (_ + zn s 2)) by lia. lia.
Qed.

(** The rest of a section, or as much of it as is asked for. *)
Lemma read_rest_ok wt f buf off count done_ :
  buffer_ok (d_buffer f) -> error (d_buffer f) = 0 -> 0 < d_todo f <= waiting (d_buffer f) ->
  0 <= off -> 0 <= count -> off + count <= zlen buf ->
  let m := Z.min count (d_todo f) in
  exists f', read_rest no_fault wt f true buf off count done_ =
      Ret (f', blit buf off (sub (contents (d_buffer f)) 0 m), m + done_) /\
    buffer_ok (d_buffer f') /\ d_todo f' = d_todo f - m /\ error (d_buffer f') = 0 /\
    contents (d_buffer f) = sub (contents (d_buffer f)) 0 m ++ contents (d_buffer f').
Proof.
  intros Hb He Ht Ho Hc Hz m. unfold read_rest.
  replace (if count >? d_todo f then d_todo f else count) with m
    by (unfold m; destruct (Z.gtb_spec count (d_todo f)); lia).
  destruct (buffer_read_at_ok wt (d_buffer f) buf off m Hb He) as (b' & E & Hb' & He' & _ & Hcs); [lia..|].
  rewrite Z.min_l in E, Hcs by lia. rewrite E. cbn [mbind outcome_bind].
  destruct (Z.ltb_spec m 0); [lia|]. eexists. split; [done|]. done.
Qed.

(** Reading the header of a section: the rest is read behind its three bytes. *)
Lemma read_sec_header wt f buf count s rest :
  buffer_ok (d_buffer f) -> error (d_buffer f) = 0 -> d_todo f = 0 -> zlen (d_secheader f) = 3 ->
  contents (d_buffer f) = s ++ rest -> bytes s -> announced s 0 = zlen s ->
  3 < zlen s -> 3 < count <= zlen buf ->
  exists g, dvb_dmxdev_read_sec no_fault wt false f true buf count =
      read_rest no_fault wt g true (blit buf 0 (sub s 0 3)) 3 (count - 3) 3 /\
    buffer_ok (d_buffer g) /\ error (d_buffer g) = 0 /\ d_todo g = zlen s - 3 /\
    contents (d_buffer g) = sub s 3 (zlen s - 3) ++ rest.
Proof.
  intros Hb He Ht Hh Hc Hby Ha Hs Hcnt. pose proof (zlen_contents _ Hb) as Hw.
  rewrite Hc in Hw. zsimpl_in Hw. pose proof (zlen_nonneg rest).
  unfold dvb_dmxdev_read_sec. rewrite Ht. cbn [Z.leb Z.compare]. change (3 + 0) with 3.
  destruct (Z.gtb_spec 3 count); [lia|].
  destruct (buffer_read_at_ok wt (d_buffer f) buf 0 3 Hb He) as (b' & E & Hb' & He' & _ & Hc'); [lia..|].
  rewrite Z.min_l, Hc, sub_app_l in E, Hc' by lia. rewrite E. cbn [mbind outcome_bind].
  cbn [Z.ltb Z.compare d_secheader d_todo set]. rewrite Ht. change (- 0) with 0.
  set (buf1 := blit buf 0 (sub s 0 3)). assert (Hz1 : zlen buf1 = zlen buf) by (unfold buf1; zside).
  assert (E1 : sub buf1 0 3 = sub s 0 3).
  { unfold buf1. replace 3 with (zlen (sub s 0 3)) at 2 by zside. apply sub_blit_eq; zside. }
  rewrite memcpy_ok, E1 by lia. cbn [mbind outcome_bind]. cbn [d_todo set].
  change (0 - 3 >? -3) with false. cbv iota.
  set (h := blit (d_secheader f) 0 (sub s 0 3)). assert (Hzh : zlen h = 3) by (unfold h; zside).
  assert (Eh : h = sub s 0 3).
  { unfold h, blit. rewrite zlen_sub by lia. change (ztake 0 (d_secheader f)) with (@nil Z).
    unfold zdrop. rewrite drop_ge by (unfold zlen in Hh; lia). by rewrite app_nil_r. }
  rewrite !load_ok by lia. cbn [mbind outcome_bind].
  rewrite Eh, !zn_sub by lia. change (0 + 1) with 1. change (0 + 2) with 2.
  rewrite announced_todo by (done || lia). rewrite Ha.
  destruct (Z.eqb_spec (count - 3) 0); [lia|]. eexists. repeat (split; [done|]). cbn.
  rewrite <- (sub_all s (zlen s)) in Hc' at 1 by lia.
  replace (zlen s) with (3 + (zlen s - 3)) in Hc' at 1 by lia. rewrite sub_split in Hc' by lia.
  rewrite <- app_assoc in Hc'. by apply app_inv_head in Hc'.
Qed.

(** C10: a read of a section filter returns one section: with a section [s]
    waiting (its length bytes telling its length) a non-blocking read of more
    than three bytes returns as many of its bytes as were asked for, never a byte
    of what follows, and leaves the rest of the section for the next read. *)
Theorem read_sec_one_section wt f buf count s rest :
  buffer_ok (d_buffer f) -> error (d_buffer f) = 0 -> d_todo f = 0 -> zlen (d_secheader f) = 3 ->
  contents (d_buffer f) = s ++ rest -> bytes s -> announced s 0 = zlen s ->
  3 < zlen s -> 3 < count <= zlen buf ->
  let k := Z.min count (zlen s) in
  exists f', dvb_dmxdev_read_sec no_fault wt false f true buf count = Ret (f', blit buf 0 (sub s 0 k), k) /\
    buffer_ok (d_buffer f') /\ error (d_buffer f') = 0 /\ d_todo f' = zlen s - k /\
    contents (d_buffer f') = sub s k (zlen s - k) ++ rest.
Proof.
  intros Hb He Ht Hh Hc Hby Ha Hs Hcnt k. pose proof (zlen_nonneg rest).
  destruct (read_sec_header wt f buf count s rest) as (g & E & Hbg & Heg & Htg & Hcg); [done..|]. rewrite E.
  set (buf1 := blit buf 0 (sub s 0 3)). assert (Hz1 : zlen buf1 = zlen buf) by (unfold buf1; zside).
  pose proof (zlen_contents _ Hbg) as Hw'. rewrite Hcg in Hw'. zsimpl_in Hw'.
  destruct (read_rest_ok wt g buf1 3 (count - 3) 3) as (f' & E' & Hb2 & Ht2 & He2 & Hc2); [done|done|lia..|].
  rewrite E', Htg in *. exists f'. unfold k.
  set (m := Z.min (count - 3) (zlen s - 3)) in *.
  replace (Z.min count (zlen s)) with (3 + m) by lia.
  assert (Hm : 0 <= m <= zlen s - 3) by (unfold m; lia).
  assert (Em : sub (contents (d_buffer g)) 0 m = sub s 3 m).
  { rewrite Hcg, sub_app_l, sub_sub by zside. done. }
  split; [|split; [done|split; [done|split; [lia|]]]].
  - rewrite Em, (Z.add_comm m 3).
    assert (Eb : blit buf1 3 (sub s 3 m) = blit buf 0 (sub s 0 (3 + m))); [|by rewrite Eb].
    unfold buf1. rewrite (sub_split s 0 3 m) by lia.
    replace (blit (blit buf 0 (sub s 0 3)) 3) with (blit (blit buf 0 (sub s 0 3)) (0 + zlen (sub s 0 3)))
      by (f_equal; zside).
    apply blit_blit; zside.
  - rewrite Em, Hcg in Hc2. replace (zlen s - 3) with (m + (zlen s - (3 + m))) in Hc2 by lia.
    rewrite sub_split, <- app_assoc in Hc2 by lia. by apply app_inv_head in Hc2.
Qed.

(** ** Witnesses *)
Definition user_table_filter : dmx_sct_filter_params :=
  mk_sct 0x12 (0x4e :: replicate 15 0) (0xff :: replicate 15 0) (replicate 16 0) 0 0.
Definition short_section_buffer : dmxdev_buffer := mk_dmxdev_buffer (Some [0; 0; 2; 7; 8; 9; 9; 9]) 8 0 5 0.
Definition section_reader : dmxdev_filter :=
  mk_dfilter (Some 0%nat) (Some 0%nat) user_table_filter (mk_pes 0 DMX_OUT_TAP 20 0)
    DMXDEV_TYPE_SEC DMXDEV_STATE_GO short_section_buffer 1 (Some 5) 0 [0; 0; 0] 0x12.
Definition reader_dev : dmxdev :=
  mk_dmxdev (Some [section_reader]) None
    (mk_demux 0 0 0 [] [] None [] [] [] 0 0 [] [] 0 1) 1 0 None short_section_buffer 1.

Lemma short_section_buffer_ok : buffer_ok short_section_buffer.
Proof. split; [eexists; split; reflexivity | concrete | concrete]. Qed.

Lemma user_filter_end_to_end_witness :
  exists g1 g2, program_filter wild_filter (invert_mode user_table_filter) = Ret g1 /\
    prepare_filter g1 = Ret g2 /\
    (user_wanted user_table_filter (secbuf section_feed0) ->
       dvb_dmx_swfilter_sectionfilter (fun _ _ _ => 0) 0 section_feed0 0 g2 =
       Ret ([EvSec 0 0 (sub (secbuf section_feed0) 0 (seclen section_feed0))], 0)) /\
    (~ user_wanted user_table_filter (secbuf section_feed0) ->
       dvb_dmx_swfilter_sectionfilter (fun _ _ _ => 0) 0 section_feed0 0 g2 = Ret ([], 0)).
Proof.
  apply (user_filter_end_to_end (fun _ _ _ => 0) 0 section_feed0 0 wild_filter user_table_filter).
  - apply wild_filter_ok.
  - split; try done. unfold user_table_filter. cbn [s_mask]. bytes.
  - done.
Defined.

Lemma section_callback_stores_witness :
  exists f', dvb_dmxdev_section_callback reader_dev 0 [1; 2] [] = Ret (put reader_dev 0 f', 0) /\
    buffer_ok (d_buffer f') /\ d_timer f' = None /\ d_state f' = DMXDEV_STATE_GO /\
    contents (d_buffer f') = [0; 0; 2; 7; 8] ++ [1; 2] /\ error (d_buffer f') = 0.
Proof.
  apply (section_callback_stores reader_dev 0 section_reader [1; 2]); try done.
  apply short_section_buffer_ok.
Defined.

Lemma read_sec_one_section_witness :
  exists f', dvb_dmxdev_read_sec no_fault no_wait false section_reader true (replicate 4 0) 4 =
      Ret (f', blit (replicate 4 0) 0 (sub [0; 0; 2; 7; 8] 0 4), 4) /\
    buffer_ok (d_buffer f') /\ error (d_buffer f') = 0 /\ d_todo f' = 1 /\
    contents (d_buffer f') = sub [0; 0; 2; 7; 8] 4 1 ++ [].
Proof.
  apply (read_sec_one_section no_wait section_reader (replicate 4 0) 4 [0; 0; 2; 7; 8] []); try done.
  - apply short_section_buffer_ok.
  - bytes.
Defined.
