(* ===== verification/MpegIO.v ===== *)
(** * Descriptors, copies and cursors of libmpegtools

    What the packet readers and writers of
    apps/misc/libs/libmpegtools/ctools.c share: [save_read], a seekable
    descriptor, copies into allocated memory, and the steps "if the flag is
    set, copy the field and advance the cursor" of which the parsers and the
    printers of the packet formats consist. *)
From S2P Require Import Prelude.

(** A seekable descriptor: the contents of the file and the position. *)
Record file := mk_file { content : list Z; fpos : Z }.
#[export] Instance eta_file : Eta file := fun f => mk_file (content f) (fpos f).

(** [lseek (f, n, SEEK_SET)]. *)
Definition lseek_set (f : file) (n : Z) : file := f <| fpos := n |>.

Section Descriptor.
(** What [read] at a position returns for a number of bytes. *)
Variable sys_read : Z -> Z -> Z.

Definition read (f : file) (buf : list Z) (off count : Z) : outcome (file * list Z * Z) :=
  let r := sys_read (fpos f) count in
  if r >? 0 then
    buf ← memcpy buf off (content f) (fpos f) r;
    Ret (f <| fpos := fpos f + r |>, buf, r)
  else Ret (f, buf, r).

Fixpoint save_read_loop (fuel : nat) (f : file) (buf : list Z) (off count neof re : Z)
  : outcome (file * list Z * Z) :=
  if (neof >=? 0) && (re <? count) then
    match fuel with
    | O => Hang
    | S fuel =>
      '(f, buf, neof) ← read f buf (off + re) (count - re);
      if neof >? 0 then save_read_loop fuel f buf off count neof (re + neof)
      else Ret (f, buf, if (neof <? 0) && (re =? 0) then neof else re)
    end
  else Ret (f, buf, if (neof <? 0) && (re =? 0) then neof else re).

(** [save_read (fd, buf + off, count)]; every turn but the last moves a byte. *)
Definition save_read (f : file) (buf : list Z) (off count : Z) : outcome (file * list Z * Z) :=
  save_read_loop (S (Z.to_nat count)) f buf off count 1 0.

(** The documented behaviour of [read] on the file [c]: it moves at least one
    byte unless none is left or none is asked for, and at most what is there. *)
Definition reads_of (c : list Z) : Prop := forall pos n,
  0 <= pos -> 0 < n ->
  if pos <? zlen c then 1 <= sys_read pos n <= Z.min n (zlen c - pos) else sys_read pos n = 0.

(** ** [save_read] hides the short reads *)

(** How many of [count] bytes are left at [pos]. *)
Definition left_at (c : list Z) (pos count : Z) : Z := Z.max 0 (Z.min count (zlen c - pos)).

Lemma left_at_all (c : list Z) pos count : 0 <= count -> pos + count <= zlen c -> left_at c pos count = count.
Proof. unfold left_at. lia. Qed.

Lemma save_read_loop_ok (c buf : list Z) off count :
  reads_of c -> 0 <= off -> off + count <= zlen buf -> forall fuel pos neof re,
  0 <= pos -> 0 <= neof -> 0 <= re <= count -> (Z.to_nat (count - re) < fuel)%nat ->
  forall b, zlen b = zlen buf ->
  save_read_loop fuel (mk_file c pos) b off count neof re =
    Ret (mk_file c (pos + left_at c pos (count - re)),
         blit b (off + re) (sub c pos (left_at c pos (count - re))),
         re + left_at c pos (count - re)).
Proof.
  intros Hc Hoff Hbuf. induction fuel as [|fuel IH]; intros pos neof re Hpos Hneof Hre Hf b Hb; [lia|].
  cbn [save_read_loop]. rewrite (proj2 (Z.geb_le neof 0)) by lia. cbn [andb].
  destruct (Z.ltb_spec re count) as [Hlt|Hge].
  - specialize (Hc pos (count - re) Hpos ltac:(lia)). unfold read. cbn [fpos content].
    destruct (Z.ltb_spec pos (zlen c)) as [Hp|Hp].
    + set (r := sys_read pos (count - re)) in *. clearbody r.
      rewrite (proj2 (Z.gtb_gt r 0)) by lia. rewrite memcpy_ok by lia.
      unfold set. cbn [mbind outcome_bind fpos content].
      rewrite (proj2 (Z.gtb_gt r 0)) by lia. rewrite IH by (zsimpl; lia).
      assert (E : left_at c pos (count - re) = r + left_at c (pos + r) (count - (re + r)))
        by (unfold left_at; lia).
      assert (Hl : 0 <= left_at c (pos + r) (count - (re + r)) <= zlen c - (pos + r)) by (unfold left_at; lia).
      assert (Hl2 : left_at c (pos + r) (count - (re + r)) <= count - (re + r)) by (unfold left_at; lia).
      rewrite E. set (l := left_at _ _ _) in *. clearbody l.
      rewrite sub_split by lia.
      replace (off + (re + r)) with (off + re + zlen (sub c pos r)) by (zsimpl; lia).
      rewrite blit_blit by (zsimpl; lia). repeat (lia || done || f_equal).
    + rewrite Hc. cbn. unfold left_at. replace (Z.max 0 (Z.min (count - re) (zlen c - pos))) with 0 by lia.
      rewrite sub_0, blit_nil. repeat (lia || done || f_equal).
  - assert (re = count) as -> by lia. cbn. rewrite (proj2 (Z.ltb_ge neof 0)) by lia. cbn [andb].
    unfold left_at. replace (Z.max 0 (Z.min (count - count) (zlen c - pos))) with 0 by lia.
    rewrite sub_0, blit_nil. repeat (lia || done || f_equal).
Qed.

Lemma save_read_ok c pos buf off count :
  reads_of c -> 0 <= pos -> 0 <= off -> 0 <= count -> off + count <= zlen buf ->
  save_read (mk_file c pos) buf off count =
    Ret (mk_file c (pos + left_at c pos count), blit buf off (sub c pos (left_at c pos count)),
         left_at c pos count).
Proof.
  intros. unfold save_read. rewrite (save_read_loop_ok c buf) by (done || lia).
  rewrite ?Z.sub_0_r, ?Z.add_0_r. done.
Qed.
End Descriptor.
#[global] Arguments save_read : simpl never.

(** ** Allocated memory *)
Section Memory.
(** [malloc n]: the block and what is in it, [None] for a null pointer. *)
Variable malloc : Z -> option (list Z).

(** [memcpy (dst, src + off, n)] to a pointer that may be null. *)
Definition store (dst : option (list Z)) (src : list Z) (off n : Z) : outcome (option (list Z)) :=
  if n =? 0 then Ret dst else
  match dst with
  | None => Crash
  | Some d => d ← memcpy d 0 src off n; Ret (Some d)
  end.

(** What [memcpy (dst, src, n)] reads through a pointer that may be null. *)
Definition fetch (src : option (list Z)) (n : Z) : outcome (list Z) :=
  if n =? 0 then Ret [] else match src with None => Crash | Some s => read_at s 0 n end.

Definition mallocs : Prop := forall n, 0 <= n -> exists b, malloc n = Some b /\ zlen b = n.
End Memory.

(** ** Printing: "if the flag is set, [memcpy (buf + count, field, n)] and
    advance [count]" *)
Definition emit (b : bool) (src : list Z) (n : Z) (w : list Z * Z) : outcome (list Z * Z) :=
  if b then let '(buf, count) := w in
    buf ← memcpy buf count src 0 n; Ret (buf, count + n)
  else Ret w.

(** The same from memory reached through a pointer. *)
Definition emit_ptr (b : bool) (src : option (list Z)) (n : Z) (w : list Z * Z) : outcome (list Z * Z) :=
  if b then let '(buf, count) := w in
    c ← fetch src n; buf ← write_at buf count c; Ret (buf, count + n)
  else Ret w.

(** The stuffing loops, which write one byte [n] times. *)
Fixpoint emit_stuffing (n : nat) (w : list Z * Z) : outcome (list Z * Z) :=
  match n with
  | O => Ret w
  | S n => w ← emit true [0xff] 1 w; emit_stuffing n w
  end.

Definition opt (b : bool) (l : list Z) : list Z := if b then l else [].

(** [buf] after [l] has been printed to it, if there is room. *)
Definition emitted (buf l : list Z) : outcome (list Z * Z) :=
  if zlen l <=? zlen buf then Ret (blit buf 0 l, zlen l) else Crash.

Lemma emitted_nil buf : emitted buf [] = Ret (buf, 0).
Proof.
  unfold emitted. pose proof (zlen_nonneg buf). rewrite (proj2 (Z.leb_le _ _)) by done.
  by rewrite blit_nil.
Qed.

Lemma write_emitted {A} buf l c (k : list Z * Z -> outcome A) :
  (emitted buf l ≫= fun w => (let '(b, count) := w in b ← write_at b count c; Ret (b, count + zlen c)) ≫= k) =
  emitted buf (l ++ c) ≫= k.
Proof.
  unfold emitted. rewrite zlen_app. pose proof (zlen_nonneg l). pose proof (zlen_nonneg c).
  destruct (Z.leb_spec (zlen l) (zlen buf)), (Z.leb_spec (zlen l + zlen c) (zlen buf)); try lia; cbn; try done.
  - rewrite write_at_ok by zside. cbn. by rewrite <- (blit_blit buf 0 l c) by lia.
  - unfold write_at, in_range. rewrite zlen_blit by lia.
    rewrite (proj2 (Z.leb_gt (zlen l + zlen c) _)) by lia. by rewrite andb_false_r.
Qed.

Lemma emit_prefix {A} buf l b src n (k : list Z * Z -> outcome A) :
  (b = true -> 0 <= n <= zlen src) ->
  (emitted buf l ≫= fun w => emit b src n w ≫= k) = emitted buf (l ++ opt b (sub src 0 n)) ≫= k.
Proof.
  intros Hn. destruct b; cbn [opt emit].
  - specialize (Hn eq_refl). rewrite <- write_emitted. unfold emitted.
    destruct (zlen l <=? zlen buf); [|done]. cbn [mbind outcome_bind].
    unfold memcpy. rewrite read_at_ok by lia. rewrite zlen_sub by lia. done.
  - by rewrite app_nil_r.
Qed.

Lemma emit_emitted {A} buf l b src n (k : list Z * Z -> outcome A) :
  (b = true -> zlen src = n) ->
  (emitted buf l ≫= fun w => emit b src n w ≫= k) = emitted buf (l ++ opt b src) ≫= k.
Proof.
  intros Hn. rewrite emit_prefix.
  - destruct b; [|done]. by rewrite sub_all by (rewrite Hn; done).
  - intros Hb. rewrite (Hn Hb). pose proof (zlen_nonneg src). specialize (Hn Hb). lia.
Qed.

Lemma bind_ret_r {A} (m : outcome A) : m ≫= Ret = m.
Proof. by destruct m. Qed.

(** What a pointer's block holds in its first [n] bytes. *)
Definition block (src : option (list Z)) (n : Z) : list Z :=
  match src with None => [] | Some s => sub s 0 n end.
Definition block_ok (src : option (list Z)) (n : Z) : Prop :=
  0 <= n /\ (n = 0 \/ exists s, src = Some s /\ n <= zlen s).

Lemma fetch_ok src n : block_ok src n -> fetch src n = Ret (block src n) /\ zlen (block src n) = n.
Proof.
  intros [Hn H]. unfold fetch, block. destruct (Z.eqb_spec n 0) as [ -> |].
  - split; [by destruct src|]. by destruct src.
  - destruct H as [?|(s & -> & ?)]; [done|]. rewrite read_at_ok by lia. split; [done|]. zsimpl. lia.
Qed.

Lemma emit_ptr_emitted {A} buf l b src n (k : list Z * Z -> outcome A) :
  (b = true -> block_ok src n) ->
  (emitted buf l ≫= fun w => emit_ptr b src n w ≫= k) = emitted buf (l ++ opt b (block src n)) ≫= k.
Proof.
  intros Hn. destruct b; cbn [opt emit_ptr].
  - destruct (fetch_ok src n (Hn eq_refl)) as [E1 E2]. rewrite <- write_emitted. rewrite E1, E2. done.
  - by rewrite app_nil_r.
Qed.

Lemma emit_stuffing_emitted {A} n (k : list Z * Z -> outcome A) : forall buf l,
  (emitted buf l ≫= fun w => emit_stuffing n w ≫= k) = emitted buf (l ++ replicate n 0xff) ≫= k.
Proof.
  induction n as [|n IH]; intros buf l; [by rewrite app_nil_r|].
  cbn [emit_stuffing replicate]. change (0xff :: replicate n 0xff) with ([0xff] ++ replicate n 0xff).
  rewrite app_assoc, <- IH.
  transitivity (emitted buf l ≫= fun w => emit true [0xff] 1 w ≫= fun w => emit_stuffing n w ≫= k).
  - unfold emitted. destruct (zlen l <=? zlen buf); [|done]. cbn [mbind outcome_bind].
    by destruct (emit _ _ _ _) as [w| |].
  - exact (emit_emitted buf l true [0xff] 1 (fun w => emit_stuffing n w ≫= k) (fun _ => eq_refl)).
Qed.

Lemma bind_assoc {A B C} (m : outcome A) (f : A -> outcome B) (g : B -> outcome C) :
  (m ≫= f) ≫= g = m ≫= fun a => f a ≫= g.
Proof. by destruct m. Qed.

(** The first and the last copy of a printer. *)
Lemma emit_start {A} buf b src n (k : list Z * Z -> outcome A) :
  emit b src n (buf, 0) ≫= k = emitted buf [] ≫= fun w => emit b src n w ≫= k.
Proof. by rewrite emitted_nil. Qed.

Lemma emit_last buf l b src n :
  (b = true -> 0 <= n <= zlen src) ->
  (emitted buf l ≫= fun w => emit b src n w) = emitted buf (l ++ opt b (sub src 0 n)).
Proof.
  intros Hn. rewrite <- (bind_ret_r (emitted buf (l ++ _))), <- (emit_prefix buf l b src n Ret Hn).
  rewrite <- bind_assoc. by rewrite bind_ret_r.
Qed.

Lemma emit_ptr_last buf l b src n :
  (b = true -> block_ok src n) ->
  (emitted buf l ≫= fun w => emit_ptr b src n w) = emitted buf (l ++ opt b (block src n)).
Proof.
  intros Hn. rewrite <- (bind_ret_r (emitted buf (l ++ _))), <- (emit_ptr_emitted buf l b src n Ret Hn).
  rewrite <- bind_assoc. by rewrite bind_ret_r.
Qed.

Lemma emit_stuffing_last buf l n :
  (emitted buf l ≫= fun w => emit_stuffing n w) = emitted buf (l ++ replicate n 0xff).
Proof.
  rewrite <- (bind_ret_r (emitted buf (l ++ _))), <- (emit_stuffing_emitted n Ret).
  rewrite <- bind_assoc. by rewrite bind_ret_r.
Qed.

(** [print_more] turns the steps of a printer into what they print; [print] does
    so from the beginning. *)
Ltac print_more :=
  cbv zeta;
  repeat first [ rewrite emit_emitted by (intros; done) | rewrite emit_ptr_emitted by (intros; auto; done)
               | rewrite emit_stuffing_emitted ];
  try first [ rewrite emit_last by (intros; first [lia | auto]) | rewrite emit_stuffing_last
            | rewrite emit_ptr_last by (intros; auto; done) ];
  cbn [app opt]; rewrite <- ?app_assoc; cbn [app opt].
Ltac print := cbv zeta; rewrite emit_start; print_more.

(** ** Parsing: "if the flag is set, [memcpy (field, buf + c, n)] and advance [c]" *)
Definition field {R} (b : bool) (n : Z) (upd : list Z -> R -> R) (buf : list Z) (st : R * Z)
  : outcome (R * Z) :=
  if b then let '(p, c) := st in x ← read_at buf c n; Ret (upd x p, c + n) else Ret st.

Definition when {R} (b : bool) (u : R -> R) (r : R) : R := if b then u r else r.

(** The bytes [l] lie at [c] in [buf]. *)
Definition at_pos (buf : list Z) (c : Z) (l : list Z) : Prop :=
  0 <= c /\ c + zlen l <= zlen buf /\ sub buf c (zlen l) = l.

Lemma at_app buf c l k : at_pos buf c (l ++ k) <-> at_pos buf c l /\ at_pos buf (c + zlen l) k.
Proof.
  unfold at_pos. rewrite zlen_app. pose proof (zlen_nonneg l). pose proof (zlen_nonneg k).
  split.
  - intros (? & ? & E). rewrite sub_split in E by lia.
    apply app_inj_1 in E; [|pose proof (zlen_sub buf c (zlen l)); unfold zlen in *; lia].
    destruct E as [E1 E2]. repeat split; try lia; done.
  - intros [(? & ? & E1) (? & ? & E2)]. repeat split; try lia.
    rewrite sub_split by lia. by rewrite E1, E2.
Qed.

Lemma at_self l k : at_pos (l ++ k) 0 l.
Proof.
  pose proof (zlen_nonneg l). pose proof (zlen_nonneg k). repeat split; [lia|zsimpl; lia|].
  rewrite sub_app_l by lia. by apply sub_all.
Qed.

Lemma at_mid pre l post : at_pos (pre ++ l ++ post) (zlen pre) l.
Proof.
  pose proof (zlen_nonneg pre). pose proof (zlen_nonneg l). pose proof (zlen_nonneg post).
  split; [done|]. split; [zsimpl; lia|].
  rewrite sub_app_r, Z.sub_diag by lia. rewrite sub_app_l by lia. by apply sub_all.
Qed.

Lemma at_sub buf o n c l : at_pos buf (o + c) l -> 0 <= o -> 0 <= c -> c + zlen l <= n -> o + n <= zlen buf ->
  at_pos (sub buf o n) c l.
Proof.
  intros (? & ? & E) ? ? ? ?. pose proof (zlen_nonneg l). repeat split; [done|zsimpl; lia|].
  rewrite sub_sub by lia. done.
Qed.

Lemma at_read buf c l : at_pos buf c l -> read_at buf c (zlen l) = Ret l.
Proof. intros (? & ? & E). pose proof (zlen_nonneg l). rewrite read_at_ok by lia. by rewrite E. Qed.

Lemma at_load buf c x : at_pos buf c [x] -> load buf c = Ret x.
Proof.
  intros (? & Hl & E). zsimpl_in Hl. rewrite load_ok by lia. f_equal.
  rewrite sub_cons in E by (zsimpl; lia). by injection E.
Qed.

Lemma field_ok {R} b n (upd : list Z -> R -> R) buf p c x :
  (b = true -> zlen x = n) -> at_pos buf c (opt b x) ->
  field b n upd buf (p, c) = Ret (when b (upd x) p, c + zlen (opt b x)).
Proof.
  intros Hn Ha. destruct b; cbn [field when opt] in *.
  - rewrite <- (Hn eq_refl). rewrite at_read by done. done.
  - by rewrite Z.add_0_r.
Qed.

(** The same into newly allocated memory. *)
Definition field_ptr {R} (malloc : Z -> option (list Z)) (b : bool) (n : Z) (upd : option (list Z) -> R -> R)
    (buf : list Z) (st : R * Z) : outcome (R * Z) :=
  if b then let '(p, c) := st in x ← store (malloc n) buf c n; Ret (upd x p, c + n) else Ret st.

Lemma store_ok malloc buf c x :
  mallocs malloc -> at_pos buf c x -> store (malloc (zlen x)) buf c (zlen x) = Ret (Some x).
Proof.
  intros Hm Ha. destruct (Hm (zlen x) (zlen_nonneg x)) as (d & Ed & Hd). rewrite Ed. unfold store.
  destruct (Z.eqb_spec (zlen x) 0) as [E|].
  - assert (d = []) as -> by (destruct d; [done|rewrite zlen_cons in Hd; pose proof (zlen_nonneg d); lia]).
    destruct x as [|a x]; [done|]. rewrite zlen_cons in E. pose proof (zlen_nonneg x). lia.
  - unfold memcpy. rewrite at_read by done. cbn. rewrite write_at_ok by lia. cbn.
    do 2 f_equal. rewrite <- (sub_all (blit d 0 x) (zlen x)) by (rewrite zlen_blit; lia).
    apply sub_blit_eq; lia.
Qed.

Lemma field_ptr_ok {R} malloc b n (upd : option (list Z) -> R -> R) buf p c x :
  mallocs malloc -> (b = true -> zlen x = n) -> at_pos buf c (opt b x) ->
  field_ptr malloc b n upd buf (p, c) = Ret (when b (upd (Some x)) p, c + zlen (opt b x)).
Proof.
  intros Hm Hn Ha. destruct b; cbn [field_ptr when opt] in *.
  - rewrite <- (Hn eq_refl). by rewrite store_ok.
  - by rewrite Z.add_0_r.
Qed.

(** Reads outside a list of bytes count as 0. *)
Lemma zn_nonneg l i : bytes l -> 0 <= zn l i.
Proof.
  intros Hl. rewrite zn_lookup. destruct (l !! Z.to_nat i) as [x|] eqn:E; [|done].
  unfold bytes in Hl. rewrite Forall_lookup in Hl. apply Hl in E. unfold is_byte in E. cbn. lia.
Qed.

(** The same steps on a descriptor: [neof = save_read (f, field, n)]. *)
Definition read_field {R} (sys_read : Z -> Z -> Z) (b : bool) (n : Z) (get : R -> list Z)
    (upd : list Z -> R -> R) (st : file * R * Z) : outcome (file * R * Z) :=
  if b then
    let '(f, p, _) := st in
    '(f, x, neof) ← save_read sys_read f (get p) 0 n;
    Ret (f, upd x p, neof)
  else Ret st.

(** Into newly allocated memory; [read] to a null pointer fails with [EFAULT]. *)
Definition read_field_ptr {R} (sys_read : Z -> Z -> Z) (malloc : Z -> option (list Z)) (b : bool) (n : Z)
    (upd : option (list Z) -> R -> R) (st : file * R * Z) : outcome (file * R * Z) :=
  if b then
    let '(f, p, _) := st in
    match malloc n with
    | None => Ret (f, upd None p, if n =? 0 then 0 else -1)
    | Some d => '(f, x, neof) ← save_read sys_read f d 0 n; Ret (f, upd (Some x) p, neof)
    end
  else Ret st.

Lemma save_read_all sys_read c pos d n :
  reads_of sys_read c -> 0 <= pos -> 0 <= n -> pos + n <= zlen c -> n <= zlen d ->
  save_read sys_read (mk_file c pos) d 0 n = Ret (mk_file c (pos + n), blit d 0 (sub c pos n), n).
Proof. intros. rewrite save_read_ok by (done || lia). by rewrite left_at_all. Qed.

Lemma blit_all {A} (d x : list A) : zlen d = zlen x -> blit d 0 x = x.
Proof.
  intros E. rewrite <- (sub_all (blit d 0 x) (zlen x)) by (rewrite zlen_blit; lia).
  apply sub_blit_eq; lia.
Qed.

(** A step that succeeds on the contents succeeds on the descriptor. *)
Lemma read_field_sim {R} sys_read b n get (upd : list Z -> R -> R) c p pos neof p' pos' :
  reads_of sys_read c -> 0 <= pos -> 0 <= n -> (b = true -> zlen (get p) = n) ->
  field b n upd c (p, pos) = Ret (p', pos') ->
  0 <= pos' /\ p' = when b (upd (sub c pos n)) p /\
  exists neof', read_field sys_read b n get upd (mk_file c pos, p, neof) = Ret (mk_file c pos', p', neof').
Proof.
  intros Hc Hpos Hn Hg. destruct b; cbn [field read_field when].
  - destruct (read_at c pos n) as [x| |] eqn:E; cbn; try discriminate. intros [= <- <-].
    apply read_at_inv in E as (_ & _ & Hr & ->). specialize (Hg eq_refl).
    split; [lia|]. split; [done|]. rewrite save_read_all by (done || lia). cbn.
    rewrite blit_all by (zsimpl; lia). eauto.
  - intros [= <- <-]. eauto.
Qed.

(** A byte that the parser on the contents reads with an index. *)
Lemma read_byte_sim {R} sys_read get (upd : list Z -> R -> R) c p pos neof x :
  reads_of sys_read c -> (forall p, zlen (get p) = 1) -> load c pos = Ret x ->
  read_field sys_read true 1 get upd (mk_file c pos, p, neof) = Ret (mk_file c (pos + 1), upd [x] p, 1).
Proof.
  intros Hc Hg Hx. apply load_inv in Hx as [Hp ->]. cbn [read_field].
  rewrite save_read_all by (rewrite ?Hg; done || lia). cbn.
  rewrite sub_cons by lia. rewrite sub_neg by lia. by rewrite blit_all by (rewrite Hg; done).
Qed.

(** A copy of [n] bytes to the beginning of an array. *)
Lemma save_read_sim sys_read c pos d n d' :
  reads_of sys_read c -> memcpy d 0 c pos n = Ret d' ->
  save_read sys_read (mk_file c pos) d 0 n = Ret (mk_file c (pos + n), d', n).
Proof.
  intros Hc E. unfold memcpy in E. apply bind_ret_inv in E as (y & E & W).
  apply read_at_inv in E as (? & ? & ? & ->). apply write_at_inv in W as (_ & W & ->).
  rewrite zlen_sub in W by lia. by rewrite save_read_all by (done || lia).
Qed.

Lemma read_array_sim {R} sys_read n get (upd : list Z -> R -> R) c p pos neof x :
  reads_of sys_read c -> memcpy (get p) 0 c pos n = Ret x ->
  read_field sys_read true n get upd (mk_file c pos, p, neof) = Ret (mk_file c (pos + n), upd x p, n).
Proof. intros Hc E. cbn [read_field]. by rewrite (save_read_sim _ _ _ _ _ _ Hc E). Qed.

Lemma read_field_ptr_sim {R} sys_read malloc b n (upd : option (list Z) -> R -> R) c p pos neof p' pos' :
  reads_of sys_read c -> mallocs malloc -> 0 <= pos -> (b = true -> 0 <= n) ->
  field_ptr malloc b n upd c (p, pos) = Ret (p', pos') ->
  0 <= pos' /\ (exists x, p' = when b (upd x) p) /\
  exists neof', read_field_ptr sys_read malloc b n upd (mk_file c pos, p, neof) = Ret (mk_file c pos', p', neof').
Proof.
  intros Hc Hm Hpos Hn. destruct b; cbn [field_ptr read_field_ptr when].
  - specialize (Hn eq_refl). destruct (Hm n Hn) as (d & Ed & Hd). rewrite Ed. unfold store.
    destruct (Z.eqb_spec n 0) as [E0|E0]; cbn.
    + intros [= <- <-]. split; [lia|]. split; [eauto|]. unfold save_read. rewrite E0. cbn.
      rewrite Z.add_0_r. eauto.
    + destruct (memcpy d 0 c pos n) as [x| |] eqn:E; cbn; try discriminate. intros [= <- <-].
      unfold memcpy in E. apply bind_ret_inv in E as (y & E & W).
      apply read_at_inv in E as (_ & _ & Hr & ->). apply write_at_inv in W as (_ & _ & ->).
      split; [lia|]. split; [eauto|]. rewrite save_read_all by (done || lia). cbn. eauto.
  - intros [= <- <-]. split; [done|]. split; [by exists None|]. eauto.
Qed.

(** One step on a descriptor, where the bytes are known. *)
Lemma read_field_at {R} sys_read b n get (upd : list Z -> R -> R) c pos p neof x :
  reads_of sys_read c -> (b = true -> zlen x = n) -> (b = true -> zlen (get p) = n) -> at_pos c pos (opt b x) ->
  read_field sys_read b n get upd (mk_file c pos, p, neof) =
    Ret (mk_file c (pos + zlen (opt b x)), when b (upd x) p, if b then n else neof).
Proof.
  intros Hc Hx Hg Ha. destruct b; cbn [read_field when opt] in *.
  - destruct Ha as (? & ? & E). specialize (Hx eq_refl). specialize (Hg eq_refl). subst n.
    pose proof (zlen_nonneg x). rewrite save_read_all by (done || lia). cbn. by rewrite E, blit_all by done.
  - by rewrite Z.add_0_r.
Qed.

(** A run of steps either crashes or ends at a position between [c] and the end
    of the buffer, with the property [P] of the structure kept. *)
Definition advances {R} (P : R -> Prop) (buf : list Z) (c : Z) (m : outcome (R * Z)) : Prop :=
  match m with
  | Ret (p, c') => P p /\ c <= c' <= zlen buf
  | Crash => True
  | Hang => False
  end.

Lemma advances_bind {R} (P : R -> Prop) buf c (m : outcome (R * Z)) k :
  advances P buf c m -> (forall p c', P p -> c <= c' <= zlen buf -> advances P buf c' (k (p, c'))) ->
  advances P buf c (m ≫= k).
Proof.
  destruct m as [[p c']| |]; cbn; try done. intros [Hp Hc] Hk. specialize (Hk p c' Hp Hc).
  destruct (k (p, c')) as [[p2 c2]| |]; cbn in *; try done. destruct Hk as [? ?]. split; [done|lia].
Qed.

Lemma field_advances {R} (P : R -> Prop) b n (upd : list Z -> R -> R) buf p c :
  0 <= n -> c <= zlen buf -> P p -> (forall x p, P p -> P (upd x p)) ->
  advances P buf c (field b n upd buf (p, c)).
Proof.
  intros Hn Hc Hp Hu. destruct b; cbn [field]; [|split; [done|lia]].
  unfold read_at. destruct (in_range buf c n) eqn:E; cbn; [|done].
  apply in_range_true in E. split; [auto|lia].
Qed.

Lemma field_ptr_advances {R} (P : R -> Prop) malloc b n (upd : option (list Z) -> R -> R) buf p c :
  c <= zlen buf -> P p -> (forall x p, P p -> P (upd x p)) ->
  advances P buf c (field_ptr malloc b n upd buf (p, c)).
Proof.
  intros Hc Hp Hu. destruct b; cbn [field_ptr]; [|split; [done|lia]]. unfold store.
  destruct (Z.eqb_spec n 0) as [ -> |]; [cbn; split; [auto|lia]|].
  destruct (malloc n) as [d|]; [|done]. unfold memcpy, read_at.
  destruct (in_range buf c n) eqn:E; [|done]. apply in_range_true in E. cbn.
  unfold write_at. destruct (in_range _ _ _); cbn; [|done]. split; [auto|lia].
Qed.

(** A member that the step does not set. *)
Lemma when_keep {R T} (f : R -> T) b u r : (forall r, f (u r) = f r) -> f (when b u r) = f r.
Proof. intros H. destruct b; cbn; [apply H|done]. Qed.

Lemma when_set {R T} (f : R -> T) b u r x : b = true -> (forall r, f (u r) = x) -> f (when b u r) = x.
Proof. intros -> H. apply H. Qed.

(** [take x]: the next step of a parser reads [x]. *)
Ltac take x := rewrite (field_ok _ _ _ _ _ _ x) by (intros; done); cbn [mbind outcome_bind].

(** [rtake x]: the same for a parser on a descriptor. *)
Ltac rtake x :=
  rewrite (read_field_at _ _ _ _ _ _ _ _ _ x) by (intros; first [done | eassumption]);
  cbn [mbind outcome_bind opt].

(** [members f]: the value of the member [f] after a run of steps. *)
Ltac members f := repeat (rewrite (when_keep f) by done).

(** [member f]: the member [f] has been set by the step whose flag is known. *)
Ltac member f :=
  members f; repeat match goal with H : ?b = true |- context [when ?b] => rewrite H end;
  try done.

#[global] Arguments emit : simpl never.
#[global] Arguments emit_ptr : simpl never.
#[global] Arguments emit_stuffing : simpl never.
#[global] Arguments field : simpl never.
#[global] Arguments field_ptr : simpl never.
#[global] Arguments read_field : simpl never.
#[global] Arguments read_field_ptr : simpl never.
#[global] Arguments when : simpl never.
#[global] Arguments store : simpl never.
#[global] Arguments fetch : simpl never.
#[global] Arguments emitted : simpl never.

(** ** A concrete environment *)
Definition sample_malloc (n : Z) : option (list Z) := Some (replicate (Z.to_nat n) 0xcc).
(** A descriptor that hands out single bytes. *)
Definition byte_reads (c : list Z) (pos n : Z) : Z := if pos <? zlen c then 1 else 0.

Lemma sample_mallocs : mallocs sample_malloc.
Proof. intros n Hn. eexists. split; [done|]. zsimpl. lia. Qed.

Lemma byte_reads_ok c : reads_of (byte_reads c) c.
Proof. intros pos n Hpos Hn. unfold byte_reads. destruct (Z.ltb_spec pos (zlen c)); lia. Qed.

(** ** Bit fields *)

(** [byte_bits]: equality of two bytes built with shifts and masks, bit by bit. *)
Lemma byte_eq a b :
  (forall n, 0 <= n < 8 -> Z.testbit a n = Z.testbit b n) -> Z.land a 0xff = Z.land b 0xff.
Proof.
  intros H. apply Z.bits_inj'. intros n Hn. rewrite !Z.land_spec. destruct (Z.lt_ge_cases n 8).
  - by rewrite H by lia.
  - rewrite (Z.bits_above_log2 0xff n), !andb_false_r; [done|lia|]. change (Z.log2 0xff) with 7. lia.
Qed.

Lemma u8_land x : u8 x = Z.land x 0xff.
Proof. symmetry. apply (Z.land_ones x 8). lia. Qed.

Ltac bit_step :=
  first [ rewrite Z.lor_spec | rewrite Z.land_spec | rewrite Z.shiftr_spec by lia
        | rewrite Z.shiftl_spec by lia ].
Ltac bit_consts :=
  repeat match goal with
  | |- context [Z.testbit (Zpos ?p) ?n] =>
      let b := eval vm_compute in (Z.testbit (Zpos p) n) in
      lazymatch b with
      | true => change (Z.testbit (Zpos p) n) with true
      | false => change (Z.testbit (Zpos p) n) with false
      end
  | |- context [Z.testbit ?x (Zneg ?p)] => change (Z.testbit x (Zneg p)) with false
  | |- context [Z.testbit ?x (?a + ?b)] =>
      let c := eval vm_compute in (a + b) in
      lazymatch c with Zneg _ => idtac | Z0 => idtac | Zpos _ => idtac end;
      change (Z.testbit x (a + b)) with (Z.testbit x c)
  | |- context [Z.testbit ?x (?a - ?b)] =>
      let c := eval vm_compute in (a - b) in
      lazymatch c with Zneg _ => idtac | Z0 => idtac | Zpos _ => idtac end;
      change (Z.testbit x (a - b)) with (Z.testbit x c)
  end.
Ltac bits8 :=
  intros ?n ?Hn;
  match goal with H : 0 <= ?n < 8 |- _ =>
    assert (n = 0 \/ n = 1 \/ n = 2 \/ n = 3 \/ n = 4 \/ n = 5 \/ n = 6 \/ n = 7) as Hcase by lia;
    clear H; repeat destruct Hcase as [ -> |Hcase]; [..|rewrite Hcase]
  end;
  repeat (bit_step; bit_consts); rewrite ?andb_true_r, ?andb_false_r, ?orb_false_r, ?orb_true_r; cbn [orb andb];
  try done.
Ltac byte_bits := rewrite ?u8_land; apply byte_eq; bits8.

Lemma land_small x : 0 <= x < 256 -> Z.land x 0xff = x.
Proof. intros. change 0xff with (Z.ones 8). rewrite Z.land_ones by lia. by apply Z.mod_small. Qed.

(** The four bytes of the 32 low bits of [t], most significant first. *)
Definition be32 (t : Z) : list Z :=
  [Z.land (Z.shiftr t 24) 0xff; Z.land (Z.shiftr t 16) 0xff; Z.land (Z.shiftr t 8) 0xff; Z.land t 0xff].
