(* ===== verification/TsPacket.v ===== *)
(** * Transport packets of libmpegtools

    Models the transport stream part of
    apps/misc/libs/libmpegtools/ctools.c: printing a packet ([cwrite_ts]),
    parsing it from memory ([cread_ts]) and from a descriptor ([read_ts]).
    [cread_ts] undoes [cwrite_ts], [read_ts] agrees with [cread_ts], and an
    adaptation field of length 0 is read as one of length 256. *)
From S2P Require Import Prelude MpegIO.

Definition TS_SIZE : Z := 188.
Definition PID_MASK_HI : Z := 0x1F.
Definition ADAPT_FIELD : Z := 0x20.
Definition PAYLOAD : Z := 0x10.
Definition COUNT_MASK : Z := 0x0F.
Definition PCR_FLAG : Z := 0x10.
Definition OPCR_FLAG : Z := 0x08.
Definition SPLICE_FLAG : Z := 0x04.
Definition TRANS_PRIV : Z := 0x02.
Definition ADAP_EXT_FLAG : Z := 0x01.
Definition LTW_FLAG : Z := 0x80.
Definition PIECE_RATE : Z := 0x40.
Definition SEAM_SPLICE : Z := 0x20.

(** [typedef struct ts_packet_] *)
Record ts_packet := mk_ts {
  t_pid : list Z;
  t_flags : Z;
  t_count : Z;
  t_data : list Z;
  t_adapt_length : Z;
  t_adapt_flags : Z;
  t_pcr : list Z;
  t_opcr : list Z;
  t_splice_count : Z;
  t_priv_dat_len : Z;
  t_priv_dat : option (list Z);
  t_adapt_ext_len : Z;
  t_adapt_eflags : Z;
  t_ltw : list Z;
  t_piece_rate : list Z;
  t_dts : list Z;
  t_rest : Z;
  t_stuffing : Z }.
#[export] Instance eta_ts_packet : Eta ts_packet := fun p =>
  mk_ts (t_pid p) (t_flags p) (t_count p) (t_data p) (t_adapt_length p) (t_adapt_flags p)
    (t_pcr p) (t_opcr p) (t_splice_count p) (t_priv_dat_len p) (t_priv_dat p)
    (t_adapt_ext_len p) (t_adapt_eflags p) (t_ltw p) (t_piece_rate p) (t_dts p) (t_rest p) (t_stuffing p).

Definition init_ts (p : ts_packet) : outcome ts_packet :=
  pid ← write_at (t_pid p) 0 [0];
  pid ← write_at pid 1 [0];
  Ret (p <| t_pid := pid |> <| t_flags := 0 |> <| t_count := 0 |> <| t_adapt_length := 0 |>
         <| t_adapt_flags := 0 |> <| t_splice_count := 0 |> <| t_priv_dat_len := 0 |>
         <| t_priv_dat := None |> <| t_adapt_ext_len := 0 |> <| t_adapt_eflags := 0 |>
         <| t_rest := 0 |> <| t_stuffing := 0 |>).

(** The block that is freed is [t_priv_dat]. *)
Definition kill_ts (p : ts_packet) : outcome ts_packet := init_ts p.

Definition get_pid (pid : list Z) : outcome Z :=
  hi ← load pid 0;
  lo ← load pid 1;
  Ret (u16 (Z.lor (Z.shiftl (Z.land hi PID_MASK_HI) 8) lo)).

Definition pid_ts (p : ts_packet) : outcome Z := get_pid (t_pid p).

Definition cwrite_ts (buf : list Z) (p : ts_packet) (length : Z) : outcome (list Z * Z) :=
  w ← emit true [0x47] 1 (buf, 0);
  w ← emit true (t_pid p) 2 w;
  w ← emit true [t_flags p] 1 w;
  if negb (flag (t_flags p) ADAPT_FIELD) && flag (t_flags p) PAYLOAD then
    emit true (t_data p) 184 w
  else
    w ← emit true [t_adapt_length p] 1 w;
    w ← emit true [t_adapt_flags p] 1 w;
    w ← emit (flag (t_adapt_flags p) PCR_FLAG) (t_pcr p) 6 w;
    w ← emit (flag (t_adapt_flags p) OPCR_FLAG) (t_opcr p) 6 w;
    w ← emit (flag (t_adapt_flags p) SPLICE_FLAG) [t_splice_count p] 1 w;
    let priv := flag (t_adapt_flags p) TRANS_PRIV in
    w ← emit priv [t_priv_dat_len p] 1 w;
    w ← emit_ptr priv (t_priv_dat p) (t_priv_dat_len p) w;
    let ext := flag (t_adapt_flags p) ADAP_EXT_FLAG in
    w ← emit ext [t_adapt_ext_len p] 1 w;
    w ← emit ext [t_adapt_eflags p] 1 w;
    w ← emit (ext && flag (t_adapt_eflags p) LTW_FLAG) (t_ltw p) 2 w;
    w ← emit (ext && flag (t_adapt_eflags p) PIECE_RATE) (t_piece_rate p) 3 w;
    w ← emit (ext && flag (t_adapt_eflags p) SEAM_SPLICE) (t_dts p) 5 w;
    w ← emit_stuffing (Z.to_nat (t_stuffing p)) w;
    emit (flag (t_flags p) PAYLOAD) (t_data p) (t_rest p) w.

(** The bytes that reach [write]; [stack] is the array of [TS_SIZE] bytes they
    are put together in. *)
Definition write_ts (p : ts_packet) (stack : list Z) : outcome (list Z) :=
  '(buf, length) ← cwrite_ts stack p TS_SIZE; read_at buf 0 length.

(** The search for the sync byte: where [count] stops. *)
Fixpoint cread_sync (fuel : nat) (buf : list Z) (count length : Z) : outcome Z :=
  if count <? length then
    match fuel with
    | O => Hang
    | S fuel =>
      sync ← load buf count;
      if sync =? 0x47 then Ret (count + 1) else cread_sync fuel buf (count + 1) length
    end
  else Ret count.

Section Memory.
Variable malloc : Z -> option (list Z).

(** The optional fields of an adaptation field whose flags have been read. *)
Definition cread_adapt (buf : list Z) (p : ts_packet) (count : Z) : outcome (ts_packet * Z) :=
  let byte upd := fun x => upd (zn x 0) in
  s ← field (flag (t_adapt_flags p) PCR_FLAG) 6 (fun x p => p <| t_pcr := x |>) buf (p, count);
  s ← field (flag (t_adapt_flags p) OPCR_FLAG) 6 (fun x p => p <| t_opcr := x |>) buf s;
  s ← field (flag (t_adapt_flags p) SPLICE_FLAG) 1 (byte (fun x p => p <| t_splice_count := x |>)) buf s;
  let priv := flag (t_adapt_flags p) TRANS_PRIV in
  s ← field priv 1 (byte (fun x p => p <| t_priv_dat_len := x |>)) buf s;
  s ← field_ptr malloc priv (t_priv_dat_len (fst s)) (fun x p => p <| t_priv_dat := x |>) buf s;
  let ext := flag (t_adapt_flags p) ADAP_EXT_FLAG in
  s ← field ext 1 (byte (fun x p => p <| t_adapt_ext_len := x |>)) buf s;
  s ← field ext 1 (byte (fun x p => p <| t_adapt_eflags := x |>)) buf s;
  let eflags := t_adapt_eflags (fst s) in
  s ← field (ext && flag eflags LTW_FLAG) 2 (fun x p => p <| t_ltw := x |>) buf s;
  s ← field (ext && flag eflags PIECE_RATE) 3 (fun x p => p <| t_piece_rate := x |>) buf s;
  field (ext && flag eflags SEAM_SPLICE) 5 (fun x p => p <| t_dts := x |>) buf s.

(** The adaptation field, if there is one, and the payload behind it. *)
Definition cread_ts_tail (buf : list Z) (p : ts_packet) (count : Z) : outcome ts_packet :=
  if flag (t_flags p) ADAPT_FIELD then
    al ← load buf count;
    let count := count + 1 in
    let po := count in
    af ← load buf count;
    let count := count + 1 in
    '(p, q) ← cread_adapt buf (p <| t_adapt_length := al |> <| t_adapt_flags := af |>) count;
    let p := p <| t_stuffing := u8 (t_adapt_length p - (q - po)) |> <| t_rest := 183 - t_adapt_length p |> in
    let count := q + t_stuffing p in
    if flag (t_flags p) PAYLOAD then
      d ← memcpy (t_data p) 0 buf count (u32 (t_rest p));
      Ret (p <| t_data := d |>)
    else Ret p
  else Ret p.

Definition cread_ts (buf : list Z) (p : ts_packet) (length : Z) : outcome ts_packet :=
  count ← cread_sync (Z.to_nat length) buf 0 length;
  pid ← memcpy (t_pid p) 0 buf count 2;
  let count := count + 2 in
  flags ← load buf count;
  let count := count + 1 in
  let p := p <| t_pid := pid |> <| t_flags := flags |> <| t_count := Z.land flags COUNT_MASK |> in
  if negb (flag flags ADAPT_FIELD) && flag flags PAYLOAD then
    d ← memcpy (t_data p) 0 buf count 184;
    Ret (p <| t_data := d |> <| t_rest := 184 |>)
  else cread_ts_tail buf p count.

(** *** From a descriptor *)
Variable sys_read : Z -> Z -> Z.

(** [save_read (f, &sync, 1)] until it is the sync byte or the file ends. *)
Fixpoint read_sync (fuel : nat) (f : file) (sync : list Z) : outcome file :=
  match fuel with
  | O => Hang
  | S fuel =>
    '(f, sync, neof) ← save_read sys_read f sync 0 1;
    s ← load sync 0;
    if s =? 0x47 then Ret f
    else if neof >? 0 then read_sync fuel f sync else Ret f
  end.

Definition read_adapt (st : file * ts_packet * Z) : outcome (file * ts_packet * Z) :=
  let af := flag (t_adapt_flags (snd (fst st))) in
  let byte upd := fun x => upd (zn x 0) in
  s ← read_field sys_read (af PCR_FLAG) 6 t_pcr (fun x p => p <| t_pcr := x |>) st;
  s ← read_field sys_read (af OPCR_FLAG) 6 t_opcr (fun x p => p <| t_opcr := x |>) s;
  s ← read_field sys_read (af SPLICE_FLAG) 1 (fun p => [t_splice_count p])
        (byte (fun x p => p <| t_splice_count := x |>)) s;
  s ← read_field sys_read (af TRANS_PRIV) 1 (fun p => [t_priv_dat_len p])
        (byte (fun x p => p <| t_priv_dat_len := x |>)) s;
  s ← read_field_ptr sys_read malloc (af TRANS_PRIV) (t_priv_dat_len (snd (fst s)))
        (fun x p => p <| t_priv_dat := x |>) s;
  s ← read_field sys_read (af ADAP_EXT_FLAG) 1 (fun p => [t_adapt_ext_len p])
        (byte (fun x p => p <| t_adapt_ext_len := x |>)) s;
  s ← read_field sys_read (af ADAP_EXT_FLAG) 1 (fun p => [t_adapt_eflags p])
        (byte (fun x p => p <| t_adapt_eflags := x |>)) s;
  let ef m := af ADAP_EXT_FLAG && flag (t_adapt_eflags (snd (fst s))) m in
  s ← read_field sys_read (ef LTW_FLAG) 2 t_ltw (fun x p => p <| t_ltw := x |>) s;
  s ← read_field sys_read (ef PIECE_RATE) 3 t_piece_rate (fun x p => p <| t_piece_rate := x |>) s;
  read_field sys_read (ef SEAM_SPLICE) 5 t_dts (fun x p => p <| t_dts := x |>) s.

Definition read_ts_tail (st : file * ts_packet * Z) : outcome (file * ts_packet * Z) :=
  if flag (t_flags (snd (fst st))) ADAPT_FIELD then
    let byte upd := fun x => upd (zn x 0) in
    s ← read_field sys_read true 1 (fun p => [t_adapt_length p])
          (byte (fun x p => p <| t_adapt_length := x |>)) st;
    let po := fpos (fst (fst s)) in
    s ← read_field sys_read true 1 (fun p => [t_adapt_flags p])
          (byte (fun x p => p <| t_adapt_flags := x |>)) s;
    '(f, p, neof) ← read_adapt s;
    let q := fpos f in
    let p := p <| t_stuffing := u8 (t_adapt_length p - (q - po)) |> <| t_rest := 183 - t_adapt_length p |> in
    let f := lseek_set f (q + t_stuffing p) in
    if flag (t_flags p) PAYLOAD then
      '(f, d, neof) ← save_read sys_read f (t_data p) 0 (u32 (t_rest p));
      Ret (f, p <| t_data := d |>, neof)
    else Ret (lseek_set f (q + t_rest p), p, neof)
  else Ret st.

Definition read_ts (f : file) (p : ts_packet) : outcome (file * ts_packet * Z) :=
  f ← read_sync (S (length (content f))) f [0];
  s ← read_field sys_read true 2 t_pid (fun x p => p <| t_pid := x |>) (f, p, 1);
  '(f, p, neof) ← read_field sys_read true 1 (fun p => [t_flags p])
                    (fun x p => p <| t_flags := zn x 0 |>) s;
  let p := p <| t_count := Z.land (t_flags p) COUNT_MASK |> in
  if negb (flag (t_flags p) ADAPT_FIELD) && flag (t_flags p) PAYLOAD then
    '(f, d, neof) ← save_read sys_read f (t_data p) 0 184;
    Ret (f, p <| t_data := d |> <| t_rest := 184 |>, neof)
  else read_ts_tail (f, p, neof).
End Memory.

(** ** What a packet looks like *)
Definition adapt_fields (p : ts_packet) : list Z :=
  let af := flag (t_adapt_flags p) in
  let ef := flag (t_adapt_eflags p) in
  opt (af PCR_FLAG) (t_pcr p) ++ opt (af OPCR_FLAG) (t_opcr p) ++
  opt (af SPLICE_FLAG) [t_splice_count p] ++
  opt (af TRANS_PRIV) [t_priv_dat_len p] ++ opt (af TRANS_PRIV) (block (t_priv_dat p) (t_priv_dat_len p)) ++
  opt (af ADAP_EXT_FLAG) [t_adapt_ext_len p] ++ opt (af ADAP_EXT_FLAG) [t_adapt_eflags p] ++
  opt (af ADAP_EXT_FLAG && ef LTW_FLAG) (t_ltw p) ++
  opt (af ADAP_EXT_FLAG && ef PIECE_RATE) (t_piece_rate p) ++
  opt (af ADAP_EXT_FLAG && ef SEAM_SPLICE) (t_dts p).

Definition plain (p : ts_packet) : bool := negb (flag (t_flags p) ADAPT_FIELD) && flag (t_flags p) PAYLOAD.

Definition ts_bytes (p : ts_packet) : list Z :=
  [0x47] ++ t_pid p ++ [t_flags p] ++
  if plain p then t_data p else
    [t_adapt_length p] ++ [t_adapt_flags p] ++ adapt_fields p ++
    replicate (Z.to_nat (t_stuffing p)) 0xff ++ opt (flag (t_flags p) PAYLOAD) (sub (t_data p) 0 (t_rest p)).

(** The arrays of the structure have their sizes. *)
Record ts_arrays (p : ts_packet) : Prop := {
  ta_pid : zlen (t_pid p) = 2;
  ta_data : zlen (t_data p) = 184;
  ta_pcr : zlen (t_pcr p) = 6;
  ta_opcr : zlen (t_opcr p) = 6;
  ta_ltw : zlen (t_ltw p) = 2;
  ta_piece_rate : zlen (t_piece_rate p) = 3;
  ta_dts : zlen (t_dts p) = 5 }.

(** A packet that can be sent: the adaptation field announces its length and
    the payload fills the rest of the 188 bytes. *)
Record ts_ok (p : ts_packet) : Prop := {
  to_arrays : ts_arrays p;
  to_priv : flag (t_adapt_flags p) TRANS_PRIV = true -> block_ok (t_priv_dat p) (t_priv_dat_len p);
  to_count : t_count p = Z.land (t_flags p) COUNT_MASK;
  to_stuffing : 0 <= t_stuffing p < 256;
  to_kind : if flag (t_flags p) ADAPT_FIELD then
      t_adapt_length p = 1 + zlen (adapt_fields p) + t_stuffing p /\ t_adapt_length p <= 183 /\
      t_rest p = 183 - t_adapt_length p
    else flag (t_flags p) PAYLOAD = true /\ t_rest p = 184 }.

Lemma cwrite_ts_bytes p buf n : ts_ok p -> cwrite_ts buf p n = emitted buf (ts_bytes p).
Proof.
  intros [[] Hpriv _ Hs Hk]. unfold cwrite_ts, ts_bytes. fold (plain p).
  assert (Hr : flag (t_flags p) PAYLOAD = true -> plain p = false -> 0 <= t_rest p <= zlen (t_data p)).
  { intros Hp Hn. unfold plain in Hn. destruct (flag (t_flags p) ADAPT_FIELD); [|by rewrite Hp in Hn].
    pose proof (zlen_nonneg (adapt_fields p)). lia. }
  destruct (plain p).
  - print. rewrite sub_all by lia. done.
  - print. unfold adapt_fields. by rewrite <- !app_assoc.
Qed.

(** The optional fields of [p] have been read into [q]. *)
Record same_adapt (p q : ts_packet) : Prop := {
  sa_pcr : flag (t_adapt_flags p) PCR_FLAG = true -> t_pcr q = t_pcr p;
  sa_opcr : flag (t_adapt_flags p) OPCR_FLAG = true -> t_opcr q = t_opcr p;
  sa_splice : flag (t_adapt_flags p) SPLICE_FLAG = true -> t_splice_count q = t_splice_count p;
  sa_priv : flag (t_adapt_flags p) TRANS_PRIV = true ->
    t_priv_dat_len q = t_priv_dat_len p /\ t_priv_dat q = Some (block (t_priv_dat p) (t_priv_dat_len p));
  sa_ext : flag (t_adapt_flags p) ADAP_EXT_FLAG = true ->
    t_adapt_ext_len q = t_adapt_ext_len p /\ t_adapt_eflags q = t_adapt_eflags p /\
    (flag (t_adapt_eflags p) LTW_FLAG = true -> t_ltw q = t_ltw p) /\
    (flag (t_adapt_eflags p) PIECE_RATE = true -> t_piece_rate q = t_piece_rate p) /\
    (flag (t_adapt_eflags p) SEAM_SPLICE = true -> t_dts q = t_dts p) }.

(** The members that reading the optional fields leaves alone. *)
Definition base (q : ts_packet) :=
  (t_pid q, t_flags q, t_count q, t_data q, t_adapt_length q, t_adapt_flags q).

Lemma cread_adapt_ok malloc p q buf c :
  mallocs malloc -> ts_ok p -> at_pos buf c (adapt_fields p) -> t_adapt_flags q = t_adapt_flags p ->
  exists q', cread_adapt malloc buf q c = Ret (q', c + zlen (adapt_fields p)) /\ same_adapt p q' /\ base q' = base q.
Proof.
  intros Hm [[] Hpriv _ _ _] Ha Hq. unfold adapt_fields in *. cbv zeta in *.
  repeat rewrite at_app in Ha. destruct Ha as (H1 & H2 & H3 & H4 & H5 & H6 & H7 & H8 & H9 & H10).
  unfold cread_adapt. cbv zeta. rewrite Hq. clear Hq.
  take (t_pcr p). take (t_opcr p). take [t_splice_count p]. take [t_priv_dat_len p].
  rewrite (field_ptr_ok _ _ _ _ _ _ _ (block (t_priv_dat p) (t_priv_dat_len p)));
    [|done| |done].
  2: { intros Hb. rewrite Hb. cbn. apply fetch_ok. auto. }
  cbn [mbind outcome_bind].
  take [t_adapt_ext_len p]. take [t_adapt_eflags p]. cbn [fst].
  assert (He : forall r m, flag (t_adapt_flags p) ADAP_EXT_FLAG &&
     flag (t_adapt_eflags (when (flag (t_adapt_flags p) ADAP_EXT_FLAG)
       (fun r => r <| t_adapt_eflags := zn [t_adapt_eflags p] 0 |>) r)) m =
     flag (t_adapt_flags p) ADAP_EXT_FLAG && flag (t_adapt_eflags p) m)
    by (intros; by destruct (flag _ ADAP_EXT_FLAG)).
  rewrite !He. take (t_ltw p). take (t_piece_rate p). rewrite (field_ok _ _ _ _ _ _ (t_dts p)) by (intros; done).
  eexists. split; [f_equal; f_equal; rewrite !zlen_app; lia|]. split.
  - split.
    + intros Hf. member t_pcr.
    + intros Hf. member t_opcr.
    + intros Hf. member t_splice_count.
    + intros Hf. split; [member t_priv_dat_len | member t_priv_dat].
    + intros Hf. split; [member t_adapt_ext_len|]. split; [member t_adapt_eflags|].
      rewrite Hf. cbn [andb]. repeat split; intros Hf2; [member t_ltw | member t_piece_rate | member t_dts].
  - unfold base. members t_pid. members t_flags. members t_count. members t_data.
    members t_adapt_length. by members t_adapt_flags.
Qed.

(** [q] is the packet [p] as far as [p]'s flags say its members are used. *)
Record same_ts (p q : ts_packet) : Prop := {
  st_pid : t_pid q = t_pid p;
  st_flags : t_flags q = t_flags p;
  st_count : t_count q = t_count p;
  st_rest : t_rest q = t_rest p;
  st_adapt : flag (t_flags p) ADAPT_FIELD = true ->
    t_adapt_length q = t_adapt_length p /\ t_adapt_flags q = t_adapt_flags p /\
    t_stuffing q = t_stuffing p /\ same_adapt p q;
  st_data : flag (t_flags p) PAYLOAD = true ->
    sub (t_data q) 0 (t_rest p) = sub (t_data p) 0 (t_rest p) }.

Lemma ts_bytes_len p :
  ts_ok p -> zlen (ts_bytes p) <= 188 /\ (flag (t_flags p) PAYLOAD = true -> zlen (ts_bytes p) = 188).
Proof.
  intros [[] _ _ Hs Hk]. unfold ts_bytes, plain. pose proof (zlen_nonneg (adapt_fields p)).
  destruct (flag (t_flags p) ADAPT_FIELD), (flag (t_flags p) PAYLOAD) eqn:Ep; cbn [negb andb opt];
    zsimpl; rewrite ?Z2Nat.id by lia; lia.
Qed.

Lemma cread_sync_hit buf n : 0 < n -> at_pos buf 0 [0x47] -> cread_sync (Z.to_nat n) buf 0 n = Ret 1.
Proof.
  intros Hn Ha. destruct (Z.to_nat n) as [|k] eqn:E; [lia|]. cbn [cread_sync].
  rewrite (proj2 (Z.ltb_lt 0 n)) by lia. rewrite (at_load buf 0 0x47) by done. done.
Qed.

Lemma zlen_cons_pos {A} (a : A) l : 0 < zlen (a :: l).
Proof. rewrite zlen_cons. pose proof (zlen_nonneg l). lia. Qed.

(** Copying over the beginning of an array, and over all of it. *)
Lemma memcpy_prefix d x buf c n :
  n <= zlen d -> zlen x = n -> at_pos buf c x -> memcpy d 0 buf c n = Ret (blit d 0 x).
Proof.
  intros Hd Hx Ha. unfold memcpy. rewrite <- Hx. rewrite at_read by done. cbn.
  apply write_at_ok; lia.
Qed.

Lemma memcpy_all d x buf c n :
  zlen d = n -> zlen x = n -> at_pos buf c x -> memcpy d 0 buf c n = Ret x.
Proof.
  intros Hd Hx Ha. rewrite (memcpy_prefix d x) by (done || lia). f_equal.
  rewrite <- (sub_all (blit d 0 x) (zlen x)) by (rewrite zlen_blit; lia). apply sub_blit_eq; lia.
Qed.

(** The adaptation field and the payload behind it. *)
Lemma cread_ts_adapt malloc p q buf :
  mallocs malloc -> ts_ok p -> flag (t_flags p) ADAPT_FIELD = true ->
  t_pid q = t_pid p -> t_flags q = t_flags p -> t_count q = t_count p -> zlen (t_data q) = 184 ->
  at_pos buf 4 ([t_adapt_length p] ++ [t_adapt_flags p] ++ adapt_fields p ++
    replicate (Z.to_nat (t_stuffing p)) 0xff ++ opt (flag (t_flags p) PAYLOAD) (sub (t_data p) 0 (t_rest p))) ->
  exists q', cread_ts_tail malloc buf q 4 = Ret q' /\ same_ts p q'.
Proof.
  intros Hm Hp Hf Q1 Q2 Q3 Q4 Ha. pose proof Hp as [[_ Pd _ _ _ _ _] _ Hcount Hs Hk].
  rewrite Hf in Hk. destruct Hk as (K1 & K2 & K3). pose proof (zlen_nonneg (adapt_fields p)) as Hz.
  rewrite !at_app in Ha. destruct Ha as (H0 & H1 & H2 & _ & H4).
  change (zlen [t_adapt_length p]) with 1 in *. change (zlen [t_adapt_flags p]) with 1 in *.
  rewrite zlen_replicate, Z2Nat.id in H4 by lia. unfold cread_ts_tail. rewrite Q2, Hf.
  rewrite (at_load _ _ _ H0). cbn [mbind outcome_bind].
  rewrite (at_load _ _ _ H1). cbn [mbind outcome_bind].
  set (q1 := q <| t_adapt_length := t_adapt_length p |> <| t_adapt_flags := t_adapt_flags p |>).
  destruct (cread_adapt_ok malloc p q1 buf (4 + 1 + 1) Hm Hp H2 eq_refl) as (q2 & -> & Hsame & Hbase).
  injection Hbase as B1 B2 B3 B4 B5 B6. unfold q1, set in *. clear q1.
  cbn [t_pid t_flags t_count t_data t_adapt_length t_adapt_flags] in *.
  cbn [mbind outcome_bind t_flags t_data t_stuffing t_rest]. rewrite B2, B4, B5, Q2.
  replace (u8 (t_adapt_length p - (4 + 1 + 1 + zlen (adapt_fields p) - (4 + 1)))) with (t_stuffing p).
  2: { unfold u8. rewrite Z.mod_small by lia. lia. }
  replace (183 - t_adapt_length p) with (t_rest p) by lia.
  replace (u32 (t_rest p)) with (t_rest p) by (unfold u32; rewrite Z.mod_small by lia; lia).
  destruct (flag (t_flags p) PAYLOAD) eqn:Epl; cbn [opt] in H4.
  - rewrite (memcpy_prefix _ (sub (t_data p) 0 (t_rest p))) by (zsimpl; done || lia).
    eexists. split; [done|]. destruct Hsame. split; cbn; rewrite ?B1, ?B2, ?B3, ?B5, ?B6; try done.
    intros _. assert (Hl : zlen (sub (t_data p) 0 (t_rest p)) = t_rest p) by (zsimpl; lia).
    rewrite <- Hl at 2. apply sub_blit_eq; lia.
  - eexists. split; [done|]. destruct Hsame. split; cbn; rewrite ?B1, ?B2, ?B3, ?B5, ?B6; try done.
    by rewrite Epl.
Qed.

Lemma cread_ts_ok malloc p q buf :
  mallocs malloc -> ts_ok p -> ts_arrays q -> at_pos buf 0 (ts_bytes p) ->
  exists q', cread_ts malloc buf q (zlen (ts_bytes p)) = Ret q' /\ same_ts p q'.
Proof.
  intros Hm Hp [Qp Qd _ _ _ _ _] Ha. pose proof Hp as [[Pp Pd _ _ _ _ _] _ Hcount Hs Hk].
  assert (Hlen : 0 < zlen (ts_bytes p)) by apply zlen_cons_pos.
  unfold cread_ts. generalize (zlen (ts_bytes p)), Hlen. intros n Hn. clear Hlen.
  unfold ts_bytes in Ha. rewrite !at_app in Ha. destruct Ha as (H0 & H1 & H2 & H3).
  rewrite cread_sync_hit by done. cbn [mbind outcome_bind]. change (zlen [71]) with 1 in *.
  rewrite (memcpy_all (t_pid q) (t_pid p)) by (done || lia). cbn [mbind outcome_bind].
  rewrite Pp in *. rewrite (at_load buf (1 + 2) (t_flags p)) by done. cbn [mbind outcome_bind].
  change (zlen [t_flags p]) with 1 in *. fold (plain p). destruct (plain p) eqn:Ep.
  - unfold plain in Ep. apply andb_true_iff in Ep as [Ep Epl]. apply negb_true_iff in Ep. rewrite Ep in Hk.
    rewrite (memcpy_all _ (t_data p)) by done. eexists. split; [done|].
    split; try done; [by rewrite (proj2 Hk)|by rewrite Ep].
  - apply cread_ts_adapt; try done. unfold plain in Ep.
    destruct (flag (t_flags p) ADAPT_FIELD); [done|]. destruct Hk as [Hk _]. by rewrite Hk in Ep.
Qed.

(** ** Reading from a descriptor *)

(** [step E]: the next step of the parser, on the contents and on the descriptor. *)
Ltac sim_field H get :=
  let E := fresh "E" in let P := fresh "P" in
  apply bind_ret_inv in H as ([? ?] & E & H);
  eapply (read_field_sim _ _ _ get) in E as (P & -> & ? & E);
    [rewrite E; clear E; cbn [mbind outcome_bind fst snd] | done | assumption | done
    | intros _; first [reflexivity | members get; assumption]].

Lemma read_adapt_sim sys_read malloc c q pos neof q' pos' :
  reads_of sys_read c -> mallocs malloc -> bytes c -> ts_arrays q -> 0 <= pos ->
  cread_adapt malloc c q pos = Ret (q', pos') ->
  0 <= pos' /\ base q' = base q /\
  exists neof', read_adapt malloc sys_read (mk_file c pos, q, neof) = Ret (mk_file c pos', q', neof').
Proof.
  intros Hc Hm Hb [Hp Hd H1 H2 H3 H4 H5] Hpos H. unfold cread_adapt in H. cbv zeta in H.
  unfold read_adapt. cbv zeta. cbn [fst snd].
  sim_field H t_pcr. sim_field H t_opcr. sim_field H (fun p => [t_splice_count p]).
  sim_field H (fun p => [t_priv_dat_len p]).
  apply bind_ret_inv in H as ([q1 z3] & E & H).
  eapply read_field_ptr_sim in E as (P3 & [d ->] & n3 & E); [|done|done|done|].
  2: { intros Hf. rewrite Hf. apply zn_nonneg. bytes. }
  rewrite E. clear E. cbn [mbind outcome_bind fst snd].
  sim_field H (fun p => [t_adapt_ext_len p]). sim_field H (fun p => [t_adapt_eflags p]).
  sim_field H t_ltw. sim_field H t_piece_rate.
  eapply (read_field_sim _ _ _ t_dts) in H as (P9 & -> & n & E);
    [rewrite E; clear E | done | assumption | done | intros _; members t_dts; assumption].
  split; [done|]. split; [|eauto].
  unfold base. members t_pid. members t_flags. members t_count. members t_data.
  members t_adapt_length. by members t_adapt_flags.
Qed.

Lemma read_ts_tail_sim sys_read malloc c q pos neof q' :
  reads_of sys_read c -> mallocs malloc -> bytes c -> ts_arrays q -> 0 <= pos ->
  cread_ts_tail malloc c q pos = Ret q' ->
  exists f' neof', read_ts_tail malloc sys_read (mk_file c pos, q, neof) = Ret (f', q', neof').
Proof.
  intros Hc Hm Hb Ha Hpos H. unfold cread_ts_tail in H. unfold read_ts_tail. cbn [fst snd].
  destruct (flag (t_flags q) ADAPT_FIELD) eqn:Ef; [|injection H as <-; eauto].
  apply bind_ret_inv in H as (al & E1 & H). apply bind_ret_inv in H as (af & E2 & H).
  apply bind_ret_inv in H as ([q2 z] & E3 & H).
  rewrite (read_byte_sim _ _ _ c q pos neof al) by done. cbn [mbind outcome_bind].
  rewrite (read_byte_sim _ _ _ c _ (pos + 1) _ af) by done. cbn [mbind outcome_bind fst snd fpos].
  change (zn [al] 0) with al. change (zn [af] 0) with af.
  eapply read_adapt_sim in E3 as (Hz & Hbase & n & E3); [|done|done|done|destruct Ha; by split|lia].
  rewrite E3. cbn [mbind outcome_bind fpos]. unfold lseek_set.
  destruct (flag (t_flags _) PAYLOAD); [|injection H as <-; eauto].
  apply bind_ret_inv in H as (d & E4 & H). injection H as <-.
  unfold set in *. cbn [content fpos] in *. rewrite (save_read_sim _ _ _ _ _ _ Hc E4). eauto.
Qed.

Lemma read_sync_sim sys_read c : reads_of sys_read c -> forall fuel pos sync,
  zlen sync = 1 -> 0 <= pos -> (Z.to_nat (zlen c - pos) < fuel)%nat ->
  forall k pos', cread_sync k c pos (zlen c) = Ret pos' -> pos' < zlen c ->
  read_sync sys_read fuel (mk_file c pos) sync = Ret (mk_file c pos').
Proof.
  intros Hc. induction fuel as [|fuel IH]; intros pos sync Hs Hpos Hf k pos' H Hlt; [lia|].
  cbn [read_sync]. destruct k as [|k]; cbn [cread_sync] in H; destruct (Z.ltb_spec pos (zlen c));
    try discriminate; try (injection H as <-; lia).
  rewrite load_ok in H by lia. cbn [mbind outcome_bind] in H.
  rewrite save_read_all by (done || lia). rewrite blit_all by (zsimpl; lia). cbn [mbind outcome_bind].
  rewrite load_ok by (zsimpl; lia). cbn [mbind outcome_bind]. rewrite zn_sub, Z.add_0_r by lia.
  destruct (zn c pos =? 71); [by injection H as <-|]. cbn.
  apply (IH (pos + 1) (sub c pos 1)) with (k := k); done || (zsimpl; lia) || lia.
Qed.

(** C34: [read_ts] is [cread_ts] on a descriptor: whenever [cread_ts] parses a
    packet from the contents of a file, [read_ts] reads the same packet from the
    descriptor, whatever lengths the single [read] calls return. *)
Theorem read_ts_refines_cread_ts sys_read malloc c q q' :
  reads_of sys_read c -> mallocs malloc -> bytes c -> ts_arrays q ->
  cread_ts malloc c q (zlen c) = Ret q' ->
  exists f' neof, read_ts malloc sys_read (mk_file c 0) q = Ret (f', q', neof).
Proof.
  intros Hc Hm Hb Ha H. unfold cread_ts in H. unfold read_ts. cbn [content].
  apply bind_ret_inv in H as (pos & E0 & H). apply bind_ret_inv in H as (pid & E1 & H).
  apply bind_ret_inv in H as (fl & E2 & H). pose proof E2 as E2'. apply load_inv in E2' as [Hr _].
  pose proof E1 as E1'. unfold memcpy in E1'. apply bind_ret_inv in E1' as (y & E1' & W).
  apply read_at_inv in E1' as (Hp & _ & Hr2 & _). apply write_at_inv in W as (_ & W1 & W2).
  rewrite (read_sync_sim sys_read c Hc (S (length c)) 0 [0] eq_refl ltac:(lia) ltac:(unfold zlen; lia) _ _ E0) by lia.
  cbn [mbind outcome_bind]. rewrite (read_array_sim _ _ _ _ _ _ _ _ _ Hc E1). cbn [mbind outcome_bind].
  rewrite (read_byte_sim _ _ _ c _ (pos + 2) _ fl) by done. cbn [mbind outcome_bind].
  change (zn [fl] 0) with fl. set (q1 := q <| t_pid := pid |> <| t_flags := fl |>) in *.
  change (t_flags q1) with fl. set (q2 := q1 <| t_count := Z.land fl COUNT_MASK |>) in *.
  change (t_flags q2) with fl.
  assert (Ha2 : ts_arrays q2).
  { destruct Ha. split; try done. change (t_pid q2) with pid. rewrite W2, zlen_blit by lia. done. }
  clearbody q2. clear q1 Ha. destruct (negb (flag fl ADAPT_FIELD) && flag fl PAYLOAD).
  - apply bind_ret_inv in H as (d & E4 & H). injection H as <-.
    rewrite (save_read_sim _ _ _ _ _ _ Hc E4). eauto.
  - eapply read_ts_tail_sim in H as (f' & n & H); eauto. lia.
Qed.

(** C33: what [cwrite_ts] prints, [cread_ts] reads: a well-formed packet fits the
    188 bytes, and parsing them gives the same flags, counter, optional fields,
    stuffing and payload, whatever the structure held before. *)
Theorem cread_ts_cwrite_ts malloc p q buf :
  mallocs malloc -> ts_ok p -> ts_arrays q -> 188 <= zlen buf ->
  exists out n q', cwrite_ts buf p TS_SIZE = Ret (out, n) /\ n <= 188 /\
    (flag (t_flags p) PAYLOAD = true -> n = 188) /\
    cread_ts malloc out q n = Ret q' /\ same_ts p q'.
Proof.
  intros Hm Hp Hq Hbuf. destruct (ts_bytes_len p Hp) as [Hl1 Hl2]. rewrite cwrite_ts_bytes by done.
  unfold emitted. rewrite (proj2 (Z.leb_le _ _)) by lia.
  destruct (cread_ts_ok malloc p q (blit buf 0 (ts_bytes p)) Hm Hp Hq) as (q' & E & Hs).
  { pose proof (zlen_nonneg (ts_bytes p)). split; [done|]. rewrite zlen_blit by lia.
    split; [lia|]. apply sub_blit_eq; lia. }
  eauto 10.
Qed.

Lemma cread_adapt_advances malloc buf p c :
  c <= zlen buf -> advances (fun r => base r = base p) buf c (cread_adapt malloc buf p c).
Proof.
  intros Hc. unfold cread_adapt. cbv zeta.
  repeat (apply advances_bind;
    [first [apply field_advances | apply field_ptr_advances]; try done; cbn [fst]; lia
    | intros ? ? ? ?; cbn [fst]]).
  apply field_advances; done || lia.
Qed.

(** [cread_ts] and the adaptation field of length 0 that fills up a packet
    with 183 bytes of payload: the flags are read from the payload, the stuffing
    wraps and the payload is copied from behind the packet. *)
Theorem cread_ts_empty_adaptation malloc q buf :
  ts_arrays q -> zlen buf = 188 -> zn buf 0 = 0x47 ->
  flag (zn buf 3) ADAPT_FIELD = true -> flag (zn buf 3) PAYLOAD = true -> zn buf 4 = 0 ->
  cread_ts malloc buf q 188 = Crash.
Proof.
  intros [] Hl H0 Hf Hp H4. unfold cread_ts. rewrite cread_sync_hit; [|done|].
  2: { split; [done|]. split; [rewrite Hl; done|]. rewrite sub_cons, H0 by (zsimpl; lia). done. }
  cbn [mbind outcome_bind]. rewrite memcpy_ok by lia. cbn [mbind outcome_bind].
  rewrite load_ok by lia. cbn [mbind outcome_bind]. change (1 + 2) with 3. rewrite Hf, Hp. cbn [negb andb].
  set (q1 := set t_count _ _). unfold cread_ts_tail. change (t_flags q1) with (zn buf 3). rewrite Hf.
  rewrite !load_ok by lia. cbn [mbind outcome_bind]. change (3 + 1 + 1) with 5. change (3 + 1) with 4.
  rewrite H4. set (q2 := set t_adapt_flags _ _).
  pose proof (cread_adapt_advances malloc buf q2 (5 + 1) ltac:(lia)) as Ha.
  destruct (cread_adapt malloc buf q2 (5 + 1)) as [[q3 z]| |]; [|done..]. destruct Ha as [Hbase Hz].
  injection Hbase as _ B2 _ _ B5 _. change (t_flags q2) with (zn buf 3) in B2.
  change (t_adapt_length q2) with 0 in B5. cbn [mbind outcome_bind].
  set (q4 := set t_rest _ _). change (t_flags q4) with (t_flags q3). rewrite B2, Hp.
  change (t_stuffing q4) with (u8 (t_adapt_length q3 - (z - 5))). rewrite B5.
  replace (u8 (0 - (z - 5))) with (256 - (z - 5)).
  2: { unfold u8. change (2 ^ 8) with 256. apply (Zmod_unique _ _ (-1)); lia. }
  change (t_rest q4) with (183 - t_adapt_length q3). rewrite B5. change (u32 (183 - 0)) with 183.
  unfold memcpy, read_at, in_range.
  rewrite (proj2 (Z.leb_gt (z + (256 - (z - 5)) + 183) _)) by lia. by rewrite andb_false_r.
Qed.

(** ** Witnesses *)
Definition empty_ts : ts_packet :=
  mk_ts [0; 0] 0 0 (replicate 184 0) 0 0 (replicate 6 0) (replicate 6 0) 0 0 None 0 0
    [0; 0] [0; 0; 0] (replicate 5 0) 0 0.
(** PID 0x45 with a clock reference, two bytes of private data and stuffing. *)
Definition sample_ts : ts_packet :=
  mk_ts [0x40; 0x45] 0x37 7 (replicate 184 9) 20 0x12 [1; 2; 3; 4; 5; 6] (replicate 6 0) 0 2 (Some [8; 9]) 0 0
    [0; 0] [0; 0; 0] (replicate 5 0) 163 10.
Definition sample_ts_read : ts_packet :=
  match cread_ts sample_malloc (ts_bytes sample_ts) empty_ts 188 with Ret q => q | _ => empty_ts end.

Lemma empty_ts_arrays : ts_arrays empty_ts.
Proof. by split. Qed.

Lemma sample_ts_ok : ts_ok sample_ts.
Proof.
  split; [by split| |done|done|by vm_compute].
  intros _. split; [done|]. right. by exists [8; 9].
Qed.

Lemma cread_ts_cwrite_ts_witness :
  exists out n q', cwrite_ts (replicate 188 0) sample_ts TS_SIZE = Ret (out, n) /\ n <= 188 /\
    (flag (t_flags sample_ts) PAYLOAD = true -> n = 188) /\
    cread_ts sample_malloc out empty_ts n = Ret q' /\ same_ts sample_ts q'.
Proof.
  apply (cread_ts_cwrite_ts sample_malloc sample_ts empty_ts (replicate 188 0));
    [apply sample_mallocs | apply sample_ts_ok | apply empty_ts_arrays | done].
Defined.

Lemma read_ts_refines_cread_ts_witness :
  exists f' neof, read_ts sample_malloc (byte_reads (ts_bytes sample_ts)) (mk_file (ts_bytes sample_ts) 0) empty_ts =
    Ret (f', sample_ts_read, neof).
Proof.
  apply (read_ts_refines_cread_ts (byte_reads (ts_bytes sample_ts)) sample_malloc (ts_bytes sample_ts)
           empty_ts sample_ts_read);
    [apply byte_reads_ok | apply sample_mallocs | | apply empty_ts_arrays | by vm_compute].
  repeat first [apply bytes_cons; [done|] | apply bytes_nil].
Defined.

Lemma cread_ts_empty_adaptation_witness :
  cread_ts sample_malloc (0x47 :: 0 :: 0x45 :: 0x37 :: 0 :: replicate 183 1) empty_ts 188 = Crash.
Proof.
  apply (cread_ts_empty_adaptation sample_malloc empty_ts); [apply empty_ts_arrays | done..].
Defined.
