(* ===== verification/PesPacket.v ===== *)
(** * PES packets of libmpegtools

    Models the PES part of apps/misc/libs/libmpegtools/ctools.c: the packet
    structure, its printers ([cwrite_pes], [write_pes]) and parsers
    ([cread_pes], [read_pes]), and the time stamp conversion [pts2pts].
    [read_pes] undoes [cwrite_pes] for MPEG-2 packets of every kind of stream;
    [write_pes] gives [cwrite_pes] a buffer that is too small. *)
From S2P Require Import Prelude MpegIO.

Definition PROG_STREAM_MAP : Z := 0xBC.
Definition PRIVATE_STREAM1 : Z := 0xBD.
Definition PADDING_STREAM : Z := 0xBE.
Definition PRIVATE_STREAM2 : Z := 0xBF.
Definition AUDIO_STREAM_S : Z := 0xC0.
Definition AUDIO_STREAM_E : Z := 0xDF.
Definition VIDEO_STREAM_S : Z := 0xE0.
Definition VIDEO_STREAM_E : Z := 0xEF.
Definition ECM_STREAM : Z := 0xF0.
Definition EMM_STREAM : Z := 0xF1.
Definition DSM_CC_STREAM : Z := 0xF2.
Definition ISO13522_STREAM : Z := 0xF3.
Definition PROG_STREAM_DIR : Z := 0xFF.
Definition PTS_DTS_FLAGS : Z := 0xC0.
Definition ESCR_FLAG : Z := 0x20.
Definition ES_RATE_FLAG : Z := 0x10.
Definition DSM_TRICK_FLAG : Z := 0x08.
Definition ADD_CPY_FLAG : Z := 0x04.
Definition PES_CRC_FLAG : Z := 0x02.
Definition PES_EXT_FLAG : Z := 0x01.
Definition PTS_ONLY : Z := 0x80.
Definition PTS_DTS : Z := 0xC0.
Definition PRIVATE_DATA : Z := 0x80.
Definition HEADER_FIELD : Z := 0x40.
Definition PACK_SEQ_CTR : Z := 0x20.
Definition P_STD_BUFFER : Z := 0x10.
Definition PES_EXT_FLAG2 : Z := 0x01.

(** [typedef struct pes_packet_]; [plength] is the member [length]. *)
Record pes_packet := mk_pes_packet {
  stream_id : Z;
  llength : list Z;
  plength : Z;
  flags1 : Z;
  flags2 : Z;
  pes_hlength : Z;
  pts : list Z;
  dts : list Z;
  escr : list Z;
  es_rate : list Z;
  trick : Z;
  add_cpy : Z;
  prev_pes_crc : list Z;
  priv_flags : Z;
  pes_priv_data : list Z;
  pack_field_length : Z;
  pack_header : option (list Z);
  pck_sqnc_cntr : Z;
  org_stuff_length : Z;
  p_std : list Z;
  pes_ext_lngth : Z;
  pes_ext : option (list Z);
  pes_pckt_data : option (list Z);
  padding : Z;
  mpeg : Z;
  mpeg1_pad : Z;
  mpeg1_headr : option (list Z);
  stuffing : Z }.
#[export] Instance eta_pes_packet : Eta pes_packet := fun p =>
  mk_pes_packet (stream_id p) (llength p) (plength p) (flags1 p) (flags2 p) (pes_hlength p)
    (pts p) (dts p) (escr p) (es_rate p) (trick p) (add_cpy p) (prev_pes_crc p) (priv_flags p)
    (pes_priv_data p) (pack_field_length p) (pack_header p) (pck_sqnc_cntr p) (org_stuff_length p)
    (p_std p) (pes_ext_lngth p) (pes_ext p) (pes_pckt_data p) (padding p) (mpeg p) (mpeg1_pad p)
    (mpeg1_headr p) (stuffing p).

Definition init_pes (p : pes_packet) : outcome pes_packet :=
  l ← write_at (llength p) 0 [0];
  l ← write_at l 1 [0];
  Ret (p <| stream_id := 0 |> <| llength := l |> <| plength := 0 |> <| flags1 := 0x80 |>
         <| flags2 := 0 |> <| pes_hlength := 0 |> <| trick := 0 |> <| add_cpy := 0 |>
         <| priv_flags := 0 |> <| pack_field_length := 0 |> <| pack_header := None |>
         <| pck_sqnc_cntr := 0 |> <| org_stuff_length := 0 |> <| pes_ext_lngth := 0 |>
         <| pes_ext := None |> <| pes_pckt_data := None |> <| padding := 0 |> <| mpeg := 2 |>
         <| mpeg1_pad := 0 |> <| mpeg1_headr := None |> <| stuffing := 0 |>).

(** The blocks that are freed are those of [pack_header], [pes_ext],
    [pes_pckt_data] and [mpeg1_headr]. *)
Definition kill_pes (p : pes_packet) : outcome pes_packet := init_pes p.

(** [ntohs] of the two bytes of [llength]. *)
Definition setlength_pes (p : pes_packet) : outcome pes_packet :=
  hi ← load (llength p) 0;
  lo ← load (llength p) 1;
  Ret (p <| plength := hi * 256 + lo |>).

Definition nlength_pes (p : pes_packet) : outcome pes_packet :=
  l ← write_at (llength p) 0
        (if plength p <=? 0xFFFF then [u8 (Z.shiftr (plength p) 8); u8 (plength p)] else [0; 0]);
  Ret (p <| llength := l |>).

(** The two kinds of packets: without and with an optional header. *)
Definition plain_stream (id : Z) : bool :=
  (id =? PROG_STREAM_MAP) || (id =? PRIVATE_STREAM2) || (id =? PROG_STREAM_DIR)
  || (id =? ECM_STREAM) || (id =? EMM_STREAM) || (id =? PADDING_STREAM).
Definition header_stream (id : Z) : bool :=
  (id =? DSM_CC_STREAM) || (id =? ISO13522_STREAM) || (id =? PRIVATE_STREAM1)
  || ((AUDIO_STREAM_S <=? id) && (id <=? AUDIO_STREAM_E))
  || ((VIDEO_STREAM_S <=? id) && (id <=? VIDEO_STREAM_E)).

Definition has_pts (fl : Z) : bool :=
  (Z.land fl PTS_DTS_FLAGS =? PTS_ONLY) || (Z.land fl PTS_DTS_FLAGS =? PTS_DTS).
Definition has_dts (fl : Z) : bool := Z.land fl PTS_DTS_FLAGS =? PTS_DTS.

(** The optional header of an MPEG-2 packet. *)
Definition cwrite_mpeg2 (p : pes_packet) (w : list Z * Z) : outcome (list Z * Z) :=
  w ← emit true [flags1 p] 1 w;
  w ← emit true [flags2 p] 1 w;
  w ← emit true [pes_hlength p] 1 w;
  w ← emit (has_pts (flags2 p)) (pts p) 5 w;
  w ← emit (has_dts (flags2 p)) (dts p) 5 w;
  w ← emit (flag (flags2 p) ESCR_FLAG) (escr p) 6 w;
  w ← emit (flag (flags2 p) ES_RATE_FLAG) (es_rate p) 3 w;
  w ← emit (flag (flags2 p) DSM_TRICK_FLAG) [trick p] 1 w;
  w ← emit (flag (flags2 p) ADD_CPY_FLAG) [add_cpy p] 1 w;
  w ← emit (flag (flags2 p) PES_CRC_FLAG) (prev_pes_crc p) 2 w;
  let ext := flag (flags2 p) PES_EXT_FLAG in
  let priv m := ext && flag (priv_flags p) m in
  w ← emit ext [priv_flags p] 1 w;
  w ← emit (priv PRIVATE_DATA) (pes_priv_data p) 16 w;
  w ← emit (priv HEADER_FIELD) [pack_field_length p] 1 w;
  w ← emit_ptr (priv HEADER_FIELD) (pack_header p) (pack_field_length p) w;
  w ← emit (priv PACK_SEQ_CTR) [pck_sqnc_cntr p] 1 w;
  w ← emit (priv PACK_SEQ_CTR) [org_stuff_length p] 1 w;
  w ← emit (priv P_STD_BUFFER) (p_std p) 2 w;
  w ← emit (priv PES_EXT_FLAG2) [pes_ext_lngth p] 1 w;
  w ← emit_ptr (priv PES_EXT_FLAG2) (pes_ext p) (pes_ext_lngth p) w;
  emit_stuffing (Z.to_nat (stuffing p)) w.

(** That of an MPEG-1 packet. *)
Definition cwrite_mpeg1 (p : pes_packet) (w : list Z * Z) : outcome (list Z * Z) :=
  w ← emit_ptr (negb (mpeg1_pad p =? 0)) (mpeg1_headr p) (mpeg1_pad p) w;
  w ← emit (has_pts (flags2 p)) (pts p) 5 w;
  emit (has_dts (flags2 p)) (dts p) 5 w.

(** [None]: the process ends with [exit (1)]. *)
Definition cwrite_pes (buf : list Z) (p : pes_packet) (length : Z) : outcome (option (list Z * Z)) :=
  if length <? u32 (plength p + pes_hlength p) then Ret None else
  w ← emit true [0x00; 0x00; 0x01] 3 (buf, 0);
  w ← emit true [stream_id p] 1 w;
  w ← (if plain_stream (stream_id p) then
         w ← emit true (llength p) 2 w;
         emit_ptr true (pes_pckt_data p) (plength p) w
       else if header_stream (stream_id p) then
         w ← emit true (llength p) 2 w;
         w ← (if mpeg p =? 2 then cwrite_mpeg2 p w else cwrite_mpeg1 p w);
         emit_ptr true (pes_pckt_data p) (plength p) w
       else Ret w);
  Ret (Some w).

(** The packet that reaches [write (fd, buf, length)]. *)
Definition write_pes (malloc : Z -> option (list Z)) (p : pes_packet) : outcome (option (list Z)) :=
  let l := u32 (plength p + pes_hlength p) in
  match malloc l with
  | None => Crash
  | Some buf =>
    w ← cwrite_pes buf p l;
    match w with
    | None => Ret None
    | Some (buf, length) => c ← read_at buf 0 length; Ret (Some c)
    end
  end.

(** The 32 low bits of a time stamp, from its 5-byte form. *)
Definition pts2pts (av_pts pts : list Z) : outcome (list Z) :=
  p0 ← load pts 0; p1 ← load pts 1; p2 ← load pts 2; p3 ← load pts 3; p4 ← load pts 4;
  write_at av_pts 0
    [ u8 (Z.lor (Z.shiftl (Z.land p0 0x06) 5) (Z.shiftr (Z.land p1 0xFC) 2));
      u8 (Z.lor (Z.shiftl (Z.land p1 0x03) 6) (Z.shiftr (Z.land p2 0xFC) 2));
      u8 (Z.lor (Z.shiftl (Z.land p2 0x02) 6) (Z.shiftr (Z.land p3 0xFE) 1));
      u8 (Z.lor (Z.shiftl (Z.land p3 0x01) 7) (Z.shiftr (Z.land p4 0xFE) 1)) ].

Section Memory.
Variable malloc : Z -> option (list Z).

(** *** Parsing: [c] is the position, [count] what is left of the header
    (an [unsigned char]). *)
Definition pfield (b : bool) (n : Z) (upd : list Z -> pes_packet -> pes_packet) (buf : list Z)
    (st : pes_packet * Z * Z) : outcome (pes_packet * Z * Z) :=
  let '(p, c, count) := st in
  '(p, c) ← field b n upd buf (p, c);
  Ret (p, c, if b then u8 (count - n) else count).

Definition pfield_ptr (b : bool) (n : Z) (upd : option (list Z) -> pes_packet -> pes_packet) (buf : list Z)
    (st : pes_packet * Z * Z) : outcome (pes_packet * Z * Z) :=
  let '(p, c, count) := st in
  '(p, c) ← field_ptr malloc b n upd buf (p, c);
  Ret (p, c, if b then u8 (count - n) else count).

Definition cur (st : pes_packet * Z * Z) : pes_packet := fst (fst st).

(** The optional fields of an MPEG-2 header whose flags are [flags2 p]. *)
Definition cread_fields (buf : list Z) (st : pes_packet * Z * Z) : outcome (pes_packet * Z * Z) :=
  let fl := flags2 (cur st) in
  let byte upd := fun x => upd (zn x 0) in
  s ← pfield (has_pts fl) 5 (fun x p => p <| pts := x |>) buf st;
  s ← pfield (has_dts fl) 5 (fun x p => p <| dts := x |>) buf s;
  s ← pfield (flag fl ESCR_FLAG) 6 (fun x p => p <| escr := x |>) buf s;
  s ← pfield (flag fl ES_RATE_FLAG) 3 (fun x p => p <| es_rate := x |>) buf s;
  s ← pfield (flag fl DSM_TRICK_FLAG) 1 (byte (fun x p => p <| trick := x |>)) buf s;
  s ← pfield (flag fl ADD_CPY_FLAG) 1 (byte (fun x p => p <| add_cpy := x |>)) buf s;
  s ← pfield (flag fl PES_CRC_FLAG) 2 (fun x p => p <| prev_pes_crc := x |>) buf s;
  let ext := flag fl PES_EXT_FLAG in
  s ← pfield ext 1 (byte (fun x p => p <| priv_flags := x |>)) buf s;
  let pf := priv_flags (cur s) in
  let priv m := ext && flag pf m in
  s ← pfield (priv PRIVATE_DATA) 16 (fun x p => p <| pes_priv_data := x |>) buf s;
  s ← pfield (priv HEADER_FIELD) 1 (byte (fun x p => p <| pack_field_length := x |>)) buf s;
  s ← pfield_ptr (priv HEADER_FIELD) (pack_field_length (cur s)) (fun x p => p <| pack_header := x |>) buf s;
  s ← pfield (priv PACK_SEQ_CTR) 1 (byte (fun x p => p <| pck_sqnc_cntr := x |>)) buf s;
  s ← pfield (priv PACK_SEQ_CTR) 1 (byte (fun x p => p <| org_stuff_length := x |>)) buf s;
  s ← pfield (priv P_STD_BUFFER) 2 (fun x p => p <| p_std := x |>) buf s;
  s ← pfield (priv PES_EXT_FLAG2) 1 (byte (fun x p => p <| pes_ext_lngth := x |>)) buf s;
  pfield_ptr (priv PES_EXT_FLAG2) (pes_ext_lngth (cur s)) (fun x p => p <| pes_ext := x |>) buf s.

(** The optional header of an MPEG-2 packet, behind [flags1]. *)
Definition cread_mpeg2 (buf : list Z) (p : pes_packet) (c : Z) : outcome (pes_packet * Z) :=
  fl ← load buf c;
  hl ← load buf (c + 1);
  let p := p <| flags2 := fl |> <| pes_hlength := hl |>
             <| plength := u32 (plength p - (hl + 3)) |> in
  '(p, c, count) ← cread_fields buf (p, c + 2, hl);
  _ ← read_at buf c count;
  Ret (p <| stuffing := count |>, c + count).

(** The stuffing bytes of an MPEG-1 packet. *)
Fixpoint skip_ff (fuel : nat) (buf : list Z) (check c pad : Z) : outcome (Z * Z * Z) :=
  if check =? 0xFF then
    match fuel with
    | O => Hang
    | S fuel => check ← load buf c; skip_ff fuel buf check (c + 1) (pad + 1)
    end
  else Ret (check, c, pad).

(** That of an MPEG-1 packet, which starts at [po]. *)
Definition cread_mpeg1 (buf : list Z) (p : pes_packet) (po : Z) : outcome (pes_packet * Z) :=
  '(check, c, pad) ← skip_ff (S (length buf)) buf (flags1 p) (po + 1) 1;
  '(check, c, pad) ← (if Z.land check 0xC0 =? 0x40 then
                        _ ← load buf c;
                        check ← load buf (c + 1);
                        Ret (check, c + 2, pad + 2)
                      else Ret (check, c, pad));
  let p := p <| mpeg1_pad := pad |> <| flags2 := 0 |> <| plength := u32 (plength p - pad) |> in
  let c := po in
  if flag check 0x30 then
    let p := p <| plength := u32 (plength p + 1) |> <| mpeg1_pad := mpeg1_pad p - 1 |> in
    '(p, c) ← (if check =? flags1 p then Ret (p <| pes_hlength := 0 |>, c)
               else field_ptr malloc true (mpeg1_pad p)
                      (fun x p => p <| mpeg1_headr := x |> <| pes_hlength := u8 (mpeg1_pad p) |>) buf (p, c));
    let fl := u8 (Z.shiftl (Z.land check 0xF0) 2) in
    let p := p <| flags2 := fl |> in
    s ← field (has_pts fl) 5 (fun x p => p <| pts := x |> <| plength := u32 (plength p - 5) |>
                                          <| pes_hlength := u8 (pes_hlength p + 5) |>) buf (p, c);
    field (has_dts fl) 5 (fun x p => p <| dts := x |> <| plength := u32 (plength p - 5) |>
                                          <| pes_hlength := u8 (pes_hlength p + 5) |>) buf s
  else
    field_ptr malloc true (mpeg1_pad p)
      (fun x p => p <| mpeg1_headr := x |> <| pes_hlength := u8 (mpeg1_pad p) |>) buf (p, c).

Definition cread_pes (buf : list Z) (p : pes_packet) : outcome pes_packet :=
  if plain_stream (stream_id p) then
    let p := if stream_id p =? PADDING_STREAM then p <| padding := plength p |> else p in
    d ← store (pes_pckt_data p) buf 0 (plength p);
    Ret (p <| pes_pckt_data := d |>)
  else if header_stream (stream_id p) then
    fl ← load buf 0;
    let p := p <| flags1 := fl |> <| mpeg := if Z.land fl 0xC0 =? 0x80 then 2 else 1 |> in
    '(p, c) ← (if mpeg p =? 2 then cread_mpeg2 buf p 1 else cread_mpeg1 buf p 0);
    d ← store (pes_pckt_data p) buf c (plength p);
    Ret (p <| pes_pckt_data := d |>)
  else Ret p.

(** *** From a descriptor *)
Variable sys_read : Z -> Z -> Z.

(** [setl_pes] and [nl_pes]: also allocate the packet data. *)
Definition setl_pes (p : pes_packet) : outcome pes_packet :=
  p ← setlength_pes p;
  Ret (if plength p =? 0 then p else p <| pes_pckt_data := malloc (plength p) |>).
Definition nl_pes (p : pes_packet) : outcome pes_packet :=
  p ← nlength_pes p;
  Ret (p <| pes_pckt_data := malloc (plength p) |>).

(** Is this the start code of a packet? *)
Definition start_code (sync4 : list Z) : bool :=
  (zn sync4 0 =? 0x00) && (zn sync4 1 =? 0x00) && (zn sync4 2 =? 0x01).
Definition known_stream (id : Z) : bool := plain_stream id || header_stream id.

(** The search of [find_length] for the next packet, four bytes at a time;
    where the position ends up and whether a packet was found. *)
Fixpoint find_next (fuel : nat) (f : file) (sync4 : list Z) : outcome (file * bool) :=
  match fuel with
  | O => Hang
  | S fuel =>
    '(f, sync4, neof) ← save_read sys_read f sync4 0 4;
    if start_code sync4 && known_stream (zn sync4 3) then Ret (f, true)
    else if neof >? 0 then find_next fuel f sync4 else Ret (f, false)
  end.

(** [junk]: what is in the four bytes of [sync4] on the stack. *)
Definition find_length (f : file) (junk : list Z) : outcome (file * Z) :=
  let start := fpos f - 2 in
  let f := lseek_set f start in
  '(f, found) ← find_next (S (length (content f))) f junk;
  let q := fpos f in
  Ret (lseek_set f (start + 2), if (found : bool) then u32 (q - start - 4 - 2) else u32 (q - start - 2)).

(** The search of [read_pes] for a packet and its length: [None] at the end of
    the file. *)
Fixpoint seek_pes (fuel : nat) (f : file) (p : pes_packet) (junk : list Z)
  : outcome (file * pes_packet * bool) :=
  match fuel with
  | O => Hang
  | S fuel =>
    let po := fpos f in
    '(f, sync4, neof) ← save_read sys_read f junk 0 4;
    if neof <? 4 then Ret (f, p, false) else
    if start_code sync4 then
      let p := p <| stream_id := zn sync4 3 |> in
      if known_stream (zn sync4 3) then
        '(f, l, neof) ← save_read sys_read f (llength p) 0 2;
        let p := p <| llength := l |> in
        if neof <? 2 then Ret (f, p, false) else
        p ← setl_pes p;
        if plength p =? 0 then
          '(f, n) ← find_length f junk;
          p ← nl_pes (p <| plength := n |>);
          Ret (f, p, true)
        else Ret (f, p, true)
      else seek_pes fuel (lseek_set f (po + 1)) p sync4
    else seek_pes fuel (lseek_set f (po + 1)) p sync4
  end.

(** The comparison of [neof] with the unsigned [length] is unsigned, so that a
    failed read passes for a complete one. *)
Definition read_pes (f : file) (p : pes_packet) (junk : list Z) : outcome (file * pes_packet * Z) :=
  '(f, p, found) ← seek_pes (S (length (content f))) f p junk;
  if negb found then Ret (f, p, -1) else
  if plength p =? 0 then Ret (f, p, 0) else
  match malloc (plength p) with
  | None => Crash
  | Some buf =>
    '(f, buf, neof) ← save_read sys_read f buf 0 (plength p);
    if u32 neof <? plength p then Ret (f, p, -1) else
    p ← cread_pes buf p;
    Ret (f, p, neof)
  end.
End Memory.

#[global] Arguments pfield : simpl never.
#[global] Arguments pfield_ptr : simpl never.
#[global] Arguments cread_fields : simpl never.
#[global] Arguments plain_stream : simpl never.
#[global] Arguments header_stream : simpl never.
#[global] Arguments known_stream : simpl never.

(** ** What a packet looks like *)
Definition pes_fields (p : pes_packet) : list Z :=
  let fl := flag (flags2 p) in
  let priv m := fl PES_EXT_FLAG && flag (priv_flags p) m in
  opt (has_pts (flags2 p)) (pts p) ++ opt (has_dts (flags2 p)) (dts p) ++
  opt (fl ESCR_FLAG) (escr p) ++ opt (fl ES_RATE_FLAG) (es_rate p) ++
  opt (fl DSM_TRICK_FLAG) [trick p] ++ opt (fl ADD_CPY_FLAG) [add_cpy p] ++
  opt (fl PES_CRC_FLAG) (prev_pes_crc p) ++
  opt (fl PES_EXT_FLAG) [priv_flags p] ++
  opt (priv PRIVATE_DATA) (pes_priv_data p) ++
  opt (priv HEADER_FIELD) [pack_field_length p] ++
  opt (priv HEADER_FIELD) (block (pack_header p) (pack_field_length p)) ++
  opt (priv PACK_SEQ_CTR) [pck_sqnc_cntr p] ++ opt (priv PACK_SEQ_CTR) [org_stuff_length p] ++
  opt (priv P_STD_BUFFER) (p_std p) ++
  opt (priv PES_EXT_FLAG2) [pes_ext_lngth p] ++
  opt (priv PES_EXT_FLAG2) (block (pes_ext p) (pes_ext_lngth p)).

Definition mpeg2_bytes (p : pes_packet) : list Z :=
  [flags1 p] ++ [flags2 p] ++ [pes_hlength p] ++ pes_fields p ++ replicate (Z.to_nat (stuffing p)) 0xff.

(** Behind the start code and the length: what the length counts. *)
Definition pes_body (p : pes_packet) : list Z :=
  opt (header_stream (stream_id p)) (mpeg2_bytes p) ++ block (pes_pckt_data p) (plength p).

Definition pes_bytes (p : pes_packet) : list Z :=
  [0x00; 0x00; 0x01] ++ [stream_id p] ++ llength p ++ pes_body p.

Record pes_arrays (p : pes_packet) : Prop := {
  pa_llength : zlen (llength p) = 2;
  pa_pts : zlen (pts p) = 5;
  pa_dts : zlen (dts p) = 5;
  pa_escr : zlen (escr p) = 6;
  pa_es_rate : zlen (es_rate p) = 3;
  pa_crc : zlen (prev_pes_crc p) = 2;
  pa_priv : zlen (pes_priv_data p) = 16;
  pa_std : zlen (p_std p) = 2 }.

(** An MPEG-2 packet that can be sent: [llength] announces the body, and the
    header length counts the optional fields and the stuffing. *)
Record pes_ok (p : pes_packet) : Prop := {
  pk_arrays : pes_arrays p;
  pk_kind : known_stream (stream_id p) = true;
  pk_data : block_ok (pes_pckt_data p) (plength p);
  pk_ptrs : (flag (flags2 p) PES_EXT_FLAG && flag (priv_flags p) HEADER_FIELD = true ->
      block_ok (pack_header p) (pack_field_length p)) /\
    (flag (flags2 p) PES_EXT_FLAG && flag (priv_flags p) PES_EXT_FLAG2 = true ->
      block_ok (pes_ext p) (pes_ext_lngth p));
  pk_header : header_stream (stream_id p) = true ->
    mpeg p = 2 /\ Z.land (flags1 p) 0xC0 = 0x80 /\ 0 <= stuffing p /\
    pes_hlength p = zlen (pes_fields p) + stuffing p;
  pk_hlength : 0 <= pes_hlength p < 256;
  pk_announced : zn (llength p) 0 * 256 + zn (llength p) 1 = zlen (pes_body p);
  pk_length : 0 < zlen (pes_body p) < 2 ^ 16 }.

Lemma streams_exclusive id : plain_stream id = true -> header_stream id = false.
Proof.
  unfold plain_stream, header_stream. rewrite !orb_true_iff, !Z.eqb_eq.
  intros [[[[[-> | ->] | ->] | ->] | ->] | ->]; done.
Qed.

Lemma cwrite_mpeg2_bytes p buf l :
  pes_ok p -> (emitted buf l ≫= cwrite_mpeg2 p) = emitted buf (l ++ mpeg2_bytes p).
Proof.
  intros [[] _ _ [H1 H2] _ _ _ _]. unfold cwrite_mpeg2, mpeg2_bytes, pes_fields. print_more.
  by rewrite <- ?app_assoc.
Qed.

Lemma cwrite_pes_bytes p buf n :
  pes_ok p -> u32 (plength p + pes_hlength p) <= n ->
  cwrite_pes buf p n = w ← emitted buf (pes_bytes p); Ret (Some w).
Proof.
  intros Hp Hn. pose proof Hp as [[Hl _ _ _ _ _ _ _] Hk Hd _ Hh _ _ _]. unfold cwrite_pes.
  rewrite (proj2 (Z.ltb_ge _ _)) by done. print. unfold pes_bytes, pes_body.
  unfold known_stream in Hk. destruct (plain_stream (stream_id p)) eqn:E.
  - rewrite (streams_exclusive _ E). rewrite <- bind_assoc. f_equal.
    print_more. by rewrite <- ?app_assoc.
  - cbn [orb] in Hk. rewrite Hk. destruct (Hh Hk) as (Hm & _). rewrite Hm. cbn [Z.eqb Pos.eqb].
    rewrite <- bind_assoc. f_equal. print_more. rewrite <- bind_assoc, cwrite_mpeg2_bytes by done.
    print_more. by rewrite <- ?app_assoc.
Qed.

(** ** Reading it back *)

(** The optional fields of [p] have been read into [q]. *)
Record same_fields (p q : pes_packet) : Prop := {
  sf_pts : has_pts (flags2 p) = true -> pts q = pts p;
  sf_dts : has_dts (flags2 p) = true -> dts q = dts p;
  sf_escr : flag (flags2 p) ESCR_FLAG = true -> escr q = escr p;
  sf_es_rate : flag (flags2 p) ES_RATE_FLAG = true -> es_rate q = es_rate p;
  sf_trick : flag (flags2 p) DSM_TRICK_FLAG = true -> trick q = trick p;
  sf_add_cpy : flag (flags2 p) ADD_CPY_FLAG = true -> add_cpy q = add_cpy p;
  sf_crc : flag (flags2 p) PES_CRC_FLAG = true -> prev_pes_crc q = prev_pes_crc p;
  sf_ext : flag (flags2 p) PES_EXT_FLAG = true -> priv_flags q = priv_flags p /\
    (flag (priv_flags p) PRIVATE_DATA = true -> pes_priv_data q = pes_priv_data p) /\
    (flag (priv_flags p) HEADER_FIELD = true -> pack_field_length q = pack_field_length p /\
       pack_header q = Some (block (pack_header p) (pack_field_length p))) /\
    (flag (priv_flags p) PACK_SEQ_CTR = true ->
       pck_sqnc_cntr q = pck_sqnc_cntr p /\ org_stuff_length q = org_stuff_length p) /\
    (flag (priv_flags p) P_STD_BUFFER = true -> p_std q = p_std p) /\
    (flag (priv_flags p) PES_EXT_FLAG2 = true -> pes_ext_lngth q = pes_ext_lngth p /\
       pes_ext q = Some (block (pes_ext p) (pes_ext_lngth p))) }.

(** The members that reading the optional fields leaves alone. *)
Definition pes_base (q : pes_packet) :=
  (stream_id q, llength q, plength q, flags1 q, flags2 q, pes_hlength q, pes_pckt_data q, mpeg q).

Lemma u8_sub a n : u8 (u8 a - n) = u8 (a - n).
Proof. unfold u8. apply Zminus_mod_idemp_l. Qed.

(** [e]: where the header ends. *)
Lemma pfield_ok b n upd buf p c e x :
  (b = true -> zlen x = n) -> at_pos buf c (opt b x) ->
  pfield b n upd buf (p, c, u8 (e - c)) =
    Ret (when b (upd x) p, c + zlen (opt b x), u8 (e - (c + zlen (opt b x)))).
Proof.
  intros Hn Ha. unfold pfield. rewrite (field_ok _ _ _ _ _ _ x) by done. cbn [mbind outcome_bind].
  destruct b; cbn [opt].
  - rewrite u8_sub, <- (Hn eq_refl). do 3 f_equal. lia.
  - by rewrite Z.add_0_r.
Qed.

Lemma pfield_ptr_ok malloc b n upd buf p c e x :
  mallocs malloc -> (b = true -> zlen x = n) -> at_pos buf c (opt b x) ->
  pfield_ptr malloc b n upd buf (p, c, u8 (e - c)) =
    Ret (when b (upd (Some x)) p, c + zlen (opt b x), u8 (e - (c + zlen (opt b x)))).
Proof.
  intros Hm Hn Ha. unfold pfield_ptr. rewrite (field_ptr_ok _ _ _ _ _ _ _ x) by done.
  cbn [mbind outcome_bind]. destruct b; cbn [opt].
  - rewrite u8_sub, <- (Hn eq_refl). do 3 f_equal. lia.
  - by rewrite Z.add_0_r.
Qed.

Ltac ptake x := rewrite (pfield_ok _ _ _ _ _ _ _ x) by (intros; done); cbn [mbind outcome_bind].
Ltac ptake_ptr H x :=
  rewrite (pfield_ptr_ok _ _ _ _ _ _ _ _ x);
    [cbn [mbind outcome_bind] | assumption
    | let E := fresh in intros E; rewrite E; cbn; apply fetch_ok; auto | done].

Lemma cread_fields_ok malloc p q buf c e :
  mallocs malloc -> pes_ok p -> at_pos buf c (pes_fields p) -> flags2 q = flags2 p ->
  exists q', cread_fields malloc buf (q, c, u8 (e - c)) =
      Ret (q', c + zlen (pes_fields p), u8 (e - (c + zlen (pes_fields p)))) /\
    same_fields p q' /\ pes_base q' = pes_base q.
Proof.
  intros Hm [[] _ _ [Hh He] _ _ _ _] Ha Hq. unfold pes_fields in *. cbv zeta in *.
  repeat rewrite at_app in Ha. 
  destruct Ha as (? & ? & ? & ? & ? & ? & ? & ? & ? & ? & ? & ? & ? & ? & ? & ?).
  unfold cread_fields, cur. cbv zeta. cbn [fst]. rewrite Hq. clear Hq.
  ptake (pts p). ptake (dts p). ptake (escr p). ptake (es_rate p). ptake [trick p]. ptake [add_cpy p].
  ptake (prev_pes_crc p). ptake [priv_flags p]. cbn [fst].
  assert (Hp : forall r m, flag (flags2 p) PES_EXT_FLAG &&
     flag (priv_flags (when (flag (flags2 p) PES_EXT_FLAG)
       (fun r => r <| priv_flags := zn [priv_flags p] 0 |>) r)) m =
     flag (flags2 p) PES_EXT_FLAG && flag (priv_flags p) m)
    by (intros; by destruct (flag _ PES_EXT_FLAG)).
  rewrite !Hp. clear Hp.
  ptake (pes_priv_data p). ptake [pack_field_length p]. cbn [fst].
  ptake_ptr Hh (block (pack_header p) (pack_field_length p)).
  ptake [pck_sqnc_cntr p]. ptake [org_stuff_length p]. ptake (p_std p). ptake [pes_ext_lngth p]. cbn [fst].
  ptake_ptr He (block (pes_ext p) (pes_ext_lngth p)).
  eexists. split; [rewrite !zlen_app, !Z.add_assoc; done|]. split.
  - split.
    + intros Hf. member pts.
    + intros Hf. member dts.
    + intros Hf. member escr.
    + intros Hf. member es_rate.
    + intros Hf. member trick.
    + intros Hf. member add_cpy.
    + intros Hf. member prev_pes_crc.
    + intros Hf. split; [member priv_flags|]. rewrite Hf. cbn [andb].
      split; [intros ?; member pes_priv_data|].
      split; [intros ?; split; [member pack_field_length | member pack_header]|].
      split; [intros ?; split; [member pck_sqnc_cntr | member org_stuff_length]|].
      split; [intros ?; member p_std|].
      intros ?; split; [member pes_ext_lngth | member pes_ext].
  - unfold pes_base. members stream_id. members llength. members plength. members flags1.
    members flags2. members pes_hlength. members pes_pckt_data. by members mpeg.
Qed.

(** [q] is the packet [p] as far as [p]'s kind and flags say its members are used. *)
Record same_pes (p q : pes_packet) : Prop := {
  sp_id : stream_id q = stream_id p;
  sp_llength : llength q = llength p;
  sp_length : plength q = plength p;
  sp_data : block (pes_pckt_data q) (plength p) = block (pes_pckt_data p) (plength p);
  sp_header : header_stream (stream_id p) = true ->
    mpeg q = 2 /\ flags1 q = flags1 p /\ flags2 q = flags2 p /\ pes_hlength q = pes_hlength p /\
    stuffing q = stuffing p /\ same_fields p q }.

Lemma cread_mpeg2_ok malloc p q buf :
  mallocs malloc -> pes_ok p -> header_stream (stream_id p) = true -> plength q = zlen (pes_body p) ->
  at_pos buf 0 (mpeg2_bytes p) ->
  exists q', cread_mpeg2 malloc buf q 1 = Ret (q', zlen (mpeg2_bytes p)) /\
    same_fields p q' /\ stuffing q' = stuffing p /\
    pes_base q' = (stream_id q, llength q, plength p, flags1 q, flags2 p, pes_hlength p, pes_pckt_data q, mpeg q).
Proof.
  intros Hm Hp Hs Hq Ha. pose proof Hp as [_ _ Hd _ Hh Hl _ Hz]. destruct (Hh Hs) as (_ & _ & Hst & Hhl).
  destruct (fetch_ok _ _ Hd) as [_ Hbl].
  assert (Hlen : zlen (mpeg2_bytes p) = 3 + pes_hlength p).
  { unfold mpeg2_bytes. zsimpl. rewrite Z2Nat.id by lia. lia. }
  assert (Hbody : zlen (pes_body p) = 3 + pes_hlength p + plength p).
  { unfold pes_body. rewrite Hs. cbn [opt]. rewrite zlen_app, Hlen, Hbl. done. }
  unfold mpeg2_bytes in Ha. rewrite !at_app in Ha. destruct Ha as (_ & H1 & H2 & H3 & H4).
  change (zlen [flags1 p]) with 1 in *. change (zlen [flags2 p]) with 1 in *.
  change (zlen [pes_hlength p]) with 1 in *. change (0 + 1) with 1 in *. change (1 + 1) with 2 in *.
  change (2 + 1) with 3 in *.
  unfold cread_mpeg2. rewrite (at_load _ _ _ H1). cbn [mbind outcome_bind].
  change (1 + 1) with 2. rewrite (at_load _ _ _ H2). cbn [mbind outcome_bind].
  set (q1 := set plength _ _). change (1 + 2) with 3.
  destruct (cread_fields_ok malloc p q1 buf 3 (3 + pes_hlength p) Hm Hp H3 eq_refl) as (q2 & E & Hsame & Hbase).
  replace (u8 (3 + pes_hlength p - 3)) with (pes_hlength p) in E
    by (unfold u8; rewrite Z.mod_small by lia; lia).
  rewrite E. clear E.
  cbn [mbind outcome_bind].
  replace (u8 (3 + pes_hlength p - (3 + zlen (pes_fields p)))) with (stuffing p).
  2: { unfold u8. pose proof (zlen_nonneg (pes_fields p)). rewrite Z.mod_small by lia. lia. }
  assert (Hr : zlen (replicate (Z.to_nat (stuffing p)) 0xff) = stuffing p) by (zsimpl; lia).
  pose proof (at_read _ _ _ H4) as E. rewrite Hr in E. rewrite E. cbn [mbind outcome_bind].
  eexists. split; [do 2 f_equal; lia|]. split; [by destruct Hsame; split|]. split; [done|].
  injection Hbase as B1 B2 B3 B4 B5 B6 B7 B8. unfold pes_base. unfold set. cbn.
  rewrite B1, B2, B3, B4, B5, B6, B7, B8. unfold q1, set. cbn.
  replace (u32 (plength q - (pes_hlength p + 3))) with (plength p); [done|].
  unfold u32. destruct Hd as [Hd _]. rewrite Hq, Hbody, Z.mod_small by lia. lia.
Qed.

Lemma store_prefix d x buf c :
  zlen x <= zlen d -> at_pos buf c x ->
  store (Some d) buf c (zlen x) = Ret (Some (blit d 0 x)) /\ block (Some (blit d 0 x)) (zlen x) = x.
Proof.
  intros Hd Ha. split; [|apply sub_blit_eq; lia]. unfold store.
  destruct (Z.eqb_spec (zlen x) 0) as [E|E].
  - destruct x as [|y x]; [by rewrite blit_nil|]. rewrite zlen_cons in E. pose proof (zlen_nonneg x). lia.
  - unfold memcpy. rewrite at_read by done. cbn. rewrite write_at_ok by lia. done.
Qed.

(** [q]: the structure once [stream_id], [llength] and the length are read. *)
Lemma cread_pes_ok malloc p q buf d :
  mallocs malloc -> pes_ok p -> at_pos buf 0 (pes_body p) ->
  stream_id q = stream_id p -> llength q = llength p -> plength q = zlen (pes_body p) ->
  pes_pckt_data q = Some d -> zlen d = zlen (pes_body p) ->
  exists q', cread_pes malloc buf q = Ret q' /\ same_pes p q'.
Proof.
  intros Hm Hp Ha Q1 Q2 Q3 Q4 Hd. pose proof Hp as [_ Hk Hdata _ Hh _ _ _].
  destruct (fetch_ok _ _ Hdata) as [_ Hbl]. unfold pes_body in *.
  remember (block (pes_pckt_data p) (plength p)) as data eqn:Edata. unfold cread_pes. rewrite Q1.
  unfold known_stream in Hk. destruct (plain_stream (stream_id p)) eqn:Ek.
  - pose proof (streams_exclusive _ Ek) as Ex. rewrite Ex in *. cbn [opt app] in *.
    destruct (store_prefix d data buf 0 ltac:(lia) Ha) as [E1 E2]. rewrite Hbl in E1, E2.
    set (q1 := if stream_id p =? PADDING_STREAM then _ else q).
    assert (Hq : pes_pckt_data q1 = Some d /\ plength q1 = plength p /\ stream_id q1 = stream_id p /\
                 llength q1 = llength p).
    { rewrite <- Hbl, <- Q3, <- Q4, <- Q1, <- Q2. unfold q1. by destruct (_ =? _). }
    destruct Hq as (Hpd & Hpl & Hid & Hll). rewrite Hpd, Hpl, E1. eexists. split; [done|].
    split; unfold set; cbn; try done; [by rewrite <- Edata|by rewrite Ex].
  - cbn [orb] in Hk. rewrite Hk in *. cbn [opt] in *. destruct (Hh eq_refl) as (_ & Hf & _).
    rewrite at_app in Ha. destruct Ha as [Ha1 Ha2].
    assert (Hfl : at_pos buf 0 [flags1 p]).
    { unfold mpeg2_bytes in Ha1. rewrite !at_app in Ha1. by destruct Ha1. }
    rewrite (at_load _ _ _ Hfl). cbn [mbind outcome_bind]. rewrite Hf. cbn [Z.eqb Pos.eqb].
    set (q1 := set mpeg _ _). change (mpeg q1) with 2. cbn [Z.eqb Pos.eqb].
    destruct (cread_mpeg2_ok malloc p q1 buf Hm Hp Hk) as (q2 & -> & Hsame & Hst & Hbase); [|done|].
    { change (plength q1) with (plength q). rewrite Q3. unfold pes_body. by rewrite Hk, <- Edata. }
    injection Hbase as B1 B2 B3 B4 B5 B6 B7 B8. cbn [mbind outcome_bind].
    rewrite Z.add_0_l in Ha2. pose proof (zlen_nonneg (mpeg2_bytes p)) as Hz. rewrite zlen_app in Hd.
    destruct (store_prefix d data buf _ ltac:(lia) Ha2) as [E1 E2]. rewrite Hbl in E1, E2.
    rewrite B3, B7. change (pes_pckt_data q1) with (pes_pckt_data q). rewrite Q4, E1.
    eexists. split; [done|]. split.
    + change (stream_id q2 = stream_id p). by rewrite B1.
    + change (llength q2 = llength p). by rewrite B2.
    + exact B3.
    + by rewrite <- Edata.
    + intros _. split; [exact B8|]. split; [exact B4|]. split; [exact B5|]. split; [exact B6|].
      split; [exact Hst|]. by destruct Hsame; split.
Qed.

Lemma pes_bytes_len p : pes_ok p -> zlen (pes_bytes p) = 6 + zlen (pes_body p).
Proof. intros [[] _ _ _ _ _ _ _]. unfold pes_bytes. zsimpl. lia. Qed.

Lemma read_pes_ok sys_read malloc p q c pos junk :
  reads_of sys_read c -> mallocs malloc -> pes_ok p -> zlen (llength q) = 2 -> zlen junk = 4 ->
  at_pos c pos (pes_bytes p) ->
  exists q', read_pes malloc sys_read (mk_file c pos) q junk =
      Ret (mk_file c (pos + zlen (pes_bytes p)), q', zlen (pes_body p)) /\ same_pes p q'.
Proof.
  intros Hc Hm Hp Hq Hj Ha. pose proof (pes_bytes_len p Hp) as Hlen.
  pose proof Hp as [[Hl _ _ _ _ _ _ _] Hk _ _ _ _ Hann Hz]. pose proof Ha as (Hpos & Hfit & _).
  assert (Ha4 : at_pos c pos ([0; 0; 1] ++ [stream_id p])).
  { unfold pes_bytes in Ha. rewrite app_assoc, at_app in Ha. by destruct Ha. }
  assert (Hll : at_pos c (pos + 4) (llength p)).
  { unfold pes_bytes in Ha. rewrite !at_app in Ha. destruct Ha as (_ & _ & Ha & _).
    by rewrite <- Z.add_assoc in Ha. }
  assert (Hb : at_pos c (pos + 6) (pes_body p)).
  { unfold pes_bytes in Ha. rewrite !at_app, Hl in Ha. destruct Ha as (_ & _ & _ & Ha).
    by rewrite <- !Z.add_assoc in Ha. }
  unfold read_pes. cbn [content seek_pes]. cbn [fpos].
  rewrite save_read_all by (done || lia). cbn [mbind outcome_bind].
  destruct Ha4 as (_ & _ & E4). change (zlen ([0; 0; 1] ++ [stream_id p])) with 4 in E4. rewrite E4.
  rewrite blit_all by done. cbn [app]. change (4 <? 4) with false. cbn [mbind outcome_bind].
  change (start_code _) with true. change (zn _ 3) with (stream_id p). cbn iota. rewrite Hk.
  set (q1 := q <| stream_id := stream_id p |>). change (llength q1) with (llength q).
  rewrite save_read_all by (done || lia). cbn [mbind outcome_bind].
  destruct Hll as (_ & _ & Ell). rewrite Hl in Ell. rewrite Ell. rewrite blit_all by (by rewrite Hq, Hl).
  change (2 <? 2) with false. cbn iota.
  set (q2 := q1 <| llength := llength p |>). unfold setl_pes, setlength_pes. change (llength q2) with (llength p).
  rewrite !load_ok by lia. cbn [mbind outcome_bind]. rewrite Hann.
  set (q3 := q2 <| plength := zlen (pes_body p) |>). change (plength q3) with (zlen (pes_body p)).
  destruct (Z.eqb_spec (zlen (pes_body p)) 0); [lia|].
  destruct (Hm (zlen (pes_body p)) ltac:(lia)) as (d & Ed & Hd).
  set (q4 := q3 <| pes_pckt_data := malloc (zlen (pes_body p)) |>). change (plength q4) with (zlen (pes_body p)).
  destruct (Z.eqb_spec (zlen (pes_body p)) 0); [lia|]. cbn [mbind outcome_bind negb].
  change (plength q4) with (zlen (pes_body p)). destruct (Z.eqb_spec (zlen (pes_body p)) 0); [lia|].
  rewrite Ed. replace (pos + 4 + 2) with (pos + 6) by lia.
  rewrite save_read_all by (done || lia). cbn [mbind outcome_bind].
  destruct Hb as (_ & _ & Eb). rewrite Eb, blit_all by done. unfold u32 at 1. rewrite Z.mod_small by lia.
  rewrite Z.ltb_irrefl.
  destruct (cread_pes_ok malloc p q4 (pes_body p) d Hm Hp) as (q5 & E5 & Hs); try done.
  { rewrite <- (app_nil_r (pes_body p)) at 1. apply at_self. }
  rewrite E5. cbn [mbind outcome_bind]. exists q5. split; [|done]. do 4 f_equal. lia.
Qed.

(** C31: an MPEG-2 packet ([pes_ok]) that [cwrite_pes] prints, [read_pes] reads back: from
    any place of a file, whatever the single [read] calls return, it gives the announced
    length, leaves the descriptor behind the packet, and every member that the kind of
    stream and the flags make part of the packet is the same.  The packet is one of a
    known kind of stream; it announces the length of what follows, which is not 0 (a packet
    that announces 0 is not read back: [find_length] takes the length from the next start
    code); and if it has an optional header, that is one of MPEG-2, whose length counts
    the fields that the flags announce and the stuffing. *)
Theorem read_pes_cwrite_pes sys_read malloc p q buf junk pre post :
  mallocs malloc -> pes_ok p -> zlen (llength q) = 2 -> zlen junk = 4 ->
  zlen (pes_bytes p) <= zlen buf -> u32 (plength p + pes_hlength p) <= zlen buf ->
  exists out n, cwrite_pes buf p (zlen buf) = Ret (Some (out, n)) /\
    let c := pre ++ sub out 0 n ++ post in
    (reads_of sys_read c ->
     exists q', read_pes malloc sys_read (mk_file c (zlen pre)) q junk =
         Ret (mk_file c (zlen pre + n), q', zlen (pes_body p)) /\ same_pes p q').
Proof.
  intros Hm Hp Hq Hj Hbuf Hu. pose proof (zlen_nonneg (pes_bytes p)). rewrite cwrite_pes_bytes by done.
  unfold emitted. rewrite (proj2 (Z.leb_le _ _)) by lia. cbn [mbind outcome_bind].
  eexists _, _. split; [done|]. cbv zeta.
  assert (Es : sub (blit buf 0 (pes_bytes p)) 0 (zlen (pes_bytes p)) = pes_bytes p) by (apply sub_blit_eq; lia).
  rewrite Es. intros Hc. apply read_pes_ok; try done. apply at_mid.
Qed.

(** [write_pes] sizes its buffer as [length + pes_hlength] and forgets the
    start code, the length and the fixed part of the header: for every
    well-formed packet with a header, and for every packet without one whose
    [pes_hlength] is below 6, [cwrite_pes] writes behind the end of the block. *)
Theorem write_pes_overflows malloc p :
  mallocs malloc -> pes_ok p -> header_stream (stream_id p) = true \/ pes_hlength p < 6 ->
  write_pes malloc p = Crash.
Proof.
  intros Hm Hp Hk. pose proof Hp as [_ _ Hd _ Hh Hl _ Hz]. destruct (fetch_ok _ _ Hd) as [_ Hbl].
  destruct Hd as [Hd _]. pose proof (pes_bytes_len p Hp) as Hlen.
  assert (Hmore : plength p + pes_hlength p < zlen (pes_bytes p)).
  { rewrite Hlen. unfold pes_body. rewrite zlen_app, Hbl.
    pose proof (zlen_nonneg (opt (header_stream (stream_id p)) (mpeg2_bytes p))).
    destruct Hk as [Hk|Hk]; [|lia]. destruct (Hh Hk) as (_ & _ & Hs & ->). rewrite Hk. cbn [opt].
    unfold mpeg2_bytes. zsimpl. lia. }
  assert (Hu : u32 (plength p + pes_hlength p) = plength p + pes_hlength p).
  { unfold u32. rewrite Z.mod_small; [done|].
    assert (plength p <= zlen (pes_body p)); [|lia].
    unfold pes_body. rewrite zlen_app, Hbl.
    pose proof (zlen_nonneg (opt (header_stream (stream_id p)) (mpeg2_bytes p))). lia. }
  unfold write_pes. destruct (Hm (u32 (plength p + pes_hlength p))) as (b & -> & Hb); [lia|].
  rewrite cwrite_pes_bytes by (done || lia). unfold emitted.
  by rewrite (proj2 (Z.leb_gt _ _)) by lia.
Qed.

(** ** Time stamps *)

(** A time stamp of 33 bits in its five bytes: [k] is the leading nibble. *)
Definition pts_bytes (k t : Z) : list Z :=
  [ Z.land (Z.lor (Z.shiftl k 4) (Z.lor (Z.shiftl (Z.land (Z.shiftr t 30) 7) 1) 1)) 0xff;
    Z.land (Z.shiftr t 22) 0xff;
    Z.land (Z.lor (Z.shiftl (Z.shiftr t 15) 1) 1) 0xff;
    Z.land (Z.shiftr t 7) 0xff;
    Z.land (Z.lor (Z.shiftl t 1) 1) 0xff ].

(** [pts2pts] extracts the 32 low bits of the time stamp from the five
    bytes that carry it between marker bits. *)
Theorem pts2pts_value av_pts k t :
  zlen av_pts = 4 -> pts2pts av_pts (pts_bytes k t) = Ret (be32 t).
Proof.
  intros Hl. unfold pts2pts. rewrite !load_ok by (split; [done|reflexivity]). cbn [mbind outcome_bind].
  set (p0 := zn _ 0). set (p1 := zn _ 1). set (p2 := zn _ 2). set (p3 := zn _ 3). set (p4 := zn _ 4).
  rewrite write_at_ok by (rewrite ?Hl; done). f_equal. rewrite blit_all by done. unfold be32.
  f_equal; [|f_equal; [|f_equal; [|f_equal]]]; subst p0 p1 p2 p3 p4; unfold pts_bytes;
    cbv [zn nth Z.to_nat Pos.to_nat Pos.iter_op Nat.add]; byte_bits.
Qed.

(** ** Witnesses *)
Definition empty_pes : pes_packet :=
  mk_pes_packet 0 [0; 0] 0 0x80 0 0 (replicate 5 0) (replicate 5 0) (replicate 6 0) (replicate 3 0) 0 0 [0; 0] 0
    (replicate 16 0) 0 None 0 0 [0; 0] 0 None None 0 2 0 None 0.
(** Video with both time stamps, a pack header of two bytes and stuffing. *)
Definition sample_pes : pes_packet :=
  mk_pes_packet 0xE0 [0; 22] 3 0x81 0xC1 16 [0x31; 2; 3; 4; 5] [0x11; 7; 8; 9; 1] (replicate 6 0)
    (replicate 3 0) 0 0 [0; 0] 0x40 (replicate 16 0) 2 (Some [1; 2]) 0 0 [0; 0] 0 None (Some [7; 8; 9]) 0 2 0 None 2.

Lemma sample_pes_ok : pes_ok sample_pes.
Proof.
  split.
  - by split.
  - done.
  - split; [done|]. right. by exists [7; 8; 9].
  - split; [|done]. intros _. split; [done|]. right. by exists [1; 2].
  - done.
  - done.
  - done.
  - done.
Qed.

Lemma read_pes_cwrite_pes_witness :
  exists out n, cwrite_pes (replicate 40 0) sample_pes 40 = Ret (Some (out, n)) /\
    let c := [0x47; 0; 0; 1] ++ sub out 0 n ++ [0; 0] in
    exists q', read_pes sample_malloc (byte_reads c) (mk_file c 4) empty_pes [9; 9; 9; 9] =
         Ret (mk_file c (4 + n), q', 22) /\ same_pes sample_pes q'.
Proof.
  set (out := match cwrite_pes (replicate 40 0) sample_pes 40 with Ret (Some (o, n)) => sub o 0 n | _ => [] end).
  destruct (read_pes_cwrite_pes (byte_reads ([0x47; 0; 0; 1] ++ out ++ [0; 0])) sample_malloc sample_pes empty_pes
           (replicate 40 0) [9; 9; 9; 9] [0x47; 0; 0; 1] [0; 0]) as (o & n & E & H);
    [apply sample_mallocs | apply sample_pes_ok | done | done | by vm_compute | by vm_compute |].
  exists o, n. split; [exact E|]. assert (Eo : out = sub o 0 n).
  { change (zlen (replicate 40 0)) with 40 in E. unfold out. by rewrite E. }
  rewrite Eo in H. apply H. apply byte_reads_ok.
Defined.

Lemma write_pes_overflows_witness : write_pes sample_malloc sample_pes = Crash.
Proof.
  apply (write_pes_overflows sample_malloc sample_pes);
    [apply sample_mallocs | apply sample_pes_ok | left; by vm_compute].
Defined.

Lemma pts2pts_value_witness : pts2pts [0; 0; 0; 0] (pts_bytes 2 0x123456789) = Ret [0x23; 0x45; 0x67; 0x89].
Proof. apply (pts2pts_value [0; 0; 0; 0] 2 0x123456789). done. Defined.
