(* ===== verification/PsPacket.v ===== *)
(** * Program stream packs of libmpegtools

    Models the program stream part of
    apps/misc/libs/libmpegtools/ctools.c: the pack and system headers, the
    values packed into them, and reading a pack from a descriptor ([read_ps])
    and from memory ([cread_ps]).  [read_ps] reads what [cwrite_ps] prints and
    counts the packets of the pack; [cread_ps] never counts one, and does not return if
    there is one. *)
From S2P Require Import Prelude MpegIO PesPacket.

Definition MAX_SEARCH : Z := 1024 * 1024.
Definition PS_MAX : Z := 200.

(** [typedef struct ps_packet_] *)
Record ps_packet := mk_ps_packet {
  scr : list Z;
  mux_rate : list Z;
  stuff_length : Z;
  ps_data : option (list Z);
  sheader_llength : list Z;
  sheader_length : Z;
  rate_bound : list Z;
  audio_bound : Z;
  video_bound : Z;
  reserved : Z;
  npes : Z;
  ps_mpeg : Z }.
#[export] Instance eta_ps_packet : Eta ps_packet := fun p =>
  mk_ps_packet (scr p) (mux_rate p) (stuff_length p) (ps_data p) (sheader_llength p) (sheader_length p)
    (rate_bound p) (audio_bound p) (video_bound p) (reserved p) (npes p) (ps_mpeg p).

Definition init_ps (p : ps_packet) : ps_packet :=
  p <| stuff_length := 0xF8 |> <| ps_data := None |> <| sheader_length := 0 |> <| audio_bound := 0 |>
    <| video_bound := 0 |> <| npes := 0 |> <| ps_mpeg := 2 |>.

(** The block that is freed is [ps_data]. *)
Definition kill_ps (p : ps_packet) : ps_packet := init_ps p.

Definition setlength_ps (p : ps_packet) : outcome ps_packet :=
  hi ← load (sheader_llength p) 0;
  lo ← load (sheader_llength p) 1;
  let ll := hi * 256 + lo in
  Ret (p <| sheader_length := if ps_mpeg p =? 2 then ll - 6 else ll |>).

(** Four bytes of a word in network order. *)
Definition ntohl (i : list Z) : Z :=
  Z.lor (Z.shiftl (zn i 0) 24) (Z.lor (Z.shiftl (zn i 1) 16) (Z.lor (Z.shiftl (zn i 2) 8) (zn i 3))).

Definition mux_ps (p : ps_packet) : outcome Z :=
  m0 ← load (mux_rate p) 0; m1 ← load (mux_rate p) 1; m2 ← load (mux_rate p) 2;
  Ret (Z.shiftr (ntohl [0; m0; m1; m2]) 2).

Definition rate_ps (p : ps_packet) : outcome Z :=
  r0 ← load (rate_bound p) 0; r1 ← load (rate_bound p) 1; r2 ← load (rate_bound p) 2;
  Ret (Z.shiftr (ntohl [0; Z.land r0 0x7F; r1; r2]) 1).

Definition scr_base_ps (p : ps_packet) : outcome Z :=
  s0 ← load (scr p) 0; s1 ← load (scr p) 1; s2 ← load (scr p) 2; s3 ← load (scr p) 3; s4 ← load (scr p) 4;
  Ret (ntohl
    [ u8 (Z.lor (Z.lor (Z.shiftl (Z.land s0 0x18) 3) (Z.shiftl (Z.land s0 0x03) 4)) (Z.shiftr (Z.land s1 0xF0) 4));
      u8 (Z.lor (Z.shiftl (Z.land s1 0x0F) 4) (Z.shiftr (Z.land s2 0xF0) 4));
      u8 (Z.lor (Z.lor (Z.shiftl (Z.land s2 0x08) 4) (Z.shiftl (Z.land s2 0x03) 5)) (Z.shiftr (Z.land s3 0xF8) 3));
      u8 (Z.lor (Z.shiftl (Z.land s3 0x07) 5) (Z.shiftr (Z.land s4 0xF8) 3)) ]).

Definition scr_ext_ps (p : ps_packet) : outcome Z :=
  s5 ← load (scr p) 5; s4 ← load (scr p) 4;
  Ret (u16 (Z.shiftr s5 1 + Z.land s4 0x03 * 128)).

Definition cwrite_ps (buf : list Z) (p : ps_packet) (length : Z) : outcome (list Z * Z) :=
  w ← emit true [0x00; 0x00; 0x01; 0xBA] 4 (buf, 0);
  let mpeg2 := ps_mpeg p =? 2 in
  w ← emit true (scr p) (if mpeg2 then 6 else 5) w;
  w ← emit true (mux_rate p) 3 w;
  w ← emit mpeg2 [stuff_length p] 1 w;
  w ← emit_stuffing (if mpeg2 then Z.to_nat (Z.land (stuff_length p) 3) else O) w;
  let sheader := negb (sheader_length p =? 0) in
  w ← emit sheader [0x00; 0x00; 0x01; 0xBB] 4 w;
  w ← emit sheader (sheader_llength p) 2 w;
  w ← emit (sheader && mpeg2) (rate_bound p) 3 w;
  w ← emit (sheader && mpeg2) [audio_bound p] 1 w;
  w ← emit (sheader && mpeg2) [video_bound p] 1 w;
  w ← emit (sheader && mpeg2) [reserved p] 1 w;
  emit_ptr sheader (ps_data p) (sheader_length p) w.

(** The bytes that reach [write]; [stack] is the array they are put together in. *)
Definition write_ps (p : ps_packet) (stack : list Z) : outcome (list Z) :=
  '(buf, length) ← cwrite_ps stack p PS_MAX; read_at buf 0 length.

(** Is [c] a start code? *)
Definition is_start (headr : list Z) : bool :=
  (zn headr 0 =? 0x00) && (zn headr 1 =? 0x00) && (zn headr 2 =? 0x01).

(** Are the pointers of a packet null?  The others are freed by [kill_pes]. *)
Definition null_pointers (p : pes_packet) : bool :=
  bool_decide (pack_header p = None) && bool_decide (pes_ext p = None) &&
  bool_decide (pes_pckt_data p = None) && bool_decide (mpeg1_headr p = None).

Section Memory.
Variable malloc : Z -> option (list Z).
(** What is on the stack where [pes] and [sync4] will be. *)
Variable stack_pes : pes_packet.
Variable junk : list Z.

Definition setl_ps (p : ps_packet) : outcome ps_packet :=
  p ← setlength_ps p; Ret (p <| ps_data := malloc (sheader_length p) |>).

(** [pes] is [None] as long as it has not been initialised.  Releasing it then frees what
    the pointers on the stack happen to be, unless they are null. *)
Definition kill_local (pes : option pes_packet) : outcome pes_packet :=
  match pes with
  | None => if null_pointers stack_pes then kill_pes stack_pes else Crash
  | Some pes => kill_pes pes
  end.

(** *** From a descriptor *)
Variable sys_read : Z -> Z -> Z.

(** The search for a pack header: [MAX_SEARCH] turns at most. *)
Fixpoint find_pack (turns : nat) (f : file) (headr : list Z) (po neof : Z)
  : outcome (file * list Z * Z * bool) :=
  match turns with
  | O => Ret (f, headr, neof, false)
  | S turns =>
    if negb (neof >? 0) then Ret (f, headr, neof, false) else
    '(f, headr, neof) ← save_read sys_read f headr 0 4;
    if is_start headr then
      if zn headr 3 =? 0xBA then Ret (f, headr, neof, true)
      else if zn headr 3 =? 0xB9 then Ret (f, headr, neof, false)
      else find_pack turns (lseek_set f (po + 1)) headr po neof
    else find_pack turns f headr po neof
  end.

(** The packets of the pack; [i] counts them. *)
Fixpoint count_pes (fuel : nat) (f : file) (headr : list Z) (pes : option pes_packet) (i : Z)
  : outcome (Z * Z) :=
  match fuel with
  | O => Hang
  | S fuel =>
    let po := fpos f in
    '(f, headr, neof) ← save_read sys_read f headr 0 4;
    let f := lseek_set f po in
    if is_start headr && negb (zn headr 3 =? 0xBA) then
      pes ← init_pes (default stack_pes pes);
      '(f, pes, neof) ← read_pes malloc sys_read f pes junk;
      pes ← kill_local (Some pes);
      if neof >? 0 then count_pes fuel f headr (Some pes) (i + 1) else Ret (i + 1, neof)
    else
      _ ← kill_local pes;
      Ret (i, neof)
  end.

(** The pack header behind its start code. *)
Definition read_pack_header (f : file) (p : ps_packet) : outcome (file * ps_packet * Z) :=
  '(f, p, neof) ← read_field sys_read true 6 scr (fun x p => p <| scr := x |>) (f, p, 0);
  let p := p <| ps_mpeg := if flag (zn (scr p) 0) 0x40 then 2 else 1 |> in
  if ps_mpeg p =? 2 then
    s ← read_field sys_read true 3 mux_rate (fun x p => p <| mux_rate := x |>) (f, p, neof);
    '(f, p, neof) ← read_field sys_read true 1 (fun p => [stuff_length p])
                      (fun x p => p <| stuff_length := zn x 0 |>) s;
    Ret (lseek_set f (fpos f + Z.land (stuff_length p) 3), p, neof)
  else
    m ← write_at (mux_rate p) 0 [zn (scr p) 5];
    '(f, m, neof) ← save_read sys_read f m 1 2;
    Ret (f, p <| mux_rate := m |>, neof).

(** The system header, if one follows. *)
Definition read_system_header (f : file) (p : ps_packet) (headr : list Z)
  : outcome (file * ps_packet * list Z) :=
  let po := fpos f in
  '(f, headr, neof) ← save_read sys_read f headr 0 4;
  if is_start headr && (zn headr 3 =? 0xBB) then
    '(f, p, neof) ← read_field sys_read true 2 sheader_llength (fun x p => p <| sheader_llength := x |>) (f, p, neof);
    p ← setl_ps p;
    let mpeg2 := ps_mpeg p =? 2 in
    s ← read_field sys_read mpeg2 3 rate_bound (fun x p => p <| rate_bound := x |>) (f, p, neof);
    s ← read_field sys_read mpeg2 1 (fun p => [audio_bound p]) (fun x p => p <| audio_bound := zn x 0 |>) s;
    s ← read_field sys_read mpeg2 1 (fun p => [video_bound p]) (fun x p => p <| video_bound := zn x 0 |>) s;
    '(f, p, _) ← read_field sys_read mpeg2 1 (fun p => [reserved p]) (fun x p => p <| reserved := zn x 0 |>) s;
    match ps_data p with
    | None => Ret (f, p, headr)
    | Some d =>
      '(f, d, _) ← save_read sys_read f d 0 (u32 (sheader_length p));
      Ret (f, p <| ps_data := Some d |>, headr)
    end
  else Ret (lseek_set f po, p <| sheader_length := 0 |>, headr).

Definition read_ps (f : file) (p : ps_packet) : outcome (file * ps_packet * Z) :=
  '(f, headr, neof, found) ← find_pack (Z.to_nat MAX_SEARCH) f junk (fpos f) 1;
  if (found : bool) then
    '(f, p, _) ← read_pack_header f p;
    '(f, p, headr) ← read_system_header f p headr;
    let q := fpos f in
    '(i, neof) ← count_pes (S (length (content f))) f headr None 0;
    Ret (lseek_set f q, p <| npes := i |>, neof)
  else Ret (f, p, neof).

(** *** From memory; the conditions stop reading at the first mismatch. *)
Definition start_at (buf : list Z) (c : Z) : outcome bool :=
  b0 ← load buf c;
  if negb (b0 =? 0x00) then Ret false else
  b1 ← load buf (c + 1);
  if negb (b1 =? 0x00) then Ret false else
  b2 ← load buf (c + 2);
  Ret (b2 =? 0x01).

(** [count] counts turns; whether a pack header was found, and the position. *)
Fixpoint cfind_pack (turns : nat) (buf : list Z) (c count length : Z) : outcome (bool * Z) :=
  match turns with
  | O => Ret (false, c)
  | S turns =>
    if negb (count <? length) then Ret (false, c) else
    st ← start_at buf c;
    if (st : bool) then
      b3 ← load buf (c + 3);
      if b3 =? 0xBA then Ret (true, c + 4)
      else if b3 =? 0xB9 then Ret (false, c + 4)
      else cfind_pack turns buf 1 (count + 1) length
    else cfind_pack turns buf (c + 4) (count + 1) length
  end.

(** The loop that should count the packets: nothing in it advances [c]. *)
Fixpoint ccount_pes (fuel : nat) (buf : list Z) (c length : Z) (pes : option pes_packet) (i : Z) : outcome Z :=
  match fuel with
  | O => Hang
  | S fuel =>
    st ← start_at buf c;
    more ← (if (st : bool) then b3 ← load buf (c + 3); Ret (negb (b3 =? 0xBA)) else Ret false);
    if (more : bool) then
      pes ← init_pes (default stack_pes pes);
      pes ← kill_local (Some pes);
      if c <? length then ccount_pes fuel buf c length (Some pes) (i + 1) else Ret (i + 1)
    else
      _ ← kill_local pes;
      Ret i
  end.

Definition cread_pack_header (buf : list Z) (p : ps_packet) (c : Z) : outcome (ps_packet * Z) :=
  '(p, c) ← field true 6 (fun x p => p <| scr := x |>) buf (p, c);
  let p := p <| ps_mpeg := if flag (zn (scr p) 0) 0x40 then 2 else 1 |> in
  if ps_mpeg p =? 2 then
    s ← field true 3 (fun x p => p <| mux_rate := x |>) buf (p, c);
    '(p, c) ← field true 1 (fun x p => p <| stuff_length := zn x 0 |>) buf s;
    Ret (p, c + Z.land (stuff_length p) 3)
  else
    m ← write_at (mux_rate p) 0 [zn (scr p) 5];
    m ← memcpy m 1 buf c 2;
    Ret (p <| mux_rate := m |>, c + 2).

Definition cread_system_header (buf : list Z) (p : ps_packet) (c : Z) : outcome (ps_packet * Z) :=
  st ← start_at buf c;
  sys ← (if (st : bool) then b3 ← load buf (c + 3); Ret (b3 =? 0xBB) else Ret false);
  if (sys : bool) then
    '(p, c) ← field true 2 (fun x p => p <| sheader_llength := x |>) buf (p, c + 4);
    p ← setl_ps p;
    let mpeg2 := ps_mpeg p =? 2 in
    s ← field mpeg2 3 (fun x p => p <| rate_bound := x |>) buf (p, c);
    s ← field mpeg2 1 (fun x p => p <| audio_bound := zn x 0 |>) buf s;
    s ← field mpeg2 1 (fun x p => p <| video_bound := zn x 0 |>) buf s;
    '(p, c) ← field mpeg2 1 (fun x p => p <| reserved := zn x 0 |>) buf s;
    d ← store (ps_data p) buf c (u32 (sheader_length p));
    Ret (p <| ps_data := d |>, c + sheader_length p)
  else Ret (p <| sheader_length := 0 |>, c).

(** [turns] is the bound [MAX_SEARCH] of the search, [fuel] that of the last
    loop, which has none in the source. *)
Definition cread_ps_within (turns fuel : nat) (buf : list Z) (p : ps_packet) (length : Z) : outcome ps_packet :=
  '(found, c) ← cfind_pack turns buf 0 0 length;
  if (found : bool) then
    '(p, c) ← cread_pack_header buf p c;
    '(p, c) ← cread_system_header buf p c;
    i ← ccount_pes fuel buf c length None 0;
    Ret (p <| npes := i |>)
  else Ret p.

Definition cread_ps : nat -> list Z -> ps_packet -> Z -> outcome ps_packet :=
  cread_ps_within (Z.to_nat MAX_SEARCH).
End Memory.

(** ** The values in the headers *)

(** A system clock reference in its six bytes: 33 bits [b], 9 bits [e] and
    marker bits. *)
Definition scr_bytes (b e : Z) : list Z :=
  [ Z.land (Z.lor 0x44 (Z.lor (Z.shiftl (Z.land (Z.shiftr b 30) 7) 3) (Z.land (Z.shiftr b 28) 3))) 0xff;
    Z.land (Z.shiftr b 20) 0xff;
    Z.land (Z.lor (Z.shiftl (Z.land (Z.shiftr b 15) 0x1f) 3) (Z.lor 4 (Z.land (Z.shiftr b 13) 3))) 0xff;
    Z.land (Z.shiftr b 5) 0xff;
    Z.land (Z.lor (Z.shiftl b 3) (Z.lor 4 (Z.land (Z.shiftr e 7) 3))) 0xff;
    Z.land (Z.lor (Z.shiftl e 1) 1) 0xff ].
(** A rate of 22 bits between markers, as in the pack and in the system header. *)
Definition mux_rate_bytes (r : Z) : list Z :=
  [Z.land (Z.shiftr r 14) 0xff; Z.land (Z.shiftr r 6) 0xff; Z.land (Z.lor (Z.shiftl r 2) 3) 0xff].
Definition rate_bound_bytes (r : Z) : list Z :=
  [Z.land (Z.lor 0x80 (Z.shiftr r 15)) 0xff; Z.land (Z.shiftr r 7) 0xff; Z.land (Z.lor (Z.shiftl r 1) 1) 0xff].

Lemma testbit_byte t k m :
  0 <= k -> Z.testbit (Z.land (Z.shiftr t k) 0xff) m = (0 <=? m) && (m <? 8) && Z.testbit t (m + k).
Proof.
  intros Hk. rewrite Z.land_spec. change 0xff with (Z.ones 8). rewrite Z.testbit_ones by lia.
  destruct (Z.leb_spec 0 m); [|by rewrite andb_false_r].
  rewrite Z.shiftr_spec by done. by rewrite andb_comm.
Qed.

Lemma ntohl_be32 t : ntohl (be32 t) = u32 t.
Proof.
  unfold ntohl, be32, u32. rewrite <- (Z.land_ones t 32) by lia.
  cbv [zn nth Z.to_nat Pos.to_nat Pos.iter_op Nat.add].
  replace (Z.land t 255) with (Z.land (Z.shiftr t 0) 255) by done.
  apply Z.bits_inj'. intros n Hn. rewrite !Z.lor_spec, !Z.shiftl_spec by done.
  rewrite !testbit_byte by lia. rewrite Z.land_spec, Z.testbit_ones by lia.
  replace (n - 24 + 24) with n by lia. replace (n - 16 + 16) with n by lia.
  replace (n - 8 + 8) with n by lia. rewrite Z.add_0_r.
  destruct (Z.testbit t n); [|by rewrite !andb_false_r].
  repeat match goal with
  | |- context [Z.leb ?a ?b] => destruct (Z.leb_spec a b)
  | |- context [Z.ltb ?a ?b] => destruct (Z.ltb_spec a b)
  end; done || lia.
Qed.

(** A word of 24 bits shifted right by [k]. *)
Lemma ntohl_shift t k b1 b2 b3 :
  0 <= k <= 8 -> 0 <= Z.shiftr t k < 2 ^ (24 - k) ->
  [b1; b2; b3] = [Z.land (Z.shiftr t 16) 0xff; Z.land (Z.shiftr t 8) 0xff; Z.land t 0xff] ->
  Z.shiftr (ntohl [0; b1; b2; b3]) k = Z.shiftr t k.
Proof.
  intros Hk Ht E. assert (Hp : 2 ^ (24 - k) <= 2 ^ (32 - k)) by (apply Z.pow_le_mono_r; lia).
  assert (E0 : Z.land (Z.shiftr t 24) 0xff = 0).
  { replace 24 with (k + (24 - k)) by lia. rewrite <- Z.shiftr_shiftr by lia.
    rewrite (Z.shiftr_div_pow2 (Z.shiftr t k)), Z.div_small by lia. done. }
  replace [0; b1; b2; b3] with (be32 t); [|unfold be32; by rewrite E0, E].
  rewrite ntohl_be32. unfold u32. rewrite <- (Z.land_ones t 32) by lia.
  rewrite Z.shiftr_land. rewrite (Z.shiftr_div_pow2 (Z.ones 32)) by lia.
  rewrite Z.ones_div_pow2 by lia. rewrite Z.land_ones, Z.mod_small by lia. done.
Qed.

(** The nine bits of the extension, seven and two of them. *)
Lemma ext_parts e x y :
  0 <= e < 2 ^ 9 -> Z.land x 0xff = x -> (forall n, 0 <= n < 8 -> Z.testbit x n = Z.testbit (Z.land e 0x7f) n) ->
  Z.land y 0xff = y -> (forall n, 0 <= n < 8 -> Z.testbit y n = Z.testbit (Z.land (Z.shiftr e 7) 3) n) ->
  u16 (x + y * 128) = e.
Proof.
  intros He Hx Ex Hy Ey.
  assert (x = Z.land e 0x7f) as ->.
  { rewrite <- Hx. rewrite (byte_eq _ _ Ex). rewrite <- Z.land_assoc. done. }
  assert (y = Z.land (Z.shiftr e 7) 3) as ->.
  { rewrite <- Hy. rewrite (byte_eq _ _ Ey). rewrite <- Z.land_assoc. done. }
  change 0x7f with (Z.ones 7). change 3 with (Z.ones 2). rewrite !Z.land_ones, Z.shiftr_div_pow2 by lia.
  unfold u16. rewrite (Z.mod_small (e / 2 ^ 7)).
  2: { split; [apply Z.div_pos; lia|]. apply Z.div_lt_upper_bound; lia. }
  replace (e mod 2 ^ 7 + e / 2 ^ 7 * 128) with e; [rewrite Z.mod_small; lia|].
  rewrite (Z.div_mod e (2 ^ 7)) at 1 by lia. lia.
Qed.

(** The values of the headers: from the six bytes of a system clock
    reference [scr_base_ps] gives the 32 low bits of the base and [scr_ext_ps] the
    extension, and [mux_ps] and [rate_ps] give the 22-bit rates. *)
Theorem ps_values p b e r rb :
  0 <= e < 2 ^ 9 -> 0 <= r < 2 ^ 22 -> 0 <= rb < 2 ^ 22 ->
  scr p = scr_bytes b e -> mux_rate p = mux_rate_bytes r -> rate_bound p = rate_bound_bytes rb ->
  scr_base_ps p = Ret (u32 b) /\ scr_ext_ps p = Ret e /\ mux_ps p = Ret r /\ rate_ps p = Ret rb.
Proof.
  intros He Hr Hrb E1 E2 E3. unfold scr_base_ps, scr_ext_ps, mux_ps, rate_ps. rewrite E1, E2, E3.
  rewrite !load_ok by (split; [done|reflexivity]). cbn [mbind outcome_bind].
  unfold scr_bytes, mux_rate_bytes, rate_bound_bytes.
  cbv [zn nth Z.to_nat Pos.to_nat Pos.iter_op Nat.add]. split; [|split; [|split]]; f_equal.
  - rewrite <- ntohl_be32. f_equal. unfold be32.
    f_equal; [|f_equal; [|f_equal; [|f_equal]]]; byte_bits.
  - apply ext_parts; [done| |bits8| |bits8].
    + apply land_small. rewrite Z.shiftr_div_pow2 by lia.
      pose proof (land_bound (Z.lor (Z.shiftl e 1) 1) 255 ltac:(lia)).
      split; [apply Z.div_pos; lia|apply Z.div_lt_upper_bound; lia].
    + apply land_small. match goal with |- 0 <= Z.land ?x 3 < _ => pose proof (land_bound x 3 ltac:(lia)) end. lia.
  - rewrite (ntohl_shift (Z.lor (Z.shiftl r 2) 3)); [|done| |].
    + rewrite Z.shiftr_lor, Z.shiftr_shiftl_l by lia. cbn. by rewrite Z.shiftl_0_r, Z.lor_0_r.
    + rewrite Z.shiftr_lor, Z.shiftr_shiftl_l by lia. cbn. rewrite Z.shiftl_0_r, Z.lor_0_r. lia.
    + f_equal; [byte_bits|f_equal; byte_bits].
  - rewrite (ntohl_shift (Z.lor (Z.shiftl rb 1) 1)); [|done| |].
    + rewrite Z.shiftr_lor, Z.shiftr_shiftl_l by lia. cbn. by rewrite Z.shiftl_0_r, Z.lor_0_r.
    + rewrite Z.shiftr_lor, Z.shiftr_shiftl_l by lia. cbn. rewrite Z.shiftl_0_r, Z.lor_0_r. lia.
    + assert (Htop : Z.testbit rb 22 = false).
      { destruct (Z.eq_dec rb 0) as [->|]; [apply Z.bits_0|]. apply Z.bits_above_log2; [lia|].
        apply Z.log2_lt_pow2; lia. }
      f_equal; [|f_equal; byte_bits].
      rewrite <- Z.land_assoc, (Z.land_comm 255 127), Z.land_assoc. by byte_bits.
Qed.

(** ** What a pack looks like *)
Definition system_bytes (p : ps_packet) : list Z :=
  [0x00; 0x00; 0x01; 0xBB] ++ sheader_llength p ++ rate_bound p ++ [audio_bound p] ++ [video_bound p] ++
  [reserved p] ++ block (ps_data p) (sheader_length p).

Definition ps_bytes (p : ps_packet) : list Z :=
  [0x00; 0x00; 0x01; 0xBA] ++ scr p ++ mux_rate p ++ [stuff_length p] ++
  replicate (Z.to_nat (Z.land (stuff_length p) 3)) 0xff ++
  opt (negb (sheader_length p =? 0)) (system_bytes p).

Record ps_arrays (p : ps_packet) : Prop := {
  pp_scr : zlen (scr p) = 6;
  pp_mux_rate : zlen (mux_rate p) = 3;
  pp_llength : zlen (sheader_llength p) = 2;
  pp_rate_bound : zlen (rate_bound p) = 3 }.

(** An MPEG-2 pack header that can be sent. *)
Record ps_ok (p : ps_packet) : Prop := {
  po_arrays : ps_arrays p;
  po_mpeg : ps_mpeg p = 2;
  po_mark : flag (zn (scr p) 0) 0x40 = true;
  po_data : block_ok (ps_data p) (sheader_length p);
  po_announced : sheader_length p <> 0 ->
    zn (sheader_llength p) 0 * 256 + zn (sheader_llength p) 1 = sheader_length p + 6 /\
    sheader_length p < 2 ^ 16 }.

Lemma cwrite_ps_bytes p buf n : ps_ok p -> cwrite_ps buf p n = emitted buf (ps_bytes p).
Proof.
  intros [[] Hm _ Hd _]. unfold cwrite_ps, ps_bytes, system_bytes. rewrite Hm. change (2 =? 2) with true.
  cbn iota. rewrite !andb_true_r. print.
  destruct (negb (sheader_length p =? 0)); cbn [opt app]; rewrite <- ?app_assoc; cbn [app]; [done|].
  by rewrite ?app_nil_r.
Qed.

(** [q] is the pack header [p]. *)
Record same_ps (p q : ps_packet) : Prop := {
  ss_scr : scr q = scr p;
  ss_mux_rate : mux_rate q = mux_rate p;
  ss_stuff : stuff_length q = stuff_length p;
  ss_mpeg : ps_mpeg q = 2;
  ss_length : sheader_length q = sheader_length p;
  ss_system : sheader_length p <> 0 ->
    sheader_llength q = sheader_llength p /\ rate_bound q = rate_bound p /\
    audio_bound q = audio_bound p /\ video_bound q = video_bound p /\ reserved q = reserved p /\
    block (ps_data q) (sheader_length p) = block (ps_data p) (sheader_length p) }.

Lemma read_pack_header_ok sys_read p q c pos :
  reads_of sys_read c -> ps_ok p -> ps_arrays q ->
  at_pos c pos (scr p ++ mux_rate p ++ [stuff_length p]) ->
  exists q' neof, read_pack_header sys_read (mk_file c pos) q =
      Ret (mk_file c (pos + 10 + Z.land (stuff_length p) 3), q', neof) /\
    ps_arrays q' /\ scr q' = scr p /\ mux_rate q' = mux_rate p /\ stuff_length q' = stuff_length p /\
    ps_mpeg q' = 2.
Proof.
  intros Hc [[P1 P2 P3 P4] _ Hf _ _] [Q1 Q2 Q3 Q4] Ha. rewrite !at_app in Ha. destruct Ha as (H1 & H2 & H3).
  unfold read_pack_header. rtake (scr p). unfold when. change (scr (q <| scr := scr p |>)) with (scr p).
  rewrite Hf. set (q1 := set ps_mpeg _ _). change (ps_mpeg q1) with 2. change (2 =? 2) with true.
  cbn iota. rewrite P1 in H2, H3 |- *. rewrite P2 in H3. rtake (mux_rate p). unfold when. rewrite P2.
  rtake [stuff_length p]. unfold when. change (zlen [stuff_length p]) with 1. cbn [fpos].
  change (zn [stuff_length p] 0) with (stuff_length p). eexists _, _. split.
  - do 3 f_equal. unfold lseek_set, set. cbn. f_equal. lia.
  - split; [by split|done].
Qed.

Lemma system_header_found sys_read malloc p q c pos headr :
  reads_of sys_read c -> mallocs malloc -> ps_ok p -> ps_arrays q -> ps_mpeg q = 2 -> zlen headr = 4 ->
  sheader_length p <> 0 -> at_pos c pos (system_bytes p) ->
  exists q', read_system_header malloc sys_read (mk_file c pos) q headr =
      Ret (mk_file c (pos + zlen (system_bytes p)), q', [0x00; 0x00; 0x01; 0xBB]) /\
    scr q' = scr q /\ mux_rate q' = mux_rate q /\ stuff_length q' = stuff_length q /\ ps_mpeg q' = 2 /\
    sheader_length q' = sheader_length p /\ sheader_llength q' = sheader_llength p /\
    rate_bound q' = rate_bound p /\ audio_bound q' = audio_bound p /\ video_bound q' = video_bound p /\
    reserved q' = reserved p /\ ps_data q' = Some (block (ps_data p) (sheader_length p)).
Proof.
  intros Hc Hm [[P1 P2 P3 P4] _ _ Hd Hann] [Q1 Q2 Q3 Q4] Hq Hh Hs Ha. destruct (Hann Hs) as [Hl Hlt].
  pose proof Hd as [Hd0 _]. destruct (fetch_ok _ _ Hd) as [_ Hbl].
  pose proof Ha as (Hpos & Hfit & _). unfold system_bytes in Ha, Hfit |- *. rewrite !at_app in Ha.
  destruct Ha as (H1 & H2 & H3 & H4 & H5 & H6 & H7). rewrite !zlen_app in *. rewrite P3, P4, Hbl in *.
  change (zlen [0; 0; 1; 187]) with 4 in *. change (zlen [audio_bound p]) with 1 in *.
  change (zlen [video_bound p]) with 1 in *. change (zlen [reserved p]) with 1 in *.
  unfold read_system_header. cbn [fpos]. rewrite save_read_all by (done || lia). cbn [mbind outcome_bind].
  destruct H1 as (_ & _ & H1). change (zlen [0; 0; 1; 187]) with 4 in H1. rewrite H1, blit_all by done.
  change (is_start _ && _) with true. cbn iota.
  rtake (sheader_llength p). unfold when. set (q1 := set sheader_llength _ _).
  unfold setl_ps, setlength_ps. change (sheader_llength q1) with (sheader_llength p).
  rewrite !load_ok by lia. cbn [mbind outcome_bind]. change (ps_mpeg q1) with (ps_mpeg q). rewrite Hq.
  change (2 =? 2) with true. cbn iota. rewrite Hl. replace (sheader_length p + 6 - 6) with (sheader_length p) by lia.
  set (q2 := set sheader_length _ _). change (sheader_length q2) with (sheader_length p).
  destruct (Hm (sheader_length p) Hd0) as (d & Ed & Hdl). rewrite Ed. set (q3 := set ps_data _ _).
  change (ps_mpeg q3) with (ps_mpeg q). rewrite Hq. change (2 =? 2) with true. rewrite P3.
  rtake (rate_bound p). rewrite P4. rtake [audio_bound p]. change (zlen [audio_bound p]) with 1.
  rtake [video_bound p]. change (zlen [video_bound p]) with 1.
  rtake [reserved p]. change (zlen [reserved p]) with 1. unfold when. set (q4 := set reserved _ _).
  change (ps_data q4) with (Some d). change (sheader_length q4) with (sheader_length p).
  replace (u32 (sheader_length p)) with (sheader_length p) by (unfold u32; rewrite Z.mod_small; lia).
  rewrite save_read_all by (done || lia). cbn [mbind outcome_bind].
  destruct H7 as (_ & _ & H7). rewrite Hbl in H7. rewrite H7, blit_all by lia.
  eexists. split; [do 3 f_equal; f_equal; lia|]. by repeat split.
Qed.

(** Reading the system header, if the pack has one; [next] is what follows a
    pack without one. *)
Lemma read_system_header_ok sys_read malloc p q c pos headr next :
  reads_of sys_read c -> mallocs malloc -> ps_ok p -> ps_arrays q -> ps_mpeg q = 2 -> zlen headr = 4 ->
  at_pos c pos (opt (negb (sheader_length p =? 0)) (system_bytes p)) ->
  at_pos c (pos + zlen (opt (negb (sheader_length p =? 0)) (system_bytes p))) next ->
  zlen next = 4 -> is_start next && (zn next 3 =? 0xBB) = false ->
  exists q' headr', read_system_header malloc sys_read (mk_file c pos) q headr =
      Ret (mk_file c (pos + zlen (opt (negb (sheader_length p =? 0)) (system_bytes p))), q', headr') /\
    zlen headr' = 4 /\
    scr q' = scr q /\ mux_rate q' = mux_rate q /\ stuff_length q' = stuff_length q /\ ps_mpeg q' = 2 /\
    sheader_length q' = sheader_length p /\
    (sheader_length p <> 0 -> sheader_llength q' = sheader_llength p /\
      rate_bound q' = rate_bound p /\ audio_bound q' = audio_bound p /\ video_bound q' = video_bound p /\
      reserved q' = reserved p /\ block (ps_data q') (sheader_length p) = block (ps_data p) (sheader_length p)).
Proof.
  intros Hc Hm Hp Hq Hq2 Hh Ha Hn Hn4 Hbb. destruct (Z.eqb_spec (sheader_length p) 0) as [E|E]; cbn [negb opt] in *.
  - rewrite Z.add_0_r in *. destruct Hn as (Hpos & Hfit & Hs). rewrite Hn4 in Hfit, Hs.
    unfold read_system_header. cbn [fpos]. rewrite save_read_all by (done || lia). cbn [mbind outcome_bind].
    rewrite Hs, blit_all by lia. rewrite Hbb.
    unfold lseek_set. eexists _, _. split; [done|]. rewrite E. repeat split; done.
  - destruct (system_header_found sys_read malloc p q c pos headr Hc Hm Hp Hq Hq2 Hh E Ha) as
      (q' & -> & E1 & E2 & E3 & E4 & E5 & E6 & E7 & E8 & E9 & E10 & E11).
    eexists _, _. split; [done|]. rewrite E11. destruct (fetch_ok _ _ (po_data p Hp)) as [_ Hbl].
    repeat split; try done. cbn. apply sub_all. lia.
Qed.

Lemma init_pes_llength p : zlen (llength p) = 2 -> exists q, init_pes p = Ret q /\ zlen (llength q) = 2.
Proof.
  intros Hl. unfold init_pes. rewrite write_at_ok by (zsimpl; lia). cbn [mbind outcome_bind].
  rewrite write_at_ok by (zsimpl; lia). cbn [mbind outcome_bind]. eexists. split; [done|].
  transitivity (zlen (blit (blit (llength p) 0 [0]) 1 [0])); [reflexivity|zsimpl; lia].
Qed.

Definition pes_stream (l : list pes_packet) : list Z := mjoin (pes_bytes <$> l).

Lemma pes_stream_len l : Forall pes_ok l -> Z.of_nat (length l) <= zlen (pes_stream l).
Proof.
  induction 1 as [|p l Hp _ IH]; [done|]. change (pes_stream (p :: l)) with (pes_bytes p ++ pes_stream l). rewrite zlen_app. cbn [length].
  rewrite (pes_bytes_len p Hp). destruct (pk_length p Hp). lia.
Qed.

(** [next]: the four bytes behind the packets, which do not start another one. *)
Lemma count_pes_ok sys_read malloc stack_pes junk c next :
  reads_of sys_read c -> mallocs malloc -> zlen (llength stack_pes) = 2 -> zlen junk = 4 ->
  zlen next = 4 -> is_start next && negb (zn next 3 =? 0xBA) = false ->
  forall l fuel pos headr pes i,
  Forall pes_ok l -> at_pos c pos (pes_stream l ++ next) -> zlen headr = 4 -> (length l < fuel)%nat ->
  (match pes with None => l <> [] \/ null_pointers stack_pes = true | Some p => zlen (llength p) = 2 end) ->
  exists neof, count_pes malloc stack_pes junk sys_read fuel (mk_file c pos) headr pes i =
    Ret (i + Z.of_nat (length l), neof).
Proof.
  intros Hc Hm Hst Hj Hn4 Hnext l. induction l as [|p l IH]; intros fuel pos headr pes i Hl Ha Hh Hf Hpes;
    (destruct fuel as [|fuel]; [lia|]); cbn [count_pes fpos].
  - destruct Ha as (Hpos & Hfit & E). unfold pes_stream in *. cbn [fmap list_fmap mjoin list_join app] in *.
    rewrite Hn4 in Hfit, E. rewrite save_read_all by (done || lia). cbn [mbind outcome_bind].
    rewrite E, blit_all by lia. rewrite Hnext.
    assert (Hk : exists p, kill_local stack_pes pes = Ret p).
    { unfold kill_local, kill_pes. destruct pes as [pes|]; [destruct (init_pes_llength pes Hpes) as (? & -> & _); by eexists|].
      destruct Hpes as [?| ->]; [done|]. destruct (init_pes_llength stack_pes Hst) as (? & -> & _). by eexists. }
    destruct Hk as [p ->]. cbn. rewrite Z.add_0_r. eauto.
  - inversion Hl as [|? ? Hp Hl']; subst.
    change (pes_stream (p :: l)) with (pes_bytes p ++ pes_stream l) in Ha. rewrite <- app_assoc, at_app in Ha.
    destruct Ha as [Ha Hrest]. pose proof (pk_kind p Hp) as Hk.
    assert (Ha4 : at_pos c pos [0x00; 0x00; 0x01; stream_id p]).
    { unfold pes_bytes in Ha. rewrite app_assoc, at_app in Ha. by destruct Ha. }
    destruct Ha4 as (Hpos & Hfit & E4). change (zlen [0; 0; 1; stream_id p]) with 4 in *.
    rewrite save_read_all by (done || lia). cbn [mbind outcome_bind]. rewrite E4, blit_all by done.
    change (zn _ 3) with (stream_id p). change (is_start _) with true. cbn [andb].
    destruct (Z.eqb_spec (stream_id p) 0xBA) as [E|_]; [by rewrite E in Hk|]. cbn [negb].
    assert (Hloc : zlen (llength (default stack_pes pes)) = 2) by (by destruct pes).
    destruct (init_pes_llength _ Hloc) as (q0 & -> & Hq0). cbn [mbind outcome_bind].
    unfold lseek_set. change ((mk_file c (pos + 4)) <| fpos := pos |>) with (mk_file c pos).
    destruct (read_pes_ok sys_read malloc p q0 c pos junk Hc Hm Hp Hq0 Hj Ha) as (q1 & -> & Hs).
    cbn [mbind outcome_bind]. unfold kill_local, kill_pes.
    destruct (init_pes_llength q1) as (q2 & -> & Hq2).
    { rewrite (sp_llength _ _ Hs). apply (pa_llength _ (pk_arrays p Hp)). }
    cbn [mbind outcome_bind]. destruct (pk_length p Hp) as [Hpl _]. rewrite (proj2 (Z.gtb_gt _ _)) by lia.
    destruct (IH fuel (pos + zlen (pes_bytes p)) [0; 0; 1; stream_id p] (Some q2) (i + 1)) as [neof E]; try done.
    { cbn in Hf. lia. }
    exists neof. rewrite E. do 2 f_equal. cbn [length]. lia.
Qed.

(** The search takes at least one turn. *)
Lemma max_search_turns : exists k, Z.to_nat MAX_SEARCH = S k.
Proof. assert (0 < MAX_SEARCH) by done. exists (pred (Z.to_nat MAX_SEARCH)). lia. Qed.

(** A pack in a file: [pos] is where it starts. *)
Lemma read_ps_ok sys_read malloc stack_pes junk p q c l next pos :
  reads_of sys_read c -> mallocs malloc -> ps_ok p -> ps_arrays q -> Forall pes_ok l ->
  l <> [] \/ null_pointers stack_pes = true -> zlen (llength stack_pes) = 2 -> zlen junk = 4 -> zlen next = 4 ->
  is_start next && negb (zn next 3 =? 0xBA) = false ->
  at_pos c pos (ps_bytes p) -> at_pos c (pos + zlen (ps_bytes p)) (pes_stream l ++ next) ->
  exists q' neof, read_ps malloc stack_pes junk sys_read (mk_file c pos) q =
      Ret (mk_file c (pos + zlen (ps_bytes p)), q', neof) /\
    same_ps p q' /\ npes q' = Z.of_nat (length l).
Proof.
  intros Hc Hm Hp Hq Hl Hne Hst Hj Hn4 Hnext Ha Hrest. pose proof Hp as [[P1 P2 P3 P4] _ _ _ _].
  assert (Hfirst : exists h, at_pos c (pos + zlen (ps_bytes p)) h /\ zlen h = 4 /\ is_start h && (zn h 3 =? 0xBB) = false).
  { destruct Hl as [|p0 l Hp0 Hl].
    { exists next. split_and!; [exact Hrest|done|]. destruct (is_start next); [|done]. cbn [andb] in *.
      destruct (Z.eqb_spec (zn next 3) 0xBA) as [E| ]; [by rewrite E|by cbn in Hnext]. }
    exists [0x00; 0x00; 0x01; stream_id p0]. split_and!; [|done|].
    - change (pes_stream (p0 :: l)) with (pes_bytes p0 ++ pes_stream l) in Hrest.
      rewrite <- app_assoc, at_app in Hrest. destruct Hrest as [Hr _].
      unfold pes_bytes in Hr. rewrite app_assoc, at_app in Hr. by destruct Hr.
    - change (zn _ 3) with (stream_id p0). destruct (Z.eqb_spec (stream_id p0) 0xBB) as [E|]; [|by rewrite andb_false_r].
      pose proof (pk_kind p0 Hp0) as Hk. by rewrite E in Hk. }
  destruct Hfirst as (hd & Hfirst & Hh4 & Hid).
  set (sys := opt (negb (sheader_length p =? 0)) (system_bytes p)).
  set (st := Z.land (stuff_length p) 3).
  assert (Hst0 : 0 <= st) by (apply Z.land_nonneg; right; lia).
  assert (Hlen : zlen (ps_bytes p) = 14 + st + zlen sys).
  { unfold ps_bytes. fold sys st. zsimpl. rewrite Z2Nat.id by lia. lia. }
  unfold ps_bytes in Ha. fold sys st in Ha. rewrite !at_app in Ha.
  destruct Ha as (H0 & H1 & H2 & H3 & _ & H5).
  change (zlen [0; 0; 1; 186]) with 4 in *. change (zlen [stuff_length p]) with 1 in *.
  rewrite P1, P2, zlen_replicate, Z2Nat.id in * by lia.
  pose proof H0 as (Hpos & Hfit & E0). change (zlen [0; 0; 1; 186]) with 4 in *.
  destruct (read_pack_header_ok sys_read p q c (pos + 4) Hc Hp Hq) as (q1 & n1 & R1 & Q1 & S1 & S2 & S3 & S4).
  { rewrite !at_app, P1, P2. done. }
  destruct (read_system_header_ok sys_read malloc p q1 c (pos + 4 + 10 + st) [0; 0; 1; 186] hd) as
    (q2 & headr & R2 & Hh & T1 & T2 & T3 & T4 & T5 & T6); try done.
  { fold sys. replace (pos + 4 + 10 + st) with (pos + 4 + 6 + 3 + 1 + st) by lia. exact H5. }
  { fold sys. replace (pos + 4 + 10 + st + zlen sys) with (pos + zlen (ps_bytes p)) by lia. exact Hfirst. }
  fold sys in R2. replace (pos + 4 + 10 + st + zlen sys) with (pos + zlen (ps_bytes p)) in R2 by lia.
  destruct (count_pes_ok sys_read malloc stack_pes junk c next Hc Hm Hst Hj Hn4 Hnext l (S (length c))
              (pos + zlen (ps_bytes p)) headr None 0 Hl Hrest Hh) as [n2 R3]; [|done|].
  { pose proof (pes_stream_len l Hl). destruct Hrest as (? & Hf & _). rewrite zlen_app in Hf. unfold zlen in *. lia. }
  destruct max_search_turns as [k Ek]. unfold read_ps. rewrite Ek. cbn [find_pack fpos]. change (negb (1 >? 0)) with false.
  cbn iota. rewrite save_read_all by (done || lia). cbn [mbind outcome_bind]. rewrite E0, blit_all by done.
  change (is_start _) with true. change (zn _ 3 =? 0xBA) with true. cbn iota. cbn [mbind outcome_bind].
  rewrite R1. cbn [mbind outcome_bind]. fold st. rewrite R2. cbn [mbind outcome_bind content fpos].
  rewrite R3. cbn [mbind outcome_bind]. exists (q2 <| npes := 0 + Z.of_nat (length l) |>), n2.
  split; [done|]. split; [|done]. split; cbn; try done; congruence.
Qed.

(** C32: the MPEG-2 pack header ([ps_ok]) that [cwrite_ps] prints, [read_ps] reads: the pack
    header and the system header, if there is one, come back, the packets of the pack are
    counted, and the descriptor is left at the first of them.  The packets are such as C31
    reads back (MPEG-2, with a length that is not 0), any number of them; but if there are
    none, [read_ps] releases a packet that it has not initialised, and only null pointers
    on the stack let it return.  Behind the packets stands something that does not look
    like another packet, such as the next pack header. *)
Theorem read_ps_cwrite_ps sys_read malloc stack_pes junk p q buf l pre next :
  mallocs malloc -> ps_ok p -> ps_arrays q -> Forall pes_ok l -> l <> [] \/ null_pointers stack_pes = true ->
  zlen (ps_bytes p) <= zlen buf ->
  zlen (llength stack_pes) = 2 -> zlen junk = 4 -> zlen next = 4 ->
  is_start next && negb (zn next 3 =? 0xBA) = false ->
  exists out n, cwrite_ps buf p (zlen buf) = Ret (out, n) /\
    let c := pre ++ sub out 0 n ++ pes_stream l ++ next in
    (reads_of sys_read c ->
     exists q' neof, read_ps malloc stack_pes junk sys_read (mk_file c (zlen pre)) q =
         Ret (mk_file c (zlen pre + n), q', neof) /\
       same_ps p q' /\ npes q' = Z.of_nat (length l)).
Proof.
  intros Hm Hp Hq Hl Hne Hbuf Hst Hj Hn4 Hnext. rewrite cwrite_ps_bytes by done. unfold emitted.
  rewrite (proj2 (Z.leb_le _ _)) by lia. eexists _, _. split; [done|]. cbv zeta.
  replace (sub (blit buf 0 (ps_bytes p)) 0 (zlen (ps_bytes p))) with (ps_bytes p)
    by (symmetry; apply sub_blit_eq; lia).
  intros Hc. apply read_ps_ok with (next := next); try done; [apply at_mid|].
  replace (zlen pre + zlen (ps_bytes p)) with (zlen (pre ++ ps_bytes p)) by (by rewrite zlen_app).
  rewrite app_assoc. rewrite <- (app_nil_r (pes_stream l ++ next)) at 1. apply at_mid.
Qed.

Lemma ccount_pes_spins stack_pes fuel buf c length : c < length -> start_at buf c = Ret true ->
  forall pes i, (b3 ← load buf (c + 3); Ret (negb (b3 =? 0xBA))) = Ret true ->
  ~ returns (ccount_pes stack_pes fuel buf c length pes i).
Proof.
  intros Hc Hs. induction fuel as [|fuel IH]; intros pes i Hb [x E]; [done|].
  cbn [ccount_pes] in E. rewrite Hs in E. cbn [mbind outcome_bind] in E, Hb. rewrite Hb in E.
  cbn [mbind outcome_bind] in E. destruct (init_pes _) as [p1| |]; try discriminate.
  cbn [mbind outcome_bind kill_local] in E. destruct (kill_pes p1) as [p2| |]; try discriminate.
  cbn [mbind outcome_bind] in E. rewrite (proj2 (Z.ltb_lt c length)) in E by done.
  apply (IH (Some p2) (i + 1) Hb). by exists x.
Qed.

(** Does the packet loop go on at [c]? *)
Definition packet_at (buf : list Z) (c : Z) : outcome bool :=
  st ← start_at buf c;
  if (st : bool) then b3 ← load buf (c + 3); Ret (negb (b3 =? 0xBA)) else Ret false.

(** The loop returns only where no packet begins, and only if it finds null pointers. *)
Lemma ccount_pes_returns stack_pes fuel buf c i x :
  ccount_pes stack_pes fuel buf c (zlen buf) None i = Ret x ->
  packet_at buf c = Ret false /\ null_pointers stack_pes = true /\ x = i.
Proof.
  intros E. destruct fuel as [|fuel]; [done|]. pose proof E as E'. cbn [ccount_pes] in E. unfold packet_at.
  destruct (start_at buf c) as [st| |] eqn:Es; try discriminate. cbn [mbind outcome_bind] in *.
  assert (Hend : (_ ← kill_local stack_pes None; Ret i) = Ret x -> null_pointers stack_pes = true /\ x = i).
  { unfold kill_local. destruct (null_pointers stack_pes); [|done]. destruct (kill_pes stack_pes); [|done..]. by intros [= ->]. }
  destruct st; [|by split; [|apply Hend]]. apply bind_ret_inv in E as (more & Em & E). rewrite Em.
  destruct more; [|by split; [|apply Hend]]. exfalso.
  apply (ccount_pes_spins stack_pes (S fuel) buf c (zlen buf)) with (pes := None) (i := i); [|done|done|by exists x].
  unfold start_at in Es. destruct (load buf c) as [b| |] eqn:El; try discriminate.
  apply load_inv in El. lia.
Qed.

(** A buffer that begins with a pack header is found at once. *)
Lemma cfind_pack_first k buf : at_pos buf 0 [0x00; 0x00; 0x01; 0xBA] -> cfind_pack (S k) buf 0 0 (zlen buf) = Ret (true, 4).
Proof.
  intros (_ & Hl & Es). change (zlen [0; 0; 1; 186]) with 4 in *.
  assert (Ez : forall i, 0 <= i < 4 -> load buf i = Ret (zn [0; 0; 1; 186] i)).
  { intros i Hi. rewrite load_ok, <- Es, zn_sub by lia. done. }
  cbn [cfind_pack]. rewrite (proj2 (Z.ltb_lt 0 (zlen buf))) by lia. unfold start_at.
  change (0 + 1) with 1. change (0 + 2) with 2. change (0 + 3) with 3. by rewrite !Ez by lia.
Qed.

(** The headers of the pack in [buf] are read, and the packets should begin at [c]. *)
Definition headers_end (malloc : Z -> option (list Z)) (buf : list Z) (p p' : ps_packet) (c : Z) : Prop :=
  exists p1 c1, cread_pack_header buf p 4 = Ret (p1, c1) /\ cread_system_header malloc buf p1 c1 = Ret (p', c).

Lemma cread_ps_within_returns malloc stack_pes k fuel buf p q :
  at_pos buf 0 [0x00; 0x00; 0x01; 0xBA] -> cread_ps_within malloc stack_pes (S k) fuel buf p (zlen buf) = Ret q ->
  exists p' c, headers_end malloc buf p p' c /\ packet_at buf c = Ret false /\ null_pointers stack_pes = true /\
    q = (p' <| npes := 0 |>).
Proof.
  intros Ha E. unfold cread_ps_within in E. rewrite cfind_pack_first in E by done. cbn [mbind outcome_bind] in E.
  apply bind_ret_inv in E as ([p1 c1] & E1 & E). apply bind_ret_inv in E as ([p2 c2] & E2 & E).
  apply bind_ret_inv in E as (i & E & Eq). injection Eq as <-.
  destruct (ccount_pes_returns stack_pes fuel buf c2 0 i E) as (Hp & Hn & ->).
  exists p2, c2. split_and!; try done. by exists p1, c1.
Qed.

(** C35: [cread_ps] never counts a packet.  From a buffer that begins with a pack header it does
    not return if a packet follows the headers: the loop that should count the packets does
    not advance, so that it runs for ever or reads behind the buffer.  Nor does it return
    if the packet structure on its stack, which it releases without having initialised
    it, has a pointer that is not null: it frees a wild pointer.  It can only return
    when no packet follows and those pointers happen to be null, and then with no packet
    counted. *)
Theorem cread_ps_never_returns malloc stack_pes fuel buf p :
  at_pos buf 0 [0x00; 0x00; 0x01; 0xBA] ->
  let run := cread_ps malloc stack_pes fuel buf p (zlen buf) in
  (forall p' c, headers_end malloc buf p p' c -> packet_at buf c <> Ret false -> ~ returns run) /\
  (null_pointers stack_pes = false -> ~ returns run) /\
  (forall q, run = Ret q -> npes q = 0).
Proof.
  intros Ha run. unfold run, cread_ps. destruct max_search_turns as [k ->]. split_and!.
  - intros p' c (p1 & c1 & E1 & E2) Hp [q E]. apply cread_ps_within_returns in E as (p2 & c2 & (p3 & c3 & E3 & E4) & Hf & _); [|done].
    congruence.
  - intros Hn [q E]. apply cread_ps_within_returns in E as (? & ? & _ & _ & Hn' & _); [|done]. congruence.
  - intros q E. apply cread_ps_within_returns in E as (? & ? & _ & _ & _ & ->); done.
Qed.

(** ** Witnesses *)
Definition empty_ps : ps_packet :=
  mk_ps_packet (replicate 6 0) (replicate 3 0) 0xF8 None [0; 0] 0 (replicate 3 0) 0 0 0 0 2.
(** With two stuffing bytes and a system header with one stream entry. *)
Definition sample_ps : ps_packet :=
  mk_ps_packet (scr_bytes 0x123456789 300) (mux_rate_bytes 25000) 0xFA (Some [0xE0; 0xE0; 0x20]) [0; 9] 3
    (rate_bound_bytes 25000) 1 2 3 0 2.

Lemma sample_ps_ok : ps_ok sample_ps.
Proof.
  split.
  - by split.
  - done.
  - done.
  - split; [done|]. right. by exists [0xE0; 0xE0; 0x20].
  - done.
Qed.

Lemma ps_values_witness :
  scr_base_ps sample_ps = Ret 0x23456789 /\ scr_ext_ps sample_ps = Ret 300 /\
  mux_ps sample_ps = Ret 25000 /\ rate_ps sample_ps = Ret 25000.
Proof. apply (ps_values sample_ps 0x123456789 300 25000 25000); done. Defined.

Lemma read_ps_cwrite_ps_witness :
  exists out n, cwrite_ps (replicate 60 0) sample_ps 60 = Ret (out, n) /\
    let c := [] ++ sub out 0 n ++ pes_stream [sample_pes; sample_pes] ++ [0; 0; 1; 0xBA] in
    exists q' neof, read_ps sample_malloc empty_pes [9; 9; 9; 9] (byte_reads c) (mk_file c 0) empty_ps =
        Ret (mk_file c (0 + n), q', neof) /\ same_ps sample_ps q' /\ npes q' = 2.
Proof.
  set (out := match cwrite_ps (replicate 60 0) sample_ps 60 with Ret (o, n) => sub o 0 n | _ => [] end).
  destruct (read_ps_cwrite_ps (byte_reads ([] ++ out ++ pes_stream [sample_pes; sample_pes] ++ [0; 0; 1; 0xBA]))
      sample_malloc empty_pes [9; 9; 9; 9] sample_ps empty_ps (replicate 60 0) [sample_pes; sample_pes] []
      [0; 0; 1; 0xBA]) as (o & n & E & H);
    [apply sample_mallocs | apply sample_ps_ok | by split | | by left | by vm_compute | done..|].
  { constructor; [apply sample_pes_ok | constructor; [apply sample_pes_ok | constructor]]. }
  exists o, n. split; [exact E|]. assert (Eo : out = sub o 0 n).
  { change (zlen (replicate 60 0)) with 60 in E. unfold out. by rewrite E. }
  rewrite Eo in H. apply H. apply byte_reads_ok.
Defined.

(** A pack header with a packet behind it and null pointers on the stack; the same without the
    packet and with a wild pointer. *)
Lemma cread_ps_never_returns_witness :
  ~ returns (cread_ps sample_malloc empty_pes 1000 [0; 0; 1; 0xBA; 0x44; 0; 0; 0; 0; 0; 0; 0; 0; 0; 0; 0; 1; 0xE0] empty_ps 18) /\
  ~ returns (cread_ps sample_malloc (empty_pes <| pes_ext := Some [] |>) 1000 [0; 0; 1; 0xBA; 0x44; 0; 0; 0; 0; 0; 0; 0; 0; 0; 9] empty_ps 15).
Proof.
  split.
  - destruct (cread_ps_never_returns sample_malloc empty_pes 1000 [0; 0; 1; 0xBA; 0x44; 0; 0; 0; 0; 0; 0; 0; 0; 0; 0; 0; 1; 0xE0] empty_ps)
      as (H & _); [apply (at_self [0; 0; 1; 0xBA])|].
    refine (H _ _ _ _); [eexists _, _; split; reflexivity|by vm_compute].
  - destruct (cread_ps_never_returns sample_malloc (empty_pes <| pes_ext := Some [] |>) 1000 [0; 0; 1; 0xBA; 0x44; 0; 0; 0; 0; 0; 0; 0; 0; 0; 9]
      empty_ps) as (_ & H & _); [apply (at_self [0; 0; 1; 0xBA])|]. apply H. reflexivity.
Defined.
