(* ===== verification/TransFilt.v ===== *)
(** * The transport stream filter of libmpegtools

    apps/misc/libs/libmpegtools/ctools.c: [trans], which cuts a byte stream into
    transport packets and hands their payload to at most 32 filters, each of
    which collects the PES data or the sections of one PID.  A member [x] of
    [struct trans_struct] is [tr_x], one of [struct sectionstruct] is [sec_x];
    the bit masks of type [tflags] are integers below 2^32. *)
From S2P Require Import Prelude TsPacket.

Definition MAXFILT : Z := 32.
Definition MASKL : Z := 16.
Definition PAY_START : Z := 0x40.

Record section := mk_section { sec_id : Z; sec_length : Z; sec_found : Z; sec_payload : list Z }.
#[export] Instance eta_section : Eta section := fun s =>
  mk_section (sec_id s) (sec_length s) (sec_found s) (sec_payload s).

Record trans := mk_trans {
  tr_found : Z; tr_packet : list Z;
  tr_pid : list Z; tr_mask : list Z; tr_filt : list Z;
  tr_transbuf : list Z; tr_transcount : list Z; tr_sec : list section;
  tr_is_full : Z; tr_pes_start : Z; tr_pes_started : Z; tr_pes : Z; tr_set : Z }.
#[export] Instance eta_trans : Eta trans := fun p =>
  mk_trans (tr_found p) (tr_packet p) (tr_pid p) (tr_mask p) (tr_filt p) (tr_transbuf p)
    (tr_transcount p) (tr_sec p) (tr_is_full p) (tr_pes_start p) (tr_pes_started p) (tr_pes p) (tr_set p).

(** ** The bit masks *)

(** [(tflags)(1 << filtn)], and the test, setting and clearing of that bit. *)
Definition tbit (filtn : Z) : Z := u32 (Z.shiftl 1 filtn).
Definition is_set (x filtn : Z) : bool := negb (Z.land x (tbit filtn) =? 0).
Definition set_bit (x filtn : Z) : Z := Z.lor x (tbit filtn).
Definition clear_bit (x filtn : Z) : Z := Z.land x (Z.lxor (tbit filtn) 0xffffffff).

Definition filt_is_set (p : trans) (filtn : Z) : bool := is_set (tr_set p) filtn.
Definition pes_is_set (p : trans) (filtn : Z) : bool := is_set (tr_pes p) filtn.
Definition pes_is_started (p : trans) (filtn : Z) : bool := is_set (tr_pes_started p) filtn.
Definition pes_is_start (p : trans) (filtn : Z) : bool := is_set (tr_pes_start p) filtn.
Definition filt_is_ready (p : trans) (filtn : Z) : bool := is_set (tr_is_full p) filtn.

(** ** Access to one of the sections *)
Definition get_sec (p : trans) (i : Z) : outcome section :=
  if in_range (tr_sec p) i 1 then
    match tr_sec p !! Z.to_nat i with Some s => Ret s | None => Crash end
  else Crash.
Definition put_sec (p : trans) (i : Z) (s : section) : trans :=
  p <| tr_sec := <[Z.to_nat i := s]> (tr_sec p) |>.

Definition reset_sec (s : section) : section := s <| sec_found := 0 |> <| sec_length := 0 |>.

(** ** Configuration *)
Definition init_trans (p : trans) : trans :=
  p <| tr_found := 0 |> <| tr_pes := 0 |> <| tr_is_full := 0 |> <| tr_pes_start := 0 |>
    <| tr_pes_started := 0 |> <| tr_set := 0 |>
    <| tr_mask := replicate (Z.to_nat (MASKL * MAXFILT)) 0 |>
    <| tr_filt := replicate (Z.to_nat (MASKL * MAXFILT)) 0 |>
    <| tr_sec := reset_sec <$> tr_sec p |>.

Definition set_trans_filt (p : trans) (filtn pid : Z) (mask filt : list Z) (pes : Z) : outcome (trans * Z) :=
  if (filtn >? MAXFILT - 1) || (filtn <? 0) then Ret (p, -1) else
  pids ← write_at (tr_pid p) filtn [pid];
  let p := p <| tr_pid := pids |> in
  p ← (if negb (pes =? 0) then Ret (p <| tr_pes := set_bit (tr_pes p) filtn |>)
       else
         let off := MASKL * filtn in
         let p := p <| tr_pes := clear_bit (tr_pes p) filtn |> in
         m ← memcpy (tr_mask p) off mask 0 MASKL;
         f ← memcpy (tr_filt p) off filt 0 MASKL;
         Ret (p <| tr_mask := m |> <| tr_filt := f |>));
  Ret (p <| tr_set := set_bit (tr_set p) filtn |>, 0).

Definition clear_trans_filt (p : trans) (filtn : Z) : outcome trans :=
  let p := p <| tr_set := clear_bit (tr_set p) filtn |>
             <| tr_pes := clear_bit (tr_pes p) filtn |>
             <| tr_is_full := clear_bit (tr_is_full p) filtn |>
             <| tr_pes_start := clear_bit (tr_pes_start p) filtn |>
             <| tr_pes_started := clear_bit (tr_pes_started p) filtn |> in
  m ← write_at (tr_mask p) (MASKL * filtn) (replicate (Z.to_nat MASKL) 0);
  f ← write_at (tr_filt p) (MASKL * filtn) (replicate (Z.to_nat MASKL) 0);
  let p := p <| tr_mask := m |> <| tr_filt := f |> in
  s ← get_sec p filtn;
  Ret (put_sec p filtn (reset_sec s)).

(** [get_filt_sec]: the section, and the filter is free for the next one. *)
Definition get_filt_sec (p : trans) (filtn : Z) : outcome (trans * section) :=
  s ← get_sec p filtn;
  Ret (p <| tr_is_full := clear_bit (tr_is_full p) filtn |>, s).

(** [get_filt_buf]: the offset of the data in [transbuf] and its length. *)
Definition get_filt_buf (p : trans) (filtn : Z) : outcome (trans * Z * Z) :=
  let p := p <| tr_is_full := clear_bit (tr_is_full p) filtn |> in
  n ← load (tr_transcount p) filtn;
  Ret (p, 188 * filtn, n).

(** ** The two kinds of filters *)
Definition pes_filter (p : trans) (filtn off : Z) : outcome trans :=
  if (filtn <? 0) || (filtn >=? MAXFILT) then Ret p else
  let count := 188 - off in
  if pes_is_started p filtn then
    let p := p <| tr_is_full := set_bit (tr_is_full p) filtn |> in
    b ← memcpy (tr_transbuf p) (188 * filtn) (tr_packet p) off count;
    n ← write_at (tr_transcount p) filtn [count];
    Ret (p <| tr_transbuf := b |> <| tr_transcount := n |>)
  else Ret p.

(** [while (c < count && sec->found < limit)]: copy bytes of the packet into the
    section. *)
Fixpoint sec_copy (turns : nat) (packet : list Z) (off count limit : Z) (s : section) (c : Z)
  : outcome (section * Z) :=
  if (c <? count) && (sec_found s <? limit) then
    match turns with
    | O => Hang
    | S turns =>
      b ← load packet (off + c);
      l ← write_at (sec_payload s) (sec_found s) [b];
      sec_copy turns packet off count limit
        (s <| sec_payload := l |> <| sec_found := sec_found s + 1 |>) (c + 1)
    end
  else Ret (s, c).

(** [error]: the differences of the masked bytes, added up. *)
Fixpoint sec_error (n : nat) (i : Z) (payload mask filt : list Z) (filtn : Z) : outcome Z :=
  match n with
  | O => Ret 0
  | S n =>
    let j := if i >? 0 then 2 + i else 0 in
    x ← load payload j;
    m ← load mask (MASKL * filtn + i);
    f ← load filt (MASKL * filtn + i);
    e ← sec_error n (i + 1) payload mask filt filtn;
    Ret (Z.lxor (Z.land x m) (Z.land f m) + e)
  end.

(** One activation of [sec_filter] up to its recursive call: the new state and
    whether the function calls itself. *)
Definition sec_start (p : trans) (off count : Z) (s : section) : outcome (option (section * Z)) :=
  if sec_found s =? 0 then
    b0 ← load (tr_packet p) off;
    let c := b0 + 1 in
    if c >=? count then Ret None else
    b ← load (tr_packet p) (off + c);
    l ← write_at (sec_payload s) 0 [b];
    Ret (Some (s <| sec_id := b |> <| sec_payload := l |> <| sec_found := 1 |> <| sec_length := 0 |>, c + 1))
  else Ret (Some (s, 0)).

Definition sec_announced (s : section) : outcome section :=
  if (sec_length s =? 0) && (sec_found s =? 3) then
    b1 ← load (sec_payload s) 1;
    b2 ← load (sec_payload s) 2;
    Ret (s <| sec_length := Z.lor (Z.lor (sec_length s) (Z.shiftl (Z.land b1 0x0F) 8)) (Z.land b2 0xFF) |>)
  else Ret s.

Definition sec_done (p : trans) (filtn off count : Z) (s : section) (c : Z) : outcome (trans * bool) :=
  let p := put_sec p filtn s in
  if negb (sec_length s =? 0) && (sec_found s =? sec_length s + 3) then
    e ← sec_error (Z.to_nat MASKL) 0 (sec_payload s) (tr_mask p) (tr_filt p) filtn;
    let p := if e =? 0 then p <| tr_is_full := set_bit (tr_is_full p) filtn |> else p in
    b0 ← load (tr_packet p) off;
    let c := if b0 + 1 <? c then count else c in
    Ret (p, c <? count)
  else Ret (p, c <? count).

(** From the second byte of the section on, [c] bytes behind [off]. *)
Definition sec_rest (p : trans) (filtn off count : Z) (s : section) (c : Z) : outcome (trans * bool) :=
  '(s, c) ← sec_copy 188 (tr_packet p) off count 3 s c;
  if c =? count then Ret (put_sec p filtn s, false) else
  s ← sec_announced s;
  '(s, c) ← sec_copy 188 (tr_packet p) off count (sec_length s + 3) s c;
  sec_done p filtn off count s c.

Definition sec_body (p : trans) (filtn off : Z) : outcome (trans * bool) :=
  let count := 188 - off in
  s ← get_sec p filtn;
  let '(p, s) := if filt_is_ready p filtn then (p, s)
                 else (p <| tr_is_full := clear_bit (tr_is_full p) filtn |>, reset_sec s) in
  start ← sec_start p off count s;
  match start with
  | None => Ret (put_sec p filtn s, false)
  | Some (s, c) => sec_rest p filtn off count s c
  end.

Section Filter.
(** How many nested calls of [sec_filter] the stack has room for. *)
Variable depth : nat.

Fixpoint sec_filter_within (fuel : nat) (p : trans) (filtn off : Z) : outcome trans :=
  match fuel with
  | O => Hang
  | S fuel =>
    if (filtn <? 0) || (filtn >=? MAXFILT) then Ret p else
    '(p, again) ← sec_body p filtn off;
    if (again : bool) then sec_filter_within fuel p filtn off else Ret p
  end.

Definition sec_filter (p : trans) (filtn off : Z) : outcome trans := sec_filter_within depth p filtn off.

(** One turn of the loop over the filters of [filter]. *)
Definition filter_one (p : trans) (l tpid cpid0 c : Z) : outcome trans :=
  if filt_is_set p l then
    pid ← load (tr_pid p) l;
    if pid =? tpid then
      if pes_is_set p l then
        let p := if flag cpid0 PAY_START then
                   p <| tr_pes_started := set_bit (tr_pes_started p) l |>
                     <| tr_pes_start := set_bit (tr_pes_start p) l |>
                 else p <| tr_pes_start := clear_bit (tr_pes_start p) l |> in
        pes_filter p l c
      else sec_filter p l c
    else Ret p
  else Ret p.

Fixpoint filter_all (n : nat) (p : trans) (l tpid cpid0 c : Z) : outcome trans :=
  match n with
  | O => Ret p
  | S n => p ← filter_one p l tpid cpid0 c; filter_all n p (l + 1) tpid cpid0 c
  end.

Definition filter (p : trans) : outcome trans :=
  cpid0 ← load (tr_packet p) 1;
  cpid1 ← load (tr_packet p) 2;
  tpid ← get_pid [cpid0; cpid1];
  flags ← load (tr_packet p) 3;
  adapt_length ← (if flag flags ADAPT_FIELD then load (tr_packet p) 4 else Ret 0);
  let c := 5 + adapt_length - (if flag flags ADAPT_FIELD then 0 else 1) in
  if flag flags PAYLOAD then filter_all (Z.to_nat MAXFILT) p 0 tpid cpid0 c else Ret p.

(** ** The byte stream *)

(** [while (c < count && p->found < 1)], with [n = count - c]. *)
Fixpoint find_sync (n : nat) (buf : list Z) (o : Z) (p : trans) : outcome (trans * Z) :=
  match n with
  | O => Ret (p, o)
  | S n =>
    if tr_found p <? 1 then
      b ← load buf o;
      let p := if b =? 0x47 then p <| tr_found := 1 |> else p in
      k ← write_at (tr_packet p) 0 [0x47];
      find_sync n buf (o + 1) (p <| tr_packet := k |>)
    else Ret (p, o)
  end.

(** [while (c < count && p->found < 188 && p->found > 0)]. *)
Fixpoint fill_packet (n : nat) (buf : list Z) (o : Z) (p : trans) : outcome (trans * Z) :=
  match n with
  | O => Ret (p, o)
  | S n =>
    if (tr_found p <? 188) && (tr_found p >? 0) then
      b ← load buf o;
      k ← write_at (tr_packet p) (tr_found p) [b];
      fill_packet n buf (o + 1) (p <| tr_packet := k |> <| tr_found := tr_found p + 1 |>)
    else Ret (p, o)
  end.

(** [trans_filt (buf + o, count - o, p)]; every recursive call has fewer bytes. *)
Fixpoint trans_filt_from (fuel : nat) (buf : list Z) (o count : Z) (p : trans) : outcome trans :=
  '(p, o) ← find_sync (Z.to_nat (count - o)) buf o p;
  if o =? count then Ret p else
  '(p, o) ← fill_packet (Z.to_nat (count - o)) buf o p;
  p ← (if tr_found p =? 188 then filter (p <| tr_found := 0 |>) else Ret p);
  if o <? count then
    match fuel with O => Hang | S fuel => trans_filt_from fuel buf o count p end
  else Ret p.

Definition trans_filt (buf : list Z) (count : Z) (p : trans) : outcome trans :=
  trans_filt_from (Z.to_nat count) buf 0 count p.
End Filter.

(** ** The masks are sets of filters *)
Lemma tbit_pow l : 0 <= l < 32 -> tbit l = 2 ^ l.
Proof.
  intros. unfold tbit, u32. rewrite Z.shiftl_1_l. apply Z.mod_small.
  split; [apply Z.pow_nonneg; lia|apply Z.pow_lt_mono_r; lia].
Qed.

Lemma is_set_testbit x l : 0 <= l < 32 -> is_set x l = Z.testbit x l.
Proof.
  intros. unfold is_set. rewrite tbit_pow by done. destruct (Z.testbit x l) eqn:E.
  - apply negb_true_iff, Z.eqb_neq. intros E0. apply (f_equal (fun y => Z.testbit y l)) in E0.
    rewrite Z.land_spec, E, Z.pow2_bits_true, Z.bits_0 in E0 by lia. done.
  - apply negb_false_iff, Z.eqb_eq, Z.bits_inj'. intros n Hn.
    rewrite Z.land_spec, Z.bits_0, Z.pow2_bits_eqb by lia.
    destruct (Z.eqb_spec l n) as [<-|]; [by rewrite E|]. by rewrite andb_false_r.
Qed.

Lemma is_set_set x l k : 0 <= l < 32 -> 0 <= k < 32 -> is_set (set_bit x l) k = (l =? k) || is_set x k.
Proof.
  intros. rewrite !is_set_testbit by done. unfold set_bit. rewrite tbit_pow, Z.lor_spec, Z.pow2_bits_eqb by lia.
  by destruct (Z.testbit x k), (Z.eqb_spec l k).
Qed.

Lemma is_set_clear x l k :
  0 <= l < 32 -> 0 <= k < 32 -> is_set (clear_bit x l) k = negb (l =? k) && is_set x k.
Proof.
  intros. rewrite !is_set_testbit by done. unfold clear_bit.
  change 0xffffffff with (Z.ones 32).
  rewrite tbit_pow, Z.land_spec, Z.lxor_spec, Z.pow2_bits_eqb, Z.ones_spec_low by lia.
  by destruct (Z.testbit x k), (Z.eqb_spec l k).
Qed.

Definition tflags (x : Z) : Prop := 0 <= x < 2 ^ 32.

Lemma set_bit_tflags x l : 0 <= l < 32 -> tflags x -> tflags (set_bit x l).
Proof.
  unfold tflags, set_bit. intros Hl [H0 H1]. rewrite tbit_pow by done.
  assert (0 <= 2 ^ l) by (apply Z.pow_nonneg; lia).
  assert (2 ^ l < 2 ^ 32) by (apply Z.pow_lt_mono_r; lia).
  split; [by apply Z.lor_nonneg|]. rewrite <- (Z.mod_small x (2 ^ 32)), <- (Z.mod_small (2 ^ l) (2 ^ 32)) by lia.
  rewrite <- !Z.land_ones, <- Z.land_lor_distr_l, Z.land_ones by lia.
  apply Z.mod_pos_bound. lia.
Qed.

Lemma clear_bit_tflags x l : tflags x -> tflags (clear_bit x l).
Proof.
  unfold tflags, clear_bit. intros [H0 H1].
  assert (N : 0 <= Z.land x (Z.lxor (tbit l) 0xffffffff)) by (apply Z.land_nonneg; by left).
  split; [done|]. pose proof (land_bound (Z.lxor (tbit l) 0xffffffff) x H0) as B.
  rewrite Z.land_comm in B. lia.
Qed.

(** ** The invariant *)
Record section_ok (s : section) : Prop := {
  so_payload : zlen (sec_payload s) = 4096 + 3;
  so_bytes : bytes (sec_payload s);
  so_length : 0 <= sec_length s < 4096;
  so_found : 0 <= sec_found s <= sec_length s + 3 }.

Record trans_ok (p : trans) : Prop := {
  to_found : 0 <= tr_found p < 188;
  to_packet : zlen (tr_packet p) = 188;
  to_bytes : bytes (tr_packet p);
  to_pid : zlen (tr_pid p) = MAXFILT;
  to_mask : zlen (tr_mask p) = MASKL * MAXFILT;
  to_filt : zlen (tr_filt p) = MASKL * MAXFILT;
  to_mask_bytes : bytes (tr_mask p);
  to_filt_bytes : bytes (tr_filt p);
  to_transbuf : zlen (tr_transbuf p) = 188 * MAXFILT;
  to_transcount : zlen (tr_transcount p) = MAXFILT;
  to_sections : zlen (tr_sec p) = MAXFILT;
  to_sec : Forall section_ok (tr_sec p);
  to_full : tflags (tr_is_full p);
  to_start : tflags (tr_pes_start p);
  to_started : tflags (tr_pes_started p);
  to_pes : tflags (tr_pes p);
  to_set : tflags (tr_set p) }.

(** What filtering a packet leaves alone: the configuration and the packet. *)
Record same_input (p q : trans) : Prop := {
  si_found : tr_found q = tr_found p;
  si_packet : tr_packet q = tr_packet p;
  si_pid : tr_pid q = tr_pid p;
  si_mask : tr_mask q = tr_mask p;
  si_filt : tr_filt q = tr_filt p;
  si_pes : tr_pes q = tr_pes p;
  si_set : tr_set q = tr_set p }.

#[export] Instance same_input_preorder : PreOrder same_input.
Proof. split; [by constructor|]. intros p q r [] []. split; congruence. Qed.

Lemma get_sec_ok p l : trans_ok p -> 0 <= l < MAXFILT ->
  exists s, get_sec p l = Ret s /\ section_ok s /\ tr_sec p !! Z.to_nat l = Some s.
Proof.
  intros Hp Hl. pose proof (to_sections p Hp) as Hz. unfold get_sec.
  rewrite (proj2 (in_range_true _ _ _)) by lia.
  destruct (lookup_lt_is_Some_2 (tr_sec p) (Z.to_nat l)) as [s E]; [unfold zlen in Hz; lia|].
  rewrite E. exists s. split; [done|]. split; [|done]. eapply Forall_lookup_1; [apply Hp|exact E].
Qed.

Lemma put_sec_ok p l s : trans_ok p -> section_ok s -> trans_ok (put_sec p l s) /\ same_input p (put_sec p l s).
Proof.
  intros Hp Hs. split; [|by split]. destruct Hp. split; cbn; try done.
  - unfold zlen. by rewrite length_insert.
  - by apply Forall_insert.
Qed.

Lemma set_full_ok p f : trans_ok p -> tflags f ->
  trans_ok (p <| tr_is_full := f |>) /\ same_input p (p <| tr_is_full := f |>).
Proof. intros Hp Hf. split; [|by split]. by destruct Hp; split. Qed.

Lemma reset_sec_ok s : section_ok s -> section_ok (reset_sec s).
Proof. intros []. split; cbn; try done; lia. Qed.

(** [k] more bytes of the packet in the section. *)
Definition grow (s : section) (packet : list Z) (o k : Z) : section :=
  s <| sec_payload := blit (sec_payload s) (sec_found s) (sub packet o k) |> <| sec_found := sec_found s + k |>.

Lemma sec_copy_ok packet off count limit turns : forall s c,
  zlen packet = 188 -> 0 <= off -> count = 188 - off -> 0 <= c -> zlen (sec_payload s) = 4096 + 3 ->
  0 <= sec_found s -> limit <= 4096 + 3 -> count - c <= Z.of_nat turns ->
  let k := Z.max 0 (Z.min (count - c) (limit - sec_found s)) in
  sec_copy turns packet off count limit s c = Ret (grow s packet (off + c) k, c + k).
Proof.
  induction turns as [|turns IH]; intros s c Hp Ho Hc Hc0 Hz Hf Hl Ht k.
  all: assert (Hdone : (c <? count) && (sec_found s <? limit) = false ->
    Ret (s, c) = Ret (grow s packet (off + c) k, c + k)).
  1,3: intros E; assert (k = 0) as -> by (unfold k; lia);
    unfold grow; rewrite sub_0, blit_nil, !Z.add_0_r; by destruct s.
  - cbn. destruct (_ && _) eqn:E; [lia|by apply Hdone].
  - cbn [sec_copy]. destruct (_ && _) eqn:E; [|by apply Hdone]. clear Hdone.
    rewrite load_ok by lia. cbn [mbind outcome_bind]. rewrite write_at_ok by (zsimpl; lia).
    cbn [mbind outcome_bind]. rewrite IH; try (cbn; zsimpl; lia). cbn [sec_found set sec_payload].
    set (k' := Z.max 0 _). assert (k = 1 + k') as -> by (unfold k, k'; lia).
    assert (Hk : 0 <= k' <= 188 - (off + c + 1)) by (unfold k'; lia).
    assert (Hk2 : k' <= limit - sec_found s - 1) by (unfold k'; lia).
    f_equal. f_equal; [|lia]. unfold grow. cbn [sec_found set sec_payload].
    rewrite (sub_split packet (off + c) 1 k') by lia.
    replace (sec_found s + (1 + k')) with (sec_found s + 1 + k') by lia.
    replace (off + (c + 1)) with (off + c + 1) by lia.
    assert (E1 : sub packet (off + c) 1 = [zn packet (off + c)]).
    { rewrite sub_cons, sub_0 by lia. done. }
    rewrite E1. replace (sec_found s + 1) with (sec_found s + zlen [zn packet (off + c)]) by done.
    rewrite blit_blit by (zsimpl; lia). done.
Qed.

(** ** The comparison with mask and filter *)

(** Byte [i] of the mask is for byte 0, 3, 4, ... of the section: the length
    does not count. *)
Definition filter_byte (i : Z) : Z := if i >? 0 then 2 + i else 0.

Definition sec_matches (p : trans) (l : Z) (payload : list Z) : bool :=
  all_from (fun i => Z.land (zn payload (filter_byte i)) (zn (tr_mask p) (MASKL * l + i)) =?
                     Z.land (zn (tr_filt p) (MASKL * l + i)) (zn (tr_mask p) (MASKL * l + i)))
    (Z.to_nat MASKL) 0.

Lemma sec_error_ok payload mask filt l n : forall i,
  zlen payload = 4096 + 3 -> zlen mask = MASKL * MAXFILT -> zlen filt = MASKL * MAXFILT ->
  bytes payload -> bytes mask -> bytes filt ->
  0 <= l < MAXFILT -> 0 <= i -> i + Z.of_nat n <= MASKL ->
  exists e, sec_error n i payload mask filt l = Ret e /\ 0 <= e /\
    (e =? 0) = all_from (fun i => Z.land (zn payload (filter_byte i)) (zn mask (MASKL * l + i)) =?
                     Z.land (zn filt (MASKL * l + i)) (zn mask (MASKL * l + i))) n i.
Proof.
  unfold MAXFILT, MASKL. induction n as [|n IH]; intros i Hp Hm Hf Bp Bm Bf Hl Hi Hn; [by exists 0|].
  cbn [sec_error all_from]. assert (Hj : 0 <= filter_byte i <= 2 + i).
  { unfold filter_byte. destruct (Z.gtb_spec i 0); lia. }
  fold (filter_byte i). unfold MASKL. rewrite !load_ok by lia. cbn [mbind outcome_bind].
  destruct (IH (i + 1)) as (e & -> & He & Ee); [done..|lia|lia|]. cbn [mbind outcome_bind].
  pose proof (bytes_zn payload (filter_byte i) Bp ltac:(lia)) as B1.
  pose proof (bytes_zn mask (16 * l + i) Bm ltac:(lia)) as B2.
  pose proof (bytes_zn filt (16 * l + i) Bf ltac:(lia)) as B3. unfold is_byte in *.
  set (x := Z.land (zn payload _) _). set (y := Z.land (zn filt _) _).
  assert (0 <= x) by (unfold x; apply Z.land_nonneg; lia).
  assert (0 <= y) by (unfold y; apply Z.land_nonneg; lia).
  assert (Hxy : 0 <= Z.lxor x y) by (apply Z.lxor_nonneg; lia).
  eexists. split; [done|]. split; [lia|]. rewrite <- Ee.
  destruct (Z.eqb_spec x y) as [E|E].
  - rewrite E, Z.lxor_nilpotent. done.
  - rewrite <- Z.lxor_eq_0_iff in E. apply Z.eqb_neq. lia.
Qed.

(** ** One activation of [sec_filter] *)
Definition complete (s : section) : bool := negb (sec_length s =? 0) && (sec_found s =? sec_length s + 3).

Definition finish (p : trans) (l : Z) (s : section) : trans :=
  let q := put_sec p l s in
  if complete s && sec_matches p l (sec_payload s) then q <| tr_is_full := set_bit (tr_is_full p) l |> else q.

Lemma sec_done_ok p l off s c :
  trans_ok p -> 0 <= l < MAXFILT -> section_ok s -> 0 <= off < 188 -> c <= 188 - off ->
  sec_done p l off (188 - off) s c =
  Ret (finish p l s, (c <? 188 - off) && negb (complete s && (zn (tr_packet p) off + 1 <? c))).
Proof.
  intros Hp Hl Hs Ho Hc. unfold sec_done, finish. fold (complete s).
  destruct (complete s) eqn:E; cbn [andb negb]; [|by rewrite andb_true_r].
  destruct (sec_error_ok (sec_payload s) (tr_mask p) (tr_filt p) l (Z.to_nat MASKL) 0)
    as (e & Ee & _ & Em); try apply Hp; try apply Hs; try done.
  cbn [put_sec tr_mask tr_filt set]. rewrite Ee. cbn [mbind outcome_bind].
  rewrite Em. fold (sec_matches p l (sec_payload s)).
  destruct Hp as [_ Hz _ _ _ _ _ _ _ _ _ _ _ _ _ _ _].
  replace (tr_packet (if sec_matches p l (sec_payload s) then _ else _)) with (tr_packet p)
    by (by destruct (sec_matches _ _ _)).
  rewrite load_ok by lia. cbn [mbind outcome_bind]. destruct (Z.ltb_spec (zn (tr_packet p) off + 1) c).
  - rewrite Z.ltb_irrefl, andb_false_r. done.
  - by rewrite andb_true_r.
Qed.

Lemma finish_ok p l s : trans_ok p -> section_ok s -> 0 <= l < MAXFILT ->
  trans_ok (finish p l s) /\ same_input p (finish p l s).
Proof.
  intros Hp Hs Hl. destruct (put_sec_ok p l s Hp Hs) as [H1 H2]. unfold finish.
  destruct (_ && _); [|done].
  destruct (set_full_ok (put_sec p l s) (set_bit (tr_is_full p) l)) as [H3 H4]; [done| |].
  - apply set_bit_tflags; [done|apply Hp].
  - split; [done|]. by etransitivity.
Qed.

Lemma grow_ok s packet o k : section_ok s -> bytes packet -> 0 <= o -> 0 <= k -> o + k <= zlen packet ->
  sec_found s + k <= Z.max (sec_found s) (sec_length s + 3) -> section_ok (grow s packet o k).
Proof.
  intros [] Hb Ho Hk Hok Hf. split; cbn; try done; [zsimpl; lia|by apply bytes_blit; [|apply bytes_sub]|lia].
Qed.

(** The length the header of the section at [o] announces. *)
Definition header_length (packet : list Z) (o : Z) : Z :=
  zn packet (o + 1) mod 16 * 256 + zn packet (o + 2).

Lemma sec_announced_ok s b1 b2 :
  section_ok s -> is_byte b1 -> is_byte b2 -> sec_length s = 0 -> sec_found s = 3 ->
  zn (sec_payload s) 1 = b1 -> zn (sec_payload s) 2 = b2 ->
  sec_announced s = Ret (s <| sec_length := b1 mod 16 * 256 + b2 |>).
Proof.
  intros Hs H1 H2 Hl Hf E1 E2. unfold sec_announced. rewrite Hl, Hf. cbn [Z.eqb andb].
  pose proof (so_payload s Hs). change (3 =? 3) with true. cbv iota.
  rewrite !load_ok by lia. cbn [mbind outcome_bind]. rewrite E1, E2, Z.lor_0_l.
  change 0x0F with (Z.ones 4). change 0xFF with (Z.ones 8). rewrite !land_mask by lia.
  unfold is_byte in *. rewrite (Z.mod_small b2) by lia. rewrite lor_bytes by done. done.
Qed.

Lemma sec_announced_sound s : section_ok s ->
  exists n, sec_announced s = Ret (s <| sec_length := n |>) /\ section_ok (s <| sec_length := n |>) /\
    (sec_length s <> 0 \/ sec_found s <> 3 -> n = sec_length s).
Proof.
  intros Hs. pose proof (so_payload s Hs) as Hz. pose proof (so_found s Hs) as Hf.
  destruct (decide (sec_length s = 0 /\ sec_found s = 3)) as [[E1 E2]|N].
  - pose proof (bytes_zn _ 1 (so_bytes s Hs) ltac:(lia)) as B1.
    pose proof (bytes_zn _ 2 (so_bytes s Hs) ltac:(lia)) as B2.
    rewrite (sec_announced_ok s _ _ Hs B1 B2) by done. eexists. split; [done|].
    unfold is_byte in *. pose proof (Z.mod_pos_bound (zn (sec_payload s) 1) 16 ltac:(lia)).
    split; [|lia]. destruct Hs. split; cbn; try done; lia.
  - exists (sec_length s). unfold sec_announced.
    destruct (_ && _) eqn:E; [lia|]. split; [by destruct s|]. split; [|done]. by destruct s, Hs; split.
Qed.

Lemma sec_start_eq p off s : trans_ok p -> section_ok s -> 0 <= off < 188 ->
  sec_start p off (188 - off) s = Ret (
    if sec_found s =? 0 then
      let o := off + 1 + zn (tr_packet p) off in
      if 188 <=? o then None
      else Some (s <| sec_id := zn (tr_packet p) o |> <| sec_payload := blit (sec_payload s) 0 (sub (tr_packet p) o 1) |>
                   <| sec_found := 1 |> <| sec_length := 0 |>, o + 1 - off)
    else Some (s, 0)).
Proof.
  intros Hp Hs Ho. unfold sec_start. pose proof (to_packet p Hp) as Hz.
  destruct (Z.eqb_spec (sec_found s) 0); [|done]. rewrite load_ok by lia. cbn [mbind outcome_bind].
  pose proof (bytes_zn _ off (to_bytes p Hp) ltac:(lia)) as B. unfold is_byte in B.
  set (b := zn (tr_packet p) off) in *. destruct (Z.geb_spec (b + 1) (188 - off)), (Z.leb_spec 188 (off + 1 + b)); try lia; [done|].
  rewrite load_ok by lia. cbn [mbind outcome_bind]. pose proof (so_payload s Hs).
  rewrite write_at_ok by (zsimpl; lia). cbn [mbind outcome_bind].
  replace (off + (b + 1)) with (off + 1 + b) by lia. rewrite sub_cons, sub_0 by lia.
  by replace (b + 1 + 1) with (off + 1 + b + 1 - off) by lia.
Qed.

Lemma sec_rest_sound p l off s c :
  trans_ok p -> 0 <= l < MAXFILT -> 0 <= off < 188 -> section_ok s -> 0 <= c <= 188 - off ->
  exists q again, sec_rest p l off (188 - off) s c = Ret (q, again) /\ trans_ok q /\ same_input p q.
Proof.
  intros Hp Hl Ho Hs Hc. unfold sec_rest.
  pose proof (to_packet p Hp) as Hz. pose proof (to_bytes p Hp) as Hb.
  pose proof (so_found s Hs) as Hf. pose proof (so_length s Hs) as Hlen.
  rewrite sec_copy_ok by (lia || apply Hs).
  set (k := Z.max 0 _). assert (Hk : 0 <= k) by lia. next.
  assert (Hs1 : section_ok (grow s (tr_packet p) (off + c) k)) by (apply grow_ok; try done; lia).
  set (s1 := grow s (tr_packet p) (off + c) k) in *. clearbody s1.
  destruct (Z.eqb_spec (c + k) (188 - off)).
  { eexists _, _. split; [done|]. by apply put_sec_ok. }
  destruct (sec_announced_sound s1 Hs1) as (len & -> & Hs2 & _). next.
  pose proof (so_found _ Hs2) as Hf2. pose proof (so_length _ Hs2) as Hlen2.
  set (s2 := s1 <| sec_length := len |>) in *. clearbody s2.
  rewrite sec_copy_ok by (lia || apply Hs2).
  set (k2 := Z.max 0 _). next.
  assert (Hs3 : section_ok (grow s2 (tr_packet p) (off + (c + k)) k2)) by (apply grow_ok; try done; lia).
  rewrite sec_done_ok; try done; try lia. eexists _, _. split; [done|]. by apply finish_ok.
Qed.

(** The state and the section an activation works on. *)
Definition sec_input (p : trans) (l : Z) (s : section) : trans * section :=
  if filt_is_ready p l then (p, s) else (p <| tr_is_full := clear_bit (tr_is_full p) l |>, reset_sec s).

Lemma sec_input_ok p l s : trans_ok p -> section_ok s ->
  trans_ok (fst (sec_input p l s)) /\ same_input p (fst (sec_input p l s)) /\ section_ok (snd (sec_input p l s)).
Proof.
  intros Hp Hs. unfold sec_input. destruct (filt_is_ready p l); [done|].
  destruct (set_full_ok p (clear_bit (tr_is_full p) l) Hp) as [? ?]; [apply clear_bit_tflags, Hp|].
  split; [done|]. split; [done|]. by apply reset_sec_ok.
Qed.

Lemma sec_body_sound p l off : trans_ok p -> 0 <= l < MAXFILT -> 0 <= off < 188 ->
  exists q again, sec_body p l off = Ret (q, again) /\ trans_ok q /\ same_input p q.
Proof.
  intros Hp Hl Ho. unfold sec_body. destruct (get_sec_ok p l Hp Hl) as (s & -> & Hs & _).
  cbn [mbind outcome_bind]. fold (sec_input p l s).
  destruct (sec_input_ok p l s Hp Hs) as (Hp0 & Hi0 & Hs0).
  destruct (sec_input p l s) as [p0 s0]. cbn [fst snd] in *.
  rewrite sec_start_eq by done. cbn [mbind outcome_bind]. clear Hs s.
  pose proof (to_packet p0 Hp0) as Hz. pose proof (to_bytes p0 Hp0) as Hb.
  pose proof (bytes_zn _ off Hb ltac:(lia)) as B. unfold is_byte in B.
  destruct (if sec_found s0 =? 0 then _ else _) as [[s c]|] eqn:E.
  - assert (section_ok s /\ 0 <= c <= 188 - off) as [Hs Hc].
    { destruct (sec_found s0 =? 0); [|injection E as <- <-; split; [done|lia]].
      cbv zeta in E. destruct (Z.leb_spec 188 (off + 1 + zn (tr_packet p0) off)); [done|].
      injection E as <- <-. split; [|lia]. pose proof (so_payload s0 Hs0).
      destruct Hs0. split; cbn; try lia; [zsimpl; lia|by apply bytes_blit; [|apply bytes_sub]]. }
    destruct (sec_rest_sound p0 l off s c) as (q & again & Er & Hq & Hi); [done..|].
    exists q, again. split; [done|]. split; [done|by etransitivity].
  - eexists _, _. split; [done|]. destruct (put_sec_ok p0 l s0 Hp0 Hs0) as [? ?].
    split; [done|by etransitivity].
Qed.

(** ** A filter that is not ready starts a new section in every packet *)

(** Where the section behind the pointer field starts. *)
Definition sec_offset (packet : list Z) (off : Z) : Z := off + 1 + zn packet off.

(** The section with [n] bytes of the packet from offset [o]. *)
Definition loaded (s : section) (packet : list Z) (o n len : Z) : section :=
  mk_section (zn packet o) len n (blit (sec_payload s) 0 (sub packet o n)).

Lemma set_loaded s packet o n a b : (loaded s packet o n a) <| sec_length := b |> = loaded s packet o n b.
Proof. reflexivity. Qed.

Lemma grow_loaded s packet o n k len : 0 <= o -> 0 <= n -> 0 <= k -> o + n + k <= zlen packet ->
  n + k <= zlen (sec_payload s) -> grow (loaded s packet o n len) packet (o + n) k = loaded s packet o (n + k) len.
Proof.
  intros. unfold grow, loaded, set. cbn [sec_id sec_length sec_found sec_payload]. f_equal.
  rewrite (sub_split packet o n k) by lia.
  replace (blit (blit _ 0 (sub packet o n)) n) with (blit (blit (sec_payload s) 0 (sub packet o n)) (0 + zlen (sub packet o n)))
    by (f_equal; zsimpl; lia).
  apply blit_blit; zsimpl; lia.
Qed.

Lemma loaded_ok s packet o n len : section_ok s -> bytes packet -> 0 <= o -> 0 <= n -> o + n <= zlen packet ->
  n <= len + 3 -> 0 <= len < 4096 -> section_ok (loaded s packet o n len).
Proof.
  intros [] ? ? ? ? ? ?. split; cbn; try lia; [zsimpl; lia|by apply bytes_blit; [|apply bytes_sub]].
Qed.

Lemma loaded_byte s packet o n len i : 0 <= o -> o + n <= zlen packet -> n <= zlen (sec_payload s) -> 0 <= i < n ->
  zn (sec_payload (loaded s packet o n len)) i = zn packet (o + i).
Proof.
  intros. cbn. rewrite zn_blit_in by (zsimpl; lia). rewrite Z.sub_0_r, zn_sub by lia. done.
Qed.

Lemma header_length_bound packet o : bytes packet -> 0 <= o -> o + 2 < zlen packet ->
  0 <= header_length packet o < 4096.
Proof.
  intros Hb Ho Hz. unfold header_length. pose proof (bytes_zn packet (o + 2) Hb ltac:(lia)) as B.
  unfold is_byte in B. pose proof (Z.mod_pos_bound (zn packet (o + 1)) 16 ltac:(lia)). lia.
Qed.

Lemma sec_rest_fresh p l off s : trans_ok p -> 0 <= l < MAXFILT -> 0 <= off < 188 -> section_ok s ->
  let o := sec_offset (tr_packet p) off in let d := 188 - o in let len := header_length (tr_packet p) o in
  0 < d ->
  sec_rest p l off (188 - off) (loaded s (tr_packet p) o 1 0) (o + 1 - off) =
  Ret (if d <=? 3 then (put_sec p l (loaded s (tr_packet p) o d 0), false)
       else (finish p l (loaded s (tr_packet p) o (Z.min d (len + 3)) len), len =? 0)).
Proof.
  intros Hp Hl Ho Hs o d len Hd. pose proof (to_packet p Hp) as Hz. pose proof (to_bytes p Hp) as Hb.
  pose proof (bytes_zn _ off Hb ltac:(lia)) as B. unfold is_byte in B.
  assert (Hoo : off < o) by (unfold o, sec_offset; lia). pose proof (so_payload s Hs) as Hps.
  pose proof (loaded_ok s (tr_packet p) o 1 0 Hs Hb ltac:(lia) ltac:(lia) ltac:(lia) ltac:(lia) ltac:(lia)) as Hs1.
  unfold sec_rest. rewrite sec_copy_ok by (lia || apply Hs1 || (cbn; lia)).
  replace (Z.max 0 _) with (Z.min (d - 1) 2) by (cbn; lia). next.
  replace (off + (o + 1 - off)) with (o + 1) by lia. rewrite grow_loaded by lia.
  destruct (Z.leb_spec d 3).
  - rewrite Z.min_l by lia. destruct (Z.eqb_spec (o + 1 - off + (d - 1)) (188 - off)); [|lia].
    by replace (1 + (d - 1)) with d by lia.
  - rewrite Z.min_r by lia. destruct (Z.eqb_spec (o + 1 - off + 2) (188 - off)); [lia|]. change (1 + 2) with 3.
    pose proof (header_length_bound (tr_packet p) o Hb ltac:(lia) ltac:(lia)) as Hlen. fold len in Hlen.
    pose proof (loaded_ok s (tr_packet p) o 3 0 Hs Hb ltac:(lia) ltac:(lia) ltac:(lia) ltac:(lia) ltac:(lia)) as Hs3.
    rewrite (sec_announced_ok _ (zn (tr_packet p) (o + 1)) (zn (tr_packet p) (o + 2))); try done;
      try (rewrite loaded_byte by lia; done); try (apply bytes_zn; [done|lia]).
    next. fold (header_length (tr_packet p) o). fold len. rewrite set_loaded.
    change (sec_length (loaded s (tr_packet p) o 3 len)) with len. rewrite sec_copy_ok by (lia || apply Hs3 || (cbn; lia)).
    set (k := Z.max 0 _). assert (Hk : k = Z.min d (len + 3) - 3) by (unfold k; cbn; lia). clearbody k. next.
    replace (off + (o + 1 - off + 2)) with (o + 3) by lia. rewrite grow_loaded by lia.
    replace (3 + k) with (Z.min d (len + 3)) by lia. set (m := Z.min d (len + 3)) in *.
    rewrite sec_done_ok; try done; try lia; [|apply loaded_ok; try done; lia]. f_equal. f_equal.
    unfold complete. cbn [sec_found sec_length loaded].
    assert (Hpf : zn (tr_packet p) off + 1 < o + 1 - off + 2 + k) by (unfold o, sec_offset; lia).
    apply Z.ltb_lt in Hpf. rewrite Hpf, andb_true_r.
    destruct (Z.ltb_spec (o + 1 - off + 2 + k) (188 - off)), (Z.eqb_spec len 0), (Z.eqb_spec m (len + 3)); cbn; lia.
Qed.

(** What an activation makes of a filter that is not ready, and whether it calls
    itself again. *)
Definition fresh (p : trans) (l off : Z) (s : section) : trans * bool :=
  let q := p <| tr_is_full := clear_bit (tr_is_full p) l |> in
  let o := sec_offset (tr_packet p) off in
  let d := 188 - o in
  let len := header_length (tr_packet p) o in
  if d <=? 0 then (put_sec q l (reset_sec s), false)
  else if d <=? 3 then (put_sec q l (loaded s (tr_packet p) o d 0), false)
  else (finish q l (loaded s (tr_packet p) o (Z.min d (len + 3)) len), len =? 0).

Lemma sec_body_fresh p l off s : trans_ok p -> 0 <= l < MAXFILT -> 0 <= off < 188 ->
  tr_sec p !! Z.to_nat l = Some s -> filt_is_ready p l = false -> sec_body p l off = Ret (fresh p l off s).
Proof.
  intros Hp Hl Ho Es Hr. unfold sec_body. destruct (get_sec_ok p l Hp Hl) as (s' & E & Hs & Es').
  rewrite Es in Es'. injection Es' as <-. rewrite E. next. rewrite Hr.
  destruct (set_full_ok p (clear_bit (tr_is_full p) l) Hp) as [Hp0 _]; [apply clear_bit_tflags, Hp|].
  set (p0 := p <| tr_is_full := clear_bit (tr_is_full p) l |>) in *.
  pose proof (reset_sec_ok s Hs) as Hs0. rewrite sec_start_eq by done. next.
  change (sec_found (reset_sec s) =? 0) with true. cbv iota zeta.
  unfold fresh. fold p0. change (tr_packet p0) with (tr_packet p). fold (sec_offset (tr_packet p) off).
  destruct (Z.leb_spec 188 (sec_offset (tr_packet p) off)), (Z.leb_spec (188 - sec_offset (tr_packet p) off) 0);
    try lia; [done|].
  refine (sec_rest_fresh p0 l off s Hp0 Hl Ho Hs _).
  change (tr_packet p0) with (tr_packet p). lia.
Qed.

Lemma same_put p l s : same_input p (put_sec p l s).
Proof. by split. Qed.

Lemma ready_put p l s k : filt_is_ready (put_sec p l s) k = filt_is_ready p k.
Proof. done. Qed.

(** Readiness after [finish], and the sections. *)
Lemma ready_finish p l s k : 0 <= l < MAXFILT -> 0 <= k < MAXFILT ->
  filt_is_ready (finish p l s) k =
  ((l =? k) && (complete s && sec_matches p l (sec_payload s))) || filt_is_ready p k.
Proof.
  unfold MAXFILT. intros Hl Hk. unfold finish, filt_is_ready.
  destruct (complete s && sec_matches p l (sec_payload s)); cbn [tr_is_full put_sec set].
  - rewrite is_set_set by done. by rewrite andb_true_r.
  - by rewrite andb_false_r.
Qed.

Lemma sec_finish p l s : tr_sec (finish p l s) = <[Z.to_nat l := s]> (tr_sec p).
Proof. unfold finish. by destruct (_ && _). Qed.

Lemma same_finish p l s : same_input p (finish p l s).
Proof. unfold finish. destruct (_ && _); by split. Qed.

Lemma ready_clear p l k : 0 <= l < MAXFILT -> 0 <= k < MAXFILT ->
  filt_is_ready (p <| tr_is_full := clear_bit (tr_is_full p) l |>) k = negb (l =? k) && filt_is_ready p k.
Proof. unfold MAXFILT. intros. unfold filt_is_ready. cbn. by apply is_set_clear. Qed.

(** ** When [sec_filter] returns *)

(** The header of a section whose announced length is 0. *)
Definition empty_section (packet : list Z) (off : Z) : bool :=
  let o := sec_offset packet off in (o + 3 <? 188) && (header_length packet o =? 0).

Lemma fresh_again p l off s : snd (fresh p l off s) = empty_section (tr_packet p) off.
Proof.
  unfold fresh, empty_section. set (o := sec_offset _ _).
  destruct (Z.leb_spec (188 - o) 0), (Z.leb_spec (188 - o) 3), (Z.ltb_spec (o + 3) 188); try lia; done.
Qed.

Lemma fresh_empty p l off s : 0 <= l < MAXFILT -> empty_section (tr_packet p) off = true ->
  filt_is_ready p l = false ->
  filt_is_ready (fst (fresh p l off s)) l = false /\ tr_packet (fst (fresh p l off s)) = tr_packet p.
Proof.
  unfold fresh, empty_section. intros Hl [H1 H2]%andb_true_iff Hr. apply Z.ltb_lt in H1. apply Z.eqb_eq in H2.
  destruct (Z.leb_spec (188 - sec_offset (tr_packet p) off) 0), (Z.leb_spec (188 - sec_offset (tr_packet p) off) 3); try lia.
  cbn [fst]. rewrite (si_packet _ _ (same_finish _ _ _)), ready_finish, ready_clear by done. split; [|done].
  rewrite H2. unfold complete. cbn [sec_length loaded Z.eqb negb andb]. rewrite Z.eqb_refl. done.
Qed.

(** A packet with an empty section is looked at for ever. *)
Lemma sec_filter_empty_hangs off fuel : forall p l, trans_ok p -> 0 <= l < MAXFILT -> 0 <= off < 188 ->
  filt_is_ready p l = false -> empty_section (tr_packet p) off = true -> sec_filter_within fuel p l off = Hang.
Proof.
  induction fuel as [|fuel IH]; intros p l Hp Hl Ho Hr He; [done|]. cbn [sec_filter_within].
  destruct (Z.ltb_spec l 0), (Z.geb_spec l MAXFILT); try lia. cbn [orb].
  destruct (get_sec_ok p l Hp Hl) as (s & _ & _ & Es).
  destruct (sec_body_sound p l off Hp Hl Ho) as (q & b & E & Hq & _).
  rewrite (sec_body_fresh p l off s) in E |- * by done.
  pose proof (fresh_again p l off s) as Ha. pose proof (fresh_empty p l off s Hl He Hr) as [Hf Hk].
  destruct (fresh p l off s) as [q' b']. injection E as -> ->. cbn [fst snd] in *. rewrite Ha, He. next.
  apply IH; [done..|by rewrite Hk].
Qed.

(** A section that was complete and has not been fetched. *)
Definition waiting_section (p : trans) (l : Z) : Prop :=
  filt_is_ready p l = true /\ exists s, tr_sec p !! Z.to_nat l = Some s /\ complete s = true.

Lemma grow_0 s packet o : grow s packet o 0 = s.
Proof. unfold grow. rewrite sub_0, blit_nil, Z.add_0_r. by destruct s. Qed.

Lemma sec_body_waiting p l off s : trans_ok p -> 0 <= l < MAXFILT -> 0 <= off < 188 ->
  filt_is_ready p l = true -> tr_sec p !! Z.to_nat l = Some s -> complete s = true ->
  sec_body p l off = Ret (finish p l s, true).
Proof.
  intros Hp Hl Ho Hr Es Hc. unfold sec_body. destruct (get_sec_ok p l Hp Hl) as (s' & E & Hs & Es').
  rewrite Es in Es'. injection Es' as <-. rewrite E. next. rewrite Hr. rewrite sec_start_eq by done. next.
  pose proof (so_length s Hs). pose proof (so_payload s Hs). pose proof (to_packet p Hp).
  assert (Hf : sec_length s <> 0 /\ sec_found s = sec_length s + 3) by (unfold complete in Hc; lia).
  destruct (Z.eqb_spec (sec_found s) 0); [lia|]. cbv iota. unfold sec_rest.
  rewrite sec_copy_ok by lia. replace (Z.max 0 _) with 0 by lia. rewrite grow_0. next.
  destruct (Z.eqb_spec (0 + 0) (188 - off)); [lia|].
  destruct (sec_announced_sound s Hs) as (len & -> & _ & En). next. rewrite En by lia.
  replace (s <| sec_length := sec_length s |>) with s by (by destruct s).
  rewrite sec_copy_ok by lia. replace (Z.max 0 _) with 0 by lia. rewrite grow_0. next.
  rewrite sec_done_ok by (done || lia). rewrite Hc. do 2 f_equal.
  pose proof (bytes_zn _ off (to_bytes p Hp) ltac:(lia)) as B. unfold is_byte in B.
  destruct (Z.ltb_spec (0 + 0) (188 - off)), (Z.ltb_spec (zn (tr_packet p) off + 1) (0 + 0)); cbn; lia.
Qed.

Lemma sec_filter_waiting_hangs off fuel : forall p l, trans_ok p -> 0 <= l < MAXFILT -> 0 <= off < 188 ->
  waiting_section p l -> sec_filter_within fuel p l off = Hang.
Proof.
  induction fuel as [|fuel IH]; intros p l Hp Hl Ho (Hr & s & Es & Hc); [done|]. cbn [sec_filter_within].
  destruct (Z.ltb_spec l 0), (Z.geb_spec l MAXFILT); try lia. cbn [orb].
  pose proof (sec_body_waiting p l off s Hp Hl Ho Hr Es Hc) as E. rewrite E. next.
  destruct (sec_body_sound p l off Hp Hl Ho) as (q & b & E' & Hq & _). rewrite E in E'. injection E' as <- <-.
  apply IH; [done..|]. split; [rewrite ready_finish by done; by rewrite Hr, orb_true_r|].
  exists s. split; [|done]. rewrite sec_finish. apply list_lookup_insert_eq. by eapply lookup_lt_Some.
Qed.

Lemma sec_filter_returns depth p l off : trans_ok p -> 0 <= l < MAXFILT -> 0 <= off < 188 -> (0 < depth)%nat ->
  filt_is_ready p l = false -> empty_section (tr_packet p) off = false -> returns (sec_filter depth p l off).
Proof.
  intros Hp Hl Ho Hd Hr He. unfold sec_filter. destruct depth as [|depth]; [lia|]. cbn [sec_filter_within].
  destruct (Z.ltb_spec l 0), (Z.geb_spec l MAXFILT); try lia. cbn [orb].
  destruct (get_sec_ok p l Hp Hl) as (s & _ & _ & Es). rewrite (sec_body_fresh p l off s) by done.
  pose proof (fresh_again p l off s) as Ha. destruct (fresh p l off s) as [q b]. cbn [snd] in Ha.
  rewrite Ha, He. next. by exists q.
Qed.

(** C29: when [sec_filter] returns: exactly when the section of the packet before
    was fetched or none is complete, and the packet does not announce a section
    of length 0.  Otherwise the function calls itself on the same packet until
    the stack is exhausted, however large it is. *)
Theorem sec_filter_returns_iff depth p l off :
  trans_ok p -> 0 <= l < MAXFILT -> 0 <= off < 188 -> (0 < depth)%nat ->
  (filt_is_ready p l = true -> waiting_section p l) ->
  returns (sec_filter depth p l off) <->
  filt_is_ready p l = false /\ empty_section (tr_packet p) off = false.
Proof.
  intros Hp Hl Ho Hd Hw. split.
  - unfold sec_filter. intros [q E]. destruct (filt_is_ready p l) eqn:Hr.
    { rewrite sec_filter_waiting_hangs in E by (done || auto). done. }
    split; [done|]. destruct (empty_section (tr_packet p) off) eqn:He; [|done].
    rewrite sec_filter_empty_hangs in E by done. done.
  - intros [Hr He]. by apply sec_filter_returns.
Qed.

(** The packet holds a whole section. *)
Definition whole_section (packet : list Z) (off : Z) : bool :=
  let o := sec_offset packet off in (o + 3 <? 188) && (o + 3 + header_length packet o <=? 188).

Lemma fresh_other p l off s k : 0 <= l < MAXFILT -> 0 <= k < MAXFILT -> k <> l ->
  filt_is_ready (fst (fresh p l off s)) k = filt_is_ready p k /\
  tr_sec (fst (fresh p l off s)) !! Z.to_nat k = tr_sec p !! Z.to_nat k.
Proof.
  intros Hl Hk Hn. unfold fresh.
  destruct (_ <=? 0); [|destruct (_ <=? 3)]; cbn [fst];
    rewrite ?ready_finish, ?ready_put, ?ready_clear, ?sec_finish by done;
    destruct (Z.eqb_spec l k); try lia; cbn; (split; [done|]);
    apply list_lookup_insert_ne; lia.
Qed.

(** What the packet leaves in the filter. *)
Lemma fresh_own p l off s : trans_ok p -> 0 <= l < MAXFILT -> 0 <= off < 188 ->
  empty_section (tr_packet p) off = false -> (Z.to_nat l < length (tr_sec p))%nat ->
  zlen (sec_payload s) = 4096 + 3 ->
  let q := fst (fresh p l off s) in
  let o := sec_offset (tr_packet p) off in
  let len := header_length (tr_packet p) o in
  filt_is_ready q l = whole_section (tr_packet p) off &&
    sec_matches p l (blit (sec_payload s) 0 (sub (tr_packet p) o (len + 3))) /\
  (whole_section (tr_packet p) off = true ->
   tr_sec q !! Z.to_nat l = Some (loaded s (tr_packet p) o (len + 3) len)).
Proof.
  intros Hp Hl Ho He Hn Hz q o len. pose proof (to_packet p Hp) as Hzp.
  pose proof (bytes_zn _ off (to_bytes p Hp) ltac:(lia)) as B. unfold is_byte in B.
  assert (Ho1 : off < o) by (unfold o, sec_offset; lia). revert He. unfold q, fresh, whole_section, empty_section.
  change (sec_offset (tr_packet p) off) with o. change (header_length (tr_packet p) o) with len. intros He.
  destruct (Z.leb_spec (188 - o) 0); [|destruct (Z.leb_spec (188 - o) 3)]; cbn [fst];
    rewrite ?ready_finish, ?ready_put, ?ready_clear, ?sec_finish by done;
    destruct (Z.ltb_spec (o + 3) 188); try lia; rewrite Z.eqb_refl; try done.
  pose proof (header_length_bound (tr_packet p) o (to_bytes p Hp) ltac:(lia) ltac:(lia)) as Hlen. fold len in Hlen.
  cbn [negb andb orb]. rewrite orb_false_r. unfold complete. cbn [sec_length sec_found sec_payload loaded].
  cbn [andb] in He. rewrite He. cbn [negb andb].
  destruct (Z.leb_spec (o + 3 + len) 188), (Z.eqb_spec (Z.min (188 - o) (len + 3)) (len + 3)); try lia.
  rewrite e. split; [done|]. intros _. by apply list_lookup_insert_eq.
Qed.

(** C28: a section filter collects sections only inside one packet: it becomes
    ready exactly when the whole section lies in the packet and its bytes agree
    with the filter under the mask (a section shorter than the mask is compared with what
    the filter's buffer held behind it, too); the section can then be fetched.  Of a
    section that continues in the next packet nothing is kept, since the next
    packet of a filter that is not ready starts again.  The other filters are
    not touched. *)
Theorem sec_filter_whole_sections depth p l off s :
  trans_ok p -> 0 <= l < MAXFILT -> 0 <= off < 188 -> (0 < depth)%nat ->
  filt_is_ready p l = false -> empty_section (tr_packet p) off = false ->
  tr_sec p !! Z.to_nat l = Some s ->
  let o := sec_offset (tr_packet p) off in
  let len := header_length (tr_packet p) o in
  exists q, sec_filter depth p l off = Ret q /\ trans_ok q /\ same_input p q /\
    filt_is_ready q l = whole_section (tr_packet p) off &&
      sec_matches p l (blit (sec_payload s) 0 (sub (tr_packet p) o (len + 3))) /\
    (whole_section (tr_packet p) off = true -> exists q' s',
       get_filt_sec q l = Ret (q', s') /\ filt_is_ready q' l = false /\
       sec_id s' = zn (tr_packet p) o /\ sec_length s' = len /\ sec_found s' = len + 3 /\
       sub (sec_payload s') 0 (len + 3) = sub (tr_packet p) o (len + 3)) /\
    forall k, 0 <= k < MAXFILT -> k <> l ->
      filt_is_ready q k = filt_is_ready p k /\ tr_sec q !! Z.to_nat k = tr_sec p !! Z.to_nat k.
Proof.
  intros Hp Hl Ho Hd Hr He Es o len. unfold sec_filter. destruct depth as [|depth]; [lia|]. cbn [sec_filter_within].
  destruct (Z.ltb_spec l 0), (Z.geb_spec l MAXFILT); try lia. cbn [orb].
  destruct (sec_body_sound p l off Hp Hl Ho) as (q & b & E & Hq & Hi).
  pose proof (sec_body_fresh p l off s Hp Hl Ho Es Hr) as E'.
  rewrite E in E' |- *. next. pose proof (fresh_again p l off s) as Ha.
  destruct (get_sec_ok p l Hp Hl) as (s' & _ & Hs & Es'). rewrite Es in Es'. injection Es' as <-.
  destruct (fresh_own p l off s Hp Hl Ho He ltac:(by eapply lookup_lt_Some) (so_payload s Hs)) as [Hrd Hsec].
  pose proof (fun k => fresh_other p l off s k Hl) as Hother.
  destruct (fresh p l off s) as [q0 b0]. injection E' as <- <-. cbn [fst snd] in *. rewrite Ha, He.
  exists q. split; [done|]. split; [done|]. split; [done|]. split; [done|]. split; [|auto].
  intros Hw. rewrite Hw in Hsec. specialize (Hsec eq_refl).
  destruct (get_sec_ok q l Hq Hl) as (s' & Eg & Hs' & Es2). rewrite Es2 in Hsec. injection Hsec as ->.
  eexists _, _. split; [unfold get_filt_sec; rewrite Eg; reflexivity|].
  split; [rewrite ready_clear by done; by rewrite Z.eqb_refl|]. repeat (split; [done|]).
  unfold whole_section in Hw. apply andb_true_iff in Hw as [H1 H2]. fold o len in H1, H2.
  pose proof (to_packet p Hp). pose proof (so_payload s Hs). cbn [sec_payload loaded].
  pose proof (bytes_zn _ off (to_bytes p Hp) ltac:(lia)) as B. unfold is_byte in B.
  assert (off < o) by (unfold o, sec_offset; lia).
  pose proof (header_length_bound (tr_packet p) o (to_bytes p Hp) ltac:(lia) ltac:(lia)) as Hlen. fold len in Hlen.
  replace (len + 3) with (zlen (sub (tr_packet p) o (len + 3))) at 1 by (zsimpl; lia).
  apply sub_blit_eq; zsimpl; lia.
Qed.

(** ** Packets whose adaptation field leaves no payload *)

(** What a call may do: keep the invariant and the input, or end as [bad] allows. *)
Definition sound (p : trans) (bad : Prop) (m : outcome trans) : Prop :=
  match m with Ret q => trans_ok q /\ same_input p q | Crash => bad | Hang => True end.

Lemma sound_bind p bad m f : sound p bad m -> (forall q, trans_ok q -> same_input p q -> sound q bad (f q)) ->
  sound p bad (m ≫= f).
Proof.
  intros Hm Hf. destruct m as [q| |]; try done. next. destruct Hm as [Hq Hi]. pose proof (Hf q Hq Hi) as H.
  destruct (f q); try done. destruct H. split; [done|by etransitivity].
Qed.

Lemma sound_from p q bad m : same_input p q -> sound q bad m -> sound p bad m.
Proof. intros Hi. destruct m; try done. intros [? ?]. split; [done|by etransitivity]. Qed.

Lemma sound_imp p (bad bad' : Prop) m : (bad -> bad') -> sound p bad m -> sound p bad' m.
Proof. destruct m; auto. Qed.

Lemma sec_copy_stop turns packet off count limit s : count <= 0 -> sec_copy turns packet off count limit s 0 = Ret (s, 0).
Proof. intros. destruct turns; cbn; by destruct (Z.ltb_spec 0 count); [lia|]. Qed.

Lemma sec_rest_far p l off s : trans_ok p -> 0 <= l < MAXFILT -> 188 <= off -> section_ok s ->
  sec_rest p l off (188 - off) s 0 = Crash \/
  exists q, sec_rest p l off (188 - off) s 0 = Ret (q, false) /\ trans_ok q /\ same_input p q.
Proof.
  intros Hp Hl Ho Hs. unfold sec_rest. rewrite sec_copy_stop by lia. next.
  destruct (Z.eqb_spec 0 (188 - off)).
  { right. eexists. split; [done|]. by apply put_sec_ok. }
  destruct (sec_announced_sound s Hs) as (len & -> & Hs2 & _). next. rewrite sec_copy_stop by lia. next.
  set (s2 := s <| sec_length := len |>) in *. clearbody s2. unfold sec_done. fold (complete s2).
  destruct (complete s2).
  - left. destruct (sec_error_ok (sec_payload s2) (tr_mask p) (tr_filt p) l (Z.to_nat MASKL) 0)
      as (e & Ee & _ & _); try apply Hp; try apply Hs2; try done.
    cbn [put_sec tr_mask tr_filt set]. rewrite Ee. next.
    replace (tr_packet (if e =? 0 then _ else _)) with (tr_packet p) by (by destruct (e =? 0)).
    pose proof (to_packet p Hp). unfold load.
    destruct (in_range _ off 1) eqn:E; [apply in_range_true in E; lia|done].
  - right. eexists. split; [by destruct (Z.ltb_spec 0 (188 - off)); [lia|]|]. by apply put_sec_ok.
Qed.

Lemma sec_body_far p l off : trans_ok p -> 0 <= l < MAXFILT -> 188 <= off ->
  sec_body p l off = Crash \/ exists q, sec_body p l off = Ret (q, false) /\ trans_ok q /\ same_input p q.
Proof.
  intros Hp Hl Ho. unfold sec_body. destruct (get_sec_ok p l Hp Hl) as (s & -> & Hs & _). next.
  fold (sec_input p l s). destruct (sec_input_ok p l s Hp Hs) as (Hp0 & Hi0 & Hs0).
  destruct (sec_input p l s) as [p0 s0]. cbn [fst snd] in *. unfold sec_start.
  pose proof (to_packet p0 Hp0). destruct (sec_found s0 =? 0).
  - left. unfold load. destruct (in_range _ off 1) eqn:E; [apply in_range_true in E; lia|done].
  - next. destruct (sec_rest_far p0 l off s0 Hp0 Hl Ho Hs0) as [->|(q & -> & Hq & Hi)]; [by left|right].
    exists q. split; [done|]. split; [done|by etransitivity].
Qed.

Lemma sec_filter_sound fuel off : forall p l, trans_ok p -> 0 <= off -> 0 <= l < MAXFILT ->
  sound p (188 <= off) (sec_filter_within fuel p l off).
Proof.
  induction fuel as [|fuel IH]; intros p l Hp Ho Hl; [done|]. cbn [sec_filter_within].
  destruct (Z.ltb_spec l 0), (Z.geb_spec l MAXFILT); try lia. cbn [orb].
  destruct (Z.lt_ge_cases off 188).
  - destruct (sec_body_sound p l off) as (q & b & -> & Hq & Hi); [done..|]. next.
    destruct b; [|done]. eapply sound_from; [done|]. by apply IH.
  - destruct (sec_body_far p l off) as [->|(q & -> & Hq & Hi)]; done.
Qed.

(** ** PES filters *)
Definition pes_stored (p : trans) (l off : Z) : trans :=
  p <| tr_is_full := set_bit (tr_is_full p) l |>
    <| tr_transbuf := blit (tr_transbuf p) (188 * l) (sub (tr_packet p) off (188 - off)) |>
    <| tr_transcount := blit (tr_transcount p) l [188 - off] |>.

Lemma pes_filter_ok p l off : trans_ok p -> 0 <= l < MAXFILT -> 0 <= off ->
  pes_filter p l off =
  if pes_is_started p l then if off <=? 188 then Ret (pes_stored p l off) else Crash else Ret p.
Proof.
  unfold MAXFILT. intros Hp Hl Ho. unfold pes_filter, MAXFILT.
  destruct (Z.ltb_spec l 0), (Z.geb_spec l 32); try lia. cbn [orb].
  destruct (pes_is_started p l); [|done].
  pose proof (to_packet p Hp). pose proof (to_transbuf p Hp). pose proof (to_transcount p Hp). unfold MAXFILT in *.
  destruct (Z.leb_spec off 188).
  - change (tr_packet (_ <| tr_is_full := _ |>)) with (tr_packet p).
    change (tr_transbuf (_ <| tr_is_full := _ |>)) with (tr_transbuf p).
    change (tr_transcount (_ <| tr_is_full := _ |>)) with (tr_transcount p).
    rewrite memcpy_ok by lia. next. rewrite write_at_ok by (zsimpl; lia). next. done.
  - unfold memcpy, read_at. destruct (in_range _ off (188 - off)) eqn:E; [apply in_range_true in E; lia|done].
Qed.

Lemma pes_filter_sound p l off : trans_ok p -> 0 <= l < MAXFILT -> 0 <= off ->
  sound p (188 <= off) (pes_filter p l off).
Proof.
  intros Hp Hl Ho. rewrite pes_filter_ok by done. destruct (pes_is_started p l); [|done].
  destruct (Z.leb_spec off 188); [|cbn; lia]. split; [|by split].
  pose proof (to_packet p Hp). pose proof (to_transbuf p Hp). pose proof (to_transcount p Hp).
  pose proof (set_bit_tflags (tr_is_full p) l Hl (to_full p Hp)). unfold MAXFILT in *.
  destruct Hp. split; try done; cbn; zsimpl; lia.
Qed.

(** ** One packet *)

(** Where the payload of a packet starts. *)
Definition payload_offset (packet : list Z) : Z :=
  if flag (zn packet 3) ADAPT_FIELD then 5 + zn packet 4 else 4.

Definition packet_pid (packet : list Z) : Z := zn packet 1 mod 32 * 256 + zn packet 2.

(** The flags of a PES filter after the header of a packet. *)
Definition pes_flags (p : trans) (l cpid0 : Z) : trans :=
  if flag cpid0 PAY_START then
    p <| tr_pes_started := set_bit (tr_pes_started p) l |> <| tr_pes_start := set_bit (tr_pes_start p) l |>
  else p <| tr_pes_start := clear_bit (tr_pes_start p) l |>.

Lemma pes_flags_ok p l cpid0 : trans_ok p -> 0 <= l < MAXFILT ->
  trans_ok (pes_flags p l cpid0) /\ same_input p (pes_flags p l cpid0).
Proof.
  intros Hp Hl. unfold pes_flags. destruct (flag cpid0 PAY_START); (split; [|by split]).
  - pose proof (set_bit_tflags (tr_pes_started p) l Hl (to_started p Hp)).
    pose proof (set_bit_tflags (tr_pes_start p) l Hl (to_start p Hp)). by destruct Hp; split.
  - pose proof (clear_bit_tflags (tr_pes_start p) l (to_start p Hp)). by destruct Hp; split.
Qed.

Lemma filter_one_sound depth p l tpid cpid0 c : trans_ok p -> 0 <= l < MAXFILT -> 0 <= c ->
  sound p (188 <= c) (filter_one depth p l tpid cpid0 c).
Proof.
  intros Hp Hl Hc. unfold filter_one. destruct (filt_is_set p l); [|done].
  rewrite load_ok by (rewrite (to_pid p Hp); lia). next. destruct (_ =? tpid); [|done].
  destruct (pes_is_set p l).
  - cbv zeta. fold (pes_flags p l cpid0). destruct (pes_flags_ok p l cpid0 Hp Hl) as [H1 H2].
    eapply sound_from; [done|]. by apply pes_filter_sound.
  - by apply sec_filter_sound.
Qed.

Lemma filter_all_sound depth tpid cpid0 c n : forall p l, trans_ok p -> 0 <= l -> l + Z.of_nat n <= MAXFILT -> 0 <= c ->
  sound p (188 <= c) (filter_all depth n p l tpid cpid0 c).
Proof.
  induction n as [|n IH]; intros p l Hp Hl Hn Hc; [done|]. cbn [filter_all].
  apply sound_bind; [apply filter_one_sound; [done|lia|lia]|]. intros q Hq _. apply IH; [done|lia..].
Qed.

(** What [filter] does, with the header decoded. *)
Lemma filter_eq depth p : trans_ok p ->
  filter depth p = if flag (zn (tr_packet p) 3) PAYLOAD then
    filter_all depth (Z.to_nat MAXFILT) p 0 (packet_pid (tr_packet p)) (zn (tr_packet p) 1) (payload_offset (tr_packet p))
  else Ret p.
Proof.
  intros Hp. pose proof (to_packet p Hp) as Hz. pose proof (to_bytes p Hp) as Hb. unfold filter.
  pose proof (bytes_zn _ 1 Hb ltac:(lia)) as B1. pose proof (bytes_zn _ 2 Hb ltac:(lia)) as B2.
  unfold is_byte in B1, B2.
  rewrite !(load_ok (tr_packet p)) by lia. next. next. unfold get_pid. rewrite !load_ok by (zsimpl; lia). next. next. next. next.
  change (zn [?a; ?b] 0) with a. change (zn [?a; ?b] 1) with b. unfold PID_MASK_HI.
  change 0x1F with (Z.ones 5). rewrite land_mask, lor_bytes by (done || lia).
  pose proof (Z.mod_pos_bound (zn (tr_packet p) 1) (2 ^ 5) ltac:(lia)). unfold u16.
  rewrite (Z.mod_small (_ * 256 + _)) by lia. fold (packet_pid (tr_packet p)).
  unfold payload_offset. destruct (flag (zn (tr_packet p) 3) ADAPT_FIELD); next; [|done].
  by rewrite Z.sub_0_r.
Qed.

Lemma payload_offset_nonneg packet : bytes packet -> zlen packet = 188 -> 4 <= payload_offset packet.
Proof.
  intros Hb Hz. pose proof (bytes_zn packet 4 Hb ltac:(lia)) as B. unfold is_byte in B. unfold payload_offset.
  destruct (flag _ _); lia.
Qed.

Lemma filter_sound depth p : trans_ok p -> sound p (188 <= payload_offset (tr_packet p)) (filter depth p).
Proof.
  intros Hp. rewrite filter_eq by done. pose proof (payload_offset_nonneg _ (to_bytes p Hp) (to_packet p Hp)).
  destruct (flag _ PAYLOAD); [|done]. apply filter_all_sound; [done|lia| |lia]. done.
Qed.

(** ** The byte stream: one step per byte *)
Definition byte_step (depth : nat) (p : trans) (b : Z) : outcome trans :=
  if tr_found p <? 1 then
    let p := if b =? 0x47 then p <| tr_found := 1 |> else p in
    k ← write_at (tr_packet p) 0 [0x47];
    Ret (p <| tr_packet := k |>)
  else
    k ← write_at (tr_packet p) (tr_found p) [b];
    let p := p <| tr_packet := k |> <| tr_found := tr_found p + 1 |> in
    if tr_found p =? 188 then filter depth (p <| tr_found := 0 |>) else Ret p.

Fixpoint feed (depth : nat) (p : trans) (l : list Z) : outcome trans :=
  match l with [] => Ret p | b :: l => p ← byte_step depth p b; feed depth p l end.

Lemma feed_app depth l k : forall p, feed depth p (l ++ k) = q ← feed depth p l; feed depth q k.
Proof. induction l as [|b l IH]; intros p; [done|]. cbn. destruct (byte_step depth p b); cbn; auto. Qed.

Lemma set_packet_ok p k n : trans_ok p -> zlen k = 188 -> bytes k -> 0 <= n < 188 ->
  trans_ok (p <| tr_packet := k |> <| tr_found := n |>).
Proof. intros [] ? ? ?. by split. Qed.

Lemma blit_byte_ok l i b : zlen l = 188 -> bytes l -> is_byte b -> 0 <= i < 188 ->
  zlen (blit l i [b]) = 188 /\ bytes (blit l i [b]).
Proof.
  intros. split; [zsimpl; lia|]. apply bytes_blit; [done|]. by apply bytes_cons; [|apply bytes_nil].
Qed.

Lemma byte_step_sync depth p b : trans_ok p -> is_byte b -> tr_found p = 0 ->
  exists q, byte_step depth p b = Ret q /\ trans_ok q /\
    q = (p <| tr_packet := blit (tr_packet p) 0 [0x47] |> <| tr_found := if b =? 0x47 then 1 else 0 |>).
Proof.
  intros Hp Hb Hf. unfold byte_step. rewrite Hf. change (0 <? 1) with true. cbv iota zeta.
  destruct (blit_byte_ok (tr_packet p) 0 0x47 (to_packet p Hp) (to_bytes p Hp)) as [H1 H2]; [done|lia|].
  eexists. split; [|split; [|reflexivity]].
  - replace (tr_packet (if b =? 0x47 then _ else p)) with (tr_packet p) by (by destruct (b =? 0x47)).
    pose proof (to_packet p Hp). rewrite write_at_ok by (zsimpl; lia). next.
    destruct (b =? 0x47); [done|]. rewrite <- Hf. by destruct p.
  - apply set_packet_ok; [done..|]. destruct (b =? 0x47); lia.
Qed.

Lemma find_sync_ok depth buf n : forall o p, trans_ok p -> bytes buf -> 0 <= o -> o + Z.of_nat n <= zlen buf ->
  exists q k, find_sync n buf o p = Ret (q, o + k) /\ trans_ok q /\ 0 <= k <= Z.of_nat n /\
    feed depth p (sub buf o (Z.of_nat n)) = feed depth q (sub buf (o + k) (Z.of_nat n - k)) /\
    (tr_found q = 0 -> k = Z.of_nat n).
Proof.
  induction n as [|n IH]; intros o p Hp Hb Ho Hz.
  { exists p, 0. rewrite !Z.add_0_r. split; [done|]. split; [done|]. split; [lia|]. done. }
  cbn [find_sync]. destruct (Z.ltb_spec (tr_found p) 1) as [Hf|Hf].
  - assert (Hf0 : tr_found p = 0) by (pose proof (to_found p Hp); lia).
    rewrite load_ok by lia. next. pose proof (bytes_zn buf o Hb ltac:(lia)) as B.
    destruct (byte_step_sync depth p (zn buf o) Hp B Hf0) as (q & E & Hq & Eq).
    assert (Ew : write_at (tr_packet (if zn buf o =? 0x47 then p <| tr_found := 1 |> else p)) 0 [0x47] = Ret (tr_packet q)).
    { replace (tr_packet (if zn buf o =? 0x47 then _ else p)) with (tr_packet p) by (by destruct (_ =? _)).
      pose proof (to_packet p Hp). rewrite write_at_ok by (zsimpl; lia). by rewrite Eq. }
    rewrite Ew. next.
    replace ((if zn buf o =? 0x47 then p <| tr_found := 1 |> else p) <| tr_packet := tr_packet q |>) with q.
    2: { rewrite Eq. destruct (zn buf o =? 0x47); [done|]. rewrite <- Hf0. by destruct p. }
    destruct (IH (o + 1) q Hq Hb ltac:(lia) ltac:(lia)) as (q' & k & E' & Hq' & Hk & Hfd & Hn).
    exists q', (1 + k). rewrite E'. replace (o + 1 + k) with (o + (1 + k)) by lia.
    split; [done|]. split; [done|]. split; [lia|]. split; [|intros H0; specialize (Hn H0); lia].
    rewrite sub_cons by lia. cbn [feed]. rewrite E. next.
    replace (Z.of_nat (S n) - 1) with (Z.of_nat n) by lia. rewrite Hfd.
    f_equal. f_equal; lia.
  - exists p, 0. rewrite Z.add_0_r, Z.sub_0_r. split; [done|]. split; [done|]. split; [lia|]. split; [done|lia].
Qed.

(** The packet is delivered when it is full. *)
Definition deliver (depth : nat) (p : trans) : outcome trans :=
  if tr_found p =? 188 then filter depth (p <| tr_found := 0 |>) else Ret p.

Lemma fill_packet_ok depth buf n : forall o p, trans_ok p -> bytes buf -> 0 <= o -> o + Z.of_nat n <= zlen buf ->
  1 <= tr_found p ->
  exists q k, fill_packet n buf o p = Ret (q, o + k) /\ 0 <= k <= Z.of_nat n /\
    trans_ok (q <| tr_found := 0 |>) /\
    feed depth p (sub buf o (Z.of_nat n)) = (r ← deliver depth q; feed depth r (sub buf (o + k) (Z.of_nat n - k))) /\
    (tr_found q = 188 \/ k = Z.of_nat n /\ trans_ok q) /\ ((0 < n)%nat -> 0 < k).
Proof.
  induction n as [|n IH]; intros o p Hp Hb Ho Hz Hf; pose proof (to_found p Hp) as Hr.
  { exists p, 0. rewrite !Z.add_0_r. split; [done|]. split; [lia|]. split; [by destruct Hp; split|].
    unfold deliver. destruct (Z.eqb_spec (tr_found p) 188); [lia|]. split; [done|]. split; [by right|lia]. }
  cbn [fill_packet]. destruct (Z.ltb_spec (tr_found p) 188), (Z.gtb_spec (tr_found p) 0); try lia. cbn [andb].
  rewrite load_ok by lia. next. pose proof (bytes_zn buf o Hb ltac:(lia)) as B. pose proof (to_packet p Hp).
  rewrite write_at_ok by (zsimpl; lia). next.
  destruct (blit_byte_ok (tr_packet p) (tr_found p) (zn buf o) (to_packet p Hp) (to_bytes p Hp) B) as [H1' H2']; [lia|].
  assert (Es : byte_step depth p (zn buf o) = deliver depth (p <| tr_packet := blit (tr_packet p) (tr_found p) [zn buf o] |>
    <| tr_found := tr_found p + 1 |>)).
  { unfold byte_step. destruct (Z.ltb_spec (tr_found p) 1); [lia|]. rewrite write_at_ok by (zsimpl; lia). next. done. }
  set (q := p <| tr_packet := _ |> <| tr_found := _ |>) in *.
  assert (Hq0 : trans_ok (q <| tr_found := 0 |>)) by (apply (set_packet_ok p _ 0); [done..|lia]).
  rewrite sub_cons by lia. cbn [feed]. rewrite Es. replace (Z.of_nat (S n) - 1) with (Z.of_nat n) by lia.
  assert (Eq : tr_found q = tr_found p + 1) by done.
  destruct (Z.eqb_spec (tr_found q) 188) as [Efull|Efull].
  - exists q, 1. split; [destruct n; cbn [fill_packet]; rewrite ?Efull; done|]. split; [lia|]. split; [done|].
    split; [|split; [by left|lia]]. by replace (Z.of_nat (S n) - 1) with (Z.of_nat n) by lia.
  - assert (Hq : trans_ok q) by (apply set_packet_ok; [done..|lia]).
    destruct (IH (o + 1) q Hq Hb ltac:(lia) ltac:(lia) ltac:(lia)) as (q' & k & E' & Hk & Hq' & Hfd & Hor & Hpos).
    exists q', (1 + k). rewrite E'. replace (o + 1 + k) with (o + (1 + k)) by lia.
    split; [done|]. split; [lia|]. split; [done|]. split; [|split; [|lia]].
    + unfold deliver at 1. destruct (Z.eqb_spec (tr_found q) 188); [lia|]. next. rewrite Hfd.
      replace (o + 1 + k) with (o + (1 + k)) by lia.
      by replace (Z.of_nat n - k) with (Z.of_nat (S n) - (1 + k)) by lia.
    + destruct Hor as [|[? ?]]; [by left|right]. split; [lia|done].
Qed.

Lemma deliver_sound depth q r : trans_ok (q <| tr_found := 0 |>) ->
  tr_found q = 188 \/ trans_ok q -> deliver depth q = Ret r -> trans_ok r.
Proof.
  intros Hq Hor E. unfold deliver in E. destruct (Z.eqb_spec (tr_found q) 188).
  - pose proof (filter_sound depth _ Hq) as H. rewrite E in H. apply H.
  - injection E as <-. by destruct Hor.
Qed.

Lemma trans_filt_from_feed depth buf count fuel : forall o p, trans_ok p -> bytes buf -> 0 <= o -> o <= count ->
  count <= zlen buf -> count - o <= Z.of_nat fuel ->
  trans_filt_from depth fuel buf o count p = feed depth p (sub buf o (count - o)).
Proof.
  induction fuel as [|fuel IH]; intros o p Hp Hb Ho Hoc Hc Hf; cbn [trans_filt_from].
  all: destruct (find_sync_ok depth buf (Z.to_nat (count - o)) o p) as (q & k & -> & Hq & Hk & Hfd & Hn); [done..|lia|].
  all: rewrite Z2Nat.id in * by lia; next; rewrite Hfd.
  all: destruct (Z.eqb_spec (o + k) count) as [E|E]; [replace (count - o - k) with 0 by lia; by rewrite sub_0|].
  { lia. }
  destruct (Z.eq_dec (tr_found q) 0) as [H0|H0]; [specialize (Hn H0); lia|].
  destruct (fill_packet_ok depth buf (Z.to_nat (count - (o + k))) (o + k) q) as (r & m & -> & Hm & Hr & Hfd2 & Hor & Hpos);
    [done..|lia|lia|pose proof (to_found q Hq); lia|].
  rewrite Z2Nat.id in * by lia. next. fold (deliver depth r).
  replace (count - o - k) with (count - (o + k)) by lia. rewrite Hfd2.
  pose proof (fun x => deliver_sound depth r x Hr ltac:(destruct Hor as [|[_ ?]]; auto)) as Hd.
  destruct (deliver depth r) as [x| |]; [|done..]. next.
  destruct (Z.ltb_spec (o + k + m) count).
  - rewrite IH; [by replace (count - (o + k) - m) with (count - (o + k + m)) by lia|auto|done|lia..].
  - replace (count - (o + k) - m) with 0 by lia. by rewrite sub_0.
Qed.

Lemma byte_step_sound depth p b q : trans_ok p -> is_byte b -> byte_step depth p b = Ret q -> trans_ok q.
Proof.
  intros Hp Hb E. destruct (Z.eq_dec (tr_found p) 0) as [Hf|Hf].
  - destruct (byte_step_sync depth p b Hp Hb Hf) as (q' & E' & Hq' & _). congruence.
  - pose proof (to_found p Hp). pose proof (to_packet p Hp).
    destruct (blit_byte_ok (tr_packet p) (tr_found p) b (to_packet p Hp) (to_bytes p Hp) Hb) as [H1 H2]; [lia|].
    unfold byte_step in E. destruct (Z.ltb_spec (tr_found p) 1); [lia|].
    rewrite write_at_ok in E by (zsimpl; lia). rewrite bind_Ret in E. cbv zeta in E.
    apply (deliver_sound depth) in E; [done|by apply (set_packet_ok p _ 0); [..|lia]|].
    cbn [tr_found set]. destruct (Z.eq_dec (tr_found p + 1) 188); [by left|right].
    apply set_packet_ok; [done..|lia].
Qed.

Lemma feed_sound depth l : forall p q, trans_ok p -> bytes l -> feed depth p l = Ret q -> trans_ok q.
Proof.
  induction l as [|b l IH]; intros p q Hp Hl E; [by injection E as <-|]. cbn [feed] in E.
  apply Forall_cons in Hl as [Hb Hl]. destruct (byte_step depth p b) as [x| |] eqn:Ex; [|done..].
  apply (IH x q); [|done|done]. by apply byte_step_sound in Ex.
Qed.

Lemma trans_filt_feed depth l p : trans_ok p -> bytes l -> trans_filt depth l (zlen l) p = feed depth p l.
Proof.
  intros Hp Hl. pose proof (zlen_nonneg l). unfold trans_filt. rewrite trans_filt_from_feed by (done || lia).
  by rewrite Z.sub_0_r, sub_all by lia.
Qed.

(** [trans_filt] does not see how its caller cuts the stream into pieces: it
    is the machine that takes one byte after the other, and two calls on the
    pieces of a buffer do what one call on the whole does. *)
Theorem trans_filt_pieces depth p a b :
  trans_ok p -> bytes a -> bytes b ->
  trans_filt depth a (zlen a) p = feed depth p a /\
  trans_filt depth (a ++ b) (zlen (a ++ b)) p =
    (q ← trans_filt depth a (zlen a) p; trans_filt depth b (zlen b) q).
Proof.
  intros Hp Ha Hb. split; [by apply trans_filt_feed|].
  rewrite !trans_filt_feed, feed_app by (done || by apply bytes_app).
  destruct (feed depth p a) as [q| |] eqn:E; [|done..]. next. symmetry.
  apply trans_filt_feed; [|done]. by apply (feed_sound depth a p).
Qed.

(** ** Aligned packets *)
Lemma feed_packet depth p l : trans_ok p -> bytes l -> 1 <= tr_found p -> tr_found p + zlen l = 188 ->
  feed depth p l = filter depth (p <| tr_packet := ztake (tr_found p) (tr_packet p) ++ l |> <| tr_found := 0 |>).
Proof.
  revert p. induction l as [|b l IH]; intros p Hp Hl Hf Hz.
  { pose proof (to_found p Hp). rewrite zlen_nil in Hz. lia. }
  apply Forall_cons in Hl as [Hb Hl]. rewrite zlen_cons in Hz. pose proof (zlen_nonneg l). pose proof (to_packet p Hp).
  destruct (blit_byte_ok (tr_packet p) (tr_found p) b (to_packet p Hp) (to_bytes p Hp) Hb) as [H1 H2]; [lia|].
  cbn [feed]. unfold byte_step. destruct (Z.ltb_spec (tr_found p) 1); [lia|].
  rewrite write_at_ok by (zsimpl; lia). next. cbv zeta.
  set (q := p <| tr_packet := _ |> <| tr_found := _ |>).
  change (tr_found q) with (tr_found p + 1).
  destruct (Z.eqb_spec (tr_found p + 1) 188) as [E|E].
  - destruct l; [|rewrite zlen_cons in Hz; pose proof (zlen_nonneg l); lia]. cbn [feed].
    rewrite MpegIO.bind_ret_r. f_equal. unfold q, set. cbn. f_equal. unfold blit.
    f_equal. unfold zdrop. change (zlen [b]) with 1. rewrite drop_ge by (unfold zlen in *; lia). done.
  - next. assert (Hq : trans_ok q) by (apply set_packet_ok; [done..|lia]).
    rewrite IH; [|done|done|cbn; lia|cbn; lia]. f_equal. unfold q, set. cbn. f_equal.
    rewrite <- sub_from_0. rewrite (sub_split _ 0 (tr_found p) 1) by lia.
    rewrite sub_blit_before by (rewrite ?zlen_cons, ?zlen_nil; lia). rewrite <- app_assoc. rewrite sub_from_0. f_equal.
    rewrite Z.add_0_l. change 1 with (zlen [b]) at 1.
    rewrite sub_blit_eq by (rewrite ?zlen_cons, ?zlen_nil; lia). done.
Qed.

Definition is_ts_packet (k : list Z) : Prop := zlen k = 188 /\ bytes k /\ zn k 0 = 0x47.

(** One packet. *)
Lemma feed_one depth p k : trans_ok p -> tr_found p = 0 -> is_ts_packet k ->
  feed depth p k = filter depth (p <| tr_packet := k |>) /\ trans_ok (p <| tr_packet := k |>).
Proof.
  intros Hp Hf (Hz & Hk & Hs). destruct k as [|b k]; [done|]. rewrite zn_0 in Hs. subst b. rewrite zlen_cons in Hz.
  apply Forall_cons in Hk as [Hb Hk]. cbn [feed].
  destruct (byte_step_sync depth p 0x47 Hp Hb Hf) as (q & -> & Hq & Eq). next.
  change (0x47 =? 0x47) with true in Eq. cbv iota in Eq. pose proof (to_packet p Hp).
  assert (Ef : tr_found q = 1) by (by rewrite Eq).
  rewrite feed_packet by (done || lia). rewrite Ef.
  replace (q <| tr_packet := _ |> <| tr_found := 0 |>) with (p <| tr_packet := 0x47 :: k |>).
  2: { rewrite Eq. unfold set. cbn. rewrite Hf. f_equal. }
  split; [done|]. pose proof (to_found p Hp). rewrite <- (zlen_cons 0x47 k) in Hz.
  destruct Hp. split; try done. by apply bytes_cons.
Qed.

Lemma trans_filt_one depth p k : trans_ok p -> tr_found p = 0 -> is_ts_packet k ->
  trans_filt depth k 188 p = filter depth (p <| tr_packet := k |>).
Proof.
  intros Hp Hf Hk. rewrite <- (proj1 (feed_one depth p k Hp Hf Hk)). destruct Hk as (Hz & Hb & _).
  rewrite <- Hz. by apply trans_filt_feed.
Qed.

Fixpoint filter_packets (depth : nat) (p : trans) (l : list (list Z)) : outcome trans :=
  match l with
  | [] => Ret p
  | k :: l => p ← filter depth (p <| tr_packet := k |>); filter_packets depth p l
  end.

(** C27: on a stream of whole packets [trans_filt] is [filter] on one packet after
    the other. *)
Theorem trans_filt_packets depth p l :
  trans_ok p -> tr_found p = 0 -> Forall is_ts_packet l ->
  trans_filt depth (mjoin l) (zlen (mjoin l)) p = filter_packets depth p l.
Proof.
  intros Hp Hf Hl. rewrite trans_filt_feed; [|done|].
  2: { induction Hl as [|k l (_ & Hk & _) _ IH]; [apply bytes_nil|]. by apply bytes_app. }
  revert p Hp Hf. induction Hl as [|k l (Hz & Hk & Hs) Hl IH]; intros p Hp Hf; [done|].
  change (mjoin (k :: l)) with (k ++ mjoin l). cbn [filter_packets]. rewrite feed_app.
  destruct (feed_one depth p k Hp Hf) as [-> Hpk]; [done|].
  pose proof (filter_sound depth _ Hpk) as Hr. destruct (filter depth _) as [r| |]; [|done..]. next.
  destruct Hr as [Hr Hi]. apply IH; [done|]. by rewrite (si_found _ _ Hi).
Qed.

(** ** PES data *)

(** What filter [l] has collected is the same in both states. *)
Record undisturbed (l : Z) (p q : trans) : Prop := {
  un_ready : filt_is_ready q l = filt_is_ready p l;
  un_start : pes_is_start q l = pes_is_start p l;
  un_started : pes_is_started q l = pes_is_started p l;
  un_count : sub (tr_transcount q) l 1 = sub (tr_transcount p) l 1;
  un_data : sub (tr_transbuf q) (188 * l) 188 = sub (tr_transbuf p) (188 * l) 188 }.

#[export] Instance undisturbed_preorder l : PreOrder (undisturbed l).
Proof. split; [by constructor|]. intros p q r [] []. split; congruence. Qed.

Definition serves (p : trans) (l : Z) : bool :=
  filt_is_set p l && (zn (tr_pid p) l =? packet_pid (tr_packet p)).

(** Filter [l] after a packet of its PID. *)
Definition pes_served (l : Z) (p q : trans) : Prop :=
  let pusi := flag (zn (tr_packet p) 1) PAY_START in
  let started := pusi || pes_is_started p l in
  let off := payload_offset (tr_packet p) in
  pes_is_start q l = pusi /\ pes_is_started q l = started /\
  if started then
    filt_is_ready q l = true /\ sub (tr_transcount q) l 1 = [188 - off] /\
    sub (tr_transbuf q) (188 * l) (188 - off) = sub (tr_packet p) off (188 - off)
  else filt_is_ready q l = filt_is_ready p l.

Lemma pes_flags_bits p l k : 0 <= l < MAXFILT -> 0 <= k < MAXFILT ->
  let pusi := flag (zn (tr_packet p) 1) PAY_START in
  let q := pes_flags p l (zn (tr_packet p) 1) in
  pes_is_start q k = (if l =? k then pusi else pes_is_start p k) /\
  pes_is_started q k = (if l =? k then pusi || pes_is_started p k else pes_is_started p k) /\
  tr_is_full q = tr_is_full p /\ tr_transcount q = tr_transcount p /\ tr_transbuf q = tr_transbuf p.
Proof.
  intros Hl Hk pusi q. unfold q, pes_flags. fold pusi. unfold pes_is_start, pes_is_started.
  destruct pusi; cbn; rewrite ?is_set_set, ?is_set_clear by done; by destruct (Z.eqb_spec l k).
Qed.

Lemma pes_stored_other p l k off : trans_ok p -> 0 <= l < MAXFILT -> 0 <= k < MAXFILT -> k <> l -> 0 <= off <= 188 ->
  undisturbed k p (pes_stored p l off).
Proof.
  intros Hp Hl Hk Hn Ho. pose proof (to_packet p Hp). pose proof (to_transbuf p Hp). pose proof (to_transcount p Hp).
  unfold MAXFILT in *. split; try done.
  - unfold filt_is_ready. cbn. rewrite is_set_set by done. by destruct (Z.eqb_spec l k); [lia|].
  - cbn. destruct (Z.lt_ge_cases k l); [apply sub_blit_before|apply sub_blit_after]; zsimpl; lia.
  - cbn. destruct (Z.lt_ge_cases k l); [apply sub_blit_before|apply sub_blit_after]; zsimpl; lia.
Qed.

Lemma filter_one_pes depth p l : trans_ok p -> 0 <= l < MAXFILT -> payload_offset (tr_packet p) <= 188 ->
  (serves p l = true -> pes_is_set p l = true) ->
  exists q, filter_one depth p l (packet_pid (tr_packet p)) (zn (tr_packet p) 1) (payload_offset (tr_packet p)) = Ret q /\
    trans_ok q /\ same_input p q /\
    (forall k, 0 <= k < MAXFILT -> k <> l \/ serves p l = false -> undisturbed k p q) /\
    (serves p l = true -> pes_served l p q).
Proof.
  intros Hp Hl Ho Hs. unfold filter_one. unfold serves in *.
  rewrite load_ok by (rewrite (to_pid p Hp); lia).
  destruct (filt_is_set p l); cbn [andb] in *; [|exists p; do 4 (split; [done|]); done].
  next. destruct (_ =? packet_pid _); [|exists p; do 4 (split; [done|]); done]. rewrite Hs by done. cbv zeta.
  pose proof (payload_offset_nonneg _ (to_bytes p Hp) (to_packet p Hp)) as Hnn.
  set (off := payload_offset (tr_packet p)) in *. fold (pes_flags p l (zn (tr_packet p) 1)).
  destruct (pes_flags_ok p l (zn (tr_packet p) 1) Hp Hl) as [Hq Hi].
  pose proof (fun k => pes_flags_bits p l k Hl) as Hbits. cbv zeta in Hbits.
  set (q := pes_flags p l (zn (tr_packet p) 1)) in *.
  assert (Hoth : forall k, 0 <= k < MAXFILT -> k <> l -> undisturbed k p q).
  { intros k Hk Hn. destruct (Hbits k Hk) as (E1 & E2 & E3 & E4 & E5).
    destruct (Z.eqb_spec l k); [lia|]. split; unfold filt_is_ready; congruence. }
  destruct (Hbits l Hl) as (E1 & E2 & E3 & E4 & E5). rewrite Z.eqb_refl in E1, E2.
  rewrite (pes_filter_ok q l off) by (done || lia). rewrite E2. unfold pes_served. fold off.
  destruct (flag (zn (tr_packet p) 1) PAY_START || pes_is_started p l) eqn:Es.
  - destruct (Z.leb_spec off 188); [|lia]. exists (pes_stored q l off). split; [done|].
    assert (Hst : trans_ok (pes_stored q l off) /\ same_input q (pes_stored q l off)).
    { pose proof (pes_filter_sound q l off Hq Hl ltac:(lia)) as Hsd. rewrite (pes_filter_ok q l off) in Hsd by (done || lia).
      rewrite E2 in Hsd. by destruct (Z.leb_spec off 188); [|lia]. }
    destruct Hst as [Hst1 Hst2]. split; [done|]. split; [by etransitivity|]. split.
    + intros k Hk [Hn|Hn]; [|done]. etransitivity; [by apply Hoth|]. apply pes_stored_other; try done; lia.
    + intros _. split; [done|]. split; [done|]. pose proof (to_transbuf q Hq). pose proof (to_transcount q Hq).
      pose proof (to_packet q Hq). unfold MAXFILT in *. cbn. split.
      { unfold filt_is_ready. cbn. rewrite is_set_set by done. by rewrite Z.eqb_refl. }
      rewrite (si_packet _ _ Hi) in *. split.
      * change 1 with (zlen [188 - off]). apply sub_blit_eq; zsimpl; lia.
      * replace (188 - off) with (zlen (sub (tr_packet p) off (188 - off))) at 2 by (zsimpl; lia).
        apply sub_blit_eq; zsimpl; lia.
  - exists q. split; [done|]. split; [done|]. split; [done|]. split.
    + intros k Hk [Hn|Hn]; [by apply Hoth|done].
    + intros _. split; [done|]. split; [done|]. unfold filt_is_ready. by rewrite E3.
Qed.

Lemma serves_same p q l : same_input p q -> serves q l = serves p l.
Proof. intros []. unfold serves, filt_is_set. congruence. Qed.

Lemma pes_served_undisturbed l p q r : 4 <= payload_offset (tr_packet p) ->
  pes_served l p q -> undisturbed l q r -> pes_served l p r.
Proof.
  intros Ho Hv [U1 U2 U3 U4 U5]. unfold pes_served in *. rewrite U1, U2, U3, U4.
  destruct (_ || _); [|done]. destruct Hv as (V1 & V2 & V3 & V4 & V5). do 4 (split; [done|]). rewrite <- V5.
  set (n := 188 - payload_offset (tr_packet p)) in *. assert (n <= 188) by (unfold n; lia).
  assert (S : forall b : list Z, sub b (188 * l) n = sub (sub b (188 * l) 188) 0 n).
  { intros b. destruct (Z.lt_ge_cases n 0); [by rewrite !sub_neg by lia|].
    rewrite sub_from_0. unfold sub, ztake. by rewrite take_take, Nat.min_l by lia. }
  by rewrite S, U5, <- S.
Qed.

Lemma filter_all_pes depth n : forall p l, trans_ok p -> 0 <= l -> l + Z.of_nat n <= MAXFILT ->
  payload_offset (tr_packet p) <= 188 ->
  (forall k, l <= k < l + Z.of_nat n -> serves p k = true -> pes_is_set p k = true) ->
  exists q, filter_all depth n p l (packet_pid (tr_packet p)) (zn (tr_packet p) 1) (payload_offset (tr_packet p)) = Ret q /\
    trans_ok q /\ same_input p q /\
    (forall k, 0 <= k < MAXFILT -> k < l \/ l + Z.of_nat n <= k \/ serves p k = false -> undisturbed k p q) /\
    (forall k, l <= k < l + Z.of_nat n -> serves p k = true -> pes_served k p q).
Proof.
  induction n as [|n IH]; intros p l Hp Hl Hn Ho Hs; cbn [filter_all]; [exists p; do 4 (split; [done|]); lia|].
  destruct (filter_one_pes depth p l Hp ltac:(lia) Ho) as (q & -> & Hq & Hi & Hu & Hv); [apply Hs; lia|]. next.
  rewrite <- (si_packet _ _ Hi) in *.
  destruct (IH q (l + 1) Hq ltac:(lia) ltac:(lia) Ho) as (r & -> & Hr & Hir & Hur & Hvr).
  { intros k Hk. rewrite (serves_same p q) by done. unfold pes_is_set. rewrite (si_pes _ _ Hi). apply Hs. lia. }
  exists r. split; [done|]. split; [done|]. split; [by etransitivity|]. split.
  - intros k Hk Hout. etransitivity.
    + apply Hu; [done|]. destruct (Z.eq_dec k l) as [->|]; [|by left]. right. destruct Hout as [|[|]]; [lia|lia|done].
    + apply Hur; [done|]. rewrite (serves_same p q) by done.
      destruct Hout as [|[|]]; [left; lia|right; left; lia|by right; right].
  - intros k Hk Hsk. destruct (Z.eq_dec k l) as [->|Hkl].
    + apply (pes_served_undisturbed l p q r); [by apply payload_offset_nonneg; apply Hp|auto|]. apply Hur; [lia|left; lia].
    + rewrite <- (serves_same p q) in Hsk by done. pose proof (Hvr k ltac:(lia) Hsk) as V.
      pose proof (Hu k ltac:(lia) ltac:(by left)) as [U1 U2 U3 _ _].
      unfold pes_served in *. by rewrite U1, U3, (si_packet _ _ Hi) in V.
Qed.

Lemma filter_pes depth p : trans_ok p -> flag (zn (tr_packet p) 3) PAYLOAD = true ->
  payload_offset (tr_packet p) <= 188 ->
  (forall k, 0 <= k < MAXFILT -> serves p k = true -> pes_is_set p k = true) ->
  exists q, filter depth p = Ret q /\ trans_ok q /\ same_input p q /\
    forall l, 0 <= l < MAXFILT -> if serves p l then pes_served l p q else undisturbed l p q.
Proof.
  intros Hp Hf Ho Hs. rewrite filter_eq, Hf by done.
  destruct (filter_all_pes depth (Z.to_nat MAXFILT) p 0) as (q & -> & Hq & Hi & Hu & Hv); [done|done|done|done|exact Hs|].
  exists q. split; [done|]. split; [done|]. split; [done|]. intros l Hl.
  destruct (serves p l) eqn:E; [by apply Hv|]. apply Hu; [done|]. by right; right.
Qed.

(** What PES filters receive: a packet with a payload leaves every filter of its
    PID, once a packet that starts a PES packet was seen, ready with exactly the
    bytes behind the adaptation field and the mark whether a PES packet starts;
    the other filters keep what they have. *)
Theorem filter_pes_payload depth p l :
  trans_ok p -> 0 <= l < MAXFILT -> flag (zn (tr_packet p) 3) PAYLOAD = true ->
  payload_offset (tr_packet p) <= 188 ->
  (forall k, 0 <= k < MAXFILT -> serves p k = true -> pes_is_set p k = true) ->
  exists q, filter depth p = Ret q /\ trans_ok q /\ same_input p q /\
    if serves p l then pes_served l p q else undisturbed l p q.
Proof.
  intros Hp Hl Hf Ho Hs. destruct (filter_pes depth p) as (q & E & Hq & Hi & Hv); [done..|].
  exists q. do 3 (split; [done|]). by apply Hv.
Qed.

Lemma filter_all_split depth tpid b c n m : forall p l,
  filter_all depth (n + m) p l tpid b c = q ← filter_all depth n p l tpid b c; filter_all depth m q (l + Z.of_nat n) tpid b c.
Proof.
  induction n as [|n IH]; intros p l; [cbn; by rewrite Z.add_0_r|]. cbn [Nat.add filter_all].
  destruct (filter_one depth p l tpid b c); [|done..]. rewrite !bind_Ret, IH. cbv beta.
  destruct (filter_all depth n a (l + 1) tpid b c); [|done..]. rewrite !bind_Ret. f_equal. lia.
Qed.

Lemma filter_one_idle depth p l b c : trans_ok p -> 0 <= l < MAXFILT -> serves p l = false ->
  filter_one depth p l (packet_pid (tr_packet p)) b c = Ret p.
Proof.
  intros Hp Hl. unfold filter_one, serves. rewrite load_ok by (rewrite (to_pid p Hp); lia).
  destruct (filt_is_set p l); [|done]. cbn [andb]. intros E. next. by rewrite E.
Qed.

Lemma filter_all_idle depth n p b c : trans_ok p -> forall l, 0 <= l -> l + Z.of_nat n <= MAXFILT ->
  (forall k, l <= k < l + Z.of_nat n -> serves p k = false) ->
  filter_all depth n p l (packet_pid (tr_packet p)) b c = Ret p.
Proof.
  intros Hp. induction n as [|n IH]; intros l Hl Hn Hs; [done|]. cbn [filter_all].
  rewrite filter_one_idle by (done || lia || apply Hs; lia). next. apply IH; [lia..|]. intros k Hk. apply Hs. lia.
Qed.

(** The length of the adaptation field is not checked: a packet of the PID of
    a running PES filter whose adaptation field is longer than the packet makes
    [pes_filter] copy a negative number of bytes. *)
Theorem filter_long_adaptation depth p l :
  trans_ok p -> 0 <= l < MAXFILT -> flag (zn (tr_packet p) 3) PAYLOAD = true ->
  188 < payload_offset (tr_packet p) ->
  (forall k, 0 <= k < MAXFILT -> serves p k = (k =? l)) -> pes_is_set p l = true ->
  flag (zn (tr_packet p) 1) PAY_START || pes_is_started p l = true ->
  filter depth p = Crash.
Proof.
  intros Hp Hl Hf Ho Hs Hpes Hst. rewrite filter_eq, Hf by done.
  replace (Z.to_nat MAXFILT) with (Z.to_nat l + (1 + (Z.to_nat MAXFILT - Z.to_nat l - 1)))%nat by lia.
  rewrite filter_all_split, filter_all_idle by (done || lia || (intros k Hk; rewrite Hs; unfold MAXFILT in *; lia)). next.
  cbn [Nat.add filter_all]. replace (0 + Z.of_nat (Z.to_nat l)) with l by lia.
  pose proof (Hs l Hl) as Hsl. rewrite Z.eqb_refl in Hsl. unfold serves in Hsl. apply andb_true_iff in Hsl as [H1 H2].
  unfold filter_one. rewrite H1, load_ok by (rewrite (to_pid p Hp); lia). next. rewrite H2, Hpes. cbv zeta.
  fold (pes_flags p l (zn (tr_packet p) 1)). destruct (pes_flags_ok p l (zn (tr_packet p) 1) Hp Hl) as [Hq Hi].
  rewrite pes_filter_ok by (done || lia). destruct (pes_flags_bits p l l Hl Hl) as (_ & E & _).
  rewrite Z.eqb_refl in E. rewrite E, Hst. by destruct (Z.leb_spec (payload_offset (tr_packet p)) 188); [lia|].
Qed.

(** ** Every operation keeps the structure well-formed *)

(** A structure in memory before its initialisation: arrays of the right size
    with whatever bytes they hold. *)
Record trans_memory (p : trans) : Prop := {
  tm_packet : zlen (tr_packet p) = 188;
  tm_bytes : bytes (tr_packet p);
  tm_pid : zlen (tr_pid p) = MAXFILT;
  tm_transbuf : zlen (tr_transbuf p) = 188 * MAXFILT;
  tm_transcount : zlen (tr_transcount p) = MAXFILT;
  tm_sections : zlen (tr_sec p) = MAXFILT;
  tm_payload : Forall (fun s => zlen (sec_payload s) = 4096 + 3 /\ bytes (sec_payload s)) (tr_sec p) }.

Lemma init_trans_ok p : trans_memory p -> trans_ok (init_trans p).
Proof.
  intros []. split; cbn; try done; try (by zsimpl); try (by apply bytes_replicate).
  - unfold zlen. by rewrite length_fmap.
  - apply Forall_fmap. eapply Forall_impl; [done|]. intros s [H1 H2]. by split; cbn.
Qed.

Lemma set_trans_filt_ok p l pid mask filt pes :
  trans_ok p -> zlen mask = MASKL -> zlen filt = MASKL -> bytes mask -> bytes filt -> 0 <= l < MAXFILT ->
  exists q, set_trans_filt p l pid mask filt pes = Ret (q, 0) /\ trans_ok q /\
    filt_is_set q l = true /\ pes_is_set q l = negb (pes =? 0).
Proof.
  unfold MASKL, MAXFILT. intros Hp Hm Hf Bm Bf Hl. unfold set_trans_filt, MAXFILT, MASKL.
  destruct (Z.gtb_spec l (32 - 1)), (Z.ltb_spec l 0); try lia. cbn [orb].
  pose proof (to_pid p Hp) as Hpid. pose proof (to_mask p Hp) as Hma. pose proof (to_filt p Hp) as Hfi. unfold MASKL, MAXFILT in *.
  rewrite write_at_ok by (zsimpl; lia). next.
  pose proof (set_bit_tflags (tr_set p) l Hl (to_set p Hp)).
  pose proof (set_bit_tflags (tr_pes p) l Hl (to_pes p Hp)).
  pose proof (clear_bit_tflags (tr_pes p) l (to_pes p Hp)).
  destruct (Z.eqb_spec pes 0); cbn [negb].
  - change (tr_mask (_ <| tr_pid := _ |> <| tr_pes := _ |>)) with (tr_mask p).
    change (tr_filt (_ <| tr_pid := _ |> <| tr_pes := _ |>)) with (tr_filt p).
    rewrite memcpy_ok by lia. cbn [mbind outcome_bind]. rewrite memcpy_ok by lia. cbn [mbind outcome_bind]. eexists. split; [reflexivity|].
    split; [|split; unfold filt_is_set, pes_is_set; cbn; rewrite ?is_set_set, ?is_set_clear by done; by rewrite Z.eqb_refl].
    rewrite !(sub_all _ 16) by lia.
    destruct Hp. split; cbn; try done; unfold MASKL, MAXFILT in *; try (zsimpl; lia); by apply bytes_blit.
  - next. eexists. split; [reflexivity|].
    split; [|split; unfold filt_is_set, pes_is_set; cbn; rewrite is_set_set by done; by rewrite Z.eqb_refl].
    destruct Hp. split; cbn; try done; unfold MASKL, MAXFILT in *; zsimpl; lia.
Qed.

Lemma clear_trans_filt_ok p l : trans_ok p -> 0 <= l < MAXFILT ->
  exists q, clear_trans_filt p l = Ret q /\ trans_ok q /\ filt_is_set q l = false /\ filt_is_ready q l = false.
Proof.
  intros Hp Hl. unfold clear_trans_filt.
  set (p1 := _ <| tr_pes_started := _ |>). cbv zeta.
  assert (Hp1 : trans_ok p1).
  { pose proof (fun x => clear_bit_tflags x l). destruct Hp. split; cbn; auto. }
  assert (Hs1 : is_set (tr_set p1) l = false).
  { cbn. rewrite is_set_clear by done. by rewrite Z.eqb_refl. }
  assert (Hr1 : is_set (tr_is_full p1) l = false).
  { cbn. rewrite is_set_clear by done. by rewrite Z.eqb_refl. }
  clearbody p1. pose proof (to_mask p1 Hp1) as Hma. pose proof (to_filt p1 Hp1) as Hfi. unfold MAXFILT, MASKL in *.
  rewrite (write_at_ok (tr_mask p1)) by (zsimpl; lia). next. rewrite (write_at_ok (tr_filt p1)) by (zsimpl; lia). next. cbv zeta.
  set (p2 := p1 <| tr_mask := _ |> <| tr_filt := _ |>).
  assert (Hp2 : trans_ok p2).
  { destruct Hp1. split; cbn; try done; unfold MASKL, MAXFILT in *; try (zsimpl; lia);
      apply bytes_blit; try done; by apply bytes_replicate. }
  destruct (get_sec_ok p2 l Hp2 Hl) as (s & -> & Hs & _). next. eexists. split; [reflexivity|].
  split; [apply put_sec_ok; [done|by apply reset_sec_ok]|]. done.
Qed.

(** ** What a stream can end in *)

(** Filter [l] collects sections of the PID of the packet. *)
Definition section_served (p : trans) (l : Z) : Prop :=
  filt_is_set p l = true /\ pes_is_set p l = false /\ zn (tr_pid p) l = packet_pid (tr_packet p).

(** The turns before filter [l] of the loop over the filters. *)
Definition filters_before (depth : nat) (p : trans) (l : Z) : outcome trans :=
  filter_all depth (Z.to_nat l) p 0 (packet_pid (tr_packet p)) (zn (tr_packet p) 1) (payload_offset (tr_packet p)).

(** Why a packet is looked at for ever: when filter [l]'s turn comes, its last section has not been
    fetched, or the packet holds an empty section. *)
Definition hangs_at (depth : nat) (p : trans) (l : Z) : Prop :=
  0 <= l < MAXFILT /\ section_served p l /\
  exists q, filters_before depth p l = Ret q /\ trans_ok q /\ same_input p q /\
    (filt_is_ready q l = true \/ empty_section (tr_packet p) (payload_offset (tr_packet p)) = true).

Lemma filter_one_hangs depth p l tpid cpid0 c : trans_ok p -> 0 <= l < MAXFILT -> 0 <= c -> (0 < depth)%nat ->
  filter_one depth p l tpid cpid0 c = Hang ->
  filt_is_set p l = true /\ pes_is_set p l = false /\ zn (tr_pid p) l = tpid /\
  (filt_is_ready p l = true \/ empty_section (tr_packet p) c = true).
Proof.
  intros Hp Hl Hc Hd. unfold filter_one. destruct (filt_is_set p l); [|done].
  rewrite load_ok by (rewrite (to_pid p Hp); lia). next. destruct (Z.eqb_spec (zn (tr_pid p) l) tpid) as [Ht|]; [|done].
  destruct (pes_is_set p l).
  - cbv zeta. fold (pes_flags p l cpid0). destruct (pes_flags_ok p l cpid0 Hp Hl) as [H1 _].
    rewrite pes_filter_ok by done. destruct (pes_is_started _ l), (c <=? 188); done.
  - intros E. split_and!; try done. destruct (filt_is_ready p l) eqn:Hr; [by left|right].
    destruct (empty_section (tr_packet p) c) eqn:He; [done|]. destruct (Z.lt_ge_cases c 188) as [H|H].
    + by destruct (sec_filter_returns depth p l c Hp Hl ltac:(lia) Hd Hr He) as [q Eq]; rewrite Eq in E.
    + destruct depth as [|depth]; [lia|]. unfold sec_filter in E. cbn [sec_filter_within] in E.
      destruct (Z.ltb_spec l 0), (Z.geb_spec l MAXFILT); try lia. cbn [orb] in E.
      by destruct (sec_body_far p l c Hp Hl H) as [E'|(q & E' & _)]; rewrite E' in E.
Qed.

Lemma filter_all_S depth n p l tpid cpid0 c :
  filter_all depth (S n) p l tpid cpid0 c = (q ← filter_all depth n p l tpid cpid0 c; filter_one depth q (l + Z.of_nat n) tpid cpid0 c).
Proof.
  revert p l. induction n as [|n IH]; intros p l.
  - cbn. rewrite Z.add_0_r. by destruct (filter_one _ _ _ _ _ _).
  - assert (E : forall m, filter_all depth (S m) p l tpid cpid0 c =
      (q ← filter_one depth p l tpid cpid0 c; filter_all depth m q (l + 1) tpid cpid0 c)) by done.
    rewrite (E (S n)), (E n). destruct (filter_one depth p l tpid cpid0 c) as [q| |]; [|done..]. next.
    rewrite IH. by replace (l + 1 + Z.of_nat n) with (l + Z.of_nat (S n)) by lia.
Qed.

Lemma filter_all_hangs depth p n : trans_ok p -> (0 < depth)%nat -> (n <= Z.to_nat MAXFILT)%nat ->
  filter_all depth n p 0 (packet_pid (tr_packet p)) (zn (tr_packet p) 1) (payload_offset (tr_packet p)) = Hang ->
  exists l, hangs_at depth p l.
Proof.
  intros Hp Hd. pose proof (payload_offset_nonneg _ (to_bytes p Hp) (to_packet p Hp)) as Ho.
  induction n as [|n IH]; intros Hn E; [done|]. rewrite filter_all_S in E.
  destruct (filter_all depth n p 0 _ _ _) as [q| |] eqn:Eq; [|done|by apply IH; [lia|]].
  pose proof (filter_all_sound depth (packet_pid (tr_packet p)) (zn (tr_packet p) 1) (payload_offset (tr_packet p)) n p 0 Hp) as Hs.
  rewrite Eq in Hs. destruct Hs as [Hq Hi]; [lia|unfold MAXFILT in *; lia|lia|].
  cbn [mbind outcome_bind] in E. rewrite Z.add_0_l in E. exists (Z.of_nat n).
  assert (Hl : 0 <= Z.of_nat n < MAXFILT) by (unfold MAXFILT in *; lia).
  destruct (filter_one_hangs depth q (Z.of_nat n) _ _ (payload_offset (tr_packet p)) Hq Hl ltac:(lia) Hd E) as (H1 & H2 & H3 & H4).
  split; [done|]. unfold section_served, filters_before. rewrite Nat2Z.id.
  unfold filt_is_set, pes_is_set in *. rewrite (si_set _ _ Hi) in H1. rewrite (si_pes _ _ Hi) in H2.
  rewrite (si_pid _ _ Hi) in H3. rewrite (si_packet _ _ Hi) in H4. split; [done|]. by exists q.
Qed.

(** [q]: the state in which a packet of the stream [l] is complete. *)
Definition completes (depth : nat) (p : trans) (l : list Z) (q : trans) : Prop :=
  exists a b c r, l = a ++ b :: c /\ trans_filt depth a (zlen a) p = Ret r /\ tr_found r = 187 /\ trans_ok q /\
    q = r <| tr_packet := blit (tr_packet r) 187 [b] |> <| tr_found := 0 |>.

(** Every outcome of a stream. *)
Definition stream_outcome (depth : nat) (p : trans) (l : list Z) (m : outcome trans) : Prop :=
  match m with
  | Ret q => trans_ok q
  | Crash => exists q, completes depth p l q /\ 188 <= payload_offset (tr_packet q)
  | Hang => exists q k, completes depth p l q /\ hangs_at depth q k
  end.

Lemma feed_stops depth l : forall p, trans_ok p -> bytes l -> ~ returns (feed depth p l) ->
  exists a b c r, l = a ++ b :: c /\ feed depth p a = Ret r /\ trans_ok r /\ byte_step depth r b = feed depth p l.
Proof.
  induction l as [|b l IH]; intros p Hp Hb Hn; [destruct Hn; by exists p|]. apply Forall_cons in Hb as [Hb Hl]. cbn [feed] in *.
  destruct (byte_step depth p b) as [x| |] eqn:Ex.
  - assert (Hx : trans_ok x) by by eapply byte_step_sound. cbn [mbind outcome_bind] in Hn.
    destruct (IH x Hx Hl Hn) as (a & b' & c & r & -> & E & Hr & Er).
    exists (b :: a), b', c, r. split_and!; try done. cbn [feed]. by rewrite Ex.
  - by exists [], b, l, p.
  - by exists [], b, l, p.
Qed.

Lemma byte_step_stops depth r b : trans_ok r -> is_byte b -> ~ returns (byte_step depth r b) ->
  tr_found r = 187 /\ let q := r <| tr_packet := blit (tr_packet r) 187 [b] |> <| tr_found := 0 |> in
    trans_ok q /\ byte_step depth r b = filter depth q.
Proof.
  intros Hr Hb Hn. destruct (Z.eq_dec (tr_found r) 0) as [Hf|Hf].
  { destruct (byte_step_sync depth r b Hr Hb Hf) as (q & E & _). destruct Hn. by exists q. }
  pose proof (to_found r Hr). pose proof (to_packet r Hr).
  destruct (blit_byte_ok (tr_packet r) (tr_found r) b (to_packet r Hr) (to_bytes r Hr) Hb) as [H1 H2]; [lia|].
  unfold byte_step in *. destruct (Z.ltb_spec (tr_found r) 1); [lia|].
  rewrite write_at_ok in * by (zsimpl; lia). rewrite bind_Ret in *. cbv zeta in *. cbn [tr_found set] in *.
  destruct (Z.eqb_spec (tr_found r + 1) 188) as [E|E]; [|destruct Hn; by eexists].
  assert (E7 : tr_found r = 187) by lia. split; [done|]. rewrite E7 in *.
  split; [by apply (set_packet_ok r _ 0); [..|lia]|done].
Qed.

Lemma stream_ok depth p l : trans_ok p -> bytes l -> (0 < depth)%nat ->
  stream_outcome depth p l (trans_filt depth l (zlen l) p).
Proof.
  intros Hp Hb Hd. rewrite trans_filt_feed by done. destruct (feed depth p l) as [q| |] eqn:E; [by apply (feed_sound depth l p)|..].
  all: destruct (feed_stops depth l p Hp Hb) as (a & b & c & r & -> & Ea & Hr & Er); [rewrite E; by intros [? ?]|].
  all: apply bytes_app in Hb as [Hba Hbb]; apply Forall_cons in Hbb as [Hbb _].
  all: destruct (byte_step_stops depth r b Hr Hbb) as (Hf & Hq & Eq); [rewrite Er, E; by intros [? ?]|].
  all: rewrite Er, E in Eq; set (q := r <| tr_packet := _ |> <| tr_found := 0 |>) in *.
  all: assert (Hc : completes depth p (a ++ b :: c) q) by (exists a, b, c, r; rewrite trans_filt_feed by done; by split_and!).
  - exists q. split; [done|]. pose proof (filter_sound depth q Hq) as Hs. by rewrite <- Eq in Hs.
  - symmetry in Eq. rewrite filter_eq in Eq by done. destruct (flag _ PAYLOAD); [|done].
    destruct (filter_all_hangs depth q (Z.to_nat MAXFILT) Hq Hd ltac:(lia) Eq) as [k Hk]. by exists q, k.
Qed.

(** C30: the structure stays well-formed: [init_trans] makes it so from any
    memory, and configuring, clearing and fetching, with a filter number in
    range, keep it so: the arrays keep their sizes, the bit masks stay below 2^32, and
    no section has more bytes than it announces.  Any stream of bytes has one of
    three outcomes.  [trans_filt] returns, and the structure is well-formed; or it reads
    outside of an array, and then at a packet of the stream whose adaptation field
    leaves no payload; or it calls itself for ever, and then at a packet of the stream and a
    section filter of its PID, when the filter's last section has not been fetched or the
    packet holds a section of length 0.  A stream without such packets is filtered. *)
Theorem trans_well_formed depth p :
  (trans_memory p -> trans_ok (init_trans p)) /\
  (trans_ok p ->
   (forall l, 0 <= l < MAXFILT ->
     (forall pid mask filt pes, zlen mask = MASKL -> zlen filt = MASKL -> bytes mask -> bytes filt ->
       exists q, set_trans_filt p l pid mask filt pes = Ret (q, 0) /\ trans_ok q /\
         filt_is_set q l = true /\ pes_is_set q l = negb (pes =? 0)) /\
     (exists q, clear_trans_filt p l = Ret q /\ trans_ok q /\ filt_is_set q l = false /\ filt_is_ready q l = false) /\
     (exists q s, get_filt_sec p l = Ret (q, s) /\ trans_ok q /\ section_ok s /\ filt_is_ready q l = false) /\
     (exists q n, get_filt_buf p l = Ret (q, 188 * l, n) /\ trans_ok q /\ filt_is_ready q l = false)) /\
   forall buf, bytes buf -> (0 < depth)%nat -> stream_outcome depth p buf (trans_filt depth buf (zlen buf) p)).
Proof.
  split; [apply init_trans_ok|]. intros Hp. split; [intros l Hl; split; [|split; [|split]]|].
  - intros. by apply set_trans_filt_ok.
  - by apply clear_trans_filt_ok.
  - destruct (get_sec_ok p l Hp Hl) as (s & E & Hs & _). unfold get_filt_sec. rewrite E. next.
    eexists _, s. split; [reflexivity|].
    split; [by apply set_full_ok, clear_bit_tflags, Hp|]. split; [done|].
    rewrite ready_clear by done. by rewrite Z.eqb_refl.
  - unfold get_filt_buf. cbv zeta. change (tr_transcount (_ <| tr_is_full := _ |>)) with (tr_transcount p).
    rewrite load_ok by (rewrite (to_transcount p Hp); lia). next. eexists _, _. split; [reflexivity|].
    split; [by apply set_full_ok, clear_bit_tflags, Hp|]. rewrite ready_clear by done. by rewrite Z.eqb_refl.
  - intros buf Hb Hd. by apply stream_ok.
Qed.

(** ** Witnesses *)

(** All 32 filters for PID 0x100, those of [set] in use. *)
Definition sample_trans (packet : list Z) (s : section) (full started pes set : Z) : trans :=
  mk_trans 0 packet (replicate 32 0x100) (replicate (Z.to_nat 512) 0xff) (replicate (Z.to_nat 512) 0)
    (replicate (Z.to_nat (188 * 32)) 0) (replicate 32 0) (replicate 32 s) full 0 started pes set.

Lemma sample_trans_ok packet s full started pes set :
  zlen packet = 188 -> bytes packet -> section_ok s -> tflags full -> tflags started -> tflags pes -> tflags set ->
  trans_ok (sample_trans packet s full started pes set).
Proof.
  intros. split; cbn [tr_found tr_packet tr_pid tr_mask tr_filt tr_transbuf tr_transcount tr_sec tr_is_full
    tr_pes_start tr_pes_started tr_pes tr_set sample_trans]; try done; try reflexivity; try (by apply bytes_replicate).
  by apply Forall_replicate.
Qed.

Definition blank_section : section := mk_section 0 0 0 (replicate (Z.to_nat (4096 + 3)) 0).
Lemma blank_section_ok : section_ok blank_section.
Proof. split; [reflexivity|by apply bytes_replicate|done|done]. Qed.

(** A packet that starts a section of 5 bytes whose filtered bytes are 0, one with a
    section of length 0 and one that is all adaptation field. *)
Definition section_packet : list Z :=
  [0x47; 0x41; 0x00; 0x10; 0; 0x00; 0x70; 5; 0; 0; 0; 0; 0] ++ replicate 175 0xff.
Definition empty_section_packet : list Z := [0x47; 0x41; 0x00; 0x10; 0; 0x00; 0x70; 0] ++ replicate 180 0xff.
Definition long_packet : list Z := [0x47; 0x41; 0x00; 0x30; 200] ++ replicate 183 0xff.

Ltac sample_bytes := repeat (apply bytes_app; split); try (by apply bytes_replicate);
  repeat apply bytes_cons; try apply bytes_nil; split; done.

Lemma section_packet_ok : bytes section_packet.
Proof. sample_bytes. Qed.
Lemma empty_section_packet_ok : bytes empty_section_packet.
Proof. sample_bytes. Qed.
Lemma long_packet_ok : bytes long_packet.
Proof. sample_bytes. Qed.

Create HintDb trans.
#[local] Hint Resolve blank_section_ok section_packet_ok empty_section_packet_ok long_packet_ok : trans.
Ltac sample_ok := apply sample_trans_ok; try reflexivity; try (split; done); eauto with trans.

Definition idle_trans : trans := sample_trans section_packet blank_section 0 0 0 1.
Definition full_trans : trans :=
  sample_trans section_packet (loaded blank_section section_packet 5 8 5) 1 0 0 1.

Lemma idle_trans_ok : trans_ok idle_trans.
Proof. sample_ok. Qed.
Lemma full_trans_ok : trans_ok full_trans.
Proof.
  sample_ok. apply loaded_ok; try (done || lia); auto with trans.
Qed.

Lemma sec_filter_whole_sections_witness : exists q q' s',
  sec_filter 1 idle_trans 0 4 = Ret q /\ filt_is_ready q 0 = true /\
  get_filt_sec q 0 = Ret (q', s') /\ sub (sec_payload s') 0 8 = [0x00; 0x70; 5; 0; 0; 0; 0; 0].
Proof.
  destruct (sec_filter_whole_sections 1 idle_trans 0 4 blank_section idle_trans_ok) as (q & E & _ & _ & Hr & Hs & _);
    [concrete|concrete|lia|reflexivity|reflexivity|reflexivity|].
  destruct Hs as (q' & s' & Eg & _ & _ & _ & _ & Eb); [reflexivity|].
  exists q, q', s'. split; [done|]. split; [rewrite Hr; vm_compute; reflexivity|]. split; [done|].
  change 8 with (header_length (tr_packet idle_trans) (sec_offset (tr_packet idle_trans) 4) + 3).
  rewrite Eb. reflexivity.
Defined.

Lemma sec_filter_returns_iff_witness :
  returns (sec_filter 7 idle_trans 0 4) /\ ~ returns (sec_filter 7 full_trans 0 4).
Proof.
  split.
  - apply (sec_filter_returns_iff 7 idle_trans 0 4 idle_trans_ok); [concrete|concrete|lia|done|done].
  - intros H. apply (sec_filter_returns_iff 7 full_trans 0 4 full_trans_ok) in H as [H _]; [done|concrete|concrete|lia|].
    intros _. split; [reflexivity|]. eexists. split; reflexivity.
Defined.

Lemma trans_filt_pieces_witness :
  trans_filt 3 (section_packet ++ [0x00; 0x47]) 190 idle_trans =
  q ← trans_filt 3 section_packet 188 idle_trans; trans_filt 3 [0x00; 0x47] 2 q.
Proof.
  apply (trans_filt_pieces 3 idle_trans section_packet [0x00; 0x47] idle_trans_ok); [auto with trans|sample_bytes].
Defined.

Lemma trans_filt_packets_witness :
  trans_filt 3 (section_packet ++ empty_section_packet) 376 idle_trans = Hang.
Proof.
  pose proof (trans_filt_packets 3 idle_trans [section_packet; empty_section_packet] idle_trans_ok eq_refl) as H.
  change (mjoin [section_packet; empty_section_packet]) with (section_packet ++ empty_section_packet ++ []) in H.
  rewrite app_nil_r in H. change (zlen (section_packet ++ empty_section_packet)) with 376 in H.
  rewrite H; [vm_compute; reflexivity|].
  repeat apply Forall_cons_2; try (split; [reflexivity|split; [auto with trans|reflexivity]]). apply Forall_nil_2.
Defined.

Definition pes_filter_state : trans := sample_trans section_packet blank_section 0 0 4 (2 ^ 2).
Lemma pes_filter_state_ok : trans_ok pes_filter_state.
Proof. sample_ok. Qed.

Lemma serves_one packet s full started pes l k : 0 <= l < 32 -> packet_pid packet = 0x100 -> 0 <= k < 32 ->
  serves (sample_trans packet s full started pes (2 ^ l)) k = (k =? l).
Proof.
  intros Hl Hpid Hk. unfold serves, filt_is_set. cbn [tr_set tr_pid tr_packet sample_trans].
  rewrite is_set_testbit, Z.pow2_bits_eqb, Hpid by lia.
  assert (zn (replicate 32 0x100) k = 0x100) as ->.
  { rewrite zn_lookup, lookup_replicate_2 by lia. done. }
  rewrite Z.eqb_refl, andb_true_r. apply Z.eqb_sym.
Qed.

Lemma filter_pes_payload_witness : exists q,
  filter 1 pes_filter_state = Ret q /\ filt_is_ready q 2 = true /\
  sub (tr_transbuf q) (188 * 2) 184 = sub section_packet 4 184.
Proof.
  destruct (filter_pes_payload 1 pes_filter_state 2 pes_filter_state_ok) as (q & E & _ & _ & Hv);
    [done|reflexivity|done| |].
  { intros k Hk H. unfold pes_filter_state in H.
    rewrite serves_one in H by done. by apply Z.eqb_eq in H as ->. }
  exists q. split; [done|]. unfold pes_filter_state in Hv.
  rewrite serves_one in Hv by done. destruct Hv as (_ & _ & Hr & _ & Hd). done.
Defined.

Definition long_state : trans := sample_trans long_packet blank_section 0 0 4 (2 ^ 2).
Lemma long_state_ok : trans_ok long_state.
Proof. sample_ok. Qed.

Lemma filter_long_adaptation_witness : filter 1 long_state = Crash.
Proof.
  apply (filter_long_adaptation 1 long_state 2 long_state_ok); [done|reflexivity|reflexivity| |reflexivity|reflexivity].
  intros k Hk. unfold long_state. by apply serves_one.
Defined.

Lemma trans_well_formed_witness : exists q,
  set_trans_filt (init_trans idle_trans) 5 0x200 (replicate 16 0xff) (replicate 16 0x11) 0 = Ret (q, 0) /\ trans_ok q.
Proof.
  assert (Hm : trans_memory idle_trans).
  { destruct idle_trans_ok. split; try done. eapply Forall_impl; [done|]. by intros s []. }
  destruct (trans_well_formed 1 idle_trans) as [Hi _].
  destruct (trans_well_formed 1 (init_trans idle_trans)) as [_ Hk].
  destruct (Hk (Hi Hm)) as [Hl _]. destruct (Hl 5) as [Hs _]; [done|].
  destruct (Hs 0x200 (replicate 16 0xff) (replicate 16 0x11) 0) as (q & E & Hq & _);
    [reflexivity|reflexivity|by apply bytes_replicate|by apply bytes_replicate|].
  by exists q.
Defined.
