(* ===== verification/Md5Spec.v ===== *)
(** * The MD5 message digest of RFC 1321

    The reference against which libmd5sum is verified, from the text of the RFC:
    padding, 16-word blocks in little endian order, 64 steps given by formulas,
    and the table of sines, computed here instead of copied. *)
From S2P Require Import Prelude.

(** ** Words *)
Definition word (x : Z) : Prop := 0 <= x < 2 ^ 32.
Definition wadd (x y : Z) : Z := (x + y) mod 2 ^ 32.
Definition wnot (x : Z) : Z := 2 ^ 32 - 1 - x.
Definition rotl (x s : Z) : Z := (x * 2 ^ s) mod 2 ^ 32 + x / 2 ^ (32 - s).

Definition F (x y z : Z) : Z := Z.lor (Z.land x y) (Z.land (wnot x) z).
Definition G (x y z : Z) : Z := Z.lor (Z.land x z) (Z.land y (wnot z)).
Definition H (x y z : Z) : Z := Z.lxor (Z.lxor x y) z.
Definition I (x y z : Z) : Z := Z.lxor y (Z.lor x (wnot z)).

(** ** T[i] = floor (4294967296 * abs (sin (i)))

    The sine is the sum of its Taylor series with 120 terms in fixed point
    arithmetic with 256 bits behind the point: for angles up to 64 both the rest
    of the series and the rounding are below 2^-100. *)
Definition precision : Z := 256.

Fixpoint sin_series (terms : nat) (t x k : Z) : Z :=
  match terms with
  | O => 0
  | S terms => t + sin_series terms (- (t * x * x) / ((2 * k + 2) * (2 * k + 3))) x (k + 1)
  end.

Definition T (i : Z) : Z := Z.abs (sin_series 120 (i * 2 ^ precision) i 0) / 2 ^ (precision - 32).

(** ** The 64 steps

    Step [i], from 0: the word it uses, the rotation, the function. *)
Definition step_word (i : Z) : Z :=
  match i / 16 with 0 => i mod 16 | 1 => (1 + 5 * i) mod 16 | 2 => (5 + 3 * i) mod 16 | _ => (7 * i) mod 16 end.
Definition step_rotation (i : Z) : Z :=
  zn (match i / 16 with 0 => [7; 12; 17; 22] | 1 => [5; 9; 14; 20] | 2 => [4; 11; 16; 23] | _ => [6; 10; 15; 21] end)
     (i mod 4).
Definition step_function (i : Z) : Z -> Z -> Z -> Z :=
  match i / 16 with 0 => F | 1 => G | 2 => H | _ => I end.

Definition regs : Type := Z * Z * Z * Z.

(** [a = b + ((a + f (b, c, d) + X[k] + T[i]) <<< s)], after which the registers
    change their roles. *)
Definition md5_step (X : list Z) (r : regs) (i : Z) : regs :=
  let '(a, b, c, d) := r in
  let sum := wadd (wadd (wadd a (step_function i b c d)) (zn X (step_word i))) (T (i + 1)) in
  (d, wadd b (rotl sum (step_rotation i)), b, c).

Definition add_regs (r q : regs) : regs :=
  let '(a, b, c, d) := r in let '(a', b', c', d') := q in (wadd a a', wadd b b', wadd c c', wadd d d').

Definition steps : list Z := Z.of_nat <$> seq 0 64.

Definition md5_block (r : regs) (X : list Z) : regs := add_regs r (foldl (md5_step X) r steps).

(** ** Blocks of a message *)
Definition le32 (l : list Z) (o : Z) : Z :=
  zn l o + 2 ^ 8 * zn l (o + 1) + 2 ^ 16 * zn l (o + 2) + 2 ^ 24 * zn l (o + 3).
Definition block_words (l : list Z) : list Z := (fun i => le32 l (4 * Z.of_nat i)) <$> seq 0 16.

(** The first [n] blocks of the message [l]. *)
Fixpoint chain (n : nat) (r : regs) (l : list Z) : regs :=
  match n with O => r | S n => chain n (md5_block r (block_words (ztake 64 l))) (zdrop 64 l) end.

Definition init_regs : regs := (0x67452301, 0xefcdab89, 0x98badcfe, 0x10325476).

Definition le_bytes (n : nat) (x : Z) : list Z := (fun i => x / 2 ^ (8 * Z.of_nat i) mod 256) <$> seq 0 n.

(** A bit 1, bits 0 up to 448 modulo 512, the length in bits modulo 2^64. *)
Definition padding (n : Z) : list Z :=
  [0x80] ++ replicate (Z.to_nat ((55 - n) mod 64)) 0 ++ le_bytes 8 ((8 * n) mod 2 ^ 64).

Definition padded (l : list Z) : list Z := l ++ padding (zlen l).

Definition digest (r : regs) : list Z :=
  let '(a, b, c, d) := r in le_bytes 4 a ++ le_bytes 4 b ++ le_bytes 4 c ++ le_bytes 4 d.

Definition md5 (l : list Z) : list Z :=
  digest (chain (Z.to_nat (zlen (padded l) / 64)) init_regs (padded l)).

(** The first and the last sines of the RFC's table, and its test suite. *)
Example T_1 : T 1 = 0xd76aa478. Proof. vm_compute. reflexivity. Qed.
Example T_64 : T 64 = 0xeb86d391. Proof. vm_compute. reflexivity. Qed.
Example md5_abc :
  md5 [0x61; 0x62; 0x63] = [0x90; 0x01; 0x50; 0x98; 0x3c; 0xd2; 0x4f; 0xb0; 0xd6; 0x96; 0x3f; 0x7d; 0x28; 0xe1; 0x7f; 0x72].
Proof. vm_compute. reflexivity. Qed.
