(* ===== verification/Md5.v ===== *)
(** * libmd5sum: the MD5 message digest

    apps/misc/libs/libmd5sum/md5.c on a 32-bit host of either byte order:
    [size_t] and [md5_uint32] have 32 bits.  A context is a record of the words
    of [struct md5_ctx]; memory is a list of bytes, read as words in the byte
    order of the host. *)
From S2P Require Import Prelude MpegIO Md5Spec.

(** ** The context *)
Record md5_ctx := mk_ctx { cA : Z; cB : Z; cC : Z; cD : Z; total0 : Z; total1 : Z; buflen : Z; buffer : list Z }.
#[export] Instance eta_md5_ctx : Eta md5_ctx := fun c =>
  mk_ctx (cA c) (cB c) (cC c) (cD c) (total0 c) (total1 c) (buflen c) (buffer c).

Definition fillbuf : list Z := 0x80 :: replicate 63 0.

Definition md5_init_ctx (ctx : md5_ctx) : md5_ctx :=
  ctx <| cA := 0x67452301 |> <| cB := 0xefcdab89 |> <| cC := 0x98badcfe |> <| cD := 0x10325476 |>
      <| total0 := 0 |> <| total1 := 0 |> <| buflen := 0 |>.

(** ** The operations of a step *)
Inductive fn := FF | FG | FH | FI.

(** [~ d] of a 32-bit word. *)
Definition compl (d : Z) : Z := Z.lxor d 0xffffffff.

Definition f_FF (b c d : Z) : Z := Z.lxor d (Z.land b (Z.lxor c d)).
Definition f_FG (b c d : Z) : Z := f_FF d b c.
Definition f_FH (b c d : Z) : Z := Z.lxor (Z.lxor b c) d.
Definition f_FI (b c d : Z) : Z := Z.lxor c (Z.lor b (compl d)).

Definition apply_fn (f : fn) : Z -> Z -> Z -> Z :=
  match f with FF => f_FF | FG => f_FG | FH => f_FH | FI => f_FI end.

Definition CYCLIC (w s : Z) : Z := Z.lor (u32 (Z.shiftl w s)) (Z.shiftr w (32 - s)).

(** The variables [A], [B], [C], [D] of [md5_process_block]. *)
Inductive reg := RA | RB | RC | RD.
Record vars := mk_vars { vA : Z; vB : Z; vC : Z; vD : Z }.
Definition get (v : vars) (r : reg) : Z :=
  match r with RA => vA v | RB => vB v | RC => vC v | RD => vD v end.
Definition put (v : vars) (r : reg) (x : Z) : vars :=
  match r with
  | RA => mk_vars x (vB v) (vC v) (vD v) | RB => mk_vars (vA v) x (vC v) (vD v)
  | RC => mk_vars (vA v) (vB v) x (vD v) | RD => mk_vars (vA v) (vB v) (vC v) x
  end.

(** An invocation [OP (f, a, b, c, d, k, s, T)] of the macro; that of round 1 takes
    [FF] and the next word. *)
Record op := mk_op { o_f : fn; o_a : reg; o_b : reg; o_c : reg; o_d : reg; o_k : Z; o_s : Z; o_T : Z }.

Definition exec_op (o : op) (x : Z) (v : vars) : vars :=
  let v := put v (o_a o) (u32 (get v (o_a o) + apply_fn (o_f o) (get v (o_b o)) (get v (o_c o)) (get v (o_d o)) + x + o_T o)) in
  let v := put v (o_a o) (CYCLIC (get v (o_a o)) (o_s o)) in
  put v (o_a o) (u32 (get v (o_a o) + get v (o_b o))).

Definition round1 : list op :=
  [mk_op FF RA RB RC RD 0 7 0xd76aa478;
   mk_op FF RD RA RB RC 1 12 0xe8c7b756;
   mk_op FF RC RD RA RB 2 17 0x242070db;
   mk_op FF RB RC RD RA 3 22 0xc1bdceee;
   mk_op FF RA RB RC RD 4 7 0xf57c0faf;
   mk_op FF RD RA RB RC 5 12 0x4787c62a;
   mk_op FF RC RD RA RB 6 17 0xa8304613;
   mk_op FF RB RC RD RA 7 22 0xfd469501;
   mk_op FF RA RB RC RD 8 7 0x698098d8;
   mk_op FF RD RA RB RC 9 12 0x8b44f7af;
   mk_op FF RC RD RA RB 10 17 0xffff5bb1;
   mk_op FF RB RC RD RA 11 22 0x895cd7be;
   mk_op FF RA RB RC RD 12 7 0x6b901122;
   mk_op FF RD RA RB RC 13 12 0xfd987193;
   mk_op FF RC RD RA RB 14 17 0xa679438e;
   mk_op FF RB RC RD RA 15 22 0x49b40821].
Definition round2 : list op :=
  [mk_op FG RA RB RC RD 1 5 0xf61e2562;
   mk_op FG RD RA RB RC 6 9 0xc040b340;
   mk_op FG RC RD RA RB 11 14 0x265e5a51;
   mk_op FG RB RC RD RA 0 20 0xe9b6c7aa;
   mk_op FG RA RB RC RD 5 5 0xd62f105d;
   mk_op FG RD RA RB RC 10 9 0x02441453;
   mk_op FG RC RD RA RB 15 14 0xd8a1e681;
   mk_op FG RB RC RD RA 4 20 0xe7d3fbc8;
   mk_op FG RA RB RC RD 9 5 0x21e1cde6;
   mk_op FG RD RA RB RC 14 9 0xc33707d6;
   mk_op FG RC RD RA RB 3 14 0xf4d50d87;
   mk_op FG RB RC RD RA 8 20 0x455a14ed;
   mk_op FG RA RB RC RD 13 5 0xa9e3e905;
   mk_op FG RD RA RB RC 2 9 0xfcefa3f8;
   mk_op FG RC RD RA RB 7 14 0x676f02d9;
   mk_op FG RB RC RD RA 12 20 0x8d2a4c8a].
Definition round3 : list op :=
  [mk_op FH RA RB RC RD 5 4 0xfffa3942;
   mk_op FH RD RA RB RC 8 11 0x8771f681;
   mk_op FH RC RD RA RB 11 16 0x6d9d6122;
   mk_op FH RB RC RD RA 14 23 0xfde5380c;
   mk_op FH RA RB RC RD 1 4 0xa4beea44;
   mk_op FH RD RA RB RC 4 11 0x4bdecfa9;
   mk_op FH RC RD RA RB 7 16 0xf6bb4b60;
   mk_op FH RB RC RD RA 10 23 0xbebfbc70;
   mk_op FH RA RB RC RD 13 4 0x289b7ec6;
   mk_op FH RD RA RB RC 0 11 0xeaa127fa;
   mk_op FH RC RD RA RB 3 16 0xd4ef3085;
   mk_op FH RB RC RD RA 6 23 0x04881d05;
   mk_op FH RA RB RC RD 9 4 0xd9d4d039;
   mk_op FH RD RA RB RC 12 11 0xe6db99e5;
   mk_op FH RC RD RA RB 15 16 0x1fa27cf8;
   mk_op FH RB RC RD RA 2 23 0xc4ac5665].
Definition round4 : list op :=
  [mk_op FI RA RB RC RD 0 6 0xf4292244;
   mk_op FI RD RA RB RC 7 10 0x432aff97;
   mk_op FI RC RD RA RB 14 15 0xab9423a7;
   mk_op FI RB RC RD RA 5 21 0xfc93a039;
   mk_op FI RA RB RC RD 12 6 0x655b59c3;
   mk_op FI RD RA RB RC 3 10 0x8f0ccc92;
   mk_op FI RC RD RA RB 10 15 0xffeff47d;
   mk_op FI RB RC RD RA 1 21 0x85845dd1;
   mk_op FI RA RB RC RD 8 6 0x6fa87e4f;
   mk_op FI RD RA RB RC 15 10 0xfe2ce6e0;
   mk_op FI RC RD RA RB 6 15 0xa3014314;
   mk_op FI RB RC RD RA 13 21 0x4e0811a1;
   mk_op FI RA RB RC RD 4 6 0xf7537e82;
   mk_op FI RD RA RB RC 11 10 0xbd3af235;
   mk_op FI RC RD RA RB 2 15 0x2ad7d2bb;
   mk_op FI RB RC RD RA 9 21 0xeb86d391].

Section Host.
(** Is the host big endian ([WORDS_BIGENDIAN])? *)
Variable big : bool.

Definition SWAP (n : Z) : Z :=
  if big then
    Z.lor (Z.lor (Z.lor (u32 (Z.shiftl n 24)) (u32 (Z.shiftl (Z.land n 0xff00) 8)))
                 (Z.land (Z.shiftr n 8) 0xff00)) (Z.shiftr n 24)
  else n.

(** A word at byte offset [o] of memory, loaded and stored. *)
Definition load32 (l : list Z) (o : Z) : outcome Z :=
  b ← read_at l o 4;
  Ret (if big then 2 ^ 24 * zn b 0 + 2 ^ 16 * zn b 1 + 2 ^ 8 * zn b 2 + zn b 3
       else zn b 0 + 2 ^ 8 * zn b 1 + 2 ^ 16 * zn b 2 + 2 ^ 24 * zn b 3).
Definition store32 (l : list Z) (o w : Z) : outcome (list Z) :=
  let b := [w mod 256; w / 2 ^ 8 mod 256; w / 2 ^ 16 mod 256; w / 2 ^ 24 mod 256] in
  write_at l o (if big then reverse b else b).

(** Round 1 loads the words, swaps them and keeps them in [correct_words]. *)
Fixpoint exec_round1 (ops : list op) (buf : list Z) (words : Z) (cw : list Z) (v : vars) : outcome (vars * list Z * Z) :=
  match ops with
  | [] => Ret (v, cw, words)
  | o :: ops =>
    w ← load32 buf words;
    exec_round1 ops buf (words + 4) (cw ++ [SWAP w]) (exec_op o (SWAP w) v)
  end.

Definition exec_rounds (ops : list op) (cw : list Z) (v : vars) : vars :=
  foldl (fun v o => exec_op o (zn cw (o_k o)) v) v ops.

(** One turn of the loop: a block of 64 bytes at [words]. *)
Definition block_turn (buf : list Z) (words : Z) (v : vars) : outcome (vars * Z) :=
  '(w, cw, words) ← exec_round1 round1 buf words [] v;
  let w := exec_rounds (round2 ++ round3 ++ round4) cw w in
  Ret (mk_vars (u32 (vA w + vA v)) (u32 (vB w + vB v)) (u32 (vC w + vC v)) (u32 (vD w + vD v)), words).

Fixpoint block_loop (turns : nat) (buf : list Z) (words endp : Z) (v : vars) : outcome vars :=
  if words <? endp then
    match turns with
    | O => Hang
    | S turns => '(v, words) ← block_turn buf words v; block_loop turns buf words endp v
    end
  else Ret v.

(** [md5_process_block (buf + o, len, ctx)]. *)
Definition md5_process_block (buf : list Z) (o len : Z) (ctx : md5_ctx) : outcome md5_ctx :=
  let nwords := len / 4 in
  let endp := o + 4 * nwords in
  let t0 := u32 (total0 ctx + len) in
  let t1 := if t0 <? len then u32 (total1 ctx + 1) else total1 ctx in
  v ← block_loop (Z.to_nat len) buf o endp (mk_vars (cA ctx) (cB ctx) (cC ctx) (cD ctx));
  Ret (ctx <| total0 := t0 |> <| total1 := t1 |>
           <| cA := vA v |> <| cB := vB v |> <| cC := vC v |> <| cD := vD v |>).

(** [n & ~63]. *)
Definition blocks (n : Z) : Z := Z.land n (Z.lxor 63 0xffffffff).

(** The first part of [md5_process_bytes], with a block begun before. *)
Definition process_begun (buf : list Z) (len : Z) (ctx : md5_ctx) : outcome (md5_ctx * Z) :=
  let left_over := buflen ctx in
  let add := if u32 (128 - left_over) >? len then len else u32 (128 - left_over) in
  b ← memcpy (buffer ctx) left_over buf 0 add;
  let n := u32 (left_over + add) in
  let ctx := ctx <| buffer := b |> <| buflen := n |> in
  if n >? 64 then
    ctx ← md5_process_block (buffer ctx) 0 (blocks n) ctx;
    b ← memcpy (buffer ctx) 0 (buffer ctx) (blocks n) (Z.land n 63);
    Ret (ctx <| buffer := b |> <| buflen := Z.land n 63 |>, add)
  else Ret (ctx, add).

(** The second part: complete blocks straight from the input, and what is left
    into the buffer. *)
Definition process_rest (buf : list Z) (o len : Z) (ctx : md5_ctx) : outcome md5_ctx :=
  '(ctx, o, len) ← (if len >? 64 then
      ctx ← md5_process_block buf o (blocks len) ctx;
      Ret (ctx, o + blocks len, Z.land len 63)
    else Ret (ctx, o, len));
  if len >? 0 then
    b ← memcpy (buffer ctx) 0 buf o len;
    Ret (ctx <| buffer := b |> <| buflen := len |>)
  else Ret ctx.

Definition md5_process_bytes (buf : list Z) (len : Z) (ctx : md5_ctx) : outcome md5_ctx :=
  '(ctx, o) ← (if negb (buflen ctx =? 0) then process_begun buf len ctx else Ret (ctx, 0));
  process_rest buf o (len - o) ctx.

Definition md5_read_ctx (ctx : md5_ctx) (resbuf : list Z) : outcome (list Z) :=
  r ← store32 resbuf 0 (SWAP (cA ctx));
  r ← store32 r 4 (SWAP (cB ctx));
  r ← store32 r 8 (SWAP (cC ctx));
  store32 r 12 (SWAP (cD ctx)).

Definition md5_finish_ctx (ctx : md5_ctx) (resbuf : list Z) : outcome (md5_ctx * list Z) :=
  let bytes := buflen ctx in
  let t0 := u32 (total0 ctx + bytes) in
  let t1 := if t0 <? bytes then u32 (total1 ctx + 1) else total1 ctx in
  let ctx := ctx <| total0 := t0 |> <| total1 := t1 |> in
  let pad := if bytes >=? 56 then u32 (64 + 56 - bytes) else u32 (56 - bytes) in
  b ← memcpy (buffer ctx) bytes fillbuf 0 pad;
  b ← store32 b (bytes + pad) (SWAP (u32 (Z.shiftl t0 3)));
  b ← store32 b (bytes + pad + 4) (SWAP (Z.lor (u32 (Z.shiftl t1 3)) (Z.shiftr t0 29)));
  ctx ← md5_process_block b 0 (u32 (bytes + pad + 8)) (ctx <| buffer := b |>);
  r ← md5_read_ctx ctx resbuf;
  Ret (ctx, r).

(** [ctx] is the local variable, whatever its memory holds. *)
Definition md5_buffer (buf : list Z) (len : Z) (ctx : md5_ctx) (resblock : list Z) : outcome (list Z) :=
  ctx ← md5_process_bytes buf len (md5_init_ctx ctx);
  '(_, r) ← md5_finish_ctx ctx resblock;
  Ret r.

(** ** Files *)
Definition BLOCKSIZE : Z := 4096.

Section Stream.
(** What [fread] at a position returns for a number of bytes, and [ferror] once it
    returned 0. *)
Variable sys_fread : Z -> Z -> Z.
Variable ferror : bool.

(** The inner loop: a block, or what is left of the file. *)
Fixpoint read_block (turns : nat) (stream : file) (buf : list Z) (sum : Z) : outcome (file * list Z * Z * Z) :=
  match turns with
  | O => Hang
  | S turns =>
    '(stream, buf, n) ← read sys_fread stream buf sum (BLOCKSIZE - sum);
    let sum := sum + n in
    if (sum <? BLOCKSIZE) && negb (n =? 0) then read_block turns stream buf sum
    else Ret (stream, buf, sum, n)
  end.

(** The outer loop, with a bound on its turns; [None] is the return of 1. *)
Fixpoint stream_loop (turns : nat) (stream : file) (buf : list Z) (ctx : md5_ctx) : outcome (option (list Z * Z * md5_ctx)) :=
  match turns with
  | O => Hang
  | S turns =>
    '(stream, buf, sum, n) ← read_block (Z.to_nat BLOCKSIZE + 1) stream buf 0;
    if (n =? 0) && ferror then Ret None else
    if n =? 0 then Ret (Some (buf, sum, ctx)) else
    ctx ← md5_process_block buf 0 BLOCKSIZE ctx;
    stream_loop turns stream buf ctx
  end.

(** The return value and [resblock]. *)
Definition md5_stream (turns : nat) (stream : file) (ctx : md5_ctx) (buf resblock : list Z) : outcome (Z * list Z) :=
  r ← stream_loop turns stream buf (md5_init_ctx ctx);
  match r with
  | None => Ret (1, resblock)
  | Some (buf, sum, ctx) =>
    ctx ← (if sum >? 0 then md5_process_bytes buf sum ctx else Ret ctx);
    '(_, r) ← md5_finish_ctx ctx resblock;
    Ret (0, r)
  end.
End Stream.
End Host.
