(* ===== verification/Md5Block.v ===== *)
(** * libmd5sum: a block is processed as RFC 1321 says

    The optimised functions, the rotation and the byte order of md5.c are those
    of the RFC, the 64 invocations of [OP] follow its formulas, and
    [md5_process_block] is the chain of the RFC's blocks. *)
From S2P Require Import Prelude Md5Spec Md5.

(** ** Words *)
Lemma word_high x n : word x -> 32 <= n -> Z.testbit x n = false.
Proof.
  intros Hx Hn. destruct (Z.eq_dec x 0) as [->|]; [apply Z.bits_0|]. unfold word in Hx.
  apply Z.bits_above_log2; [lia|]. apply Z.log2_lt_pow2; [lia|].
  apply Z.lt_le_trans with (2 ^ 32); [lia|]. apply Z.pow_le_mono_r; lia.
Qed.

Lemma u32_word x : word (u32 x).
Proof. unfold word, u32. apply Z.mod_pos_bound. lia. Qed.

Lemma compl_wnot x : word x -> compl x = wnot x.
Proof.
  intros Hx. unfold compl, wnot. change 0xffffffff with (Z.ones 32).
  apply Z.bits_inj'. intros n Hn. rewrite Z.lxor_spec.
  replace (2 ^ 32 - 1 - x) with (Z.ones 32 - x) by (rewrite Z.ones_equiv; lia).
  rewrite Z.sub_nocarry_ldiff.
  - rewrite Z.ldiff_spec. destruct (Z.lt_ge_cases n 32).
    + rewrite Z.ones_spec_low by lia. by destruct (Z.testbit x n).
    + rewrite Z.ones_spec_high, word_high by (done || lia). done.
  - apply Z.bits_inj'. intros k Hk. rewrite Z.ldiff_spec, Z.bits_0. destruct (Z.lt_ge_cases k 32).
    + rewrite Z.ones_spec_low by lia. by rewrite andb_false_r.
    + rewrite word_high by done. done.
Qed.

(** The bits of [wnot]. *)
Lemma wnot_bit x n : word x -> 0 <= n -> Z.testbit (wnot x) n = negb (Z.testbit x n) && (n <? 32).
Proof.
  intros Hx Hn. rewrite <- compl_wnot by done. unfold compl. change 0xffffffff with (Z.ones 32).
  rewrite Z.lxor_spec. destruct (Z.ltb_spec n 32).
  - rewrite Z.ones_spec_low by lia. by destruct (Z.testbit x n).
  - rewrite Z.ones_spec_high, word_high by (done || lia). done.
Qed.

Lemma f_FF_F b c d : word b -> word c -> word d -> f_FF b c d = F b c d.
Proof.
  intros Hb Hc Hd. apply Z.bits_inj'. intros n Hn. unfold f_FF, F.
  rewrite Z.lor_spec, !Z.land_spec, wnot_bit, Z.lxor_spec, Z.land_spec, Z.lxor_spec by done.
  destruct (Z.ltb_spec n 32).
  - by destruct (Z.testbit b n), (Z.testbit c n), (Z.testbit d n).
  - by rewrite !word_high by done.
Qed.

Lemma apply_fn_rfc f b c d : word b -> word c -> word d ->
  apply_fn f b c d = match f with FF => F | FG => G | FH => H | FI => I end b c d.
Proof.
  intros Hb Hc Hd. destruct f; cbn [apply_fn].
  - by apply f_FF_F.
  - unfold f_FG. rewrite f_FF_F by done. unfold F, G. f_equal; apply Z.land_comm.
  - done.
  - unfold f_FI, I. by rewrite compl_wnot.
Qed.

Lemma pow_split s : 0 <= s <= 32 -> 2 ^ 32 = 2 ^ s * 2 ^ (32 - s).
Proof. intros. rewrite <- Z.pow_add_r by lia. f_equal. lia. Qed.

Lemma CYCLIC_rotl w s : word w -> 0 < s < 32 -> CYCLIC w s = rotl w s.
Proof.
  intros Hw Hs. unfold CYCLIC, rotl, u32. rewrite Z.shiftl_mul_pow2, Z.shiftr_div_pow2 by lia.
  assert (E : (w * 2 ^ s) mod 2 ^ 32 = (w mod 2 ^ (32 - s)) * 2 ^ s).
  { rewrite (pow_split s), (Z.mul_comm (2 ^ s)) by lia. apply Z.mul_mod_distr_r; apply Z.pow_nonzero; lia. }
  rewrite E. apply lor_add; [lia|]. split; [apply Z.div_pos; [apply Hw|apply Z.pow_pos_nonneg; lia]|].
  apply Z.div_lt_upper_bound; [apply Z.pow_pos_nonneg; lia|].
  rewrite Z.mul_comm, <- pow_split by lia. apply Hw.
Qed.

(** ** Byte order *)
Section Host.
Context (big : bool).

Lemma land_field x w k : 0 <= k -> 0 <= w -> Z.land x (Z.shiftl (Z.ones w) k) = (x / 2 ^ k mod 2 ^ w) * 2 ^ k.
Proof.
  intros Hk Hw. rewrite <- Z.land_ones, <- Z.shiftl_mul_pow2, <- Z.shiftr_div_pow2 by lia.
  apply Z.bits_inj'. intros n Hn. rewrite Z.land_spec, !Z.shiftl_spec by done.
  destruct (Z.lt_ge_cases n k).
  - rewrite !(Z.testbit_neg_r _ (n - k)) by lia. by rewrite andb_false_r.
  - rewrite Z.land_spec, Z.shiftr_spec by lia. by replace (n - k + k) with n by lia.
Qed.

Lemma land_byte_at x k : 0 <= k -> Z.land x (Z.shiftl 255 k) = (x / 2 ^ k mod 256) * 2 ^ k.
Proof. intros. by apply (land_field x 8 k). Qed.

Lemma SWAP_big b0 b1 b2 b3 : is_byte b0 -> is_byte b1 -> is_byte b2 -> is_byte b3 ->
  SWAP true (2 ^ 24 * b0 + 2 ^ 16 * b1 + 2 ^ 8 * b2 + b3) = b0 + 2 ^ 8 * b1 + 2 ^ 16 * b2 + 2 ^ 24 * b3.
Proof.
  unfold is_byte. intros. unfold SWAP, u32. set (n := 2 ^ 24 * b0 + 2 ^ 16 * b1 + 2 ^ 8 * b2 + b3).
  change 0xff00 with (Z.shiftl 255 8). rewrite !land_byte_at, !Z.shiftl_mul_pow2, !Z.shiftr_div_pow2 by lia.
  assert (E0 : n * 2 ^ 24 mod 2 ^ 32 = b3 * 2 ^ 24).
  { replace (n * 2 ^ 24) with (b3 * 2 ^ 24 + (2 ^ 16 * b0 + 2 ^ 8 * b1 + b2) * 2 ^ 32) by (unfold n; lia).
    rewrite Z.mod_add by lia. apply Z.mod_small. lia. }
  assert (E1 : n / 2 ^ 8 = 2 ^ 16 * b0 + 2 ^ 8 * b1 + b2) by (symmetry; apply (Z.div_unique_pos _ _ _ b3); unfold n; lia).
  assert (E2 : n / 2 ^ 8 / 2 ^ 8 = 2 ^ 8 * b0 + b1) by (rewrite E1; symmetry; apply (Z.div_unique_pos _ _ _ b2); lia).
  assert (E3 : n / 2 ^ 24 = b0) by (symmetry; apply (Z.div_unique_pos _ _ _ (2 ^ 16 * b1 + 2 ^ 8 * b2 + b3)); unfold n; lia).
  assert (E4 : n / 2 ^ 8 mod 256 = b2).
  { rewrite E1. symmetry. apply (Z.mod_unique_pos _ _ (2 ^ 8 * b0 + b1)); lia. }
  assert (E5 : n / 2 ^ 8 / 2 ^ 8 mod 256 = b1).
  { rewrite E2. symmetry. apply (Z.mod_unique_pos _ _ b0); lia. }
  rewrite E0, E3, E4, E5. rewrite (Z.mod_small (b2 * 2 ^ 8 * 2 ^ 8)) by lia.
  rewrite (lor_add b3 (b2 * 2 ^ 8 * 2 ^ 8) 24) by lia.
  replace (b3 * 2 ^ 24 + b2 * 2 ^ 8 * 2 ^ 8) with ((b3 * 2 ^ 8 + b2) * 2 ^ 16) by lia.
  rewrite (lor_add _ (b1 * 2 ^ 8) 16) by lia.
  replace ((b3 * 2 ^ 8 + b2) * 2 ^ 16 + b1 * 2 ^ 8) with ((b3 * 2 ^ 16 + b2 * 2 ^ 8 + b1) * 2 ^ 8) by lia.
  rewrite lor_add by lia. lia.
Qed.

Lemma word_bytes w : word w ->
  w = 2 ^ 24 * (w / 2 ^ 24 mod 256) + 2 ^ 16 * (w / 2 ^ 16 mod 256) + 2 ^ 8 * (w / 2 ^ 8 mod 256) + w mod 256.
Proof.
  unfold word. intros Hw. pose proof (Z.div_mod w 256 ltac:(lia)) as E0.
  pose proof (Z.div_mod (w / 2 ^ 8) 256 ltac:(lia)) as E1.
  pose proof (Z.div_mod (w / 2 ^ 16) 256 ltac:(lia)) as E2. pose proof (Z.div_mod (w / 2 ^ 24) 256 ltac:(lia)) as E3.
  rewrite !Z.div_div in E1, E2, E3 by lia. change (2 ^ 8 * 256) with (2 ^ 16) in E1.
  change (2 ^ 16 * 256) with (2 ^ 24) in E2. change (2 ^ 24 * 256) with (2 ^ 32) in E3.
  rewrite (Z.div_small w (2 ^ 32)) in E3 by lia. change (w / 256) with (w / 2 ^ 8) in E0. lia.
Qed.

Lemma le_word_parts x y z t : is_byte x -> is_byte y -> is_byte z -> is_byte t ->
  let n := x + 2 ^ 8 * y + 2 ^ 16 * z + 2 ^ 24 * t in
  n mod 256 = x /\ n / 2 ^ 8 mod 256 = y /\ n / 2 ^ 16 mod 256 = z /\ n / 2 ^ 24 mod 256 = t.
Proof.
  intros Hx Hy Hz Ht n. unfold is_byte in *. split; [|split; [|split]].
  - symmetry. apply (Z.mod_unique_pos _ _ (y + 2 ^ 8 * z + 2 ^ 16 * t)); unfold n; lia.
  - replace (n / 2 ^ 8) with (y + 2 ^ 8 * z + 2 ^ 16 * t) by (apply (Z.div_unique_pos _ _ _ x); unfold n; lia).
    symmetry. apply (Z.mod_unique_pos _ _ (z + 2 ^ 8 * t)); lia.
  - replace (n / 2 ^ 16) with (z + 2 ^ 8 * t) by (apply (Z.div_unique_pos _ _ _ (x + 2 ^ 8 * y)); unfold n; lia).
    symmetry. apply (Z.mod_unique_pos _ _ t); lia.
  - replace (n / 2 ^ 24) with t by (apply (Z.div_unique_pos _ _ _ (x + 2 ^ 8 * y + 2 ^ 16 * z)); unfold n; lia).
    apply Z.mod_small. lia.
Qed.

(** A word of memory, swapped, is the little endian word. *)
Lemma load_word buf o : bytes buf -> 0 <= o -> o + 4 <= zlen buf ->
  exists w, load32 big buf o = Ret w /\ SWAP big w = le32 buf o.
Proof.
  intros Hb Ho Hz. unfold load32. rewrite read_at_ok by lia. next. eexists. split; [reflexivity|].
  rewrite !zn_sub by lia. rewrite Z.add_0_r. unfold le32.
  pose proof (bytes_zn buf o Hb ltac:(lia)). pose proof (bytes_zn buf (o + 1) Hb ltac:(lia)).
  pose proof (bytes_zn buf (o + 2) Hb ltac:(lia)). pose proof (bytes_zn buf (o + 3) Hb ltac:(lia)).
  destruct big; [by apply SWAP_big|done].
Qed.

(** Storing a swapped word stores it in little endian order. *)
Lemma store_word buf o w : word w -> 0 <= o -> o + 4 <= zlen buf ->
  store32 big buf o (SWAP big w) = Ret (blit buf o (le_bytes 4 w)).
Proof.
  intros Hw Ho Hz. unfold store32. set (l := if big then _ else _).
  assert (zlen l = 4) by (unfold l; by destruct big). rewrite write_at_ok by lia. do 2 f_equal. unfold l.
  unfold le_bytes. cbn [seq fmap list_fmap]. change (8 * Z.of_nat 0) with 0. change (8 * Z.of_nat 1) with 8.
  change (8 * Z.of_nat 2) with 16. change (8 * Z.of_nat 3) with 24. change (2 ^ 0) with 1. rewrite Z.div_1_r.
  destruct big; [|done]. cbn [reverse rev_append].
  set (b0 := w mod 256). set (b1 := w / 2 ^ 8 mod 256). set (b2 := w / 2 ^ 16 mod 256). set (b3 := w / 2 ^ 24 mod 256).
  assert (Hb : is_byte b0 /\ is_byte b1 /\ is_byte b2 /\ is_byte b3) by (repeat split; apply Z.mod_pos_bound; lia).
  destruct Hb as (H0 & H1 & H2 & H3). unfold is_byte in *.
  rewrite (word_bytes w Hw). fold b0 b1 b2 b3. rewrite SWAP_big by done.
  destruct (le_word_parts b3 b2 b1 b0) as (-> & -> & -> & ->); done.
Qed.
End Host.

(** ** The 64 steps *)

(** The invocation of [OP] that step [i] of the RFC asks for. *)
Definition step_regs (i : Z) : reg * reg * reg * reg :=
  match i mod 4 with
  | 0 => (RA, RB, RC, RD) | 1 => (RD, RA, RB, RC) | 2 => (RC, RD, RA, RB) | _ => (RB, RC, RD, RA)
  end.
Definition rfc_op (i : Z) : op :=
  let '(a, b, c, d) := step_regs i in
  mk_op (match i / 16 with 0 => FF | 1 => FG | 2 => FH | _ => FI end) a b c d
    (step_word i) (step_rotation i) (T (i + 1)).

(** The table of md5.c is the RFC's, sines included. *)
Lemma ops_rfc : round1 ++ round2 ++ round3 ++ round4 = rfc_op <$> steps.
Proof. vm_compute. reflexivity. Qed.

(** The registers in the roles they have at step [i]. *)
Definition view (i : Z) (v : vars) : regs :=
  let '(a, b, c, d) := step_regs i in (get v a, get v b, get v c, get v d).

Definition words (v : vars) : Prop := forall r, word (get v r).

Lemma wadd_word x y : word (wadd x y).
Proof. unfold word, wadd. apply Z.mod_pos_bound. lia. Qed.

Lemma wadd_4 a b c d : wadd (wadd (wadd a b) c) d = u32 (a + b + c + d).
Proof.
  unfold wadd, u32. rewrite !Zplus_mod_idemp_l, <- Z.add_assoc, Zplus_mod_idemp_l. f_equal. lia.
Qed.

Lemma step_rotation_range i : 0 <= i < 64 -> 0 < step_rotation i < 32.
Proof.
  intros Hi. assert (all_from (fun i => (0 <? step_rotation i) && (step_rotation i <? 32)) 64 0 = true) as E by reflexivity.
  apply (proj1 (all_from_true _ _ _)) with (j := i) in E; [|lia]. lia.
Qed.

Lemma exec_op_words o x v : words v -> words (exec_op o x v).
Proof.
  intros Hv r. unfold exec_op. cbv zeta. set (y := u32 _).
  destruct (o_a o), r; cbn [put get vA vB vC vD]; first [apply u32_word|exact (Hv RA)|exact (Hv RB)|exact (Hv RC)|exact (Hv RD)].
Qed.

Lemma exec_op_rfc X v i : 0 <= i < 64 -> words v ->
  view (i + 1) (exec_op (rfc_op i) (zn X (step_word i)) v) = md5_step X (view i v) i.
Proof.
  intros Hi Hv. unfold md5_step, view, exec_op, rfc_op, step_regs.
  pose proof (Z.mod_pos_bound i 4 ltac:(lia)) as Hm.
  assert (Hf : forall b c d, word b -> word c -> word d ->
    apply_fn (match i / 16 with 0 => FF | 1 => FG | 2 => FH | _ => FI end) b c d = step_function i b c d).
  { intros. rewrite apply_fn_rfc by done. unfold step_function. by destruct (i / 16) as [|[| |]|]; try destruct p. }
  set (f := match i / 16 with 0 => FF | 1 => FG | 2 => FH | _ => FI end) in *. clearbody f.
  pose proof (step_rotation_range i Hi) as Hs.
  assert (Hcase : i mod 4 = 0 /\ (i + 1) mod 4 = 1 \/ i mod 4 = 1 /\ (i + 1) mod 4 = 2 \/
    i mod 4 = 2 /\ (i + 1) mod 4 = 3 \/ i mod 4 = 3 /\ (i + 1) mod 4 = 0).
  { pose proof (Z.div_mod i 4 ltac:(lia)). pose proof (Z.div_mod (i + 1) 4 ltac:(lia)).
    pose proof (Z.mod_pos_bound (i + 1) 4 ltac:(lia)). lia. }
  pose proof (Hv RA). pose proof (Hv RB). pose proof (Hv RC). pose proof (Hv RD). cbn [get] in *.
  destruct Hcase as [[-> ->]|[[-> ->]|[[-> ->]|[-> ->]]]]; cbn [o_f o_a o_b o_c o_d o_k o_s o_T get put vA vB vC vD];
    rewrite wadd_4, Hf, CYCLIC_rotl by (done || apply u32_word); unfold wadd; fold (u32 (vA v)); rewrite ?(Z.add_comm (rotl _ _)); done.
Qed.

Lemma exec_rfc X n : forall i v, words v -> (i + n <= 64)%nat ->
  let w := foldl (fun v o => exec_op o (zn X (o_k o)) v) v (rfc_op <$> (Z.of_nat <$> seq i n)) in
  words w /\ view (Z.of_nat (i + n)) w = foldl (md5_step X) (view (Z.of_nat i) v) (Z.of_nat <$> seq i n).
Proof.
  induction n as [|n IH]; intros i v Hv Hn; cbn [seq fmap list_fmap foldl]; [by rewrite Nat.add_0_r|].
  assert (Ek : o_k (rfc_op (Z.of_nat i)) = step_word (Z.of_nat i)) by (unfold rfc_op; by destruct (step_regs _) as [[[]]]).
  rewrite Ek. destruct (IH (S i) (exec_op (rfc_op (Z.of_nat i)) (zn X (step_word (Z.of_nat i))) v)) as [Hw E];
    [by apply exec_op_words|lia|].
  split; [done|]. replace (i + S n)%nat with (S i + n)%nat by lia. rewrite E.
  replace (Z.of_nat (S i)) with (Z.of_nat i + 1) by lia. by rewrite exec_op_rfc by (done || lia).
Qed.

Section Blocks.
Context (big : bool).

(** Round 1 works on the words of the block and keeps them. *)
Lemma exec_round1_ok buf o ops : forall j cw v,
  bytes buf -> 0 <= o -> o + 64 <= zlen buf -> (j + length ops <= 16)%nat ->
  (o_k <$> ops) = Z.of_nat <$> seq j (length ops) ->
  exec_round1 big ops buf (o + 4 * Z.of_nat j) cw v =
  Ret (foldl (fun v p => exec_op p (le32 buf (o + 4 * o_k p)) v) v ops,
       cw ++ ((fun i => le32 buf (o + 4 * Z.of_nat i)) <$> seq j (length ops)), o + 4 * Z.of_nat (j + length ops)).
Proof.
  induction ops as [|p ops IH]; intros j cw v Hb Ho Hz Hj Hk; cbn [length seq fmap list_fmap exec_round1 foldl].
  { by rewrite app_nil_r, Nat.add_0_r. }
  cbn [length] in *. destruct (load_word big buf (o + 4 * Z.of_nat j) Hb) as (w & E & Ew); [lia..|]. rewrite E. next.
  cbn [fmap list_fmap seq] in Hk. injection Hk as Hk0 Hk. rewrite Ew.
  replace (o + 4 * Z.of_nat j + 4) with (o + 4 * Z.of_nat (S j)) by lia.
  rewrite (IH (S j)) by (done || lia). rewrite Hk0, <- app_assoc.
  replace (S j + length ops)%nat with (j + S (length ops))%nat by lia. done.
Qed.

Lemma zn_fmap_seq (f : nat -> Z) n i : 0 <= i < Z.of_nat n -> zn (f <$> seq 0 n) i = f (Z.to_nat i).
Proof.
  intros Hi. rewrite zn_lookup, list_lookup_fmap, lookup_seq_lt by lia. done.
Qed.

Lemma le32_sub buf o n i : 0 <= o -> o + n <= zlen buf -> 0 <= i -> i + 4 <= n ->
  le32 (sub buf o n) i = le32 buf (o + i).
Proof. intros. unfold le32. rewrite !zn_sub by lia. by rewrite !Z.add_assoc. Qed.

Lemma block_words_sub buf o : 0 <= o -> o + 64 <= zlen buf ->
  block_words (sub buf o 64) = (fun i => le32 buf (o + 4 * Z.of_nat i)) <$> seq 0 16.
Proof.
  intros Ho Hz. unfold block_words. apply list_fmap_ext. intros k i Hk.
  apply lookup_seq in Hk as [-> Hk]. apply le32_sub; lia.
Qed.

Definition regs_of (v : vars) : regs := (vA v, vB v, vC v, vD v).

Lemma foldl_ext_in {A B} (f g : A -> B -> A) l : (forall a b, b ∈ l -> f a b = g a b) -> forall a, foldl f a l = foldl g a l.
Proof.
  intros E. induction l as [|b l IH]; intros a; [done|]. cbn. rewrite E by apply list_elem_of_here.
  apply IH. intros. apply E. by apply list_elem_of_further.
Qed.

Lemma block_turn_ok buf o v : bytes buf -> 0 <= o -> o + 64 <= zlen buf -> words v ->
  exists w, block_turn big buf o v = Ret (w, o + 64) /\ words w /\
    regs_of w = md5_block (regs_of v) (block_words (sub buf o 64)).
Proof.
  intros Hb Ho Hz Hv. unfold block_turn. set (X := block_words (sub buf o 64)).
  pose proof (exec_round1_ok buf o round1 0 [] v Hb Ho Hz ltac:(done) eq_refl) as E1.
  rewrite Z.mul_0_r, Z.add_0_r in E1. rewrite E1. next. rewrite app_nil_l.
  change (length round1) with 16%nat. rewrite <- block_words_sub by done. fold X.
  change (o + 4 * Z.of_nat (0 + 16)) with (o + 64).
  assert (Eall : foldl (fun v p => exec_op p (le32 buf (o + 4 * o_k p)) v) v round1 = exec_rounds round1 X v).
  { apply foldl_ext_in. intros w p Hp. f_equal. unfold X. rewrite block_words_sub by done.
    apply list_elem_of_lookup_1 in Hp as [i Hi].
    assert (Hk : (o_k <$> round1) !! i = Some (o_k p)) by (by rewrite list_lookup_fmap, Hi).
    change (o_k <$> round1) with (Z.of_nat <$> seq 0 16) in Hk. rewrite list_lookup_fmap in Hk.
    destruct (seq 0 16 !! i) as [k|] eqn:Ek; [|done]. injection Hk as <-. apply lookup_seq in Ek as [-> Hlt].
    rewrite zn_fmap_seq by lia. by rewrite Nat2Z.id. }
  rewrite Eall. unfold exec_rounds. rewrite <- foldl_app, ops_rfc.
  destruct (exec_rfc X 64 0 v Hv) as [Hw E]; [done|]. change (Z.of_nat <$> seq 0 64) with steps in *.
  set (w := foldl _ v (rfc_op <$> steps)) in *. clearbody w.
  eexists. split; [reflexivity|]. split; [intros []; apply u32_word|].
  unfold md5_block. change (view (Z.of_nat 0) v) with (regs_of v) in E. rewrite <- E.
  change (view (Z.of_nat (0 + 64)) w) with (regs_of w). unfold regs_of, add_regs, wadd, u32. cbn [vA vB vC vD]. by rewrite (Z.add_comm (vA v)), (Z.add_comm (vB v)), (Z.add_comm (vC v)), (Z.add_comm (vD v)).
Qed.

Lemma chain_S_sub n r buf o : 0 <= o -> 64 * Z.of_nat (S n) <= zlen buf - o ->
  chain (S n) r (sub buf o (64 * Z.of_nat (S n))) =
  chain n (md5_block r (block_words (sub buf o 64))) (sub buf (o + 64) (64 * Z.of_nat n)).
Proof.
  intros Ho Hz. cbn [chain]. replace (64 * Z.of_nat (S n)) with (64 + 64 * Z.of_nat n) by lia.
  rewrite sub_split by lia. assert (Hl : zlen (sub buf o 64) = 64) by (zsimpl; lia).
  unfold ztake, zdrop. rewrite take_app_le, drop_app_ge by (unfold zlen in Hl; lia).
  rewrite take_ge by (unfold zlen in Hl; lia).
  replace (Z.to_nat 64 - length (sub buf o 64))%nat with O by (unfold zlen in Hl; lia). by rewrite drop_0.
Qed.

Lemma block_loop_ok buf endp turns : forall n o v,
  bytes buf -> 0 <= o -> endp = o + 64 * Z.of_nat n -> endp <= zlen buf -> words v -> (n <= turns)%nat ->
  exists w, block_loop big turns buf o endp v = Ret w /\ words w /\
    regs_of w = chain n (regs_of v) (sub buf o (64 * Z.of_nat n)).
Proof.
  induction turns as [|turns IH]; intros n o v Hb Ho He Hz Hv Hn; cbn [block_loop].
  { destruct (Z.ltb_spec o endp); [lia|]. exists v. split; [done|]. split; [done|].
    by replace n with O by lia. }
  destruct (Z.ltb_spec o endp).
  - destruct n as [|n]; [lia|]. destruct (block_turn_ok buf o v Hb Ho ltac:(lia) Hv) as (w & -> & Hw & Ew). next.
    destruct (IH n (o + 64) w Hb ltac:(lia) ltac:(lia) Hz Hw ltac:(lia)) as (x & E & Hx & Ex).
    exists x. split; [done|]. split; [done|]. rewrite Ex, Ew, chain_S_sub by lia. done.
  - exists v. split; [done|]. split; [done|]. by replace n with O by lia.
Qed.
End Blocks.
