(* ===== verification/Md5Digest.v ===== *)
(** * libmd5sum: the digest does not depend on how the message is fed

    A context represents the message it was fed; [md5_process_bytes] appends to
    it whatever the sizes of the pieces, [md5_finish_ctx] gives the digest of RFC
    1321, and so do [md5_buffer] and [md5_stream]. *)
From S2P Require Import Prelude MpegIO Md5Spec Md5 Md5Block.

(** ** Chains of blocks *)
Lemma ztake_ztake {A} n m (l : list A) : 0 <= n <= m -> ztake n (ztake m l) = ztake n l.
Proof. intros. unfold ztake. rewrite take_take. f_equal. lia. Qed.

Lemma zdrop_zdrop {A} n m (l : list A) : 0 <= n -> 0 <= m -> zdrop n (zdrop m l) = zdrop (m + n) l.
Proof. intros. unfold zdrop. rewrite drop_drop. f_equal. lia. Qed.

Lemma chain_take k : forall r l, chain k r (ztake (64 * Z.of_nat k) l) = chain k r l.
Proof.
  induction k as [|k IH]; intros r l; [done|]. cbn [chain]. rewrite ztake_ztake by lia.
  rewrite <- (IH _ (zdrop 64 l)). f_equal. unfold ztake, zdrop.
  rewrite take_drop_commute. do 2 f_equal. lia.
Qed.

Lemma chain_add q k : forall r l, chain (q + k) r l = chain k (chain q r l) (zdrop (64 * Z.of_nat q) l).
Proof.
  induction q as [|q IH]; intros r l; [done|]. cbn [chain Nat.add]. rewrite IH, zdrop_zdrop by lia. do 2 f_equal. lia.
Qed.

Lemma chain_app q r m l : 64 * Z.of_nat q <= zlen m -> chain q r (m ++ l) = chain q r m.
Proof.
  intros H. rewrite <- (chain_take q r (m ++ l)), <- (chain_take q r m). f_equal. unfold ztake.
  apply take_app_le. unfold zlen in H. lia.
Qed.

(** ** Arithmetic of the counters *)
Lemma blocks_64 n : word n -> blocks n = 64 * (n / 64).
Proof.
  unfold word. intros Hn. unfold blocks. change (Z.lxor 63 0xffffffff) with (Z.shiftl (Z.ones 26) 6).
  rewrite land_field by lia. change (2 ^ 6) with 64. rewrite Z.mod_small; [lia|].
  split; [apply Z.div_pos; lia|]. apply Z.div_lt_upper_bound; lia.
Qed.

Lemma land_63 n : Z.land n 63 = n mod 64.
Proof. change 63 with (Z.ones 6). by rewrite land_mask. Qed.

(** The carry of the double word increment. *)
Lemma count_carry t0 t1 n : word t0 -> word t1 -> word n ->
  let t0' := u32 (t0 + n) in
  let t1' := if t0' <? n then u32 (t1 + 1) else t1 in
  word t0' /\ word t1' /\ t0' + 2 ^ 32 * t1' = (t0 + 2 ^ 32 * t1 + n) mod 2 ^ 64.
Proof.
  intros H0 H1 Hn t0' t1'. split; [apply u32_word|]. split; [unfold t1'; destruct (t0' <? n); [apply u32_word|done]|].
  unfold word in *. unfold t1', t0', u32.
  destruct (Z.lt_ge_cases (t0 + n) (2 ^ 32)).
  - rewrite (Z.mod_small (t0 + n)) by lia. destruct (Z.ltb_spec (t0 + n) n); [lia|].
    symmetry. rewrite Z.mod_small; lia.
  - replace ((t0 + n) mod 2 ^ 32) with (t0 + n - 2 ^ 32) by (apply (Z.mod_unique_pos _ _ 1); lia).
    destruct (Z.ltb_spec (t0 + n - 2 ^ 32) n); [|lia].
    destruct (Z.eq_dec t1 (2 ^ 32 - 1)) as [->|].
    + change ((2 ^ 32 - 1 + 1) mod 2 ^ 32) with 0. apply (Z.mod_unique_pos _ _ 1); lia.
    + rewrite (Z.mod_small (t1 + 1)) by lia. symmetry. rewrite Z.mod_small; lia.
Qed.

(** ** Contexts *)
Definition ctx_vars (ctx : md5_ctx) : vars := mk_vars (cA ctx) (cB ctx) (cC ctx) (cD ctx).
Definition total (ctx : md5_ctx) : Z := total0 ctx + 2 ^ 32 * total1 ctx.

Record ctx_ok (ctx : md5_ctx) : Prop := {
  co_words : words (ctx_vars ctx);
  co_total0 : word (total0 ctx);
  co_total1 : word (total1 ctx);
  co_buffer : zlen (buffer ctx) = 128;
  co_bytes : bytes (buffer ctx) }.

(** [ctx] was fed the message [m]: its first [q] blocks are processed, the rest,
    at most a whole block, waits in the buffer. *)
Record rep (ctx : md5_ctx) (m : list Z) (q : nat) : Prop := {
  rep_ok : ctx_ok ctx;
  rep_message : bytes m;
  rep_buflen : buflen ctx = zlen m - 64 * Z.of_nat q;
  rep_range : 0 <= buflen ctx <= 64;
  rep_regs : regs_of (ctx_vars ctx) = chain q init_regs m;
  rep_total : total ctx = (64 * Z.of_nat q) mod 2 ^ 64;
  rep_rest : sub (buffer ctx) 0 (buflen ctx) = sub m (64 * Z.of_nat q) (buflen ctx) }.

Section Host.
Context (big : bool).

Lemma process_block_ok buf o n ctx : bytes buf -> 0 <= o -> o + 64 * Z.of_nat n <= zlen buf ->
  64 * Z.of_nat n < 2 ^ 32 -> ctx_ok ctx ->
  exists ctx', md5_process_block big buf o (64 * Z.of_nat n) ctx = Ret ctx' /\ ctx_ok ctx' /\
    regs_of (ctx_vars ctx') = chain n (regs_of (ctx_vars ctx)) (sub buf o (64 * Z.of_nat n)) /\
    total ctx' = (total ctx + 64 * Z.of_nat n) mod 2 ^ 64 /\
    buflen ctx' = buflen ctx /\ buffer ctx' = buffer ctx.
Proof.
  intros Hb Ho Hz Hn [Hw H0 H1 Hbuf Hby]. unfold md5_process_block.
  replace (4 * (64 * Z.of_nat n / 4)) with (64 * Z.of_nat n)
    by (replace (64 * Z.of_nat n) with (16 * Z.of_nat n * 4) by lia; rewrite Z.div_mul by lia; lia).
  destruct (block_loop_ok big buf (o + 64 * Z.of_nat n) (Z.to_nat (64 * Z.of_nat n)) n o (ctx_vars ctx))
    as (w & E & Hw' & Ew); [done|done|done|done|done|lia|].
  unfold ctx_vars in E. cbv zeta. rewrite E. next. eexists. split; [reflexivity|].
  destruct (count_carry (total0 ctx) (total1 ctx) (64 * Z.of_nat n)) as (C0 & C1 & C2); [done|done|unfold word; lia|].
  split; [|split; [|split; [|done]]].
  - by split.
  - by destruct w.
  - done.
Qed.

(** Appending to a represented message what [process_block] took from a buffer. *)
Lemma rep_blocks ctx m d n ctx' q r : rep ctx m q -> bytes d ->
  buflen ctx + zlen d = 64 * Z.of_nat n + r -> 0 <= r <= 64 ->
  ctx_ok ctx' ->
  regs_of (ctx_vars ctx') = chain n (regs_of (ctx_vars ctx)) (sub (m ++ d) (64 * Z.of_nat q) (64 * Z.of_nat n)) ->
  total ctx' = (total ctx + 64 * Z.of_nat n) mod 2 ^ 64 -> buflen ctx' = r ->
  sub (buffer ctx') 0 r = sub (m ++ d) (64 * Z.of_nat (q + n)) r ->
  rep ctx' (m ++ d) (q + n).
Proof.
  intros [Hok Hm Hbl Hr Hrg Ht _] Hd Hz Hr' Hok' Hrg' Ht' Hbl' Hrest. split; try done.
  - by apply bytes_app.
  - rewrite Hbl', zlen_app. lia.
  - lia.
  - rewrite Hrg', Hrg, chain_add, chain_app by lia. unfold sub. apply chain_take.
  - rewrite Ht', Ht, Zplus_mod_idemp_l. f_equal. lia.
  - by rewrite Hbl'.
Qed.

(** The waiting bytes and the new ones lie in the buffer as in the message. *)
Lemma buffer_begun ctx m q d add : rep ctx m q -> 0 <= add <= zlen d -> buflen ctx + add <= 128 ->
  let b := blit (buffer ctx) (buflen ctx) (sub d 0 add) in
  let n := buflen ctx + add in
  zlen b = 128 /\ sub b 0 n = sub (m ++ ztake add d) (64 * Z.of_nat q) n.
Proof.
  intros Hrep Hadd Hn b n. pose proof (co_buffer _ (rep_ok _ _ _ Hrep)) as Hz. pose proof (rep_range _ _ _ Hrep).
  pose proof (rep_buflen _ _ _ Hrep) as Hbl. split; [unfold b; zsimpl; lia|].
  unfold n. rewrite (sub_split b) by lia. unfold b at 1. rewrite sub_blit_before by (zsimpl; lia).
  rewrite (rep_rest _ _ _ Hrep). rewrite Z.add_0_l. replace add with (zlen (sub d 0 add)) at 1 by (zsimpl; lia).
  unfold b. rewrite sub_blit_eq by (zsimpl; lia).
  rewrite (sub_split (m ++ _)) by lia. f_equal; [by rewrite sub_app_l by lia|].
  rewrite sub_app_r by lia. replace (64 * Z.of_nat q + buflen ctx - zlen m) with 0 by lia.
  rewrite <- sub_from_0, sub_sub by lia. done.
Qed.

Lemma process_begun_ok d ctx m q len : rep ctx m q -> bytes d -> 0 < buflen ctx -> 0 <= len <= zlen d -> len < 2 ^ 32 ->
  exists ctx' q' add, process_begun big d len ctx = Ret (ctx', add) /\ 0 <= add <= len /\
    rep ctx' (m ++ ztake add d) q' /\ (add = len \/ buflen ctx' = 0).
Proof.
  intros Hrep Hd Hbl Hlen Hmax. pose proof (rep_range _ _ _ Hrep) as Hr. unfold process_begun.
  assert (Hu : u32 (128 - buflen ctx) = 128 - buflen ctx) by (unfold u32; apply Z.mod_small; lia).
  rewrite Hu. set (add := if 128 - buflen ctx >? len then len else 128 - buflen ctx).
  assert (Hadd : add = Z.min len (128 - buflen ctx)) by (unfold add; destruct (Z.gtb_spec (128 - buflen ctx) len); lia).
  clearbody add. pose proof (rep_ok _ _ _ Hrep) as Hok. pose proof (co_buffer _ Hok) as Hzb.
  rewrite memcpy_ok by lia. next. cbv zeta.
  assert (Hu2 : u32 (buflen ctx + add) = buflen ctx + add) by (unfold u32; apply Z.mod_small; lia). rewrite Hu2.
  destruct (buffer_begun ctx m q d add Hrep ltac:(lia) ltac:(lia)) as [Hz Hsub].
  set (b := blit _ _ _) in *. set (n := buflen ctx + add) in *.
  assert (Hbb : bytes b) by (apply bytes_blit; [apply Hok|by apply bytes_sub]).
  assert (Htk : zlen (ztake add d) = add) by (zsimpl; lia).
  assert (Htb : bytes (ztake add d)) by (rewrite <- sub_from_0; by apply bytes_sub).
  set (c := ctx <| buffer := b |> <| buflen := n |>).
  assert (Hc : ctx_ok c) by (by destruct Hok; split).
  destruct (Z.gtb_spec n 64) as [Hn|Hn].
  - assert (Hk : exists k, blocks n = 64 * Z.of_nat k /\ n = 64 * Z.of_nat k + n mod 64).
    { exists (Z.to_nat (n / 64)). rewrite blocks_64, Z2Nat.id by (unfold word; lia || apply Z.div_pos; lia).
      split; [done|]. apply Z.div_mod. lia. }
    destruct Hk as (k & Ek & En). pose proof (Z.mod_pos_bound n 64 ltac:(lia)) as Hm. rewrite Ek, land_63. change (buffer c) with b.
    destruct (process_block_ok b 0 k c Hbb) as (c' & -> & Hc' & Hrg & Ht & Hl' & Hb'); [lia|lia|lia|done|]. next.
    rewrite Hb'. change (buffer c) with b. rewrite memcpy_ok by lia. next.
    eexists _, (q + k)%nat, add. split; [reflexivity|]. split; [lia|]. split; [|cbn; lia].
    assert (Hsub2 : forall x y, 0 <= x -> 0 <= y -> x + y <= n -> sub b x y = sub (m ++ ztake add d) (64 * Z.of_nat q + x) y).
    { intros x y ? ? ?. replace (sub b x y) with (sub (sub b 0 n) x y) by (rewrite sub_sub by lia; done).
      by rewrite Hsub, sub_sub by lia. }
    apply (rep_blocks ctx m _ k _ q (n mod 64) Hrep Htb); try done; try (cbn; lia).
    + destruct Hc'. split; try done; cbn; [zsimpl; lia|by apply bytes_blit; [|apply bytes_sub]].
    + etransitivity; [exact Hrg|]. rewrite Hsub2 by lia. by rewrite Z.add_0_r.
    + cbn. replace (n mod 64) with (zlen (sub b (64 * Z.of_nat k) (n mod 64))) at 2 by (zsimpl; lia).
      rewrite sub_blit_eq by (zsimpl; lia). rewrite Hsub2 by lia. f_equal. lia.
  - exists c, q, add. split; [done|]. split; [lia|]. split; [|left; lia].
    rewrite <- (Nat.add_0_r q). apply (rep_blocks ctx m _ 0 _ q n Hrep Htb); try done; try (cbn; lia).
    + cbn. rewrite Z.add_0_r, (rep_total _ _ _ Hrep). change (total c) with (total ctx).
      rewrite (rep_total _ _ _ Hrep). by rewrite Z.mod_mod by lia.
    + rewrite Nat.add_0_r. exact Hsub.
Qed.

(** What is left goes into the empty buffer. *)
Lemma process_left_ok d o ctx m q len : rep ctx m q -> buflen ctx = 0 -> bytes d ->
  0 <= o -> 0 <= len <= 64 -> o + len <= zlen d ->
  exists ctx', (if len >? 0 then b ← memcpy (buffer ctx) 0 d o len; Ret (ctx <| buffer := b |> <| buflen := len |>)
                else Ret ctx) = Ret ctx' /\ rep ctx' (m ++ sub d o len) q.
Proof.
  intros Hrep Hbl Hd Ho Hlen Hz. pose proof (rep_ok _ _ _ Hrep) as Hok. pose proof (co_buffer _ Hok) as Hzb.
  destruct (Z.gtb_spec len 0).
  - rewrite memcpy_ok by lia. next. eexists. split; [reflexivity|]. rewrite <- (Nat.add_0_r q).
    assert (Hs : zlen (sub d o len) = len) by (zsimpl; lia).
    apply (rep_blocks ctx m _ 0 _ q len Hrep); try done; try (cbn; lia).
    + by apply bytes_sub.
    + destruct Hok. split; try done; cbn; [zsimpl; lia|by apply bytes_blit; [|apply bytes_sub]].
    + cbn. rewrite Z.add_0_r, (rep_total _ _ _ Hrep). unfold total. cbn.
      pose proof (rep_total _ _ _ Hrep) as Ht. unfold total in Ht. rewrite Ht. by rewrite Z.mod_mod by lia.
    + cbn. rewrite <- Hs at 2. rewrite sub_blit_eq by lia. pose proof (rep_buflen _ _ _ Hrep) as Hm.
      rewrite Nat.add_0_r, sub_app_r by lia. replace (64 * Z.of_nat q - zlen m) with 0 by lia.
      symmetry. apply sub_all. lia.
  - exists ctx. split; [done|]. rewrite sub_neg by lia. by rewrite app_nil_r.
Qed.

Lemma process_rest_ok d o ctx m q len : rep ctx m q -> buflen ctx = 0 \/ len = 0 -> bytes d ->
  0 <= o -> 0 <= len < 2 ^ 32 -> o + len <= zlen d ->
  exists ctx' q', process_rest big d o len ctx = Ret ctx' /\ rep ctx' (m ++ sub d o len) q'.
Proof.
  intros Hrep Hbl Hd Ho Hlen Hz. unfold process_rest. destruct (Z.gtb_spec len 64).
  - assert (buflen ctx = 0) as Hb0 by lia.
    assert (Hk : exists k, blocks len = 64 * Z.of_nat k /\ len = 64 * Z.of_nat k + len mod 64).
    { exists (Z.to_nat (len / 64)). rewrite blocks_64, Z2Nat.id by (unfold word; lia || apply Z.div_pos; lia).
      split; [done|]. apply Z.div_mod. lia. }
    destruct Hk as (k & Ek & En). pose proof (Z.mod_pos_bound len 64 ltac:(lia)) as Hm. rewrite Ek, land_63.
    destruct (process_block_ok d o k ctx Hd) as (c & -> & Hc & Hrg & Ht & Hl & Hb); [lia|lia|lia|apply Hrep|]. next. next.
    assert (Hs : zlen (sub d o (64 * Z.of_nat k)) = 64 * Z.of_nat k) by (zsimpl; lia).
    pose proof (rep_buflen _ _ _ Hrep) as Hbm.
    assert (Hrep' : rep c (m ++ sub d o (64 * Z.of_nat k)) (q + k)).
    { apply (rep_blocks ctx m _ k _ q 0 Hrep); try done; try lia.
      - by apply bytes_sub.
      - rewrite Hrg. rewrite sub_app_r by lia. replace (64 * Z.of_nat q - zlen m) with 0 by lia.
        rewrite (sub_all (sub d o _)) by lia. done. }
    destruct (process_left_ok d (o + 64 * Z.of_nat k) c _ _ (len mod 64) Hrep') as (c' & E & Hc'); [congruence|done|lia..|].
    exists c', (q + k)%nat. split; [done|]. rewrite <- app_assoc, <- sub_split in Hc' by lia.
    by rewrite <- En in Hc'.
  - next. destruct (Z.eq_dec len 0) as [->|].
    + exists ctx, q. split; [done|]. by rewrite sub_0, app_nil_r.
    + destruct (process_left_ok d o ctx m q len Hrep) as (c' & E & Hc'); [lia|done|lia..|]. by exists c', q.
Qed.

(** ** The end of a message *)
Lemma zlen_le_bytes n x : zlen (le_bytes n x) = Z.of_nat n.
Proof. unfold le_bytes, zlen. by rewrite length_fmap, length_seq. Qed.

Lemma le_bytes_split x : le_bytes 8 x = le_bytes 4 (x mod 2 ^ 32) ++ le_bytes 4 (x / 2 ^ 32).
Proof.
  unfold le_bytes. change (seq 0 8) with (seq 0 4 ++ (Nat.add 4 <$> seq 0 4)). rewrite fmap_app, <- list_fmap_compose.
  f_equal; apply list_fmap_ext; intros k i Hi%lookup_seq; cbn [compose]; destruct Hi as [-> Hi].
  - change 256 with (2 ^ 8). rewrite <- !Z.land_ones, <- !Z.shiftr_div_pow2 by lia. apply Z.bits_inj'. intros n Hn.
    rewrite !Z.land_spec, !Z.shiftr_spec, Z.land_spec by lia. destruct (Z.lt_ge_cases n 8).
    + rewrite !Z.ones_spec_low by lia. by rewrite !andb_true_r.
    + rewrite (Z.ones_spec_high 8) by lia. by rewrite !andb_false_r.
  - rewrite Z.div_div by lia. f_equal. f_equal. rewrite <- Z.pow_add_r by lia. f_equal. lia.
Qed.

(** The two words of the length in bits. *)
Lemma length_words t0 t1 n : word t0 -> word t1 -> t0 + 2 ^ 32 * t1 = n mod 2 ^ 64 ->
  let x := (8 * n) mod 2 ^ 64 in
  u32 (Z.shiftl t0 3) = x mod 2 ^ 32 /\ Z.lor (u32 (Z.shiftl t1 3)) (Z.shiftr t0 29) = x / 2 ^ 32.
Proof.
  intros H0 H1 E x. unfold word in H0, H1.
  assert (Ex : x = 8 * t0 mod 2 ^ 32 + 2 ^ 32 * (t1 mod 2 ^ 29 * 2 ^ 3 + t0 / 2 ^ 29)).
  { unfold x. rewrite <- Z.mul_mod_idemp_r, <- E by lia.
    pose proof (Z.div_mod t0 (2 ^ 29) ltac:(lia)) as D0. pose proof (Z.div_mod t1 (2 ^ 29) ltac:(lia)) as D1.
    pose proof (Z.mod_pos_bound t0 (2 ^ 29) ltac:(lia)). pose proof (Z.mod_pos_bound t1 (2 ^ 29) ltac:(lia)).
    assert (0 <= t0 / 2 ^ 29 < 8) by (split; [apply Z.div_pos; lia|apply Z.div_lt_upper_bound; lia]).
    assert (E1 : 8 * t0 mod 2 ^ 32 = 8 * (t0 mod 2 ^ 29)).
    { symmetry. apply (Z.mod_unique_pos _ _ (t0 / 2 ^ 29)); lia. }
    rewrite E1. symmetry. apply (Z.mod_unique_pos _ _ (t1 / 2 ^ 29)); lia. }
  assert (0 <= t0 / 2 ^ 29 < 2 ^ 3) by (split; [apply Z.div_pos; lia|apply Z.div_lt_upper_bound; lia]).
  pose proof (Z.mod_pos_bound (8 * t0) (2 ^ 32) ltac:(lia)).
  unfold u32. rewrite !Z.shiftl_mul_pow2, Z.shiftr_div_pow2 by lia. change (2 ^ 3) with 8 at 1. split.
  - rewrite (Z.mul_comm t0). apply (Z.mod_unique_pos _ _ (t1 mod 2 ^ 29 * 2 ^ 3 + t0 / 2 ^ 29)); lia.
  - replace (t1 * 2 ^ 3 mod 2 ^ 32) with (t1 mod 2 ^ 29 * 2 ^ 3)
      by (change (2 ^ 32) with (2 ^ 29 * 2 ^ 3); by rewrite Z.mul_mod_distr_r by lia).
    rewrite lor_add by lia. apply (Z.div_unique_pos _ _ _ (8 * t0 mod 2 ^ 32)); lia.
Qed.

Lemma zlen_digest r : zlen (digest r) = 16.
Proof. destruct r as [[[a b] c] d]. unfold digest. rewrite !zlen_app, !zlen_le_bytes. done. Qed.

Lemma read_ctx_ok ctx resbuf : ctx_ok ctx -> 16 <= zlen resbuf ->
  md5_read_ctx big ctx resbuf = Ret (blit resbuf 0 (digest (regs_of (ctx_vars ctx)))).
Proof.
  intros Hok Hz. pose proof (co_words ctx Hok) as Hw. unfold md5_read_ctx. pose proof zlen_le_bytes as Hl.
  assert (Hs : forall o l w, word w -> zlen l = o -> o + 4 <= 16 ->
    store32 big (blit resbuf 0 l) o (SWAP big w) = Ret (blit resbuf 0 (l ++ le_bytes 4 w))).
  { intros o l w Hword Hlen Ho. pose proof (zlen_nonneg l). rewrite store_word by (done || zsimpl; lia). f_equal.
    rewrite <- Hlen. replace (zlen l) with (0 + zlen l) by lia. apply blit_blit; rewrite ?Hl; lia. }
  replace resbuf with (blit resbuf 0 []) at 1 by apply blit_nil.
  rewrite (Hs 0 [] (cA ctx) (Hw RA)) by done. next.
  rewrite (Hs 4 _ (cB ctx) (Hw RB)) by (rewrite ?zlen_app, ?Hl; done || lia). next.
  rewrite (Hs 8 _ (cC ctx) (Hw RC)) by (rewrite ?zlen_app, ?Hl; done || lia). next.
  rewrite (Hs 12 _ (cD ctx) (Hw RD)) by (rewrite ?zlen_app, ?Hl; done || lia).
  unfold digest, regs_of, ctx_vars. cbn [vA vB vC vD]. by rewrite <- !app_assoc.
Qed.

(** The padding that [md5_finish_ctx] puts behind [b] waiting bytes. *)
Definition pad_of (b : Z) : Z := if b >=? 56 then 120 - b else 56 - b.

Lemma padding_eq n b q lo hi : 0 <= b <= 64 -> n = 64 * q + b ->
  le_bytes 4 lo ++ le_bytes 4 hi = le_bytes 8 ((8 * n) mod 2 ^ 64) ->
  padding n = sub fillbuf 0 (pad_of b) ++ le_bytes 4 lo ++ le_bytes 4 hi.
Proof.
  intros Hb Hn E. unfold padding. rewrite E, app_assoc. f_equal.
  assert (Ep : (55 - n) mod 64 = pad_of b - 1).
  { unfold pad_of. destruct (Z.geb_spec b 56); symmetry; [apply (Z.mod_unique_pos _ _ (- q - 1))|apply (Z.mod_unique_pos _ _ (- q))]; lia. }
  rewrite Ep. assert (Hp : 1 <= pad_of b <= 64) by (unfold pad_of; destruct (Z.geb_spec b 56); lia).
  rewrite sub_from_0. unfold ztake, fillbuf. replace (Z.to_nat (pad_of b)) with (S (Z.to_nat (pad_of b - 1))) by lia.
  cbn [take app]. f_equal. rewrite take_replicate. f_equal. lia.
Qed.

Lemma pad_of_range b : 0 <= b <= 64 -> 1 <= pad_of b <= 64 /\ (b + pad_of b = 56 \/ b + pad_of b = 120).
Proof. unfold pad_of. destruct (Z.geb_spec b 56); lia. Qed.

(** The padding and the length in the buffer. *)
Lemma finish_memory buf b lo hi : zlen buf = 128 -> 0 <= b <= 64 -> word lo -> word hi ->
  (c ← memcpy buf b fillbuf 0 (pad_of b);
   c ← store32 big c (b + pad_of b) (SWAP big lo);
   store32 big c (b + pad_of b + 4) (SWAP big hi)) =
  Ret (blit buf b (sub fillbuf 0 (pad_of b) ++ le_bytes 4 lo ++ le_bytes 4 hi)).
Proof.
  intros Hz Hb Wlo Whi. destruct (pad_of_range b Hb) as [Hp1 Hp2]. set (pad := pad_of b) in *.
  pose proof zlen_le_bytes as Hl. set (fill := sub fillbuf 0 pad).
  assert (Hfill : zlen fill = pad) by (apply zlen_sub; change (zlen fillbuf) with 64; lia).
  rewrite memcpy_ok by (change (zlen fillbuf) with 64; lia). fold fill. next.
  rewrite store_word by (done || zsimpl; lia). next.
  replace (blit (blit buf b fill) (b + pad) (le_bytes 4 lo)) with (blit buf b (fill ++ le_bytes 4 lo))
    by (rewrite <- Hfill; symmetry; apply blit_blit; rewrite ?Hl; lia).
  rewrite store_word by (done || lia || (rewrite zlen_blit; rewrite ?zlen_app, ?Hl; lia)).
  rewrite app_assoc. f_equal. replace (b + pad + 4) with (b + zlen (fill ++ le_bytes 4 lo)) by (rewrite zlen_app, Hl; lia).
  apply blit_blit; rewrite ?zlen_app, ?Hl; lia.
Qed.

Lemma zlen_padding n b q : 0 <= b <= 64 -> n = 64 * q + b -> zlen (padding n) = pad_of b + 8.
Proof.
  intros Hb Hn. rewrite (padding_eq n b q ((8 * n) mod 2 ^ 64 mod 2 ^ 32) ((8 * n) mod 2 ^ 64 / 2 ^ 32)) by
    (done || symmetry; apply le_bytes_split).
  destruct (pad_of_range b Hb). rewrite !zlen_app, !zlen_le_bytes, zlen_sub; [lia|lia|lia|].
  change (zlen fillbuf) with 64. lia.
Qed.

Lemma padding_bytes n : bytes (padding n).
Proof.
  unfold padding. apply bytes_cons; [done|]. apply bytes_app. split; [by apply bytes_replicate|].
  apply Forall_fmap, Forall_forall. intros i _. apply Z.mod_pos_bound. lia.
Qed.

(** The last one or two blocks. *)
Lemma finish_blocks ctx m q : rep ctx m q -> forall c, ctx_ok c -> ctx_vars c = ctx_vars ctx ->
  buffer c = blit (buffer ctx) (buflen ctx) (padding (zlen m)) ->
  exists c', md5_process_block big (buffer c) 0 (u32 (buflen ctx + pad_of (buflen ctx) + 8)) c = Ret c' /\
    ctx_ok c' /\ digest (regs_of (ctx_vars c')) = md5 m.
Proof.
  intros Hrep c Hc Hv Hbuf. pose proof (rep_range _ _ _ Hrep) as Hb. pose proof (rep_buflen _ _ _ Hrep) as Hbl.
  pose proof (co_buffer _ (rep_ok _ _ _ Hrep)) as Hz. set (b := buflen ctx) in *.
  destruct (pad_of_range b Hb) as [Hp1 Hp2]. pose proof (zlen_padding (zlen m) b (Z.of_nat q) Hb ltac:(lia)) as Hzp.
  assert (Hk : exists k, u32 (b + pad_of b + 8) = 64 * Z.of_nat k /\ b + pad_of b + 8 = 64 * Z.of_nat k).
  { exists (if b + pad_of b =? 56 then 1%nat else 2%nat). unfold u32. rewrite Z.mod_small by lia.
    destruct (Z.eqb_spec (b + pad_of b) 56); lia. }
  destruct Hk as (k & Ek & Ek2). rewrite Ek. pose proof (co_buffer _ Hc).
  destruct (process_block_ok (buffer c) 0 k c (co_bytes _ Hc)) as (c' & -> & Hc' & Hrg & _); [lia|lia|lia|done|].
  exists c'. split; [done|]. split; [done|]. unfold md5. rewrite Hrg, Hv, (rep_regs _ _ _ Hrep). f_equal.
  assert (Hzm : zlen (padded m) = 64 * Z.of_nat (q + k)) by (unfold padded; rewrite zlen_app, Hzp; lia).
  replace (zlen (padded m) / 64) with (Z.of_nat (q + k)) by (rewrite Hzm, Z.mul_comm, Z.div_mul; lia).
  rewrite Nat2Z.id, chain_add.
  unfold padded at 1. rewrite chain_app by lia. f_equal.
  rewrite Hbuf, <- Ek2. replace (b + pad_of b + 8) with (b + zlen (padding (zlen m))) by lia.
  rewrite sub_split by (rewrite ?zlen_blit; lia). rewrite sub_blit_before by lia. rewrite Z.add_0_l, sub_blit_eq by lia.
  rewrite (rep_rest _ _ _ Hrep : sub _ 0 b = _). fold b. unfold padded, zdrop.
  rewrite drop_app_le by (unfold zlen in *; lia). f_equal. unfold sub, ztake, zdrop. apply take_ge.
  rewrite length_drop. unfold zlen in *. lia.
Qed.

Lemma md5_finish_ok ctx m q resbuf : rep ctx m q -> 16 <= zlen resbuf ->
  exists ctx', md5_finish_ctx big ctx resbuf = Ret (ctx', blit resbuf 0 (md5 m)).
Proof.
  intros Hrep Hres. pose proof (rep_ok _ _ _ Hrep) as Hok. pose proof (rep_range _ _ _ Hrep) as Hb.
  pose proof (rep_buflen _ _ _ Hrep) as Hbl. unfold md5_finish_ctx. set (b := buflen ctx) in *. cbv zeta.
  destruct (count_carry (total0 ctx) (total1 ctx) b (co_total0 _ Hok) (co_total1 _ Hok)) as (W0 & W1 & Et); [unfold word; lia|].
  set (t0 := u32 (total0 ctx + b)) in *. set (t1 := if t0 <? b then _ else _) in *. clearbody t0 t1.
  assert (Epad : (if b >=? 56 then u32 (64 + 56 - b) else u32 (56 - b)) = pad_of b).
  { unfold pad_of, u32. destruct (Z.geb_spec b 56); rewrite Z.mod_small; lia. }
  rewrite Epad. set (lo := u32 (Z.shiftl t0 3)). set (hi := Z.lor _ _).
  assert (El : lo = (8 * zlen m) mod 2 ^ 64 mod 2 ^ 32 /\ hi = (8 * zlen m) mod 2 ^ 64 / 2 ^ 32).
  { apply length_words; [done|done|]. rewrite Et. pose proof (rep_total _ _ _ Hrep) as Ht. unfold total in Ht.
    rewrite Ht, Zplus_mod_idemp_l. f_equal. lia. }
  assert (Whi : word hi).
  { destruct El as [_ ->]. pose proof (Z.mod_pos_bound (8 * zlen m) (2 ^ 64) ltac:(lia)).
    split; [apply Z.div_pos; lia|apply Z.div_lt_upper_bound; lia]. }
  assert (Wlo : word lo) by apply u32_word. clearbody lo hi. cbn [buffer set].
  pose proof (finish_memory (buffer ctx) b lo hi (co_buffer _ Hok) Hb Wlo Whi) as Em.
  rewrite <- (padding_eq (zlen m) b (Z.of_nat q) lo hi Hb ltac:(lia)) in Em
    by (destruct El as [-> ->]; symmetry; apply le_bytes_split).
  apply bind_ret_inv in Em as (c1 & E1 & Em). rewrite E1. next.
  apply bind_ret_inv in Em as (c2 & E2 & Em). rewrite E2. next. rewrite Em. next.
  set (c := _ <| buffer := blit _ _ _ |>).
  pose proof (zlen_padding (zlen m) b (Z.of_nat q) Hb ltac:(lia)) as Hzp. destruct (pad_of_range b Hb).
  assert (Hc : ctx_ok c).
  { pose proof (padding_bytes (zlen m)). pose proof (co_buffer _ Hok). destruct Hok. split; try done; cbn [c buffer set].
    - rewrite zlen_blit; lia.
    - by apply bytes_blit. }
  destruct (finish_blocks ctx m q Hrep c Hc) as (c' & E & Hc' & Ed); [done|done|].
  change (buffer c) with (blit (buffer ctx) b (padding (zlen m))) in E. fold b in E. rewrite E. next.
  rewrite read_ctx_ok by done. next. eexists. by rewrite Ed.
Qed.

(** Whatever a context was fed and whatever the size of the next piece, feeding is
    appending. *)
Lemma md5_process_bytes_appends d len ctx m q :
  rep ctx m q -> bytes d -> 0 <= len <= zlen d -> len < 2 ^ 32 ->
  exists ctx' q', md5_process_bytes big d len ctx = Ret ctx' /\ rep ctx' (m ++ ztake len d) q'.
Proof.
  intros Hrep Hd Hlen Hmax. pose proof (rep_range _ _ _ Hrep) as Hr. unfold md5_process_bytes.
  assert (Hsplit : forall add, 0 <= add <= len -> ztake add d ++ sub d add (len - add) = ztake len d).
  { intros add Hadd. rewrite <- !sub_from_0. replace len with (add + (len - add)) at 2 by lia.
    by rewrite (sub_split d 0) by lia. }
  destruct (Z.eqb_spec (buflen ctx) 0) as [H0|H0]; cbn [negb].
  - next. destruct (process_rest_ok d 0 ctx m q (len - 0)) as (c & q' & E & Hc); [done|by left|done|lia..|].
    exists c, q'. split; [done|]. by rewrite <- (Hsplit 0) by lia.
  - destruct (process_begun_ok d ctx m q len Hrep Hd ltac:(lia) Hlen Hmax) as (c & q1 & add & -> & Hadd & Hc & Hor). next.
    destruct (process_rest_ok d add c _ _ (len - add) Hc) as (c' & q' & E & Hc'); [destruct Hor; [right|left]; lia|done|lia..|].
    exists c', q'. split; [done|]. by rewrite <- app_assoc, Hsplit in Hc' by done.
Qed.

(** ** The interface *)
Definition ctx_memory (ctx : md5_ctx) : Prop := zlen (buffer ctx) = 128 /\ bytes (buffer ctx).

Lemma init_rep ctx : ctx_memory ctx -> rep (md5_init_ctx ctx) [] 0.
Proof.
  intros [Hz Hb].
  assert (ctx_ok (md5_init_ctx ctx)) by (split; [by intros []|done..]).
  split; [done|apply bytes_nil|done|done|done|done|done].
Qed.

(** [md5_process_bytes] on the pieces of a message, one after the other. *)
Fixpoint feed_pieces (pieces : list (list Z)) (ctx : md5_ctx) : outcome md5_ctx :=
  match pieces with
  | [] => Ret ctx
  | d :: pieces => ctx ← md5_process_bytes big d (zlen d) ctx; feed_pieces pieces ctx
  end.

Definition piece_ok (d : list Z) : Prop := bytes d /\ zlen d < 2 ^ 32.

Lemma feed_pieces_ok pieces : forall ctx m q, rep ctx m q -> Forall piece_ok pieces ->
  exists ctx' q', feed_pieces pieces ctx = Ret ctx' /\ rep ctx' (m ++ mjoin pieces) q'.
Proof.
  induction pieces as [|d pieces IH]; intros ctx m q Hrep Hp.
  { exists ctx, q. split; [done|]. cbn. by rewrite app_nil_r. }
  apply Forall_cons in Hp as [[Hd Hz] Hp]. cbn [feed_pieces]. pose proof (zlen_nonneg d).
  destruct (md5_process_bytes_appends d (zlen d) ctx m q Hrep Hd ltac:(lia) Hz) as (c & q1 & -> & Hc). next.
  destruct (IH c _ _ Hc Hp) as (c' & q' & E & Hc'). exists c', q'. split; [done|].
  rewrite <- app_assoc in Hc'. rewrite <- sub_from_0, sub_all in Hc' by lia. done.
Qed.

(** C36: the digest is that of RFC 1321, however the message is cut into pieces:
    initialising a context, feeding it any pieces of less than 4 GB and finishing
    writes the MD5 digest of their concatenation, of any length, on hosts of
    either byte order. *)
Theorem md5_pieces_rfc1321 pieces ctx resbuf :
  ctx_memory ctx -> Forall piece_ok pieces -> 16 <= zlen resbuf ->
  exists ctx', (c ← feed_pieces pieces (md5_init_ctx ctx); md5_finish_ctx big c resbuf) =
               Ret (ctx', blit resbuf 0 (md5 (mjoin pieces))).
Proof.
  intros Hc Hp Hr. destruct (feed_pieces_ok pieces _ [] 0 (init_rep ctx Hc) Hp) as (c & q & -> & Hrep). next.
  exact (md5_finish_ok c _ q resbuf Hrep Hr).
Qed.

(** [md5_buffer] is the MD5 digest of RFC 1321 of its buffer. *)
Theorem md5_buffer_rfc1321 buf len ctx resblock :
  ctx_memory ctx -> bytes buf -> 0 <= len <= zlen buf -> len < 2 ^ 32 -> 16 <= zlen resblock ->
  md5_buffer big buf len ctx resblock = Ret (blit resblock 0 (md5 (ztake len buf))).
Proof.
  intros Hc Hb Hl Hm Hr. unfold md5_buffer.
  destruct (md5_process_bytes_appends buf len _ [] 0 (init_rep ctx Hc) Hb Hl Hm) as (c & q & -> & Hrep). next.
  destruct (md5_finish_ok c _ q resblock Hrep Hr) as (c' & ->). next. done.
Qed.

(** ** Files *)
Section Stream.
Variable sys_fread : Z -> Z -> Z.
Variable ferror : bool.

Lemma read_block_ok c p0 turns : reads_of sys_fread c -> 0 <= p0 <= zlen c -> bytes c -> forall buf sum,
  zlen buf = BLOCKSIZE + 72 -> bytes buf -> 0 <= sum < BLOCKSIZE -> p0 + sum <= zlen c ->
  sub buf 0 sum = sub c p0 sum -> BLOCKSIZE - sum < Z.of_nat turns ->
  let n := Z.min BLOCKSIZE (zlen c - p0) in
  exists buf' k, read_block sys_fread turns (mk_file c (p0 + sum)) buf sum = Ret (mk_file c (p0 + n), buf', n, k) /\
    zlen buf' = BLOCKSIZE + 72 /\ bytes buf' /\ sub buf' 0 n = sub c p0 n /\ (k =? 0) = (n <? BLOCKSIZE).
Proof.
  intros Hread Hp0 Hc. change BLOCKSIZE with 4096. induction turns as [|turns IH]; intros buf sum Hz Hb Hs Hp Hsub Ht n; [lia|].
  cbn [read_block]. unfold read, BLOCKSIZE. cbn [fpos content]. pose proof (Hread (p0 + sum) (4096 - sum) ltac:(lia) ltac:(lia)) as Hr.
  set (r := sys_fread _ _) in *. clearbody r. destruct (Z.ltb_spec (p0 + sum) (zlen c)).
  - destruct (Z.gtb_spec r 0); [|lia]. rewrite memcpy_ok by lia. next. next. cbv zeta.
    set (buf1 := blit buf sum (sub c (p0 + sum) r)).
    assert (Hz1 : zlen buf1 = 4096 + 72) by (unfold buf1; zsimpl; lia).
    assert (Hb1 : bytes buf1) by (apply bytes_blit; [done|by apply bytes_sub]).
    assert (Hsub1 : sub buf1 0 (sum + r) = sub c p0 (sum + r)).
    { rewrite !sub_split by lia. unfold buf1. rewrite sub_blit_before by (zsimpl; lia). rewrite Hsub. f_equal.
      rewrite Z.add_0_l. replace r with (zlen (sub c (p0 + sum) r)) at 2 by (zsimpl; lia). apply sub_blit_eq; zsimpl; lia. }
    change ((mk_file c (p0 + sum)) <| fpos := p0 + sum + r |>) with (mk_file c (p0 + sum + r)).
    replace (p0 + sum + r) with (p0 + (sum + r)) by lia.
    destruct (Z.ltb_spec (sum + r) 4096), (Z.eqb_spec r 0); try lia; cbn [andb negb].
    + apply IH; try done; lia.
    + exists buf1, r. assert (n = sum + r) as -> by (unfold n; lia).
      split; [done|]. split; [done|]. split; [done|]. split; [done|].
      destruct (Z.eqb_spec r 0), (Z.ltb_spec (sum + r) 4096); lia || done.
  - rewrite Hr. destruct (Z.gtb_spec 0 0); [lia|]. next. rewrite Z.add_0_r.
    destruct (Z.ltb_spec sum 4096); [|lia]. cbn [andb negb Z.eqb]. exists buf, 0.
    assert (n = sum) as -> by (unfold n; lia). do 4 (split; [done|]).
    destruct (Z.ltb_spec sum 4096); [done|lia].
Qed.

(** A block of the file. *)
Lemma whole_block k ctx c p0 q buf : 64 * Z.of_nat k = 4096 -> rep ctx (ztake p0 c) q -> buflen ctx = 0 -> bytes c -> 0 <= p0 ->
  p0 + 4096 <= zlen c -> bytes buf -> 4096 <= zlen buf -> sub buf 0 4096 = sub c p0 4096 ->
  exists ctx', md5_process_block big buf 0 4096 ctx = Ret ctx' /\ buflen ctx' = 0 /\ rep ctx' (ztake (p0 + 4096) c) (q + k).
Proof.
  intros Hk Hrep Hbl Hc Hp Hz Hb Hzb Hsub.
  rewrite <- Hk in Hsub |- *.
  destruct (process_block_ok buf 0 k ctx Hb) as (c' & E & Hc' & Hrg & Ht & Hl & _); [done|lia|lia|apply Hrep|].
  exists c'. split; [exact E|]. split; [lia|]. pose proof (rep_buflen _ _ _ Hrep) as Hm.
  assert (Htk : zlen (ztake p0 c) = p0) by (zsimpl; lia).
  rewrite <- (sub_from_0 _ (p0 + 64 * Z.of_nat k)), sub_split, sub_from_0, Z.add_0_l by lia.
  assert (Hs : zlen (sub c p0 (64 * Z.of_nat k)) = 64 * Z.of_nat k) by (zsimpl; lia).
  apply (rep_blocks ctx _ _ k _ q 0 Hrep); [by apply bytes_sub|lia|lia|done| |exact Ht|lia|by rewrite !sub_0].
  rewrite Hrg, Hsub. f_equal. rewrite sub_app_r by lia.
  replace (64 * Z.of_nat q - zlen (ztake p0 c)) with 0 by lia. symmetry. apply sub_all. lia.
Qed.

Lemma stream_loop_ok c turns : reads_of sys_fread c -> bytes c -> forall ctx p0 q buf,
  rep ctx (ztake p0 c) q -> buflen ctx = 0 -> 0 <= p0 <= zlen c ->
  zlen buf = BLOCKSIZE + 72 -> bytes buf -> (zlen c - p0) / BLOCKSIZE < Z.of_nat turns ->
  exists buf' sum ctx' q', stream_loop big sys_fread ferror turns (mk_file c p0) buf ctx =
      Ret (if ferror then None else Some (buf', sum, ctx')) /\
    rep ctx' (ztake (zlen c - sum) c) q' /\ buflen ctx' = 0 /\ 0 <= sum <= zlen c /\ sum < BLOCKSIZE /\
    zlen buf' = BLOCKSIZE + 72 /\ bytes buf' /\ sub buf' 0 sum = sub c (zlen c - sum) sum.
Proof.
  intros Hread Hc. change BLOCKSIZE with 4096.
  induction turns as [|turns IH]; intros ctx p0 q buf Hrep Hbl Hp Hz Hb Ht.
  { pose proof (Z.div_pos (zlen c - p0) 4096 ltac:(lia) ltac:(lia)). lia. }
  cbn [stream_loop]. change BLOCKSIZE with 4096.
  assert (Ht1 : 4096 - 0 < Z.of_nat (Z.to_nat 4096 + 1)) by lia. set (t := (Z.to_nat 4096 + 1)%nat) in *. clearbody t.
  destruct (read_block_ok c p0 t Hread Hp Hc buf 0) as (buf1 & k & E & Hz1 & Hb1 & Hs1 & Hk);
    [done|done|unfold BLOCKSIZE; lia|lia|by rewrite !sub_0|unfold BLOCKSIZE; lia|].
  change BLOCKSIZE with 4096 in *. rewrite Z.add_0_r in E. rewrite E. next. rewrite Hk.
  set (n := Z.min 4096 (zlen c - p0)) in *. destruct (Z.ltb_spec n 4096); cbn [andb].
  - assert (n = zlen c - p0) as En by lia. exists buf1, n, ctx, q. split; [by destruct ferror|].
    rewrite En. replace (zlen c - (zlen c - p0)) with p0 by lia. rewrite <- En.
    split; [done|]. split; [done|]. split; [lia|]. split; [lia|]. done.
  - assert (n = 4096) as En by lia. rewrite En in *.
    destruct (whole_block 64 ctx c p0 q buf1 eq_refl Hrep Hbl Hc) as (ctx1 & -> & Hbl1 & Hrep1); [lia|lia|done|lia|done|]. next.
    apply (IH ctx1 (p0 + 4096) (q + 64)%nat buf1 Hrep1); [done|lia|done|done|].
    replace (zlen c - (p0 + 4096)) with (zlen c - p0 + (-1) * 4096) by lia. rewrite Z.div_add by lia. lia.
Qed.

(** C37: [md5_stream] reads the whole file, whatever the sizes of the reads, ends,
    and returns 0 with the MD5 digest of RFC 1321 of the file; when the stream
    reports an error it returns 1 and leaves [resblock] alone. *)
Theorem md5_stream_rfc1321 c turns ctx buf resblock :
  reads_of sys_fread c -> bytes c -> ctx_memory ctx -> zlen buf = BLOCKSIZE + 72 -> bytes buf -> 16 <= zlen resblock ->
  zlen c / BLOCKSIZE < Z.of_nat turns ->
  md5_stream big sys_fread ferror turns (mk_file c 0) ctx buf resblock =
  Ret (if ferror then (1, resblock) else (0, blit resblock 0 (md5 c))).
Proof.
  intros Hread Hc Hctx Hz Hb Hres Ht. unfold md5_stream. pose proof (zlen_nonneg c).
  destruct (stream_loop_ok c turns Hread Hc (md5_init_ctx ctx) 0 0 buf (init_rep ctx Hctx))
    as (buf1 & sum & ctx1 & q & -> & Hrep & Hbl & Hsum & Hlt & Hz1 & Hb1 & Hs1); [done|lia|done|done|by rewrite Z.sub_0_r|].
  next. destruct ferror; [done|].
  assert (exists ctx2 q2, (if sum >? 0 then md5_process_bytes big buf1 sum ctx1 else Ret ctx1) = Ret ctx2 /\ rep ctx2 c q2)
    as (ctx2 & q2 & -> & Hrep2).
  { change BLOCKSIZE with 4096 in *. destruct (Z.gtb_spec sum 0).
    - destruct (md5_process_bytes_appends buf1 sum ctx1 _ q Hrep Hb1) as (x & q2 & E & Hx); [lia|lia|].
      exists x, q2. split; [done|].
      assert (Ec : ztake (zlen c - sum) c ++ sub c (zlen c - sum) sum = c).
      { rewrite <- sub_from_0. pose proof (sub_split c 0 (zlen c - sum) sum) as Es. rewrite Z.add_0_l in Es.
        rewrite <- Es by lia. apply sub_all. lia. }
      by rewrite <- (sub_from_0 buf1), Hs1, Ec in Hx.
    - exists ctx1, q. split; [done|]. replace (zlen c - sum) with (zlen c) in Hrep by lia.
      rewrite <- sub_from_0, sub_all in Hrep by lia. done. }
  next. destruct (md5_finish_ok ctx2 c q2 resblock Hrep2 Hres) as (x & ->). next. done.
Qed.
End Stream.
End Host.

(** ** Witnesses: the digest of "abc" *)
Definition abc : list Z := [0x61; 0x62; 0x63].
Definition abc_digest : list Z :=
  [0x90; 0x01; 0x50; 0x98; 0x3c; 0xd2; 0x4f; 0xb0; 0xd6; 0x96; 0x3f; 0x7d; 0x28; 0xe1; 0x7f; 0x72].
Definition stale_ctx : md5_ctx := mk_ctx 1 2 3 4 5 6 7 (replicate 128 0xaa).

Lemma stale_ctx_memory : ctx_memory stale_ctx.
Proof. split; [reflexivity|by apply bytes_replicate]. Qed.

Lemma md5_of_abc : md5 abc = abc_digest.
Proof. exact md5_abc. Qed.

Lemma abc_bytes : bytes abc.
Proof. repeat apply bytes_cons; done || apply bytes_nil. Qed.

Lemma md5_pieces_rfc1321_witness : exists ctx',
  (c ← feed_pieces true [[0x61]; []; [0x62; 0x63]] (md5_init_ctx stale_ctx); md5_finish_ctx true c (replicate 16 0)) =
  Ret (ctx', abc_digest).
Proof.
  destruct (md5_pieces_rfc1321 true [[0x61]; []; [0x62; 0x63]] stale_ctx (replicate 16 0)) as (c & E).
  - apply stale_ctx_memory.
  - repeat (apply Forall_cons_2; [split; [repeat apply bytes_cons; done || apply bytes_nil|reflexivity]|]). apply Forall_nil_2.
  - done.
  - exists c. rewrite E. change (mjoin [[0x61]; []; [0x62; 0x63]]) with abc. rewrite md5_of_abc. reflexivity.
Defined.

Lemma md5_buffer_rfc1321_witness :
  md5_buffer false (abc ++ [0x64]) 3 stale_ctx (replicate 16 0) = Ret abc_digest.
Proof.
  rewrite (md5_buffer_rfc1321 false (abc ++ [0x64]) 3 stale_ctx (replicate 16 0)).
  - change (ztake 3 (abc ++ [0x64])) with abc. rewrite md5_of_abc. reflexivity.
  - apply stale_ctx_memory.
  - apply bytes_app. split; [apply abc_bytes|]. repeat apply bytes_cons; done || apply bytes_nil.
  - done.
  - done.
  - done.
Defined.

Lemma md5_stream_rfc1321_witness :
  md5_stream true (byte_reads abc) false 1 (mk_file abc 0) stale_ctx (replicate (Z.to_nat (BLOCKSIZE + 72)) 0) (replicate 16 0) =
  Ret (0, abc_digest).
Proof.
  rewrite (md5_stream_rfc1321 true (byte_reads abc) false abc 1 stale_ctx).
  - rewrite md5_of_abc. reflexivity.
  - apply byte_reads_ok.
  - apply abc_bytes.
  - apply stale_ctx_memory.
  - reflexivity.
  - by apply bytes_replicate.
  - done.
  - done.
Defined.
