(* ===== verification/Transform.v ===== *)
(** * Conversion helpers of libmpegtools

    apps/misc/libs/libmpegtools/transform.c and the conversions of ctools.c that
    build on it: the CRC of section data, the coding of time stamps, the header
    of a transport packet, the tables that [insert_pat_pmt] writes, and [p_to_t],
    which cuts a PES packet into transport packets. *)
From S2P Require Import Prelude TsPacket PesPacket PsPacket.

(** ** CRC *)
Definition crc_table : list Z :=
  [0x00000000; 0x04c11db7; 0x09823b6e; 0x0d4326d9; 0x130476dc; 0x17c56b6b;
   0x1a864db2; 0x1e475005; 0x2608edb8; 0x22c9f00f; 0x2f8ad6d6; 0x2b4bcb61;
   0x350c9b64; 0x31cd86d3; 0x3c8ea00a; 0x384fbdbd; 0x4c11db70; 0x48d0c6c7;
   0x4593e01e; 0x4152fda9; 0x5f15adac; 0x5bd4b01b; 0x569796c2; 0x52568b75;
   0x6a1936c8; 0x6ed82b7f; 0x639b0da6; 0x675a1011; 0x791d4014; 0x7ddc5da3;
   0x709f7b7a; 0x745e66cd; 0x9823b6e0; 0x9ce2ab57; 0x91a18d8e; 0x95609039;
   0x8b27c03c; 0x8fe6dd8b; 0x82a5fb52; 0x8664e6e5; 0xbe2b5b58; 0xbaea46ef;
   0xb7a96036; 0xb3687d81; 0xad2f2d84; 0xa9ee3033; 0xa4ad16ea; 0xa06c0b5d;
   0xd4326d90; 0xd0f37027; 0xddb056fe; 0xd9714b49; 0xc7361b4c; 0xc3f706fb;
   0xceb42022; 0xca753d95; 0xf23a8028; 0xf6fb9d9f; 0xfbb8bb46; 0xff79a6f1;
   0xe13ef6f4; 0xe5ffeb43; 0xe8bccd9a; 0xec7dd02d; 0x34867077; 0x30476dc0;
   0x3d044b19; 0x39c556ae; 0x278206ab; 0x23431b1c; 0x2e003dc5; 0x2ac12072;
   0x128e9dcf; 0x164f8078; 0x1b0ca6a1; 0x1fcdbb16; 0x018aeb13; 0x054bf6a4;
   0x0808d07d; 0x0cc9cdca; 0x7897ab07; 0x7c56b6b0; 0x71159069; 0x75d48dde;
   0x6b93dddb; 0x6f52c06c; 0x6211e6b5; 0x66d0fb02; 0x5e9f46bf; 0x5a5e5b08;
   0x571d7dd1; 0x53dc6066; 0x4d9b3063; 0x495a2dd4; 0x44190b0d; 0x40d816ba;
   0xaca5c697; 0xa864db20; 0xa527fdf9; 0xa1e6e04e; 0xbfa1b04b; 0xbb60adfc;
   0xb6238b25; 0xb2e29692; 0x8aad2b2f; 0x8e6c3698; 0x832f1041; 0x87ee0df6;
   0x99a95df3; 0x9d684044; 0x902b669d; 0x94ea7b2a; 0xe0b41de7; 0xe4750050;
   0xe9362689; 0xedf73b3e; 0xf3b06b3b; 0xf771768c; 0xfa325055; 0xfef34de2;
   0xc6bcf05f; 0xc27dede8; 0xcf3ecb31; 0xcbffd686; 0xd5b88683; 0xd1799b34;
   0xdc3abded; 0xd8fba05a; 0x690ce0ee; 0x6dcdfd59; 0x608edb80; 0x644fc637;
   0x7a089632; 0x7ec98b85; 0x738aad5c; 0x774bb0eb; 0x4f040d56; 0x4bc510e1;
   0x46863638; 0x42472b8f; 0x5c007b8a; 0x58c1663d; 0x558240e4; 0x51435d53;
   0x251d3b9e; 0x21dc2629; 0x2c9f00f0; 0x285e1d47; 0x36194d42; 0x32d850f5;
   0x3f9b762c; 0x3b5a6b9b; 0x0315d626; 0x07d4cb91; 0x0a97ed48; 0x0e56f0ff;
   0x1011a0fa; 0x14d0bd4d; 0x19939b94; 0x1d528623; 0xf12f560e; 0xf5ee4bb9;
   0xf8ad6d60; 0xfc6c70d7; 0xe22b20d2; 0xe6ea3d65; 0xeba91bbc; 0xef68060b;
   0xd727bbb6; 0xd3e6a601; 0xdea580d8; 0xda649d6f; 0xc423cd6a; 0xc0e2d0dd;
   0xcda1f604; 0xc960ebb3; 0xbd3e8d7e; 0xb9ff90c9; 0xb4bcb610; 0xb07daba7;
   0xae3afba2; 0xaafbe615; 0xa7b8c0cc; 0xa379dd7b; 0x9b3660c6; 0x9ff77d71;
   0x92b45ba8; 0x9675461f; 0x8832161a; 0x8cf30bad; 0x81b02d74; 0x857130c3;
   0x5d8a9099; 0x594b8d2e; 0x5408abf7; 0x50c9b640; 0x4e8ee645; 0x4a4ffbf2;
   0x470cdd2b; 0x43cdc09c; 0x7b827d21; 0x7f436096; 0x7200464f; 0x76c15bf8;
   0x68860bfd; 0x6c47164a; 0x61043093; 0x65c52d24; 0x119b4be9; 0x155a565e;
   0x18197087; 0x1cd86d30; 0x029f3d35; 0x065e2082; 0x0b1d065b; 0x0fdc1bec;
   0x3793a651; 0x3352bbe6; 0x3e119d3f; 0x3ad08088; 0x2497d08d; 0x2056cd3a;
   0x2d15ebe3; 0x29d4f654; 0xc5a92679; 0xc1683bce; 0xcc2b1d17; 0xc8ea00a0;
   0xd6ad50a5; 0xd26c4d12; 0xdf2f6bcb; 0xdbee767c; 0xe3a1cbc1; 0xe760d676;
   0xea23f0af; 0xeee2ed18; 0xf0a5bd1d; 0xf464a0aa; 0xf9278673; 0xfde69bc4;
   0x89b8fd09; 0x8d79e0be; 0x803ac667; 0x84fbdbd0; 0x9abc8bd5; 0x9e7d9662;
   0x933eb0bb; 0x97ffad0c; 0xafb010b1; 0xab710d06; 0xa6322bdf; 0xa2f33668;
   0xbcb4666d; 0xb8757bda; 0xb5365d03; 0xb1f740b4].

(** One turn of the loops of [calc_crc32] and [calc_crc32psi]. *)
Definition crc_turn (crc b : Z) : Z :=
  Z.lxor (u32 (Z.shiftl crc 8)) (zn crc_table (Z.land (Z.lxor (Z.shiftr crc 24) b) 0xff)).

Fixpoint crc_loop (n : nat) (src : list Z) (o crc : Z) : outcome Z :=
  match n with
  | O => Ret crc
  | S n => b ← load src o; crc_loop n src (o + 1) (crc_turn crc b)
  end.

(** [len] is a [uint8_t]. *)
Definition calc_crc32 (sec : list Z) (o len : Z) : outcome Z := crc_loop (Z.to_nat (u8 len)) sec o 0xffffffff.

(** The result and the array [dst], if there is one. *)
Definition calc_crc32psi (dst : option (list Z)) (src : list Z) (len : Z) : outcome (option (list Z) * Z) :=
  crc ← crc_loop (Z.to_nat len) src 0 0xffffffff;
  match dst with
  | None => Ret (None, crc)
  | Some d =>
    d ← write_at d 0 [Z.land (Z.shiftr crc 24) 0xff];
    d ← write_at d 1 [Z.land (Z.shiftr crc 16) 0xff];
    d ← write_at d 2 [Z.land (Z.shiftr crc 8) 0xff];
    d ← write_at d 3 [Z.land crc 0xff];
    Ret (Some d, crc)
  end.

(** ** Time stamps *)
Definition trans_pts_dts (pts : list Z) : outcome Z :=
  p0 ← load pts 0; p1 ← load pts 1; p2 ← load pts 2; p3 ← load pts 3; p4 ← load pts 4;
  let wts := Z.shiftl (Z.lor (Z.shiftl (Z.land p0 0x0E) 5) (Z.shiftr (Z.land p1 0xFC) 2)) 24 in
  let wts := Z.lor wts (Z.shiftl (Z.lor (Z.shiftl (Z.land p1 0x03) 6) (Z.shiftr (Z.land p2 0xFC) 2)) 16) in
  let wts := Z.lor wts (Z.shiftl (Z.lor (Z.shiftl (Z.land p2 0x02) 6) (Z.shiftr (Z.land p3 0xFE) 1)) 8) in
  Ret (Z.lor wts (Z.lor (Z.shiftl (Z.land p3 0x01) 7) (Z.shiftr (Z.land p4 0xFE) 1))).

Definition get_pespts (av_pts pts : list Z) : outcome (list Z) :=
  a0 ← load av_pts 0; a1 ← load av_pts 1; a2 ← load av_pts 2; a3 ← load av_pts 3;
  pts ← write_at pts 0 [Z.lor 0x21 (Z.shiftr (Z.land a0 0xC0) 5)];
  pts ← write_at pts 1 [u8 (Z.lor (Z.shiftl (Z.land a0 0x3F) 2) (Z.shiftr (Z.land a1 0xC0) 6))];
  pts ← write_at pts 2 [u8 (Z.lor (Z.lor 0x01 (Z.shiftl (Z.land a1 0x3F) 2)) (Z.shiftr (Z.land a2 0x80) 6))];
  pts ← write_at pts 3 [u8 (Z.lor (Z.shiftl (Z.land a2 0x7F) 1) (Z.shiftr (Z.land a3 0x80) 7))];
  write_at pts 4 [u8 (Z.lor 0x01 (Z.shiftl (Z.land a3 0x7F) 1))].

(** ** The header of a transport packet *)

(** [for (i = 6; i < fill+4; i++) buf[i] = 0xFF, c++]. *)
Fixpoint fill_ff (n : nat) (buf : list Z) (i c : Z) : outcome (list Z * Z) :=
  match n with
  | O => Ret (buf, c)
  | S n => buf ← write_at buf i [0xFF]; fill_ff n buf (i + 1) (c + 1)
  end.

(** The array, the counter and the length of the header. *)
Definition write_ts_header (pid counter : Z) (pes_start : bool) (buf : list Z) (length : Z)
  : outcome (list Z * Z * Z) :=
  let length := u8 length in
  let fill := TS_SIZE - 4 - length in
  let h1 := Z.lor (if pes_start then 0x40 else 0x00) (u8 (Z.shiftr (Z.land pid 0x1F00) 8)) in
  let h2 := u8 (Z.land pid 0x00FF) in
  let h3 := Z.lor (if negb (fill =? 0) then 0x30 else 0x10) (Z.land counter 0x0F) in
  let counter := u8 (counter + 1) in
  buf ← write_at buf 0 [0x47; h1; h2; h3];
  if negb (fill =? 0) then
    buf ← write_at buf 4 [u8 (fill - 1)];
    '(buf, c) ← (if fill >? 1 then buf ← write_at buf 5 [0x00]; Ret (buf, 6) else Ret (buf, 5));
    '(buf, c) ← fill_ff (Z.to_nat (fill - 2)) buf 6 c;
    Ret (buf, counter, c)
  else Ret (buf, counter, 4).

(** ** A PES packet as transport packets *)

(** The stack array [obuf] is cleared before each packet; the packets that
    [ts_write] gets are returned in their order. *)
Fixpoint p_to_t_loop (turns : nat) (buf : list Z) (c length pid counter : Z) (pes_start : bool)
  : outcome (list (list Z) * Z) :=
  if c <? length then
    match turns with
    | O => Hang
    | S turns =>
      let obuf := replicate (Z.to_nat TS_SIZE) 0 in
      '(obuf, counter, l) ← write_ts_header pid counter pes_start obuf
         (if length - c >=? TS_SIZE - 4 then TS_SIZE - 4 else length - c);
      obuf ← memcpy obuf l buf c (TS_SIZE - l);
      let c := if length - c >=? TS_SIZE - 4 then c + (TS_SIZE - l) else length in
      '(ps, counter) ← p_to_t_loop turns buf c length pid counter false;
      Ret (obuf :: ps, counter)
    end
  else Ret ([], counter).

(** [p_to_t (buf + o, length, ...)]. *)
Definition p_to_t (buf : list Z) (o length pid counter : Z) : outcome (list (list Z) * Z) :=
  pes_start ← (if length >? 3 then
      start ← start_at buf o;
      if (start : bool) then b3 ← load buf (o + 3); Ret (known_stream b3) else Ret false
    else Ret false);
  p_to_t_loop (Z.to_nat length) buf o (o + length) pid counter pes_start.

(** ** The program tables of [insert_pat_pmt] *)
Definition tspid0 : list Z :=
  [0x47; 0x40; 0x00; 0x10; 0x00; 0x00; 0xb0; 0x11;
   0x00; 0x00; 0xcb; 0x00; 0x00; 0x00; 0x00; 0xe0;
   0x10; 0x00; 0x01; 0xe4; 0x00; 0x2a; 0xd6; 0x1a;
   0xfb] ++
  replicate 163 0xff.
Definition tspid1 : list Z :=
  [0x47; 0x44; 0x00; 0x10; 0x00; 0x02; 0xb0; 0x1c;
   0x00; 0x01; 0xcb; 0x00; 0x00; 0xe0; 0xa0; 0xf0;
   0x05; 0x48; 0x03; 0x01; 0x00; 0x00; 0x02; 0xe0;
   0xa0; 0xf0; 0x00; 0x03; 0xe0; 0x50; 0xf0; 0x00;
   0xae; 0xea; 0x4e; 0x48] ++
  replicate 152 0xff.

(** The PIDs in the program map table, as [pes_in_ts] and [insert_pat_pmt] put
    them in. *)
Definition set_pids (t : list Z) (pidv pida : Z) : outcome (list Z) :=
  t ← write_at t 24 [u8 pidv];
  b ← load t 23;
  t ← write_at t 23 [u8 (Z.lor b (Z.land (Z.shiftr pidv 8) 0x3F))];
  t ← write_at t 29 [u8 pida];
  b ← load t 28;
  write_at t 28 [u8 (Z.lor b (Z.land (Z.shiftr pida 8) 0x3F))].

(** What [insert_pat_pmt] makes of the table before it writes it. *)
Definition pmt_turn (t : list Z) (pmt_len pidv pida : Z) : outcome (list Z) :=
  t ← set_pids t pidv pida;
  crc32 ← calc_crc32 t 5 (pmt_len - 4);
  t ← write_at t (5 + pmt_len - 4) [Z.shiftr (Z.land crc32 0xff000000) 24];
  t ← write_at t (5 + pmt_len - 3) [Z.shiftr (Z.land crc32 0x00ff0000) 16];
  t ← write_at t (5 + pmt_len - 2) [Z.shiftr (Z.land crc32 0x0000ff00) 8];
  write_at t (5 + pmt_len - 1) [Z.shiftr (Z.land crc32 0x000000ff) 0].

(** ** The time stamp that is written is the one that is read *)

(** A property of pairs of bytes, by evaluation. *)
Definition all_pairs (q : Z -> Z -> bool) : bool := all_from (fun x => all_from (q x) 256 0) 256 0.

Lemma all_pairs_true q x y : all_pairs q = true -> is_byte x -> is_byte y -> q x y = true.
Proof.
  unfold all_pairs, is_byte. intros H Hx Hy.
  apply (proj1 (all_from_true _ _ _)) with (j := x) in H; [|lia].
  apply (proj1 (all_from_true _ _ _)) with (j := y) in H; [done|lia].
Qed.

(** The bytes that [get_pespts] writes. *)
Definition pts_byte0 (x : Z) : Z := Z.lor 0x21 (Z.shiftr (Z.land x 0xC0) 5).
Definition pts_byte1 (x y : Z) : Z := u8 (Z.lor (Z.shiftl (Z.land x 0x3F) 2) (Z.shiftr (Z.land y 0xC0) 6)).
Definition pts_byte2 (y z : Z) : Z := u8 (Z.lor (Z.lor 0x01 (Z.shiftl (Z.land y 0x3F) 2)) (Z.shiftr (Z.land z 0x80) 6)).
Definition pts_byte3 (z t : Z) : Z := u8 (Z.lor (Z.shiftl (Z.land z 0x7F) 1) (Z.shiftr (Z.land t 0x80) 7)).
Definition pts_byte4 (t : Z) : Z := u8 (Z.lor 0x01 (Z.shiftl (Z.land t 0x7F) 1)).

Ltac by_pairs q x y :=
  let H := fresh in
  assert (H : all_pairs q = true) by (vm_compute; reflexivity);
  apply (all_pairs_true q x y) in H; [|assumption|assumption];
  rewrite ?andb_true_iff, ?Z.eqb_eq in H.

Lemma pts_bytes01 x y : is_byte x -> is_byte y ->
  Z.lor (Z.shiftl (Z.land (pts_byte0 x) 0x0E) 5) (Z.shiftr (Z.land (pts_byte1 x y) 0xFC) 2) = x /\
  Z.shiftl (Z.land (pts_byte1 x y) 0x03) 6 = Z.land y 0xC0.
Proof.
  intros Hx Hy.
  by_pairs (fun x y => (Z.lor (Z.shiftl (Z.land (pts_byte0 x) 0x0E) 5) (Z.shiftr (Z.land (pts_byte1 x y) 0xFC) 2) =? x) &&
    (Z.shiftl (Z.land (pts_byte1 x y) 0x03) 6 =? Z.land y 0xC0)) x y. done.
Qed.

Lemma pts_bytes12 y z : is_byte y -> is_byte z ->
  Z.lor (Z.land y 0xC0) (Z.shiftr (Z.land (pts_byte2 y z) 0xFC) 2) = y /\
  Z.shiftl (Z.land (pts_byte2 y z) 0x02) 6 = Z.land z 0x80.
Proof.
  intros Hy Hz.
  by_pairs (fun y z => (Z.lor (Z.land y 0xC0) (Z.shiftr (Z.land (pts_byte2 y z) 0xFC) 2) =? y) &&
    (Z.shiftl (Z.land (pts_byte2 y z) 0x02) 6 =? Z.land z 0x80)) y z. done.
Qed.

Lemma pts_bytes34 z t : is_byte z -> is_byte t ->
  Z.lor (Z.land z 0x80) (Z.shiftr (Z.land (pts_byte3 z t) 0xFE) 1) = z /\
  Z.lor (Z.shiftl (Z.land (pts_byte3 z t) 0x01) 7) (Z.shiftr (Z.land (pts_byte4 t) 0xFE) 1) = t.
Proof.
  intros Hz Ht.
  by_pairs (fun z t => (Z.lor (Z.land z 0x80) (Z.shiftr (Z.land (pts_byte3 z t) 0xFE) 1) =? z) &&
    (Z.lor (Z.shiftl (Z.land (pts_byte3 z t) 0x01) 7) (Z.shiftr (Z.land (pts_byte4 t) 0xFE) 1) =? t)) z t. done.
Qed.

(** The 32-bit time stamp that [get_pespts] codes into the five bytes of a PES header
    is the one that [trans_pts_dts] decodes from them; nothing else is written. *)
Theorem get_pespts_trans_pts x y z t pts : is_byte x -> is_byte y -> is_byte z -> is_byte t -> 5 <= zlen pts ->
  exists p, get_pespts [x; y; z; t] pts = Ret p /\ zdrop 5 p = zdrop 5 pts /\
    trans_pts_dts p = Ret (Z.lor (Z.lor (Z.lor (Z.shiftl x 24) (Z.shiftl y 16)) (Z.shiftl z 8)) t).
Proof.
  intros Hx Hy Hz Ht Hl.
  assert (exists a b c d e r, pts = [a; b; c; d; e] ++ r) as (a & b & c & d & e & r & ->).
  { destruct pts as [|a [|b [|c [|d [|e r]]]]]; try done. by exists a, b, c, d, e, r. }
  exists ([pts_byte0 x; pts_byte1 x y; pts_byte2 y z; pts_byte3 z t; pts_byte4 t] ++ r).
  destruct (pts_bytes01 x y Hx Hy) as [E0 E1], (pts_bytes12 y z Hy Hz) as [E2 E3], (pts_bytes34 z t Hz Ht) as [E4 E5].
  assert (forall k : list Z, 0 <= zlen k) as Hk by apply zlen_nonneg. specialize (Hk r).
  split; [|split; [done|]].
  - unfold get_pespts. rewrite (load_ok _ 0) by (zsimpl; lia). next. rewrite (load_ok _ 1) by (zsimpl; lia). next.
    rewrite (load_ok _ 2) by (zsimpl; lia). next. rewrite (load_ok _ 3) by (zsimpl; lia). next.
    do 4 (rewrite write_at_ok by (zsimpl; lia); next). rewrite write_at_ok by (zsimpl; lia). done.
  - unfold trans_pts_dts. rewrite (load_ok _ 0) by (zsimpl; lia). next. rewrite (load_ok _ 1) by (zsimpl; lia). next.
    rewrite (load_ok _ 2) by (zsimpl; lia). next. rewrite (load_ok _ 3) by (zsimpl; lia). next.
    rewrite (load_ok _ 4) by (zsimpl; lia). next. cbv zeta.
    match goal with |- context [zn ?l 0] => change (zn l 0) with (pts_byte0 x); change (zn l 1) with (pts_byte1 x y);
      change (zn l 2) with (pts_byte2 y z); change (zn l 3) with (pts_byte3 z t); change (zn l 4) with (pts_byte4 t) end.
    by rewrite E0, E1, E2, E3, E4, E5.
Qed.

Lemma get_pespts_trans_pts_witness : exists p, get_pespts [1; 2; 3; 255] (replicate 6 0) = Ret p /\
  trans_pts_dts p = Ret 0x010203ff.
Proof.
  destruct (get_pespts_trans_pts 1 2 3 255 (replicate 6 0)) as (p & E & _ & Ep); [done..|]. exists p. split; [exact E|exact Ep].
Defined.
