(* ===== verification/PToT.v ===== *)
(** * Cutting a PES packet into transport packets

    [write_ts_header] and [p_to_t] of libmpegtools: the packets they make are
    transport packets of the given PID with consecutive continuity counters,
    whose payloads are the PES packet; a PES filter of ctools.c that gets them
    gives the PES packet back. *)
From S2P Require Import Prelude TsPacket PesPacket PsPacket TransFilt Transform.

(** ** The packets *)
Definition ts_flags (start : bool) (pid : Z) : Z := (if start then 64 else 0) + pid / 256.

(** Adaptation field of a packet with [n] bytes of payload. *)
Definition ts_fill (n : Z) : list Z :=
  if n =? 184 then [] else
  if n =? 183 then [0] else (183 - n) :: 0 :: replicate (Z.to_nat (182 - n)) 0xff.

Definition ts_head (pid counter : Z) (start : bool) (n : Z) : list Z :=
  [0x47; ts_flags start pid; pid mod 256; (if n =? 184 then 16 else 48) + counter mod 16] ++ ts_fill n.

Definition ts_packet_of (pid counter : Z) (start : bool) (data : list Z) : list Z :=
  ts_head pid counter start (zlen data) ++ data.

(** The packets of a whole buffer, 184 bytes of it in each. *)
Fixpoint cut (turns : nat) (pid counter : Z) (start : bool) (data : list Z) : list (list Z) :=
  match turns with
  | O => []
  | S turns =>
    if zlen data =? 0 then [] else
    ts_packet_of pid counter start (ztake 184 data) :: cut turns pid (u8 (counter + 1)) false (zdrop 184 data)
  end.

(** A buffer that starts with the start code of a known stream. *)
Definition starts_pes (l : list Z) : bool := (zlen l >? 3) && start_code l && known_stream (zn l 3).

Lemma zlen_ts_fill n : 0 < n <= 184 -> zlen (ts_fill n) = 184 - n.
Proof. intros. unfold ts_fill. destruct (Z.eqb_spec n 184), (Z.eqb_spec n 183); zsimpl; lia. Qed.

Lemma zlen_ts_head pid counter start n : 0 < n <= 184 -> zlen (ts_head pid counter start n) = 188 - n.
Proof. intros. unfold ts_head. zsimpl. rewrite zlen_ts_fill by done. lia. Qed.

(** ** The header *)
Lemma fill_ff_ok n : forall (buf : list Z) i c, 0 <= i -> i + Z.of_nat n <= zlen buf ->
  fill_ff n buf i c = Ret (blit buf i (replicate n 0xff), c + Z.of_nat n).
Proof.
  induction n as [|n IH]; intros buf i c Hi Hn; cbn [fill_ff].
  - cbn [replicate]. rewrite blit_nil. do 2 f_equal. lia.
  - rewrite write_at_ok by (zsimpl; lia). next. rewrite IH by (zsimpl; lia).
    change (i + 1) with (i + zlen [0xff]).
    rewrite (blit_blit buf i [0xff] (replicate n 0xff)) by (zsimpl; lia). do 2 f_equal. lia.
Qed.

Lemma shift_hi pid : 0 <= pid < 0x2000 -> u8 (Z.shiftr (Z.land pid 0x1F00) 8) = pid / 256.
Proof.
  intros H. rewrite Z.shiftr_land. change (Z.shiftr 0x1F00 8) with (Z.ones 5).
  rewrite Z.land_ones, Z.shiftr_div_pow2 by lia. unfold u8. Z.div_mod_to_equations; lia.
Qed.

Lemma flags_lor (start : bool) pid : 0 <= pid < 0x2000 -> Z.lor (if start then 0x40 else 0) (pid / 256) = ts_flags start pid.
Proof.
  intros H. unfold ts_flags. assert (0 <= pid / 256 < 32) by (split; [apply Z.div_pos; lia|apply Z.div_lt_upper_bound; lia]).
  set (h := pid / 256) in *.
  assert (all_from (fun h => (Z.lor 64 h =? 64 + h) && (Z.lor 0 h =? h)) 32 0 = true) as E by reflexivity.
  apply (proj1 (all_from_true _ _ _)) with (j := h) in E; [|lia]. destruct start; lia.
Qed.

Lemma counter_lor b counter : b = 48 \/ b = 16 -> Z.lor b (Z.land counter 0x0F) = b + counter mod 16.
Proof.
  intros Hb. change 0x0F with (Z.ones 4). rewrite Z.land_ones by lia. change (2 ^ 4) with 16.
  pose proof (Z.mod_pos_bound counter 16 ltac:(lia)). set (h := counter mod 16) in *.
  assert (all_from (fun h => (Z.lor 48 h =? 48 + h) && (Z.lor 16 h =? 16 + h)) 16 0 = true) as E by reflexivity.
  apply (proj1 (all_from_true _ _ _)) with (j := h) in E; [|lia]. destruct Hb as [->| ->]; lia.
Qed.

Lemma blit_head {A} (l c : list A) : zlen c <= zlen l -> blit l 0 c = c ++ zdrop (zlen c) l.
Proof. done. Qed.

Lemma write_ts_header_ok pid counter start buf n : 0 <= pid < 0x2000 -> zlen buf = 188 -> 0 < n <= 184 ->
  write_ts_header pid counter start buf n =
    Ret (blit buf 0 (ts_head pid counter start n), u8 (counter + 1), 188 - n).
Proof.
  intros Hpid Hlen Hn. unfold write_ts_header. assert (u8 n = n) as -> by (apply Z.mod_small; lia).
  unfold TS_SIZE. cbv zeta. rewrite shift_hi, flags_lor by done.
  assert (u8 (Z.land pid 0x00FF) = pid mod 256) as ->.
  { change 0x00FF with (Z.ones 8). rewrite Z.land_ones by lia. apply Z.mod_mod. lia. }
  rewrite write_at_ok by (zsimpl; lia). next. unfold ts_head, ts_fill.
  destruct (Z.eqb_spec n 184) as [->|Hne].
  { cbn [negb Z.eqb Z.sub Z.opp Z.add Z.pos_sub Pos.add Pos.succ]. rewrite counter_lor by (by right). done. }
  replace (188 - 4 - n =? 0) with false by lia. cbn [negb]. rewrite counter_lor by (by left).
  rewrite write_at_ok by (zsimpl; lia). next.
  assert (u8 (188 - 4 - n - 1) = 183 - n) as -> by (unfold u8; rewrite Z.mod_small; lia).
  destruct (Z.eqb_spec n 183) as [->|Hne'].
  { cbn. rewrite (blit_blit buf 0 [_; _; _; _] [_]) by (zsimpl; lia). done. }
  replace (188 - 4 - n >? 1) with true by lia. rewrite write_at_ok by (zsimpl; lia). next. next.
  rewrite fill_ff_ok by (zsimpl; lia). next.
  rewrite (blit_blit buf 0 [_; _; _; _] [_]) by (zsimpl; lia). cbn [app].
  rewrite (blit_blit buf 0 [_; _; _; _; _] [_]) by (zsimpl; lia). cbn [app].
  rewrite (blit_blit buf 0 [_; _; _; _; _; _]) by (zsimpl; lia). cbn [app].
  replace (188 - 4 - n - 2) with (182 - n) by lia. do 2 f_equal. lia.
Qed.

(** ** The loop *)
Lemma blit_over {A} (z : list A) h d : zlen h + zlen d = zlen z -> blit (blit z 0 h) (zlen h) d = h ++ d.
Proof.
  intros H. pose proof (zlen_nonneg h). pose proof (zlen_nonneg d).
  pose proof (blit_blit z 0 h d ltac:(lia) ltac:(lia)) as E. change (0 + zlen h) with (zlen h) in E. rewrite E.
  unfold blit, ztake, zdrop. cbn [take app]. rewrite drop_ge; [by rewrite app_nil_r|].
  revert H. unfold zlen. rewrite length_app. lia.
Qed.

Lemma ztake_sub {A} (l : list A) o n k : 0 <= o -> 0 <= k <= n -> ztake k (sub l o n) = sub l o k.
Proof. intros. rewrite <- sub_from_0, sub_sub by lia. by rewrite Z.add_0_r. Qed.

Lemma zdrop_sub {A} (l : list A) o n k : 0 <= o -> 0 <= k <= n -> o + n <= zlen l ->
  zdrop k (sub l o n) = sub l (o + k) (n - k).
Proof.
  intros. replace (sub l (o + k) (n - k)) with (sub (sub l o n) k (n - k)) by (apply sub_sub; lia).
  unfold sub at 2. unfold ztake. rewrite take_ge; [done|]. unfold zdrop. rewrite length_drop.
  assert (zlen (sub l o n) = n) by (zsimpl; lia). unfold zlen in *. lia.
Qed.

(** The first [k] bytes of a slice and the others, where [k] may exceed it. *)
Lemma cut_sub {A} (l : list A) o n k : 0 <= o -> 0 <= n -> o + n <= zlen l -> 0 <= k ->
  ztake k (sub l o n) = sub l o (Z.min k n) /\ zdrop k (sub l o n) = sub l (o + Z.min k n) (n - Z.min k n).
Proof.
  intros. destruct (Z.le_gt_cases k n).
  - rewrite Z.min_l by lia. split; [apply ztake_sub|apply zdrop_sub]; lia.
  - rewrite Z.min_r by lia. rewrite Z.sub_diag, sub_0.
    assert (zlen (sub l o n) = n) by (zsimpl; lia).
    split; [unfold ztake; rewrite take_ge|unfold zdrop; rewrite drop_ge]; try done; unfold zlen in *; lia.
Qed.

Lemma p_to_t_loop_cut buf pid turns : forall c length counter start,
  0 <= pid < 0x2000 -> is_byte counter -> 0 <= c <= length -> length <= zlen buf -> length - c <= Z.of_nat turns ->
  let ps := cut turns pid counter start (sub buf c (length - c)) in
  p_to_t_loop turns buf c length pid counter start = Ret (ps, u8 (counter + zlen ps)).
Proof.
  induction turns as [|turns IH]; intros c length counter start Hpid Hcc Hc Hl Ht; cbn [p_to_t_loop cut].
  { replace (c <? length) with false by lia. rewrite zlen_nil, Z.add_0_r. unfold u8. by rewrite Z.mod_small by done. }
  assert (zlen (sub buf c (length - c)) = length - c) as Hz by (zsimpl; lia). rewrite Hz.
  destruct (Z.ltb_spec c length) as [Hlt|Hge].
  2: { replace (length - c =? 0) with true by lia. rewrite zlen_nil, Z.add_0_r. unfold u8. by rewrite Z.mod_small by done. }
  replace (length - c =? 0) with false by lia.
  set (n := if length - c >=? TS_SIZE - 4 then TS_SIZE - 4 else length - c).
  assert (Hn : 0 < n <= 184 /\ n = Z.min 184 (length - c)).
  { unfold n, TS_SIZE. rewrite Z.geb_leb. destruct (Z.leb_spec (188 - 4) (length - c)); lia. }
  destruct Hn as [Hn En].
  rewrite write_ts_header_ok by (done || zsimpl; done). next. unfold TS_SIZE.
  replace (188 - (188 - n)) with n by lia.
  pose proof (zlen_ts_head pid counter start n Hn) as Hh. set (h := ts_head pid counter start n) in *.
  rewrite memcpy_ok by (zsimpl; lia). next.
  set (c' := if length - c >=? 188 - 4 then c + n else length).
  assert (Ec : c' = c + n) by (unfold c'; rewrite Z.geb_leb; destruct (Z.leb_spec (188 - 4) (length - c)); lia).
  assert (Hd : zlen (sub buf c n) = n) by (zsimpl; lia).
  rewrite Ec. rewrite (IH (c + n)) by (apply u8_byte || lia). next.
  destruct (cut_sub buf c (length - c) 184) as [-> ->]; [lia..|]. rewrite <- En.
  unfold ts_packet_of. rewrite Hd. fold h. rewrite <- Hh. rewrite blit_over by (zsimpl; lia).
  replace (length - (c + n)) with (length - c - n) by lia. rewrite zlen_cons, u8_add.
  do 3 f_equal. lia.
Qed.

(** ** What is in the packets *)
Definition ts_payload (k : list Z) : list Z := zdrop (payload_offset k) k.

(** A transport packet with a payload. *)
Record carries (pid counter : Z) (start : bool) (data k : list Z) : Prop := {
  ca_packet : is_ts_packet k;
  ca_payload : flag (zn k 3) PAYLOAD = true;
  ca_offset : payload_offset k <= 188;
  ca_data : ts_payload k = data;
  ca_pid : packet_pid k = pid;
  ca_start : flag (zn k 1) PAY_START = start;
  ca_counter : zn k 3 mod 16 = counter mod 16
}.

Lemma ts_flags_bits (start : bool) pid : 0 <= pid < 0x2000 ->
  is_byte (ts_flags start pid) /\ ts_flags start pid mod 32 = pid / 256 /\ flag (ts_flags start pid) PAY_START = start.
Proof.
  intros H. unfold ts_flags. assert (0 <= pid / 256 < 32) by (split; [apply Z.div_pos; lia|apply Z.div_lt_upper_bound; lia]).
  set (h := pid / 256) in *.
  assert (all_from (fun h => ((64 + h) mod 32 =? h) && ((0 + h) mod 32 =? h) && flag (64 + h) PAY_START
    && negb (flag (0 + h) PAY_START)) 32 0 = true) as E by reflexivity.
  apply (proj1 (all_from_true _ _ _)) with (j := h) in E; [|lia]. rewrite !andb_true_iff, negb_true_iff in E.
  unfold is_byte. destruct start; split_and!; try lia; tauto.
Qed.

Lemma control_bits b counter : b = 16 \/ b = 48 -> let x := b + counter mod 16 in
  is_byte x /\ x mod 16 = counter mod 16 /\ flag x PAYLOAD = true /\ flag x ADAPT_FIELD = (b =? 48).
Proof.
  intros Hb x. unfold x. pose proof (Z.mod_pos_bound counter 16 ltac:(lia)). set (h := counter mod 16) in *.
  assert (all_from (fun h => ((16 + h) mod 16 =? h) && ((48 + h) mod 16 =? h) && flag (16 + h) PAYLOAD
    && flag (48 + h) PAYLOAD && flag (48 + h) ADAPT_FIELD && negb (flag (16 + h) ADAPT_FIELD)) 16 0 = true) as E by reflexivity.
  apply (proj1 (all_from_true _ _ _)) with (j := h) in E; [|lia]. rewrite !andb_true_iff, negb_true_iff in E.
  unfold is_byte. destruct Hb as [->| ->]; split_and!; try lia; tauto.
Qed.

Lemma ts_fill_bytes n : 0 < n <= 184 -> bytes (ts_fill n).
Proof. intros. unfold ts_fill. destruct (Z.eqb_spec n 184), (Z.eqb_spec n 183); bytes. Qed.

Lemma ts_packet_carries pid counter start data : 0 <= pid < 0x2000 -> bytes data -> 0 < zlen data <= 184 ->
  carries pid counter start data (ts_packet_of pid counter start data).
Proof.
  intros Hpid Hd Hl. unfold ts_packet_of. set (n := zlen data) in *. pose proof (zlen_ts_head pid counter start n Hl) as Hh.
  destruct (ts_flags_bits start pid Hpid) as (F1 & F2 & F3).
  destruct (control_bits (if n =? 184 then 16 else 48) counter) as (C1 & C2 & C3 & C4); [by destruct (n =? 184); auto|].
  pose proof (ts_fill_bytes n Hl) as Hf. pose proof (Z.mod_pos_bound pid 256 ltac:(lia)) as Hm.
  set (k := ts_head pid counter start n ++ data).
  assert (Ho : payload_offset k = 188 - n).
  { unfold payload_offset. change (zn k 3) with ((if n =? 184 then 16 else 48) + counter mod 16). rewrite C4.
    unfold k, ts_head, ts_fill. unfold zn. change (Z.to_nat 4) with 4%nat.
    destruct (Z.eqb_spec n 184); [cbn [Z.eqb Pos.eqb]; lia|]. destruct (Z.eqb_spec n 183); cbn [Z.eqb Pos.eqb app nth]; lia. }
  constructor.
  - split; [unfold k; zsimpl; lia|split; [|done]]. unfold k, ts_head. bytes.
  - done.
  - rewrite Ho. lia.
  - unfold ts_payload. rewrite Ho. unfold k, zdrop. rewrite drop_app_length'; [done|]. unfold zlen in Hh. lia.
  - unfold packet_pid. change (zn k 1) with (ts_flags start pid). change (zn k 2) with (pid mod 256). rewrite F2.
    pose proof (Z.div_mod pid 256). lia.
  - done.
  - done.
Qed.

(** The packets [ps] carry [data] with PID [pid] and consecutive counters from
    [counter]; the first one is marked as a start if [start]. *)
Record cut_into (pid counter : Z) (start : bool) (data : list Z) (ps : list (list Z)) : Prop := {
  ci_data : mjoin (ts_payload <$> ps) = data;
  ci_number : zlen ps = (zlen data + 183) / 184;
  ci_each : forall i k, ps !! i = Some k ->
    carries pid (counter + Z.of_nat i) (start && (i =? 0)%nat) (ts_payload k) k
}.

Lemma mod16_u8 x : u8 x mod 16 = x mod 16.
Proof. unfold u8. apply Z.mod_mod_divide. by exists 16. Qed.

Lemma carries_counter pid c c' start data k : c mod 16 = c' mod 16 -> carries pid c start data k -> carries pid c' start data k.
Proof. intros E []. constructor; congruence. Qed.

Lemma cut_ok pid turns : forall counter start data, 0 <= pid < 0x2000 -> bytes data -> zlen data <= Z.of_nat turns ->
  cut_into pid counter start data (cut turns pid counter start data).
Proof.
  induction turns as [|turns IH]; intros counter start data Hpid Hd Hl; cbn [cut].
  { pose proof (zlen_nonneg data). assert (data = []) as -> by (destruct data; [done|rewrite zlen_cons in *; pose proof (zlen_nonneg data); lia]).
    by constructor. }
  destruct (Z.eqb_spec (zlen data) 0) as [H0|H0].
  { assert (data = []) as -> by (destruct data; [done|rewrite zlen_cons in *; pose proof (zlen_nonneg data); lia]). by constructor. }
  pose proof (zlen_nonneg data). destruct (cut_sub data 0 (zlen data) 184) as [E1 E2]; [lia..|].
  rewrite sub_all in E1, E2 by lia. set (m := Z.min 184 (zlen data)) in *.
  assert (Hm : 0 < m <= 184 /\ m <= zlen data) by (unfold m; lia).
  assert (Hz : zlen (ztake 184 data) = m) by (rewrite E1; zsimpl; lia).
  assert (Hz' : zlen (zdrop 184 data) = zlen data - m) by (rewrite E2; zsimpl; lia).
  assert (Hb1 : bytes (ztake 184 data)) by (rewrite E1; bytes).
  assert (Hb2 : bytes (zdrop 184 data)) by (rewrite E2; bytes).
  destruct (IH (u8 (counter + 1)) false (zdrop 184 data)) as [I1 I2 I3]; [done|done|lia|].
  assert (Hk : forall c, carries pid c start (ztake 184 data) (ts_packet_of pid c start (ztake 184 data)))
    by (intros c; apply ts_packet_carries; [done|done|lia]).
  constructor.
  - cbn [fmap list_fmap mjoin list_join]. change (list_fmap _ _ ts_payload) with (fmap (M := list) ts_payload).
    change (ts_payload (ts_packet_of pid counter start (ztake 184 data)) ++ mjoin (ts_payload <$> cut turns pid (u8 (counter + 1)) false (zdrop 184 data)) = data).
    rewrite I1, (ca_data _ _ _ _ _ (Hk counter)). apply take_drop.
  - rewrite zlen_cons, I2, Hz'. unfold m. Z.div_mod_to_equations; lia.
  - intros [|i] k Hi.
    + change (Some (ts_packet_of pid counter start (ztake 184 data)) = Some k) in Hi. injection Hi as <-. rewrite andb_true_r, Z.add_0_r. pose proof (Hk counter) as Hc. by rewrite (ca_data _ _ _ _ _ Hc).
    + apply (I3 i k) in Hi. rewrite andb_false_r. cbn [andb] in Hi. eapply carries_counter; [|exact Hi].
      rewrite <- (Zplus_mod_idemp_l (u8 _)), mod16_u8, Zplus_mod_idemp_l. f_equal. lia.
Qed.

(** ** [p_to_t] *)
Lemma start_at_code buf o : 0 <= o -> o + 3 <= zlen buf -> start_at buf o = Ret (start_code (sub buf o 3)).
Proof.
  intros Ho Hl. unfold start_at, start_code. rewrite !zn_sub, Z.add_0_r by lia.
  rewrite (load_ok buf o) by lia. next. destruct (zn buf o =? 0x00); [|done]. cbn [negb].
  rewrite (load_ok buf (o + 1)) by lia. next. destruct (zn buf (o + 1) =? 0x00); [|done]. cbn [negb].
  rewrite load_ok by lia. by next.
Qed.

Lemma start_code_sub buf o n : 0 <= o -> 3 <= n -> start_code (sub buf o n) = start_code (sub buf o 3).
Proof. intros. unfold start_code. by rewrite !zn_sub by lia. Qed.

Lemma p_to_t_start buf o length : 0 <= o -> 0 <= length -> o + length <= zlen buf ->
  (if length >? 3 then
     start ← start_at buf o;
     if (start : bool) then b3 ← load buf (o + 3); Ret (known_stream b3) else Ret false
   else Ret false) = Ret (starts_pes (sub buf o length)).
Proof.
  intros Ho Hn Hl. unfold starts_pes. rewrite zlen_sub by lia. destruct (Z.gtb_spec length 3) as [H3|H3]; [|done].
  rewrite start_at_code by lia. next. rewrite (start_code_sub buf o length) by lia. rewrite zn_sub by lia.
  destruct (start_code (sub buf o 3)); [|done]. rewrite load_ok by lia. by next.
Qed.

Lemma p_to_t_ok buf o length pid counter : 0 <= pid < 0x2000 -> is_byte counter -> bytes buf -> 0 <= o -> 0 <= length ->
  o + length <= zlen buf ->
  exists ps, p_to_t buf o length pid counter = Ret (ps, u8 (counter + zlen ps)) /\
    cut_into pid counter (starts_pes (sub buf o length)) (sub buf o length) ps.
Proof.
  intros Hpid Hc Hb Ho Hn Hl. unfold p_to_t. rewrite p_to_t_start by done. next.
  rewrite p_to_t_loop_cut by (done || lia). replace (o + length - o) with length by lia.
  eexists. split; [done|]. apply cut_ok; [done|by apply bytes_sub|]. rewrite zlen_sub by lia. lia.
Qed.

(** [p_to_t] makes transport packets of the whole PES packet: each is a transport
    packet with the given PID and a payload, the payloads one after the other are
    the data, there are as few packets as 184 bytes each allow, only the first
    carries the start mark (if the data starts with the start code of a known
    stream), and the continuity counter goes up by one from packet to packet and on
    to the next call. *)
Theorem p_to_t_packets buf o length pid counter : 0 <= pid < 0x2000 -> is_byte counter -> bytes buf ->
  0 <= o -> 0 <= length -> o + length <= zlen buf ->
  let data := sub buf o length in
  exists ps, p_to_t buf o length pid counter = Ret (ps, u8 (counter + zlen ps)) /\
    mjoin (ts_payload <$> ps) = data /\ zlen ps = (length + 183) / 184 /\
    forall i k, ps !! i = Some k ->
      is_ts_packet k /\ packet_pid k = pid /\ flag (zn k 3) PAYLOAD = true /\ payload_offset k <= 188 /\
      flag (zn k 1) PAY_START = starts_pes data && (i =? 0)%nat /\ zn k 3 mod 16 = (counter + Z.of_nat i) mod 16.
Proof.
  intros Hpid Hc Hb Ho Hn Hl data. destruct (p_to_t_ok buf o length pid counter) as (ps & E & [C1 C2 C3]); [done..|].
  exists ps. split; [done|]. split; [done|]. split; [by rewrite C2, zlen_sub by lia|].
  intros i k Hi. by destruct (C3 i k Hi).
Qed.

(** ** Back through the filter *)

(** A client of ctools.c's filters: after each packet it takes the data that
    filter [l] has. *)
Fixpoint collect (depth : nat) (p : trans) (l : Z) (ps : list (list Z)) : outcome (trans * list Z) :=
  match ps with
  | [] => Ret (p, [])
  | k :: ps =>
    p ← trans_filt depth k 188 p;
    '(p, d) ← (if filt_is_ready p l then
        '(p, o, n) ← get_filt_buf p l;
        Ret (p, sub (tr_transbuf p) o n)
      else Ret (p, []));
    '(p, ds) ← collect depth p l ps;
    Ret (p, d ++ ds)
  end.

(** Filter [l] collects the PES data of [pid], nothing else is collected of it. *)
Record collects (pid l : Z) (p : trans) : Prop := {
  co_ok : trans_ok p;
  co_found : tr_found p = 0;
  co_set : filt_is_set p l = true;
  co_pid : zn (tr_pid p) l = pid;
  co_pes : forall k, 0 <= k < MAXFILT -> filt_is_set p k = true -> zn (tr_pid p) k = pid -> pes_is_set p k = true
}.

Definition data_packet (pid : Z) (k : list Z) : Prop :=
  is_ts_packet k /\ packet_pid k = pid /\ flag (zn k 3) PAYLOAD = true /\ payload_offset k <= 188.

Lemma collect_one depth pid l p k : 0 <= l < MAXFILT -> collects pid l p -> data_packet pid k ->
  flag (zn k 1) PAY_START || pes_is_started p l = true ->
  exists q, trans_filt depth k 188 p = Ret q /\ collects pid l q /\ pes_is_started q l = true /\
    filt_is_ready q l = true /\ sub (tr_transcount q) l 1 = [188 - payload_offset k] /\
    sub (tr_transbuf q) (188 * l) (188 - payload_offset k) = ts_payload k.
Proof.
  intros Hl [Hp Hf Hset Hpid Hpes] (Hk & Kpid & Kpay & Koff) Hst.
  rewrite trans_filt_one by done. destruct (feed_one depth p k Hp Hf Hk) as [_ Hpk].
  set (r := p <| tr_packet := k |>) in *. change k with (tr_packet r) in Kpid, Kpay, Koff, Hst |- *.
  assert (Hserve : forall i, serves r i = filt_is_set p i && (zn (tr_pid p) i =? pid)) by (intros i; unfold serves; by rewrite Kpid).
  destruct (filter_pes depth r Hpk Kpay Koff) as (q & E & Hq & Hi & Hv).
  { intros i Hib. rewrite Hserve. intros [H1 H2]%andb_true_iff. apply Hpes; [done|done|lia]. }
  exists q. split; [done|]. specialize (Hv l Hl). rewrite Hserve, Hset, Hpid, Z.eqb_refl in Hv. cbn [andb] in Hv.
  destruct Hv as (V1 & V2 & V3). change (pes_is_started r l) with (pes_is_started p l) in *. rewrite Hst in *.
  destruct V3 as (V3 & V4 & V5). destruct Hi. split; [|split; [done|split; [done|split; [done|]]]].
  - constructor; [done| | | |].
    + rewrite si_found. exact Hf.
    + unfold filt_is_set. rewrite si_set. exact Hset.
    + rewrite si_pid. exact Hpid.
    + intros i. unfold filt_is_set, pes_is_set in *. rewrite si_set, si_pid, si_pes. apply Hpes.
  - rewrite V5. unfold ts_payload, sub, ztake. apply take_ge. destruct Hk as [Hz _]. unfold zdrop.
    rewrite length_drop. change (tr_packet r) with k. unfold zlen in Hz. lia.
Qed.

Lemma collect_ok depth pid l ps : forall p, 0 <= l < MAXFILT -> collects pid l p -> Forall (data_packet pid) ps ->
  match ps with k :: _ => flag (zn k 1) PAY_START || pes_is_started p l = true | [] => True end ->
  exists q, collect depth p l ps = Ret (q, mjoin (ts_payload <$> ps)) /\ collects pid l q.
Proof.
  induction ps as [|k ps IH]; intros p Hl Hp Hps Hst; [by exists p|].
  apply Forall_cons in Hps as [Hk Hps]. cbn [collect].
  destruct (collect_one depth pid l p k) as (q & -> & Hq & Qst & Qr & Qc & Qd); [done..|]. next. rewrite Qr.
  assert (Hz : zlen (tr_transcount q) = MAXFILT) by apply Hq.
  assert (Hn : zn (tr_transcount q) l = 188 - payload_offset k).
  { rewrite <- (Z.add_0_r l), <- (zn_sub _ l 1) by lia. by rewrite Qc. }
  unfold get_filt_buf. set (r := q <| tr_is_full := _ |>). change (tr_transcount r) with (tr_transcount q).
  rewrite load_ok, Hn by (unfold MAXFILT in *; lia). do 3 next. change (tr_transbuf r) with (tr_transbuf q). rewrite Qd.
  destruct (IH r) as (q' & -> & Hq'); [done| |done| |].
  - destruct Hq as [H1 H2 H3 H4 H5]. pose proof (clear_bit_tflags (tr_is_full q) l (to_full q H1)) as Hc.
    constructor; [by apply set_full_ok|exact H2|exact H3|exact H4|exact H5].
  - destruct ps; [done|]. change (pes_is_started r l) with (pes_is_started q l). by rewrite Qst, orb_true_r.
  - next. by exists q'.
Qed.

Lemma starts_pes_pos data : starts_pes data = true -> 0 < zlen data.
Proof. unfold starts_pes. rewrite !andb_true_iff. lia. Qed.

(** C13: What [p_to_t] makes of a PES packet, a PES filter of ctools.c turns back: if the
    transport packets are given to [trans_filt] and the data of a filter for their
    PID is taken after each of them, the data is the PES packet. *)
Theorem p_to_t_collected depth p l buf o length pid counter : 0 <= pid < 0x2000 -> is_byte counter -> bytes buf ->
  0 <= o -> 0 <= length -> o + length <= zlen buf -> starts_pes (sub buf o length) = true ->
  0 <= l < MAXFILT -> collects pid l p ->
  exists ps counter' q, p_to_t buf o length pid counter = Ret (ps, counter') /\
    collect depth p l ps = Ret (q, sub buf o length) /\ collects pid l q.
Proof.
  intros Hpid Hc Hb Ho Hn Hlen Hs Hl Hp. destruct (p_to_t_ok buf o length pid counter) as (ps & E & [C1 C2 C3]); [done..|].
  destruct (collect_ok depth pid l ps p) as (q & Hq & Hq'); [done|done| | |].
  - apply Forall_lookup. intros i k Hi. by destruct (C3 i k Hi).
  - destruct ps as [|k ps]; [done|]. destruct (C3 0%nat k eq_refl) as [_ _ _ _ _ Hk _]. by rewrite Hk, Hs.
  - exists ps, (u8 (counter + zlen ps)), q. by rewrite Hq, C1.
Qed.

(** ** Witnesses *)
Definition sample_pes : list Z := [0; 0; 1; 0xE0; 0; 2; 0x41; 0x42].

Lemma sample_pes_bytes : bytes sample_pes.
Proof. unfold sample_pes. bytes. Qed.

Lemma p_to_t_packets_witness : exists ps, p_to_t sample_pes 0 8 0x100 3 = Ret (ps, u8 (3 + zlen ps)) /\
  mjoin (ts_payload <$> ps) = sample_pes /\ zlen ps = 1.
Proof.
  destruct (p_to_t_packets sample_pes 0 8 0x100 3) as (ps & E & H1 & H2 & _);
    [lia|unfold is_byte; lia|apply sample_pes_bytes|lia|lia|vm_compute; discriminate|].
  exists ps. split; [exact E|]. split; [exact H1|exact H2].
Defined.

Lemma collects_sample : collects 0x100 2 pes_filter_state.
Proof.
  constructor; [apply pes_filter_state_ok|done|done|done|]. intros k Hk Hset _.
  assert (serves pes_filter_state k = true) as Hs.
  { unfold serves. rewrite Hset. unfold pes_filter_state. cbn [tr_pid sample_trans tr_packet].
    rewrite zn_lookup, lookup_replicate_2 by (unfold MAXFILT in Hk; lia). done. }
  unfold pes_filter_state in Hs. rewrite serves_one in Hs by done. by apply Z.eqb_eq in Hs as ->.
Qed.

Lemma p_to_t_collected_witness : exists ps counter' q, p_to_t sample_pes 0 8 0x100 3 = Ret (ps, counter') /\
  collect 1 pes_filter_state 2 ps = Ret (q, sample_pes) /\ collects 0x100 2 q.
Proof.
  apply (p_to_t_collected 1 pes_filter_state 2 sample_pes 0 8 0x100 3);
    [lia|unfold is_byte; lia|apply sample_pes_bytes|lia|lia|done|done|done|apply collects_sample].
Defined.
