(* ===== verification/P2t.v ===== *)
(** * A PES stream as transport packets

    apps/misc/libs/libmpegtools/ctools.c: [find_pes_header], [pes_to_ts] with its
    state [p2t_t], and [twrite].  A member [x] of [p2t_t] is [p2_x]; the packets that
    the function [t_out] gets are returned in their order. *)
From S2P Require Import Prelude TsPacket PesPacket PsPacket TransFilt Transform PToT.

Record p2t_t := mk_p2t { p2_pes : list Z; p2_counter : Z; p2_pos : Z; p2_frags : Z }.
#[export] Instance eta_p2t : Eta p2t_t := fun p => mk_p2t (p2_pes p) (p2_counter p) (p2_pos p) (p2_frags p).

(** The array is cleared whole; nothing of the old state is left. *)
Definition clear_p2t (p : p2t_t) : p2t_t :=
  p <| p2_pes := replicate (Z.to_nat TS_SIZE) 0 |> <| p2_counter := 0 |> <| p2_pos := 0 |> <| p2_frags := 0 |>.
Definition init_p2t (p : p2t_t) : p2t_t := clear_p2t p.

(** ** The search for a header *)

(** [while (c < length-3 && !found)]: where it ends and whether a header was found. *)
Fixpoint find_pes_loop (turns : nat) (buf : list Z) (o c length : Z) : outcome (Z * bool) :=
  if c <? length - 3 then
    match turns with
    | O => Hang
    | S turns =>
      st ← start_at buf (o + c);
      if (st : bool) then
        b3 ← load buf (o + c + 3);
        if (b3 =? 0xBA) || known_stream b3 then Ret (c, true) else find_pes_loop turns buf o (c + 1) length
      else find_pes_loop turns buf o (c + 1) length
    end
  else Ret (c, false).

(** [find_pes_header (buf + o, length, &frags)]: its result and [frags]. *)
Definition find_pes_header (buf : list Z) (o length : Z) : outcome (Z * Z) :=
  '(c, found) ← find_pes_loop (Z.to_nat length) buf o 0 length;
  if (c =? length - 3) && negb found then
    b1 ← load buf (o + length - 1);
    b2 ← load buf (o + length - 2);
    b3 ← load buf (o + length - 3);
    let frags := if b1 =? 0x00 then 1 else 0 in
    let frags := if (b2 =? 0x00) && (b1 =? 0x00) then 2 else frags in
    let frags := if (b3 =? 0x00) && (b2 =? 0x00) && (b1 =? 0x01) then 3 else frags in
    Ret (-1, frags)
  else Ret (c, 0).

(** ** A piece of the stream *)

(** [if (p->frags)]: the state, [c] and the packets. *)
Definition resume_frags (buf : list Z) (pid : Z) (p : p2t_t) : outcome (p2t_t * Z * list (list Z)) :=
  if p2_frags p =? 0 then Ret (p, 0, []) else
  '(check, c) ← (
    if p2_frags p =? 1 then
      b0 ← load buf 0;
      if negb (b0 =? 0x00) then Ret (false, 0) else
      b1 ← load buf 1; Ret (if b1 =? 0x01 then (true, 2) else (false, 0))
    else if p2_frags p =? 2 then b0 ← load buf 0; Ret (if b0 =? 0x01 then (true, 1) else (false, 0))
    else Ret (p2_frags p =? 3, 0));
  '(p, c, ps) ← (
    if (check : bool) then
      id ← load buf c;
      if known_stream id then
        pes ← write_at (p2_pes p) 0 [0x00; 0x00; 0x01; id];
        let p := p <| p2_pos := 4 |> in
        pes ← memcpy pes (p2_pos p) buf c (TS_SIZE - 4 - p2_pos p);
        '(ps, counter) ← p_to_t pes 0 (TS_SIZE - 4) pid (p2_counter p);
        Ret (clear_p2t (p <| p2_pes := pes |> <| p2_counter := counter |>), c + (TS_SIZE - 4 - p2_pos p), ps)
      else Ret (p, 0, [])
    else Ret (p, c, []));
  Ret (p <| p2_frags := 0 |>, c, ps).

(** [if (p->pos)]. *)
Definition flush_pending (buf : list Z) (length pid c : Z) (p : p2t_t) : outcome (p2t_t * Z * list (list Z)) :=
  if p2_pos p =? 0 then Ret (p, c, []) else
  '(c2, frags) ← find_pes_header buf c (length - c);
  let p := p <| p2_frags := frags |> in
  let l := if (c2 >=? 0) && (c2 <? TS_SIZE - 4 - p2_pos p) then c2 + c else TS_SIZE - 4 - p2_pos p in
  pes ← memcpy (p2_pes p) (p2_pos p) buf 0 l;
  let p := p <| p2_pes := pes |> <| p2_pos := p2_pos p + l |> in
  '(ps, counter) ← p_to_t (p2_pes p) 0 (p2_pos p) pid (p2_counter p);
  Ret (clear_p2t (p <| p2_counter := counter |>), c + l, ps).

(** [while (c < length)]. *)
Fixpoint pes_to_ts_loop (fuel : nat) (buf : list Z) (length pid c add : Z) (p : p2t_t)
  : outcome (p2t_t * list (list Z)) :=
  if negb (c <? length) then Ret (p, []) else
  match fuel with
  | O => Hang
  | S fuel =>
    '(c2, frags) ← find_pes_header buf (c + add) (length - c - add);
    let p := p <| p2_frags := frags |> in
    if c2 >=? 0 then
      let c2 := c2 + (c + add) in
      if c2 >? c then
        '(ps, counter) ← p_to_t buf c (c2 - c) pid (p2_counter p);
        '(p, ps') ← pes_to_ts_loop fuel buf length pid c2 0 (clear_p2t (p <| p2_counter := counter |>));
        Ret (p, ps ++ ps')
      else pes_to_ts_loop fuel buf length pid c 1 p
    else
      let l := length - c in
      let rest := Z.rem l (TS_SIZE - 4) in
      let l := l - rest in
      '(ps, counter) ← p_to_t buf c l pid (p2_counter p);
      pes ← memcpy (p2_pes p) 0 buf (c + l) rest;
      Ret (p <| p2_counter := counter |> <| p2_pes := pes |> <| p2_pos := rest |>, ps)
  end.

Definition pes_to_ts (buf : list Z) (length pid : Z) (p : p2t_t) : outcome (p2t_t * list (list Z)) :=
  '(p, c, ps1) ← resume_frags buf pid p;
  '(p, c, ps2) ← flush_pending buf length pid c p;
  '(p, ps3) ← pes_to_ts_loop (Z.to_nat (2 * length + 1)) buf length pid c 0 p;
  Ret (p, ps1 ++ ps2 ++ ps3).

(** ** The standard output *)
Section Output.
(** What the [n]th [write] of [l] bytes returns: a number of bytes or -1. *)
Variable sys_write : nat -> Z -> Z.

(** [while (l)] of [twrite], from the [n]th call on; the bytes that were written and
    the number of calls. *)
Fixpoint twrite_loop (fuel : nat) (n : nat) (buf : list Z) (c l : Z) : outcome (list Z * nat) :=
  if l =? 0 then Ret ([], n) else
  match fuel with
  | O => Hang
  | S fuel =>
    d ← read_at buf c l;
    let w := sys_write n l in
    '(out, n') ← (if w >=? 0 then twrite_loop fuel (S n) buf (c + w) (l - w)
                  else twrite_loop fuel (S n) buf c l);
    Ret (ztake w d ++ out, n')
  end.

Definition twrite (fuel n : nat) (buf : list Z) : outcome (list Z * nat) := twrite_loop fuel n buf 0 TS_SIZE.
End Output.

(** ** The search *)

(** A header starts [i] bytes behind [o]. *)
Definition header_at (buf : list Z) (i : Z) : bool :=
  start_code (sub buf i 3) && ((zn buf (i + 3) =? 0xBA) || known_stream (zn buf (i + 3))).

(** How much of a start code the last three bytes end with. *)
Definition code_tail (l : list Z) : Z :=
  if start_code l then 3 else if (zn l 1 =? 0) && (zn l 2 =? 0) then 2 else if zn l 2 =? 0 then 1 else 0.

Lemma find_pes_loop_ok buf o length turns : forall c, 0 <= o -> 0 <= c -> o + length <= zlen buf ->
  length - 3 - c <= Z.of_nat turns ->
  exists c' f, find_pes_loop turns buf o c length = Ret (c', f) /\ c <= c' /\
    (forall i, c <= i < c' -> i < length - 3 -> header_at buf (o + i) = false) /\
    if f : bool then c' < length - 3 /\ header_at buf (o + c') = true else c' = Z.max c (length - 3).
Proof.
  induction turns as [|turns IH]; intros c Ho Hc Hl Ht; cbn [find_pes_loop].
  { replace (c <? length - 3) with false by lia. exists c, false. split_and!; [done|lia|lia|lia]. }
  destruct (Z.ltb_spec c (length - 3)) as [Hlt|Hge].
  2: { exists c, false. split_and!; [done|lia|lia|lia]. }
  rewrite start_at_code by lia. next.
  assert (Hnext : header_at buf (o + c) = false -> exists c' f, find_pes_loop turns buf o (c + 1) length = Ret (c', f) /\ c <= c' /\
    (forall i, c <= i < c' -> i < length - 3 -> header_at buf (o + i) = false) /\
    if f : bool then c' < length - 3 /\ header_at buf (o + c') = true else c' = Z.max c (length - 3)).
  { intros H0. destruct (IH (c + 1)) as (c' & f & E & H1 & H2 & H3); [lia..|]. exists c', f.
    split_and!; [done|lia| |destruct f; [done|lia]]. intros i Hi Hi'.
    destruct (Z.eq_dec i c) as [->|]; [done|]. apply H2; lia. }
  destruct (start_code (sub buf (o + c) 3)) eqn:Es; [|apply Hnext; unfold header_at; by rewrite Es].
  rewrite load_ok by lia. next.
  destruct ((zn buf (o + c + 3) =? 0xBA) || known_stream (zn buf (o + c + 3))) eqn:Eh;
    [|apply Hnext; unfold header_at; by rewrite Eh, andb_false_r].
  exists c, true. split_and!; [done|lia|lia|lia|]. unfold header_at. by rewrite Es, Eh.
Qed.

Lemma find_pes_header_ok buf o length : 0 <= o -> 0 <= length -> o + length <= zlen buf ->
  exists c frags, find_pes_header buf o length = Ret (c, frags) /\ 0 <= frags <= 3 /\
    if c =? -1 then 3 <= length /\ (forall i, 0 <= i < length - 3 -> header_at buf (o + i) = false) /\
      frags = code_tail (sub buf (o + length - 3) 3)
    else frags = 0 /\ 0 <= c /\
      (c = 0 /\ length < 3 \/
       c < length - 3 /\ header_at buf (o + c) = true /\ forall i, 0 <= i < c -> header_at buf (o + i) = false).
Proof.
  intros Ho Hn Hl. unfold find_pes_header.
  destruct (find_pes_loop_ok buf o length (Z.to_nat length) 0) as (c & f & -> & Hc & Hno & Hf); [lia..|]. next.
  destruct f.
  { destruct Hf as [H1 H2]. rewrite andb_false_r. exists c, 0. split_and!; [done|lia|lia|].
    replace (c =? -1) with false by lia. split_and!; [done|lia|]. right. split_and!; [lia|done|]. intros i Hi. apply Hno; lia. }
  rewrite andb_true_r. destruct (Z.eqb_spec c (length - 3)) as [E3|E3].
  - rewrite (load_ok buf (o + length - 1)) by lia. next. rewrite (load_ok buf (o + length - 2)) by lia. next.
    rewrite load_ok by lia. next.
    set (t := sub buf (o + length - 3) 3). exists (-1), (code_tail t).
    assert (zn t 0 = zn buf (o + length - 3) /\ zn t 1 = zn buf (o + length - 2) /\ zn t 2 = zn buf (o + length - 1)) as (E0 & E1 & E2).
    { unfold t. rewrite !zn_sub by lia. split_and!; f_equal; lia. }
    unfold code_tail, start_code. rewrite E0, E1, E2.
    split_and!; [|by repeat case_match|by repeat case_match|].
    + destruct (zn buf (o + length - 3) =? 0), (zn buf (o + length - 2) =? 0), (Z.eqb_spec (zn buf (o + length - 1)) 0) as [->|],
        (Z.eqb_spec (zn buf (o + length - 1)) 1); done.
    + cbn. split_and!; [lia| |done]. intros i Hi. apply Hno; lia.
  - exists c, 0. split_and!; [done|lia|lia|]. replace (c =? -1) with false by lia. split_and!; [done|lia|]. left. lia.
Qed.

(** ** Every byte goes out or stays pending *)
Record p2t_ok (p : p2t_t) : Prop := {
  pt_pes : zlen (p2_pes p) = TS_SIZE;
  pt_bytes : bytes (p2_pes p);
  pt_counter : is_byte (p2_counter p);
  pt_pos : 0 <= p2_pos p < TS_SIZE - 4;
  pt_frags : 0 <= p2_frags p <= 3
}.

Definition pending (p : p2t_t) : list Z := ztake (p2_pos p) (p2_pes p).

(** The packets [ps] have PID [pid] and carry [data]. *)
Definition carry (pid : Z) (data : list Z) (ps : list (list Z)) : Prop :=
  Forall (data_packet pid) ps /\ mjoin (ts_payload <$> ps) = data.

Lemma carry_nil pid : carry pid [] [].
Proof. done. Qed.

Lemma carry_app pid d e ps qs : carry pid d ps -> carry pid e qs -> carry pid (d ++ e) (ps ++ qs).
Proof. intros [H1 <-] [H2 <-]. split; [by apply Forall_app|]. by rewrite fmap_app, join_app. Qed.

Lemma clear_ok p : p2t_ok (clear_p2t p) /\ p2_pos (clear_p2t p) = 0.
Proof. split; [|done]. constructor; [done|cbn; bytes|done..]. Qed.

Lemma p_to_t_carry buf o length pid counter : 0 <= pid < 0x2000 -> is_byte counter -> bytes buf -> 0 <= o -> 0 <= length ->
  o + length <= zlen buf ->
  exists ps counter', p_to_t buf o length pid counter = Ret (ps, counter') /\ is_byte counter' /\
    carry pid (sub buf o length) ps.
Proof.
  intros Hpid Hc Hb Ho Hn Hl. destruct (p_to_t_ok buf o length pid counter) as (ps & E & [C1 C2 C3]); [done..|].
  exists ps, (u8 (counter + zlen ps)). split; [done|]. split; [apply u8_byte|]. split; [|done].
  apply Forall_lookup. intros i k Hi. by destruct (C3 i k Hi).
Qed.

Lemma ztake_blit {A} (l : list A) c n : zlen c = n -> n <= zlen l -> ztake n (blit l 0 c) = c.
Proof.
  intros <- H. pose proof (zlen_nonneg c). rewrite <- sub_from_0. apply sub_blit_eq; lia.
Qed.

Lemma pes_to_ts_loop_ok buf length pid fuel : forall c add p, 0 <= pid < 0x2000 -> bytes buf -> length <= zlen buf ->
  p2t_ok p -> p2_pos p = 0 -> 0 <= c <= length -> add = 0 \/ add = 1 ->
  2 * (length - c) + 1 - add <= Z.of_nat fuel ->
  exists p' ps d, pes_to_ts_loop fuel buf length pid c add p = Ret (p', ps) /\ p2t_ok p' /\ carry pid d ps /\
    d ++ pending p' = sub buf c (length - c).
Proof.
  induction fuel as [|fuel IH]; intros c add p Hpid Hb Hlen Hp H0 Hc Hadd Hfuel; cbn [pes_to_ts_loop].
  { replace (c <? length) with false by lia. exists p, [], []. split_and!; [done|done|apply carry_nil|].
    unfold pending. rewrite H0. by replace (length - c) with 0 by lia. }
  destruct (Z.ltb_spec c length) as [Hlt|Hge]; cbn [negb].
  2: { exists p, [], []. split_and!; [done|done|apply carry_nil|]. unfold pending. rewrite H0. by replace (length - c) with 0 by lia. }
  destruct (find_pes_header_ok buf (c + add) (length - c - add)) as (c2 & frags & -> & Hfr & H2); [lia..|]. next.
  set (q := p <| p2_frags := frags |>).
  assert (Hq : p2t_ok q) by (destruct Hp; by constructor).
  rewrite Z.geb_leb. destruct (Z.eqb_spec c2 (-1)) as [->|Hne]; cbn [Z.leb].
  - destruct H2 as (H3 & _ & _). set (L := length - c) in *. assert (HL : L = length - c) by done. set (r := Z.rem L (TS_SIZE - 4)).
    assert (0 <= r < 184 /\ r <= L) as [Hr Hr'].
    { unfold r, TS_SIZE. rewrite Z.rem_mod_nonneg by lia. split; [apply Z.mod_pos_bound; lia|apply Z.mod_le; lia]. }
    destruct (p_to_t_carry buf c (L - r) pid (p2_counter q)) as (ps & counter' & E & Hc' & Hps); [done|apply Hq|done|lia|lia|lia|].
    replace (0 <=? -1) with false by done. rewrite E. next. pose proof (pt_pes q Hq) as Hz. unfold TS_SIZE in Hz.
    rewrite memcpy_ok by lia. next. set (t := sub buf (c + (L - r)) r). eexists _, _, _. split_and!; [done| |exact Hps|].
    + assert (Hzp : zlen (p2_pes p) = 188) by exact Hz. constructor; cbn; [|apply bytes_blit; [apply Hq|apply bytes_sub; done]|done|unfold TS_SIZE; lia|apply Hq].
      unfold t, TS_SIZE. zsimpl. lia.
    + unfold pending. cbn [p2_pos p2_pes set]. change (sub buf c (L - r) ++ ztake r (blit (p2_pes q) 0 t) = sub buf c L).
      rewrite ztake_blit by (unfold t; zsimpl; lia). unfold t. rewrite <- sub_split by lia. f_equal. lia.
  - destruct H2 as (-> & Hc2 & H2).
    replace (0 <=? c2) with true by lia.
    destruct (Z.gtb_spec (c2 + (c + add)) c) as [Hgt|Hle].
    + set (e := c2 + (c + add)) in *. assert (e <= length) by lia.
      destruct (p_to_t_carry buf c (e - c) pid (p2_counter q)) as (ps & counter' & E & Hc' & Hps); [done|apply Hq|done|lia|lia|lia|].
      rewrite E. next. set (s := q <| p2_counter := counter' |>). destruct (clear_ok s) as [Hs Hs0].
      destruct (IH e 0 (clear_p2t s)) as (p' & ps' & d & -> & Hp' & Hd & Hdp); [done..|lia|by left|lia|]. next.
      eexists _, _, _. split_and!; [done|done|by apply carry_app|]. rewrite <- app_assoc, Hdp.
      replace (length - c) with ((e - c) + (length - e)) by lia. rewrite sub_split by lia. do 2 f_equal. lia.
    + destruct (IH c 1 q) as (p' & ps' & d & -> & Hp' & Hd & Hdp); [done|done|done|done|done|lia|by right|lia|].
      by exists p', ps', d.
Qed.

Lemma flush_pending_ok buf length pid p : 0 <= pid < 0x2000 -> bytes buf -> 0 <= length -> length <= zlen buf -> p2t_ok p ->
  p2_pos p = 0 \/ TS_SIZE - 4 - p2_pos p <= length ->
  exists p' c ps, flush_pending buf length pid 0 p = Ret (p', c, ps) /\ p2t_ok p' /\ p2_pos p' = 0 /\ 0 <= c <= length /\
    carry pid (pending p ++ sub buf 0 c) ps.
Proof.
  intros Hpid Hb Hn Hlen Hp Hl. unfold flush_pending. destruct (Z.eqb_spec (p2_pos p) 0) as [H0|H0].
  { exists p, 0, []. split_and!; [done|done|done|lia|lia|]. unfold pending. rewrite H0, sub_0. apply carry_nil. }
  destruct Hl as [|Hl]; [lia|]. destruct (find_pes_header_ok buf 0 (length - 0)) as (c2 & frags & -> & _ & H2); [lia..|]. next.
  pose proof (pt_pos p Hp) as Hpos. pose proof (pt_pes p Hp) as Hz. unfold TS_SIZE in *.
  set (q := p <| p2_frags := frags |>). change (p2_pos q) with (p2_pos p). change (p2_pes q) with (p2_pes p).
  set (l := if (c2 >=? 0) && (c2 <? 188 - 4 - p2_pos p) then c2 + 0 else 188 - 4 - p2_pos p).
  assert (Hl' : 0 <= l <= length /\ l <= 184 - p2_pos p).
  { unfold l. rewrite Z.geb_leb. destruct (Z.leb_spec 0 c2), (Z.ltb_spec c2 (188 - 4 - p2_pos p)); cbn [andb]; lia. }
  rewrite memcpy_ok by lia. next. set (t := blit (p2_pes p) (p2_pos p) (sub buf 0 l)).
  set (r := q <| p2_pes := t |> <| p2_pos := p2_pos p + l |>).
  change (p2_pes r) with t. change (p2_pos r) with (p2_pos p + l). change (p2_counter r) with (p2_counter p).
  assert (Hzt : zlen t = 188) by (unfold t; zsimpl; lia).
  assert (Hbt : bytes t) by (unfold t; apply bytes_blit; [apply Hp|by apply bytes_sub]).
  destruct (p_to_t_carry t 0 (p2_pos p + l) pid (p2_counter p)) as (ps & counter' & E & Hc' & Hps); [done|apply Hp|done|lia..|].
  rewrite E. next. destruct (clear_ok (r <| p2_counter := counter' |>)) as [Hs Hs0].
  eexists _, _, _. split_and!; [done|done|done|lia|lia|].
  replace (pending p ++ sub buf 0 (0 + l)) with (sub t 0 (p2_pos p + l)); [done|].
  rewrite sub_split, Z.add_0_l by lia. unfold pending, t. f_equal.
  - rewrite sub_blit_before by (zsimpl; lia). by rewrite sub_from_0.
  - assert (zlen (sub buf 0 l) = l) as Hsl by (zsimpl; lia). rewrite <- Hsl at 2. apply sub_blit_eq; zsimpl; lia.
Qed.

Lemma pes_to_ts_ok buf length pid p : 0 <= pid < 0x2000 -> bytes buf -> 0 <= length -> length <= zlen buf -> p2t_ok p ->
  p2_frags p = 0 -> p2_pos p = 0 \/ TS_SIZE - 4 - p2_pos p <= length ->
  exists p' ps d, pes_to_ts buf length pid p = Ret (p', ps) /\ p2t_ok p' /\ carry pid d ps /\
    d ++ pending p' = pending p ++ ztake length buf.
Proof.
  intros Hpid Hb Hn Hlen Hp Hf Hpos. unfold pes_to_ts, resume_frags. rewrite Hf. cbn [Z.eqb]. next.
  destruct (flush_pending_ok buf length pid p) as (q & c & ps & -> & Hq & H0 & Hc & Hps); [done..|]. next.
  destruct (pes_to_ts_loop_ok buf length pid (Z.to_nat (2 * length + 1)) c 0 q) as (p' & ps' & d & -> & Hp' & Hd & Hdp);
    [done|done|done|done|done|lia|by left|lia|]. next.
  exists p', (ps ++ ps'), ((pending p ++ sub buf 0 c) ++ d). split_and!; [done|done|by apply carry_app|].
  rewrite <- !app_assoc, Hdp. f_equal. rewrite <- sub_from_0. replace length with (c + (length - c)) at 2 by lia.
  rewrite sub_split by lia. do 2 f_equal; lia.
Qed.

Lemma read_at_crash l o n : zlen l < o + n -> read_at l o n = Crash.
Proof.
  intros H. unfold read_at. destruct (in_range l o n) eqn:E; [|done]. apply in_range_true in E. lia.
Qed.

(** C14: [pes_to_ts] loses and invents nothing: it returns, and the payloads of the
    packets it puts out, followed by the bytes that stay pending in its state, are the
    bytes that were pending followed by the new piece of the stream.  All packets are
    transport packets with the given PID and the state is well formed again.  This is
    proved where the code is right: no start code was cut by the end of the last
    piece, and a piece that follows pending bytes is long enough to fill a packet. *)
Theorem pes_to_ts_conserves buf length pid p : 0 <= pid < 0x2000 -> bytes buf -> 0 <= length <= zlen buf -> p2t_ok p ->
  p2_frags p = 0 -> p2_pos p = 0 \/ TS_SIZE - 4 - p2_pos p <= length ->
  exists p' ps, pes_to_ts buf length pid p = Ret (p', ps) /\ p2t_ok p' /\ Forall (data_packet pid) ps /\
    mjoin (ts_payload <$> ps) ++ pending p' = pending p ++ ztake length buf.
Proof.
  intros Hpid Hb Hn Hp Hf Hpos. destruct (pes_to_ts_ok buf length pid p) as (p' & ps & d & E & Hp' & [H1 H2] & H3); [done|done|lia|lia|done..|].
  exists p', ps. by rewrite H2.
Qed.

(** A piece that is too short to fill up the pending packet and has no header makes
    [pes_to_ts] read beyond the end of the piece. *)
Theorem pes_to_ts_short_piece buf pid p : bytes buf -> p2t_ok p -> p2_frags p = 0 -> 0 < p2_pos p ->
  3 <= zlen buf -> zlen buf < TS_SIZE - 4 - p2_pos p ->
  (forall i, 0 <= i < zlen buf - 3 -> header_at buf i = false) ->
  pes_to_ts buf (zlen buf) pid p = Crash.
Proof.
  intros Hb Hp Hf Hpos H3 Hl Hno. unfold pes_to_ts, resume_frags. rewrite Hf. cbn [Z.eqb]. next. unfold flush_pending.
  replace (p2_pos p =? 0) with false by lia.
  destruct (find_pes_header_ok buf 0 (zlen buf - 0)) as (c2 & frags & -> & _ & H2); [lia..|]. next.
  destruct (Z.eqb_spec c2 (-1)) as [->|Hne].
  2: { destruct H2 as (_ & Hc2 & [H2|(H2 & Hh & _)]); [lia|]. rewrite Hno in Hh by lia. done. }
  change (p2_pos (p <| p2_frags := frags |>)) with (p2_pos p).
  cbn [Z.geb Z.compare andb]. unfold memcpy. rewrite read_at_crash by lia. done.
Qed.

(** When a piece ended with a start code and the next one begins with the id of a
    stream, [pes_to_ts] puts out a packet with the id twice, and the bytes that were
    pending never go out. *)
Theorem pes_to_ts_repeats_id buf length pid p : 0 <= pid < 0x2000 -> bytes buf -> 180 <= length <= zlen buf -> p2t_ok p ->
  p2_frags p = 3 -> known_stream (zn buf 0) = true ->
  exists p' ps, pes_to_ts buf length pid p = Ret (p', ps) /\
    mjoin (ts_payload <$> ps) ++ pending p' = [0x00; 0x00; 0x01; zn buf 0] ++ ztake length buf.
Proof.
  intros Hpid Hb Hl Hp Hf Hid. unfold pes_to_ts, resume_frags. rewrite Hf. cbn [Z.eqb Pos.eqb]. next.
  rewrite load_ok by lia. next. rewrite Hid. pose proof (pt_pes p Hp) as Hz. unfold TS_SIZE in *.
  rewrite write_at_ok by (zsimpl; lia). next. cbv zeta. cbn [p2_pos set p2_counter].
  change (188 - 4 - 4) with 180. rewrite memcpy_ok by (zsimpl; lia). next.
  set (t := blit (blit _ _ _) 4 _). assert (Hzt : zlen t = 188) by (unfold t; zsimpl; lia).
  assert (Hbt : bytes t).
  { unfold t. pose proof (pt_bytes p Hp). pose proof (bytes_zn buf 0 Hb ltac:(lia)). bytes. }
  destruct (p_to_t_carry t 0 184 pid (p2_counter p)) as (ps & counter' & E & _ & [Hps1 Hps2]); [done|apply Hp|done|lia..|].
  change (188 - 4) with 184. rewrite E. next. next.
  set (q := _ <| p2_frags := 0 |>). assert (Hq : p2t_ok q) by apply clear_ok.
  assert (Eq : flush_pending buf length pid (0 + 180) q = Ret (q, 180, [])) by reflexivity. next. rewrite Eq. next.
  destruct (pes_to_ts_loop_ok buf length pid (Z.to_nat (2 * length + 1)) 180 0 q) as (p' & ps' & d & -> & Hp' & [Hd1 Hd2] & Hdp);
    [done|done|lia|done|done|lia|by left|lia|]. next.
  exists p', (ps ++ ps'). split; [done|]. cbn [app]. rewrite fmap_app, join_app, Hps2, Hd2, <- app_assoc, Hdp.
  assert (Et : t = blit (p2_pes p) 0 ([0; 0; 1; zn buf 0] ++ sub buf 0 180)) by (unfold t; apply (blit_blit _ 0 [_; _; _; _]); zsimpl; lia).
  rewrite Et, sub_from_0, ztake_blit by (zsimpl; lia).
  change (([0; 0; 1; zn buf 0] ++ sub buf 0 180) ++ sub buf 180 (length - 180) = [0; 0; 1; zn buf 0] ++ ztake length buf).
  rewrite <- app_assoc, <- (sub_from_0 buf length), <- (sub_split buf 0 180) by lia. do 2 f_equal. lia.
Qed.

(** Two PES packets of one transport packet each. *)
Definition two_pes : list Z := ([0; 0; 1; 0xE0; 0; 178] ++ replicate 178 0x55) ++ [0; 0; 1; 0xE0; 0; 178] ++ replicate 178 0x55.

(** The continuity counter does not go on from one PES packet to the next: the state
    is cleared, the counter with it, so that two transport packets of one PID that
    follow each other have the same counter although both have a payload. *)
Theorem pes_to_ts_repeats_counter :
  exists p' k1 k2, pes_to_ts two_pes 368 0x100 (mk_p2t (replicate 188 0) 0 0 0) = Ret (p', [k1; k2]) /\
    packet_pid k1 = 0x100 /\ packet_pid k2 = 0x100 /\ flag (zn k1 3) PAYLOAD = true /\ flag (zn k2 3) PAYLOAD = true /\
    zn k1 3 mod 16 = zn k2 3 mod 16 /\ ts_payload k1 = ts_payload k2 /\ zn k1 1 = zn k2 1.
Proof. eexists _, _, _. split; [vm_compute; reflexivity|]. by vm_compute. Qed.

(** ** The standard output *)
Lemma twrite_loop_ok sys_write buf fuel : (forall n l, 0 < l -> 1 <= sys_write n l <= l) ->
  forall n c l, 0 <= c -> 0 <= l -> c + l <= zlen buf -> l <= Z.of_nat fuel ->
  exists n', twrite_loop sys_write fuel n buf c l = Ret (sub buf c l, n').
Proof.
  intros Hw. induction fuel as [|fuel IH]; intros n c l Hc Hl Hlen Hf; cbn [twrite_loop].
  { replace (l =? 0) with true by lia. exists n. by replace l with 0 by lia. }
  destruct (Z.eqb_spec l 0) as [->|]; [by exists n|]. rewrite read_at_ok by lia. next.
  specialize (Hw n l ltac:(lia)). set (w := sys_write n l) in *. rewrite Z.geb_leb. replace (0 <=? w) with true by lia.
  destruct (IH (S n) (c + w) (l - w)) as (n' & ->); [lia..|]. next. exists n'. do 2 f_equal.
  rewrite ztake_sub by lia. replace l with (w + (l - w)) at 2 by lia. by rewrite sub_split by lia.
Qed.

(** [twrite] puts the whole packet out when every [write] takes at least one byte,
    however the packet is cut; when [write] keeps failing it never returns. *)
Theorem twrite_all_or_never buf : zlen buf = TS_SIZE ->
  (forall sys_write, (forall n l, 0 < l -> 1 <= sys_write n l <= l) ->
    exists n, twrite sys_write 188 0 buf = Ret (buf, n)) /\
  (forall sys_write fuel n, (forall k l, sys_write k l < 0) -> twrite sys_write fuel n buf = Hang).
Proof.
  intros Hz. unfold TS_SIZE in Hz. split.
  - intros w Hw. destruct (twrite_loop_ok w buf 188 Hw 0 0 TS_SIZE) as [n E]; [done|done|unfold TS_SIZE; lia|done|].
    exists n. unfold twrite. rewrite E. by rewrite sub_all by (unfold TS_SIZE; lia).
  - intros w fuel n Hw. unfold twrite. generalize n. induction fuel as [|fuel IH]; intros k; cbn [twrite_loop]; [done|].
    change (TS_SIZE =? 0) with false. cbv iota. rewrite read_at_ok by (unfold TS_SIZE; lia). next.
    rewrite Z.geb_leb. specialize (Hw k TS_SIZE). replace (0 <=? w k TS_SIZE) with false by lia. by rewrite IH.
Qed.

(** ** Witnesses *)
Definition fresh_p2t : p2t_t := init_p2t (mk_p2t [] 0 0 0).
Lemma fresh_p2t_ok : p2t_ok fresh_p2t.
Proof. apply clear_ok. Qed.

Lemma sample_pes_ext n : bytes (sample_pes ++ replicate n 7).
Proof. apply bytes_app. split; [apply sample_pes_bytes|]. bytes. Qed.

Lemma pes_to_ts_conserves_witness : exists p' ps, pes_to_ts sample_pes 8 0x100 fresh_p2t = Ret (p', ps) /\
  p2t_ok p' /\ Forall (data_packet 0x100) ps /\ mjoin (ts_payload <$> ps) ++ pending p' = sample_pes.
Proof.
  apply (pes_to_ts_conserves sample_pes 8 0x100 fresh_p2t);
    [lia|apply sample_pes_bytes|by split|apply fresh_p2t_ok|reflexivity|by left].
Defined.

Definition pending_p2t (frags : Z) : p2t_t := mk_p2t (replicate 188 5) 1 4 frags.
Lemma pending_p2t_ok frags : 0 <= frags <= 3 -> p2t_ok (pending_p2t frags).
Proof. constructor; [done|cbn; bytes|done|done|done]. Qed.

Lemma pes_to_ts_short_piece_witness : pes_to_ts [1; 2; 3] 3 0x100 (pending_p2t 0) = Crash.
Proof.
  apply (pes_to_ts_short_piece [1; 2; 3] 0x100 (pending_p2t 0));
    [bytes|by apply pending_p2t_ok|done|done|done|done|intros i Hi; change (zlen [1; 2; 3]) with 3 in Hi; lia].
Defined.

Lemma pes_to_ts_repeats_id_witness : exists p' ps,
  pes_to_ts (0xE0 :: replicate 200 9) 201 0x100 (pending_p2t 3) = Ret (p', ps) /\
  mjoin (ts_payload <$> ps) ++ pending p' = [0x00; 0x00; 0x01; 0xE0] ++ ztake 201 (0xE0 :: replicate 200 9).
Proof.
  apply (pes_to_ts_repeats_id (0xE0 :: replicate 200 9) 201 0x100 (pending_p2t 3));
    [lia|bytes|by split|by apply pending_p2t_ok|done|done].
Defined.

Lemma twrite_all_or_never_witness : exists n, twrite (fun _ l => Z.min l 100) 188 0 (replicate 188 7) = Ret (replicate 188 7, n).
Proof. apply (proj1 (twrite_all_or_never (replicate 188 7) eq_refl)). intros n l Hl. lia. Defined.
