(* ===== verification/Crc.v ===== *)
(** * The CRC of section data

    The tables and shifts of [calc_crc32] and [calc_crc32psi] are the bitwise
    division by the generator polynomial; a message followed by its CRC leaves the
    remainder 0; every error inside four consecutive bytes is detected. *)
From S2P Require Import Prelude TsPacket PesPacket PsPacket Md5Spec Md5Block Transform.

(** ** Division by the polynomial, bit by bit *)
Definition generator : Z := 0x04c11db7.

Definition bit_step (x : Z) : Z :=
  Z.lxor (Z.land (Z.shiftl x 1) (Z.ones 32)) (if Z.testbit x 31 then generator else 0).
Definition bit_steps (n : nat) (x : Z) : Z := Nat.iter n bit_step x.

(** The remainder of a message, its bits taken from the highest down. *)
Definition crc_bits (crc : Z) (l : list Z) : Z := foldl (fun x b => bit_steps 8 (Z.lxor x (Z.shiftl b 24))) crc l.

Lemma bit_step_word x : word (bit_step x).
Proof.
  unfold word. assert (E : Z.land (bit_step x) (Z.ones 32) = bit_step x).
  { apply Z.bits_inj'. intros n Hn. unfold bit_step. rewrite Z.land_spec, Z.lxor_spec, Z.land_spec.
    destruct (Z.lt_ge_cases n 32); [rewrite Z.ones_spec_low by lia; by rewrite !andb_true_r|].
    rewrite (Z.ones_spec_high 32) by lia. rewrite !andb_false_r. destruct (Z.testbit x 31); [|by rewrite Z.bits_0].
    symmetry. rewrite xorb_false_l. apply (word_high generator); [split; done|done]. }
  rewrite <- E, Z.land_ones by lia. apply Z.mod_pos_bound. lia.
Qed.

Lemma bit_step_lxor x y : bit_step (Z.lxor x y) = Z.lxor (bit_step x) (bit_step y).
Proof.
  apply Z.bits_inj'. intros n Hn. unfold bit_step. rewrite !Z.lxor_spec, !Z.land_spec, !Z.shiftl_spec, !Z.lxor_spec by done.
  destruct (Z.testbit x 31), (Z.testbit y 31); cbn [xorb]; rewrite ?Z.bits_0;
    by destruct (Z.testbit x (n - 1)), (Z.testbit y (n - 1)), (Z.testbit (Z.ones 32) n), (Z.testbit generator n).
Qed.

Lemma bit_steps_S n x : bit_steps (S n) x = bit_step (bit_steps n x).
Proof. done. Qed.

Lemma bit_steps_lxor n x y : bit_steps n (Z.lxor x y) = Z.lxor (bit_steps n x) (bit_steps n y).
Proof. induction n as [|n IH]; [done|]. by rewrite !bit_steps_S, IH, bit_step_lxor. Qed.

Lemma bit_steps_add n m x : bit_steps (n + m) x = bit_steps n (bit_steps m x).
Proof. induction n as [|n IH]; [done|]. change (S n + m)%nat with (S (n + m)). by rewrite !bit_steps_S, IH. Qed.

Lemma bit_steps_word n x : word x -> word (bit_steps n x).
Proof. destruct n; [done|]. intros _. apply bit_step_word. Qed.

(** Without a bit that falls out, the steps are a shift. *)
Lemma bit_step_low x : 0 <= x < 2 ^ 31 -> bit_step x = x * 2.
Proof.
  intros Hx. unfold bit_step. assert (Z.testbit x 31 = false) as ->.
  { destruct (Z.eq_dec x 0) as [->|]; [apply Z.bits_0|]. apply Z.bits_above_log2; [lia|]. apply Z.log2_lt_pow2; lia. }
  rewrite Z.lxor_0_r, Z.land_ones, Z.shiftl_mul_pow2 by lia. apply Z.mod_small. lia.
Qed.

Lemma bit_steps_low n : forall x, 0 <= x -> x * 2 ^ Z.of_nat n < 2 ^ 32 -> bit_steps n x = x * 2 ^ Z.of_nat n.
Proof.
  induction n as [|n IH]; intros x Hx Hl; [cbn; lia|].
  rewrite Nat2Z.inj_succ, Z.pow_succ_r in * by lia.
  assert (0 < 2 ^ Z.of_nat n) by (apply Z.pow_pos_nonneg; lia).
  rewrite bit_steps_S, IH by nia. rewrite bit_step_low by nia. ring.
Qed.

Lemma word_lxor x y : word x -> word y -> word (Z.lxor x y).
Proof.
  intros Hx Hy. assert (Z.lxor x y = Z.land (Z.lxor x y) (Z.ones 32)) as ->.
  { apply Z.bits_inj'. intros n Hn. rewrite Z.land_spec. destruct (Z.lt_ge_cases n 32).
    - rewrite Z.ones_spec_low by lia. by rewrite andb_true_r.
    - rewrite Z.ones_spec_high, Z.lxor_spec, !word_high by (done || lia). done. }
  rewrite Z.land_ones by lia. apply Z.mod_pos_bound. lia.
Qed.

Lemma byte_lxor x y : is_byte x -> is_byte y -> is_byte (Z.lxor x y).
Proof.
  intros Hx Hy. unfold is_byte in *. rewrite <- (Z.mod_small x 256), <- (Z.mod_small y 256) by lia.
  change 256 with (2 ^ 8). rewrite <- !Z.land_ones by lia.
  assert (Z.lxor (Z.land x (Z.ones 8)) (Z.land y (Z.ones 8)) = Z.land (Z.lxor x y) (Z.ones 8)) as ->.
  { apply Z.bits_inj'. intros n Hn. rewrite !Z.lxor_spec, !Z.land_spec, Z.lxor_spec.
    by destruct (Z.testbit x n), (Z.testbit y n), (Z.testbit (Z.ones 8) n). }
  rewrite Z.land_ones by lia. apply Z.mod_pos_bound. lia.
Qed.

Lemma bit_step_inj x y : word x -> word y -> bit_step x = bit_step y -> x = y.
Proof.
  intros Hx Hy E. apply Z.lxor_eq. set (z := Z.lxor x y).
  assert (Hz : word z) by by apply word_lxor.
  assert (Ez : bit_step z = 0) by (unfold z; by rewrite bit_step_lxor, E, Z.lxor_nilpotent).
  destruct (Z.testbit z 31) eqn:E31.
  - assert (Z.testbit (bit_step z) 0 = true) as Hb.
    { unfold bit_step. rewrite E31, Z.lxor_spec, Z.land_spec, Z.shiftl_spec_low by lia. done. }
    rewrite Ez, Z.bits_0 in Hb. done.
  - destruct (Z.lt_ge_cases z (2 ^ 31)) as [Hl|Hl].
    + rewrite bit_step_low in Ez by (unfold word in Hz; lia). lia.
    + rewrite Z.testbit_false in E31 by lia. unfold word in Hz.
      replace (z / 2 ^ 31) with 1 in E31; [done|]. apply Z.div_unique with (z - 2 ^ 31); lia.
Qed.

Lemma bit_steps_inj n x y : word x -> word y -> bit_steps n x = bit_steps n y -> x = y.
Proof.
  intros Hx Hy. induction n as [|n IH]; [done|]. rewrite !bit_steps_S. intros E.
  apply IH, bit_step_inj; auto using bit_steps_word.
Qed.

(** ** The table *)
Lemma table_bits i : is_byte i -> zn crc_table i = bit_steps 8 (Z.shiftl i 24).
Proof.
  intros Hi. assert (all_from (fun i => zn crc_table i =? bit_steps 8 (Z.shiftl i 24)) 256 0 = true) as E by (vm_compute; reflexivity).
  apply (proj1 (all_from_true _ _ _)) with (j := i) in E; [lia|]. unfold is_byte in Hi. lia.
Qed.

Lemma word_shift_byte b k : is_byte b -> 0 <= k <= 24 -> word (Z.shiftl b k).
Proof.
  unfold is_byte, word. intros Hb Hk. rewrite Z.shiftl_mul_pow2 by lia.
  assert (0 < 2 ^ k) by (apply Z.pow_pos_nonneg; lia). assert (2 ^ k <= 2 ^ 24) by (apply Z.pow_le_mono_r; lia). nia.
Qed.

(** A word is its highest byte, shifted, and the rest. *)
Lemma word_top x : word x -> x = Z.lxor (Z.shiftl (Z.shiftr x 24) 24) (Z.land x (Z.ones 24)).
Proof.
  intros Hx. apply Z.bits_inj'. intros n Hn. rewrite Z.lxor_spec, Z.land_spec. destruct (Z.lt_ge_cases n 24).
  - rewrite Z.shiftl_spec_low, Z.ones_spec_low by lia. by rewrite xorb_false_l, andb_true_r.
  - rewrite Z.shiftl_spec, Z.shiftr_spec, Z.ones_spec_high by lia. rewrite andb_false_r, xorb_false_r. f_equal. lia.
Qed.

Lemma crc_turn_bits crc b : word crc -> is_byte b -> crc_turn crc b = bit_steps 8 (Z.lxor crc (Z.shiftl b 24)).
Proof.
  intros Hc Hb. unfold crc_turn. set (i := Z.lxor (Z.shiftr crc 24) b). set (lo := Z.land crc (Z.ones 24)).
  assert (Hi : is_byte i).
  { apply byte_lxor; [|done]. unfold is_byte, word in *. rewrite Z.shiftr_div_pow2 by lia.
    split; [apply Z.div_pos; lia|apply Z.div_lt_upper_bound; lia]. }
  assert (Z.lxor crc (Z.shiftl b 24) = Z.lxor lo (Z.shiftl i 24)) as ->.
  { unfold i. rewrite (word_top crc Hc) at 1. fold lo. rewrite Z.shiftl_lxor.
    rewrite (Z.lxor_comm (Z.shiftl (Z.shiftr crc 24) 24) lo). by rewrite Z.lxor_assoc. }
  assert (Z.land i 0xff = i) as ->.
  { change 0xff with (Z.ones 8). rewrite Z.land_ones by lia. apply Z.mod_small. done. }
  rewrite bit_steps_lxor, <- table_bits by done. f_equal.
  assert (Hlo : lo = crc mod 2 ^ 24) by (unfold lo; apply Z.land_ones; lia).
  assert (0 <= lo < 2 ^ 24) by (rewrite Hlo; apply Z.mod_pos_bound; lia).
  rewrite bit_steps_low by (change (2 ^ Z.of_nat 8) with 256; lia).
  unfold u32. rewrite Z.shiftl_mul_pow2, Hlo by lia. change (2 ^ Z.of_nat 8) with (2 ^ 8).
  change (2 ^ 32) with (2 ^ 24 * 2 ^ 8). apply Z.mul_mod_distr_r; lia.
Qed.

Lemma crc_turn_word crc b : word crc -> is_byte b -> word (crc_turn crc b).
Proof. intros Hc Hb. rewrite crc_turn_bits by done. by apply bit_steps_word, word_lxor, word_shift_byte. Qed.

Lemma crc_bits_cons crc b l : crc_bits crc (b :: l) = crc_bits (bit_steps 8 (Z.lxor crc (Z.shiftl b 24))) l.
Proof. done. Qed.

Lemma crc_bits_app crc l k : crc_bits crc (l ++ k) = crc_bits (crc_bits crc l) k.
Proof. apply foldl_app. Qed.

Lemma crc_bits_word l : forall crc, word crc -> bytes l -> word (crc_bits crc l).
Proof.
  induction l as [|b l IH]; intros crc Hc Hl; [done|]. apply Forall_cons in Hl as [Hb Hl].
  rewrite crc_bits_cons. apply IH; [|done]. by apply bit_steps_word, word_lxor, word_shift_byte.
Qed.

(** The loop takes the remainder of the bytes it reads. *)
Lemma crc_loop_bits n : forall src o crc, bytes src -> word crc -> 0 <= o -> o + Z.of_nat n <= zlen src ->
  crc_loop n src o crc = Ret (crc_bits crc (sub src o (Z.of_nat n))).
Proof.
  induction n as [|n IH]; intros src o crc Hs Hc Ho Hn; [done|]. cbn [crc_loop].
  rewrite load_ok by lia. next. assert (is_byte (zn src o)) by (apply bytes_zn; [done|lia]).
  rewrite IH by (done || lia || by apply crc_turn_word).
  rewrite (sub_cons src o (Z.of_nat (S n))) by lia. rewrite crc_bits_cons, crc_turn_bits by done.
  by replace (Z.of_nat (S n) - 1) with (Z.of_nat n) by lia.
Qed.

(** The big-endian bytes of a word. *)
Definition be_bytes (w : Z) : list Z :=
  [Z.land (Z.shiftr w 24) 0xff; Z.land (Z.shiftr w 16) 0xff; Z.land (Z.shiftr w 8) 0xff; Z.land w 0xff].

Lemma be_bytes_div w : be_bytes w = [w / 2 ^ 24 mod 256; w / 2 ^ 16 mod 256; w / 2 ^ 8 mod 256; w mod 256].
Proof. unfold be_bytes. change 0xff with (Z.ones 8). by rewrite !Z.land_ones, !Z.shiftr_div_pow2 by lia. Qed.

Lemma be_bytes_ok w : bytes (be_bytes w).
Proof.
  rewrite be_bytes_div. unfold bytes, is_byte. repeat constructor; apply Z.mod_pos_bound; lia.
Qed.

(** The highest byte shifts the register out. *)
Lemma crc_top w : word w -> bit_steps 8 (Z.lxor w (Z.shiftl (w / 2 ^ 24) 24)) = u32 (w * 256).
Proof.
  intros Hw. rewrite (word_top w Hw) at 1. rewrite Z.shiftr_div_pow2, Z.lxor_comm, <- Z.lxor_assoc, Z.lxor_nilpotent, Z.lxor_0_l by lia.
  rewrite Z.land_ones by lia. pose proof (Z.mod_pos_bound w (2 ^ 24) ltac:(lia)).
  rewrite bit_steps_low by (change (2 ^ Z.of_nat 8) with 256; lia). change (2 ^ Z.of_nat 8) with 256.
  unfold u32. change (2 ^ 32) with (2 ^ 24 * 256). symmetry. apply Z.mul_mod_distr_r; lia.
Qed.

Lemma crc_bits_top w b l : word w -> b = w / 2 ^ 24 -> crc_bits w (b :: l) = crc_bits (u32 (w * 256)) l.
Proof. intros Hw ->. rewrite crc_bits_cons. by rewrite crc_top. Qed.

Lemma crc_bits_residue w : word w -> crc_bits w (be_bytes w) = 0.
Proof.
  intros Hw. rewrite be_bytes_div. unfold word in Hw.
  rewrite crc_bits_top by (done || (Z.div_mod_to_equations; lia)).
  rewrite crc_bits_top by (apply u32_word || (unfold u32; Z.div_mod_to_equations; lia)).
  rewrite crc_bits_top by (apply u32_word || (unfold u32; Z.div_mod_to_equations; lia)).
  rewrite crc_bits_top by (apply u32_word || (unfold u32; Z.div_mod_to_equations; lia)).
  cbn [crc_bits foldl]. unfold u32. Z.div_mod_to_equations; lia.
Qed.

(** ** Up to four bytes enter the register at once *)
Fixpoint place (k : Z) (m : list Z) : Z :=
  match m with [] => 0 | b :: m => Z.lxor (Z.shiftl b k) (place (k - 8) m) end.

Lemma place_bound m : forall k, bytes m -> 0 <= k + 8 -> 8 * zlen m <= k + 8 -> 0 <= place k m < 2 ^ (k + 8).
Proof.
  induction m as [|b m IH]; intros k Hm Hk Hl; cbn [place]; [pose proof (Z.pow_pos_nonneg 2 (k + 8)); lia|].
  apply Forall_cons in Hm as [Hb Hm]. rewrite zlen_cons in Hl. pose proof (zlen_nonneg m).
  destruct (IH (k - 8)) as [H1 H2]; [done|lia|lia|]. replace (k - 8 + 8) with k in H2 by lia.
  unfold is_byte in Hb. rewrite <- Z.add_nocarry_lxor.
  - rewrite Z.shiftl_mul_pow2, Z.pow_add_r by lia. change (2 ^ 8) with 256. nia.
  - apply Z.bits_inj'. intros n Hn. rewrite Z.land_spec, Z.bits_0. destruct (Z.lt_ge_cases n k).
    + by rewrite Z.shiftl_spec_low by lia.
    + destruct (Z.eq_dec (place (k - 8) m) 0) as [->|]; [by rewrite Z.bits_0, andb_false_r|].
      rewrite (Z.bits_above_log2 (place (k - 8) m)); [by rewrite andb_false_r|lia|].
      apply Z.log2_lt_pow2; [lia|]. apply Z.lt_le_trans with (2 ^ k); [lia|]. apply Z.pow_le_mono_r; lia.
Qed.

Lemma place_head b m k : is_byte b -> bytes m -> 0 <= k -> 8 * zlen m <= k -> Z.shiftr (place k (b :: m)) k = b.
Proof.
  intros Hb Hm Hk Hl. cbn [place]. rewrite Z.shiftr_lxor, Z.shiftr_shiftl_l by lia. rewrite Z.sub_diag, Z.shiftl_0_r.
  destruct (place_bound m (k - 8)) as [H1 H2]; [done|lia|lia|]. replace (k - 8 + 8) with k in H2 by lia.
  rewrite (Z.shiftr_div_pow2 (place (k - 8) m)) by lia. rewrite Z.div_small by lia. apply Z.lxor_0_r.
Qed.

Lemma place_inj m : forall m' k, bytes m -> bytes m' -> length m = length m' -> 0 <= k + 8 -> 8 * zlen m <= k + 8 ->
  place k m = place k m' -> m = m'.
Proof.
  induction m as [|b m IH]; intros [|b' m'] k Hm Hm' Hlen Hk Hl E; [done|done|done|].
  apply Forall_cons in Hm as [Hb Hm], Hm' as [Hb' Hm']. rewrite zlen_cons in Hl. pose proof (zlen_nonneg m).
  cbn [length] in Hlen. assert (zlen m' = zlen m) by (unfold zlen; lia).
  assert (b = b') as <-.
  { rewrite <- (place_head b m k), <- (place_head b' m' k) by (done || lia). by rewrite E. }
  f_equal. apply (IH m' (k - 8)); [done|done|lia|lia|lia|]. cbn [place] in E.
  apply (f_equal (Z.lxor (Z.shiftl b k))) in E. by rewrite <- !Z.lxor_assoc, Z.lxor_nilpotent, !Z.lxor_0_l in E.
Qed.

(** [j] steps done, the bytes of [m] come in at bit [24]. *)
Lemma crc_bits_place m : forall j k y, bytes m -> Z.of_nat j + k = 24 -> 8 * zlen m <= k + 8 -> 0 <= k + 8 ->
  crc_bits (bit_steps j y) m = bit_steps (j + 8 * length m) (Z.lxor y (place k m)).
Proof.
  induction m as [|b m IH]; intros j k y Hm Hjk Hl Hk.
  { cbn [place length]. rewrite Z.lxor_0_r. by replace (j + 8 * 0)%nat with j by lia. }
  apply Forall_cons in Hm as [Hb Hm]. rewrite zlen_cons in Hl. pose proof (zlen_nonneg m).
  rewrite crc_bits_cons. assert (Z.shiftl b 24 = bit_steps j (Z.shiftl b k)) as ->.
  { rewrite bit_steps_low; rewrite !Z.shiftl_mul_pow2 by lia; unfold is_byte in Hb.
    - rewrite <- Z.mul_assoc, <- Z.pow_add_r by lia. do 2 f_equal. lia.
    - pose proof (Z.pow_pos_nonneg 2 k). nia.
    - rewrite <- Z.mul_assoc, <- Z.pow_add_r by lia. replace (k + Z.of_nat j) with 24 by lia. lia. }
  rewrite <- bit_steps_lxor, <- bit_steps_add. rewrite (IH (8 + j)%nat (k - 8)) by (done || lia).
  cbn [place length]. rewrite Z.lxor_assoc. f_equal. lia.
Qed.

Lemma crc_bits_inj l : forall x y, word x -> word y -> bytes l -> crc_bits x l = crc_bits y l -> x = y.
Proof.
  induction l as [|b l IH]; intros x y Hx Hy Hl E; [done|]. apply Forall_cons in Hl as [Hb Hl].
  pose proof (word_shift_byte b 24 Hb ltac:(lia)).
  rewrite !crc_bits_cons in E. apply IH in E; [|auto using bit_steps_word, word_lxor..|done].
  apply bit_steps_inj in E; [|auto using word_lxor..].
  apply (f_equal (fun z => Z.lxor z (Z.shiftl b 24))) in E. by rewrite !Z.lxor_assoc, Z.lxor_nilpotent, !Z.lxor_0_r in E.
Qed.

Lemma crc_burst m m' x : word x -> bytes m -> bytes m' -> length m = length m' -> zlen m <= 4 ->
  crc_bits x m = crc_bits x m' -> m = m'.
Proof.
  intros Hx Hm Hm' Hlen Hl E. assert (zlen m' = zlen m) by (unfold zlen; lia). pose proof (zlen_nonneg m).
  change (crc_bits (bit_steps 0 x) m = crc_bits (bit_steps 0 x) m') in E.
  rewrite (crc_bits_place m 0 24 x), (crc_bits_place m' 0 24 x), Hlen in E by (done || lia).
  assert (Hw : forall m, bytes m -> zlen m <= 4 -> word (place 24 m)).
  { intros k Hk Hkl. apply (place_bound k 24); [done|lia|lia]. }
  apply bit_steps_inj in E; [|apply word_lxor; [done|apply Hw; (done || lia)]..].
  apply (place_inj m m' 24); [done|done|done|lia|lia|].
  apply (f_equal (Z.lxor x)) in E. by rewrite <- !Z.lxor_assoc, Z.lxor_nilpotent, !Z.lxor_0_l in E.
Qed.

(** ** The functions *)
Lemma crc_init_word : word 0xffffffff.
Proof. split; done. Qed.

Lemma calc_crc32psi_bits src len : bytes src -> 0 <= len <= zlen src ->
  calc_crc32psi None src len = Ret (None, crc_bits 0xffffffff (ztake len src)).
Proof.
  intros Hs Hl. unfold calc_crc32psi. rewrite crc_loop_bits by (done || lia). next. by rewrite Z2Nat.id by lia.
Qed.

(** C25: [calc_crc32psi] computes, byte by byte and with its table, the remainder of the
    bitwise division by the generator polynomial 0x04c11db7 with all ones as the
    initial register; it puts the remainder into [dst] in big-endian order, and a
    message followed by these four bytes leaves the remainder 0. *)
Theorem calc_crc32psi_divides d src len : bytes src -> 0 <= len <= zlen src -> 4 <= zlen d ->
  let crc := crc_bits 0xffffffff (ztake len src) in
  calc_crc32psi (Some d) src len = Ret (Some (be_bytes crc ++ zdrop 4 d), crc) /\
  calc_crc32psi None (ztake len src ++ be_bytes crc) (len + 4) = Ret (None, 0).
Proof.
  intros Hs Hl Hd crc. assert (Hb : bytes (ztake len src)) by by apply (bytes_sub src 0 len).
  assert (Hw : word crc) by by apply crc_bits_word. pose proof (be_bytes_ok crc). split.
  - unfold calc_crc32psi. rewrite crc_loop_bits by (done || lia). rewrite Z2Nat.id by lia.
    rewrite sub_from_0. fold crc. next. fold crc.
    do 4 (rewrite write_at_ok by (zsimpl; lia); next). do 3 f_equal.
    rewrite (blit_blit d 0 [_] [_]) by (zsimpl; lia). cbn [app].
    rewrite (blit_blit d 0 [_; _] [_]) by (zsimpl; lia). cbn [app].
    by rewrite (blit_blit d 0 [_; _; _] [_]) by (zsimpl; lia).
  - rewrite calc_crc32psi_bits; [|by apply bytes_app|zsimpl; unfold be_bytes; zsimpl; lia].
    rewrite <- sub_from_0, sub_all by (zsimpl; unfold be_bytes; zsimpl; lia).
    rewrite crc_bits_app. fold crc. by rewrite crc_bits_residue.
Qed.

(** C26: Errors inside four consecutive bytes of a message are detected: two messages
    that differ in such a place only have different results of [calc_crc32psi]. *)
Theorem calc_crc32psi_detects a m m' b : bytes (a ++ m ++ b) -> bytes m' -> length m = length m' ->
  zlen m <= 4 -> m <> m' ->
  exists crc crc', calc_crc32psi None (a ++ m ++ b) (zlen (a ++ m ++ b)) = Ret (None, crc) /\
    calc_crc32psi None (a ++ m' ++ b) (zlen (a ++ m' ++ b)) = Ret (None, crc') /\ crc <> crc'.
Proof.
  intros H Hm' Hlen Hl Hne. pose proof H as H'. rewrite !bytes_app in H'. destruct H' as (Ha & Hm & Hb).
  pose proof (zlen_nonneg (a ++ m ++ b)). pose proof (zlen_nonneg (a ++ m' ++ b)).
  eexists _, _. split; [apply calc_crc32psi_bits; [done|lia]|].
  split; [apply calc_crc32psi_bits; [by rewrite !bytes_app|lia]|].
  rewrite <- !sub_from_0, !sub_all, !crc_bits_app by lia. intros E.
  pose proof (crc_bits_word a 0xffffffff crc_init_word Ha) as Hw.
  apply crc_bits_inj in E; [|auto using crc_bits_word..]. by apply crc_burst in E.
Qed.

Lemma calc_crc32psi_divides_witness :
  calc_crc32psi (Some [0; 0; 0; 0; 9]) [1; 2; 3] 2 = Ret (Some (be_bytes (crc_bits 0xffffffff [1; 2]) ++ [9]), crc_bits 0xffffffff [1; 2]).
Proof.
  apply (calc_crc32psi_divides [0; 0; 0; 0; 9] [1; 2; 3] 2); [unfold bytes, is_byte; repeat constructor; lia|unfold zlen; cbn; lia..].
Defined.

Lemma calc_crc32psi_detects_witness :
  exists crc crc', calc_crc32psi None [7; 1; 2; 9] 4 = Ret (None, crc) /\ calc_crc32psi None [7; 2; 1; 9] 4 = Ret (None, crc') /\ crc <> crc'.
Proof.
  apply (calc_crc32psi_detects [7] [1; 2] [2; 1] [9]);
    [unfold bytes, is_byte; repeat constructor; lia|unfold bytes, is_byte; repeat constructor; lia|done|unfold zlen; cbn; lia|done].
Defined.

(** ** The program map table *)
Definition high_of (b pid : Z) : Prop := b = 0xe0 \/ b = Z.lor 0xe0 (Z.shiftr pid 8).

(** The table before a turn: the PID fields are clear or hold the PIDs. *)
Record pmt_ready (pidv pida : Z) (t : list Z) : Prop := {
  pr_bytes : bytes t;
  pr_len : zlen t = TS_SIZE;
  pr_video : high_of (zn t 23) pidv;
  pr_audio : high_of (zn t 28) pida
}.

Definition pid_at (t : list Z) (i : Z) : Z := Z.lor (Z.shiftl (Z.land (zn t i) 0x1F) 8) (zn t (i + 1)).

Lemma pid_shift pid : 0 <= pid < 0x2000 -> 0 <= Z.shiftr pid 8 < 32.
Proof.
  intros H. rewrite Z.shiftr_div_pow2 by lia. split; [apply Z.div_pos; lia|apply Z.div_lt_upper_bound; lia].
Qed.

Lemma high_set b pid : 0 <= pid < 0x2000 -> high_of b pid ->
  u8 (Z.lor b (Z.land (Z.shiftr pid 8) 0x3F)) = Z.lor 0xe0 (Z.shiftr pid 8).
Proof.
  intros H Hb. pose proof (pid_shift pid H) as Hs. set (h := Z.shiftr pid 8) in *.
  assert (all_from (fun h => (u8 (Z.lor 0xe0 (Z.land h 0x3F)) =? Z.lor 0xe0 h)
    && (u8 (Z.lor (Z.lor 0xe0 h) (Z.land h 0x3F)) =? Z.lor 0xe0 h)) 32 0 = true) as E by reflexivity.
  apply (proj1 (all_from_true _ _ _)) with (j := h) in E; [|lia].
  destruct Hb as [->| ->]; fold h; lia.
Qed.

Lemma high_get pid : 0 <= pid < 0x2000 ->
  Z.lor (Z.shiftl (Z.land (Z.lor 0xe0 (Z.shiftr pid 8)) 0x1F) 8) (u8 pid) = pid.
Proof.
  intros H. pose proof (pid_shift pid H) as Hs. set (h := Z.shiftr pid 8) in *.
  assert (all_from (fun h => Z.land (Z.lor 0xe0 h) 0x1F =? h) 32 0 = true) as E by reflexivity.
  apply (proj1 (all_from_true _ _ _)) with (j := h) in E; [|lia]. apply Z.eqb_eq in E. rewrite E.
  rewrite Z.shiftl_mul_pow2, lor_add by (apply u8_byte || lia). unfold h, u8. rewrite Z.shiftr_div_pow2 by lia.
  pose proof (Z.div_mod pid (2 ^ 8)). lia.
Qed.

(** A byte of an array after single-byte assignments. *)
Ltac zn_blits :=
  repeat first [rewrite zn_blit_in by (zsimpl; lia); done | rewrite zn_blit_out by (zsimpl; lia)].

(** [set_pids], as updates of the array. *)
Lemma set_pids_ok t pidv pida : 0 <= pidv < 0x2000 -> 0 <= pida < 0x2000 -> pmt_ready pidv pida t ->
  exists t', set_pids t pidv pida = Ret t' /\ pmt_ready pidv pida t' /\
    zn t' 23 = Z.lor 0xe0 (Z.shiftr pidv 8) /\ zn t' 24 = u8 pidv /\
    zn t' 28 = Z.lor 0xe0 (Z.shiftr pida 8) /\ zn t' 29 = u8 pida.
Proof.
  intros Hv Ha [Hb Hlen Hv' Ha']. unfold TS_SIZE in Hlen. unfold set_pids.
  pose proof (high_set _ _ Hv Hv') as Ev. pose proof (high_set _ _ Ha Ha') as Ea.
  rewrite write_at_ok by (zsimpl; lia). next. rewrite load_ok by (zsimpl; lia). next.
  rewrite (zn_blit_out t 24) by (zsimpl; lia). rewrite Ev.
  rewrite write_at_ok by (zsimpl; lia). next. rewrite write_at_ok by (zsimpl; lia). next.
  rewrite load_ok by (zsimpl; lia). next. do 3 rewrite zn_blit_out by (zsimpl; lia). rewrite Ea.
  rewrite write_at_ok by (zsimpl; lia). eexists. split; [done|].
  assert (H23 : is_byte (Z.lor 0xe0 (Z.shiftr pidv 8))) by (rewrite <- Ev; apply u8_byte).
  assert (H28 : is_byte (Z.lor 0xe0 (Z.shiftr pida 8))) by (rewrite <- Ea; apply u8_byte).
  set (h := Z.lor 0xe0 (Z.shiftr pidv 8)) in *. set (k := Z.lor 0xe0 (Z.shiftr pida 8)) in *.
  set (t' := blit _ 28 _).
  assert (E23 : zn t' 23 = h) by (unfold t'; zn_blits).
  assert (E24 : zn t' 24 = u8 pidv) by (unfold t'; zn_blits).
  assert (E28 : zn t' 28 = k) by (unfold t'; zn_blits).
  assert (E29 : zn t' 29 = u8 pida) by (unfold t'; zn_blits).
  split; [|done]. constructor.
  - pose proof (u8_byte pidv). pose proof (u8_byte pida). unfold t'. bytes.
  - unfold t', TS_SIZE. zsimpl. lia.
  - rewrite E23. by right.
  - rewrite E28. by right.
Qed.

(** The four bytes as [insert_pat_pmt] takes them out of the CRC. *)
Lemma crc_masks w : word w ->
  [Z.shiftr (Z.land w 0xff000000) 24; Z.shiftr (Z.land w 0x00ff0000) 16; Z.shiftr (Z.land w 0x0000ff00) 8;
   Z.shiftr (Z.land w 0x000000ff) 0] = be_bytes w.
Proof. intros Hw. unfold be_bytes. by rewrite !Z.shiftr_land. Qed.

Lemma calc_crc32_bits t o len : bytes t -> 0 <= o -> 0 <= len < 256 -> o + len <= zlen t ->
  calc_crc32 t o len = Ret (crc_bits 0xffffffff (sub t o len)).
Proof.
  intros Ht Ho Hl Hlen. unfold calc_crc32. assert (u8 len = len) as -> by (apply Z.mod_small; done).
  rewrite crc_loop_bits by (done || lia). by rewrite Z2Nat.id by lia.
Qed.

(** One turn of [insert_pat_pmt]'s loop leaves in the program map table a section
    whose CRC is right (the section with its CRC field has the remainder 0) and whose
    two elementary streams have the PIDs found in the input; this holds in every
    turn, the next one starts from the table of the last. *)
Theorem pmt_turn_valid t pidv pida : 0 <= pidv < 0x2000 -> 0 <= pida < 0x2000 -> pmt_ready pidv pida t ->
  exists t', pmt_turn t 31 pidv pida = Ret t' /\ pmt_ready pidv pida t' /\
    calc_crc32 t' 5 31 = Ret 0 /\ pid_at t' 23 = pidv /\ pid_at t' 28 = pida.
Proof.
  intros Hv Ha H. destruct (set_pids_ok t pidv pida Hv Ha H) as (s & Es & Hs & E23 & E24 & E28 & E29).
  unfold pmt_turn. rewrite Es. next. destruct Hs as [Hb Hlen Hv' Ha']. unfold TS_SIZE in Hlen.
  rewrite calc_crc32_bits by (done || lia). next. set (crc := crc_bits _ _).
  assert (Hw : word crc) by (apply crc_bits_word; [apply crc_init_word|bytes]).
  do 3 (rewrite write_at_ok by (zsimpl; lia); next). rewrite write_at_ok by (zsimpl; lia).
  change (5 + 31 - 4) with 32. rewrite (blit_blit s 32 [_] [_]) by (zsimpl; lia). cbn [app].
  rewrite (blit_blit s 32 [_; _] [_]) by (zsimpl; lia). cbn [app].
  rewrite (blit_blit s 32 [_; _; _] [_]) by (zsimpl; lia). cbn [app]. rewrite crc_masks by done.
  eexists. split; [done|]. pose proof (be_bytes_ok crc) as Hc. set (k := be_bytes crc) in *.
  assert (Hk : zlen k = 4) by done.
  unfold pid_at. change (23 + 1) with 24. change (28 + 1) with 29.
  rewrite !zn_blit_out by lia. rewrite E23, E24, E28, E29, !high_get by done.
  split; [constructor|split; [|done]].
  - by apply bytes_blit.
  - zsimpl. done.
  - rewrite zn_blit_out by lia. done.
  - rewrite zn_blit_out by lia. done.
  - rewrite calc_crc32_bits by (zsimpl; (lia || by apply bytes_blit)).
    rewrite (sub_split _ 5 27 4) by lia. rewrite sub_blit_before by lia.
    pose proof (sub_blit_eq s 32 k ltac:(lia) ltac:(lia)) as Ek. rewrite Hk in Ek. change (5 + 27) with 32. rewrite Ek.
    rewrite crc_bits_app. fold crc. unfold k. by rewrite crc_bits_residue.
Qed.

Lemma tspid1_ready pidv pida : pmt_ready pidv pida tspid1.
Proof.
  constructor; [|done|by left|by left]. unfold tspid1. apply bytes_app. split; [unfold bytes, is_byte; repeat constructor; lia|].
  apply bytes_replicate. done.
Qed.

Lemma pmt_turn_valid_witness :
  exists t', pmt_turn tspid1 31 0x1ab 0x2cd = Ret t' /\ pmt_ready 0x1ab 0x2cd t' /\
    calc_crc32 t' 5 31 = Ret 0 /\ pid_at t' 23 = 0x1ab /\ pid_at t' 28 = 0x2cd.
Proof. apply pmt_turn_valid; [lia|lia|apply tspid1_ready]. Defined.
