(* ===== verification/Dvbdev.v ===== *)
(** * The registry of DVB devices

    dvb-core/dvbdev.c: adapters, their devices, minor numbers and the counts of
    readers and writers.  Adapters and devices are cells of two heaps; the lists
    of the code are lists of addresses.  The addresses that [kmalloc] returns are
    arguments ([None]: no memory). *)
From stdpp Require Import gmap.
From Stdlib Require Import Bool.
From S2P Require Import Prelude DemuxTypes DemuxApi.

Definition addr : Type := Z.

Definition DVB_MAX_IDS : Z := 4.
Definition DVB_DEVICE_FRONTEND : Z := 3.

(** A member [x] of [struct dvb_device] is [dd_x], of [struct dvb_adapter] [da_x]. *)
Record dvb_device := mk_device {
  dd_fops : option Z; dd_adapter : addr; dd_type : Z; dd_id : Z;
  dd_readers : Z; dd_writers : Z; dd_users : Z; dd_kernel_ioctl : bool; dd_priv : option Z }.
#[export] Instance eta_device : Eta dvb_device := fun d =>
  mk_device (dd_fops d) (dd_adapter d) (dd_type d) (dd_id d) (dd_readers d) (dd_writers d) (dd_users d)
    (dd_kernel_ioctl d) (dd_priv d).

Record dvb_adapter := mk_adapter { da_num : Z; da_device_list : list addr; da_name : list Z }.
#[export] Instance eta_adapter : Eta dvb_adapter := fun a => mk_adapter (da_num a) (da_device_list a) (da_name a).

(** The static data of the module: the list of adapters and the lock; the heaps. *)
Record registry := mk_registry {
  adapter_list : list addr; adapters : gmap addr dvb_adapter; devices : gmap addr dvb_device; register_lock : Z }.
#[export] Instance eta_registry : Eta registry := fun s =>
  mk_registry (adapter_list s) (adapters s) (devices s) (register_lock s).

(** [*p]. *)
Definition at_adapter (s : registry) (p : addr) : outcome dvb_adapter :=
  match adapters s !! p with Some a => Ret a | None => Crash end.
Definition at_device (s : registry) (p : addr) : outcome dvb_device :=
  match devices s !! p with Some d => Ret d | None => Crash end.
Definition put_adapter (s : registry) (p : addr) (a : dvb_adapter) : registry :=
  s <| adapters := <[p := a]> (adapters s) |>.
Definition put_device (s : registry) (p : addr) (d : dvb_device) : registry :=
  s <| devices := <[p := d]> (devices s) |>.

(** [down_interruptible (&dvbdev_register_lock)]; [sig]: a signal interrupts it. *)
Definition down_register (s : registry) (sig : bool) : outcome (registry * bool) :=
  if register_lock s >? 0 then Ret (s <| register_lock := register_lock s - 1 |>, false)
  else if sig then Ret (s, true) else Hang.
Definition up_register (s : registry) : registry := s <| register_lock := register_lock s + 1 |>.

(** ** Minor numbers *)
Definition nums2minor (num type id : Z) : Z := Z.lor (Z.lor (Z.shiftl num 6) (Z.shiftl id 4)) type.

Fixpoint find_on_adapter (s : registry) (num minor : Z) (l : list addr) : outcome (option addr) :=
  match l with
  | [] => Ret None
  | p :: l =>
    dev ← at_device s p;
    if nums2minor num (dd_type dev) (dd_id dev) =? minor then Ret (Some p) else find_on_adapter s num minor l
  end.

Fixpoint find_on_adapters (s : registry) (minor : Z) (l : list addr) : outcome (option addr) :=
  match l with
  | [] => Ret None
  | p :: l =>
    adap ← at_adapter s p;
    r ← find_on_adapter s (da_num adap) minor (da_device_list adap);
    match r with Some dev => Ret (Some dev) | None => find_on_adapters s minor l end
  end.

Definition dvbdev_find_device (s : registry) (minor : Z) : outcome (option addr) :=
  find_on_adapters s minor (adapter_list s).

(** ** Open files *)

(** [f_rdonly]: [(f_flags & O_ACCMODE) == O_RDONLY]. *)
Record file := mk_dvb_file { f_rdonly : bool; private_data : option addr; f_op : Z }.
#[export] Instance eta_file : Eta file := fun f => mk_dvb_file (f_rdonly f) (private_data f) (f_op f).

Definition dvb_generic_open (s : registry) (f : file) : outcome (registry * Z) :=
  match private_data f with
  | None => Ret (s, - ENODEV)
  | Some p =>
    d ← at_device s p;
    if dd_users d =? 0 then Ret (s, - EBUSY) else
    if f_rdonly f then
      if dd_readers d =? 0 then Ret (s, - EBUSY) else
      Ret (put_device s p (d <| dd_readers := dd_readers d - 1 |> <| dd_users := dd_users d - 1 |>), 0)
    else
      if dd_writers d =? 0 then Ret (s, - EBUSY) else
      Ret (put_device s p (d <| dd_writers := dd_writers d - 1 |> <| dd_users := dd_users d - 1 |>), 0)
  end.

Definition dvb_generic_release (s : registry) (f : file) : outcome (registry * Z) :=
  match private_data f with
  | None => Ret (s, - ENODEV)
  | Some p =>
    d ← at_device s p;
    let d := if f_rdonly f then d <| dd_readers := dd_readers d + 1 |> else d <| dd_writers := dd_writers d + 1 |> in
    Ret (put_device s p (d <| dd_users := dd_users d + 1 |>), 0)
  end.

(** [usercopy]: what [dvb_usercopy] does with the handler of the device. *)
Definition dvb_generic_ioctl (s : registry) (f : file) (usercopy : registry -> outcome (registry * Z))
  : outcome (registry * Z) :=
  match private_data f with
  | None => Ret (s, - ENODEV)
  | Some p =>
    d ← at_device s p;
    if dd_kernel_ioctl d then usercopy s else Ret (s, - EINVAL)
  end.

Section Open.
(** The [open] of each table of file operations, if it has one. *)
Variable fop_open : Z -> option (registry -> file -> outcome (registry * Z)).

(** [refs]: how many users each table's module has, which [fops_get] and [fops_put]
    count. *)
Definition fops_get (refs : gmap Z Z) (op : Z) : gmap Z Z := <[op := default 0 (refs !! op) + 1]> refs.
Definition fops_put (refs : gmap Z Z) (op : Z) : gmap Z Z := <[op := default 0 (refs !! op) - 1]> refs.

Definition dvb_device_open (s : registry) (refs : gmap Z Z) (minor : Z) (f : file)
  : outcome (registry * gmap Z Z * file * Z) :=
  dev ← dvbdev_find_device s minor;
  match dev with
  | None => Ret (s, refs, f, - ENODEV)
  | Some p =>
    d ← at_device s p;
    match dd_fops d with
    | None => Ret (s, refs, f, - ENODEV)
    | Some op =>
      let old_fops := f_op f in
      let refs := fops_get refs op in
      let f := f <| private_data := Some p |> <| f_op := op |> in
      '(s, err) ← match fop_open op with Some open => open s f | None => Ret (s, 0) end;
      let '(refs, f) :=
        if negb (err =? 0) then (fops_get (fops_put refs (f_op f)) old_fops, f <| f_op := old_fops |>)
        else (refs, f) in
      Ret (s, fops_put refs old_fops, f, err)
    end
  end.
End Open.

(** ** Registration *)

(** Does a device of the list have this type and this id? *)
Fixpoint id_taken (s : registry) (type id : Z) (l : list addr) : outcome bool :=
  match l with
  | [] => Ret false
  | p :: l =>
    dev ← at_device s p;
    if (dd_type dev =? type) && (dd_id dev =? id) then Ret true else id_taken s type id l
  end.

(** [while (id < DVB_MAX_IDS)], with [n = DVB_MAX_IDS - id]. *)
Fixpoint free_id_from (n : nat) (s : registry) (adap : dvb_adapter) (type id : Z) : outcome Z :=
  match n with
  | O => Ret (- ENFILE)
  | S n =>
    taken ← id_taken s type id (da_device_list adap);
    if (taken : bool) then free_id_from n s adap type (id + 1) else Ret id
  end.

Definition dvbdev_get_free_id (s : registry) (adap : addr) (type : Z) : outcome Z :=
  a ← at_adapter s adap;
  free_id_from (Z.to_nat DVB_MAX_IDS) s a type 0.

(** [dvb_register_device] up to its [up]: [*pdvbdev], the id and the result. *)
Definition register_reserve (s : registry) (adap : addr) (pdvbdev : option addr) (type : Z) (mem : option addr) (sig : bool)
  : outcome (registry * option addr * Z * Z) :=
  '(s, interrupted) ← down_register s sig;
  if (interrupted : bool) then Ret (s, pdvbdev, 0, - ERESTARTSYS) else
  id ← dvbdev_get_free_id s adap type;
  if id <? 0 then Ret (up_register s, None, id, - ENFILE) else
  match mem with
  | None => Ret (up_register s, None, id, - ENOMEM)
  | Some p => Ret (up_register s, Some p, id, 0)
  end.

(** The rest, which runs without the lock. *)
Definition register_link (s : registry) (adap : addr) (p : addr) (template : dvb_device) (priv : option Z) (type id : Z)
  : outcome registry :=
  let d := template <| dd_type := type |> <| dd_id := id |> <| dd_adapter := adap |> <| dd_priv := priv |> in
  let s := put_device s p d in
  a ← at_adapter s adap;
  Ret (put_adapter s adap (a <| da_device_list := da_device_list a ++ [p] |>)).

Definition dvb_register_device (s : registry) (adap : addr) (pdvbdev : option addr) (template : dvb_device)
    (priv : option Z) (type : Z) (mem : option addr) (sig : bool) : outcome (registry * option addr * Z) :=
  '(s, pdvbdev, id, err) ← register_reserve s adap pdvbdev type mem sig;
  match pdvbdev with
  | Some p => if err =? 0 then s ← register_link s adap p template priv type id; Ret (s, Some p, 0)
              else Ret (s, pdvbdev, err)
  | None => Ret (s, pdvbdev, err)
  end.

Definition dvb_unregister_device (s : registry) (dvbdev : option addr) : outcome registry :=
  match dvbdev with
  | None => Ret s
  | Some p =>
    d ← at_device s p;
    a ← at_adapter s (dd_adapter d);
    let s := put_adapter s (dd_adapter d) (a <| da_device_list := base.filter (fun q => q <> p) (da_device_list a) |>) in
    Ret (s <| devices := delete p (devices s) |>)
  end.

(** Does an adapter of the list have this number? *)
Fixpoint num_taken (s : registry) (num : Z) (l : list addr) : outcome bool :=
  match l with
  | [] => Ret false
  | p :: l => a ← at_adapter s p; if da_num a =? num then Ret true else num_taken s num l
  end.

Fixpoint free_num_from (fuel : nat) (s : registry) (num : Z) : outcome Z :=
  match fuel with
  | O => Hang
  | S fuel =>
    taken ← num_taken s num (adapter_list s);
    if (taken : bool) then free_num_from fuel s (num + 1) else Ret num
  end.

(** One number more than there are adapters is tried. *)
Definition dvbdev_get_free_adapter_num (s : registry) : outcome Z :=
  free_num_from (S (length (adapter_list s))) s 0.

Definition dvb_register_adapter (s : registry) (padap : option addr) (name : list Z) (mem : option addr) (sig : bool)
  : outcome (registry * option addr * Z) :=
  '(s, interrupted) ← down_register s sig;
  if (interrupted : bool) then Ret (s, padap, - ERESTARTSYS) else
  num ← dvbdev_get_free_adapter_num s;
  if num <? 0 then Ret (up_register s, padap, - ENFILE) else
  match mem with
  | None => Ret (up_register s, None, - ENOMEM)
  | Some p =>
    let s := put_adapter s p (mk_adapter num [] name) in
    Ret (up_register (s <| adapter_list := adapter_list s ++ [p] |>), Some p, num)
  end.

Definition dvb_unregister_adapter (s : registry) (adap : addr) (sig : bool) : outcome (registry * Z) :=
  '(s, interrupted) ← down_register s sig;
  if (interrupted : bool) then Ret (s, - ERESTARTSYS) else
  _ ← at_adapter s adap;
  let s := up_register (s <| adapter_list := base.filter (fun q => q <> adap) (adapter_list s) |>) in
  Ret (s <| adapters := delete adap (adapters s) |>, 0).

(** ** The registry is well formed *)
Record registry_ok (s : registry) : Prop := {
  ro_nodup : NoDup (adapter_list s);
  ro_adapters : forall p, p ∈ adapter_list s <-> is_Some (adapters s !! p);
  ro_num : forall p a, adapters s !! p = Some a -> 0 <= da_num a;
  ro_nums : forall p q a b, adapters s !! p = Some a -> adapters s !! q = Some b -> da_num a = da_num b -> p = q;
  ro_listed : forall p a q, adapters s !! p = Some a ->
    (q ∈ da_device_list a <-> exists d, devices s !! q = Some d /\ dd_adapter d = p);
  ro_devices : forall q d, devices s !! q = Some d ->
    is_Some (adapters s !! dd_adapter d) /\ 0 <= dd_id d < DVB_MAX_IDS /\ 0 <= dd_type d < 16;
  ro_ids : forall p q d e, devices s !! p = Some d -> devices s !! q = Some e ->
    dd_adapter d = dd_adapter e -> dd_type d = dd_type e -> dd_id d = dd_id e -> p = q
}.

(** ** Minor numbers *)
Lemma nums2minor_sum num type id : 0 <= id < 4 -> 0 <= type < 16 -> nums2minor num type id = num * 64 + id * 16 + type.
Proof.
  intros Hi Ht. unfold nums2minor. rewrite !Z.shiftl_mul_pow2 by lia. rewrite (lor_add num (id * 2 ^ 4) 6) by lia.
  replace (num * 2 ^ 6 + id * 2 ^ 4) with ((num * 4 + id) * 2 ^ 4) by lia. rewrite lor_add by lia. lia.
Qed.

Lemma nums2minor_inj num type id num' type' id' : 0 <= id < 4 -> 0 <= type < 16 -> 0 <= id' < 4 -> 0 <= type' < 16 ->
  nums2minor num type id = nums2minor num' type' id' -> num = num' /\ type = type' /\ id = id'.
Proof. intros ????. rewrite !nums2minor_sum by done. lia. Qed.

Definition has_minor (s : registry) (minor : Z) (q : addr) : Prop :=
  exists d a, devices s !! q = Some d /\ adapters s !! dd_adapter d = Some a /\
    nums2minor (da_num a) (dd_type d) (dd_id d) = minor.

Lemma find_on_adapter_ok s num minor l : (forall q, q ∈ l -> is_Some (devices s !! q)) ->
  exists r, find_on_adapter s num minor l = Ret r /\
    match r with
    | Some q => q ∈ l /\ exists d, devices s !! q = Some d /\ nums2minor num (dd_type d) (dd_id d) = minor
    | None => forall q d, q ∈ l -> devices s !! q = Some d -> nums2minor num (dd_type d) (dd_id d) <> minor
    end.
Proof.
  induction l as [|p l IH]; intros Hl; cbn [find_on_adapter].
  { exists None. split; [done|]. intros q d Hq. by apply elem_of_nil in Hq. }
  destruct (Hl p) as [d Hd]; [by left|]. unfold at_device. rewrite Hd. next.
  destruct (Z.eqb_spec (nums2minor num (dd_type d) (dd_id d)) minor) as [E|E].
  { exists (Some p). split; [done|]. split; [by left|]. by exists d. }
  destruct IH as (r & -> & Hr); [by intros q Hq; apply Hl; right|]. exists r. split; [done|].
  destruct r as [q|].
  - destruct Hr as [H1 H2]. split; [by right|done].
  - intros q e [->|Hq]%elem_of_cons He; [congruence|]. by apply (Hr q e).
Qed.

Lemma find_on_adapters_ok s minor l : registry_ok s -> (forall p, p ∈ l -> is_Some (adapters s !! p)) ->
  exists r, find_on_adapters s minor l = Ret r /\
    match r with
    | Some q => has_minor s minor q
    | None => forall q d, devices s !! q = Some d -> dd_adapter d ∈ l -> ~ has_minor s minor q
    end.
Proof.
  intros Hs. induction l as [|p l IH]; intros Hl; cbn [find_on_adapters].
  { exists None. split; [done|]. intros q d _ Hq. by apply elem_of_nil in Hq. }
  destruct (Hl p) as [a Ha]; [by left|]. unfold at_adapter. rewrite Ha. next.
  destruct (find_on_adapter_ok s (da_num a) minor (da_device_list a)) as (r & -> & Hr).
  { intros q Hq. apply (ro_listed s Hs p a q Ha) in Hq as (d & Hd & _). by exists d. }
  next. destruct r as [q|].
  { destruct Hr as (Hq & d & Hd & E). exists (Some q). split; [done|]. exists d, a.
    apply (ro_listed s Hs p a q Ha) in Hq as (d' & Hd' & Ep). split_and!; [done|congruence|done]. }
  destruct IH as (r & -> & Hr'); [by intros q Hq; apply Hl; right|]. exists r. split; [done|].
  destruct r as [q|]; [done|]. intros q d Hd [Ep|Hp]%elem_of_cons.
  - intros (d' & a' & Hd' & Ha' & E). assert (d' = d) as -> by congruence. assert (a' = a) as -> by congruence.
    apply (Hr q d); [|done|done]. apply (ro_listed s Hs p a q Ha). by exists d.
  - by apply (Hr' q d).
Qed.

Lemma has_minor_unique s minor p q : registry_ok s -> has_minor s minor p -> has_minor s minor q -> p = q.
Proof.
  intros Hs (d & a & Hd & Ha & E) (e & b & He & Hb & E').
  destruct (ro_devices s Hs p d Hd) as (_ & H1 & H2), (ro_devices s Hs q e He) as (_ & H3 & H4).
  destruct (nums2minor_inj (da_num a) (dd_type d) (dd_id d) (da_num b) (dd_type e) (dd_id e)) as (N & T & I);
    [done..|congruence|].
  apply (ro_ids s Hs p q d e); [done|done| |done|done]. by apply (ro_nums s Hs _ _ a b).
Qed.

(** [dvbdev_find_device] finds the device of a minor number: on a well-formed registry
    it returns the only registered device with that number, and no device exactly if
    there is none. *)
Theorem find_device_by_minor s minor : registry_ok s ->
  exists r, dvbdev_find_device s minor = Ret r /\ (forall q, r = Some q <-> has_minor s minor q).
Proof.
  intros Hs. destruct (find_on_adapters_ok s minor (adapter_list s) Hs) as (r & E & Hr).
  { intros p. by rewrite (ro_adapters s Hs). }
  exists r. split; [done|]. intros q. destruct r as [q'|].
  - split; [by intros [= <-]|]. intros Hq. f_equal. by apply (has_minor_unique s minor).
  - split; [done|]. intros Hq. pose proof Hq as (d & a & Hd & Ha & _). destruct (Hr q d); [done| |done].
    apply (ro_adapters s Hs). by exists a.
Qed.

(** ** Registration of a device *)
Definition taken (s : registry) (adap : addr) (type id : Z) : Prop :=
  exists q d, devices s !! q = Some d /\ dd_adapter d = adap /\ dd_type d = type /\ dd_id d = id.

Lemma id_taken_ok s type id l : (forall q, q ∈ l -> is_Some (devices s !! q)) ->
  exists b, id_taken s type id l = Ret b /\
    (b = true <-> exists q d, q ∈ l /\ devices s !! q = Some d /\ dd_type d = type /\ dd_id d = id).
Proof.
  induction l as [|p l IH]; intros Hl; cbn [id_taken].
  { exists false. split; [done|]. split; [done|]. intros (q & d & Hq & _). by apply elem_of_nil in Hq. }
  destruct (Hl p) as [d Hd]; [by left|]. unfold at_device. rewrite Hd. next.
  destruct (Z.eqb_spec (dd_type d) type) as [E1|E1], (Z.eqb_spec (dd_id d) id) as [E2|E2]; cbn [andb].
  1: { exists true. split; [done|]. split; [|done]. intros _. exists p, d. split_and!; [by left|done..]. }
  all: destruct IH as (b & -> & Hb); [by intros q Hq; apply Hl; right|]; exists b; split; [done|]; rewrite Hb; split.
  all: try (intros (q & e & Hq & H); exists q, e; split; [by right|done]).
  all: intros (q & e & [->|Hq]%elem_of_cons & He & T & I); [congruence|by exists q, e].
Qed.

Lemma taken_listed s adap a type id : registry_ok s -> adapters s !! adap = Some a ->
  exists b, id_taken s type id (da_device_list a) = Ret b /\ (b = true <-> taken s adap type id).
Proof.
  intros Hs Ha. destruct (id_taken_ok s type id (da_device_list a)) as (b & E & Hb).
  { intros q Hq. apply (ro_listed s Hs adap a q Ha) in Hq as (d & Hd & _). by exists d. }
  exists b. split; [done|]. rewrite Hb. split.
  - intros (q & d & Hq & Hd & H). apply (ro_listed s Hs adap a q Ha) in Hq as (d' & Hd' & Ep).
    exists q, d. split_and!; [done|congruence|tauto|tauto].
  - intros (q & d & Hd & Ep & H). exists q, d. split; [|done]. apply (ro_listed s Hs adap a q Ha). by exists d.
Qed.

Lemma free_id_from_ok s adap a type n : forall id, registry_ok s -> adapters s !! adap = Some a -> 0 <= id ->
  exists r, free_id_from n s a type id = Ret r /\
    (r = - ENFILE /\ (forall i, id <= i < id + Z.of_nat n -> taken s adap type i) \/
     id <= r < id + Z.of_nat n /\ ~ taken s adap type r /\ (forall i, id <= i < r -> taken s adap type i)).
Proof.
  induction n as [|n IH]; intros id Hs Ha Hid; cbn [free_id_from].
  { exists (- ENFILE). split; [done|]. left. split; [done|]. lia. }
  destruct (taken_listed s adap a type id Hs Ha) as (b & -> & Hb). next. destruct b.
  - destruct (IH (id + 1)) as (r & -> & Hr); [done|done|lia|]. exists r. split; [done|].
    assert (Hid' : taken s adap type id) by by apply Hb.
    destruct Hr as [[-> Hr]|(Hr1 & Hr2 & Hr3)]; [left|right].
    + split; [done|]. intros i Hi. destruct (Z.eq_dec i id) as [->|]; [done|]. apply Hr. lia.
    + split_and!; [lia|lia|done|]. intros i Hi. destruct (Z.eq_dec i id) as [->|]; [done|]. apply Hr3. lia.
  - exists id. split; [done|]. right. split_and!; [lia|lia| |lia]. intros Ht. apply Hb in Ht. done.
Qed.

(** The registry with a new device. *)
Lemma link_ok s adap a p template priv type id : registry_ok s -> adapters s !! adap = Some a -> devices s !! p = None ->
  0 <= type < 16 -> 0 <= id < DVB_MAX_IDS -> ~ taken s adap type id ->
  exists s', register_link s adap p template priv type id = Ret s' /\ registry_ok s' /\ register_lock s' = register_lock s /\
    devices s' = <[p := template <| dd_type := type |> <| dd_id := id |> <| dd_adapter := adap |> <| dd_priv := priv |>]> (devices s).
Proof.
  intros Hs Ha Hp Ht Hid Hfree. unfold register_link, at_adapter. set (d := template <| dd_type := type |> <| dd_id := id |> <| dd_adapter := adap |> <| dd_priv := priv |>).
  cbv zeta. change (adapters (put_device s p d)) with (adapters s). rewrite Ha. next. eexists. split; [done|]. split; [|done].
  constructor; cbn.
  - apply Hs.
  - intros q. rewrite lookup_insert_is_Some', (ro_adapters s Hs). split; [by right|]. intros [<-|]; [by exists a|done].
  - intros q b. rewrite lookup_insert_Some. intros [[<- <-]|[_ Hb]]; [cbn; by apply (ro_num s Hs adap)|by apply (ro_num s Hs q)].
  - intros q r b c. rewrite !lookup_insert_Some. intros [[<- <-]|[_ Hb]] [[<- <-]|[_ Hc]] E; cbn in E.
    + done.
    + by apply (ro_nums s Hs adap r a c).
    + by apply (ro_nums s Hs q adap b a).
    + by apply (ro_nums s Hs q r b c).
  - intros q b r. rewrite lookup_insert_Some. intros [[<- <-]|[Hq Hb]]; cbn.
    + rewrite elem_of_app, list_elem_of_singleton, (ro_listed s Hs adap a r Ha). split.
      * intros [(e & He & E)| ->]; [|by exists d; rewrite lookup_insert_eq].
        exists e. rewrite lookup_insert_ne by congruence. done.
      * intros (e & [[<- <-]|[Hr He]]%lookup_insert_Some & E); [by right|left; by exists e].
    + rewrite (ro_listed s Hs q b r Hb). split.
      * intros (e & He & E). exists e. rewrite lookup_insert_ne by congruence. done.
      * intros (e & [[<- <-]|[Hr He]]%lookup_insert_Some & E); [by destruct Hq|by exists e].
  - intros q e [[<- <-]|[Hq He]]%lookup_insert_Some.
    + split_and!; [|apply Hid..|apply Ht|apply Ht]. apply lookup_insert_is_Some'. by left.
    + destruct (ro_devices s Hs q e He) as (H1 & H2 & H3). split; [|done]. apply lookup_insert_is_Some'. by right.
  - intros q r e f [[<- <-]|[Hq He]]%lookup_insert_Some [[<- <-]|[Hr Hf]]%lookup_insert_Some E1 E2 E3; cbn in *.
    + done.
    + destruct Hfree. exists r, f. by rewrite <- E1, <- E2, <- E3.
    + destruct Hfree. by exists q, e.
    + by apply (ro_ids s Hs q r e f).
Qed.

Lemma down_register_ok s sig : 0 < register_lock s ->
  down_register s sig = Ret (s <| register_lock := register_lock s - 1 |>, false).
Proof. intros H. unfold down_register. by replace (register_lock s >? 0) with true by lia. Qed.

Lemma set_lock_ok s n : registry_ok s -> registry_ok (s <| register_lock := n |>).
Proof. by intros []. Qed.

Lemma lock_restored s : up_register (s <| register_lock := register_lock s - 1 |>) = s.
Proof. destruct s as [l a d n]. unfold up_register, set. cbn [adapter_list adapters devices register_lock]. f_equal. lia. Qed.

Lemma register_device_ok s adap a pd template priv type p sig : registry_ok s -> 0 < register_lock s ->
  adapters s !! adap = Some a -> devices s !! p = None -> 0 <= type < 16 ->
  exists s' pd' r, dvb_register_device s adap pd template priv type (Some p) sig = Ret (s', pd', r) /\ registry_ok s' /\
    register_lock s' = register_lock s /\
    ((r = - ENFILE /\ s' = s /\ pd' = None /\ forall i, 0 <= i < DVB_MAX_IDS -> taken s adap type i) \/
     (r = 0 /\ pd' = Some p /\ exists id, 0 <= id < DVB_MAX_IDS /\ ~ taken s adap type id /\
       (forall i, 0 <= i < id -> taken s adap type i) /\
       devices s' = <[p := template <| dd_type := type |> <| dd_id := id |> <| dd_adapter := adap |> <| dd_priv := priv |>]> (devices s))).
Proof.
  intros Hs Hlock Ha Hp Ht. unfold dvb_register_device, register_reserve. rewrite down_register_ok by done. next.
  set (t := s <| register_lock := register_lock s - 1 |>). assert (Hts : registry_ok t) by by apply set_lock_ok.
  unfold dvbdev_get_free_id, at_adapter. change (adapters t) with (adapters s). rewrite Ha. next.
  destruct (free_id_from_ok t adap a type (Z.to_nat DVB_MAX_IDS) 0) as (id & -> & Hid); [done|done|lia|]. next.
  unfold t. rewrite lock_restored. change (Z.of_nat (Z.to_nat DVB_MAX_IDS)) with DVB_MAX_IDS in Hid.
  destruct Hid as [[-> Hall]|(Hid & Hfree & Hleast)].
  - exists s, None, (- ENFILE). split_and!; [done|done|done|]. left. by split_and!.
  - replace (id <? 0) with false by lia. next.
    destruct (link_ok s adap a p template priv type id) as (s' & Es' & Hs' & Hl & Hd); [done|done|done|done|lia|done|].
    cbn [Z.eqb]. rewrite Es'. next. exists s', (Some p), 0. split_and!; [done|done|done|]. right. split_and!; [done|done|].
    exists id. split_and!; [lia|lia|done|done|done].
Qed.

Lemma unregister_device_ok s p d : registry_ok s -> devices s !! p = Some d ->
  exists s', dvb_unregister_device s (Some p) = Ret s' /\ registry_ok s' /\ register_lock s' = register_lock s /\
    devices s' = delete p (devices s).
Proof.
  intros Hs Hp. unfold dvb_unregister_device, at_device, at_adapter. rewrite Hp. next.
  destruct (ro_devices s Hs p d Hp) as ([a Ha] & _). rewrite Ha. next. eexists. split; [done|]. split; [|done].
  constructor; cbn.
  - apply Hs.
  - intros q. rewrite lookup_insert_is_Some', (ro_adapters s Hs). split; [by right|]. intros [<-|]; [by exists a|done].
  - intros q b. rewrite lookup_insert_Some. intros [[<- <-]|[_ Hb]]; [cbn; by apply (ro_num s Hs (dd_adapter d))|by apply (ro_num s Hs q)].
  - intros q r b c. rewrite !lookup_insert_Some. intros [[<- <-]|[_ Hb]] [[<- <-]|[_ Hc]] E; cbn in E.
    + done.
    + by apply (ro_nums s Hs _ r a c).
    + by apply (ro_nums s Hs q _ b a).
    + by apply (ro_nums s Hs q r b c).
  - intros q b r. rewrite lookup_insert_Some. intros [[<- <-]|[Hq Hb]]; cbn.
    + rewrite list_elem_of_filter, (ro_listed s Hs (dd_adapter d) a r Ha). split.
      * intros (Hr & e & He & E). exists e. rewrite lookup_delete_ne by congruence. done.
      * intros (e & [Hr He]%lookup_delete_Some & E). split; [congruence|by exists e].
    + rewrite (ro_listed s Hs q b r Hb). split.
      * intros (e & He & E). exists e. rewrite lookup_delete_ne by congruence. done.
      * intros (e & [Hr He]%lookup_delete_Some & E). by exists e.
  - intros q e [Hq He]%lookup_delete_Some. destruct (ro_devices s Hs q e He) as (H1 & H2). split; [|done].
    apply lookup_insert_is_Some'. by right.
  - intros q r e f [Hq He]%lookup_delete_Some [Hr Hf]%lookup_delete_Some. by apply (ro_ids s Hs q r e f).
Qed.

(** ** Registration of an adapter *)
Definition num_used (s : registry) (num : Z) : Prop := exists p a, adapters s !! p = Some a /\ da_num a = num.

Lemma num_taken_ok s num l : (forall p, p ∈ l -> is_Some (adapters s !! p)) ->
  exists b, num_taken s num l = Ret b /\ (b = true <-> exists p a, p ∈ l /\ adapters s !! p = Some a /\ da_num a = num).
Proof.
  induction l as [|p l IH]; intros Hl; cbn [num_taken].
  { exists false. split; [done|]. split; [done|]. intros (q & d & Hq & _). by apply elem_of_nil in Hq. }
  destruct (Hl p) as [a Ha]; [by left|]. unfold at_adapter. rewrite Ha. next. destruct (Z.eqb_spec (da_num a) num) as [E|E].
  - exists true. split; [done|]. split; [|done]. intros _. exists p, a. split_and!; [by left|done|done].
  - destruct IH as (b & -> & Hb); [by intros q Hq; apply Hl; right|]. exists b. split; [done|]. rewrite Hb. split.
    + intros (q & c & Hq & H). exists q, c. split; [by right|done].
    + intros (q & c & [->|Hq]%elem_of_cons & Hc & N); [congruence|by exists q, c].
Qed.

(** Numbers [num], ..., [num + n - 1] of different adapters are [n] adapters. *)
Lemma used_numbers s num n : registry_ok s -> (forall i, num <= i < num + Z.of_nat n -> num_used s i) ->
  (n <= length (adapter_list s))%nat.
Proof.
  intros Hs Hall.
  assert (exists l : list addr, length l = n /\ NoDup l /\
    forall p, p ∈ l -> exists a, adapters s !! p = Some a /\ num <= da_num a < num + Z.of_nat n) as (l & <- & Hl & Hp).
  { induction n as [|n IH]; [exists []; split_and!; [done|constructor|intros p Hp; by apply elem_of_nil in Hp]|].
    destruct IH as (l & El & Hl & Hp); [intros i Hi; apply Hall; lia|].
    destruct (Hall (num + Z.of_nat n)) as (q & b & Hq & Hb); [lia|]. exists (q :: l). cbn [length]. split_and!.
    - by rewrite El.
    - apply NoDup_cons. split; [|done]. intros (a & Ha & Hn)%Hp. assert (a = b) by congruence. subst a. lia.
    - intros p [->|(a & Ha & Hn)%Hp]%elem_of_cons; [exists b; split; [done|lia]|exists a; split; [done|lia]]. }
  apply submseteq_length, NoDup_submseteq; [done|]. intros p (a & Ha & _)%Hp. apply (ro_adapters s Hs). by exists a.
Qed.

Lemma free_num_ok s fuel : forall num, registry_ok s -> 0 <= num -> (forall i, 0 <= i < num -> num_used s i) ->
  (S (length (adapter_list s)) <= Z.to_nat num + fuel)%nat ->
  exists r, free_num_from fuel s num = Ret r /\ 0 <= r /\ ~ num_used s r /\ forall i, 0 <= i < r -> num_used s i.
Proof.
  induction fuel as [|fuel IH]; intros num Hs Hnum Hall Hf; cbn [free_num_from].
  { pose proof (used_numbers s 0 (Z.to_nat num) Hs) as H. cut (Z.to_nat num <= length (adapter_list s))%nat; [lia|].
    apply H. intros i Hi. apply Hall. lia. }
  destruct (num_taken_ok s num (adapter_list s)) as (b & -> & Hb); [intros p; by rewrite (ro_adapters s Hs)|]. next.
  assert (Hb' : b = true <-> num_used s num).
  { rewrite Hb. split; [intros (p & a & _ & H); by exists p, a|]. intros (p & a & Ha & N). exists p, a. split; [|done].
    apply (ro_adapters s Hs). by exists a. }
  destruct b.
  - apply IH; [done|lia| |lia]. intros i Hi. destruct (Z.eq_dec i num) as [->|]; [by apply Hb'|]. apply Hall. lia.
  - exists num. split_and!; [done|lia| |done]. intros H. apply Hb' in H. done.
Qed.

Lemma register_adapter_ok s pa name p sig : registry_ok s -> 0 < register_lock s -> adapters s !! p = None ->
  (forall q d, devices s !! q = Some d -> dd_adapter d <> p) ->
  exists s' num, dvb_register_adapter s pa name (Some p) sig = Ret (s', Some p, num) /\ registry_ok s' /\
    register_lock s' = register_lock s /\ devices s' = devices s /\
    adapters s' = <[p := mk_adapter num [] name]> (adapters s) /\
    0 <= num /\ ~ num_used s num /\ (forall i, 0 <= i < num -> num_used s i).
Proof.
  intros Hs Hlock Hp Hd. unfold dvb_register_adapter. rewrite down_register_ok by done. next.
  set (t := s <| register_lock := register_lock s - 1 |>). assert (Hts : registry_ok t) by by apply set_lock_ok.
  unfold dvbdev_get_free_adapter_num.
  destruct (free_num_ok t (S (length (adapter_list t))) 0) as (num & -> & Hnum & Hfree & Hleast); [done|lia|lia|lia|]. next.
  replace (num <? 0) with false by lia.
  assert (Hin : p ∉ adapter_list s) by (rewrite (ro_adapters s Hs), Hp; by intros [? ?]).
  eexists _, num. split; [done|]. split; [|split_and!; [cbn; lia|done|done|done|done|done]].
  constructor; cbn.
  - apply NoDup_app. split_and!; [apply Hs| |apply NoDup_singleton]. intros q Hq Hq'%list_elem_of_singleton. by subst q.
  - intros q. rewrite elem_of_app, list_elem_of_singleton, lookup_insert_is_Some', (ro_adapters s Hs). naive_solver.
  - intros q b [[<- <-]|[_ Hb]]%lookup_insert_Some; [done|by apply (ro_num s Hs q)].
  - intros q r b c [[<- <-]|[_ Hb]]%lookup_insert_Some [[<- <-]|[_ Hc]]%lookup_insert_Some E; cbn in E.
    + done.
    + destruct Hfree. by exists r, c.
    + destruct Hfree. by exists q, b.
    + by apply (ro_nums s Hs q r b c).
  - intros q b r [[<- <-]|[Hq Hb]]%lookup_insert_Some; cbn; [|by apply (ro_listed s Hs)].
    split; [by intros ?%elem_of_nil|]. intros (e & He & E). by destruct (Hd r e He).
  - intros q e He. destruct (ro_devices s Hs q e He) as (H1 & H2). split; [|done]. apply lookup_insert_is_Some'. by right.
  - apply Hs.
Qed.

Lemma unregister_adapter_ok s p a sig : registry_ok s -> 0 < register_lock s -> adapters s !! p = Some a ->
  da_device_list a = [] ->
  exists s', dvb_unregister_adapter s p sig = Ret (s', 0) /\ registry_ok s' /\ register_lock s' = register_lock s /\
    devices s' = devices s /\ adapters s' = delete p (adapters s).
Proof.
  intros Hs Hlock Ha Hempty. unfold dvb_unregister_adapter. rewrite down_register_ok by done. next.
  unfold at_adapter. change (adapters (s <| register_lock := register_lock s - 1 |>)) with (adapters s). rewrite Ha. next.
  assert (Hnone : forall q d, devices s !! q = Some d -> dd_adapter d <> p).
  { intros q d Hd E. assert (q ∈ da_device_list a) as Hq by (apply (ro_listed s Hs p a q Ha); by exists d).
    rewrite Hempty in Hq. by apply elem_of_nil in Hq. }
  eexists. split; [done|]. split; [|split_and!; [cbn; lia|done|done]]. constructor; cbn.
  - apply NoDup_filter, Hs.
  - intros q. rewrite list_elem_of_filter, (ro_adapters s Hs). unfold is_Some. setoid_rewrite lookup_delete_Some. naive_solver.
  - intros q b [_ Hb]%lookup_delete_Some. by apply (ro_num s Hs q).
  - intros q r b c [_ Hb]%lookup_delete_Some [_ Hc]%lookup_delete_Some. by apply (ro_nums s Hs q r b c).
  - intros q b r [_ Hb]%lookup_delete_Some. by apply (ro_listed s Hs).
  - intros q e He. destruct (ro_devices s Hs q e He) as ([b Hb] & H2). split; [|done]. exists b. apply lookup_delete_Some.
    split; [|done]. intros E. by destruct (Hnone q e He).
  - apply Hs.
Qed.

(** Counting does not touch what the registry is made of. *)
Lemma put_device_ok s p d e : registry_ok s -> devices s !! p = Some d -> dd_adapter e = dd_adapter d ->
  dd_type e = dd_type d -> dd_id e = dd_id d -> registry_ok (put_device s p e).
Proof.
  intros Hs Hd Ea Et Ei.
  assert (Hl : forall q f, <[p := e]> (devices s) !! q = Some f -> exists g, devices s !! q = Some g /\
    dd_adapter f = dd_adapter g /\ dd_type f = dd_type g /\ dd_id f = dd_id g).
  { intros q f [[<- <-]|[_ Hf]]%lookup_insert_Some; [by exists d|by exists f]. }
  destruct Hs as [H1 H2 H3 H4 H5 H6 H7]. constructor; cbn; try done.
  - intros q a r Ha. rewrite (H5 q a r Ha). split.
    + intros (f & Hf & E). destruct (decide (p = r)) as [<-|Hne].
      * exists e. rewrite lookup_insert_eq. split; [done|]. congruence.
      * exists f. by rewrite lookup_insert_ne.
    + intros (f & (g & Hg & E & _)%Hl & E'). exists g. split; [done|]. congruence.
  - intros q f (g & Hg & -> & -> & ->)%Hl. by apply (H6 q).
  - intros q r f f' (g & Hg & -> & -> & ->)%Hl (g' & Hg' & -> & -> & ->)%Hl. by apply (H7 q r g g').
Qed.

Definition counted (d : dvb_device) (r w u : Z) : dvb_device :=
  d <| dd_readers := dd_readers d + r |> <| dd_writers := dd_writers d + w |> <| dd_users := dd_users d + u |>.

Lemma generic_open_ok s f p d : private_data f = Some p -> devices s !! p = Some d ->
  dvb_generic_open s f = Ret (
    if (dd_users d =? 0) || ((if f_rdonly f then dd_readers d else dd_writers d) =? 0) then (s, - EBUSY)
    else (put_device s p (counted d (if f_rdonly f then -1 else 0) (if f_rdonly f then 0 else -1) (-1)), 0)).
Proof.
  intros Hf Hd. unfold dvb_generic_open, at_device. rewrite Hf, Hd. next. destruct d as [a b c e r w u k z]; cbn.
  destruct (u =? 0); [done|]. destruct (f_rdonly f); cbn.
  - destruct (r =? 0); [done|]. unfold counted, set. cbn. by rewrite Z.add_0_r.
  - destruct (w =? 0); [done|]. unfold counted, set. cbn. by rewrite Z.add_0_r.
Qed.

Lemma generic_release_ok s f p d : private_data f = Some p -> devices s !! p = Some d ->
  dvb_generic_release s f = Ret (put_device s p (counted d (if f_rdonly f then 1 else 0) (if f_rdonly f then 0 else 1) 1), 0).
Proof.
  intros Hf Hd. unfold dvb_generic_release, at_device. rewrite Hf, Hd. next. destruct d as [a b c e r w u k z].
  unfold counted, set. destruct (f_rdonly f); cbn; by rewrite Z.add_0_r.
Qed.

(** ** The registry as a state machine *)
Inductive registry_step : registry -> registry -> Prop :=
  | step_register_adapter s pa name p sig s' pa' r :
      adapters s !! p = None -> dvb_register_adapter s pa name (Some p) sig = Ret (s', pa', r) -> registry_step s s'
  | step_unregister_adapter s p a sig s' r :
      adapters s !! p = Some a -> da_device_list a = [] -> dvb_unregister_adapter s p sig = Ret (s', r) -> registry_step s s'
  | step_register_device s adap a pd template priv type p sig s' pd' r :
      adapters s !! adap = Some a -> devices s !! p = None -> 0 <= type < 16 ->
      dvb_register_device s adap pd template priv type (Some p) sig = Ret (s', pd', r) -> registry_step s s'
  | step_unregister_device s p d s' :
      devices s !! p = Some d -> dvb_unregister_device s (Some p) = Ret s' -> registry_step s s'
  | step_open s f p d s' r :
      private_data f = Some p -> devices s !! p = Some d -> dvb_generic_open s f = Ret (s', r) -> registry_step s s'
  | step_release s f p d s' r :
      private_data f = Some p -> devices s !! p = Some d -> dvb_generic_release s f = Ret (s', r) -> registry_step s s'.

Definition empty_registry : registry := mk_registry [] ∅ ∅ 1.

Lemma empty_registry_ok : registry_ok empty_registry.
Proof.
  constructor; cbn; try done; [constructor|]. intros p. split; [by intros ?%elem_of_nil|by intros [? ?]].
Qed.

Lemma counted_ok s p d r w u : registry_ok s -> devices s !! p = Some d -> registry_ok (put_device s p (counted d r w u)).
Proof. intros Hs Hd. by apply (put_device_ok s p d). Qed.

Lemma registry_step_ok s s' : registry_step s s' -> registry_ok s -> register_lock s = 1 ->
  registry_ok s' /\ register_lock s' = 1.
Proof.
  intros H Hs Hl. destruct H as [s pa name p sig s' pa' r Hp E|s p a sig s' r Ha He E|s adap a pd template priv type p sig s' pd' r Ha Hp Ht E
    |s p d s' Hd E|s f p d s' r Hf Hd E|s f p d s' r Hf Hd E].
  - destruct (register_adapter_ok s pa name p sig) as (t & num & E' & Ht & Hlt & _); [done|lia|done| |].
    { intros q d Hd Ed. destruct (ro_devices s Hs q d Hd) as ([a Ha] & _). congruence. }
    rewrite E in E'. injection E' as -> -> ->. split; [done|congruence].
  - destruct (unregister_adapter_ok s p a sig) as (t & E' & Ht & Hlt & _); [done|lia|done|done|].
    rewrite E in E'. injection E' as -> ->. split; [done|congruence].
  - destruct (register_device_ok s adap a pd template priv type p sig) as (t & pd2 & r2 & E' & Ht' & Hlt & _); [done|lia|done..|].
    rewrite E in E'. injection E' as -> -> ->. split; [done|congruence].
  - destruct (unregister_device_ok s p d) as (t & E' & Ht & Hlt & _); [done..|].
    rewrite E in E'. injection E' as ->. split; [done|congruence].
  - rewrite (generic_open_ok s f p d) in E by done. injection E as E. destruct (_ || _) in E.
    + by injection E as <- _.
    + injection E as <- _. split; [by apply counted_ok|done].
  - rewrite (generic_release_ok s f p d) in E by done. injection E as <- _. split; [by apply counted_ok|done].
Qed.

(** C21: However adapters and devices are registered and unregistered and devices are opened
    and released (one operation after the other), the registry stays well formed:
    adapters have different numbers, the devices of an adapter different pairs of
    type and id, every device is on the list of its adapter and on no other, and the
    lock is free between the operations. *)
Theorem registry_invariant s : rtc registry_step empty_registry s -> registry_ok s /\ register_lock s = 1.
Proof.
  intros H. pose proof empty_registry_ok as H0. assert (H1 : register_lock empty_registry = 1) by done.
  revert H0 H1. induction H as [s|s t u Hst _ IH]; [done|]. intros H0 H1.
  destruct (registry_step_ok s t) as [H2 H3]; [done..|]. by apply IH.
Qed.

(** C23: [dvb_register_device] gives a device the least id that no device of its adapter and
    type has, and fails with [-ENFILE], leaving everything as it was, exactly if all
    [DVB_MAX_IDS] ids are taken. *)
Theorem register_device_least_id s adap a pd template priv type p sig : registry_ok s -> 0 < register_lock s ->
  adapters s !! adap = Some a -> devices s !! p = None -> 0 <= type < 16 ->
  exists s' pd' r, dvb_register_device s adap pd template priv type (Some p) sig = Ret (s', pd', r) /\ registry_ok s' /\
    ((r = - ENFILE /\ s' = s /\ pd' = None /\ forall i, 0 <= i < DVB_MAX_IDS -> taken s adap type i) \/
     (r = 0 /\ pd' = Some p /\ exists d, devices s' !! p = Some d /\ dd_adapter d = adap /\ dd_type d = type /\
       0 <= dd_id d < DVB_MAX_IDS /\ ~ taken s adap type (dd_id d) /\ (forall i, 0 <= i < dd_id d -> taken s adap type i) /\
       forall q, q <> p -> devices s' !! q = devices s !! q)).
Proof.
  intros Hs Hl Ha Hp Ht. destruct (register_device_ok s adap a pd template priv type p sig) as (s' & pd' & r & E & Hs' & _ & H); [done..|].
  exists s', pd', r. split; [done|]. split; [done|]. destruct H as [H|(-> & -> & id & Hid & Hfree & Hleast & Hd)]; [by left|right].
  split; [done|]. split; [done|]. eexists. rewrite Hd, lookup_insert_eq. split; [done|]. cbn. split_and!; [done..|lia|lia|done|done|].
  intros q Hq. by rewrite lookup_insert_ne.
Qed.

Lemma reserve_ok s adap a type p : registry_ok s -> 0 < register_lock s -> adapters s !! adap = Some a ->
  exists r, free_id_from (Z.to_nat DVB_MAX_IDS) s a type 0 = Ret r /\
    (0 <= r -> register_reserve s adap None type (Some p) false = Ret (s, Some p, r, 0)) /\
    (r = - ENFILE /\ (forall i, 0 <= i < DVB_MAX_IDS -> taken s adap type i) \/
     0 <= r < DVB_MAX_IDS /\ ~ taken s adap type r).
Proof.
  intros Hs Hl Ha. set (t := s <| register_lock := register_lock s - 1 |>). assert (Hts : registry_ok t) by by apply set_lock_ok.
  destruct (free_id_from_ok s adap a type (Z.to_nat DVB_MAX_IDS) 0) as (id & E & Hid); [done|done|lia|].
  destruct (free_id_from_ok t adap a type (Z.to_nat DVB_MAX_IDS) 0) as (id' & E' & Hid'); [done|done|lia|].
  change (Z.of_nat (Z.to_nat DVB_MAX_IDS)) with DVB_MAX_IDS in *.
  assert (Htaken : forall i, taken t adap type i <-> taken s adap type i) by done.
  assert (id' = id) as ->.
  { destruct Hid as [[-> Hall]|(H1 & H2 & H3)], Hid' as [[-> Hall']|(H1' & H2' & H3')]; [done| | |].
    - destruct H2'. apply Hall. lia.
    - destruct H2. apply Hall'. lia.
    - destruct (Z.lt_trichotomy id id') as [Hlt|[|Hlt]]; [|done|].
      + destruct H2. apply H3'. lia.
      + destruct H2'. apply H3. lia. }
  exists id. split; [done|]. split; [|destruct Hid as [Hid|(H1 & H2 & _)]; [by left|right; split; [lia|done]]].
  intros H0. unfold register_reserve. rewrite down_register_ok by done. next. fold t. unfold dvbdev_get_free_id, at_adapter.
  change (adapters t) with (adapters s). rewrite Ha. next. rewrite E'. next. replace (id <? 0) with false by lia.
  unfold t. by rewrite lock_restored.
Qed.

(** C24: The new device is put on the list only after the lock was given back: two calls of
    [dvb_register_device] for one adapter and type that both look for an id before
    one of them goes on get the same id, so that two devices have the same minor
    number. *)
Theorem register_device_race s adap a template priv type p q : registry_ok s -> 0 < register_lock s ->
  adapters s !! adap = Some a -> devices s !! p = None -> devices s !! q = None -> p <> q -> 0 <= type < 16 ->
  (exists i, 0 <= i < DVB_MAX_IDS /\ ~ taken s adap type i) ->
  exists id s1 s2, register_reserve s adap None type (Some p) false = Ret (s, Some p, id, 0) /\
    register_reserve s adap None type (Some q) false = Ret (s, Some q, id, 0) /\
    register_link s adap p template priv type id = Ret s1 /\ register_link s1 adap q template priv type id = Ret s2 /\
    has_minor s2 (nums2minor (da_num a) type id) p /\ has_minor s2 (nums2minor (da_num a) type id) q /\ ~ registry_ok s2.
Proof.
  intros Hs Hl Ha Hp Hq Hne Ht (i & Hi & Hfree).
  destruct (reserve_ok s adap a type p Hs Hl Ha) as (id & E & Hr & [[-> Hall]|[Hid Hid']]); [by destruct Hfree; apply Hall|].
  destruct (reserve_ok s adap a type q Hs Hl Ha) as (id' & E' & Hr' & _). assert (id' = id) as -> by congruence.
  destruct (link_ok s adap a p template priv type id) as (s1 & E1 & Hs1 & _ & Hd1); [done..|].
  unfold register_link, at_adapter in E1. cbn in E1. rewrite Ha in E1. cbn in E1. injection E1 as E1.
  set (d := template <| dd_type := type |> <| dd_id := id |> <| dd_adapter := adap |> <| dd_priv := priv |>) in *.
  set (b := a <| da_device_list := da_device_list a ++ [p] |>) in *.
  assert (Hb : adapters s1 !! adap = Some b) by (rewrite <- E1; cbn; by rewrite lookup_insert_eq).
  exists id, s1. eexists. split; [apply Hr; lia|]. split; [apply Hr'; lia|].
  split; [unfold register_link, at_adapter; cbn; rewrite Ha; cbn; by f_equal|].
  split; [unfold register_link, at_adapter; cbn; rewrite Hb; cbn; done|]. fold d. cbv zeta.
  set (s2 := put_adapter (put_device s1 q d) adap _).
  assert (Hp2 : has_minor s2 (nums2minor (da_num a) type id) p).
  { exists d, (b <| da_device_list := da_device_list b ++ [q] |>). unfold s2. cbn. rewrite lookup_insert_ne, Hd1, lookup_insert_eq by done.
    by rewrite lookup_insert_eq. }
  assert (Hq2 : has_minor s2 (nums2minor (da_num a) type id) q).
  { exists d, (b <| da_device_list := da_device_list b ++ [q] |>). unfold s2. cbn. by rewrite !lookup_insert_eq. }
  split; [done|]. split; [done|]. intros Hs2. by apply Hne, (has_minor_unique s2 (nums2minor (da_num a) type id)).
Qed.

(** ** Readers and writers *)

(** [held]: for each open file of device [p] whether it is open for reading only. *)
Inductive file_step (p : addr) : registry * list bool -> registry * list bool -> Prop :=
  | file_opened f s s' held :
      private_data f = Some p -> dvb_generic_open s f = Ret (s', 0) -> file_step p (s, held) (s', f_rdonly f :: held)
  | file_refused f s s' held r :
      private_data f = Some p -> dvb_generic_open s f = Ret (s', r) -> r <> 0 -> file_step p (s, held) (s', held)
  | file_released f s s' h1 h2 r :
      private_data f = Some p -> dvb_generic_release s f = Ret (s', r) ->
      file_step p (s, h1 ++ f_rdonly f :: h2) (s', h1 ++ h2).

Definition count (b : bool) (held : list bool) : Z := zlen (base.filter (fun x => x = b) held).

Lemma count_cons b x held : count b (x :: held) = (if eqb x b then 1 else 0) + count b held.
Proof. unfold count. rewrite filter_cons. destruct (decide (x = b)) as [->|]; [by rewrite zlen_cons, eqb_reflx|by destruct x, b]. Qed.

Lemma count_app b h k : count b (h ++ k) = count b h + count b k.
Proof. unfold count. by rewrite filter_app, zlen_app. Qed.

(** The counts of a device whose files [held] are open. *)
Definition counts_held (d0 d : dvb_device) (held : list bool) : Prop :=
  dd_readers d = dd_readers d0 - count true held /\ dd_writers d = dd_writers d0 - count false held /\
  dd_users d = dd_users d0 - zlen held /\ (0 <= dd_writers d0 -> 0 <= dd_writers d) /\ (0 <= dd_readers d0 -> 0 <= dd_readers d).

Lemma file_step_counts p d0 s held s' held' : file_step p (s, held) (s', held') ->
  (exists d, devices s !! p = Some d /\ counts_held d0 d held) -> exists d, devices s' !! p = Some d /\ counts_held d0 d held'.
Proof.
  intros H (d & Hd & C1 & C2 & C3 & C4 & C5).
  inversion H as [f t t' h Hf E|f t t' h r Hf E Hr|f t t' h1 h2 r Hf E]; subst; clear H.
  - rewrite (generic_open_ok s f p d) in E by done. destruct (Z.eqb_spec (dd_users d) 0); [done|].
    destruct (Z.eqb_spec (if f_rdonly f then dd_readers d else dd_writers d) 0) as [|Hz]; [done|]. cbn [orb] in E.
    injection E as <-. eexists. split; [cbn; apply lookup_insert_eq|]. unfold counts_held. rewrite !count_cons, zlen_cons.
    destruct (f_rdonly f); cbn; lia.
  - rewrite (generic_open_ok s f p d) in E by done. destruct (_ || _) in E; injection E as <- E; [|done].
    exists d. by split_and!.
  - rewrite (generic_release_ok s f p d) in E by done. injection E as <- _.
    eexists. split; [cbn; apply lookup_insert_eq|]. unfold counts_held. rewrite !count_app, !count_cons, !zlen_app, !zlen_cons in *.
    destruct (f_rdonly f); cbn in *; lia.
Qed.

(** C22: The counts of a device follow its open files exactly: after any sequence of opens and
    releases the count of readers, writers and users is the initial one less the files
    that are open for reading, for writing, and all; with a template of one writer at
    most one file is open for writing at any time, and a further open for writing
    fails with [-EBUSY] and changes nothing. *)
Theorem one_writer p s0 d0 s held : devices s0 !! p = Some d0 -> dd_writers d0 = 1 -> rtc (file_step p) (s0, []) (s, held) ->
  exists d, devices s !! p = Some d /\ counts_held d0 d held /\ count false held <= 1 /\
    forall f, private_data f = Some p -> f_rdonly f = false -> count false held = 1 -> dvb_generic_open s f = Ret (s, - EBUSY).
Proof.
  intros Hd0 Hw H.
  assert (exists d, devices s !! p = Some d /\ counts_held d0 d held) as (d & Hd & Hc).
  { remember (s0, @nil bool) as x eqn:Ex. remember (s, held) as y eqn:Ey.
    assert (Hx : exists d, devices (fst x) !! p = Some d /\ counts_held d0 d (snd x)).
    { subst x. exists d0. split; [done|]. unfold counts_held, count. cbn. rewrite !zlen_nil. lia. }
    clear Ex. revert Hx Ey. induction H as [x|[t h] [t' h'] z Hst _ IH]; intros Hx Ey; [by subst x|].
    apply IH; [|done]. by apply (file_step_counts p d0 t h). }
  exists d. split; [done|]. split; [done|]. destruct Hc as (C1 & C2 & C3 & C4 & _). split; [lia|].
  intros f Hf Hr Hone. rewrite (generic_open_ok s f p d) by done. rewrite Hr. replace (dd_writers d =? 0) with true by lia.
  by rewrite orb_true_r.
Qed.

(** ** Opening by minor number *)

(** [dvb_device_open] hands the file over to the device of its minor number: if the
    device's own [open] succeeds, the file has the device's operations and its module
    has one user more, the old one's one less; if it fails, the file has its old
    operations back and no module gains or loses a user; without a device it is
    [-ENODEV] and nothing changes. *)
Theorem device_open_refs fop_open s refs minor f : registry_ok s ->
  (forall op open q, fop_open op = Some open -> is_Some (devices s !! q) ->
    returns (open s (mk_dvb_file (f_rdonly f) (Some q) op))) ->
  exists s' refs' f' err, dvb_device_open fop_open s refs minor f = Ret (s', refs', f', err) /\
    ((err = - ENODEV /\ s' = s /\ refs' = refs /\ f' = f) \/
     (exists q d op, has_minor s minor q /\ devices s !! q = Some d /\ dd_fops d = Some op /\ private_data f' = Some q /\
       f_op f' = (if err =? 0 then op else f_op f) /\
       forall k, default 0 (refs' !! k) = default 0 (refs !! k) +
         (if err =? 0 then (if k =? op then 1 else 0) - (if k =? f_op f then 1 else 0) else 0))).
Proof.
  intros Hs Hopen. unfold dvb_device_open.
  destruct (find_on_adapters_ok s minor (adapter_list s) Hs) as (r & E & Hr); [intros p; by rewrite (ro_adapters s Hs)|].
  unfold dvbdev_find_device. rewrite E. next. destruct r as [q|]; [|exists s, refs, f, (- ENODEV); split; [done|]; by left].
  pose proof Hr as (d & a & Hd & Ha & Em). unfold at_device. rewrite Hd. next.
  destruct (dd_fops d) as [op|] eqn:Eop; [|exists s, refs, f, (- ENODEV); split; [done|]; by left].
  set (g := f <| private_data := Some q |> <| f_op := op |>).
  assert (exists s' err, match fop_open op with Some open => open s g | None => Ret (s, 0) end = Ret (s', err)) as (s' & err & ->).
  { destruct (fop_open op) as [open|] eqn:Eo; [|by eexists _, _]. destruct (Hopen op open q Eo) as [[s' err] H]; [by exists d|].
    exists s', err. exact H. }
  next. cbv zeta.
  assert (Hget : forall m op k, default 0 (fops_get m op !! k) = default 0 (m !! k) + (if k =? op then 1 else 0)).
  { intros m o k. unfold fops_get. destruct (Z.eqb_spec k o) as [->|]; [by rewrite lookup_insert_eq|].
    rewrite lookup_insert_ne by done. lia. }
  assert (Hput : forall m op k, default 0 (fops_put m op !! k) = default 0 (m !! k) - (if k =? op then 1 else 0)).
  { intros m o k. unfold fops_put. destruct (Z.eqb_spec k o) as [->|]; [by rewrite lookup_insert_eq|].
    rewrite lookup_insert_ne by done. lia. }
  destruct (Z.eqb_spec err 0) as [->|He]; cbn [negb].
  - eexists s', _, _, _. split; [reflexivity|]. right. exists q, d, op. do 5 (split; [done|]). intros k.
    rewrite Hput, Hget. cbn. lia.
  - eexists s', _, _, _. split; [reflexivity|]. right. exists q, d, op. rewrite (proj2 (Z.eqb_neq _ _) He).
    do 5 (split; [done|]). intros k. rewrite Hput, Hget, Hput, Hget. cbn. lia.
Qed.

(** ** Witnesses *)
Definition frontend_template : dvb_device := mk_device (Some 7) 0 0 0 (-2) 1 (-1) true None.
Definition one_adapter : registry := mk_registry [100] {[100 := mk_adapter 0 [] []]} ∅ 1.

Lemma one_adapter_step : registry_step empty_registry one_adapter.
Proof. apply (step_register_adapter empty_registry None [] 100 false one_adapter (Some 100) 0); [done|reflexivity]. Qed.

Lemma registry_invariant_witness : registry_ok one_adapter /\ register_lock one_adapter = 1.
Proof. apply registry_invariant. apply rtc_once, one_adapter_step. Defined.

Lemma one_adapter_ok : registry_ok one_adapter.
Proof. by destruct (registry_step_ok empty_registry one_adapter one_adapter_step empty_registry_ok eq_refl). Qed.

Lemma find_device_by_minor_witness : exists r, dvbdev_find_device one_adapter 3 = Ret r /\
  (forall q, r = Some q <-> has_minor one_adapter 3 q).
Proof. apply (find_device_by_minor one_adapter 3 one_adapter_ok). Defined.

Lemma register_device_least_id_witness : exists s' pd' r,
  dvb_register_device one_adapter 100 None frontend_template None 3 (Some 200) false = Ret (s', pd', r) /\ registry_ok s'.
Proof.
  destruct (register_device_least_id one_adapter 100 (mk_adapter 0 [] []) None frontend_template None 3 200 false)
    as (s' & pd' & r & E & H & _); [apply one_adapter_ok|done|done|done|done|].
  exists s', pd', r. split; [exact E|exact H].
Defined.

Lemma register_device_race_witness : exists id s1 s2,
  register_reserve one_adapter 100 None 3 (Some 200) false = Ret (one_adapter, Some 200, id, 0) /\
  register_reserve one_adapter 100 None 3 (Some 300) false = Ret (one_adapter, Some 300, id, 0) /\
  register_link one_adapter 100 200 frontend_template None 3 id = Ret s1 /\
  register_link s1 100 300 frontend_template None 3 id = Ret s2 /\
  has_minor s2 (nums2minor 0 3 id) 200 /\ has_minor s2 (nums2minor 0 3 id) 300 /\ ~ registry_ok s2.
Proof.
  apply (register_device_race one_adapter 100 (mk_adapter 0 [] []) frontend_template None 3 200 300);
    [apply one_adapter_ok|done|done|done|done|done|done|].
  exists 0. split; [done|]. intros (q & d & Hd & _). done.
Defined.

Definition frontend_registry : registry :=
  mk_registry [100] {[100 := mk_adapter 0 [200] []]} {[200 := frontend_template <| dd_adapter := 100 |> <| dd_type := 3 |>]} 1.

Lemma frontend_registry_ok : registry_ok frontend_registry.
Proof.
  assert (Hst : registry_step one_adapter frontend_registry).
  { apply (step_register_device one_adapter 100 (mk_adapter 0 [] []) None frontend_template None 3 200 false frontend_registry
      (Some 200) 0); [done|done|done|reflexivity]. }
  by destruct (registry_step_ok _ _ Hst one_adapter_ok eq_refl).
Qed.

Definition write_file : file := mk_dvb_file false (Some 200) 7.

Lemma one_writer_witness : exists s d, devices s !! 200 = Some d /\ dd_writers d = 0 /\
  dvb_generic_open s write_file = Ret (s, - EBUSY).
Proof.
  set (d0 := frontend_template <| dd_adapter := 100 |> <| dd_type := 3 |>).
  set (s1 := put_device frontend_registry 200 (counted d0 0 (-1) (-1))).
  destruct (one_writer 200 frontend_registry d0 s1 [false]) as (d & Hd & (_ & Hw & _) & _ & Hopen); [done|done| |].
  { apply rtc_once. apply (file_opened 200 write_file); reflexivity. }
  exists s1, d. split; [exact Hd|]. split; [exact Hw|]. apply Hopen; reflexivity.
Defined.

Lemma device_open_refs_witness : exists s' refs' f' err,
  dvb_device_open (fun _ => Some dvb_generic_open) frontend_registry ∅ 3 (mk_dvb_file false None 1) = Ret (s', refs', f', err) /\ err = 0.
Proof.
  destruct (device_open_refs (fun _ => Some dvb_generic_open) frontend_registry ∅ 3 (mk_dvb_file false None 1))
    as (s' & refs' & f' & err & E & _).
  - apply frontend_registry_ok.
  - intros op open q [= <-] [d Hd]. cbn [f_rdonly].
    rewrite (generic_open_ok frontend_registry (mk_dvb_file false (Some q) op) q d) by done. by eexists.
  - exists s', refs', f', err. split; [exact E|]. vm_compute in E. by injection E.
Defined.
