(* ===== verification/Frontend.v ===== *)
(** * The frontend device

    dvb-core/dvb_frontend.c: tuning with its zigzag scan and the bending of
    frequencies, the queue of events, the thread that watches the lock, the device
    operations and the registration of frontends.  A pointer to a frontend is an
    address of the heap [frontends]; pointers to functions are numbers that [call] and
    [notify] give a meaning to.  A value of type [int] is an integer: sums that
    overflow it are undefined in C and not described. *)
From stdpp Require Import gmap.
From S2P Require Import Prelude DemuxTypes DemuxApi Dvbdev.


Definition FE_QPSK : Z := 0.
Definition FE_QAM : Z := 1.
Definition FE_OFDM : Z := 2.

Definition FE_CAN_RECOVER : Z := 0x20000000.
Definition FE_CAN_CLEAN_SETUP : Z := 0x40000000.
Definition FE_CAN_MUTE_TS : Z := 0x80000000.

Definition FE_HAS_LOCK : Z := 0x10.
Definition FE_TIMEDOUT : Z := 0x20.

Definition MAX_EVENT : Z := 8.

(** The conversion of an unsigned integer to [int]. *)
Definition s32 (x : Z) : Z := (x + 2 ^ 31) mod 2 ^ 32 - 2 ^ 31.

(** [fp_u]: the words of the union; the first one is the symbol rate of QPSK. *)
Record parameters := mk_parameters { fp_frequency : Z; fp_inversion : Z; fp_u : list Z }.
#[export] Instance eta_parameters : Eta parameters := fun p => mk_parameters (fp_frequency p) (fp_inversion p) (fp_u p).

Record fe_event := mk_fe_event { ev_status : Z; ev_parameters : parameters }.
#[export] Instance eta_fe_event : Eta fe_event := fun e => mk_fe_event (ev_status e) (ev_parameters e).

Record dvb_fe_events := mk_fe_events { events_array : list fe_event; eventw : Z; eventr : Z; fe_overflow : bool; events_sem : Z }.
#[export] Instance eta_fe_events : Eta dvb_fe_events := fun e =>
  mk_fe_events (events_array e) (eventw e) (eventr e) (fe_overflow e) (events_sem e).

Record dvb_frontend_info := mk_info {
  fi_type : Z; fi_frequency_stepsize : Z; fi_notifier_delay : Z; fi_caps : Z }.

(** [i2c_adapter]: [i2c->adapter]; [i2c]: the bus itself. *)
Record dvb_frontend := mk_frontend {
  before_ioctl : option Z; fe_ioctl : Z; after_ioctl : option Z; notifier_callback : option Z;
  i2c : Z; i2c_adapter : addr; before_after_data : Z; notifier_data : Z }.
#[export] Instance eta_frontend : Eta dvb_frontend := fun f =>
  mk_frontend (before_ioctl f) (fe_ioctl f) (after_ioctl f) (notifier_callback f) (i2c f) (i2c_adapter f)
    (before_after_data f) (notifier_data f).

Record dvb_frontend_data := mk_fe {
  fe_info : dvb_frontend_info; fe_frontend : dvb_frontend; fe_dvbdev : option addr; fe_parameters : parameters;
  fe_events : dvb_fe_events; fe_sem : Z; thread_pid : Z; release_jiffies : Z; lost_sync_jiffies : Z;
  bending : Z; lnb_drift : Z; timeout_count : Z; lost_sync_count : Z; fe_exit : bool; fe_status : Z }.
#[export] Instance eta_fe : Eta dvb_frontend_data := fun f =>
  mk_fe (fe_info f) (fe_frontend f) (fe_dvbdev f) (fe_parameters f) (fe_events f) (fe_sem f) (thread_pid f)
    (release_jiffies f) (lost_sync_jiffies f) (bending f) (lnb_drift f) (timeout_count f) (lost_sync_count f)
    (fe_exit f) (fe_status f).

Record dvb_frontend_ioctl_data := mk_ioctl_data {
  il_adapter : addr; il_before : option Z; il_after : option Z; il_data : Z }.
Record dvb_frontend_notifier_data := mk_notifier_data { no_adapter : addr; no_callback : option Z; no_data : Z }.

(** Commands, and what their argument points to. *)
Inductive fe_cmd : Type :=
  | FE_SLEEP | FE_INIT | FE_RESET | FE_READ_STATUS | FE_SET_FRONTEND | FE_GET_FRONTEND | FE_GET_EVENT
  | FE_DISEQC_SEND_MASTER_CMD | FE_DISEQC_SEND_BURST | FE_SET_TONE | FE_OTHER (n : Z).
Inductive fe_arg : Type :=
  | ArgNone | ArgParameters (p : parameters) | ArgStatus (s : Z) | ArgEvent (e : fe_event) | ArgOther (x : Z).

Section Frontend.
(** The state of the hardware; an ioctl of a driver: the hardware, the result and what
    its argument points to afterwards; a notifier callback. *)
Variable hardware : Type.
Variable call : Z -> hardware -> fe_cmd -> fe_arg -> hardware * Z * fe_arg.
Variable notify : Z -> hardware -> Z -> hardware.
(** Ticks of a second; the module parameter [dvb_shutdown_timeout]. *)
Variable HZ dvb_shutdown_timeout : Z.

Record world := mk_world {
  frontend_list : list addr; frontends : gmap addr dvb_frontend_data; frontend_ioctl_list : list dvb_frontend_ioctl_data;
  frontend_notifier_list : list dvb_frontend_notifier_data; frontend_mutex : Z; hw : hardware; reg : registry }.
#[export] Instance eta_world : Eta world := fun w =>
  mk_world (frontend_list w) (frontends w) (frontend_ioctl_list w) (frontend_notifier_list w) (frontend_mutex w) (hw w) (reg w).

Definition the_fe (w : world) (n : addr) : outcome dvb_frontend_data :=
  match frontends w !! n with Some fe => Ret fe | None => Crash end.
Definition put_fe (w : world) (n : addr) (fe : dvb_frontend_data) : world :=
  w <| frontends := <[n := fe]> (frontends w) |>.

(** [list_for_each (entry, &frontend_list)] with a body that changes the frontend. *)
Fixpoint for_each_fe (f : dvb_frontend_data -> dvb_frontend_data) (w : world) (l : list addr) : outcome world :=
  match l with
  | [] => Ret w
  | n :: l => fe ← the_fe w n; for_each_fe f (put_fe w n (f fe)) l
  end.

(** [down_interruptible] on a semaphore with the count [sem]; [sig]: a signal comes. *)
Definition down_sem (sem : Z) (sig : bool) : outcome (Z * bool) :=
  if sem >? 0 then Ret (sem - 1, false) else if sig then Ret (sem, true) else Hang.

(** ** Calls of the driver *)
Definition dvb_frontend_internal_ioctl (f : dvb_frontend) (h : hardware) (cmd : fe_cmd) (arg : fe_arg) : hardware * Z * fe_arg :=
  let '(h, err, arg) := match before_ioctl f with Some b => call b h cmd arg | None => (h, - EOPNOTSUPP, arg) end in
  if err =? - EOPNOTSUPP then
    let '(h, err, arg) := call (fe_ioctl f) h cmd arg in
    match after_ioctl f with
    | Some a => if err =? - EOPNOTSUPP then call a h cmd arg else (h, err, arg)
    | None => (h, err, arg)
    end
  else (h, err, arg).

(** ** Bending *)

(** Does [fe] keep [this] from its frequency? *)
Definition bend_conflict (this fe : dvb_frontend_data) (stepsize : Z) : bool :=
  let f := s32 (fp_frequency (fe_parameters fe)) + lnb_drift fe + bending fe in
  let frequency := s32 (fp_frequency (fe_parameters this)) + lnb_drift this + bending this in
  negb (lost_sync_count fe =? -1) && (frequency >? f - stepsize) && (frequency <? f + stepsize).

(** [list_for_each]: is there a frontend that makes the loop call itself? *)
Fixpoint bend_search (w : world) (n : addr) (this : dvb_frontend_data) (num stepsize : Z) (l : list addr) : outcome bool :=
  match l with
  | [] => Ret false
  | p :: l =>
    fe ← the_fe w p;
    a ← at_adapter (reg w) (i2c_adapter (fe_frontend fe));
    if negb (da_num a =? num) then bend_search w n this num stepsize l
    else if negb (p =? n) && bend_conflict this fe stepsize then Ret true
    else bend_search w n this num stepsize l
  end.

(** The activation [recursive] of [dvb_bend_frequency], with [more = 11 - recursive];
    the mutex is held from [recursive = 0] on. *)
Fixpoint bend_from (more : nat) (recursive : Z) (w : world) (n : addr) : outcome world :=
  this ← the_fe w n;
  a ← at_adapter (reg w) (i2c_adapter (fe_frontend this));
  let stepsize := s32 (fi_frequency_stepsize (fe_info this)) in
  match more with
  | O => Ret w
  | S more =>
    if stepsize =? 0 then Ret w else
    again ← bend_search w n this (da_num a) stepsize (frontend_list w);
    if (again : bool) then
      let b := if negb (Z.rem recursive 2 =? 0) then bending this + stepsize else - bending this in
      bend_from more (recursive + 1) (put_fe w n (this <| bending := b |>)) n
    else Ret w
  end.

Definition dvb_bend_frequency (w : world) (n : addr) (sig : bool) : outcome world :=
  this ← the_fe w n;
  if s32 (fi_frequency_stepsize (fe_info this)) =? 0 then Ret w else
  '(m, interrupted) ← down_sem (frontend_mutex w) sig;
  if (interrupted : bool) then Ret w else
  w ← bend_from 11 0 (put_fe (w <| frontend_mutex := m |>) n (this <| bending := 0 |>)) n;
  Ret (w <| frontend_mutex := frontend_mutex w + 1 |>).

(** ** Notifiers and events *)
Definition dvb_call_frontend_notifiers (now : Z) (w : world) (n : addr) (s : Z) : outcome world :=
  fe ← the_fe w n;
  let fe := if flag (fe_status fe) FE_HAS_LOCK && negb (flag s FE_HAS_LOCK) then fe <| lost_sync_jiffies := now |> else fe in
  let fe := fe <| fe_status := s |> in
  let w := put_fe w n fe in
  if negb (flag s FE_HAS_LOCK) && flag (fi_caps (fe_info fe)) FE_CAN_MUTE_TS then Ret w else
  match notifier_callback (fe_frontend fe) with
  | Some c => Ret (w <| hw := notify c (hw w) s |>)
  | None => Ret w
  end.

(** [dvb_frontend_add_event] up to its [up]; the place of the event, unless it was
    interrupted. *)
Definition add_event_locked (w : world) (n : addr) (s : Z) (sig : bool) : outcome (world * option Z) :=
  fe ← the_fe w n;
  let events := fe_events fe in
  '(m, interrupted) ← down_sem (events_sem events) sig;
  if (interrupted : bool) then Ret (w, None) else
  let wp := Z.rem (eventw events + 1) MAX_EVENT in
  let events := if wp =? eventr events then events <| fe_overflow := true |> <| eventr := Z.rem (eventr events + 1) MAX_EVENT |>
                else events in
  let e := eventw events in
  old ← deref (events_array events) (Z.to_nat e);
  let '(h, p) :=
    if flag s FE_HAS_LOCK then
      let '(h, _, arg) := dvb_frontend_internal_ioctl (fe_frontend fe) (hw w) FE_GET_FRONTEND (ArgParameters (fe_parameters fe)) in
      (h, match arg with ArgParameters p => p | _ => fe_parameters fe end)
    else (hw w, fe_parameters fe) in
  let events := events <| events_array := <[Z.to_nat e := old <| ev_parameters := p |>]> (events_array events) |>
                       <| eventw := wp |> <| events_sem := m + 1 |> in
  Ret ((put_fe w n (fe <| fe_events := events |>)) <| hw := h |>, Some e).

(** The rest: [e->status = status], which is no longer protected. *)
Definition add_event_status (now : Z) (w : world) (n : addr) (e s : Z) : outcome world :=
  fe ← the_fe w n;
  let events := fe_events fe in
  old ← deref (events_array events) (Z.to_nat e);
  let events := events <| events_array := <[Z.to_nat e := old <| ev_status := s |>]> (events_array events) |> in
  dvb_call_frontend_notifiers now (put_fe w n (fe <| fe_events := events |>)) n s.

Definition dvb_frontend_add_event (now : Z) (w : world) (n : addr) (s : Z) (sig : bool) : outcome world :=
  '(w, e) ← add_event_locked w n s sig;
  match e with None => Ret w | Some e => add_event_status now w n e s end.

(** The end of [dvb_frontend_get_event]: the oldest event is taken. *)
Definition take_event (w : world) (n : addr) (sig : bool) : outcome (world * option fe_event * Z) :=
  fe ← the_fe w n;
  let events := fe_events fe in
  '(m, interrupted) ← down_sem (events_sem events) sig;
  if (interrupted : bool) then Ret (w, None, - ERESTARTSYS) else
  e ← deref (events_array events) (Z.to_nat (eventr events));
  let events := events <| eventr := Z.rem (eventr events + 1) MAX_EVENT |> <| events_sem := m + 1 |> in
  Ret (put_fe w n (fe <| fe_events := events |>), Some e, 0).

(** [sleep]: what happens while the caller waits, and the result of
    [wait_event_interruptible]; [sigs]: the signals of the two calls of
    [down_interruptible]. *)
Definition dvb_frontend_get_event (sleep : world -> outcome (world * Z)) (w : world) (n : addr) (nonblock : bool) (sig1 sig2 : bool)
  : outcome (world * option fe_event * Z) :=
  fe ← the_fe w n;
  let events := fe_events fe in
  if fe_overflow events then
    Ret (put_fe w n (fe <| fe_events := events <| fe_overflow := false |> |>), None, - EOVERFLOW)
  else if eventw events =? eventr events then
    if nonblock then Ret (w, None, - EWOULDBLOCK) else
    '(w, ret) ← sleep (put_fe w n (fe <| fe_sem := fe_sem fe + 1 |>));
    fe ← the_fe w n;
    '(m, interrupted) ← down_sem (fe_sem fe) sig1;
    if (interrupted : bool) then Ret (w, None, - ERESTARTSYS) else
    let w := put_fe w n (fe <| fe_sem := m |>) in
    if ret <? 0 then Ret (w, None, ret) else take_event w n sig2
  else take_event w n sig2.

(** ** Tuning *)

(** What [param] points to: the parameters of the frontend, or the caller's. *)
Inductive param_ref : Type := Own | User (p : parameters).

Definition read_param (r : param_ref) (fe : dvb_frontend_data) : parameters :=
  match r with Own => fe_parameters fe | User p => p end.

(** The store after [*param = p]. *)
Definition write_param (r : param_ref) (w : world) (n : addr) (fe : dvb_frontend_data) (p : parameters) : world * param_ref :=
  match r with Own => (put_fe w n (fe <| fe_parameters := p |>), Own) | User _ => (w, User p) end.

(** [sig1]: of the event, [sig2]: of the mutex.  The result is followed by what [param]
    points to afterwards. *)
Definition dvb_frontend_set_parameters (now : Z) (w : world) (n : addr) (param : param_ref) (first_trial : bool) (sig1 sig2 : bool)
  : outcome (world * param_ref * Z) :=
  w ← (if first_trial then
      fe ← the_fe w n;
      let w := put_fe w n (fe <| timeout_count := 0 |> <| lost_sync_count := 0 |> <| lost_sync_jiffies := now |> <| lnb_drift := 0 |>) in
      w ← (if negb (Z.ldiff (fe_status fe) FE_TIMEDOUT =? 0) then dvb_frontend_add_event now w n 0 sig1 else Ret w);
      fe ← the_fe w n;
      Ret (put_fe w n (fe <| fe_parameters := read_param param fe |>))
    else Ret w);
  w ← dvb_bend_frequency w n sig2;
  fe ← the_fe w n;
  let p := read_param param fe in
  let p := p <| fp_frequency := u32 (fp_frequency p + (lnb_drift fe + bending fe)) |> in
  let '(w, param) := write_param param w n fe p in
  let '(h, err, arg) := dvb_frontend_internal_ioctl (fe_frontend fe) (hw w) FE_SET_FRONTEND (ArgParameters p) in
  let w := w <| hw := h |> in
  let p := match arg with ArgParameters p => p | _ => p end in
  fe ← the_fe w n;
  let p := p <| fp_frequency := u32 (fp_frequency p - (lnb_drift fe + bending fe)) |> in
  let '(w, param) := write_param param w n fe p in
  Ret (w, param, err).

Definition dvb_frontend_init (w : world) (n : addr) : outcome world :=
  fe ← the_fe w n;
  let '(h, _, _) := dvb_frontend_internal_ioctl (fe_frontend fe) (hw w) FE_INIT ArgNone in
  Ret (w <| hw := h |>).

(** The new quality and the new delay. *)
Definition update_delay (quality : Z) (locked : bool) : Z * Z :=
  let quality := if locked then Z.quot (quality * 220 + 36 * 256) 256 else Z.quot (quality * 220 + 0) 256 in
  let q2 := quality - 128 in
  let q2 := q2 * q2 in
  (quality, Z.quot HZ 20 + Z.quot (q2 * HZ) (128 * 128)).

Definition recover_stepsize (fe : dvb_frontend_data) : Z :=
  if fi_type (fe_info fe) =? FE_QPSK then zn (fp_u (fe_parameters fe)) 0 / 16000
  else if fi_type (fe_info fe) =? FE_QAM then 0
  else s32 (u32 (fi_frequency_stepsize (fe_info fe) * 2)).

(** The next drift of the zigzag scan. *)
Definition next_drift (j stepsize drift : Z) : Z :=
  if Z.rem j 32 =? 0 then 0 else
  let drift := - drift in
  if negb (Z.rem j 2 =? 0) then drift + stepsize else drift.

Definition dvb_frontend_recover (now : Z) (w : world) (n : addr) (sig1 sig2 : bool) : outcome world :=
  fe ← the_fe w n;
  let drift := next_drift (lost_sync_count fe) (recover_stepsize fe) (lnb_drift fe) in
  '(w, _, _) ← dvb_frontend_set_parameters now (put_fe w n (fe <| lnb_drift := drift |>)) n Own false sig1 sig2;
  fe ← the_fe w n;
  let '(h, _, _) := dvb_frontend_internal_ioctl (fe_frontend fe) (hw w) FE_RESET ArgNone in
  Ret (w <| hw := h |>).

(** ** The thread *)

(** The comparison is one of unsigned numbers. *)
Definition dvb_frontend_is_exiting (now : Z) (w : world) (n : addr) : outcome bool :=
  fe ← the_fe w n;
  if fe_exit fe then Ret true else
  match fe_dvbdev fe with
  | None => Crash
  | Some p =>
    d ← at_device (reg w) p;
    Ret ((dd_writers d =? 1) && (u32 (now - release_jiffies fe) >? u32 (dvb_shutdown_timeout * HZ)))
  end.

(** The local variables, and where the thread is: before the test of the loop, asleep
    in [interruptible_sleep_on_timeout], or gone. *)
Record locals := mk_locals { l_quality : Z; l_delay : Z; l_s : Z }.
Inductive place : Type := AtTest | Asleep | Gone.

(** From the beginning of the thread to the loop; [s]: what is in [s]. *)
Definition thread_begin (now : Z) (w : world) (n : addr) (s : Z) : outcome (world * locals * place) :=
  fe ← the_fe w n;
  w ← dvb_call_frontend_notifiers now (put_fe w n (fe <| lost_sync_count := -1 |>)) n 0;
  w ← dvb_frontend_init w n;
  Ret (w, mk_locals 0 (3 * HZ) s, AtTest).

(** Behind the loop. *)
Definition thread_end (w : world) (n : addr) (l : locals) : outcome (world * locals * place) :=
  fe ← the_fe w n;
  let h := if negb (dvb_shutdown_timeout =? 0)
           then fst (fst (dvb_frontend_internal_ioctl (fe_frontend fe) (hw w) FE_SLEEP ArgNone)) else hw w in
  Ret ((put_fe w n (fe <| fe_sem := fe_sem fe + 1 |> <| thread_pid := 0 |>)) <| hw := h |>, l, Gone).

Definition thread_test (now : Z) (w : world) (n : addr) (l : locals) : outcome (world * locals * place) :=
  exiting ← dvb_frontend_is_exiting now w n;
  if (exiting : bool) then thread_end w n l else
  fe ← the_fe w n;
  Ret (put_fe w n (fe <| fe_sem := fe_sem fe + 1 |>), l, Asleep).

(** [if (jiffies - fe->lost_sync_jiffies > TIMEOUT)]: the status and the frontend. *)
Definition check_timeout (now : Z) (fe : dvb_frontend_data) (s : Z) : Z * dvb_frontend_data :=
  if u32 (now - lost_sync_jiffies fe) >? 2 * HZ then
    (Z.lor s FE_TIMEDOUT,
     if negb (flag (fe_status fe) FE_TIMEDOUT) then fe <| timeout_count := timeout_count fe + 1 |> else fe)
  else (s, fe).

(** The body of the loop once the semaphore is held and a frequency was set. *)
Definition thread_watch (now : Z) (w : world) (n : addr) (l : locals) (sig1 sig2 sig3 : bool) : outcome (world * locals * place) :=
  fe ← the_fe w n;
  let '(h, _, arg) := dvb_frontend_internal_ioctl (fe_frontend fe) (hw w) FE_READ_STATUS (ArgStatus (l_s l)) in
  let w := w <| hw := h |> in
  let s := match arg with ArgStatus s => s | _ => l_s l end in
  let '(quality, delay) := update_delay (l_quality l) (flag s FE_HAS_LOCK) in
  let s := Z.ldiff s FE_TIMEDOUT in
  if flag s FE_HAS_LOCK then
    let w := put_fe w n (fe <| timeout_count := 0 |> <| lost_sync_count := 0 |>) in
    w ← (if negb (s =? fe_status fe) then dvb_frontend_add_event now w n s sig3 else Ret w);
    Ret (w, mk_locals quality delay s, AtTest)
  else
    let fe := fe <| lost_sync_count := lost_sync_count fe + 1 |> in
    let w := put_fe w n fe in
    let recovers := flag (fi_caps (fe_info fe)) FE_CAN_RECOVER in
    if negb recovers && negb (flag (fi_caps (fe_info fe)) FE_CAN_CLEAN_SETUP) && (lost_sync_count fe <? 10)
    then Ret (w, mk_locals quality delay s, AtTest) else
    w ← (if negb recovers then dvb_frontend_recover now w n sig1 sig2 else Ret w);
    let delay := if negb recovers then Z.quot HZ 5 else delay in
    fe ← the_fe w n;
    let '(s, fe) := check_timeout now fe s in
    let w := put_fe w n fe in
    w ← (if negb (s =? fe_status fe) then dvb_frontend_add_event now w n s sig3 else Ret w);
    Ret (w, mk_locals quality delay s, AtTest).

(** The thread wakes up; [pending]: a signal is pending. *)
Definition thread_wake (now : Z) (w : world) (n : addr) (l : locals) (pending sig sig1 sig2 sig3 : bool) : outcome (world * locals * place) :=
  if pending then thread_end w n l else
  fe ← the_fe w n;
  '(m, interrupted) ← down_sem (fe_sem fe) sig;
  if (interrupted : bool) then thread_end w n l else
  let w := put_fe w n (fe <| fe_sem := m |>) in
  if lost_sync_count fe =? -1 then Ret (w, l, AtTest) else
  exiting ← dvb_frontend_is_exiting now w n;
  if (exiting : bool) then thread_end w n l else
  thread_watch now w n l sig1 sig2 sig3.

(** [alive]: the process of the thread exists; [sleep]: what happens while the caller
    waits for it. *)
Definition dvb_frontend_stop (sleep : world -> outcome world) (w : world) (n : addr) (alive : bool) : outcome world :=
  fe ← the_fe w n;
  let w := put_fe w n (fe <| fe_exit := true |>) in
  if thread_pid fe =? 0 then Ret w else
  if negb alive then Ret (put_fe w n (fe <| fe_exit := true |> <| fe_sem := 1 |>))
  else sleep w.

(** [pending]: a signal is pending; [pid]: the result of [kernel_thread]. *)
Definition dvb_frontend_start (sleep : world -> outcome world) (w : world) (n : addr) (alive pending sig : bool) (pid : Z)
  : outcome (world * Z) :=
  fe ← the_fe w n;
  if negb (thread_pid fe =? 0) && negb (fe_exit fe) then Ret (w, 0) else
  w ← (if negb (thread_pid fe =? 0) then dvb_frontend_stop sleep w n alive else Ret w);
  if pending then Ret (w, - EINTR) else
  fe ← the_fe w n;
  '(m, interrupted) ← down_sem (fe_sem fe) sig;
  if (interrupted : bool) then Ret (w, - EINTR) else
  let fe := fe <| fe_sem := m |> <| fe_exit := false |> <| thread_pid := 0 |> in
  if pid <? 0 then Ret (put_fe w n (fe <| fe_sem := fe_sem fe + 1 |>), pid)
  else Ret (put_fe w n (fe <| thread_pid := pid |>), 0).

(** ** The device operations *)

(** The device of an open file and its [priv]: the frontend, if there is one. *)
Definition the_dev (w : world) (f : file) : outcome dvb_device :=
  match private_data f with Some p => at_device (reg w) p | None => Crash end.

Definition fe_of (w : world) (f : file) : outcome (option addr) := d ← the_dev w f; Ret (dd_priv d).

Definition dvb_frontend_ioctl (now : Z) (sleep : world -> outcome (world * Z)) (w : world) (f : file) (nonblock : bool)
    (cmd : fe_cmd) (parg : fe_arg) (sig sig1 sig2 : bool) : outcome (world * fe_arg * Z) :=
  fe ← fe_of w f;
  match fe with
  | None => Ret (w, parg, - ENODEV)
  | Some n =>
    fe ← the_fe w n;
    if (fe_ioctl (fe_frontend fe) =? 0) || fe_exit fe then Ret (w, parg, - ENODEV) else
    '(m, interrupted) ← down_sem (fe_sem fe) sig;
    if (interrupted : bool) then Ret (w, parg, - ERESTARTSYS) else
    let w := put_fe w n (fe <| fe_sem := m |>) in
    '(w, parg, err) ←
      (match cmd, parg with
       | FE_DISEQC_SEND_MASTER_CMD, _ | FE_DISEQC_SEND_BURST, _ | FE_SET_TONE, _ =>
         w ← (if negb (fe_status fe =? 0) then dvb_call_frontend_notifiers now w n 0 else Ret w);
         let '(h, _, parg) := dvb_frontend_internal_ioctl (fe_frontend fe) (hw w) cmd parg in
         Ret (w <| hw := h |>, parg, 0)
       | FE_SET_FRONTEND, ArgParameters p =>
         '(w, param, err) ← dvb_frontend_set_parameters now w n (User p) true sig1 sig2;
         Ret (w, match param with User p => ArgParameters p | Own => parg end, err)
       | FE_GET_EVENT, _ =>
         '(w, e, err) ← dvb_frontend_get_event sleep w n nonblock sig1 sig2;
         Ret (w, match e with Some e => ArgEvent e | None => parg end, err)
       | FE_GET_FRONTEND, _ =>
         let '(h, _, parg) := dvb_frontend_internal_ioctl (fe_frontend fe) (hw w) cmd (ArgParameters (fe_parameters fe)) in
         Ret (w <| hw := h |>, parg, 0)
       | _, _ =>
         let '(h, _, parg) := dvb_frontend_internal_ioctl (fe_frontend fe) (hw w) cmd parg in
         Ret (w <| hw := h |>, parg, 0)
       end);
    fe ← the_fe w n;
    Ret (put_fe w n (fe <| fe_sem := fe_sem fe + 1 |>), parg, err)
  end.

Definition dvb_frontend_poll (w : world) (f : file) : outcome Z :=
  fe ← fe_of w f;
  match fe with
  | None => Crash
  | Some n =>
    fe ← the_fe w n;
    Ret (if negb (eventw (fe_events fe) =? eventr (fe_events fe)) then Z.lor (Z.lor POLLIN POLLRDNORM) POLLPRI else 0)
  end.

Definition dvb_frontend_open (sleep : world -> outcome world) (w : world) (f : file) (alive pending sig : bool) (pid : Z)
  : outcome (world * Z) :=
  fe ← fe_of w f;
  '(r, ret) ← dvb_generic_open (reg w) f;
  let w := w <| reg := r |> in
  if ret <? 0 then Ret (w, ret) else
  if f_rdonly f then Ret (w, ret) else
  match fe with
  | None => Crash
  | Some n =>
    '(w, ret) ← dvb_frontend_start sleep w n alive pending sig pid;
    w ← (if negb (ret =? 0) then '(r, _) ← dvb_generic_release (reg w) f; Ret (w <| reg := r |>) else Ret w);
    fe ← the_fe w n;
    let events := (fe_events fe) <| eventr := 0 |> <| eventw := 0 |> in
    Ret (put_fe w n (fe <| fe_events := events |>), ret)
  end.

Definition dvb_frontend_release (now : Z) (w : world) (f : file) : outcome (world * Z) :=
  fe ← fe_of w f;
  w ← (if negb (f_rdonly f) then
      match fe with
      | None => Crash
      | Some n => fe ← the_fe w n; Ret (put_fe w n (fe <| release_jiffies := now |>))
      end
    else Ret w);
  '(r, ret) ← dvb_generic_release (reg w) f;
  Ret (w <| reg := r |>, ret).

(** ** Registration *)
Definition eq_ptr (a b : option Z) : bool := bool_decide (a = b).

(** The body of the loops over [frontend_list]. *)
Definition give_ioctls (adapter : addr) (before after : option Z) (data : Z) (fe : dvb_frontend_data) : dvb_frontend_data :=
  let f := fe_frontend fe in
  if (i2c_adapter f =? adapter) && eq_ptr (before_ioctl f) None && eq_ptr (after_ioctl f) None
  then fe <| fe_frontend := f <| before_ioctl := before |> <| after_ioctl := after |> <| before_after_data := data |> |> else fe.
Definition take_ioctls (adapter : addr) (before after : option Z) (fe : dvb_frontend_data) : dvb_frontend_data :=
  let f := fe_frontend fe in
  if (i2c_adapter f =? adapter) && eq_ptr (before_ioctl f) before && eq_ptr (after_ioctl f) after
  then fe <| fe_frontend := f <| before_ioctl := None |> <| after_ioctl := None |> |> else fe.
Definition give_notifier (adapter : addr) (callback : option Z) (data : Z) (fe : dvb_frontend_data) : dvb_frontend_data :=
  let f := fe_frontend fe in
  if (i2c_adapter f =? adapter) && eq_ptr (notifier_callback f) None
  then fe <| fe_frontend := f <| notifier_callback := callback |> <| notifier_data := data |> |> else fe.
Definition take_notifier (adapter : addr) (callback : option Z) (fe : dvb_frontend_data) : dvb_frontend_data :=
  let f := fe_frontend fe in
  if (i2c_adapter f =? adapter) && eq_ptr (notifier_callback f) callback
  then fe <| fe_frontend := f <| notifier_callback := None |> |> else fe.

(** [list_for_each_safe] with its [break]: the first element that satisfies [p] goes. *)
Fixpoint remove_first {A} (p : A -> bool) (l : list A) : list A :=
  match l with [] => [] | x :: l => if p x then l else x :: remove_first p l end.

Definition up_mutex (w : world) : world := w <| frontend_mutex := frontend_mutex w + 1 |>.

(** [mem]: [kmalloc] has memory. *)
Definition dvb_add_frontend_ioctls (w : world) (adapter : addr) (before after : option Z) (data : Z) (mem sig : bool)
  : outcome (world * Z) :=
  '(m, interrupted) ← down_sem (frontend_mutex w) sig;
  if (interrupted : bool) then Ret (w, - ERESTARTSYS) else
  let w := w <| frontend_mutex := m |> in
  if negb mem then Ret (up_mutex w, - ENOMEM) else
  let w := w <| frontend_ioctl_list := frontend_ioctl_list w ++ [mk_ioctl_data adapter before after data] |> in
  w ← for_each_fe (give_ioctls adapter before after data) w (frontend_list w);
  Ret (up_mutex w, 0).

(** [down]: a semaphore that is not free is waited for. *)
Definition down_mutex (w : world) : outcome world :=
  if frontend_mutex w >? 0 then Ret (w <| frontend_mutex := frontend_mutex w - 1 |>) else Hang.

Definition dvb_remove_frontend_ioctls (w : world) (adapter : addr) (before after : option Z) : outcome world :=
  w ← down_mutex w;
  w ← for_each_fe (take_ioctls adapter before after) w (frontend_list w);
  Ret (up_mutex (w <| frontend_ioctl_list := remove_first (fun i =>
         (il_adapter i =? adapter) && eq_ptr (il_before i) before && eq_ptr (il_after i) after) (frontend_ioctl_list w) |>)).

Definition dvb_add_frontend_notifier (w : world) (adapter : addr) (callback : option Z) (data : Z) (mem sig : bool)
  : outcome (world * Z) :=
  '(m, interrupted) ← down_sem (frontend_mutex w) sig;
  if (interrupted : bool) then Ret (w, - ERESTARTSYS) else
  let w := w <| frontend_mutex := m |> in
  if negb mem then Ret (up_mutex w, - ENOMEM) else
  let w := w <| frontend_notifier_list := frontend_notifier_list w ++ [mk_notifier_data adapter callback data] |> in
  w ← for_each_fe (give_notifier adapter callback data) w (frontend_list w);
  Ret (up_mutex w, 0).

Definition dvb_remove_frontend_notifier (w : world) (adapter : addr) (callback : option Z) : outcome world :=
  w ← down_mutex w;
  w ← for_each_fe (take_notifier adapter callback) w (frontend_list w);
  Ret (up_mutex (w <| frontend_notifier_list := remove_first (fun i =>
         (no_adapter i =? adapter) && eq_ptr (no_callback i) callback) (frontend_notifier_list w) |>)).

Definition zero_parameters : parameters := mk_parameters 0 0 (replicate 7 0).
Definition new_events : dvb_fe_events :=
  mk_fe_events (replicate (Z.to_nat MAX_EVENT) (mk_fe_event 0 zero_parameters)) 0 0 false 1.

Definition dvbdev_template (fops : Z) : dvb_device := mk_device (Some fops) 0 0 0 (-2) 1 (-1) true None.

(** [mem], [dev_mem]: what [kmalloc] returns for the frontend and for its device;
    [fops]: [&dvb_frontend_fops].  The result of [dvb_register_device] is not looked at. *)
Definition dvb_register_frontend (w : world) (ioctl bus : Z) (adapter : addr) (info : dvb_frontend_info) (fops : Z)
    (mem : option addr) (sig : bool) (dev_mem : option addr) (dev_sig : bool) : outcome (world * Z) :=
  '(m, interrupted) ← down_sem (frontend_mutex w) sig;
  if (interrupted : bool) then Ret (w, - ERESTARTSYS) else
  let w := w <| frontend_mutex := m |> in
  match mem with
  | None => Ret (up_mutex w, - ENOMEM)
  | Some n =>
    let f := mk_frontend None ioctl None None bus adapter 0 0 in
    let f := match list_find (fun i => il_adapter i = adapter) (frontend_ioctl_list w) with
             | Some (_, i) => f <| before_ioctl := il_before i |> <| after_ioctl := il_after i |> <| before_after_data := il_data i |>
             | None => f
             end in
    let f := match list_find (fun i => no_adapter i = adapter) (frontend_notifier_list w) with
             | Some (_, i) => f <| notifier_callback := no_callback i |> <| notifier_data := no_data i |>
             | None => f
             end in
    '(r, dev, _) ← dvb_register_device (reg w) adapter None (dvbdev_template fops) (Some n) DVB_DEVICE_FRONTEND dev_mem dev_sig;
    let fe := mk_fe info f dev zero_parameters new_events 1 0 0 0 0 0 0 0 false 0 in
    Ret (up_mutex (put_fe (w <| frontend_list := frontend_list w ++ [n] |> <| reg := r |>) n fe), 0)
  end.

(** [list_for_each_safe]: the first frontend with this driver and bus. *)
Fixpoint find_frontend (w : world) (ioctl bus : Z) (l : list addr) : outcome (option addr) :=
  match l with
  | [] => Ret None
  | n :: l =>
    fe ← the_fe w n;
    if (fe_ioctl (fe_frontend fe) =? ioctl) && (i2c (fe_frontend fe) =? bus) then Ret (Some n)
    else find_frontend w ioctl bus l
  end.

(** [sleep], [alive]: see [dvb_frontend_stop]. *)
Definition dvb_unregister_frontend (sleep : world -> outcome world) (w : world) (ioctl bus : Z) (alive : bool)
  : outcome (world * Z) :=
  w ← down_mutex w;
  found ← find_frontend w ioctl bus (frontend_list w);
  match found with
  | None => Ret (up_mutex w, - EINVAL)
  | Some n =>
    fe ← the_fe w n;
    r ← dvb_unregister_device (reg w) (fe_dvbdev fe);
    let w := up_mutex (w <| reg := r |> <| frontend_list := base.filter (fun m => m <> n) (frontend_list w) |>) in
    w ← dvb_frontend_stop sleep w n alive;
    Ret (w <| frontends := delete n (frontends w) |>, 0)
  end.

(** ** The queue of events *)
Definition no_event : fe_event := mk_fe_event 0 zero_parameters.

Fixpoint queue_from (n : nat) (a : list fe_event) (r : Z) : list fe_event :=
  match n with O => [] | S n => nth (Z.to_nat r) a no_event :: queue_from n a (Z.rem (r + 1) MAX_EVENT) end.

(** The events that wait, the oldest first. *)
Definition queue (ev : dvb_fe_events) : list fe_event :=
  queue_from (Z.to_nat ((eventw ev - eventr ev) mod MAX_EVENT)) (events_array ev) (eventr ev).

Record events_ok (ev : dvb_fe_events) : Prop := {
  eo_array : length (events_array ev) = 8%nat;
  eo_w : 0 <= eventw ev < 8;
  eo_r : 0 <= eventr ev < 8;
  eo_sem : events_sem ev = 1
}.

(** One more event; the oldest goes if the queue is full. *)
Definition push_event (ev : dvb_fe_events) (e : fe_event) : dvb_fe_events :=
  let wp := Z.rem (eventw ev + 1) MAX_EVENT in
  let over := wp =? eventr ev in
  mk_fe_events (<[Z.to_nat (eventw ev) := e]> (events_array ev)) wp
    (if over then Z.rem (eventr ev + 1) MAX_EVENT else eventr ev) (fe_overflow ev || over) (events_sem ev).

Definition pop_event (ev : dvb_fe_events) : dvb_fe_events := ev <| eventr := Z.rem (eventr ev + 1) MAX_EVENT |>.

(** The contract: at most seven events wait, and a flag tells that some were lost. *)
Definition spec_push (q : list fe_event * bool) (e : fe_event) : list fe_event * bool :=
  if (length (fst q) =? 7)%nat then (tail (fst q) ++ [e], true) else (fst q ++ [e], snd q).

Ltac positions ev :=
  match goal with H : events_ok ev |- _ => destruct H as [Ha Hw Hr Hs] end;
  destruct ev as [a w r o m]; cbn [events_array eventw eventr fe_overflow events_sem] in *;
  destruct a as [|e0 [|e1 [|e2 [|e3 [|e4 [|e5 [|e6 [|e7 [|? ?]]]]]]]]]; try discriminate;
  let Hw' := fresh in let Hr' := fresh in
  assert (Hw' : w = 0 \/ w = 1 \/ w = 2 \/ w = 3 \/ w = 4 \/ w = 5 \/ w = 6 \/ w = 7) by lia;
  assert (Hr' : r = 0 \/ r = 1 \/ r = 2 \/ r = 3 \/ r = 4 \/ r = 5 \/ r = 6 \/ r = 7) by lia;
  destruct Hw' as [->|[->|[->|[->|[->|[->|[->| ->]]]]]]]; destruct Hr' as [->|[->|[->|[->|[->|[->|[->| ->]]]]]]].

Lemma push_event_ok ev e : events_ok ev -> events_ok (push_event ev e) /\
  (queue (push_event ev e), fe_overflow (push_event ev e)) = spec_push (queue ev, fe_overflow ev) e.
Proof.
  intros H. split.
  - destruct H as [Ha Hw Hr Hs]. unfold push_event, MAX_EVENT. constructor; cbn.
    + by rewrite length_insert.
    + rewrite Z.rem_mod_nonneg by lia. apply Z.mod_pos_bound. lia.
    + case_match; [|done]. rewrite Z.rem_mod_nonneg by lia. apply Z.mod_pos_bound. lia.
    + done.
  - positions ev; cbn; rewrite ?orb_false_r, ?orb_true_r; reflexivity.
Qed.

Lemma queue_empty ev : events_ok ev -> (eventw ev =? eventr ev) = (match queue ev with [] => true | _ => false end).
Proof. intros H. by positions ev. Qed.

Lemma pop_event_ok ev e q : events_ok ev -> queue ev = e :: q ->
  events_ok (pop_event ev) /\ queue (pop_event ev) = q /\ events_array ev !! Z.to_nat (eventr ev) = Some e.
Proof.
  intros H Hq. split.
  - destruct H as [Ha Hw Hr Hs]. unfold pop_event, MAX_EVENT. constructor; cbn; try done.
    rewrite Z.rem_mod_nonneg by lia. apply Z.mod_pos_bound. lia.
  - revert Hq. positions ev; cbn; intros [=]; subst; done.
Qed.

(** ** One frontend changes *)

(** The world with frontend [n] and the hardware changed. *)
Definition upd (w : world) (n : addr) (fe : dvb_frontend_data) (h : hardware) : world := (put_fe w n fe) <| hw := h |>.

Lemma the_fe_ok w n fe : frontends w !! n = Some fe -> the_fe w n = Ret fe.
Proof. intros H. unfold the_fe. by rewrite H. Qed.

Lemma the_fe_upd w n fe h : the_fe (upd w n fe h) n = Ret fe.
Proof. unfold the_fe. cbn. by rewrite lookup_insert_eq. Qed.

Lemma put_upd w n fe h fe' : put_fe (upd w n fe h) n fe' = upd w n fe' h.
Proof. unfold upd, put_fe, set. cbn. by rewrite insert_insert_eq. Qed.

Lemma put_put w n fe fe' : put_fe (put_fe w n fe) n fe' = put_fe w n fe'.
Proof. unfold put_fe, set. cbn. by rewrite insert_insert_eq. Qed.

Lemma hw_upd w n fe h h' : (upd w n fe h) <| hw := h' |> = upd w n fe h'.
Proof. done. Qed.

Lemma upd_put w n fe fe' h : upd (put_fe w n fe) n fe' h = upd w n fe' h.
Proof. unfold upd. by rewrite put_put. Qed.

Lemma upd_upd w n fe h fe' h' : upd (upd w n fe h) n fe' h' = upd w n fe' h'.
Proof. unfold upd, put_fe, set. cbn. by rewrite insert_insert_eq. Qed.

Lemma upd_same w n fe : frontends w !! n = Some fe -> upd w n fe (hw w) = w.
Proof. intros H. destruct w. unfold upd, put_fe, set. cbn in *. by rewrite insert_id. Qed.

Lemma lookup_upd w n fe h : frontends (upd w n fe h) !! n = Some fe.
Proof. cbn. apply lookup_insert_eq. Qed.

(** The frontend after [dvb_call_frontend_notifiers]. *)
Definition told (now : Z) (fe : dvb_frontend_data) (s : Z) : dvb_frontend_data :=
  (if flag (fe_status fe) FE_HAS_LOCK && negb (flag s FE_HAS_LOCK) then fe <| lost_sync_jiffies := now |> else fe) <| fe_status := s |>.

(** The hardware after it: the notifier is told unless the frontend mutes its stream itself. *)
Definition heard (fe : dvb_frontend_data) (h : hardware) (s : Z) : hardware :=
  if negb (flag s FE_HAS_LOCK) && flag (fi_caps (fe_info fe)) FE_CAN_MUTE_TS then h
  else match notifier_callback (fe_frontend fe) with Some c => notify c h s | None => h end.

Lemma call_notifiers_ok now w n fe s : frontends w !! n = Some fe ->
  dvb_call_frontend_notifiers now w n s = Ret (upd w n (told now fe s) (heard fe (hw w) s)).
Proof.
  intros Hn. unfold dvb_call_frontend_notifiers. rewrite (the_fe_ok w n fe) by done. next. cbv zeta. fold (told now fe s).
  assert (fe_info (told now fe s) = fe_info fe) as -> by (unfold told; by case_match).
  assert (fe_frontend (told now fe s) = fe_frontend fe) as -> by (unfold told; by case_match).
  unfold heard. destruct (negb _ && _); [done|]. by destruct (notifier_callback _).
Qed.

(** What the driver answers to [FE_GET_FRONTEND]. *)
Definition asked_parameters (fe : dvb_frontend_data) (h : hardware) : parameters :=
  match snd (dvb_frontend_internal_ioctl (fe_frontend fe) h FE_GET_FRONTEND (ArgParameters (fe_parameters fe))) with
  | ArgParameters p => p | _ => fe_parameters fe end.

(** The hardware once it was asked, which is done if there is a lock. *)
Definition asked (fe : dvb_frontend_data) (h : hardware) (s : Z) : hardware :=
  if flag s FE_HAS_LOCK
  then fst (fst (dvb_frontend_internal_ioctl (fe_frontend fe) h FE_GET_FRONTEND (ArgParameters (fe_parameters fe)))) else h.

(** The event that [dvb_frontend_add_event] stores. *)
Definition event_of (fe : dvb_frontend_data) (h : hardware) (s : Z) : fe_event :=
  mk_fe_event s (if flag s FE_HAS_LOCK then asked_parameters fe h else fe_parameters fe).

Lemma down_free sem sig : 0 < sem -> down_sem sem sig = Ret (sem - 1, false).
Proof. intros H. unfold down_sem. by replace (sem >? 0) with true by lia. Qed.

(** The queue between the two parts of [dvb_frontend_add_event]: the event has the
    status that was in its place. *)
Definition stored (ev : dvb_fe_events) (p : parameters) : dvb_fe_events :=
  push_event ev (mk_fe_event (ev_status (nth (Z.to_nat (eventw ev)) (events_array ev) no_event)) p).

Lemma add_event_locked_ok w n fe s sig : frontends w !! n = Some fe -> events_ok (fe_events fe) ->
  add_event_locked w n s sig =
    Ret (upd w n (fe <| fe_events := stored (fe_events fe) (ev_parameters (event_of fe (hw w) s)) |>) (asked fe (hw w) s),
         Some (eventw (fe_events fe))).
Proof.
  intros Hn Hev. pose proof Hev as [Ha Hw Hr Hs]. unfold add_event_locked. rewrite (the_fe_ok w n fe) by done. next.
  rewrite down_free by lia. next. cbv zeta. set (ev := fe_events fe) in *.
  set (ev1 := if Z.rem (eventw ev + 1) MAX_EVENT =? eventr ev then _ else ev).
  assert (E1 : events_array ev1 = events_array ev /\ eventw ev1 = eventw ev /\ events_sem ev1 = events_sem ev /\
    fe_overflow ev1 = fe_overflow ev || (Z.rem (eventw ev + 1) MAX_EVENT =? eventr ev) /\
    eventr ev1 = (if Z.rem (eventw ev + 1) MAX_EVENT =? eventr ev then Z.rem (eventr ev + 1) MAX_EVENT else eventr ev)).
  { unfold ev1. destruct (_ =? _); cbn; by rewrite ?orb_true_r, ?orb_false_r. }
  destruct E1 as (A & W & S' & O & R). rewrite A, W.
  destruct (lookup_lt_is_Some_2 (events_array ev) (Z.to_nat (eventw ev))) as [old Hold]; [lia|].
  unfold deref. rewrite Hold. next.
  assert (Eold : nth (Z.to_nat (eventw ev)) (events_array ev) no_event = old) by by apply nth_lookup_Some.
  assert (Hfin : forall p, ev1 <| events_array := <[Z.to_nat (eventw ev) := old <| ev_parameters := p |>]> (events_array ev1) |>
      <| eventw := Z.rem (eventw ev + 1) MAX_EVENT |> <| events_sem := events_sem ev - 1 + 1 |> = stored ev p).
  { intros p. unfold stored, push_event. rewrite Eold. destruct ev1 as [a1 w1 r1 o1 m1].
    cbn in A, W, S', O, R. unfold set. cbn. rewrite A, R, O. f_equal. lia. }
  unfold event_of, asked. cbn [ev_parameters]. destruct (flag s FE_HAS_LOCK).
  - unfold asked_parameters. destruct (dvb_frontend_internal_ioctl _ _ FE_GET_FRONTEND _) as [[h err] arg] eqn:E. cbn [fst snd].
    unfold upd. by rewrite <- Hfin, A.
  - unfold upd. by rewrite <- Hfin, A.
Qed.

Lemma stored_status ev p s : events_ok ev ->
  <[Z.to_nat (eventw ev) := (mk_fe_event (ev_status (nth (Z.to_nat (eventw ev)) (events_array ev) no_event)) p) <| ev_status := s |>]>
    (events_array (stored ev p)) = events_array (push_event ev (mk_fe_event s p)).
Proof. intros _. unfold stored, push_event. cbn. by rewrite list_insert_insert_eq. Qed.

Lemma push_events_eq ev p s a : a = events_array (push_event ev (mk_fe_event s p)) ->
  (stored ev p) <| events_array := a |> = push_event ev (mk_fe_event s p).
Proof. intros ->. done. Qed.

(** [dvb_frontend_add_event] puts the event into the queue and tells the notifiers. *)
Lemma add_event_ok now w n fe s sig : frontends w !! n = Some fe -> events_ok (fe_events fe) ->
  dvb_frontend_add_event now w n s sig =
    Ret (upd w n (told now (fe <| fe_events := push_event (fe_events fe) (event_of fe (hw w) s) |>) s) (heard fe (asked fe (hw w) s) s)).
Proof.
  intros Hn Hev. unfold dvb_frontend_add_event. rewrite (add_event_locked_ok w n fe s sig Hn Hev). next. set (h := asked fe (hw w) s).
  pose proof Hev as [Ha Hw _ _]. set (p := ev_parameters (event_of fe (hw w) s)). set (ev := fe_events fe) in *.
  unfold add_event_status. rewrite the_fe_upd. next. cbv zeta. cbn [fe_events set].
  change (fe_events (fe <| fe_events := stored ev p |>)) with (stored ev p).
  assert (Hl : events_array (stored ev p) !! Z.to_nat (eventw ev) =
    Some (mk_fe_event (ev_status (nth (Z.to_nat (eventw ev)) (events_array ev) no_event)) p)).
  { unfold stored, push_event. cbn. rewrite list_lookup_insert_eq by lia. done. }
  unfold deref. rewrite Hl. next. rewrite put_upd. rewrite push_events_eq with (s := s) by by apply stored_status.
  pose proof (call_notifiers_ok now (upd w n (fe <| fe_events := stored ev p |> <| fe_events := push_event ev (mk_fe_event s p) |>) h) n
    (fe <| fe_events := push_event ev (mk_fe_event s p) |>) s (lookup_upd _ _ _ _)) as E.
  rewrite upd_upd in E. exact E.
Qed.

Lemma told_events now fe s : fe_events (told now fe s) = fe_events fe.
Proof. unfold told. by case_match. Qed.
Lemma told_status now fe s : fe_status (told now fe s) = s.
Proof. done. Qed.

(** Taking an event when none is lost and one waits, or failing at once. *)
Lemma get_event_ok sleep w n fe sig1 sig2 : frontends w !! n = Some fe -> events_ok (fe_events fe) ->
  dvb_frontend_get_event sleep w n true sig1 sig2 =
    if fe_overflow (fe_events fe)
    then Ret (put_fe w n (fe <| fe_events := (fe_events fe) <| fe_overflow := false |> |>), None, - EOVERFLOW)
    else match queue (fe_events fe) with
         | [] => Ret (w, None, - EWOULDBLOCK)
         | e :: _ => Ret (put_fe w n (fe <| fe_events := pop_event (fe_events fe) |>), Some e, 0)
         end.
Proof.
  intros Hn Hev. unfold dvb_frontend_get_event. rewrite (the_fe_ok w n fe) by done. next. cbv zeta.
  destruct (fe_overflow (fe_events fe)); [done|]. rewrite queue_empty by done.
  destruct (queue (fe_events fe)) as [|e q] eqn:Eq; [done|].
  destruct (pop_event_ok _ e q Hev Eq) as (_ & _ & Hl). pose proof (eo_sem _ Hev) as Hs.
  unfold take_event. rewrite (the_fe_ok w n fe) by done. next. rewrite down_free by lia. next. unfold deref. rewrite Hl. next.
  do 4 f_equal. unfold pop_event. destruct (fe_events fe) as [a w0 r o m]. cbn in *. unfold set. cbn. by rewrite Hs.
Qed.

(** ** The queue as its clients see it *)
Inductive queue_op : Type := OpAdd (s : Z) | OpGet.

(** The result of an operation: nothing, or what [dvb_frontend_get_event] gives. *)
Fixpoint queue_run (now : Z) (sleep : world -> outcome (world * Z)) (w : world) (n : addr) (ops : list queue_op)
  : outcome (world * list (option fe_event * Z)) :=
  match ops with
  | [] => Ret (w, [])
  | OpAdd s :: ops => w ← dvb_frontend_add_event now w n s false; queue_run now sleep w n ops
  | OpGet :: ops =>
    '(w, e, r) ← dvb_frontend_get_event sleep w n true false false;
    '(w, rs) ← queue_run now sleep w n ops;
    Ret (w, (e, r) :: rs)
  end.

(** The contract of a queue of at most seven events: [es], the events that the
    additions store. *)
Fixpoint spec_run (q : list fe_event * bool) (ops : list queue_op) (es : list fe_event)
  : (list fe_event * bool) * list (option fe_event * Z) :=
  match ops, es with
  | OpAdd _ :: ops, e :: es => spec_run (spec_push q e) ops es
  | OpGet :: ops, es =>
    if snd q then let '(q', rs) := spec_run (fst q, false) ops es in (q', (None, - EOVERFLOW) :: rs)
    else match fst q with
         | [] => let '(q', rs) := spec_run q ops es in (q', (None, - EWOULDBLOCK) :: rs)
         | e :: r => let '(q', rs) := spec_run (r, false) ops es in (q', (Some e, 0) :: rs)
         end
  | _, _ => (q, [])
  end.

Definition added (ops : list queue_op) : list Z := omap (fun o => match o with OpAdd s => Some s | OpGet => None end) ops.

(** C15: The events of a frontend are a queue of seven places: whatever is added by
    [dvb_frontend_add_event] and taken by [dvb_frontend_get_event], the readers get the
    events in the order in which they were added, each with the status that was
    reported; when an eighth event comes the oldest is dropped and the next read
    tells so with [-EOVERFLOW]; an empty queue gives [-EWOULDBLOCK]. *)
Theorem fe_events_is_fifo now sleep n ops : forall w fe, frontends w !! n = Some fe -> events_ok (fe_events fe) ->
  exists w' fe' rs es, queue_run now sleep w n ops = Ret (w', rs) /\ frontends w' !! n = Some fe' /\ events_ok (fe_events fe') /\
    ev_status <$> es = added ops /\
    spec_run (queue (fe_events fe), fe_overflow (fe_events fe)) ops es = ((queue (fe_events fe'), fe_overflow (fe_events fe')), rs).
Proof.
  induction ops as [|[s|] ops IH]; intros w fe Hn Hev; cbn [queue_run].
  - exists w, fe, [], []. by split_and!.
  - rewrite (add_event_ok now w n fe s false Hn Hev). next. set (e := event_of fe (hw w) s). set (h := heard _ _ _).
    set (fe1 := told now _ s). destruct (push_event_ok (fe_events fe) e Hev) as [H1 H2].
    assert (E1 : fe_events fe1 = push_event (fe_events fe) e) by apply told_events.
    destruct (IH (upd w n fe1 h) fe1) as (w' & fe' & rs & es & E & Hn' & Hev' & Es & Er); [apply lookup_upd|by rewrite E1|].
    exists w', fe', rs, (e :: es). split_and!; [done|done|done|by cbn; rewrite Es|]. cbn [spec_run]. by rewrite <- H2, <- E1.
  - rewrite (get_event_ok sleep w n fe) by done. cbn [added omap list_omap spec_run snd fst].
    destruct (fe_overflow (fe_events fe)) eqn:Eo.
    + next. set (ev1 := (fe_events fe) <| fe_overflow := false |>).
      destruct (IH (put_fe w n (fe <| fe_events := ev1 |>)) (fe <| fe_events := ev1 |>)) as (w' & fe' & rs & es & -> & Hn' & Hev' & Es & Er);
        [cbn; apply lookup_insert_eq|by destruct Hev|]. next.
      exists w', fe', ((None, - EOVERFLOW) :: rs), es. split_and!; [done|done|done|done|].
      change (queue (fe_events (fe <| fe_events := ev1 |>))) with (queue (fe_events fe)) in Er. cbn in Er. by rewrite Er.
    + destruct (queue (fe_events fe)) as [|e q] eqn:Eq.
      * next. destruct (IH w fe) as (w' & fe' & rs & es & -> & Hn' & Hev' & Es & Er); [done|done|]. next.
        exists w', fe', ((None, - EWOULDBLOCK) :: rs), es. split_and!; [done|done|done|done|]. rewrite Eq, Eo in Er. by rewrite Er.
      * next. destruct (pop_event_ok _ e q Hev Eq) as (Hp & Hq & _).
        destruct (IH (put_fe w n (fe <| fe_events := pop_event (fe_events fe) |>)) (fe <| fe_events := pop_event (fe_events fe) |>))
          as (w' & fe' & rs & es & -> & Hn' & Hev' & Es & Er); [cbn; apply lookup_insert_eq|done|]. next.
        exists w', fe', ((Some e, 0) :: rs), es. split_and!; [done|done|done|done|].
        change (queue (fe_events (fe <| fe_events := pop_event (fe_events fe) |>))) with (queue (pop_event (fe_events fe))) in Er.
        change (fe_overflow (fe_events (fe <| fe_events := pop_event (fe_events fe) |>))) with (fe_overflow (fe_events fe)) in Er.
        rewrite Hq, Eo in Er. by rewrite Er.
Qed.

Lemma queue_push_empty ev e : events_ok ev -> queue ev = [] -> queue (push_event ev e) = [e].
Proof.
  intros Hev Hq. destruct (push_event_ok ev e Hev) as [_ H]. unfold spec_push in H. cbn [fst snd] in H. rewrite Hq in H.
  by injection H.
Qed.

(** The status of a new event is stored after the semaphore of the queue was given
    back: a reader that comes in between gets the event with the status that an older
    event in the same place had, whatever the new status is. *)
Theorem event_read_before_status w n fe s : frontends w !! n = Some fe -> events_ok (fe_events fe) ->
  queue (fe_events fe) = [] ->
  exists w1 k w2 e, add_event_locked w n s false = Ret (w1, Some k) /\ take_event w1 n false = Ret (w2, Some e, 0) /\
    ev_status e = ev_status (nth (Z.to_nat (eventw (fe_events fe))) (events_array (fe_events fe)) no_event).
Proof.
  intros Hn Hev Hq. pose proof (add_event_locked_ok w n fe s false Hn Hev) as E.
  set (e := mk_fe_event (ev_status (nth (Z.to_nat (eventw (fe_events fe))) (events_array (fe_events fe)) no_event))
    (ev_parameters (event_of fe (hw w) s))).
  assert (Est : stored (fe_events fe) (ev_parameters (event_of fe (hw w) s)) = push_event (fe_events fe) e) by done.
  destruct (push_event_ok (fe_events fe) e Hev) as [Hok _]. pose proof (queue_push_empty _ e Hev Hq) as Hq1.
  destruct (pop_event_ok _ e [] Hok Hq1) as (_ & _ & Hl). rewrite Est in E.
  eexists _, _, _, e. split; [exact E|]. split; [|done].
  unfold take_event. rewrite the_fe_upd. next. cbv zeta. cbn [fe_events set].
  change (fe_events (fe <| fe_events := push_event (fe_events fe) e |>)) with (push_event (fe_events fe) e).
  rewrite down_free by (rewrite (eo_sem _ Hok); lia). next. unfold deref. rewrite Hl. next. reflexivity.
Qed.

(** ** The delay of the thread *)

(** The quality stays between 0 and 256 and the delay between a twentieth of a second
    and a second more; 256 and 0, where a lasting lock and a lasting loss lead, are
    fixed points with the longest delay. *)
Theorem update_delay_bounds quality locked : 0 < HZ -> 0 <= quality <= 256 ->
  let '(q, d) := update_delay quality locked in
  0 <= q <= 256 /\ (if locked then quality <= q else q <= quality) /\ Z.quot HZ 20 <= d <= Z.quot HZ 20 + HZ /\
  update_delay 256 true = (256, Z.quot HZ 20 + HZ) /\ update_delay 0 false = (0, Z.quot HZ 20 + HZ).
Proof using HZ.
  clear call notify hardware.
  intros Hhz Hq. unfold update_delay. set (q := if locked then _ else _).
  assert (Hq' : 0 <= q <= 256 /\ (if locked then quality <= q else q <= quality)).
  { unfold q. destruct locked; rewrite Z.quot_div_nonneg by lia; Z.div_mod_to_equations; lia. }
  clearbody q. destruct Hq' as [H1 H2]. cbv zeta. split; [done|]. split; [done|].
  assert (Hsq : 0 <= (q - 128) * (q - 128) <= 128 * 128).
  { pose proof (Z.square_nonneg (q - 128)). pose proof (Z.mul_nonneg_nonneg (256 - q) q ltac:(lia) ltac:(lia)). lia. }
  set (r := (q - 128) * (q - 128)) in *.
  split.
  - assert (0 <= Z.quot (r * HZ) (128 * 128) <= HZ); [|lia].
    rewrite Z.quot_div_nonneg by nia. split; [apply Z.div_pos; nia|].
    apply Z.div_le_upper_bound; [lia|]. nia.
  - change (Z.quot (256 * 220 + 36 * 256) 256) with 256. change (Z.quot (0 * 220 + 0) 256) with 0.
    change ((256 - 128) * (256 - 128)) with 16384. change ((0 - 128) * (0 - 128)) with 16384.
    change (128 * 128) with 16384. rewrite Z.mul_comm, Z.quot_mul by lia. done.
Qed.

(** ** The zigzag scan *)

(** The drift after [k] losses from a drift of 0. *)
Fixpoint drift_after (stepsize : Z) (k : nat) : Z :=
  match k with O => 0 | S k => next_drift (Z.of_nat (S k)) stepsize (drift_after stepsize k) end.

Definition zigzag (k stepsize : Z) : Z := if Z.odd k then (k + 1) / 2 * stepsize else - (k / 2) * stepsize.

Lemma next_zigzag j stepsize : 0 < j < 32 -> next_drift j stepsize (zigzag (j - 1) stepsize) = zigzag j stepsize.
Proof using.
  clear call notify hardware.
  intros Hj. unfold next_drift, zigzag. rewrite !Z.rem_mod_nonneg by lia. rewrite Z.mod_small by lia.
  replace (j =? 0) with false by lia. rewrite Zmod_odd, Z.odd_sub. cbn [Z.odd xorb].
  pose proof (Zmod_odd j) as Ho. pose proof (Z.div_mod j 2 ltac:(lia)) as Hd. destruct (Z.odd j); cbn [xorb negb Z.eqb].
  - replace ((j - 1) / 2) with (j / 2) by (Z.div_mod_to_equations; lia).
    replace ((j + 1) / 2) with (j / 2 + 1) by (Z.div_mod_to_equations; lia). lia.
  - replace (j - 1 + 1) with j by lia. lia.
Qed.

Lemma drift_zigzag stepsize k : (k < 32)%nat -> drift_after stepsize k = zigzag (Z.of_nat k) stepsize.
Proof using.
  clear call notify hardware.
  induction k as [|k IH]; intros Hk; [done|]. cbn [drift_after]. rewrite IH by lia.
  rewrite <- (next_zigzag (Z.of_nat (S k))) by lia. do 2 f_equal. lia.
Qed.

(** C18: The zigzag scan covers the neighbourhood of the frequency: in 32 losses that follow
    each other the drift takes each of the values from -15 to 16 steps exactly once,
    nearer ones before farther ones, and then starts again with 0 (for a positive step). *)
Theorem zigzag_covers stepsize : 0 < stepsize ->
  (forall i, -15 <= i <= 16 -> exists k, (k < 32)%nat /\ drift_after stepsize k = i * stepsize) /\
  (forall k k', (k < 32)%nat -> (k' < 32)%nat -> drift_after stepsize k = drift_after stepsize k' -> k = k') /\
  (forall k k', (k <= k' < 32)%nat -> Z.abs (drift_after stepsize k) <= Z.abs (drift_after stepsize k')) /\
  drift_after stepsize 32 = 0.
Proof using.
  clear call notify hardware.
  intros Hs.
  assert (Hz : forall k, (k < 32)%nat -> exists i, drift_after stepsize k = i * stepsize /\
    Z.of_nat k = if i >? 0 then 2 * i - 1 else - 2 * i).
  { intros k Hk. rewrite drift_zigzag by done. unfold zigzag. pose proof (Zmod_odd (Z.of_nat k)) as Ho.
    destruct (Z.odd (Z.of_nat k)); eexists; (split; [reflexivity|]); case_match; Z.div_mod_to_equations; lia. }
  split; [|split; [|split]].
  - intros i Hi. exists (Z.to_nat (if i >? 0 then 2 * i - 1 else - 2 * i)).
    assert (Hk : (Z.to_nat (if i >? 0 then 2 * i - 1 else - 2 * i) < 32)%nat) by (case_match; lia). split; [done|].
    destruct (Hz _ Hk) as (i' & -> & E). f_equal. rewrite Z2Nat.id in E by (case_match; lia).
    destruct (Z.gtb_spec i 0), (Z.gtb_spec i' 0); lia.
  - intros k k' Hk Hk' E. destruct (Hz k Hk) as (i & Ei & Ki), (Hz k' Hk') as (i' & Ei' & Ki').
    assert (i = i') as -> by nia. lia.
  - intros k k' Hk. destruct (Hz k ltac:(lia)) as (i & -> & Ki), (Hz k' ltac:(lia)) as (i' & -> & Ki').
    rewrite !Z.abs_mul. apply Z.mul_le_mono_nonneg_r; [lia|].
    destruct (Z.gtb_spec i 0), (Z.gtb_spec i' 0); lia.
  - done.
Qed.

(** ** Bending *)

(** The frontends of the list and their adapters exist. *)
Record world_ok (w : world) : Prop := {
  wo_fe : forall p, p ∈ frontend_list w -> is_Some (frontends w !! p);
  wo_adapter : forall p fe, frontends w !! p = Some fe -> is_Some (adapters (reg w) !! i2c_adapter (fe_frontend fe))
}.

Definition num_of (w : world) (fe : dvb_frontend_data) : Z :=
  default 0 (da_num <$> adapters (reg w) !! i2c_adapter (fe_frontend fe)).

(** Is there another frontend in the way, if the frequency is bent by [b]? *)
Definition in_the_way (w : world) (n : addr) (this : dvb_frontend_data) (b : Z) (p : addr) : bool :=
  match frontends w !! p with
  | Some fe => negb (p =? n) && (num_of w fe =? num_of w this) &&
      bend_conflict (this <| bending := b |>) fe (s32 (fi_frequency_stepsize (fe_info this)))
  | None => false
  end.
Definition blocked (w : world) (n : addr) (this : dvb_frontend_data) (b : Z) : bool :=
  existsb (in_the_way w n this b) (frontend_list w).

Lemma world_ok_put w n this b : world_ok w -> frontends w !! n = Some this -> world_ok (put_fe w n (this <| bending := b |>)).
Proof.
  intros [H1 H2] Hn. constructor; cbn.
  - intros p Hp. apply lookup_insert_is_Some'. right. by apply H1.
  - intros p fe [[<- <-]|[_ Hp]]%lookup_insert_Some; [exact (H2 n this Hn)|by apply (H2 p)].
Qed.

Lemma adapter_num w p fe : world_ok w -> frontends w !! p = Some fe ->
  exists a, at_adapter (reg w) (i2c_adapter (fe_frontend fe)) = Ret a /\ da_num a = num_of w fe.
Proof.
  intros Hw Hp. destruct (wo_adapter w Hw p fe Hp) as [a Ha]. exists a. unfold at_adapter, num_of. by rewrite Ha.
Qed.

Lemma bend_search_ok w n this b l : world_ok w -> frontends w !! n = Some this -> (forall p, p ∈ l -> is_Some (frontends w !! p)) ->
  bend_search (put_fe w n (this <| bending := b |>)) n (this <| bending := b |>) (num_of w this)
    (s32 (fi_frequency_stepsize (fe_info this))) l = Ret (existsb (in_the_way w n this b) l).
Proof.
  intros Hw Hn. set (v := put_fe w n (this <| bending := b |>)). assert (Hv : world_ok v) by by apply world_ok_put.
  induction l as [|p l IH]; intros Hl; cbn [bend_search existsb]; [done|].
  specialize (IH ltac:(intros q Hq; apply Hl; by right)). destruct (Hl p) as [fe Hfe]; [by left|].
  unfold in_the_way at 1. rewrite Hfe. destruct (Z.eqb_spec p n) as [->|Hpn]; cbn [negb andb orb].
  - rewrite (the_fe_ok v n (this <| bending := b |>)) by (cbn; apply lookup_insert_eq). next.
    destruct (adapter_num v n (this <| bending := b |>) Hv) as (a & -> & En); [cbn; apply lookup_insert_eq|]. next.
    by destruct (negb _).
  - assert (Hv' : frontends v !! p = Some fe) by (cbn; by rewrite lookup_insert_ne).
    rewrite (the_fe_ok v p fe) by done. next. destruct (adapter_num v p fe Hv Hv') as (a & -> & En). next. rewrite En.
    change (num_of v fe) with (num_of w fe). destruct (num_of w fe =? num_of w this); cbn [negb andb]; [|done].
    destruct (bend_conflict _ fe _); [done|]. done.
Qed.

(** One activation. *)
Lemma bend_from_step w n this b more recursive : world_ok w -> frontends w !! n = Some this ->
  s32 (fi_frequency_stepsize (fe_info this)) <> 0 ->
  bend_from (S more) recursive (put_fe w n (this <| bending := b |>)) n =
    if blocked w n this b then
      bend_from more (recursive + 1) (put_fe w n (this <| bending :=
        if negb (Z.rem recursive 2 =? 0) then b + s32 (fi_frequency_stepsize (fe_info this)) else - b |>)) n
    else Ret (put_fe w n (this <| bending := b |>)).
Proof.
  intros Hw Hn Hs. cbn [bend_from]. set (v := put_fe w n (this <| bending := b |>)).
  assert (Hv : world_ok v) by by apply world_ok_put.
  assert (Hvn : frontends v !! n = Some (this <| bending := b |>)) by (cbn; apply lookup_insert_eq).
  rewrite (the_fe_ok v n _ Hvn). next. destruct (adapter_num v n _ Hv Hvn) as (a & -> & En). next. cbv zeta.
  change (fe_info (this <| bending := b |>)) with (fe_info this). rewrite (proj2 (Z.eqb_neq _ _) Hs).
  rewrite En. change (num_of v (this <| bending := b |>)) with (num_of w this).
  change (frontend_list v) with (frontend_list w). unfold v.
  rewrite (bend_search_ok w n this b (frontend_list w) Hw Hn (wo_fe w Hw)). next. unfold blocked.
  destruct (existsb _ _); [|done]. by rewrite put_put.
Qed.

Lemma bend_from_last w n this b recursive : world_ok w -> frontends w !! n = Some this ->
  bend_from 0 recursive (put_fe w n (this <| bending := b |>)) n = Ret (put_fe w n (this <| bending := b |>)).
Proof.
  intros Hw Hn. cbn [bend_from]. set (v := put_fe w n (this <| bending := b |>)).
  assert (Hv : world_ok v) by by apply world_ok_put.
  assert (Hvn : frontends v !! n = Some (this <| bending := b |>)) by (cbn; apply lookup_insert_eq).
  rewrite (the_fe_ok v n _ Hvn). next. destruct (adapter_num v n _ Hv Hvn) as (a & -> & En). by next.
Qed.

Lemma bend_free w n this b more recursive : world_ok w -> frontends w !! n = Some this ->
  s32 (fi_frequency_stepsize (fe_info this)) <> 0 -> blocked w n this b = false ->
  bend_from (S more) recursive (put_fe w n (this <| bending := b |>)) n = Ret (put_fe w n (this <| bending := b |>)).
Proof. intros Hw Hn Hs Hb. rewrite bend_from_step by done. by rewrite Hb. Qed.

Lemma bend_even w n this b more recursive : world_ok w -> frontends w !! n = Some this ->
  s32 (fi_frequency_stepsize (fe_info this)) <> 0 -> blocked w n this b = true -> Z.rem recursive 2 = 0 ->
  bend_from (S more) recursive (put_fe w n (this <| bending := b |>)) n =
    bend_from more (recursive + 1) (put_fe w n (this <| bending := - b |>)) n.
Proof. intros Hw Hn Hs Hb Hr. rewrite bend_from_step by done. by rewrite Hb, Hr. Qed.

Lemma bend_odd w n this b more recursive : world_ok w -> frontends w !! n = Some this ->
  s32 (fi_frequency_stepsize (fe_info this)) <> 0 -> blocked w n this b = true -> Z.rem recursive 2 <> 0 ->
  bend_from (S more) recursive (put_fe w n (this <| bending := b |>)) n =
    bend_from more (recursive + 1) (put_fe w n (this <| bending := b + s32 (fi_frequency_stepsize (fe_info this)) |>)) n.
Proof. intros Hw Hn Hs Hb Hr. rewrite bend_from_step by done. rewrite Hb. by rewrite (proj2 (Z.eqb_neq _ _) Hr). Qed.

(** Four activations that find every place taken end where they began. *)
Lemma bend_cycle w n this more recursive : let s := s32 (fi_frequency_stepsize (fe_info this)) in
  world_ok w -> frontends w !! n = Some this -> s <> 0 -> recursive = 0 \/ recursive = 4 ->
  blocked w n this 0 = true -> blocked w n this s = true -> blocked w n this (- s) = true ->
  bend_from (S (S (S (S more)))) recursive (put_fe w n (this <| bending := 0 |>)) n =
    bend_from more (recursive + 4) (put_fe w n (this <| bending := 0 |>)) n.
Proof.
  intros s Hw Hn Hs Hr B0 B1 B2.
  rewrite bend_even by (done || by destruct Hr as [->| ->]). change (- 0) with 0.
  rewrite bend_odd by (done || by destruct Hr as [->| ->]). fold s. rewrite Z.add_0_l.
  rewrite bend_even by (done || by destruct Hr as [->| ->]).
  rewrite bend_odd by (done || by destruct Hr as [->| ->]). fold s. rewrite Z.add_opp_diag_l.
  f_equal. lia.
Qed.

(** The bending that is chosen: the first of 0, one step up and one step down that is
    free; one step down if none is. *)
Definition chosen (w : world) (n : addr) (this : dvb_frontend_data) : Z :=
  let s := s32 (fi_frequency_stepsize (fe_info this)) in
  if blocked w n this 0 then if blocked w n this s then - s else s else 0.

Lemma bend_ok w n this sig : world_ok w -> frontends w !! n = Some this -> 0 < frontend_mutex w ->
  s32 (fi_frequency_stepsize (fe_info this)) <> 0 ->
  dvb_bend_frequency w n sig = Ret (put_fe w n (this <| bending := chosen w n this |>)).
Proof.
  intros Hw Hn Hm Hs. unfold dvb_bend_frequency. rewrite (the_fe_ok w n this) by done. next.
  rewrite (proj2 (Z.eqb_neq _ _) Hs). rewrite down_free by done. next.
  set (v := w <| frontend_mutex := frontend_mutex w - 1 |>). assert (Hv : world_ok v) by by destruct Hw.
  assert (Hvn : frontends v !! n = Some this) by done.
  assert (Hbl : forall b, blocked v n this b = blocked w n this b) by done.
  assert (E : bend_from 11 0 (put_fe v n (this <| bending := 0 |>)) n = Ret (put_fe v n (this <| bending := chosen w n this |>))).
  { set (s := s32 (fi_frequency_stepsize (fe_info this))) in *. unfold chosen. fold s.
    destruct (blocked w n this 0) eqn:B0; [|by rewrite bend_free by (done || by rewrite Hbl)].
    destruct (blocked w n this s) eqn:B1.
    - destruct (blocked w n this (- s)) eqn:B2.
      + do 2 rewrite bend_cycle by first [by rewrite ?Hbl | by left | by right].
        rewrite bend_even, bend_odd by (done || by rewrite Hbl). fold s. rewrite Z.add_0_l.
        rewrite bend_even by (done || by rewrite Hbl). by rewrite bend_from_last.
      + rewrite bend_even, bend_odd by (done || by rewrite Hbl). fold s. rewrite Z.add_0_l.
        rewrite bend_even by (done || by rewrite Hbl). by rewrite bend_free by (done || by rewrite Hbl).
    - rewrite bend_even, bend_odd by (done || by rewrite Hbl). fold s. rewrite Z.add_0_l.
      by rewrite bend_free by (done || by rewrite Hbl). }
  rewrite E. next. f_equal. unfold v, put_fe, set. cbn. f_equal. lia.
Qed.

(** C20: [dvb_bend_frequency] takes the frontend out of the way of the others on its adapter:
    of no bending, one step up and one step down it chooses the first that no other
    active frontend is within a step of.  It never tries anything else: when all
    three are taken it ends, after its eleven activations, one step down and still in
    the way, whatever is free farther off. *)
Theorem bend_frequency_choice w n this sig : world_ok w -> frontends w !! n = Some this -> 0 < frontend_mutex w ->
  s32 (fi_frequency_stepsize (fe_info this)) <> 0 ->
  let s := s32 (fi_frequency_stepsize (fe_info this)) in
  exists b, dvb_bend_frequency w n sig = Ret (put_fe w n (this <| bending := b |>)) /\
    (blocked w n this 0 = false -> b = 0) /\
    (blocked w n this 0 = true -> blocked w n this s = false -> b = s) /\
    (blocked w n this 0 = true -> blocked w n this s = true -> b = - s).
Proof.
  intros Hw Hn Hm Hs s. exists (chosen w n this). split; [by apply bend_ok|]. unfold chosen. fold s.
  split_and!; [by intros ->|by intros -> ->|by intros -> ->].
Qed.

(** ** Setting the parameters *)

(** What the driver leaves of the parameters that it was given. *)
Definition left_of (arg : fe_arg) (p : parameters) : parameters := match arg with ArgParameters p => p | _ => p end.

(** The bending after the call, whatever the step is. *)
Definition bent (w : world) (n : addr) (this : dvb_frontend_data) : Z :=
  if s32 (fi_frequency_stepsize (fe_info this)) =? 0 then bending this else chosen w n this.

Lemma bend_any w n this sig : world_ok w -> frontends w !! n = Some this -> 0 < frontend_mutex w ->
  dvb_bend_frequency w n sig = Ret (put_fe w n (this <| bending := bent w n this |>)).
Proof.
  intros Hw Hn Hm. unfold bent. destruct (Z.eqb_spec (s32 (fi_frequency_stepsize (fe_info this))) 0) as [E|E].
  - unfold dvb_bend_frequency. rewrite (the_fe_ok w n this) by done. next. rewrite E. cbn [Z.eqb].
    f_equal. destruct w. unfold put_fe, set. cbn in *. rewrite insert_id; [done|]. rewrite Hn. by destruct this.
  - by apply bend_ok.
Qed.

Lemma u32_back f d : 0 <= f < 2 ^ 32 -> u32 (u32 (f + d) - d) = f.
Proof. intros Hf. unfold u32. rewrite Zminus_mod_idemp_l. replace (f + d - d) with f by lia. by apply Z.mod_small. Qed.

(** The parameters that go to the driver. *)
Definition sent (p : parameters) (fe : dvb_frontend_data) (b : Z) : parameters :=
  p <| fp_frequency := u32 (fp_frequency p + (lnb_drift fe + b)) |>.

(** What comes back: the drift and the bending are taken off again. *)
Definition given_back (p : parameters) (fe : dvb_frontend_data) (b : Z) : parameters :=
  p <| fp_frequency := u32 (fp_frequency p - (lnb_drift fe + b)) |>.

Lemma sent_back p fe b : 0 <= fp_frequency p < 2 ^ 32 -> given_back (sent p fe b) fe b = p.
Proof. intros Hp. destruct p as [f i u]. unfold given_back, sent, set. cbn in *. by rewrite u32_back. Qed.

(** The frontend's own parameters are set again. *)
Definition set_again (w : world) (n : addr) (fe : dvb_frontend_data) (h : hardware) : hardware * Z * fe_arg :=
  dvb_frontend_internal_ioctl (fe_frontend fe) h FE_SET_FRONTEND (ArgParameters (sent (fe_parameters fe) fe (bent w n fe))).

Definition own_after (w : world) (n : addr) (fe : dvb_frontend_data) (h : hardware) : parameters :=
  given_back (left_of (snd (set_again w n fe h)) (sent (fe_parameters fe) fe (bent w n fe))) fe (bent w n fe).

Lemma set_own now w n fe sig1 sig2 : world_ok w -> frontends w !! n = Some fe -> 0 < frontend_mutex w ->
  dvb_frontend_set_parameters now w n Own false sig1 sig2 =
    Ret (upd w n (fe <| bending := bent w n fe |> <| fe_parameters := own_after w n fe (hw w) |>) (fst (fst (set_again w n fe (hw w)))),
         Own, snd (fst (set_again w n fe (hw w)))).
Proof.
  intros Hw Hn Hm. unfold dvb_frontend_set_parameters. next. rewrite (bend_any w n fe) by done. next.
  unfold own_after. assert (Er : exists r, set_again w n fe (hw w) = r) by by eexists. destruct Er as [[[h err] arg] Er].
  rewrite Er. unfold set_again in Er. set (b := bent w n fe) in *. cbn [fst snd].
  set (fe1 := fe <| bending := b |>). rewrite (the_fe_ok _ n fe1) by (cbn; apply lookup_insert_eq). next. cbv zeta.
  cbn [read_param write_param]. change (fe_parameters fe1) with (fe_parameters fe). change (lnb_drift fe1) with (lnb_drift fe).
  change (bending fe1) with b. fold (sent (fe_parameters fe) fe b). change (fe_frontend fe1) with (fe_frontend fe). rewrite put_put.
  change (hw (put_fe w n (fe1 <| fe_parameters := sent (fe_parameters fe) fe b |>))) with (hw w). rewrite Er.
  fold (upd w n (fe1 <| fe_parameters := sent (fe_parameters fe) fe b |>) h). rewrite the_fe_upd. next. cbn [write_param].
  by rewrite put_upd.
Qed.

Lemma blocked_agree w n fe h this this' b :
  fe_parameters this = fe_parameters this' -> lnb_drift this = lnb_drift this' -> fe_info this = fe_info this' ->
  fe_frontend this = fe_frontend this' -> blocked (upd w n fe h) n this b = blocked w n this' b.
Proof.
  intros E1 E2 E3 E4. unfold blocked. change (frontend_list (upd w n fe h)) with (frontend_list w).
  induction (frontend_list w) as [|p l IH]; [done|]. cbn [existsb]. rewrite IH. f_equal. unfold in_the_way.
  assert (Hnum : num_of (upd w n fe h) this = num_of w this') by (unfold num_of; by rewrite E4).
  destruct (decide (p = n)) as [->|Hne].
  - rewrite lookup_upd, Z.eqb_refl. cbn. by destruct (frontends w !! n).
  - cbn. rewrite lookup_insert_ne by done. destruct (frontends w !! p) as [f|]; [|done].
    rewrite Hnum, E3. unfold bend_conflict. cbn. by rewrite E1, E2.
Qed.

Lemma bent_agree w n fe h this this' :
  fe_parameters this = fe_parameters this' -> lnb_drift this = lnb_drift this' -> fe_info this = fe_info this' ->
  fe_frontend this = fe_frontend this' -> bending this = bending this' -> bent (upd w n fe h) n this = bent w n this'.
Proof.
  intros E1 E2 E3 E4 E5. unfold bent, chosen. rewrite E3, E5. by rewrite !(blocked_agree w n fe h this this').
Qed.

Lemma world_ok_upd w n fe fe' h : world_ok w -> frontends w !! n = Some fe -> fe_frontend fe' = fe_frontend fe ->
  world_ok (upd w n fe' h).
Proof.
  intros [H1 H2] Hn E. constructor; cbn.
  - intros p Hp. apply lookup_insert_is_Some'. right. by apply H1.
  - intros p f [[<- <-]|[_ Hp]]%lookup_insert_Some; [rewrite E; by apply (H2 n)|by apply (H2 p)].
Qed.

(** Drift, parameters and counts at the start of a new search. *)
Definition retuned (now : Z) (fe : dvb_frontend_data) (p : parameters) : dvb_frontend_data :=
  fe <| timeout_count := 0 |> <| lost_sync_count := 0 |> <| lost_sync_jiffies := now |> <| lnb_drift := 0 |> <| fe_parameters := p |>.

(** The status [s] is reported with the parameters [p]: nothing happens if the status is
    already [s]; otherwise it becomes the status of the frontend [fe'], an event, and a call
    of the notifier. *)
Definition reported (fe fe' : dvb_frontend_data) (h h' : hardware) (s : Z) (p : parameters) : Prop :=
  let q f := (queue (fe_events f), fe_overflow (fe_events f)) in
  fe_status fe' = s /\
  if s =? fe_status fe then fe_events fe' = fe_events fe /\ h' = h
  else q fe' = spec_push (q fe) (mk_fe_event s p) /\ h' = heard fe (asked fe h s) s.

(** The beginning of a new search: "nothing" is reported unless the status is that already, or
    "timed out". *)
Lemma lost_first now w n fe sig : frontends w !! n = Some fe -> events_ok (fe_events fe) ->
  let s := if Z.ldiff (fe_status fe) FE_TIMEDOUT =? 0 then fe_status fe else 0 in
  let fe1 := fe <| timeout_count := 0 |> <| lost_sync_count := 0 |> <| lost_sync_jiffies := now |> <| lnb_drift := 0 |> in
  exists fe2 h1, (if negb (Z.ldiff (fe_status fe) FE_TIMEDOUT =? 0) then dvb_frontend_add_event now (put_fe w n fe1) n 0 sig
      else Ret (put_fe w n fe1)) = Ret (upd w n fe2 h1) /\ reported fe fe2 (hw w) h1 s (fe_parameters fe) /\
    fe_frontend fe2 = fe_frontend fe /\ fe_info fe2 = fe_info fe /\ lnb_drift fe2 = 0 /\ lost_sync_count fe2 = 0 /\
    timeout_count fe2 = 0 /\ bending fe2 = bending fe /\ lost_sync_jiffies fe2 = now.
Proof.
  intros Hn Hev s fe1. unfold reported, s. destruct (Z.eqb_spec (Z.ldiff (fe_status fe) FE_TIMEDOUT) 0) as [E|E]; cbn [negb].
  - exists fe1, (hw w). rewrite Z.eqb_refl. by split_and!.
  - assert (E0 : (0 =? fe_status fe) = false) by (apply Z.eqb_neq; intros E0; by rewrite <- E0, Z.ldiff_0_l in E).
    rewrite (add_event_ok now (put_fe w n fe1) n fe1 0 sig) by (done || (cbn; apply lookup_insert_eq)).
    set (e := event_of _ _ _). eexists _, _. split; [by rewrite upd_put|]. rewrite E0, told_events.
    destruct (push_event_ok (fe_events fe) e Hev) as [_ Eq].
    split; [split; [done|split; [exact Eq|done]]|]. unfold told. by case_match.
Qed.

(** C17: [FE_SET_FRONTEND], while the mutex of the bending is free.  First, if the status is
    anything but nothing or "timed out", "nothing" becomes the status, an event with the old
    parameters, and a call of the notifier.  Then the frontend starts a new search: it has
    the caller's parameters, no drift, no losses and no timeouts; and the driver is given
    them with the bending added to the frequency.  The bending is taken off again from
    what the driver leaves, so that the caller gets his parameters back unchanged if the
    driver does not change them. *)
Theorem set_parameters_first_trial now w n fe p sig1 sig2 : world_ok w -> frontends w !! n = Some fe ->
  0 < frontend_mutex w -> events_ok (fe_events fe) -> 0 <= fp_frequency p < 2 ^ 32 ->
  exists h1 h err arg fe' p', let b := bending fe' in let q := p <| fp_frequency := u32 (fp_frequency p + b) |> in
    dvb_frontend_set_parameters now w n (User p) true sig1 sig2 = Ret (upd w n fe' h, User p', err) /\
    dvb_frontend_internal_ioctl (fe_frontend fe) h1 FE_SET_FRONTEND (ArgParameters q) = (h, err, arg) /\
    p' = given_back (left_of arg q) fe' b /\ (left_of arg q = q -> p' = p) /\
    b = bent w n (retuned now fe p) /\ fe_parameters fe' = p /\ lnb_drift fe' = 0 /\ lost_sync_count fe' = 0 /\
    timeout_count fe' = 0 /\ lost_sync_jiffies fe' = now /\
    reported fe fe' (hw w) h1 (if Z.ldiff (fe_status fe) FE_TIMEDOUT =? 0 then fe_status fe else 0) (fe_parameters fe).
Proof.
  intros Hw Hn Hm Hev Hf.
  destruct (lost_first now w n fe sig1 Hn Hev) as (fe2 & h1 & E2 & R & F1 & F2 & F3 & F4 & F5 & F6 & F7).
  unfold dvb_frontend_set_parameters. rewrite (the_fe_ok w n fe) by done. next. cbv zeta.
  rewrite E2. next. rewrite the_fe_upd. next. next. cbn [read_param]. rewrite put_upd.
  set (fe3 := fe2 <| fe_parameters := p |>). set (v := upd w n fe3 h1).
  assert (Hv : world_ok v) by by apply (world_ok_upd w n fe). assert (Hvn : frontends v !! n = Some fe3) by apply lookup_upd.
  rewrite (bend_any v n fe3) by done. next.
  assert (Eb : bent v n fe3 = bent w n (retuned now fe p)) by by apply bent_agree.
  set (b := bent v n fe3) in *. set (fe4 := fe3 <| bending := b |>).
  rewrite (the_fe_ok _ n fe4) by (cbn; apply lookup_insert_eq). next. cbn [read_param write_param].
  change (fe_frontend fe4) with (fe_frontend fe2). change (lnb_drift fe4) with (lnb_drift fe2). change (bending fe4) with b.
  rewrite F1, F3, Z.add_0_l. set (q := p <| fp_frequency := u32 (fp_frequency p + b) |>).
  unfold v. rewrite put_upd. change (hw (upd w n fe4 h1)) with h1.
  destruct (dvb_frontend_internal_ioctl (fe_frontend fe) h1 FE_SET_FRONTEND (ArgParameters q)) as [[h err] arg] eqn:E.
  rewrite hw_upd, the_fe_upd. next. cbn [write_param].
  exists h1, h, err, arg, fe4, (given_back (left_of arg q) fe4 b). cbv zeta. change (bending fe4) with b. fold q.
  split; [by destruct arg|]. split_and!; try done. intros ->. unfold given_back. change (lnb_drift fe4) with (lnb_drift fe2).
  rewrite F3, Z.add_0_l. unfold q. destruct p as [f i u]. unfold set. cbn in *. by rewrite u32_back.
Qed.

(** ** A turn of the thread *)

(** The status that the driver reports, without the bit of the core. *)
Definition read_status (w : world) (fe : dvb_frontend_data) (l : locals) : Z :=
  Z.ldiff (match snd (dvb_frontend_internal_ioctl (fe_frontend fe) (hw w) FE_READ_STATUS (ArgStatus (l_s l))) with
           | ArgStatus s => s | _ => l_s l end) FE_TIMEDOUT.

(** Does the frontend look for the signal itself?  Does it wait before it is helped? *)
Definition recovers (fe : dvb_frontend_data) : bool := flag (fi_caps (fe_info fe)) FE_CAN_RECOVER.
Definition waits (fe : dvb_frontend_data) : bool :=
  negb (recovers fe) && negb (flag (fi_caps (fe_info fe)) FE_CAN_CLEAN_SETUP) && (lost_sync_count fe + 1 <? 10).

(** What the functions of the thread keep. *)
Record keeps_fe (fe fe' : dvb_frontend_data) : Prop := {
  kf_info : fe_info fe' = fe_info fe;
  kf_frontend : fe_frontend fe' = fe_frontend fe;
  kf_sem : fe_sem fe' = fe_sem fe;
  kf_dvbdev : fe_dvbdev fe' = fe_dvbdev fe;
  kf_events : events_ok (fe_events fe) -> events_ok (fe_events fe')
}.

#[export] Instance keeps_fe_preorder : PreOrder keeps_fe.
Proof. split; [by constructor|]. intros a b c [] []. constructor; [congruence..|auto]. Qed.

Lemma keeps_told now fe s : keeps_fe fe (told now fe s).
Proof. unfold told. by case_match; constructor. Qed.

(** The end of a turn: the status is reported if it changed. *)
Lemma report_ok now w n fe s sig h : events_ok (fe_events fe) ->
  exists fe' h', (if negb (s =? fe_status fe) then dvb_frontend_add_event now (upd w n fe h) n s sig else Ret (upd w n fe h)) = Ret (upd w n fe' h') /\
    keeps_fe fe fe' /\ reported fe fe' h h' s (ev_parameters (event_of fe h s)) /\ lost_sync_count fe' = lost_sync_count fe /\
    lnb_drift fe' = lnb_drift fe /\ timeout_count fe' = timeout_count fe /\ fe_parameters fe' = fe_parameters fe /\
    bending fe' = bending fe.
Proof.
  intros Hev. unfold reported. destruct (Z.eqb_spec s (fe_status fe)) as [->|Hne]; cbn [negb].
  - exists fe, h. by split_and!.
  - rewrite (add_event_ok now (upd w n fe h) n fe s sig (lookup_upd w n fe h) Hev), upd_upd.
    change (hw (upd w n fe h)) with h. destruct (push_event_ok (fe_events fe) (event_of fe h s) Hev) as [Hok Eq].
    set (e := push_event _ _) in *. eexists (told now (fe <| fe_events := e |>) s), _.
    assert (Hk : keeps_fe fe (fe <| fe_events := e |>)) by (by constructor).
    split; [done|]. split; [etransitivity; [exact Hk|apply keeps_told]|]. rewrite told_events.
    split; [by split_and!|]. unfold told. by case_match.
Qed.

(** The hardware, the frontend after a recovery: the drift makes its next step, and the driver is
    given the new frequency and reset. *)
Definition drifted (fe : dvb_frontend_data) : dvb_frontend_data :=
  fe <| lnb_drift := next_drift (lost_sync_count fe) (recover_stepsize fe) (lnb_drift fe) |>.
Definition recovered_hw (w : world) (n : addr) (fe : dvb_frontend_data) (h : hardware) : hardware :=
  fst (fst (dvb_frontend_internal_ioctl (fe_frontend fe) (fst (fst (set_again w n (drifted fe) h))) FE_RESET ArgNone)).
Definition recovered (w : world) (n : addr) (fe : dvb_frontend_data) (h : hardware) : dvb_frontend_data :=
  (drifted fe) <| bending := bent w n (drifted fe) |> <| fe_parameters := own_after w n (drifted fe) h |>.

Lemma recover_ok now w n fe sig1 sig2 : world_ok w -> frontends w !! n = Some fe -> 0 < frontend_mutex w ->
  dvb_frontend_recover now w n sig1 sig2 = Ret (upd w n (recovered w n fe (hw w)) (recovered_hw w n fe (hw w))).
Proof.
  intros Hw Hn Hm. unfold dvb_frontend_recover. rewrite (the_fe_ok w n fe) by done. next. cbv zeta.
  fold (drifted fe). set (fe1 := drifted fe). set (v := put_fe w n fe1).
  assert (Hv : world_ok v) by by apply (world_ok_upd w n fe fe1 (hw w)).
  rewrite (set_own now v n fe1) by (done || (cbn; apply lookup_insert_eq)). next.
  assert (Eb : bent v n fe1 = bent w n fe1) by by apply (bent_agree w n fe1 (hw w)).
  assert (Es : set_again v n fe1 (hw v) = set_again w n fe1 (hw w)) by (unfold set_again; by rewrite Eb).
  assert (Eo : own_after v n fe1 (hw v) = own_after w n fe1 (hw w)) by (unfold own_after; by rewrite Es, Eb).
  rewrite Es, Eb, Eo. rewrite the_fe_upd. next. unfold recovered, recovered_hw. fold fe1.
  change (fe_frontend (fe1 <| bending := bent w n fe1 |> <| fe_parameters := own_after w n fe1 (hw w) |>)) with (fe_frontend fe).
  change (hw (upd v n ?x ?h)) with h. destruct (dvb_frontend_internal_ioctl _ _ FE_RESET ArgNone) as [[h' err] arg].
  rewrite hw_upd. unfold v. by rewrite upd_put.
Qed.

(** A turn in which the driver reports no lock and the frontend does not wait. *)
Definition lost (now : Z) (w : world) (n : addr) (fe fe' : dvb_frontend_data) (h h' : hardware) (s : Z) : Prop :=
  let fe1 := fe <| lost_sync_count := lost_sync_count fe + 1 |> in
  let s' := if u32 (now - lost_sync_jiffies fe) >? 2 * HZ then Z.lor s FE_TIMEDOUT else s in
  lost_sync_count fe' = lost_sync_count fe + 1 /\
  if recovers fe then
    lnb_drift fe' = lnb_drift fe /\ fe_parameters fe' = fe_parameters fe /\
    reported fe fe' h h' s' (fe_parameters fe')
  else
    lnb_drift fe' = next_drift (lost_sync_count fe + 1) (recover_stepsize fe) (lnb_drift fe) /\
    bending fe' = bent w n (drifted fe1) /\
    exists h1 err arg,
      let q := sent (fe_parameters fe) fe' (bending fe') in
      dvb_frontend_internal_ioctl (fe_frontend fe) h FE_SET_FRONTEND (ArgParameters q) = (h1, err, arg) /\
      fe_parameters fe' = given_back (left_of arg q) fe' (bending fe') /\
      reported fe fe' (fst (fst (dvb_frontend_internal_ioctl (fe_frontend fe) h1 FE_RESET ArgNone))) h' s' (fe_parameters fe').

(** A turn of the thread, the semaphore held; [h]: the hardware after [FE_READ_STATUS]. *)
Definition turned (now : Z) (w : world) (n : addr) (fe fe' : dvb_frontend_data) (h h' : hardware) (s : Z) : Prop :=
  if flag s FE_HAS_LOCK then
    lost_sync_count fe' = 0 /\ timeout_count fe' = 0 /\ lnb_drift fe' = lnb_drift fe /\ fe_parameters fe' = fe_parameters fe /\
    reported fe fe' h h' s (asked_parameters fe h)
  else if waits fe then fe' = fe <| lost_sync_count := lost_sync_count fe + 1 |> /\ h' = h
  else lost now w n fe fe' h h' s.

Lemma no_lock_event fe h s : flag s FE_HAS_LOCK = false -> ev_parameters (event_of fe h s) = fe_parameters fe.
Proof. intros E. unfold event_of. by rewrite E. Qed.

(** The status with which a lost signal is reported. *)
Lemma check_timeout_ok now fe s : flag s FE_HAS_LOCK = false ->
  exists fe', check_timeout now fe s = (if u32 (now - lost_sync_jiffies fe) >? 2 * HZ then Z.lor s FE_TIMEDOUT else s, fe') /\
    keeps_fe fe fe' /\ lost_sync_count fe' = lost_sync_count fe /\ lnb_drift fe' = lnb_drift fe /\ bending fe' = bending fe /\
    fe_parameters fe' = fe_parameters fe /\ fe_status fe' = fe_status fe /\ fe_events fe' = fe_events fe /\
    flag (if u32 (now - lost_sync_jiffies fe) >? 2 * HZ then Z.lor s FE_TIMEDOUT else s) FE_HAS_LOCK = false.
Proof.
  intros Hs. unfold check_timeout. destruct (_ >? _); [|by exists fe].
  assert (flag (Z.lor s FE_TIMEDOUT) FE_HAS_LOCK = false).
  { revert Hs. unfold flag. rewrite Z.land_lor_distr_l. change (Z.land FE_TIMEDOUT FE_HAS_LOCK) with 0. by rewrite Z.lor_0_r. }
  destruct (negb (flag (fe_status fe) FE_TIMEDOUT)); eexists; split; try done; split_and!; try done; by constructor.
Qed.

Lemma lost_ok now w n fe h s sig1 sig2 sig3 : world_ok w -> frontends w !! n = Some fe -> 0 < frontend_mutex w ->
  events_ok (fe_events fe) -> flag s FE_HAS_LOCK = false ->
  let fe1 := fe <| lost_sync_count := lost_sync_count fe + 1 |> in
  exists fe2 h2, (if negb (recovers fe) then dvb_frontend_recover now (upd w n fe1 h) n sig1 sig2 else Ret (upd w n fe1 h)) =
      Ret (upd w n fe2 h2) /\
    let '(s', fe3) := check_timeout now fe2 s in
    exists fe' h', (if negb (s' =? fe_status fe3) then dvb_frontend_add_event now (upd w n fe3 h2) n s' sig3 else Ret (upd w n fe3 h2)) =
        Ret (upd w n fe' h') /\
      keeps_fe fe fe' /\ lost now w n fe fe' h h' s.
Proof.
  intros Hw Hn Hm Hev Hs fe1.
  set (fe2 := if negb (recovers fe) then recovered w n fe1 h else fe1). set (h2 := if negb (recovers fe) then recovered_hw w n fe1 h else h).
  exists fe2, h2. split.
  { unfold fe2, h2. destruct (negb (recovers fe)); [|done].
    rewrite (recover_ok now (upd w n fe1 h) n fe1) by (done || (by apply (world_ok_upd w n fe)) || apply lookup_upd).
    rewrite upd_upd. change (hw (upd w n fe1 h)) with h.
    assert (Eb : bent (upd w n fe1 h) n (drifted fe1) = bent w n (drifted fe1)) by by apply bent_agree.
    unfold recovered, recovered_hw, own_after, set_again. by rewrite Eb. }
  assert (E2 : keeps_fe fe fe2 /\ fe_events fe2 = fe_events fe /\ fe_status fe2 = fe_status fe /\
    lost_sync_jiffies fe2 = lost_sync_jiffies fe) by (unfold fe2; destruct (negb _); split_and!; (done || by constructor)).
  destruct E2 as (K2 & Ev2 & S2 & J2). destruct (check_timeout_ok now fe2 s Hs) as (fe3 & -> & K3 & C3 & D3 & B3 & P3 & S3 & Ev3 & L3).
  rewrite J2 in *. set (s' := if _ >? _ then _ else _) in *.
  destruct (report_ok now w n fe3 s' sig3 h2) as (fe' & h' & E & K & R & C & D & _ & P & B); [by rewrite Ev3, Ev2|].
  exists fe', h'. split; [exact E|]. split; [by repeat (etransitivity; [eassumption|])|].
  rewrite no_lock_event in R by done. unfold reported in R. rewrite S3, S2, Ev3, Ev2 in R.
  assert (Eh : forall h0, heard fe3 (asked fe3 h0 s') s' = heard fe (asked fe h0 s') s').
  { intros h0. unfold asked, heard. by rewrite L3, (kf_info _ _ K3), (kf_info _ _ K2), (kf_frontend _ _ K3), (kf_frontend _ _ K2). }
  rewrite Eh, <- P in R. unfold lost. fold s' fe1. unfold fe2, h2 in *. rewrite C, C3.
  destruct (recovers fe); cbn [negb] in *.
  - split; [done|]. split; [by rewrite D, D3|]. split; [by rewrite P, P3|exact R].
  - assert (Ed : lnb_drift fe' = lnb_drift (drifted fe1)) by (by rewrite D, D3).
    assert (Eb : bending fe' = bent w n (drifted fe1)) by (by rewrite B, B3).
    assert (Er : exists r, set_again w n (drifted fe1) h = r) by by eexists. destruct Er as [[[h1 err] arg] Er].
    unfold recovered_hw in R. rewrite Er in R.
    assert (Es : forall b, sent (fe_parameters fe) fe' b = sent (fe_parameters fe) (drifted fe1) b) by (intros b; unfold sent; by rewrite Ed).
    split; [done|]. split; [by rewrite Ed|]. split; [done|]. exists h1, err, arg. cbv zeta. rewrite Es, Eb.
    split; [exact Er|]. split; [|exact R]. rewrite P, P3. unfold recovered, own_after. rewrite Er.
    unfold given_back. by rewrite Ed.
Qed.

Lemma watch_ok now w n fe l sig1 sig2 sig3 : world_ok w -> frontends w !! n = Some fe ->
  0 < frontend_mutex w -> events_ok (fe_events fe) ->
  let h := fst (fst (dvb_frontend_internal_ioctl (fe_frontend fe) (hw w) FE_READ_STATUS (ArgStatus (l_s l)))) in
  exists fe' h' l', thread_watch now w n l sig1 sig2 sig3 = Ret (upd w n fe' h', l', AtTest) /\ keeps_fe fe fe' /\
    turned now w n fe fe' h h' (read_status w fe l).
Proof.
  intros Hw Hn Hm Hev h0. unfold thread_watch. rewrite (the_fe_ok w n fe) by done. next. unfold read_status, h0. clear h0.
  destruct (dvb_frontend_internal_ioctl (fe_frontend fe) (hw w) FE_READ_STATUS (ArgStatus (l_s l))) as [[h err] arg]. cbn [fst snd].
  destruct (update_delay _ _) as [q d]. cbv zeta. set (s := Z.ldiff _ FE_TIMEDOUT). clearbody s. unfold turned.
  destruct (flag s FE_HAS_LOCK) eqn:El.
  - set (fe1 := fe <| timeout_count := 0 |> <| lost_sync_count := 0 |>).
    change (put_fe (w <| hw := h |>) n fe1) with (upd w n fe1 h). change (fe_status fe) with (fe_status fe1).
    destruct (report_ok now w n fe1 s sig3 h) as (fe' & h' & -> & [K1 K2 K3 K4] & R & R2 & R3 & R4 & R5 & _); [done|]. next.
    unfold event_of in R. rewrite El in R.
    exists fe', h', (mk_locals q d s). split; [done|]. split; [by constructor|]. rewrite R2, R3, R4, R5. by split_and!.
  - set (fe1 := fe <| lost_sync_count := lost_sync_count fe + 1 |>).
    change (put_fe (w <| hw := h |>) n fe1) with (upd w n fe1 h).
    change (flag (fi_caps (fe_info fe1)) FE_CAN_RECOVER) with (recovers fe).
    change (negb (recovers fe) && negb (flag (fi_caps (fe_info fe1)) FE_CAN_CLEAN_SETUP) && (lost_sync_count fe1 <? 10)) with (waits fe).
    destruct (waits fe) eqn:Ew.
    { exists fe1, h, (mk_locals q d s). split; [done|]. split; [by constructor|done]. }
    destruct (lost_ok now w n fe h s sig1 sig2 sig3 Hw Hn Hm Hev El) as (fe2 & h2 & E0 & E). fold fe1 in E0. rewrite E0. next. rewrite the_fe_upd. next.
    destruct (check_timeout now fe2 s) as [s' fe3]. destruct E as (fe' & h' & E & K & L). rewrite put_upd, E. next.
    eexists fe', h', _. by split_and!.
Qed.

(** C16: A turn of the frontend thread with a frequency set, while the mutex of the bending is
    free.  The driver is asked for the status.  If it reports a lock, the counts of losses
    and timeouts are cleared, and the status is reported with the parameters that the
    driver answers to [FE_GET_FRONTEND].  If not, the loss is counted.  A frontend that
    neither recovers by itself nor has a clean setup is left alone for nine losses, and
    these are not reported.  Otherwise, unless the frontend recovers by itself, the drift
    makes the next step of the zigzag scan, the driver is given the frontend's own
    parameters with the new drift and the bending added to the frequency, and is reset;
    then the status is reported, with "timed out" once the lock has been away for two
    seconds.  Reporting a status that is not new does nothing; a new one becomes the
    status of the frontend, an event in the queue and a call of the notifier. *)
Theorem thread_turn now w n fe l sig1 sig2 sig3 : world_ok w -> frontends w !! n = Some fe ->
  0 < frontend_mutex w -> events_ok (fe_events fe) ->
  let h := fst (fst (dvb_frontend_internal_ioctl (fe_frontend fe) (hw w) FE_READ_STATUS (ArgStatus (l_s l)))) in
  exists fe' h' l', thread_watch now w n l sig1 sig2 sig3 = Ret (upd w n fe' h', l', AtTest) /\ keeps_fe fe fe' /\
    turned now w n fe fe' h h' (read_status w fe l).
Proof. intros. by apply watch_ok. Qed.

(** ** The semaphore of the frontend *)

(** Is the frontend closed, or its last writer gone for [dvb_shutdown_timeout] seconds? *)
Definition exiting (now : Z) (fe : dvb_frontend_data) (d : dvb_device) : bool :=
  fe_exit fe || ((dd_writers d =? 1) && (u32 (now - release_jiffies fe) >? u32 (dvb_shutdown_timeout * HZ))).

Lemma is_exiting_ok now w n fe p d : frontends w !! n = Some fe -> fe_dvbdev fe = Some p -> at_device (reg w) p = Ret d ->
  dvb_frontend_is_exiting now w n = Ret (exiting now fe d).
Proof.
  intros Hn Hp Hd. unfold dvb_frontend_is_exiting, exiting. rewrite (the_fe_ok w n fe) by done. next.
  destruct (fe_exit fe); [done|]. rewrite Hp, Hd. by next.
Qed.

Lemma thread_end_ok w n fe l : frontends w !! n = Some fe ->
  exists h, thread_end w n l = Ret (upd w n (fe <| fe_sem := fe_sem fe + 1 |> <| thread_pid := 0 |>) h, l, Gone).
Proof. intros Hn. unfold thread_end. rewrite (the_fe_ok w n fe) by done. next. by eexists. Qed.

(** C19: The semaphore of the frontend over a turn of its thread, from its sleep with the
    semaphore free: the thread comes back to its test with the semaphore held, exactly
    if no signal is pending and the frontend is not exiting (a frontend without a
    frequency, of a loss count of -1, is not asked that here), and the test frees it before
    the thread sleeps again or ends.  But a thread that a signal wakes ends with the
    semaphore at two, because it gives back what it had not taken again: from then on
    two callers are let in at a time. *)
Theorem thread_semaphore now w n fe p d l pending sig sig1 sig2 sig3 : world_ok w ->
  frontends w !! n = Some fe -> fe_dvbdev fe = Some p -> at_device (reg w) p = Ret d ->
  0 < frontend_mutex w -> events_ok (fe_events fe) -> fe_sem fe = 1 ->
  let gone := pending || (negb (lost_sync_count fe =? -1) && exiting now fe d) in
  exists fe' h' l', thread_wake now w n l pending sig sig1 sig2 sig3 = Ret (upd w n fe' h', l', (if gone then Gone else AtTest)) /\
    fe_sem fe' = (if pending then 2 else if gone then 1 else 0) /\
    (forall now' d', gone = false -> at_device (reg w) p = Ret d' ->
      exists fe2 h2, thread_test now' (upd w n fe' h') n l' =
        Ret (upd w n fe2 h2, l', (if exiting now' fe' d' then Gone else Asleep)) /\ fe_sem fe2 = 1).
Proof.
  intros Hw Hn Hp Hd Hm Hev Hs gone.
  assert (Htest : forall fe' h' l', fe_sem fe' = 0 -> forall now' d', fe_dvbdev fe' = Some p -> at_device (reg w) p = Ret d' ->
      exists fe2 h2, thread_test now' (upd w n fe' h') n l' =
        Ret (upd w n fe2 h2, l', (if exiting now' fe' d' then Gone else Asleep)) /\ fe_sem fe2 = 1).
  { intros fe' h' l' H0 now' d' Hp' Hd'. unfold thread_test.
    rewrite (is_exiting_ok now' _ n fe' p d') by (done || apply lookup_upd). next. destruct (exiting now' fe' d').
    - destruct (thread_end_ok (upd w n fe' h') n fe' l' (lookup_upd w n fe' h')) as (h & ->). rewrite upd_upd.
      eexists _, h. split; [done|]. cbn. lia.
    - rewrite the_fe_upd. next. rewrite put_upd. eexists _, h'. split; [done|]. cbn. lia. }
  unfold thread_wake. unfold gone in *. destruct pending; cbn [orb].
  { destruct (thread_end_ok w n fe l Hn) as (h & ->). eexists _, h, l. split; [done|]. split; [cbn; lia|done]. }
  rewrite (the_fe_ok w n fe) by done. next. rewrite down_free by lia. next. cbv zeta.
  set (fe1 := fe <| fe_sem := fe_sem fe - 1 |>). change (put_fe w n fe1) with (upd w n fe1 (hw w)).
  assert (H1 : fe_sem fe1 = 0) by (cbn; lia).
  destruct (lost_sync_count fe =? -1) eqn:El; cbn [negb andb].
  { exists fe1, (hw w), l. split; [done|]. split; [done|]. intros now' d' _ Hd'. by apply Htest. }
  rewrite (is_exiting_ok now _ n fe1 p d) by (done || apply lookup_upd). next.
  change (exiting now fe1 d) with (exiting now fe d). destruct (exiting now fe d).
  { destruct (thread_end_ok (upd w n fe1 (hw w)) n fe1 l (lookup_upd w n fe1 (hw w))) as (h & ->). rewrite upd_upd.
    eexists _, h, l. split; [done|]. split; [cbn; lia|done]. }
  destruct (watch_ok now (upd w n fe1 (hw w)) n fe1 l sig1 sig2 sig3) as (fe' & h' & l' & -> & K & _);
    [by apply (world_ok_upd w n fe)|apply lookup_upd|done..|].
  rewrite upd_upd. exists fe', h', l'. split; [done|]. rewrite (kf_sem _ _ K). split; [done|].
  intros now' d' _. apply Htest; by rewrite ?(kf_sem _ _ K), ?(kf_dvbdev _ _ K).
Qed.

(** ** The semaphore of the frontend and its file *)
Lemma fe_of_ok w f p d n : private_data f = Some p -> at_device (reg w) p = Ret d -> dd_priv d = Some n -> fe_of w f = Ret (Some n).
Proof. intros Hp Hd Hn. unfold fe_of, the_dev. rewrite Hp, Hd. next. by rewrite Hn. Qed.

(** The commands that only the driver knows. *)
Definition driver_cmd (cmd : fe_cmd) : bool :=
  match cmd with
  | FE_SET_FRONTEND | FE_GET_EVENT | FE_GET_FRONTEND | FE_DISEQC_SEND_MASTER_CMD | FE_DISEQC_SEND_BURST | FE_SET_TONE => false
  | _ => true
  end.

(** An ioctl that only the driver knows: the driver is called once, with the semaphore of
    the frontend held, and what it leaves of the argument is given back; its result is
    lost, the caller is told that the call succeeded whatever the driver answers. *)
Theorem driver_error_lost now sleep w f p d n fe nonblock cmd parg sig sig1 sig2 : private_data f = Some p ->
  at_device (reg w) p = Ret d -> dd_priv d = Some n -> frontends w !! n = Some fe -> fe_ioctl (fe_frontend fe) <> 0 ->
  fe_exit fe = false -> 0 < fe_sem fe -> driver_cmd cmd = true ->
  let '(h, err, arg) := dvb_frontend_internal_ioctl (fe_frontend fe) (hw w) cmd parg in
  dvb_frontend_ioctl now sleep w f nonblock cmd parg sig sig1 sig2 = Ret (w <| hw := h |>, arg, 0).
Proof.
  intros Hp Hd Hn Hfe Hi He Hs Hc. destruct (dvb_frontend_internal_ioctl _ _ _ _) as [[h err] arg] eqn:E.
  unfold dvb_frontend_ioctl. rewrite (fe_of_ok w f p d n) by done. next. rewrite (the_fe_ok w n fe) by done. next.
  replace (fe_ioctl (fe_frontend fe) =? 0) with false by lia. rewrite He. cbn [orb]. rewrite down_free by lia. next. cbv zeta.
  set (fe1 := fe <| fe_sem := fe_sem fe - 1 |>). change (put_fe w n fe1) with (upd w n fe1 (hw w)).
  assert (Hfin : forall a, (fe0 ← the_fe (upd w n fe1 h) n; Ret (put_fe (upd w n fe1 h) n (fe0 <| fe_sem := fe_sem fe0 + 1 |>), a, 0))
      = (Ret (w <| hw := h |>, a, 0) : outcome (world * fe_arg * Z))).
  { intros a. rewrite the_fe_upd. next. rewrite put_upd. do 3 f_equal. cbn.
    replace (fe1 <| fe_sem := fe_sem fe - 1 + 1 |>) with fe by (unfold fe1, set; destruct fe; cbn; f_equal; lia).
    unfold upd, put_fe, set. cbn. by rewrite insert_id. }
  destruct cmd; try discriminate; change (hw (upd w n fe1 (hw w))) with (hw w); rewrite E; next; apply Hfin.
Qed.

(** A call of [FE_GET_EVENT] that waits on an empty queue frees the semaphore of the
    frontend; if a signal ends the wait while another caller holds the semaphore, the
    call fails with [ERESTARTSYS] but still gives the semaphore back: it is free although
    its holder has not finished. *)
Theorem interrupted_wait_frees now sleep w f p d n fe parg sig sig2 h1 fe1 ret : private_data f = Some p ->
  at_device (reg w) p = Ret d -> dd_priv d = Some n -> frontends w !! n = Some fe -> fe_ioctl (fe_frontend fe) <> 0 ->
  fe_exit fe = false -> fe_sem fe = 1 -> fe_overflow (fe_events fe) = false -> events_ok (fe_events fe) -> queue (fe_events fe) = [] ->
  sleep w = Ret (upd w n fe1 h1, ret) -> fe_sem fe1 = 0 ->
  dvb_frontend_ioctl now sleep w f false FE_GET_EVENT parg sig true sig2 =
    Ret (upd w n (fe1 <| fe_sem := 1 |>) h1, parg, - ERESTARTSYS).
Proof.
  intros Hp Hd Hn Hfe Hi He Hs Ho Hev Hq Hsl H1. unfold dvb_frontend_ioctl. rewrite (fe_of_ok w f p d n) by done. next.
  rewrite (the_fe_ok w n fe) by done. next. replace (fe_ioctl (fe_frontend fe) =? 0) with false by lia. rewrite He. cbn [orb].
  rewrite down_free by lia. next. cbv zeta. set (fe0 := fe <| fe_sem := fe_sem fe - 1 |>).
  change (put_fe w n fe0) with (upd w n fe0 (hw w)). unfold dvb_frontend_get_event. rewrite the_fe_upd. next.
  change (fe_events fe0) with (fe_events fe). rewrite Ho, queue_empty, Hq by done. rewrite put_upd.
  replace (fe0 <| fe_sem := fe_sem fe0 + 1 |>) with fe by (unfold fe0, set; destruct fe; cbn; f_equal; lia).
  rewrite (upd_same w n fe) by done. rewrite Hsl. next. rewrite the_fe_upd. next. rewrite H1. cbn. rewrite the_fe_upd. next.
  by rewrite put_upd, H1.
Qed.
End Frontend.

(** ** Concrete instances *)

(** A driver whose commands fail with [EIO] and which reports status zero. *)
Definition sample_call (c : Z) (h : unit) (cmd : fe_cmd) (arg : fe_arg) : unit * Z * fe_arg := (h, -5, arg).
Definition sample_notify (c : Z) (h : unit) (s : Z) : unit := h.
Definition sample_fe (parms : parameters) : dvb_frontend_data :=
  mk_fe (mk_info FE_OFDM 62500 0 0) (mk_frontend None 1 None None 0 100 0 0) (Some 200) parms new_events 1 7 0 0 0 0 0 0 false 0.
Definition sample_parameters (f : Z) : parameters := mk_parameters f 0 (replicate 7 0).
Definition sample_device : dvb_device := frontend_template <| dd_adapter := 100 |> <| dd_type := 3 |> <| dd_priv := Some 300 |>.
Definition sample_registry : registry := mk_registry [100] {[100 := mk_adapter 0 [200] []]} {[200 := sample_device]} 1.

(** Two frontends of an adapter, tuned half a step apart. *)
Definition sample_world : world unit :=
  mk_world unit [300; 301] (<[300 := sample_fe (sample_parameters 1000000)]> {[301 := sample_fe (sample_parameters 1031250)]}) [] [] 1 tt
    sample_registry.

Lemma sample_world_ok : world_ok unit sample_world.
Proof.
  constructor.
  - intros p Hp. apply elem_of_cons in Hp as [->|Hp]; [|apply list_elem_of_singleton in Hp as ->]; eexists; reflexivity.
  - intros p fe H. cbn in H. apply lookup_insert_Some in H as [[<- <-]|[_ H%lookup_singleton_Some]]; [|destruct H as [_ <-]];
      eexists; reflexivity.
Qed.

Lemma new_events_ok : events_ok new_events.
Proof. constructor; cbn; (reflexivity || lia). Qed.

#[local] Hint Resolve sample_world_ok new_events_ok : core.

Lemma fe_events_is_fifo_witness : exists w' rs,
  queue_run unit sample_call sample_notify 0 (fun w => Ret (w, 0)) sample_world 300 [OpAdd 1; OpAdd 2; OpGet] = Ret (w', rs).
Proof.
  destruct (fe_events_is_fifo unit sample_call sample_notify 0 (fun w => Ret (w, 0)) 300 [OpAdd 1; OpAdd 2; OpGet] sample_world
    (sample_fe (sample_parameters 1000000))) as (w' & fe' & rs & es & E & _); [reflexivity|apply new_events_ok|by exists w', rs].
Defined.

Lemma event_read_before_status_witness : exists w1 k w2 e,
  add_event_locked unit sample_call sample_world 300 0x1f false = Ret (w1, Some k) /\
  take_event unit w1 300 false = Ret (w2, Some e, 0) /\ ev_status e = 0.
Proof.
  destruct (event_read_before_status unit sample_call sample_world 300 (sample_fe (sample_parameters 1000000)) 0x1f)
    as (w1 & k & w2 & e & E1 & E2 & Hs); [reflexivity|apply new_events_ok|reflexivity|].
  exists w1, k, w2, e. split; [exact E1|]. split; [exact E2|]. rewrite Hs. reflexivity.
Defined.

Lemma update_delay_bounds_witness : let '(q, d) := update_delay 100 0 true in 0 <= q <= 256 /\ 5 <= d <= 105.
Proof. pose proof (update_delay_bounds 100 0 true ltac:(lia) ltac:(lia)) as (H & _ & D & _). split; [exact H|exact D]. Defined.

Lemma zigzag_covers_witness : exists k, (k < 32)%nat /\ drift_after 125000 k = - 15 * 125000.
Proof. destruct (zigzag_covers 125000 ltac:(lia)) as (H & _). apply H. lia. Defined.

(** The other frontend is in the way of no bending and of a step up. *)
Lemma bend_frequency_choice_witness : exists w b, dvb_bend_frequency unit sample_world 300 false = Ret w /\
  b = -62500 /\ w = put_fe unit sample_world 300 ((sample_fe (sample_parameters 1000000)) <| bending := b |>).
Proof.
  destruct (bend_frequency_choice unit sample_world 300 (sample_fe (sample_parameters 1000000)) false) as (b & E & _ & _ & H);
    [apply sample_world_ok|reflexivity|reflexivity|discriminate|].
  eexists _, b. split; [exact E|]. split; [apply H; vm_compute; reflexivity|reflexivity].
Defined.

(** A driver that writes down what it is asked, and a notifier that does the same. *)
Inductive entry : Type := Asked (cmd : fe_cmd) (arg : fe_arg) | Heard (s : Z).
Definition log_call (c : Z) (h : list entry) (cmd : fe_cmd) (arg : fe_arg) : list entry * Z * fe_arg := (h ++ [Asked cmd arg], 0, arg).
Definition log_notify (c : Z) (h : list entry) (s : Z) : list entry := h ++ [Heard s].

(** A frontend that lost its signal ten turns ago, alone on its adapter. *)
Definition lost_fe : dvb_frontend_data :=
  (sample_fe (sample_parameters 1000000)) <| lost_sync_count := 9 |> <| lnb_drift := 250000 |> <| fe_status := 0x1f |>
    <| fe_frontend := mk_frontend None 1 None (Some 2) 0 100 0 0 |>.
Definition log_world : world (list entry) := mk_world (list entry) [300] {[300 := lost_fe]} [] [] 1 [] sample_registry.

Lemma log_world_ok : world_ok (list entry) log_world.
Proof.
  constructor.
  - intros p ->%list_elem_of_singleton. by eexists.
  - intros p fe H. cbn in H. apply lookup_singleton_Some in H as [_ <-]. by eexists.
Qed.

(** The loss is reported with the old parameters, then the driver is given the new ones. *)
Lemma set_parameters_first_trial_witness : exists w h fe',
  dvb_frontend_set_parameters (list entry) log_call log_notify 5 log_world 300 (User (sample_parameters 2000000)) true false false =
    Ret (w, User (sample_parameters 2000000), 0) /\ w = upd (list entry) log_world 300 fe' h /\
  h = [Heard 0; Asked FE_SET_FRONTEND (ArgParameters (sample_parameters 2000000))] /\
  queue (fe_events fe') = [mk_fe_event 0 (sample_parameters 1000000)].
Proof.
  destruct (set_parameters_first_trial (list entry) log_call log_notify 5 log_world 300 lost_fe
    (sample_parameters 2000000) false false) as (h1 & h & err & arg & fe' & p' & E & Ec & Ep & Ek & Eb & _ & _ & _ & _ & _ & _ & R);
    [apply log_world_ok|reflexivity|reflexivity|apply new_events_ok|cbn; lia|].
  destruct R as [Rq Rh]. injection Rq as Rq _.
  assert (Eb0 : bending fe' = 0) by (rewrite Eb; vm_compute; reflexivity).
  rewrite Eb0, Rh in Ec. injection Ec as Eh Eerr Earg. rewrite <- Earg, Eb0 in Ek. rewrite (Ek eq_refl), <- Eerr in E.
  eexists _, h, fe'. split; [exact E|]. split; [reflexivity|]. split; [rewrite <- Eh; vm_compute; reflexivity|exact Rq].
Defined.

(** The drift goes from two steps up to two steps down: the driver is asked for the status, given the
    new frequency and reset, and the notifier hears of the loss. *)
Lemma thread_turn_witness : exists fe' l',
  thread_watch (list entry) log_call log_notify 100 500 log_world 300 (mk_locals 0 300 0) false false false =
    Ret (upd (list entry) log_world 300 fe'
           [Asked FE_READ_STATUS (ArgStatus 0); Asked FE_SET_FRONTEND (ArgParameters (sample_parameters 750000));
            Asked FE_RESET ArgNone; Heard 0x20], l', AtTest) /\
  lnb_drift fe' = -250000 /\ fe_status fe' = 0x20 /\ queue (fe_events fe') = [mk_fe_event 0x20 (sample_parameters 1000000)].
Proof.
  destruct (thread_turn (list entry) log_call log_notify 100 500 log_world 300 lost_fe (mk_locals 0 300 0)
    false false false) as (fe' & h' & l' & E & _ & T); [apply log_world_ok|reflexivity|reflexivity|apply new_events_ok|].
  destruct T as (_ & Ed & Eb & h1 & err & arg & Ec & Ep & Es & Eq & Eh).
  assert (Eb0 : bending fe' = 0) by (rewrite Eb; vm_compute; reflexivity).
  assert (Ed0 : lnb_drift fe' = -250000) by (rewrite Ed; vm_compute; reflexivity).
  unfold sent in Ec, Ep. rewrite Eb0, Ed0 in Ec. unfold given_back in Ep. rewrite Eb0, Ed0 in Ep. injection Ec as Eh1 _ Earg. rewrite <- Earg in Ep.
  assert (Ep0 : fe_parameters fe' = sample_parameters 1000000) by (rewrite Ep; vm_compute; reflexivity).
  rewrite Ep0 in Eq. injection Eq as Eq _. rewrite <- Eh1 in Eh.
  exists fe', l'. split; [|split; [exact Ed0|split; [exact Es|exact Eq]]].
  rewrite Eh in E. exact E.
Defined.

(** A signal: the semaphore has the count two. *)
Lemma thread_semaphore_witness : exists fe' h' l',
  thread_wake unit sample_call sample_notify 100 0 500 sample_world 300 (mk_locals 0 300 0) true false false false false =
    Ret (upd unit sample_world 300 fe' h', l', Gone) /\ fe_sem fe' = 2.
Proof.
  destruct (thread_semaphore unit sample_call sample_notify 100 0 500 sample_world 300 (sample_fe (sample_parameters 1000000)) 200
    sample_device (mk_locals 0 300 0) true false false false false) as (fe' & h' & l' & E & H & _);
    [apply sample_world_ok|reflexivity..|apply new_events_ok|reflexivity|].
  exists fe', h', l'. split; [exact E|exact H].
Defined.

Definition sample_file : file := mk_dvb_file false (Some 200) 7.

(** The driver answers [EIO], the caller gets zero. *)
Lemma driver_error_lost_witness :
  snd (fst (dvb_frontend_internal_ioctl unit sample_call (fe_frontend (sample_fe (sample_parameters 1000000))) tt FE_RESET ArgNone)) = -5 /\
  dvb_frontend_ioctl unit sample_call sample_notify 0 (fun w => Ret (w, 0)) sample_world sample_file false FE_RESET ArgNone false false false =
    Ret (sample_world, ArgNone, 0).
Proof.
  split; [reflexivity|].
  pose proof (driver_error_lost unit sample_call sample_notify 0 (fun w => Ret (w, 0)) sample_world sample_file 200 sample_device 300
    (sample_fe (sample_parameters 1000000)) false FE_RESET ArgNone false false false) as H.
  apply H; (reflexivity || discriminate).
Defined.

Lemma interrupted_wait_frees_witness :
  dvb_frontend_ioctl unit sample_call sample_notify 0
    (fun w => Ret (upd unit w 300 ((sample_fe (sample_parameters 1000000)) <| fe_sem := 0 |>) tt, - ERESTARTSYS))
    sample_world sample_file false FE_GET_EVENT ArgNone false true false =
  Ret (upd unit sample_world 300 (sample_fe (sample_parameters 1000000)) tt, ArgNone, - ERESTARTSYS).
Proof.
  rewrite (interrupted_wait_frees unit sample_call sample_notify 0 _ sample_world sample_file 200 sample_device 300
    (sample_fe (sample_parameters 1000000)) ArgNone false false tt ((sample_fe (sample_parameters 1000000)) <| fe_sem := 0 |>) (- ERESTARTSYS));
    [reflexivity|reflexivity|reflexivity|reflexivity|reflexivity|discriminate|reflexivity|reflexivity|reflexivity|apply new_events_ok|
     reflexivity|reflexivity|reflexivity].
Defined.
